(* ===== verification/_CoqProject ===== *)
-Q . S2P
Prelude.v
Mem.v
Layout.v
Cstring.v
Mmu.v
Flags.v
Memmap.v
Entrypgdir.v
Emit.v
Printfmt.v
FormatSpec.v
Machine.v
X86.v
Cpu.v
Asm.v
Bootasm.v
Entry.v
Tlb.v
Trap.v
ConsOut.v
Printf.v
ConsIn.v
Keeps.v
Kdebug.v
Boot.v
Startup.v
Poweron.v
Console.v
Keyboard.v
Sendpage.v
Readline.v
Args.v
Monitor.v
Panic.v
Safety.v
Backtrace.v
Init.v
System.v
