(* ===== verification/Prelude.v ===== *)
(** Verification of the JOS lab 1 kernel and boot loader.

    * The program

    The BIOS starts boot/boot.S, which puts the processor in protected mode and
    calls the rest of the boot sector (boot/main.c); that reads the kernel's ELF
    image from the disk and enters it; kern/entry.S turns paging on with the page
    tables of kern/entrypgdir.c and calls [i386_init] (kern/init.c), which clears the BSS,
    initialises the console (kern/console.c), prints through kern/printf.c and
    lib/printfmt.c, tries the backtrace (kern/monitor.c, kern/kdebug.c) and serves
    the kernel monitor (kern/monitor.c, lib/readline.c) for ever.  lib/string.c and
    the headers of inc/ are used throughout.

    * The development, file by file

    - Prelude: machine integers with their wrap-around ([u32], [s32], ...),
      outcomes ([res]), the state monad [M], C loops ([while_], [whileM]),
      loops that are not meant to end ([watch]) and their rules, lemmas and
      tactics of general use.
    - Mem: byte memory, pointers, loads and stores, C strings in memory.
    - Layout: the structs of the headers and how they lie in memory.
    - Mmu: inc/types.h, inc/mmu.h, inc/memlayout.h.  Flags: the groups of flags,
      commands and type codes of the headers.  Memmap: the diagram of the address
      space in inc/memlayout.h.
    - Cstring: lib/string.c, one definition per function, two where the source
      has an assembly and a portable version.
    - Entrypgdir: kern/entrypgdir.c, and the translation the tables give.
    - Emit: the interface [Sink], what [putch] promises to the formatter, and the
      rules for code that emits characters.  Printfmt: lib/printfmt.c against this
      interface.  FormatSpec: what a format means, and that Printfmt emits it;
      [vsnprintf] and [snprintf].
    - Machine: ports and devices (inc/x86.h), and the kernel's state [kst].
      X86: block transfers with a port, xchg and cpuid.
    - Cpu: what the i386 adds to the machine (registers, segments, control
      registers, descriptor tables, cached translations), how an address is
      translated, and the privileged instructions of inc/x86.h.  Asm: the
      assembler's lines and a step of the processor ([step], [run]), with rules to
      chain steps.  Bootasm: boot/boot.S.  Entry: kern/entry.S.  Tlb: [invlpg] and
      [tlbflush] against the page tables.  Trap: gates, [lidt] and [int3]; the
      flags on the stack.
    - ConsOut: the output half of kern/console.c.  Printf: kern/printf.c, which
      makes the console a sink.  ConsIn: the input half of kern/console.c.
    - Kdebug: kern/kdebug.c, inc/stab.h.
    - Boot: boot/main.c.  Startup: the image it loads, seen through the entry
      page tables.  Poweron: from the BIOS through boot.S, boot/main.c and entry.S
      to [i386_init], on one machine.
    - Console: what the console promises to its clients, as the relation
      [session] and the class [Typist].  Keeps: what output leaves alone.
      Keyboard: a PC keyboard is a typist.
    - Readline: lib/readline.c.  Args, Monitor, Backtrace: kern/monitor.c.
      Panic, Init: kern/init.c, inc/assert.h.  Sendpage: user/sendpage.c.  Safety: input, the line editor and the monitor on
      devices of which nothing is assumed.  System: Poweron and Init together, the
      kernel's memory being [high] of the machine's.

    A C function has the definition of its name; the body of a loop is a
    definition [.._body] that returns [inl] with the loop's variables to go on and
    [inr] to leave it.  State is passed explicitly, as a memory, the machine [hw]
    or the kernel's state [kst], whose fields are the static variables of
    kern/console.c and kern/init.c; the privileged instructions and the assembly
    work on [pc], the machine with its processor.  Every port access is recorded in the log of
    the machine, so that the theorems can say what was sent to a device and in
    which order.

    * What is assumed

    Devices are parameters: [Ports] (Machine) gives their answers and nothing else;
    the classes [Disk] (Boot) and [Keyboard] (Keyboard) say what the IDE disk and
    the keyboard controller are documented to do, and both have an instance;
    Nothing is assumed of a disk or a controller that is written to before it was
    seen to be ready, so that the loops that wait for them matter.
    [Board] (Cpu) is the state of address line 20, [Gate] (Bootasm) how the keyboard
    controller sets it, and [Wired] (Poweron) puts disk and controller on one board.
    The system calls of user/sendpage.c are the class [Jos], with [JosLaws].  The
    addresses the linker chooses (arrays, symbols, the STABS tables) and the sizes of
    the assembled instructions are parameters, and the theorems say what they need
    of them.  Frames are those the compiler pushed: a theorem that walks the stack
    takes them from the memory.

    * What the theorems show

    - Strings, numbers, formats: each routine of lib/string.c computes its
      specification on lists; [printnum] and [strtol] are inverse; [vprintfmt] emits
      exactly the meaning [format] of its format, and [vsnprintf] keeps to its buffer.
    - Memory map: descriptors decode to what they were made of, rounding meets its bound,
      and the entry page tables map the first 4 MB at 0 and at KERNBASE and nothing
      else.
    - Console: [cputchar] implements an abstract screen and the port protocols,
      whatever the devices answer; [cons_getc] implements a queue; [kbd_proc_data]
      implements the meaning of the keyboard.
      That meaning is what is engraved on the keys of a US keyboard, written out
      apart from the tables of the driver.
    - Debugger: the binary search is right on ordered tables, and safe and
      terminating on any; [debuginfo_eip] never reads outside of its tables.
    - Boot loader: every segment is loaded where the image says, and what is
      not an ELF image is not entered; once the tables in the image are in use,
      every segment is at its linked address.
    - Start: boot.S ends in protected mode with flat segments whenever the keyboard
      controller becomes ready in finite time; from the BIOS's state the three
      programs lead to [i386_init] at its linked address, with every segment in place
      and a null frame pointer for the backtrace to end at.
    - The whole: from the BIOS on, the kernel never faults, whatever the devices
      answer once it runs, and with a keyboard the run of [i386_init] answers every
      line of any session and is at the monitor again.
    - Processor: after a change of a page table entry, [tlbflush] makes the
      translation that of the new tables whatever was cached, and so does [invlpg]
      on the two pages of the entry when nothing stale is cached for others; a
      breakpoint enters the handler of its gate.
    - Structs and block transfers: the structs of the headers have the sizes and
      offsets of the ELF format, the processor and the stabs format; their fields
      do not overlap and read back; the string instructions copy.
    - Safety: whatever the devices answer, [readline] and the kernel as a whole,
      from its entry point on, never fault: every access is to memory, inside its
      array or its table.
    - Composition: [session]s chain the console's input and output through
      [readline], [runcmd], the monitor, the backtrace, panics and [i386_init]; the
      theorem on [i386_init] goes from the kernel's entry point to the transcript of any
      session at the prompt.

    * Bounds and fuel

    [while_] runs a loop for up to 2^64 iterations and then answers [Err Fuel],
    which stands for a loop that does not return.  It is enough: a loop of this
    program that ends does so within 2^32 iterations of its counter or its
    address, or within a bound the theorem states for the device it waits for
    ([patience] of Keyboard for [getchar]).  Theorems that code returns are
    stated as results [Ok ..].
    The loops of [monitor], of [_panic] and of [i386_init] do not end, and what they
    do is seen by watching them: [watch n] runs [n] turns and then answers [None],
    still running, with the state reached.  So [monitor lines], [_panic lines],
    [mon_backtrace lines], [i386_init lines] and what lies between are watched for
    [lines] lines at the prompt, any number; [Some] is the result of what has
    ended, and that code never returns is that no number of lines gives [Some].
    [cons_putc_at] has depth 2, since the blanks of a tab are no tabs;
    the [printfmt] that [%e] calls has depth 1, since its two formats have no [%e];
    [test_backtrace_at] has depth x + 1, the argument falling by one per call;
    [printnum]'s recursion has 64 levels, one per bit at most.

    * What is not modelled, and why

    kern/kernel.ld (the linker script: its choices are parameters).  The stack
    frames gcc makes for C functions: [bootmain] and [i386_init] start on the stack
    the assembly gives them, and a theorem that walks frames takes them from the
    memory.  Interrupts from devices, and [cli] and [cld] in the C code (interrupts
    are never enabled in this lab); exceptions, which nothing handles, so that a
    fault is the end of a run.  Of the processor: privilege levels other than 0, 16-bit
    stack operations, global pages, and the accessed and dirty bits it sets in
    descriptors and page table entries.  inc/lib.h and the system calls of
    user/sendpage.c, which are not in the repository.  Build, grading and signing
    scripts. *)
From stdpp Require Export base tactics numbers list gmap strings.
From Stdlib Require Export ZArith Lia.
#[export] Set Default Goal Selector "!".
#[global] Open Scope Z_scope.

(** * Machine integers of the i386 target

    [int], [long] and pointers are 32 bits, [long long] is 64 bits and plain
    [char] is signed (gcc -m32).  A machine integer is a [Z]; the functions
    below are the conversions to each type, with the wrap-around of two's
    complement. *)

Definition u8 (z : Z) : Z := z mod 256.
Definition u16 (z : Z) : Z := z mod 65536.
Definition u32 (z : Z) : Z := z mod 4294967296.
Definition u64 (z : Z) : Z := z mod 18446744073709551616.
Definition s8 (z : Z) : Z := (z + 128) mod 256 - 128.
Definition s32 (z : Z) : Z := (z + 2147483648) mod 4294967296 - 2147483648.
Definition s64 (z : Z) : Z :=
  (z + 9223372036854775808) mod 18446744073709551616 - 9223372036854775808.

(** A stored byte. *)
Definition is_byte (b : Z) : Prop := 0 <= b < 256.

(** The characters of a Rocq string as unsigned byte values. *)
Fixpoint bytes_of (s : string) : list Z :=
  match s with
  | EmptyString => []
  | String a s' => Z.of_N (Ascii.N_of_ascii a) :: bytes_of s'
  end.

(** * Outcomes

    [Fault] is an access the C abstract machine gives no meaning to (an
    unmapped or read-only address, an index outside its array, a missing
    variadic argument); [Fuel] says that a loop ran for more iterations than
    its bound, which stands for a loop that does not return. *)
Inductive err := Fault | Fuel.

Inductive res (A : Type) :=
| Ok (a : A)
| Err (e : err).
Arguments Ok {_} _.
Arguments Err {_} _.

#[export] Instance err_eq_dec : EqDecision err.
Proof. solve_decision. Defined.
#[export] Instance res_eq_dec {A} `{EqDecision A} : EqDecision (res A).
Proof. solve_decision. Defined.

#[export] Instance res_ret : MRet res := @Ok.
#[export] Instance res_bind : MBind res := fun A B f r =>
  match r with
  | Ok a => f a
  | Err e => Err e
  end.
#[export] Instance res_fmap : FMap res := fun A B f r =>
  match r with
  | Ok a => Ok (f a)
  | Err e => Err e
  end.

Definition of_option {A} (o : option A) : res A :=
  match o with
  | Some a => Ok a
  | None => Err Fault
  end.

(** An element of an array; an index outside it is a fault. *)
Definition at_idx {A} (l : list A) (i : Z) : res A :=
  if i <? 0 then Err Fault else of_option (l !! Z.to_nat i).

(** * State-passing computations *)
Definition M (S A : Type) : Type := S -> res (A * S).

#[export] Instance M_ret {S} : MRet (M S) := fun A a s => Ok (a, s).
#[export] Instance M_bind {S} : MBind (M S) := fun A B f m s =>
  match m s with
  | Ok (a, s') => f a s'
  | Err e => Err e
  end.

(** Run a pure, possibly failing, computation on (a part of) the state. *)
Definition reads {S A} (f : S -> res A) : M S A :=
  fun s => a ← f s; Ok (a, s).

Definition gets {S A} (f : S -> A) : M S A := fun s => Ok (f s, s).
Definition modify {S} (f : S -> S) : M S unit := fun s => Ok (tt, f s).

(** * Loops

    [iter_pow k body s] runs [body] at most 2^k times, stopping as soon as it
    says [inr]; [inl] asks for another iteration.  [while_] gives a C loop
    2^64 iterations: no loop over the 32-bit address space or over a machine
    integer runs longer, so for those loops the bound is never met. *)
Fixpoint iter_pow {S A} (k : nat) (body : S -> res (S + A)) (s : S) : res (S + A) :=
  match k with
  | O => body s
  | Datatypes.S k' =>
      r ← iter_pow k' body s;
      match r with
      | inl s' => iter_pow k' body s'
      | inr a => Ok (inr a)
      end
  end.

Definition while_ {S A} (body : S -> res (S + A)) (s : S) : res A :=
  r ← iter_pow 64 body s;
  match r with
  | inl _ => Err Fuel
  | inr a => Ok a
  end.

(** A loop whose body also threads a state. *)
Definition whileM {T S A} (body : S -> M T (S + A)) (s : S) : M T A :=
  fun t => while_ (fun st =>
    r ← body (st.1) (st.2);
    match r with
    | (inl s', t') => Ok (inl (s', t'))
    | (inr a, t') => Ok (inr (a, t'))
    end) (s, t).

(** ** Endless loops

    The kernel ends in a loop that is not meant to end: the monitor serves lines
    for ever.  Such a loop has no result, so it is watched for [n] turns.  The
    answer [None] says that it is still running, in the state that comes with
    it; [Some] is the result of code that has ended, the loop included. *)
Fixpoint watch {S X A} (n : nat) (body : X -> M S (option (X + A))) (x : X) : M S (option A) :=
  match n with
  | O => mret None
  | Datatypes.S n' =>
      o ← body x;
      match o with
      | None => mret None
      | Some (inl x') => watch n' body x'
      | Some (inr a) => mret (Some a)
      end
  end.

(** Code that ends, and what follows code that may be running still. *)
Definition ended {S A} (m : M S A) : M S (option A) := a ← m; mret (Some a).
Definition after {S A B} (m : M S (option A)) (f : A -> M S (option B)) : M S (option B) :=
  o ← m;
  match o with
  | None => mret None
  | Some a => f a
  end.
Notation "x ←? m ; f" := (after m (fun x => f)) (at level 20, m at level 100, f at level 200, only parsing).
Notation "m ;;? f" := (after m (fun _ => f)) (at level 100, f at level 200, only parsing, right associativity).

(** [runs body n s r]: the loop stops after [n] evaluations of its body with
    outcome [r].  The step relation the loop lemmas reason about. *)
Inductive runs {S A} (body : S -> res (S + A)) : nat -> S -> res A -> Prop :=
| runs_done s a : body s = Ok (inr a) -> runs body 1 s (Ok a)
| runs_fail s e : body s = Err e -> runs body 1 s (Err e)
| runs_step n s s' r :
    body s = Ok (inl s') -> runs body n s' r -> runs body (Datatypes.S n) s r.

(** Run an action on every element, in order. *)
Fixpoint each {S A} (f : A -> M S unit) (l : list A) : M S unit :=
  match l with
  | [] => mret tt
  | a :: l' => f a ;; each f l'
  end.

(** * Tactics *)

(** Linear arithmetic with division, modulo and the conversions. *)
Ltac zlia :=
  unfold u8, u16, u32, u64, s8, s32, s64, is_byte in *;
  Z.to_euclidean_division_equations; lia.

(** Case analysis on the scrutinee of the first match or bind of the goal. *)
Ltac step_case :=
  match goal with
  | |- context [if decide ?P then _ else _] => destruct (decide P)
  | |- context [if ?b then _ else _] => destruct b eqn:?
  end.

(** A closed decidable proposition, by evaluation. *)
Ltac decided := refine (bool_decide_unpack _ _); vm_compute; exact Logic.I.

(** * Integer lemmas *)

Lemma u8_range z : 0 <= u8 z < 256.
Proof. zlia. Qed.
Lemma u8_small z : 0 <= z < 256 -> u8 z = z.
Proof. zlia. Qed.
Lemma u16_range z : 0 <= u16 z < 65536.
Proof. zlia. Qed.
Lemma u16_small z : 0 <= z < 65536 -> u16 z = z.
Proof. zlia. Qed.
Lemma u32_range z : 0 <= u32 z < 4294967296.
Proof. zlia. Qed.
Lemma u32_small z : 0 <= z < 4294967296 -> u32 z = z.
Proof. zlia. Qed.
Lemma u64_range z : 0 <= u64 z < 18446744073709551616.
Proof. zlia. Qed.
Lemma u64_small z : 0 <= z < 18446744073709551616 -> u64 z = z.
Proof. zlia. Qed.
Lemma s32_range z : -2147483648 <= s32 z < 2147483648.
Proof. zlia. Qed.
Lemma s32_small z : -2147483648 <= z < 2147483648 -> s32 z = z.
Proof. zlia. Qed.
Lemma s64_small z :
  -9223372036854775808 <= z < 9223372036854775808 -> s64 z = z.
Proof. zlia. Qed.
Lemma s8_small z : -128 <= z < 128 -> s8 z = z.
Proof. zlia. Qed.
Lemma u8_s8 z : u8 (s8 z) = u8 z.
Proof. zlia. Qed.
Lemma s8_inj b c : is_byte b -> is_byte c -> s8 b = s8 c -> b = c.
Proof. zlia. Qed.
Lemma s8_zero b : is_byte b -> s8 b = 0 <-> b = 0.
Proof. zlia. Qed.

Create HintDb jos.
Create Rewrite HintDb jos_small.
#[export] Hint Rewrite u8_small u16_small u32_small u64_small s32_small s64_small s8_small
  using (unfold is_byte in *; lia) : jos_small.
#[export] Hint Resolve u8_range u16_range u32_range u64_range s32_range : jos.

(** A decidable property of bytes, checked on the 256 of them. *)
Lemma byte_forall (P : Z -> Prop) `{!forall b, Decision (P b)} :
  bool_decide (Forall P (seqZ 0 256)) = true -> forall b, is_byte b -> P b.
Proof.
  intros Hf%bool_decide_eq_true b Hb. rewrite Forall_forall in Hf.
  apply Hf, elem_of_seqZ. unfold is_byte in Hb. lia.
Qed.

(** * Outcome lemmas *)

Lemma bind_ret {A B} (f : A -> res B) a : (Ok a ≫= f) = f a.
Proof. done. Qed.
Lemma bind_fail {A B} (f : A -> res B) e : (Err e ≫= f) = Err e.
Proof. done. Qed.
Lemma fmap_ret {A B} (f : A -> B) a : (f <$> Ok a) = Ok (f a).
Proof. done. Qed.
Lemma of_option_Some {A} (a : A) : of_option (Some a) = Ok a.
Proof. done. Qed.

(** Run the binds whose first outcome is known.  By rewriting: conversion
    must never be asked to compare two loops. *)
Ltac red_bind :=
  repeat (first [rewrite bind_ret | rewrite bind_fail | rewrite fmap_ret
                | rewrite of_option_Some]; cbv beta);
  cbn [fst snd].


Lemma bind_Ok {A B} (f : A -> res B) r b :
  (r ≫= f) = Ok b <-> exists a, r = Ok a /\ f a = Ok b.
Proof. destruct r as [a|e]; [rewrite bind_ret|rewrite bind_fail]; naive_solver. Qed.

Lemma Mbind_Ok {S A B} (f : A -> M S B) (m : M S A) s b s' :
  (m ≫= f) s = Ok (b, s') <-> exists a s1, m s = Ok (a, s1) /\ f a s1 = Ok (b, s').
Proof.
  unfold mbind, M_bind. destruct (m s) as [[a1 s1]|e]; naive_solver.
Qed.

(** The equation a proof rewrites with once the first action is known. *)
Lemma Mbind_run {S A B} (f : A -> M S B) (m : M S A) s a s1 :
  m s = Ok (a, s1) -> (m ≫= f) s = f a s1.
Proof. unfold mbind, M_bind. by intros ->. Qed.

(** Taken apart as it is: [injection] would normalise the states. *)
Lemma Ok_pair_inj {S A} (a b : A) (s t : S) : Ok (a, s) = Ok (b, t) -> a = b /\ s = t.
Proof. intros H. by injection H. Qed.

Lemma gets_bind {S A B} (f : S -> A) (g : A -> M S B) s : (gets f ≫= g) s = g (f s) s.
Proof. done. Qed.
Lemma modify_bind {S B} (f : S -> S) (g : unit -> M S B) s : (modify f ≫= g) s = g tt (f s).
Proof. done. Qed.
Lemma ret_bind {S A B} (a : A) (g : A -> M S B) s : ((mret a : M S A) ≫= g) s = g a s.
Proof. done. Qed.

Lemma Mbind_ext {S A B} (f g : A -> M S B) (m : M S A) s :
  (forall a s', m s = Ok (a, s') -> f a s' = g a s') ->
  (m ≫= f) s = (m ≫= g) s.
Proof.
  unfold mbind, M_bind. destruct (m s) as [[a s1]|e]; naive_solver.
Qed.

Lemma Mbind_assoc {S A B C} (m : M S A) (f : A -> M S B) (g : B -> M S C) s :
  ((m ≫= f) ≫= g) s = (m ≫= (fun a => f a ≫= g)) s.
Proof. unfold mbind, M_bind. by destruct (m s) as [[]|]. Qed.

Lemma each_app {S A} (f : A -> M S unit) l1 l2 s :
  each f (l1 ++ l2) s = (each f l1 ;; each f l2) s.
Proof.
  revert s. induction l1 as [|a l1 IH]; intros s; [done|].
  simpl. rewrite Mbind_assoc. apply Mbind_ext. intros [] s' _. apply IH.
Qed.

(** * Loop lemmas *)

Section loops.
Context {S A : Type} (body : S -> res (S + A)).

Lemma iter_pow_runs k : forall n s r,
  runs body n s r ->
  (Z.of_nat n <= 2 ^ Z.of_nat k -> iter_pow k body s = inr <$> r) /\
  (2 ^ Z.of_nat k < Z.of_nat n ->
   exists s' n', iter_pow k body s = Ok (inl s') /\ runs body n' s' r /\
     Z.of_nat n = Z.of_nat n' + 2 ^ Z.of_nat k).
Proof.
  induction k as [|k IH]; intros n s r Hr.
  - cbn [iter_pow]. change (2 ^ Z.of_nat 0) with 1.
    destruct Hr as [s a Hb|s e Hb|n s s' r Hb Hr]; rewrite Hb; (split; [|try lia]).
    + done.
    + done.
    + destruct Hr; lia.
    + intros _. exists s', n. split_and!; [done|done|lia].
  - cbn [iter_pow]. rewrite Nat2Z.inj_succ, Z.pow_succ_r by lia.
    destruct (IH n s r Hr) as [Hle Hgt].
    destruct (Z.le_gt_cases (Z.of_nat n) (2 ^ Z.of_nat k)) as [Hn|Hn].
    + rewrite (Hle Hn). split; [by destruct r|].
      intros. pose proof (Z.pow_pos_nonneg 2 (Z.of_nat k)). lia.
    + destruct (Hgt Hn) as (s' & n' & -> & Hr' & Hn'). red_bind.
      destruct (IH n' s' r Hr') as [Hle' Hgt']. split.
      * intros. apply Hle'. lia.
      * intros. destruct Hgt' as (s2 & n2 & ? & ? & ?); [lia|].
        exists s2, n2. split_and!; [done|done|lia].
Qed.

Lemma while_runs n s r :
  runs body n s r -> Z.of_nat n <= 2 ^ 64 -> while_ body s = r.
Proof.
  intros Hr Hn. unfold while_.
  destruct (iter_pow_runs 64 n s r Hr) as [Hle _].
  rewrite Hle by exact Hn. by destruct r.
Qed.

(** Partial correctness: an invariant of the body, and what it gives when
    the loop stops. *)
Lemma iter_pow_inv (I : S -> Prop) (Q : A -> Prop) k : forall s,
  (forall s, I s -> match body s with
                    | Ok (inl s') => I s' | Ok (inr a) => Q a | Err _ => True end) ->
  I s -> match iter_pow k body s with
         | Ok (inl s') => I s' | Ok (inr a) => Q a | Err _ => True end.
Proof.
  induction k as [|k IH]; intros s Hb Hs; cbn [iter_pow]; [by apply Hb|].
  specialize (IH s Hb Hs) as H1. destruct (iter_pow k body s) as [[s'|a]|e]; red_bind; try done.
  by apply IH.
Qed.

Lemma while_inv (I : S -> Prop) (Q : A -> Prop) s a :
  (forall s, I s -> match body s with
                    | Ok (inl s') => I s' | Ok (inr a) => Q a | Err _ => True end) ->
  I s -> while_ body s = Ok a -> Q a.
Proof.
  intros Hb Hs. unfold while_. pose proof (iter_pow_inv I Q 64 s Hb Hs) as H.
  destruct (iter_pow 64 body s) as [[s'|a']|e]; red_bind; naive_solver.
Qed.

(** The same with faults excluded. *)
Lemma iter_pow_safe (I : S -> Prop) (Q : A -> Prop) k : forall s,
  (forall s, I s -> match body s with
                    | Ok (inl s') => I s' | Ok (inr a) => Q a | Err e => e = Fuel end) ->
  I s -> match iter_pow k body s with
         | Ok (inl s') => I s' | Ok (inr a) => Q a | Err e => e = Fuel end.
Proof.
  induction k as [|k IH]; intros s Hb Hs; cbn [iter_pow]; [by apply Hb|].
  specialize (IH s Hb Hs) as H1. destruct (iter_pow k body s) as [[s'|a]|e]; red_bind; try done.
  by apply IH.
Qed.

Lemma while_safe (I : S -> Prop) (Q : A -> Prop) s :
  (forall s, I s -> match body s with
                    | Ok (inl s') => I s' | Ok (inr a) => Q a | Err e => e = Fuel end) ->
  I s -> match while_ body s with Ok a => Q a | Err e => e = Fuel end.
Proof.
  intros Hb Hs. unfold while_. pose proof (iter_pow_safe I Q 64 s Hb Hs) as H.
  destruct (iter_pow 64 body s) as [[s'|a']|e]; red_bind; done.
Qed.

Lemma iter_pow_ext (body2 : S -> res (S + A)) k : forall s,
  (forall s, body s = body2 s) -> iter_pow k body s = iter_pow k body2 s.
Proof.
  induction k as [|k IH]; intros s Hb; cbn [iter_pow]; [apply Hb|].
  rewrite IH by done. destruct (iter_pow k body2 s) as [[s'|a]|e]; red_bind; [by apply IH|done..].
Qed.

Lemma while_ext (body2 : S -> res (S + A)) s :
  (forall s, body s = body2 s) -> while_ body s = while_ body2 s.
Proof. intros Hb. unfold while_. by rewrite (iter_pow_ext body2). Qed.

(** A body that succeeds more often gives a loop that does. *)
Lemma iter_pow_mono (body2 : S -> res (S + A)) k : forall s r,
  (forall s r, body s = Ok r -> body2 s = Ok r) -> iter_pow k body s = Ok r -> iter_pow k body2 s = Ok r.
Proof.
  induction k as [|k IH]; intros s r Hb; cbn [iter_pow]; [apply Hb|].
  destruct (iter_pow k body s) as [r1|e] eqn:E; red_bind; [|done].
  rewrite (IH s r1 Hb E). red_bind. destruct r1 as [s'|a]; [by apply IH|done].
Qed.

Lemma while_mono (body2 : S -> res (S + A)) s a :
  (forall s r, body s = Ok r -> body2 s = Ok r) -> while_ body s = Ok a -> while_ body2 s = Ok a.
Proof.
  intros Hb. unfold while_. destruct (iter_pow 64 body s) as [r|e] eqn:E; red_bind; [|done].
  by rewrite (iter_pow_mono body2 64 s r Hb E).
Qed.

(** Total correctness: the variant [f] bounds the iterations left. *)
Lemma runs_total (I : S -> Prop) (Q : A -> Prop) (f : S -> nat) s :
  (forall s, I s -> exists r, body s = Ok r /\
     match r with inl s' => I s' /\ (f s' < f s)%nat | inr a => Q a end) ->
  I s -> exists n a, runs body n s (Ok a) /\ Q a /\ (n <= Datatypes.S (f s))%nat.
Proof.
  intros Hb. remember (f s) as k eqn:Hk. revert s Hk.
  induction k as [k IH] using lt_wf_ind; intros s -> Hs.
  destruct (Hb s Hs) as ([s'|a] & He & Hr).
  - destruct Hr as [Hi Hlt].
    destruct (IH (f s') Hlt s' eq_refl Hi) as (n & a & Hr & HQ & Hn).
    exists (Datatypes.S n), a. split_and!; [by eapply runs_step|done|lia].
  - exists 1%nat, a. split_and!; [by apply runs_done|done|lia].
Qed.

Lemma while_total (I : S -> Prop) (Q : A -> Prop) (f : S -> nat) s :
  (forall s, I s -> exists r, body s = Ok r /\
     match r with inl s' => I s' /\ (f s' < f s)%nat | inr a => Q a end) ->
  I s -> Z.of_nat (f s) < 2 ^ 64 -> exists a, while_ body s = Ok a /\ Q a.
Proof.
  intros Hb Hs Hf. destruct (runs_total I Q f s Hb Hs) as (n & a & Hr & HQ & Hn).
  exists a. split; [|done]. apply (while_runs n); [done|lia].
Qed.
End loops.

Lemma ended_run {S A} (m : M S A) s a s1 : m s = Ok (a, s1) -> ended m s = Ok (Some a, s1).
Proof. intros E. unfold ended. by erewrite Mbind_run by exact E. Qed.

Lemma after_run {S A B} (f : A -> M S (option B)) (m : M S (option A)) s a s1 :
  m s = Ok (Some a, s1) -> after m f s = f a s1.
Proof. intros E. unfold after. by erewrite Mbind_run by exact E. Qed.

Lemma after_running {S A B} (f : A -> M S (option B)) (m : M S (option A)) s s1 :
  m s = Ok (None, s1) -> after m f s = Ok (None, s1).
Proof. intros E. unfold after. by erewrite Mbind_run by exact E. Qed.

Lemma after_Some {S A B} (f : A -> M S (option B)) (m : M S (option A)) s b s' :
  after m f s = Ok (Some b, s') -> exists a s1, m s = Ok (Some a, s1) /\ f a s1 = Ok (Some b, s').
Proof. intros ([a|] & s1 & E & E')%Mbind_Ok; [by exists a, s1|done]. Qed.

Lemma watch_S {S X A} n (body : X -> M S (option (X + A))) x :
  watch (Datatypes.S n) body x = (r ←? body x; match r with inl x' => watch n body x' | inr a => mret (Some a) end).
Proof. done. Qed.

(** A loop whose body is never done with it is never left. *)
Lemma watch_endless {S X A} (body : X -> M S (option (X + A))) n : forall x s a s',
  (forall x s b s', body x s <> Ok (Some (inr b), s')) -> watch n body x s <> Ok (Some a, s').
Proof.
  induction n as [|n IH]; intros x s a s' Hb; [done|]. rewrite watch_S.
  intros ([x'|b] & s1 & E & E')%after_Some; [by apply IH in E'|by apply Hb in E].
Qed.

(** Proofs use the rules above, never the iteration itself. *)
#[global] Opaque while_.

(** * Safe actions

    [safe m s Q]: run from [s], [m] does not fault; if it returns, [Q] holds of
    its result and of the state it leaves. *)
Definition safe {S A} (m : M S A) (s : S) (Q : A -> S -> Prop) : Prop :=
  match m s with Ok (a, s') => Q a s' | Err e => e = Fuel end.

Lemma safe_run {S A} (m : M S A) s a s' (Q : A -> S -> Prop) : m s = Ok (a, s') -> Q a s' -> safe m s Q.
Proof. unfold safe. by intros ->. Qed.

Lemma safe_bind {S A B} (m : M S A) (f : A -> M S B) s (P : A -> S -> Prop) (Q : B -> S -> Prop) :
  safe m s P -> (forall a s', P a s' -> safe (f a) s' Q) -> safe (m ≫= f) s Q.
Proof. unfold safe, mbind, M_bind. destruct (m s) as [[a s']|e]; naive_solver. Qed.

Lemma safe_weaken {S A} (m : M S A) s (P Q : A -> S -> Prop) :
  safe m s P -> (forall a s', P a s' -> Q a s') -> safe m s Q.
Proof. unfold safe. destruct (m s) as [[a s']|e]; naive_solver. Qed.

Lemma safe_while {S X A} (body : X -> M S (X + A)) (I : X -> S -> Prop) (Q : A -> S -> Prop) x s :
  (forall x s, I x s -> safe (body x) s (fun r s' => match r with inl x' => I x' s' | inr a => Q a s' end)) ->
  I x s -> safe (whileM body x) s Q.
Proof.
  intros Hb Hx. unfold safe, whileM.
  pose proof (while_safe (fun st => r ← body st.1 st.2;
    match r with (inl x', t') => Ok (inl (x', t')) | (inr a, t') => Ok (inr (a, t')) end)
    (fun st => I st.1 st.2) (fun r => Q r.1 r.2) (x, s)) as H.
  destruct (while_ _ (x, s)) as [[a s']|e]; apply H; try done.
  all: intros [y t] Hy; cbn [fst snd] in *; specialize (Hb y t Hy); unfold safe in Hb;
    destruct (body y t) as [[[y'|a'] t']|e']; red_bind; done.
Qed.

(** An endless loop with an invariant: it neither faults nor ends. *)
Lemma safe_watch {S X A} (body : X -> M S (X + A)) (I : X -> S -> Prop) n : forall x s,
  (forall x s, I x s -> safe (body x) s (fun r s' => match r with inl x' => I x' s' | inr _ => False end)) ->
  I x s -> safe (watch n (fun x => ended (body x)) x) s (fun r s' => r = None /\ exists x', I x' s').
Proof.
  induction n as [|n IH]; intros x s Hb Hx; [split; [done|by exists x]|]. rewrite watch_S.
  unfold after, ended. apply (safe_bind _ _ _ (fun o s' => match o with Some (inl x') => I x' s' | _ => False end)).
  - eapply safe_bind; [by apply Hb|]. intros [x'|a] s' H; [by apply (safe_run _ _ (Some (inl x')) s')|done].
  - intros [[x'|a]|] s' H; [by apply IH|done..].
Qed.

(** * What actions keep

    [keeps P m]: if [P] holds of the state and [m] returns, [P] still holds. *)
Section keeps.
Context {S : Type} (P : S -> Prop).

Definition keeps {A} (m : M S A) : Prop := forall s a s', P s -> m s = Ok (a, s') -> P s'.

Lemma keeps_ret {A} (a : A) : keeps (mret a).
Proof using Type. by intros s b s' Hs [= _ <-]. Qed.

Lemma keeps_gets {A} (f : S -> A) : keeps (gets f).
Proof using Type. by intros s b s' Hs [= _ <-]. Qed.

Lemma keeps_reads {A} (f : S -> res A) : keeps (reads f).
Proof using Type. intros s b s' Hs E. unfold reads in E. destruct (f s); [by injection E as _ <-|done]. Qed.

Lemma keeps_bind {A B} (m : M S A) (f : A -> M S B) : keeps m -> (forall a, keeps (f a)) -> keeps (m ≫= f).
Proof using Type. intros Hm Hf s b s' Hs (a & s1 & E1 & E2)%Mbind_Ok. eapply Hf; [|exact E2]. by eapply Hm. Qed.

Lemma keeps_while {X A} (body : X -> M S (X + A)) x : (forall x, keeps (body x)) -> keeps (whileM body x).
Proof using Type.
  intros Hb s a s' Hs E. unfold whileM in E.
  refine (while_inv _ (fun st => P st.2) (fun r => P r.2) (x, s) (a, s') _ Hs E).
  intros [y t] Ht. cbn [fst snd]. specialize (Hb y t). destruct (body y t) as [[[z|b] t']|]; red_bind; try done.
  - by eapply (Hb (inl z)).
  - by eapply (Hb (inr b)).
Qed.

Lemma keeps_err {A} e : keeps (fun _ => Err e : res (A * S)).
Proof using Type. by intros s a s' Hs [=]. Qed.
End keeps.

Create HintDb keeps.
#[export] Hint Resolve keeps_ret keeps_gets keeps_reads keeps_bind keeps_while keeps_err : keeps.

(** * List lemmas *)

Lemma at_idx_ok {A} (l : list A) i x : 0 <= i -> l !! Z.to_nat i = Some x -> at_idx l i = Ok x.
Proof. intros Hi Hx. unfold at_idx. rewrite (proj2 (Z.ltb_ge i 0)) by done. by rewrite Hx. Qed.

Lemma at_idx_in {A} (l : list A) i :
  0 <= i < Z.of_nat (length l) -> exists x, at_idx l i = Ok x /\ l !! Z.to_nat i = Some x.
Proof.
  intros Hi. destruct (lookup_lt_is_Some_2 l (Z.to_nat i)) as [x Hx]; [lia|].
  exists x. split; [by apply at_idx_ok; [lia|]|done].
Qed.

Lemma drop_lookup_cons {A} (l : list A) i x :
  l !! i = Some x -> drop i l = x :: drop (Datatypes.S i) l.
Proof. apply drop_S. Qed.

Lemma split_at {A} (l : list A) n :
  (n <= length l)%nat -> exists l1 l2, l = l1 ++ l2 /\ length l1 = n.
Proof.
  intros. exists (take n l), (drop n l). rewrite take_drop, length_take. split; [done|lia].
Qed.
