(* ===== verification/Mem.v ===== *)
(** Byte memory and pointers of the C abstract machine.

    A memory maps each mapped 32-bit address to a byte (0..255); an access to
    any other address is a [Fault].  A pointer is an address, or points into
    an immutable string literal of the program, which the linker places where
    no object of the program lies.  Pointer arithmetic does not wrap: a
    pointer past 2^32 is undefined in C and is an unmapped address here.
    [cstr m p l] says that the NUL-terminated string at [p] has the characters
    [l]; [bytes m p l] that the bytes [l] are at [p]; [write_bytes] is the
    memory after a block of bytes is stored. *)
From S2P Require Import Prelude.

Abbreviation mem := (gmap Z Z).

Inductive ptr :=
| Addr (a : Z)
| Lit (s : list Z) (o : Z).

#[export] Instance ptr_eq_dec : EqDecision ptr.
Proof. solve_decision. Defined.

(** The null pointer, and a pointer to a string literal. *)
Definition Null : ptr := Addr 0.
Definition lit (s : string) : ptr := Lit (bytes_of s) 0.

(** The same with a newline at the end. *)
Definition lit_nl (s : string) : ptr := Lit (bytes_of s ++ [10]) 0.

Definition is_null (p : ptr) : bool :=
  match p with Addr a => a =? 0 | Lit _ _ => false end.

Definition padd (p : ptr) (n : Z) : ptr :=
  match p with
  | Addr a => Addr (a + n)
  | Lit s o => Lit s (o + n)
  end.

(** Difference of two pointers into the same object. *)
Definition psub (p q : ptr) : res Z :=
  match p, q with
  | Addr a, Addr b => Ok (a - b)
  | Lit s o, Lit s' o' => if decide (s = s') then Ok (o - o') else Err Fault
  | _, _ => Err Fault
  end.

(** One byte, as an [unsigned char]. *)
Definition load8 (m : mem) (p : ptr) : res Z :=
  match p with
  | Addr a => of_option (m !! a)
  | Lit s o => if o <? 0 then Err Fault else of_option ((s ++ [0]) !! Z.to_nat o)
  end.

Definition store8 (m : mem) (p : ptr) (v : Z) : res mem :=
  match p with
  | Addr a => match m !! a with Some _ => Ok (<[a := u8 v]> m) | None => Err Fault end
  | Lit _ _ => Err Fault
  end.

(** A plain (signed) [char]. *)
Definition loadc (m : mem) (p : ptr) : res Z := s8 <$> load8 m p.

(** Blocks of [n] consecutive bytes, in address order. *)
Fixpoint loadn (m : mem) (p : ptr) (n : nat) : res (list Z) :=
  match n with
  | O => Ok []
  | S n' => b ← load8 m p; l ← loadn m (padd p 1) n'; Ok (b :: l)
  end.

Fixpoint storen (m : mem) (p : ptr) (l : list Z) : res mem :=
  match l with
  | [] => Ok m
  | b :: l' => m' ← store8 m p b; storen m' (padd p 1) l'
  end.

(** Little-endian integers. *)
Fixpoint le_combine (l : list Z) : Z :=
  match l with
  | [] => 0
  | b :: l' => b + 256 * le_combine l'
  end.

Fixpoint le_split (n : nat) (v : Z) : list Z :=
  match n with
  | O => []
  | S n' => u8 v :: le_split n' (v / 256)
  end.

Definition load16 (m : mem) (p : ptr) : res Z := le_combine <$> loadn m p 2.
Definition load32 (m : mem) (p : ptr) : res Z := le_combine <$> loadn m p 4.
Definition store16 (m : mem) (p : ptr) (v : Z) : res mem := storen m p (le_split 2 v).
Definition store32 (m : mem) (p : ptr) (v : Z) : res mem := storen m p (le_split 4 v).

(** * Descriptions of memory *)

Fixpoint bytes (m : mem) (p : ptr) (l : list Z) : Prop :=
  match l with
  | [] => True
  | b :: l' => load8 m p = Ok b /\ bytes m (padd p 1) l'
  end.

Fixpoint cstr (m : mem) (p : ptr) (l : list Z) : Prop :=
  match l with
  | [] => load8 m p = Ok 0
  | c :: l' => load8 m p = Ok c /\ 0 < c < 256 /\ cstr m (padd p 1) l'
  end.

(** The addresses a, ..., a+n-1 are mapped. *)
Definition mapped (m : mem) (a n : Z) : Prop :=
  forall x, a <= x < a + n -> is_Some (m !! x).

Fixpoint write_bytes (m : mem) (a : Z) (l : list Z) : mem :=
  match l with
  | [] => m
  | b :: l' => <[a := b]> (write_bytes m (a + 1) l')
  end.

(** Two memories agree on the addresses outside [a, a+n). *)
Definition same_outside (a n : Z) (m m' : mem) : Prop :=
  forall x, ~ (a <= x < a + n) -> m' !! x = m !! x.

(** * Lemmas *)

Lemma padd_0 p : padd p 0 = p.
Proof. destruct p; simpl; f_equal; lia. Qed.
Lemma padd_padd p a b : padd (padd p a) b = padd p (a + b).
Proof. destruct p; simpl; f_equal; lia. Qed.

#[export] Hint Rewrite padd_0 padd_padd : jos_small.

Lemma load8_addr m a b : load8 m (Addr a) = Ok b <-> m !! a = Some b.
Proof. unfold load8. destruct (m !! a); simpl; naive_solver. Qed.

Lemma loadn_bytes m p l : bytes m p l -> loadn m p (length l) = Ok l.
Proof.
  revert p. induction l as [|b l IH]; intros p; [done|].
  intros [Hb Hl]. simpl. rewrite Hb. red_bind. by rewrite IH.
Qed.

Lemma bytes_app m p l1 l2 :
  bytes m p (l1 ++ l2) <-> bytes m p l1 /\ bytes m (padd p (Z.of_nat (length l1))) l2.
Proof.
  revert p. induction l1 as [|b l1 IH]; intros p; simpl.
  - rewrite padd_0. naive_solver.
  - rewrite IH, padd_padd.
    replace (1 + Z.of_nat (length l1)) with (Z.of_nat (S (length l1))) by lia. naive_solver.
Qed.

Lemma bytes_lookup m a l :
  bytes m (Addr a) l <->
  forall i b, l !! i = Some b -> m !! (a + Z.of_nat i) = Some b.
Proof.
  revert a. induction l as [|b l IH]; intros a; [done|].
  cbn [bytes padd]. rewrite IH, load8_addr. split.
  - intros [H1 H2] [|i] c Hc; simpl in Hc; [rewrite Z.add_0_r; congruence|].
    apply H2 in Hc. by replace (a + Z.of_nat (S i)) with (a + 1 + Z.of_nat i) by lia.
  - intros H. split; [rewrite <- (H 0%nat b); [f_equal; lia|done]|].
    intros i c Hc. replace (a + 1 + Z.of_nat i) with (a + Z.of_nat (S i)) by lia. by apply H.
Qed.

Lemma bytes_mapped m a l : bytes m (Addr a) l -> mapped m a (Z.of_nat (length l)).
Proof.
  intros H x Hx. destruct (lookup_lt_is_Some_2 l (Z.to_nat (x - a))) as [b Hb]; [lia|].
  exists b. rewrite bytes_lookup in H. apply H in Hb.
  by replace (a + Z.of_nat (Z.to_nat (x - a))) with x in Hb by lia.
Qed.

Lemma mapped_bytes m a n :
  mapped m a (Z.of_nat n) -> exists l, length l = n /\ bytes m (Addr a) l.
Proof.
  revert a. induction n as [|n IH]; intros a H; [by exists []|].
  destruct (H a) as [b Hb]; [lia|].
  destruct (IH (a + 1)) as (l & Hl & Hbs); [intros x Hx; apply H; lia|].
  exists (b :: l). cbn [bytes padd length]. rewrite load8_addr. naive_solver.
Qed.

Lemma mapped_weaken m a n a' n' :
  mapped m a n -> a <= a' -> a' + n' <= a + n -> mapped m a' n'.
Proof. intros H ?? x Hx. apply H. lia. Qed.

Lemma bytes_inj m p l1 l2 :
  length l1 = length l2 -> bytes m p l1 -> bytes m p l2 -> l1 = l2.
Proof.
  intros Hl H1 H2. apply loadn_bytes in H1, H2. congruence.
Qed.

Lemma write_bytes_lookup m a l x :
  write_bytes m a l !! x =
  if decide (a <= x < a + Z.of_nat (length l)) then l !! Z.to_nat (x - a) else m !! x.
Proof.
  revert a. induction l as [|b l IH]; intros a; cbn [write_bytes length].
  - rewrite decide_False by (simpl; lia). done.
  - rewrite lookup_insert, IH. repeat case_decide; try lia; subst.
    + by rewrite Z.sub_diag.
    + replace (Z.to_nat (x - a)) with (S (Z.to_nat (x - (a + 1)))) by lia. done.
    + done.
Qed.

Lemma write_bytes_out m a l x :
  ~ (a <= x < a + Z.of_nat (length l)) -> write_bytes m a l !! x = m !! x.
Proof. intros. rewrite write_bytes_lookup. by rewrite decide_False. Qed.

Lemma write_bytes_same_outside m a l :
  same_outside a (Z.of_nat (length l)) m (write_bytes m a l).
Proof. intros x Hx. by apply write_bytes_out. Qed.

Lemma write_bytes_mapped m a l b n : mapped m b n -> mapped (write_bytes m a l) b n.
Proof.
  intros H x Hx. rewrite write_bytes_lookup. case_decide; [|by apply H].
  apply lookup_lt_is_Some_2. lia.
Qed.

Lemma bytes_write_bytes m a l : bytes (write_bytes m a l) (Addr a) l.
Proof.
  apply bytes_lookup. intros i b Hi. rewrite write_bytes_lookup.
  pose proof (lookup_lt_Some _ _ _ Hi). rewrite decide_True by lia.
  by replace (Z.to_nat (a + Z.of_nat i - a)) with i by lia.
Qed.

Lemma mapped_block m a l n : n <= Z.of_nat (length l) -> mapped (write_bytes m a l) a n.
Proof. intros Hn x Hx. rewrite write_bytes_lookup, decide_True by lia. apply lookup_lt_is_Some_2. lia. Qed.

Lemma bytes_write_bytes_out m a l b l' :
  bytes m (Addr b) l' -> (b + Z.of_nat (length l') <= a \/ a + Z.of_nat (length l) <= b) ->
  bytes (write_bytes m a l) (Addr b) l'.
Proof.
  rewrite !bytes_lookup. intros H Hd i v Hi. pose proof (lookup_lt_Some _ _ _ Hi).
  rewrite write_bytes_out by lia. by apply H.
Qed.

Lemma write_bytes_id m a l : bytes m (Addr a) l -> write_bytes m a l = m.
Proof.
  intros H. apply map_eq. intros x. rewrite write_bytes_lookup.
  case_decide as Hx; [|done].
  destruct (lookup_lt_is_Some_2 l (Z.to_nat (x - a))) as [b Hb]; [lia|].
  rewrite Hb. rewrite bytes_lookup in H. apply H in Hb. rewrite <- Hb. f_equal. lia.
Qed.

Lemma write_bytes_app m a l1 l2 :
  write_bytes m a (l1 ++ l2) =
  write_bytes (write_bytes m a l1) (a + Z.of_nat (length l1)) l2.
Proof.
  apply map_eq. intros x. rewrite !write_bytes_lookup, length_app.
  repeat case_decide; try lia.
  - rewrite lookup_app_r by lia. f_equal. lia.
  - by rewrite lookup_app_l by lia.
  - done.
Qed.

(** Blocks that do not overlap commute. *)
Lemma write_bytes_comm m a1 l1 a2 l2 :
  a1 + Z.of_nat (length l1) <= a2 ->
  write_bytes (write_bytes m a1 l1) a2 l2 = write_bytes (write_bytes m a2 l2) a1 l1.
Proof.
  intros H. apply map_eq. intros x. rewrite !write_bytes_lookup.
  repeat case_decide; try lia; done.
Qed.

(** A later block over an earlier one of the same length hides it. *)
Lemma write_bytes_over m a l1 l2 :
  length l1 = length l2 -> write_bytes (write_bytes m a l1) a l2 = write_bytes m a l2.
Proof.
  intros H. apply map_eq. intros x. rewrite !write_bytes_lookup.
  repeat case_decide; try lia; done.
Qed.

Lemma store8_ok m a v : is_Some (m !! a) -> store8 m (Addr a) v = Ok (<[a := u8 v]> m).
Proof. intros [b Hb]. unfold store8. by rewrite Hb. Qed.

Lemma store8_mapped m a v m' b n :
  store8 m (Addr a) v = Ok m' -> mapped m b n -> mapped m' b n.
Proof.
  unfold store8. destruct (m !! a) eqn:Ha; intros [= <-] H x Hx.
  rewrite lookup_insert. case_decide; [by eauto|]. by apply H.
Qed.

Lemma storen_keeps_mapped l : forall m p m' x, storen m p l = Ok m' -> is_Some (m !! x) -> is_Some (m' !! x).
Proof.
  induction l as [|b l IH]; intros m p m' x E Hx; [by injection E as <-|]. cbn [storen] in E.
  destruct (store8 m p b) as [m1|] eqn:E1; red_bind; [|done]. apply bind_Ok in E as (m2 & [= <-] & E).
  apply (IH _ _ _ _ E). destruct p as [a|]; [|done]. apply (store8_mapped _ _ _ _ x 1 E1); [|lia].
  intros y Hy. by replace y with x by lia.
Qed.

(** A memory that holds bytes only. *)
Definition byte_mem (m : mem) : Prop := forall x v, m !! x = Some v -> is_byte v.

Lemma byte_mem_write m a l : byte_mem m -> Forall is_byte l -> byte_mem (write_bytes m a l).
Proof.
  intros Hm Hl x v. rewrite write_bytes_lookup. case_decide; [|apply Hm].
  intros Hv. by apply (Forall_lookup_1 _ _ _ _ Hl Hv).
Qed.

Lemma storen_byte_mem l : forall m p m', storen m p l = Ok m' -> byte_mem m -> byte_mem m'.
Proof.
  induction l as [|b l IH]; intros m p m' E Hm; [by injection E as <-|]. cbn [storen] in E.
  destruct (store8 m p b) as [m1|] eqn:E1; red_bind; [|done]. apply bind_Ok in E as (m2 & [= <-] & E).
  apply (IH _ _ _ E). unfold store8 in E1. destruct p as [a|]; [|done]. destruct (m !! a); [|done]. injection E1 as <-.
  intros x v Hv. destruct (decide (x = a)) as [->|]; [|rewrite lookup_insert_ne in Hv by done; by eapply Hm].
  rewrite lookup_insert_eq in Hv. injection Hv as <-. apply u8_range.
Qed.

(** What is mapped can be read off. *)
Lemma mapped_block_of m n : forall a, byte_mem m -> mapped m a (Z.of_nat n) ->
  exists l, length l = n /\ Forall is_byte l /\ bytes m (Addr a) l.
Proof.
  induction n as [|n IH]; intros a Hb Hm; [by exists []|].
  destruct (Hm a ltac:(lia)) as [v Hv]. destruct (IH (a + 1) Hb) as (l & <- & Hl & Hbs); [intros x Hx; apply Hm; lia|].
  exists (v :: l). split; [done|]. split; [constructor; [by eapply Hb|exact Hl]|]. split; [|exact Hbs].
  unfold load8. by rewrite Hv.
Qed.

Lemma storen_write m a l :
  mapped m a (Z.of_nat (length l)) -> Forall is_byte l ->
  storen m (Addr a) l = Ok (write_bytes m a l).
Proof.
  revert m a. induction l as [|b l IH]; intros m a Hm Hl; [done|].
  inversion_clear Hl as [|?? Hb Hl']. cbn [storen write_bytes padd].
  rewrite store8_ok by (apply Hm; simpl; lia). red_bind.
  rewrite IH; [|intros x Hx; rewrite lookup_insert; case_decide; [by eauto|apply Hm; simpl; lia]|done].
  f_equal. apply map_eq. intros x. rewrite u8_small by done.
  rewrite write_bytes_lookup, !lookup_insert, write_bytes_lookup.
  repeat case_decide; try lia; done.
Qed.

Lemma cstr_bytes m p l : cstr m p l <-> bytes m p (l ++ [0]) /\ Forall (fun c => 0 < c < 256) l.
Proof.
  revert p. induction l as [|c l IH]; intros p; simpl.
  - split; [|naive_solver]. intros; split_and!; done.
  - rewrite IH, Forall_cons. naive_solver.
Qed.

Lemma cstr_chars m p l : cstr m p l -> Forall (fun c => 0 < c < 256) l.
Proof. rewrite cstr_bytes. naive_solver. Qed.

Lemma cstr_app m p l1 l2 :
  cstr m p (l1 ++ l2) -> cstr m (padd p (Z.of_nat (length l1))) l2.
Proof.
  revert p. induction l1 as [|c l1 IH]; intros p H; simpl in *; [by rewrite padd_0|].
  destruct H as (? & ? & H). apply IH in H. rewrite padd_padd in H.
  by replace (Z.of_nat (S (length l1))) with (1 + Z.of_nat (length l1)) by lia.
Qed.

Lemma cstr_lookup m p l i c :
  cstr m p l -> l !! i = Some c -> load8 m (padd p (Z.of_nat i)) = Ok c /\ 0 < c < 256.
Proof.
  revert p i. induction l as [|b l IH]; intros p [|i] H Hi; simpl in *; try done.
  - injection Hi as ->. rewrite padd_0. naive_solver.
  - destruct H as (_ & _ & H). destruct (IH _ _ H Hi) as [H1 H2]. rewrite padd_padd in H1.
    by replace (Z.of_nat (S i)) with (1 + Z.of_nat i) by lia.
Qed.

(** The character a string pointer points at, 0 at the end. *)
Lemma cstr_head m p l : cstr m p l -> load8 m p = Ok (hd 0 l).
Proof. destruct l; simpl; naive_solver. Qed.

Lemma cstr_inj m p l1 l2 : cstr m p l1 -> cstr m p l2 -> l1 = l2.
Proof.
  revert p l2. induction l1 as [|c l1 IH]; intros p [|d l2]; simpl; try naive_solver.
  - intros H1 (H2 & H3 & _). rewrite H1 in H2. injection H2. lia.
  - intros (H2 & H3 & _) H1. rewrite H1 in H2. injection H2. lia.
  - intros (H1 & ? & H2) (H3 & ? & H4). rewrite H1 in H3. injection H3 as ->. f_equal. eauto.
Qed.

(** A literal reads as its own characters. *)
Lemma bytes_lit m s o l :
  0 <= o -> drop (Z.to_nat o) (s ++ [0]) = l -> bytes m (Lit s o) l.
Proof.
  revert o. induction l as [|b l IH]; intros o Ho Hd; [done|].
  cbn [bytes load8 padd]. assert ((s ++ [0]) !! Z.to_nat o = Some b) as Hb.
  { rewrite <- (Nat.add_0_r (Z.to_nat o)), <- lookup_drop, Hd. done. }
  rewrite (proj2 (Z.ltb_ge o 0)) by lia. rewrite Hb. split; [done|].
  apply IH; [lia|]. replace (Z.to_nat (o + 1)) with (Z.to_nat o + 1)%nat by lia.
  by rewrite <- drop_drop, Hd.
Qed.

Lemma cstr_lit m s : Forall (fun c => 0 < c < 256) s -> cstr m (Lit s 0) s.
Proof. intros H. apply cstr_bytes. split; [by apply bytes_lit|done]. Qed.

(** Little-endian integers. *)
Lemma le_combine_split n v : le_combine (le_split n v) = v mod 256 ^ Z.of_nat n.
Proof.
  revert v. induction n as [|n IH]; intros v; [simpl; by rewrite Z.mod_1_r|].
  cbn [le_split le_combine]. rewrite IH, Nat2Z.inj_succ, Z.pow_succ_r by lia.
  unfold u8. rewrite Z.rem_mul_r by (try lia; apply Z.pow_nonzero; lia). lia.
Qed.

Lemma le_split_bytes n v : Forall is_byte (le_split n v).
Proof. revert v. induction n as [|n IH]; intros v; simpl; constructor; [apply u8_range|done]. Qed.

Lemma length_le_split n v : length (le_split n v) = n.
Proof. revert v. induction n as [|n IH]; intros v; simpl; auto. Qed.

(** Part of a block. *)
Lemma bytes_part m a l k n :
  bytes m (Addr a) l -> bytes m (Addr (a + Z.of_nat k)) (take n (drop k l)).
Proof.
  rewrite !bytes_lookup. intros H i b Hi. apply lookup_take_Some in Hi as [Hi _].
  rewrite lookup_drop in Hi. apply H in Hi. by replace (a + Z.of_nat k + Z.of_nat i) with (a + Z.of_nat (k + i)) by lia.
Qed.

Lemma load32_part m a l k x v :
  bytes m (Addr a) l -> x = a + Z.of_nat k -> take 4 (drop k l) = le_split 4 v -> 0 <= v < 4294967296 ->
  load32 m (Addr x) = Ok v.
Proof.
  intros Hb -> Ht Hv. apply (bytes_part _ _ _ k 4) in Hb. rewrite Ht in Hb. apply loadn_bytes in Hb.
  rewrite length_le_split in Hb. unfold load32. rewrite Hb. cbn [fmap res_fmap].
  rewrite le_combine_split. by rewrite Z.mod_small.
Qed.

Lemma le_combine_bound l : Forall is_byte l -> 0 <= le_combine l < 256 ^ Z.of_nat (length l).
Proof.
  induction 1 as [|b l Hb _ IH]; [done|].
  cbn [le_combine length]. rewrite Nat2Z.inj_succ, Z.pow_succ_r by lia. unfold is_byte in Hb. lia.
Qed.

#[export] Hint Resolve le_split_bytes bytes_write_bytes write_bytes_mapped : jos.

(** Non-overlap for a copy that runs upwards: each byte of the source is read
    before a store reaches it.  Literals are never stored to. *)
Definition fwd_ok (src : ptr) (n d : Z) : Prop :=
  match src with
  | Addr a => d <= a \/ a + n <= d
  | Lit _ _ => True
  end.

(** The source and destination blocks are disjoint. *)
Definition apart (src : ptr) (n d k : Z) : Prop :=
  match src with
  | Addr a => a + n <= d \/ d + k <= a
  | Lit _ _ => True
  end.

Lemma load8_insert_ne m a b p :
  p <> Addr a -> load8 (<[a := b]> m) p = load8 m p.
Proof.
  destruct p as [x|]; intros H; [|done]. simpl.
  rewrite lookup_insert_ne by congruence. done.
Qed.

Lemma cstr_insert m p l d b :
  (forall i, 0 <= i <= Z.of_nat (length l) -> padd p i <> Addr d) ->
  cstr (<[d := b]> m) p l <-> cstr m p l.
Proof.
  revert p. induction l as [|c l IH]; intros p H; cbn [cstr length] in *.
  - by rewrite load8_insert_ne by (rewrite <- (padd_0 p); apply H; lia).
  - rewrite load8_insert_ne by (rewrite <- (padd_0 p); apply H; lia).
    rewrite IH; [done|]. intros i Hi. rewrite padd_padd. apply H. lia.
Qed.

Lemma cstr_insert_fwd m p l d b :
  fwd_ok p (Z.of_nat (S (length l))) d ->
  cstr m p l -> load8 m (padd p 0) = Ok b ->
  forall c l', l = c :: l' -> cstr (<[d := c]> m) (padd p 1) l'.
Proof.
  intros Hf Hc _ c l' ->. simpl in Hc. apply cstr_insert; [|naive_solver].
  intros i Hi. destruct p as [a|s o]; simpl in *; [|done]. intros [=]. lia.
Qed.

Lemma write_bytes_insert m a b l :
  write_bytes (<[a := b]> m) (a + 1) l = write_bytes m a (b :: l).
Proof.
  apply map_eq. intros x. cbn [write_bytes].
  rewrite write_bytes_lookup, !lookup_insert, write_bytes_lookup.
  repeat case_decide; try lia; done.
Qed.

Lemma mapped_insert m d b a n : mapped m a n -> mapped (<[d := b]> m) a n.
Proof. intros H x Hx. rewrite lookup_insert. case_decide; [by eauto|by apply H]. Qed.

Lemma psub_padd p n : psub (padd p n) p = Ok n.
Proof. destruct p; simpl; [|rewrite decide_True by done]; f_equal; lia. Qed.
#[export] Hint Resolve mapped_insert : jos.

(** ** Descriptions of a concrete memory are decidable *)

(** By a boolean test, which evaluates without building the propositions. *)
Fixpoint bytesb (m : mem) (p : ptr) (l : list Z) : bool :=
  match l with
  | [] => true
  | b :: l' =>
      match load8 m p with Ok c => (c =? b) && bytesb m (padd p 1) l' | Err _ => false end
  end.

Lemma bytesb_ok m l : forall p, bytesb m p l = true <-> bytes m p l.
Proof.
  induction l as [|b l IH]; intros p; simpl; [done|].
  destruct (load8 m p) as [c|e]; [|naive_solver].
  rewrite andb_true_iff, Z.eqb_eq, IH. naive_solver.
Qed.

#[export] Instance bytes_dec m p l : Decision (bytes m p l).
Proof.
  refine (match bytesb m p l as b return bytesb m p l = b -> Decision (bytes m p l) with
          | true => fun H => left (proj1 (bytesb_ok m l p) H)
          | false => fun H => right _ end eq_refl).
  intros Hb%bytesb_ok. by rewrite H in Hb.
Defined.

#[export] Instance cstr_dec m p l : Decision (cstr m p l).
Proof.
  refine (cast_if (decide (bytes m p (l ++ [0]) /\ Forall (fun c => 0 < c < 256) l)));
    by rewrite cstr_bytes.
Defined.

#[export] Instance fwd_ok_dec src n d : Decision (fwd_ok src n d).
Proof. destruct src; simpl; apply _. Defined.

Lemma mapped_forall m a n :
  mapped m a n <-> Forall (fun x => is_Some (m !! x)) (seqZ a n).
Proof.
  rewrite Forall_forall. split.
  - intros H x Hx%elem_of_seqZ. by apply H.
  - intros H x Hx. apply H, elem_of_seqZ. lia.
Qed.

#[export] Instance mapped_dec m a n : Decision (mapped m a n).
Proof.
  refine (cast_if (decide (Forall (fun x => is_Some (m !! x)) (seqZ a n))));
    by rewrite mapped_forall.
Defined.
