(* ===== verification/Layout.v ===== *)
(** The structs of the headers, laid out in memory: inc/elf.h, inc/mmu.h
    (Taskstate, Pseudodesc) and inc/stab.h.

    A struct is the list of its fields.  [offsets] is the layout of the i386
    ABI: each field at the next multiple of its alignment, or with no padding in
    a packed struct; the size is rounded up to the largest alignment.  The
    lemmas hold for any struct: fields do not overlap, are aligned and lie
    inside; an object stored field by field reads back.  The theorem is on the
    structs of the headers, against the layouts of the ELF format, of the
    processor and of the stabs format, which are written out beside it. *)
From S2P Require Import Prelude Mem.

(** A scalar of 1, 2 or 4 bytes, or an array of them. *)
Inductive cty := TInt (size : nat) | TArr (size count : nat).

Definition sizeof (t : cty) : Z := match t with TInt n => Z.of_nat n | TArr n k => Z.of_nat (n * k) end.
Definition alignof (t : cty) : Z := match t with TInt n | TArr n _ => Z.of_nat n end.

Record struct := mkStruct { s_packed : bool; s_fields : list (string * cty) }.

Definition align_up (o a : Z) : Z := (o + a - 1) / a * a.

Fixpoint offsets (packed : bool) (o : Z) (fs : list (string * cty)) : list (string * (Z * cty)) :=
  match fs with
  | [] => []
  | (f, t) :: fs' =>
      let o' := if packed then o else align_up o (alignof t) in
      (f, (o', t)) :: offsets packed (o' + sizeof t) fs'
  end.

Definition fields (s : struct) : list (string * (Z * cty)) := offsets (s_packed s) 0 (s_fields s).

Definition fields_end (l : list (string * (Z * cty))) (o : Z) : Z := foldl (fun _ f => f.2.1 + sizeof f.2.2) o l.
Definition struct_align (s : struct) : Z :=
  if s_packed s then 1 else foldr (fun f a => Z.max (alignof f.2) a) 1 (s_fields s).
Definition struct_size (s : struct) : Z := align_up (fields_end (fields s) 0) (struct_align s).

Definition offset_of (s : struct) (f : string) : Z :=
  match list_find (fun g => g.1 = f) (fields s) with
  | Some (_, g) => g.2.1
  | None => -1
  end.

Notation u8_t := (TInt 1).
Notation u16_t := (TInt 2).
Notation u32_t := (TInt 4).

(** ** inc/elf.h *)

Definition Elf : struct := mkStruct false [
  ("e_magic", u32_t); ("e_elf", TArr 1 12); ("e_type", u16_t); ("e_machine", u16_t); ("e_version", u32_t);
  ("e_entry", u32_t); ("e_phoff", u32_t); ("e_shoff", u32_t); ("e_flags", u32_t); ("e_ehsize", u16_t);
  ("e_phentsize", u16_t); ("e_phnum", u16_t); ("e_shentsize", u16_t); ("e_shnum", u16_t); ("e_shstrndx", u16_t)]%string.

Definition Proghdr : struct := mkStruct false [
  ("p_type", u32_t); ("p_offset", u32_t); ("p_va", u32_t); ("p_pa", u32_t); ("p_filesz", u32_t);
  ("p_memsz", u32_t); ("p_flags", u32_t); ("p_align", u32_t)]%string.

Definition Secthdr : struct := mkStruct false [
  ("sh_name", u32_t); ("sh_type", u32_t); ("sh_flags", u32_t); ("sh_addr", u32_t); ("sh_offset", u32_t);
  ("sh_size", u32_t); ("sh_link", u32_t); ("sh_info", u32_t); ("sh_addralign", u32_t); ("sh_entsize", u32_t)]%string.

(** ** inc/mmu.h *)

Definition Taskstate : struct := mkStruct false [
  ("ts_link", u32_t); ("ts_esp0", u32_t); ("ts_ss0", u16_t); ("ts_padding1", u16_t);
  ("ts_esp1", u32_t); ("ts_ss1", u16_t); ("ts_padding2", u16_t);
  ("ts_esp2", u32_t); ("ts_ss2", u16_t); ("ts_padding3", u16_t);
  ("ts_cr3", u32_t); ("ts_eip", u32_t); ("ts_eflags", u32_t);
  ("ts_eax", u32_t); ("ts_ecx", u32_t); ("ts_edx", u32_t); ("ts_ebx", u32_t);
  ("ts_esp", u32_t); ("ts_ebp", u32_t); ("ts_esi", u32_t); ("ts_edi", u32_t);
  ("ts_es", u16_t); ("ts_padding4", u16_t); ("ts_cs", u16_t); ("ts_padding5", u16_t);
  ("ts_ss", u16_t); ("ts_padding6", u16_t); ("ts_ds", u16_t); ("ts_padding7", u16_t);
  ("ts_fs", u16_t); ("ts_padding8", u16_t); ("ts_gs", u16_t); ("ts_padding9", u16_t);
  ("ts_ldt", u16_t); ("ts_padding10", u16_t); ("ts_t", u16_t); ("ts_iomb", u16_t)]%string.

Definition Pseudodesc : struct := mkStruct true [("pd_lim", u16_t); ("pd_base", u32_t)]%string.

(** ** inc/stab.h *)

Definition Stab_struct : struct := mkStruct false [
  ("n_strx", u32_t); ("n_type", u8_t); ("n_other", u8_t); ("n_desc", u16_t); ("n_value", u32_t)]%string.

(** The layouts the hardware and the file formats expect. *)
Example struct_sizes :
  struct_size <$> [Elf; Proghdr; Secthdr; Taskstate; Pseudodesc; Stab_struct] = [52; 32; 40; 104; 6; 12].
Proof. reflexivity. Qed.

(** The explicit padding of [Taskstate] is all the padding there is: the
    processor's fields are 32-bit slots. *)
Example taskstate_slots :
  offset_of Taskstate <$> ["ts_esp0"; "ts_ss0"; "ts_cr3"; "ts_es"; "ts_gs"; "ts_ldt"; "ts_iomb"]%string
  = [4; 8; 28; 72; 92; 96; 102].
Proof. reflexivity. Qed.

(** * Layouts *)

Definition field_ok (f : string * cty) : Prop := 0 < alignof f.2.
Definition struct_ok (s : struct) : Prop := Forall field_ok (s_fields s).

Lemma sizeof_nonneg t : 0 <= sizeof t.
Proof. destruct t; cbn; lia. Qed.

Lemma align_up_bounds o a : 0 < a -> o <= align_up o a < o + a /\ align_up o a mod a = 0.
Proof.
  intros Ha. unfold align_up. split; [|by apply Z.mod_mul; lia].
  pose proof (Z.div_mod (o + a - 1) a). pose proof (Z.mod_pos_bound (o + a - 1) a). lia.
Qed.

Lemma length_offsets packed fs : forall o, length (offsets packed o fs) = length fs.
Proof. induction fs as [|[n t] fs IH]; intros o; [done|]. cbn [offsets length]. by rewrite IH. Qed.

(** Where the next field starts. *)
Lemma offset_start (packed : bool) o t :
  0 < alignof t -> o <= (if packed then o else align_up o (alignof t)).
Proof. intros Ha. destruct packed; [lia|]. pose proof (align_up_bounds o (alignof t) Ha). lia. Qed.

Lemma fields_end_cons f l o : fields_end (f :: l) o = fields_end l (f.2.1 + sizeof f.2.2).
Proof. done. Qed.

Lemma fields_end_ge packed fs : forall o, Forall field_ok fs -> o <= fields_end (offsets packed o fs) o.
Proof.
  induction fs as [|[n t] fs IH]; intros o Hok; [cbn; lia|]. apply Forall_cons in Hok as [Ht Hok].
  cbn [offsets]. rewrite fields_end_cons. cbn [fst snd]. etrans; [|by apply IH].
  pose proof (offset_start packed o t Ht). pose proof (sizeof_nonneg t). lia.
Qed.

Lemma offsets_bounds packed fs : forall o f,
  Forall field_ok fs -> f ∈ offsets packed o fs ->
  o <= f.2.1 /\ f.2.1 + sizeof f.2.2 <= fields_end (offsets packed o fs) o /\
  (packed = false -> f.2.1 mod alignof f.2.2 = 0).
Proof.
  induction fs as [|[n t] fs IH]; intros o f Hok Hf; [by apply elem_of_nil in Hf|].
  apply Forall_cons in Hok as [Ht Hok]. cbn [offsets] in Hf |- *. rewrite fields_end_cons. cbn [fst snd].
  pose proof (offset_start packed o t Ht). pose proof (sizeof_nonneg t).
  apply elem_of_cons in Hf as [->|Hf]; cbn [fst snd].
  - split_and!; [done|by apply fields_end_ge|]. intros ->. by apply align_up_bounds.
  - destruct (IH _ f Hok Hf) as (H1 & H2 & H3). split_and!; [lia|exact H2|exact H3].
Qed.

Lemma offsets_sorted packed fs : forall o i j f g,
  Forall field_ok fs -> (i < j)%nat -> offsets packed o fs !! i = Some f -> offsets packed o fs !! j = Some g ->
  f.2.1 + sizeof f.2.2 <= g.2.1.
Proof.
  induction fs as [|[n t] fs IH]; intros o i j f g Hok Hij Hi Hj; [done|]. apply Forall_cons in Hok as [Ht Hok].
  cbn [offsets] in Hi, Hj. destruct j as [|j]; [lia|]. cbn in Hj. destruct i as [|i].
  - injection Hi as <-. cbn [fst snd]. apply list_elem_of_lookup_2 in Hj.
    by apply offsets_bounds in Hj as (? & _).
  - cbn in Hi. eapply (IH _ i j); [exact Hok|lia|exact Hi|exact Hj].
Qed.

Lemma struct_align_pos s : 0 < struct_align s.
Proof.
  unfold struct_align. destruct (s_packed s); [lia|]. induction (s_fields s); cbn [foldr]; lia.
Qed.

(** Storing an object: the bytes of its fields, in order. *)
Definition store_fields (m : mem) (a : Z) (l : list (string * (Z * cty))) (vs : list (list Z)) : mem :=
  foldl (fun m fv => write_bytes m (a + fv.1.2.1) fv.2) m (zip l vs).

Definition value_ok (f : string * cty) (v : list Z) : Prop := Z.of_nat (length v) = sizeof f.2.

Lemma store_fields_outside packed fs : forall vs m a o x,
  Forall field_ok fs -> Forall2 value_ok fs vs -> x < a + o \/ a + fields_end (offsets packed o fs) o <= x ->
  store_fields m a (offsets packed o fs) vs !! x = m !! x.
Proof.
  induction fs as [|[n t] fs IH]; intros vs m a o x Hok Hv Hx; [done|].
  apply Forall_cons in Hok as [Ht Hok]. inversion Hv as [|? v ? vs' Hl Hvs]; subst.
  pose proof (offset_start packed o t Ht). pose proof (sizeof_nonneg t).
  cbn [offsets] in Hx |- *. rewrite fields_end_cons in Hx. unfold store_fields. cbn [zip zip_with foldl fst snd] in Hx |- *.
  pose proof (fields_end_ge packed fs ((if packed then o else align_up o (alignof t)) + sizeof t) Hok).
  change (foldl _ ?m' _) with (store_fields m' a (offsets packed ((if packed then o else align_up o (alignof t)) + sizeof t) fs) vs').
  unfold value_ok in Hl. cbn [snd] in Hl. rewrite IH by (done || lia). apply write_bytes_out. lia.
Qed.

Lemma store_fields_lookup packed fs : forall vs m a o i f v,
  Forall field_ok fs -> Forall2 value_ok fs vs ->
  offsets packed o fs !! i = Some f -> vs !! i = Some v ->
  bytes (store_fields m a (offsets packed o fs) vs) (Addr (a + f.2.1)) v.
Proof.
  induction fs as [|[n t] fs IH]; intros vs m a o i f v Hok Hv Hi Hvi; [done|].
  apply Forall_cons in Hok as [Ht Hok]. inversion Hv as [|? w ? vs' Hl Hvs]; subst.
  cbn [offsets] in Hi |- *. unfold store_fields. cbn [zip zip_with foldl fst snd].
  change (foldl _ ?m' _) with (store_fields m' a (offsets packed ((if packed then o else align_up o (alignof t)) + sizeof t) fs) vs').
  destruct i as [|i]; [|by apply (IH vs' _ a _ i)].
  injection Hi as <-. injection Hvi as <-. cbn [fst snd]. unfold value_ok in Hl. cbn [snd] in Hl.
  rewrite bytes_lookup. intros k b Hk. pose proof (lookup_lt_Some _ _ _ Hk).
  rewrite store_fields_outside by (done || lia). pose proof (bytes_write_bytes m (a + (if packed then o else align_up o (alignof t))) w) as Hb.
  rewrite bytes_lookup in Hb. by apply Hb.
Qed.

Lemma layout_sound s m a vs :
  struct_ok s -> Forall2 value_ok (s_fields s) vs ->
  (forall i j f g, (i < j)%nat -> fields s !! i = Some f -> fields s !! j = Some g -> f.2.1 + sizeof f.2.2 <= g.2.1) /\
  (forall i f v, fields s !! i = Some f -> vs !! i = Some v ->
    0 <= f.2.1 /\ f.2.1 + sizeof f.2.2 <= struct_size s /\ (s_packed s = false -> f.2.1 mod alignof f.2.2 = 0) /\
    bytes (store_fields m a (fields s) vs) (Addr (a + f.2.1)) v) /\
  (forall x, ~ (a <= x < a + struct_size s) -> store_fields m a (fields s) vs !! x = m !! x).
Proof.
  intros Hok Hv. pose proof (align_up_bounds (fields_end (fields s) 0) _ (struct_align_pos s)) as [Hsz _].
  fold (struct_size s) in Hsz. unfold fields in *.
  split; [intros i j f g; by apply offsets_sorted|]. split.
  - intros i f v Hi Hvi. destruct (offsets_bounds _ _ 0 f Hok (list_elem_of_lookup_2 _ _ _ Hi)) as (H1 & H2 & H3).
    split_and!; [done|lia|exact H3|by apply (store_fields_lookup _ _ _ _ _ _ i)].
  - intros x Hx. apply store_fields_outside; [done|done|lia].
Qed.

(** ** The layouts of the formats

    Size, and for each field its offset and width in bytes. *)
Definition layout : Type := Z * list (string * (Z * Z)).

(** The header of a 32-bit ELF file, of a segment and of a section. *)
Definition elf_header : layout := (52, [
  ("e_magic", (0, 4)); ("e_elf", (4, 12)); ("e_type", (16, 2)); ("e_machine", (18, 2)); ("e_version", (20, 4));
  ("e_entry", (24, 4)); ("e_phoff", (28, 4)); ("e_shoff", (32, 4)); ("e_flags", (36, 4)); ("e_ehsize", (40, 2));
  ("e_phentsize", (42, 2)); ("e_phnum", (44, 2)); ("e_shentsize", (46, 2)); ("e_shnum", (48, 2)); ("e_shstrndx", (50, 2))])%string.
Definition elf_segment : layout := (32, [
  ("p_type", (0, 4)); ("p_offset", (4, 4)); ("p_va", (8, 4)); ("p_pa", (12, 4)); ("p_filesz", (16, 4));
  ("p_memsz", (20, 4)); ("p_flags", (24, 4)); ("p_align", (28, 4))])%string.
Definition elf_section : layout := (40, [
  ("sh_name", (0, 4)); ("sh_type", (4, 4)); ("sh_flags", (8, 4)); ("sh_addr", (12, 4)); ("sh_offset", (16, 4));
  ("sh_size", (20, 4)); ("sh_link", (24, 4)); ("sh_info", (28, 4)); ("sh_addralign", (32, 4)); ("sh_entsize", (36, 4))])%string.

(** The task state segment: slots of 32 bits, with padding beside a selector. *)
Definition task_state : layout := (104, [
  ("ts_link", (0, 4)); ("ts_esp0", (4, 4)); ("ts_ss0", (8, 2)); ("ts_padding1", (10, 2)); ("ts_esp1", (12, 4));
  ("ts_ss1", (16, 2)); ("ts_padding2", (18, 2)); ("ts_esp2", (20, 4)); ("ts_ss2", (24, 2)); ("ts_padding3", (26, 2));
  ("ts_cr3", (28, 4)); ("ts_eip", (32, 4)); ("ts_eflags", (36, 4)); ("ts_eax", (40, 4)); ("ts_ecx", (44, 4));
  ("ts_edx", (48, 4)); ("ts_ebx", (52, 4)); ("ts_esp", (56, 4)); ("ts_ebp", (60, 4)); ("ts_esi", (64, 4));
  ("ts_edi", (68, 4)); ("ts_es", (72, 2)); ("ts_padding4", (74, 2)); ("ts_cs", (76, 2)); ("ts_padding5", (78, 2));
  ("ts_ss", (80, 2)); ("ts_padding6", (82, 2)); ("ts_ds", (84, 2)); ("ts_padding7", (86, 2)); ("ts_fs", (88, 2));
  ("ts_padding8", (90, 2)); ("ts_gs", (92, 2)); ("ts_padding9", (94, 2)); ("ts_ldt", (96, 2)); ("ts_padding10", (98, 2));
  ("ts_t", (100, 2)); ("ts_iomb", (102, 2))])%string.

(** The operand of [lgdt] and [lidt]; an entry of a stabs table. *)
Definition descriptor_operand : layout := (6, [("pd_lim", (0, 2)); ("pd_base", (2, 4))])%string.
Definition stabs_entry : layout := (12, [
  ("n_strx", (0, 4)); ("n_type", (4, 1)); ("n_other", (5, 1)); ("n_desc", (6, 2)); ("n_value", (8, 4))])%string.

Definition formats : list (struct * layout) := [
  (Elf, elf_header); (Proghdr, elf_segment); (Secthdr, elf_section); (Taskstate, task_state);
  (Pseudodesc, descriptor_operand); (Stab_struct, stabs_entry)].

(** A struct has the size and the fields of its format, in order. *)
Definition laid_out (s : struct) (l : layout) : Prop :=
  struct_size s = l.1 /\ ((fun f => (f.1, (f.2.1, sizeof f.2.2))) <$> fields s) = l.2 /\
  Forall (fun f => offset_of s f.1 = f.2.1) l.2.

Lemma formats_laid_out : Forall (fun p => struct_ok p.1 /\ laid_out p.1 p.2) formats.
Proof.
  repeat (apply Forall_cons; split); try apply Forall_nil; try done;
    (split; [unfold struct_ok; cbn [s_fields Elf Proghdr Secthdr Taskstate Pseudodesc Stab_struct fst];
       repeat (apply Forall_cons; split; [done|]); by apply Forall_nil|]);
    (split; [done|]; split; [done|]); cbn [fst snd]; decided.
Qed.

(** C40: the structs of the headers lie in memory as the formats they are for
    have it: Elf, Proghdr, Secthdr, Taskstate, Pseudodesc and Stab have the size,
    and every field has the offset and the width, of the ELF format, the
    processor and the stabs format; no fields overlap, and they are aligned
    unless the struct is packed.  An object stored field by field holds each
    field's value at the format's offset, and nothing changes outside. *)
Theorem struct_layout s size fs m a vs :
  (s, (size, fs)) ∈ [(Elf, elf_header); (Proghdr, elf_segment); (Secthdr, elf_section); (Taskstate, task_state);
    (Pseudodesc, descriptor_operand); (Stab_struct, stabs_entry)] ->
  Forall2 value_ok (s_fields s) vs ->
  struct_size s = size /\
  (forall i f off n, fs !! i = Some (f, (off, n)) ->
    offset_of s f = off /\ off + n <= size /\ (exists t, fields s !! i = Some (f, (off, t)) /\ sizeof t = n /\
      (s_packed s = false -> off mod alignof t = 0)) /\
    (forall j g off' n', (i < j)%nat -> fs !! j = Some (g, (off', n')) -> off + n <= off') /\
    forall v, vs !! i = Some v -> bytes (store_fields m a (fields s) vs) (Addr (a + off)) v) /\
  (forall x, ~ (a <= x < a + size) -> store_fields m a (fields s) vs !! x = m !! x).
Proof.
  intros Hin Hv. pose proof formats_laid_out as Hf. rewrite Forall_forall in Hf.
  destruct (Hf _ Hin) as (Hok & Hl). unfold laid_out in Hl. cbn [fst snd] in Hok, Hl. destruct Hl as (<- & <- & Ho).
  destruct (layout_sound s m a vs Hok Hv) as (Hsort & Hat & Hout). split; [done|]. split; [|exact Hout].
  intros i f off n (g & [= -> -> ->] & Hi)%list_lookup_fmap_Some_1.
  assert (exists w, vs !! i = Some w) as [w Hw].
  { apply lookup_lt_is_Some_2. apply Forall2_length in Hv. rewrite <- Hv.
    apply lookup_lt_Some in Hi. unfold fields in Hi. by rewrite length_offsets in Hi. }
  destruct (Hat i g w Hi Hw) as (H0 & H1 & H2 & _). rewrite Forall_fmap, Forall_forall in Ho.
  split; [exact (Ho g (list_elem_of_lookup_2 _ _ _ Hi))|]. split; [exact H1|].
  split; [exists g.2.2; split; [by destruct g as [? []]|done]|]. split.
  - intros j g' off' n' Hij (h & [= -> -> ->] & Hj)%list_lookup_fmap_Some_1. by apply (Hsort i j g h).
  - intros v Hvi. by apply (Hat i g v Hi Hvi).
Qed.

(** A segment's header at 0x10034. *)
Lemma struct_layout_witness :
  let vs := le_split 4 <$> [1; 0x1000; 0xF0100000; 0x100000; 0x7000; 0x7000; 5; 0x1000] in
  bytes (store_fields ∅ 0x10034 (fields Proghdr) vs) (Addr (0x10034 + 12)) [0; 0; 16; 0] /\
  store_fields ∅ 0x10034 (fields Proghdr) vs !! 0x10054 = None.
Proof.
  intros vs. assert (Forall2 value_ok (s_fields Proghdr) vs) as Hv by (repeat constructor).
  destruct (struct_layout Proghdr 32 elf_segment.2 ∅ 0x10034 vs) as (_ & H & Ho); [right; left|exact Hv|].
  split; [|by apply Ho; lia].
  destruct (H 3%nat "p_pa"%string 12 4 eq_refl) as (_ & _ & _ & _ & Hb). by apply Hb.
Defined.
