(* ===== verification/Cstring.v ===== *)
(** lib/string.c: the string and memory routines.

    Each function takes the memory and its C arguments; the ones that write
    return the new memory beside their C result.  The [ASM] versions of
    [memset] and [memmove] are the ones compiled; their portable versions
    under [#else] are [memset_c] and [memmove_c].  The theorems give each
    routine's result and memory effect on strings and blocks that meet the C
    contract, and that the two versions of memset and memmove agree. *)
From S2P Require Import Prelude Mem.

(** ** Strings *)

Definition strlen_body (m : mem) (st : ptr * Z) : res (ptr * Z + Z) :=
  let '(s, n) := st in
  c ← load8 m s;
  if c =? 0 then Ok (inr n) else Ok (inl (padd s 1, s32 (n + 1))).

Definition strlen (m : mem) (s : ptr) : res Z := while_ (strlen_body m) (s, 0).

Definition strnlen_body (m : mem) (st : ptr * Z * Z) : res (ptr * Z * Z + Z) :=
  let '(s, size, n) := st in
  if size >? 0 then
    c ← load8 m s;
    if c =? 0 then Ok (inr n) else Ok (inl (padd s 1, u32 (size - 1), s32 (n + 1)))
  else Ok (inr n).

Definition strnlen (m : mem) (s : ptr) (size : Z) : res Z :=
  while_ (strnlen_body m) (s, u32 size, 0).

Definition strcpy_body (st : mem * ptr * ptr) : res (mem * ptr * ptr + mem) :=
  let '(m, dst, src) := st in
  c ← load8 m src;
  m' ← store8 m dst c;
  if c =? 0 then Ok (inr m') else Ok (inl (m', padd dst 1, padd src 1)).

Definition strcpy (m : mem) (dst src : ptr) : res (ptr * mem) :=
  m' ← while_ strcpy_body (m, dst, src);
  Ok (dst, m').

Definition strcat (m : mem) (dst src : ptr) : res (ptr * mem) :=
  len ← strlen m dst;
  r ← strcpy m (padd dst len) src;
  Ok (dst, r.2).

Definition strncpy_body (size : Z) (st : mem * ptr * ptr * Z) :
    res (mem * ptr * ptr * Z + mem) :=
  let '(m, dst, src, i) := st in
  if i <? size then
    c ← load8 m src;
    m' ← store8 m dst c;
    c' ← load8 m' src;
    Ok (inl (m', padd dst 1, if c' =? 0 then src else padd src 1, u32 (i + 1)))
  else Ok (inr m).

Definition strncpy (m : mem) (dst src : ptr) (size : Z) : res (ptr * mem) :=
  m' ← while_ (strncpy_body (u32 size)) (m, dst, src, 0);
  Ok (dst, m').

Definition strlcpy_body (st : mem * ptr * ptr * Z) :
    res (mem * ptr * ptr * Z + mem * ptr) :=
  let '(m, dst, src, size) := st in
  let size := u32 (size - 1) in
  if size >? 0 then
    c ← load8 m src;
    if c =? 0 then Ok (inr (m, dst))
    else m' ← store8 m dst c; Ok (inl (m', padd dst 1, padd src 1, size))
  else Ok (inr (m, dst)).

Definition strlcpy (m : mem) (dst src : ptr) (size : Z) : res (Z * mem) :=
  if u32 size >? 0 then
    r ← while_ strlcpy_body (m, dst, src, u32 size);
    m' ← store8 r.1 r.2 0;
    d ← psub r.2 dst;
    Ok (u32 d, m')
  else d ← psub dst dst; Ok (u32 d, m).

Definition strcmp_body (m : mem) (st : ptr * ptr) : res (ptr * ptr + Z) :=
  let '(p, q) := st in
  a ← load8 m p;
  b ← load8 m q;
  if negb (a =? 0) && (s8 a =? s8 b) then Ok (inl (padd p 1, padd q 1))
  else Ok (inr (s32 (a - b))).

Definition strcmp (m : mem) (p q : ptr) : res Z := while_ (strcmp_body m) (p, q).

Definition strncmp_body (m : mem) (st : Z * ptr * ptr) : res (Z * ptr * ptr + Z) :=
  let '(n, p, q) := st in
  if n >? 0 then
    a ← load8 m p;
    b ← load8 m q;
    if negb (a =? 0) && (s8 a =? s8 b) then Ok (inl (u32 (n - 1), padd p 1, padd q 1))
    else Ok (inr (s32 (a - b)))
  else Ok (inr 0).

Definition strncmp (m : mem) (p q : ptr) (n : Z) : res Z :=
  while_ (strncmp_body m) (u32 n, p, q).

Definition strchr_body (m : mem) (c : Z) (s : ptr) : res (ptr + ptr) :=
  a ← loadc m s;
  if a =? 0 then Ok (inr Null)
  else if a =? s8 c then Ok (inr s)
  else Ok (inl (padd s 1)).

Definition strchr (m : mem) (s : ptr) (c : Z) : res ptr := while_ (strchr_body m c) s.

Definition strfind_body (m : mem) (c : Z) (s : ptr) : res (ptr + ptr) :=
  a ← loadc m s;
  if a =? 0 then Ok (inr s)
  else if a =? s8 c then Ok (inr s)
  else Ok (inl (padd s 1)).

Definition strfind (m : mem) (s : ptr) (c : Z) : res ptr := while_ (strfind_body m c) s.

(** ** Memory blocks *)

(** The x86 string instructions the inline assembly uses: [rep stos] stores
    the bytes [al] of the accumulator [cnt] times upwards (DF clear);
    [rep movs] moves [cnt] units of [w] bytes, downwards when [df] is set. *)
Fixpoint rep_stos (al : list Z) (cnt : nat) (m : mem) (edi : Z) : res mem :=
  match cnt with
  | O => Ok m
  | S cnt' =>
      m' ← storen m (Addr edi) al;
      rep_stos al cnt' m' (edi + Z.of_nat (length al))
  end.

Fixpoint rep_movs (w : nat) (df : bool) (cnt : nat) (m : mem) (edi esi : Z) : res mem :=
  match cnt with
  | O => Ok m
  | S cnt' =>
      l ← loadn m (Addr esi) w;
      m' ← storen m (Addr edi) l;
      let d := if df then - Z.of_nat w else Z.of_nat w in
      rep_movs w df cnt' m' (edi + d) (esi + d)
  end.

(** [(int) v % 4 == 0] *)
Definition aligned4 (v : Z) : bool := Z.rem (s32 v) 4 =? 0.

Definition memset (m : mem) (v c n : Z) : res (Z * mem) :=
  let n := u32 n in
  if n =? 0 then Ok (v, m)
  else if aligned4 v && (n mod 4 =? 0) then
    let c := Z.land c 255 in
    let c := s32 (Z.lor (Z.lor (Z.lor (Z.shiftl c 24) (Z.shiftl c 16)) (Z.shiftl c 8)) c) in
    m' ← rep_stos (le_split 4 c) (Z.to_nat (n / 4)) m v;
    Ok (v, m')
  else
    m' ← rep_stos (le_split 1 c) (Z.to_nat n) m v;
    Ok (v, m').

Definition memmove (m : mem) (dst src n : Z) : res (Z * mem) :=
  let n := u32 n in
  let s := src in
  let d := dst in
  if (s <? d) && (s + n >? d) then
    let s := s + n in
    let d := d + n in
    m' ← (if aligned4 s && aligned4 d && (n mod 4 =? 0)
          then rep_movs 4 true (Z.to_nat (n / 4)) m (d - 4) (s - 4)
          else rep_movs 1 true (Z.to_nat n) m (d - 1) (s - 1));
    Ok (dst, m')
  else
    m' ← (if aligned4 s && aligned4 d && (n mod 4 =? 0)
          then rep_movs 4 false (Z.to_nat (n / 4)) m d s
          else rep_movs 1 false (Z.to_nat n) m d s);
    Ok (dst, m').

(** The portable versions, under [#else]. *)
Definition memset_c_body (c : Z) (st : mem * Z * Z) : res (mem * Z * Z + mem) :=
  let '(m, p, cnt) := st in
  let cnt := s32 (cnt - 1) in
  if cnt >=? 0 then m' ← store8 m (Addr p) c; Ok (inl (m', p + 1, cnt))
  else Ok (inr m).

Definition memset_c (m : mem) (v c n : Z) : res (Z * mem) :=
  m' ← while_ (memset_c_body c) (m, v, s32 (u32 n));
  Ok (v, m').

Definition memmove_c_down (st : mem * Z * Z * Z) : res (mem * Z * Z * Z + mem) :=
  let '(m, d, s, n) := st in
  if n >? 0 then
    b ← load8 m (Addr (s - 1));
    m' ← store8 m (Addr (d - 1)) b;
    Ok (inl (m', d - 1, s - 1, n - 1))
  else Ok (inr m).

Definition memmove_c_up (st : mem * Z * Z * Z) : res (mem * Z * Z * Z + mem) :=
  let '(m, d, s, n) := st in
  if n >? 0 then
    b ← load8 m (Addr s);
    m' ← store8 m (Addr d) b;
    Ok (inl (m', d + 1, s + 1, n - 1))
  else Ok (inr m).

Definition memmove_c (m : mem) (dst src n : Z) : res (Z * mem) :=
  let n := u32 n in
  m' ← (if (src <? dst) && (src + n >? dst)
        then while_ memmove_c_down (m, dst + n, src + n, n)
        else while_ memmove_c_up (m, dst, src, n));
  Ok (dst, m').

Definition memcpy (m : mem) (dst src n : Z) : res (Z * mem) := memmove m dst src n.

Definition memcmp_body (m : mem) (st : ptr * ptr * Z) : res (ptr * ptr * Z + Z) :=
  let '(s1, s2, n) := st in
  if n >? 0 then
    a ← load8 m s1;
    b ← load8 m s2;
    if negb (a =? b) then Ok (inr (a - b)) else Ok (inl (padd s1 1, padd s2 1, n - 1))
  else Ok (inr 0).

Definition memcmp (m : mem) (v1 v2 : ptr) (n : Z) : res Z :=
  while_ (memcmp_body m) (v1, v2, u32 n).

Definition memfind_body (m : mem) (ends : ptr) (c : Z) (s : ptr) : res (ptr + ptr) :=
  d ← psub s ends;
  if d <? 0 then
    a ← load8 m s;
    if a =? u8 c then Ok (inr s) else Ok (inl (padd s 1))
  else Ok (inr s).

Definition memfind (m : mem) (s : ptr) (c n : Z) : res ptr :=
  while_ (memfind_body m (padd s (u32 n)) c) s.

(** ** strtol *)

(** Gobble initial blanks and tabs. *)
Definition strtol_space (m : mem) (s : ptr) : res (ptr + ptr) :=
  c ← loadc m s;
  if (c =? 32) || (c =? 9) then Ok (inl (padd s 1)) else Ok (inr s).

(** The digit value of a character, [None] for any other character. *)
Definition strtol_digit (c : Z) : option Z :=
  if (c >=? 48) && (c <=? 57) then Some (c - 48)
  else if (c >=? 97) && (c <=? 122) then Some (c - 97 + 10)
  else if (c >=? 65) && (c <=? 90) then Some (c - 65 + 10)
  else None.

Definition strtol_body (m : mem) (base : Z) (st : ptr * Z) : res (ptr * Z + ptr * Z) :=
  let '(s, val) := st in
  c ← loadc m s;
  match strtol_digit c with
  | None => Ok (inr (s, val))
  | Some dig =>
      if dig >=? base then Ok (inr (s, val))
      else Ok (inl (padd s 1, s32 (val * base + dig)))
  end.

(** The base prefix: the rest of the string and the base to use. *)
Definition strtol_prefix (m : mem) (s : ptr) (base : Z) : res (ptr * Z) :=
  c0 ← loadc m s;
  hex ← (if (base =? 0) || (base =? 16) then
           if c0 =? 48 then c1 ← loadc m (padd s 1); Ok (c1 =? 120) else Ok false
         else Ok false);
  if hex : bool then Ok (padd s 2, 16)
  else if (base =? 0) && (c0 =? 48) then Ok (padd s 1, 8)
  else if base =? 0 then Ok (s, 10)
  else Ok (s, base).

(** The value, and the pointer stored through [endptr] when it is not null. *)
Definition strtol (m : mem) (s : ptr) (base : Z) : res (Z * ptr) :=
  s ← while_ (strtol_space m) s;
  c ← loadc m s;
  let '(s, neg) := if c =? 43 then (padd s 1, false)
                   else if c =? 45 then (padd s 1, true) else (s, false) in
  sb ← strtol_prefix m s base;
  r ← while_ (strtol_body m sb.2) (sb.1, 0);
  Ok (if neg : bool then s32 (- r.2) else r.2, r.1).

Example strlen_ex : strlen ∅ (lit "kernel") = Ok 6.
Proof. vm_compute. reflexivity. Qed.
Example strtol_ex : fst <$> strtol ∅ (lit " -0x1F ") 0 = Ok (-31).
Proof. vm_compute. reflexivity. Qed.
Example strcmp_ex : strcmp ∅ (lit "help") (lit "hello") = Ok 4.
Proof. vm_compute. reflexivity. Qed.

(** * Strings: results and memory effects *)

Lemma strlen_runs m l : forall p n,
  cstr m p l -> 0 <= n -> n + Z.of_nat (length l) < 2147483648 ->
  runs (strlen_body m) (S (length l)) (p, n) (Ok (n + Z.of_nat (length l))).
Proof.
  induction l as [|c l IH]; intros p n Hp Hn Hl; cbn [cstr length] in *.
  - apply runs_done. cbn. rewrite Hp. red_bind. simpl. do 2 f_equal. lia.
  - destruct Hp as (Hc & ? & Hp). eapply runs_step.
    + cbn. rewrite Hc. red_bind. rewrite (proj2 (Z.eqb_neq c 0)) by lia.
      rewrite s32_small by lia. done.
    + replace (n + Z.of_nat (S (length l))) with (n + 1 + Z.of_nat (length l)) by lia.
      apply IH; [done|lia|lia].
Qed.

(** On a NUL-terminated string of fewer than 2^31 characters, [strlen]
    returns, and its result is the number of characters before the NUL. *)
Lemma strlen_spec m p l :
  cstr m p l -> Z.of_nat (length l) < 2147483648 ->
  strlen m p = Ok (Z.of_nat (length l)).
Proof.
  intros Hp Hl. unfold strlen. eapply while_runs; [apply (strlen_runs m l p 0); auto with lia|lia].
Qed.

Lemma strnlen_runs m l : forall p n size,
  bytes m p (take (Z.to_nat size) (l ++ [0])) ->
  Forall (fun c => 0 < c < 256) l ->
  0 <= size < 4294967296 -> 0 <= n -> n + Z.of_nat (length l) < 2147483648 ->
  runs (strnlen_body m) (S (length (take (Z.to_nat size) l))) (p, size, n)
    (Ok (n + Z.of_nat (length (take (Z.to_nat size) l)))).
Proof.
  induction l as [|c l IH]; intros p n size Hp Hl Hs Hn Hlt.
  - rewrite take_nil. apply runs_done. cbn -[take].
    destruct (Z.gtb_spec size 0); [|do 3 f_equal; simpl; lia].
    replace (Z.to_nat size) with (S (Z.to_nat (size - 1))) in Hp by lia.
    simpl in Hp. destruct Hp as [-> _]. red_bind. simpl. do 2 f_equal. lia.
  - apply Forall_cons in Hl as [Hc Hl].
    destruct (Z.to_nat size) as [|k] eqn:Hk.
    + apply runs_done. cbn. destruct (Z.gtb_spec size 0); [lia|]. do 2 f_equal. simpl. lia.
    + simpl in Hp. destruct Hp as [Hb Hp]. cbn [take length] in *. eapply runs_step.
      * cbn. destruct (Z.gtb_spec size 0); [|lia]. rewrite Hb. red_bind.
        rewrite (proj2 (Z.eqb_neq c 0)), u32_small, s32_small by lia. done.
      * replace (n + Z.of_nat (S (length (take k l))))
          with (n + 1 + Z.of_nat (length (take k l))) by lia.
        replace k with (Z.to_nat (size - 1)) by lia.
        apply IH; try lia; [|done]. by replace (Z.to_nat (size - 1)) with k by lia.
Qed.

(** [strnlen] reads at most [size] bytes: only those need to be mapped. *)
Lemma strnlen_spec m p l size :
  bytes m p (take (Z.to_nat size) (l ++ [0])) ->
  Forall (fun c => 0 < c < 256) l ->
  0 <= size < 4294967296 -> Z.of_nat (length l) < 2147483648 ->
  strnlen m p size = Ok (Z.min size (Z.of_nat (length l))).
Proof.
  intros Hp Hl Hs Hlt. unfold strnlen. rewrite u32_small by lia.
  erewrite while_runs; [|apply (strnlen_runs m l p 0 size); auto with lia|].
  - f_equal. rewrite length_take. lia.
  - rewrite length_take. lia.
Qed.

Lemma strnlen_cstr m p l size :
  cstr m p l -> 0 <= size < 4294967296 -> Z.of_nat (length l) < 2147483648 ->
  strnlen m p size = Ok (Z.min size (Z.of_nat (length l))).
Proof.
  intros [Hb Hl]%cstr_bytes ??. apply strnlen_spec; try done.
  rewrite <- (take_drop (Z.to_nat size)) in Hb. by apply bytes_app in Hb as [Hb _].
Qed.

Lemma strcpy_runs l : forall m d src,
  cstr m src l -> mapped m d (Z.of_nat (S (length l))) ->
  fwd_ok src (Z.of_nat (S (length l))) d ->
  runs strcpy_body (S (length l)) (m, Addr d, src) (Ok (write_bytes m d (l ++ [0]))).
Proof.
  induction l as [|c l IH]; intros m d src Hs Hm Hf; cbn [length] in *.
  - apply runs_done. cbn [strcpy_body]. rewrite Hs. red_bind.
    rewrite store8_ok by (apply Hm; lia). done.
  - pose proof Hs as (Hc & Hr & Hs'). eapply runs_step.
    + cbn [strcpy_body]. rewrite Hc. red_bind.
      rewrite store8_ok by (apply Hm; lia). red_bind.
      rewrite (proj2 (Z.eqb_neq c 0)), u8_small by lia. done.
    + cbn [padd app]. rewrite <- write_bytes_insert. apply IH.
      * by eapply (cstr_insert_fwd m src (c :: l) d c); [|done|rewrite padd_0|].
      * apply mapped_insert. eapply mapped_weaken; [done|lia|lia].
      * destruct src; simpl in *; lia.
Qed.

(** [strcpy] copies the string and its NUL, changes nothing else, and
    returns [dst]; source and destination may overlap when the destination is
    not inside the source. *)
Lemma strcpy_spec m d src l :
  cstr m src l -> mapped m d (Z.of_nat (S (length l))) ->
  fwd_ok src (Z.of_nat (S (length l))) d -> Z.of_nat (length l) < 2147483648 ->
  strcpy m (Addr d) src = Ok (Addr d, write_bytes m d (l ++ [0])).
Proof.
  intros Hs Hm Hf Hl. unfold strcpy.
  erewrite while_runs; [|by apply strcpy_runs|lia]. done.
Qed.

(** [strcat] writes the copy right after the characters of [dst]. *)
Lemma strcat_spec m d src l1 l2 :
  cstr m (Addr d) l1 -> cstr m src l2 ->
  mapped m (d + Z.of_nat (length l1)) (Z.of_nat (S (length l2))) ->
  fwd_ok src (Z.of_nat (S (length l2))) (d + Z.of_nat (length l1)) ->
  Z.of_nat (length l1) < 2147483648 -> Z.of_nat (length l2) < 2147483648 ->
  strcat m (Addr d) src =
    Ok (Addr d, write_bytes m (d + Z.of_nat (length l1)) (l2 ++ [0])).
Proof.
  intros H1 H2 Hm Hf Hl1 Hl2. unfold strcat.
  rewrite (strlen_spec _ _ _ H1 Hl1). red_bind. cbn [padd].
  rewrite (strcpy_spec _ _ _ _ H2 Hm Hf Hl2). red_bind. reflexivity.
Qed.

(** The [size] bytes [strncpy] writes: the string, cut or padded with NULs. *)
Definition strncpy_image (size : nat) (l : list Z) : list Z :=
  take size (l ++ replicate size 0).

Lemma strncpy_image_cons k l b :
  (b = 0 -> l = []) -> (b <> 0 -> exists l', l = b :: l') ->
  strncpy_image (S k) l = b :: strncpy_image k (tail l).
Proof.
  intros H0 H1. unfold strncpy_image. destruct (decide (b = 0)) as [->|Hn].
  - by rewrite H0.
  - destruct H1 as [l' ->]; [done|]. simpl. f_equal.
    rewrite replicate_cons_app, app_assoc. apply take_app_le.
    rewrite length_app, length_replicate. lia.
Qed.

Lemma strncpy_runs k : forall m d src l size i,
  cstr m src l -> mapped m d (Z.of_nat k) ->
  apart src (Z.of_nat (S (length l))) d (Z.of_nat k) ->
  0 <= i -> i + Z.of_nat k = size -> size < 4294967296 ->
  runs (strncpy_body size) (S k) (m, Addr d, src, i)
    (Ok (write_bytes m d (strncpy_image k l))).
Proof.
  induction k as [|k IH]; intros m d src l size i Hs Hm Hap Hi Hk Hsz.
  - apply runs_done. cbn [strncpy_body]. rewrite (proj2 (Z.ltb_ge i size)) by lia. done.
  - assert (exists b, load8 m src = Ok b /\ 0 <= b < 256 /\
        (b = 0 -> l = []) /\ (b <> 0 -> exists l', l = b :: l')) as (b & Hb & Hbr & H0 & H1).
    { destruct l as [|c l]; simpl in Hs; [exists 0|exists c]; naive_solver lia. }
    assert (forall j, 0 <= j <= Z.of_nat (length l) -> padd src j <> Addr d) as Hne.
    { intros j Hj. destruct src; [|done]. simpl in *. intros [=]. lia. }
    pose proof (proj2 (cstr_insert m src l d b Hne) Hs) as Hs'.
    eapply runs_step.
    + cbn [strncpy_body]. rewrite (proj2 (Z.ltb_lt i size)) by lia. rewrite Hb. red_bind.
      rewrite store8_ok by (apply Hm; lia). red_bind.
      rewrite load8_insert_ne, Hb by (rewrite <- (padd_0 src); apply Hne; lia). red_bind.
      rewrite u8_small, u32_small by lia. done.
    + rewrite (strncpy_image_cons k l b), <- write_bytes_insert by done. cbn [padd].
      assert (mapped (<[d := b]> m) (d + 1) (Z.of_nat k)) as Hm'.
      { apply mapped_insert. eapply mapped_weaken; [done|lia|lia]. }
      destruct (Z.eqb_spec b 0) as [Hb0|Hb0].
      * rewrite H0 in * by done. apply IH; try done; try lia.
        destruct src; simpl in *; lia.
      * destruct H1 as [l' ->]; [done|]. apply IH; try done; try lia; [naive_solver|].
        destruct src; simpl in *; lia.
Qed.

(** [strncpy] fills exactly [size] bytes. *)
Lemma strncpy_spec m d src l size :
  cstr m src l -> mapped m d size ->
  apart src (Z.of_nat (S (length l))) d size -> 0 <= size < 4294967296 ->
  strncpy m (Addr d) src size =
    Ok (Addr d, write_bytes m d (strncpy_image (Z.to_nat size) l)).
Proof.
  intros Hs Hm Ha Hz. unfold strncpy. rewrite u32_small by lia.
  rewrite <- (Z2Nat.id size) in Hm, Ha by lia.
  erewrite while_runs; [|apply (strncpy_runs (Z.to_nat size) m d src l size 0); try done; lia|lia].
  red_bind. reflexivity.
Qed.

Lemma strlcpy_runs l : forall m d src size,
  cstr m src l -> mapped m d size ->
  fwd_ok src (Z.of_nat (S (length l))) d ->
  0 < size < 4294967296 ->
  let k := take (Z.to_nat (size - 1)) l in
  runs strlcpy_body (S (length k)) (m, Addr d, src, size)
    (Ok (write_bytes m d k, Addr (d + Z.of_nat (length k)))).
Proof.
  induction l as [|c l IH]; intros m d src size Hs Hm Hf Hz; cbv zeta.
  - rewrite take_nil. apply runs_done. cbn [strlcpy_body]. rewrite u32_small by lia.
    destruct (Z.gtb_spec (size - 1) 0).
    + simpl in Hs. rewrite Hs. red_bind. simpl. by rewrite Z.add_0_r.
    + simpl. by rewrite Z.add_0_r.
  - pose proof Hs as (Hc & Hr & Hs'). destruct (decide (size = 1)) as [->|Hne].
    + apply runs_done. cbn. by rewrite Z.add_0_r.
    + replace (Z.to_nat (size - 1)) with (S (Z.to_nat (size - 1 - 1))) by lia.
      cbn [take length]. eapply runs_step.
      * cbn [strlcpy_body]. rewrite u32_small by lia.
        destruct (Z.gtb_spec (size - 1) 0); [|lia]. rewrite Hc. red_bind.
        rewrite (proj2 (Z.eqb_neq c 0)) by lia.
        rewrite store8_ok by (apply Hm; lia). red_bind. rewrite u8_small by lia. done.
      * rewrite <- write_bytes_insert. cbn [padd].
        replace (d + Z.of_nat (S (length (take (Z.to_nat (size - 1 - 1)) l))))
          with (d + 1 + Z.of_nat (length (take (Z.to_nat (size - 1 - 1)) l))) by lia.
        apply IH; [|apply mapped_insert; eapply mapped_weaken; [done|lia|lia]| |lia].
        -- by eapply (cstr_insert_fwd m src (c :: l) d c); [|done|rewrite padd_0|].
        -- destruct src; simpl in *; lia.
Qed.

(** C33: [strlcpy] with [size > 0] writes at most [size] bytes: the first
    [size-1] characters of the source at most, then a NUL (so the destination
    is always terminated), and returns the number of characters written. *)
Theorem strlcpy_spec m d src l size :
  cstr m src l -> mapped m d size -> fwd_ok src (Z.of_nat (S (length l))) d ->
  0 < size < 4294967296 -> Z.of_nat (length l) < 2147483648 ->
  let k := take (Z.to_nat (size - 1)) l in
  strlcpy m (Addr d) src size = Ok (Z.of_nat (length k), write_bytes m d (k ++ [0])).
Proof.
  intros Hs Hm Hf Hz Hl k. unfold strlcpy. rewrite u32_small by lia.
  destruct (Z.gtb_spec size 0); [|lia].
  assert (Z.of_nat (length k) <= size - 1) by (unfold k; rewrite length_take; lia).
  erewrite while_runs; [|by apply strlcpy_runs|unfold k in *; lia]. fold k. red_bind. cbn [fst snd].
  rewrite store8_ok by (eapply write_bytes_mapped; [done|lia]). red_bind.
  cbn [psub]. red_bind. do 2 f_equal.
  - rewrite u32_small; lia.
  - by rewrite write_bytes_app.
Qed.

Lemma strlcpy_spec_witness :
  strlcpy (write_bytes ∅ 64 (bytes_of "....")) (Addr 64) (lit "kernel") 4 =
    Ok (3, write_bytes (write_bytes ∅ 64 (bytes_of "....")) 64 [107; 101; 114; 0]).
Proof. apply (strlcpy_spec _ 64 (lit "kernel") (bytes_of "kernel") 4); decided. Defined.


(** ** Comparison *)

(** The comparison of C strings as unsigned characters: the difference at
    the first place where they differ, the NUL included. *)
Fixpoint str_diff (l1 l2 : list Z) : Z :=
  match l1, l2 with
  | [], [] => 0
  | [], b :: _ => - b
  | a :: _, [] => a
  | a :: l1', b :: l2' => if a =? b then str_diff l1' l2' else a - b
  end.

Lemma str_diff_0 l1 : forall l2,
  Forall (fun c => 0 < c < 256) l1 -> Forall (fun c => 0 < c < 256) l2 ->
  str_diff l1 l2 = 0 <-> l1 = l2.
Proof.
  induction l1 as [|a l1 IH]; intros [|b l2] H1 H2; simpl; try done;
    try (inversion_clear H1); try (inversion_clear H2); try (split; [lia|done]).
  destruct (Z.eqb_spec a b) as [->|Hne]; [rewrite IH by done; naive_solver|].
  split; [lia|congruence].
Qed.

(** The loop condition [*p && *p == *q] of the comparisons. *)
Lemma cmp_stop a b :
  is_byte a -> is_byte b -> a = 0 \/ a <> b -> negb (a =? 0) && (s8 a =? s8 b) = false.
Proof.
  intros Ha Hb Hd. apply andb_false_iff. rewrite negb_false_iff, Z.eqb_eq, Z.eqb_neq.
  destruct Hd as [->|Hd]; [by left|right]. intros E. by apply s8_inj in E.
Qed.

Lemma cmp_go a : a <> 0 -> negb (a =? 0) && (s8 a =? s8 a) = true.
Proof. intros Ha. rewrite (proj2 (Z.eqb_neq a 0)), Z.eqb_refl by done. done. Qed.

Lemma strcmp_stop m p q a b :
  load8 m p = Ok a -> load8 m q = Ok b -> is_byte a -> is_byte b -> a = 0 \/ a <> b ->
  runs (strcmp_body m) 1 (p, q) (Ok (a - b)).
Proof.
  intros Hp Hq Ha Hb Hd. apply runs_done. unfold strcmp_body. rewrite Hp, Hq. red_bind.
  rewrite cmp_stop, s32_small by (unfold is_byte in *; lia). done.
Qed.

Lemma strcmp_runs m l1 : forall l2 p q,
  cstr m p l1 -> cstr m q l2 ->
  exists n, (n <= S (length l1))%nat /\
    runs (strcmp_body m) n (p, q) (Ok (str_diff l1 l2)).
Proof.
  induction l1 as [|a l1 IH]; intros [|b l2] p q Hp Hq; cbn [cstr str_diff length] in *.
  - exists 1%nat. split; [lia|]. apply (strcmp_stop m p q 0 0); try done; by left.
  - destruct Hq as (Hq & ? & _). exists 1%nat. split; [lia|]. replace (- b) with (0 - b) by lia.
    apply strcmp_stop; try done; unfold is_byte; lia.
  - destruct Hp as (Hp & ? & _). exists 1%nat. split; [lia|]. rewrite <- (Z.sub_0_r a).
    apply strcmp_stop; try done; unfold is_byte; lia.
  - destruct Hp as (Hp & ? & Hp'), Hq as (Hq & ? & Hq').
    destruct (Z.eqb_spec a b) as [->|Hne].
    + destruct (IH l2 _ _ Hp' Hq') as (n & Hn & Hr). exists (S n).
      split; [lia|]. eapply runs_step; [|done]. unfold strcmp_body. rewrite Hp, Hq. red_bind.
      by rewrite cmp_go by lia.
    + exists 1%nat. split; [lia|]. apply strcmp_stop; try done; unfold is_byte; lia.
Qed.

Lemma strcmp_diff m p q l1 l2 :
  cstr m p l1 -> cstr m q l2 -> Z.of_nat (length l1) < 2147483648 ->
  strcmp m p q = Ok (str_diff l1 l2).
Proof.
  intros Hp Hq Hl. destruct (strcmp_runs m l1 l2 p q Hp Hq) as (n & Hn & Hr).
  unfold strcmp. eapply while_runs; [done|lia].
Qed.

(** [strcmp] of two strings is their difference as unsigned characters at
    the first place where they differ (their NULs included); it is 0 exactly
    when the strings are equal. *)
Theorem strcmp_spec m p q l1 l2 :
  cstr m p l1 -> cstr m q l2 -> Z.of_nat (length l1) < 2147483648 ->
  strcmp m p q = Ok (str_diff l1 l2) /\ (strcmp m p q = Ok 0 <-> l1 = l2).
Proof.
  intros Hp Hq Hl. pose proof (strcmp_diff m p q l1 l2 Hp Hq Hl) as E.
  split; [done|]. rewrite E, <- str_diff_0 by eauto using cstr_chars.
  split; [by intros [= ->]|by intros ->].
Qed.

Lemma strcmp_spec_witness : strcmp ∅ (lit "help") (lit "hello") = Ok 4.
Proof. apply (strcmp_spec ∅ (lit "help") (lit "hello") (bytes_of "help") (bytes_of "hello")); decided. Defined.


Lemma strncmp_runs m k : forall l1 l2 p q,
  cstr m p l1 -> cstr m q l2 -> Z.of_nat k < 4294967296 ->
  exists n, (n <= S k)%nat /\
    runs (strncmp_body m) n (Z.of_nat k, p, q) (Ok (str_diff (take k l1) (take k l2))).
Proof.
  induction k as [|k IH]; intros l1 l2 p q Hp Hq Hk.
  - exists 1%nat. split; [lia|]. by apply runs_done.
  - assert (forall x y, load8 m p = Ok x -> load8 m q = Ok y -> 0 <= x < 256 -> 0 <= y < 256 ->
      (x = 0 \/ x <> y) ->
      runs (strncmp_body m) 1 (Z.of_nat (S k), p, q) (Ok (x - y))) as Hstop.
    { intros x y Hx Hy ?? Hd. apply runs_done. unfold strncmp_body.
      destruct (Z.gtb_spec (Z.of_nat (S k)) 0); [|lia]. rewrite Hx, Hy. red_bind.
      rewrite cmp_stop, s32_small by (unfold is_byte in *; lia). done. }
    destruct l1 as [|a l1], l2 as [|b l2]; simpl in Hp, Hq; cbn [take str_diff].
    + exists 1%nat. split; [lia|]. apply (Hstop 0 0); try done; lia.
    + destruct Hq as (Hq & ? & _). exists 1%nat. split; [lia|].
      replace (- b) with (0 - b) by lia. apply Hstop; try done; lia.
    + destruct Hp as (Hp & ? & _). exists 1%nat. split; [lia|].
      rewrite <- (Z.sub_0_r a). apply Hstop; try done; lia.
    + destruct Hp as (Hp & ? & Hp'), Hq as (Hq & ? & Hq').
      destruct (Z.eqb_spec a b) as [->|Hne].
      * destruct (IH l1 l2 _ _ Hp' Hq') as (n & Hn & Hr); [lia|]. exists (S n).
        split; [lia|]. eapply runs_step; [|done]. unfold strncmp_body.
        destruct (Z.gtb_spec (Z.of_nat (S k)) 0); [|lia]. rewrite Hp, Hq. red_bind.
        rewrite cmp_go, u32_small by lia. do 4 f_equal. lia.
      * exists 1%nat. split; [lia|]. apply (Hstop a b); try done; lia.
Qed.

(** [strncmp] compares the first [n] characters. *)
Lemma strncmp_spec m p q l1 l2 n :
  cstr m p l1 -> cstr m q l2 -> 0 <= n < 4294967296 ->
  strncmp m p q n = Ok (str_diff (take (Z.to_nat n) l1) (take (Z.to_nat n) l2)).
Proof.
  intros Hp Hq Hn. destruct (strncmp_runs m (Z.to_nat n) l1 l2 p q Hp Hq) as (k & Hk & Hr); [lia|].
  unfold strncmp. rewrite u32_small by lia. rewrite Z2Nat.id in Hr by lia.
  eapply while_runs; [done|lia].
Qed.

(** ** Searching *)

(** Offset of the first occurrence of a byte. *)
Fixpoint find_char (c : Z) (l : list Z) : option Z :=
  match l with
  | [] => None
  | a :: l' => if a =? c then Some 0 else (fun i => i + 1) <$> find_char c l'
  end.

Lemma find_char_bound c l : 0 <= default (Z.of_nat (length l)) (find_char c l) <= Z.of_nat (length l).
Proof.
  induction l as [|a l IH]; [done|]. cbn [find_char length]. destruct (a =? c); [simpl; lia|].
  destruct (find_char c l); simpl in *; lia.
Qed.

Lemma s8_eq_u8 a c : is_byte a -> (s8 a =? s8 c) = (a =? u8 c).
Proof.
  intros Ha. apply eq_true_iff_eq. rewrite !Z.eqb_eq. zlia.
Qed.

Lemma padd_succ p (o : option Z) d :
  match (fun i => i + 1) <$> o with Some i => padd p i | None => d end =
  match o with Some i => padd (padd p 1) i | None => d end.
Proof. destruct o as [i|]; [|done]. simpl. rewrite padd_padd. f_equal. lia. Qed.

Lemma strchr_runs m c l : forall p, cstr m p l ->
  exists n, (n <= S (length l))%nat /\
    runs (strchr_body m c) n p
      (Ok (match find_char (u8 c) l with Some i => padd p i | None => Null end)).
Proof.
  induction l as [|a l IH]; intros p Hp; cbn [cstr find_char length] in *.
  - exists 1%nat. split; [lia|]. apply runs_done. unfold strchr_body, loadc. rewrite Hp.
    by red_bind.
  - destruct Hp as (Hp & Ha & Hp').
    assert (is_byte a) by (unfold is_byte; lia).
    assert ((s8 a =? 0) = false) as H0 by (rewrite Z.eqb_neq, s8_zero by done; lia).
    destruct (Z.eqb_spec a (u8 c)) as [->|Hne].
    + exists 1%nat. split; [lia|]. apply runs_done. unfold strchr_body, loadc. rewrite Hp.
      red_bind. by rewrite H0, s8_eq_u8, Z.eqb_refl, padd_0 by done.
    + destruct (IH _ Hp') as (n & Hn & Hr). exists (S n). split; [lia|].
      rewrite padd_succ. eapply runs_step; [|done]. unfold strchr_body, loadc. rewrite Hp.
      red_bind. by rewrite H0, s8_eq_u8, (proj2 (Z.eqb_neq _ _) Hne) by done.
Qed.

(** [strchr]: the first occurrence of the character, or null.  The
    terminating NUL is never found. *)
Lemma strchr_spec m p l c :
  cstr m p l -> Z.of_nat (length l) < 4294967296 ->
  strchr m p c = Ok (match find_char (u8 c) l with Some i => padd p i | None => Null end).
Proof.
  intros Hp Hl. destruct (strchr_runs m c l p Hp) as (n & Hn & Hr).
  unfold strchr. eapply while_runs; [done|lia].
Qed.

Lemma strfind_runs m c l : forall p, cstr m p l ->
  exists n, (n <= S (length l))%nat /\
    runs (strfind_body m c) n p
      (Ok (padd p (default (Z.of_nat (length l)) (find_char (u8 c) l)))).
Proof.
  induction l as [|a l IH]; intros p Hp; cbn [cstr find_char length] in *.
  - exists 1%nat. split; [lia|]. apply runs_done. unfold strfind_body, loadc. rewrite Hp.
    red_bind. simpl. by rewrite padd_0.
  - destruct Hp as (Hp & Ha & Hp').
    assert (is_byte a) by (unfold is_byte; lia).
    assert ((s8 a =? 0) = false) as H0 by (rewrite Z.eqb_neq, s8_zero by done; lia).
    destruct (Z.eqb_spec a (u8 c)) as [->|Hne].
    + exists 1%nat. split; [lia|]. apply runs_done. unfold strfind_body, loadc. rewrite Hp.
      red_bind. simpl. by rewrite H0, s8_eq_u8, Z.eqb_refl, padd_0 by done.
    + destruct (IH _ Hp') as (n & Hn & Hr). exists (S n). split; [lia|].
      replace (default (Z.of_nat (S (length l))) ((λ i : Z, i + 1) <$> find_char (u8 c) l))
        with (1 + default (Z.of_nat (length l)) (find_char (u8 c) l))
        by (destruct (find_char (u8 c) l); simpl; lia).
      rewrite <- padd_padd. eapply runs_step; [|done]. unfold strfind_body, loadc. rewrite Hp.
      red_bind. by rewrite H0, s8_eq_u8, (proj2 (Z.eqb_neq _ _) Hne) by done.
Qed.

(** [strfind]: the first occurrence of the character, or the terminating NUL. *)
Lemma strfind_spec m p l c :
  cstr m p l -> Z.of_nat (length l) < 4294967296 ->
  strfind m p c = Ok (padd p (default (Z.of_nat (length l)) (find_char (u8 c) l))).
Proof.
  intros Hp Hl. destruct (strfind_runs m c l p Hp) as (n & Hn & Hr).
  unfold strfind. eapply while_runs; [done|lia].
Qed.

(** ** memset and memmove *)

Lemma rep_stos_write al cnt : forall m edi,
  mapped m edi (Z.of_nat (length al * cnt)) -> Forall is_byte al ->
  rep_stos al cnt m edi = Ok (write_bytes m edi (mjoin (replicate cnt al))).
Proof.
  induction cnt as [|cnt IH]; intros m edi Hm Ha; [done|].
  cbn [rep_stos replicate]. rewrite storen_write; [|eapply mapped_weaken; [done|lia|nia]|done].
  red_bind. rewrite IH; [|apply write_bytes_mapped; eapply mapped_weaken; [done|lia|nia]|done].
  f_equal. symmetry. apply write_bytes_app.
Qed.

Lemma rep_movs_up w cnt : forall m d s l,
  length l = (w * cnt)%nat -> bytes m (Addr s) l -> Forall is_byte l ->
  mapped m d (Z.of_nat (length l)) -> fwd_ok (Addr s) (Z.of_nat (length l)) d ->
  rep_movs w false cnt m d s = Ok (write_bytes m d l).
Proof.
  induction cnt as [|cnt IH]; intros m d s l Hl Hs Hb Hm Hf; cbn [fwd_ok] in Hf.
  { destruct l; [done|simpl in Hl; lia]. }
  destruct (split_at l w) as (l1 & l2 & -> & Hw); [nia|].
  rewrite length_app in Hl, Hm, Hf. apply bytes_app in Hs as [H1 H2].
  apply Forall_app in Hb as [Hb1 Hb2]. cbn [rep_movs].
  rewrite <- Hw, (loadn_bytes _ _ _ H1), Hw. red_bind.
  rewrite storen_write; [|eapply mapped_weaken; [done|lia|lia]|done]. red_bind.
  rewrite write_bytes_app. rewrite Hw in *. apply IH; try done.
  - nia.
  - apply bytes_lookup. intros i b Hi. pose proof (lookup_lt_Some _ _ _ Hi).
    rewrite write_bytes_out by lia. cbn [padd] in H2. rewrite bytes_lookup in H2. by apply H2.
  - apply write_bytes_mapped. eapply mapped_weaken; [done|lia|lia].
  - cbn [fwd_ok]. lia.
Qed.

Lemma rep_movs_down w cnt : forall m d s l,
  length l = (w * cnt)%nat -> bytes m (Addr s) l -> Forall is_byte l ->
  mapped m d (Z.of_nat (length l)) -> s <= d ->
  rep_movs w true cnt m (d + Z.of_nat (length l) - Z.of_nat w)
    (s + Z.of_nat (length l) - Z.of_nat w) = Ok (write_bytes m d l).
Proof.
  induction cnt as [|cnt IH]; intros m d s l Hl Hs Hb Hm Hf.
  { destruct l; [done|simpl in Hl; lia]. }
  destruct (split_at l (w * cnt)) as (l1 & l2 & -> & Hw1); [nia|].
  rewrite length_app in *. assert (length l2 = w) as Hw2 by nia. apply bytes_app in Hs as [H1 H2].
  apply Forall_app in Hb as [Hb1 Hb2]. cbn [rep_movs padd] in *.
  replace (s + Z.of_nat (length l1 + length l2) - Z.of_nat w) with (s + Z.of_nat (length l1)) by lia.
  replace (d + Z.of_nat (length l1 + length l2) - Z.of_nat w) with (d + Z.of_nat (length l1)) by lia.
  rewrite <- Hw2, (loadn_bytes _ _ _ H2), Hw2. red_bind.
  rewrite storen_write; [|eapply mapped_weaken; [done|lia|lia]|done]. red_bind.
  rewrite write_bytes_app, write_bytes_comm by lia.
  replace (s + Z.of_nat (length l1) + - Z.of_nat w) with (s + Z.of_nat (length l1) - Z.of_nat w) by lia.
  replace (d + Z.of_nat (length l1) + - Z.of_nat w) with (d + Z.of_nat (length l1) - Z.of_nat w) by lia.
  apply IH; try done.
  - apply bytes_lookup. intros i b Hi. pose proof (lookup_lt_Some _ _ _ Hi).
    rewrite write_bytes_out by lia. rewrite bytes_lookup in H1. by apply H1.
  - apply write_bytes_mapped. eapply mapped_weaken; [done|lia|lia].
Qed.

(** The stores of a [memmove], whichever instruction it picks. *)
Lemma memmove_write m d s l :
  bytes m (Addr s) l -> Forall is_byte l -> mapped m d (Z.of_nat (length l)) ->
  Z.of_nat (length l) < 4294967296 ->
  memmove m d s (Z.of_nat (length l)) = Ok (d, write_bytes m d l).
Proof.
  intros Hs Hb Hm Hl. unfold memmove. rewrite u32_small by lia.
  destruct ((s <? d) && (s + Z.of_nat (length l) >? d)) eqn:Hc.
  - apply andb_true_iff in Hc as [Hc _]. apply Z.ltb_lt in Hc.
    destruct (aligned4 (s + Z.of_nat (length l)) && aligned4 (d + Z.of_nat (length l)) &&
              (Z.of_nat (length l) mod 4 =? 0)) eqn:Ha.
    + apply andb_true_iff in Ha as [_ Ha]. apply Z.eqb_eq in Ha.
      rewrite (rep_movs_down 4 _ m d s l); [by red_bind|first [done|zlia]..].
    + rewrite (rep_movs_down 1 _ m d s l); [by red_bind|first [done|zlia]..].
  - assert (fwd_ok (Addr s) (Z.of_nat (length l)) d) as Hf.
    { apply andb_false_iff in Hc as [Hc|Hc]; [apply Z.ltb_ge in Hc|]; cbn; [lia|].
      destruct (Z.gtb_spec (s + Z.of_nat (length l)) d); [done|lia]. }
    destruct (aligned4 s && aligned4 d && (Z.of_nat (length l) mod 4 =? 0)) eqn:Ha.
    + apply andb_true_iff in Ha as [_ Ha]. apply Z.eqb_eq in Ha.
      rewrite (rep_movs_up 4 _ m d s l); [by red_bind|first [done|zlia]..].
    + rewrite (rep_movs_up 1 _ m d s l); [by red_bind|first [done|zlia]..].
Qed.

(** The four copies of the fill byte in the accumulator. *)
Definition memset_word (c : Z) : Z :=
  let c := Z.land c 255 in
  s32 (Z.lor (Z.lor (Z.lor (Z.shiftl c 24) (Z.shiftl c 16)) (Z.shiftl c 8)) c).

Lemma memset_word_split c : le_split 4 (memset_word c) = replicate 4 (u8 c).
Proof.
  unfold memset_word. change 255 with (Z.ones 8). rewrite Z.land_ones by lia.
  change (c mod 2 ^ 8) with (u8 c). pose proof (u8_range c) as Hr. revert Hr.
  generalize (u8 c). clear c. intros b Hb.
  change (is_byte b) in Hb. revert b Hb. refine (byte_forall _ _). vm_compute. reflexivity.
Qed.

Lemma memset_write m v c n :
  mapped m v n -> 0 <= n < 4294967296 ->
  memset m v c n = Ok (v, write_bytes m v (replicate (Z.to_nat n) (u8 c))).
Proof.
  intros Hm Hn. unfold memset. rewrite u32_small by lia. fold (memset_word c).
  destruct (Z.eqb_spec n 0) as [->|Hn0]; [done|].
  destruct (aligned4 v && (n mod 4 =? 0)) eqn:Ha.
  - apply andb_true_iff in Ha as [_ Ha]. apply Z.eqb_eq in Ha.
    rewrite rep_stos_write; [|rewrite length_le_split; eapply mapped_weaken; [done|lia|zlia]|auto with jos].
    red_bind. do 3 f_equal. rewrite memset_word_split.
    replace (Z.to_nat n) with (4 * Z.to_nat (n / 4))%nat by zlia.
    generalize (Z.to_nat (n / 4)). intros k. clear.
    induction k as [|k IH]; [done|]. cbn [replicate]. simpl mjoin.
    replace (4 * S k)%nat with (4 + 4 * k)%nat by lia.
    rewrite replicate_add, <- IH. done.
  - rewrite rep_stos_write; [|eapply mapped_weaken; [done|lia|simpl; lia]|auto with jos].
    red_bind. do 3 f_equal. clear. cbn [le_split].
    induction (Z.to_nat n) as [|k IH]; [done|]. cbn [replicate]. simpl mjoin. by rewrite IH.
Qed.

Lemma memmove_c_up_runs k : forall m d s l,
  length l = k -> bytes m (Addr s) l -> Forall is_byte l ->
  mapped m d (Z.of_nat k) -> fwd_ok (Addr s) (Z.of_nat k) d ->
  runs memmove_c_up (S k) (m, d, s, Z.of_nat k) (Ok (write_bytes m d l)).
Proof.
  induction k as [|k IH]; intros m d s l Hl Hs Hb Hm Hf; (destruct l as [|b l]; [try done|try done]).
  - by apply runs_done.
  - destruct Hs as [H1 H2]. apply Forall_cons in Hb as [Hb1 Hb2]. cbn [fwd_ok padd] in *.
    eapply runs_step.
    + unfold memmove_c_up. destruct (Z.gtb_spec (Z.of_nat (S k)) 0); [|lia]. rewrite H1.
      red_bind. rewrite store8_ok by (apply Hm; lia). red_bind.
      replace (Z.of_nat (S k) - 1) with (Z.of_nat k) by lia. rewrite u8_small by done. done.
    + rewrite <- write_bytes_insert. apply IH; try done; [simpl in Hl; lia|..].
      * apply bytes_lookup. intros i x Hi. pose proof (lookup_lt_Some _ _ _ Hi).
        rewrite bytes_lookup in H2. rewrite lookup_insert_ne; [by apply H2|simpl in Hl; lia].
      * apply mapped_insert. eapply mapped_weaken; [done|lia|lia].
      * cbn. lia.
Qed.

Lemma memmove_c_down_runs k : forall m d s l,
  length l = k -> bytes m (Addr s) l -> Forall is_byte l ->
  mapped m d (Z.of_nat k) -> s <= d ->
  runs memmove_c_down (S k) (m, d + Z.of_nat k, s + Z.of_nat k, Z.of_nat k)
    (Ok (write_bytes m d l)).
Proof.
  induction k as [|k IH]; intros m d s l Hl Hs Hb Hm Hf.
  { destruct l; [by apply runs_done|done]. }
  destruct (split_at l k) as (l1 & l2 & -> & Hk); [lia|].
  rewrite length_app in Hl. destruct l2 as [|b [|? ?]]; [simpl in Hl; lia| |simpl in Hl; lia].
  apply bytes_app in Hs as [H1 [H2 _]]. apply Forall_app in Hb as [Hb1 Hb2].
  apply Forall_cons in Hb2 as [Hb2 _]. rewrite Hk in H2. cbn [padd] in H2.
  eapply runs_step.
  - unfold memmove_c_down. destruct (Z.gtb_spec (Z.of_nat (S k)) 0); [|lia].
    replace (s + Z.of_nat (S k) - 1) with (s + Z.of_nat k) by lia.
    replace (d + Z.of_nat (S k) - 1) with (d + Z.of_nat k) by lia. rewrite H2. red_bind.
    rewrite store8_ok by (apply Hm; lia). red_bind.
    replace (Z.of_nat (S k) - 1) with (Z.of_nat k) by lia. rewrite u8_small by done. done.
  - rewrite write_bytes_app, Hk, write_bytes_comm by lia. apply IH; try done.
    + apply bytes_lookup. intros i x Hi. pose proof (lookup_lt_Some _ _ _ Hi).
      rewrite bytes_lookup in H1. cbn [write_bytes]. rewrite lookup_insert_ne; [by apply H1|lia].
    + apply write_bytes_mapped. eapply mapped_weaken; [done|lia|lia].
Qed.

Lemma memmove_c_write m d s l :
  bytes m (Addr s) l -> Forall is_byte l -> mapped m d (Z.of_nat (length l)) ->
  Z.of_nat (length l) < 4294967296 ->
  memmove_c m d s (Z.of_nat (length l)) = Ok (d, write_bytes m d l).
Proof.
  intros Hs Hb Hm Hl. unfold memmove_c. rewrite u32_small by lia.
  destruct ((s <? d) && (s + Z.of_nat (length l) >? d)) eqn:Hc.
  - apply andb_true_iff in Hc as [Hc _]. apply Z.ltb_lt in Hc.
    erewrite while_runs; [|eapply memmove_c_down_runs; try done; lia|lia]. by red_bind.
  - erewrite while_runs; [|eapply memmove_c_up_runs; try done|lia]; [by red_bind|].
    apply andb_false_iff in Hc as [Hc|Hc]; [apply Z.ltb_ge in Hc|]; cbn; [lia|].
    destruct (Z.gtb_spec (s + Z.of_nat (length l)) d); [done|lia].
Qed.

Lemma memset_c_runs k c : forall m p,
  mapped m p (Z.of_nat k) -> Z.of_nat k < 2147483648 ->
  runs (memset_c_body c) (S k) (m, p, Z.of_nat k) (Ok (write_bytes m p (replicate k (u8 c)))).
Proof.
  induction k as [|k IH]; intros m p Hm Hk.
  - by apply runs_done.
  - eapply runs_step.
    + unfold memset_c_body. rewrite s32_small by lia.
      replace (Z.of_nat (S k) - 1) with (Z.of_nat k) by lia.
      rewrite (proj2 (Z.geb_le _ 0)) by lia. rewrite store8_ok by (apply Hm; lia). by red_bind.
    + cbn [replicate]. rewrite <- write_bytes_insert. apply IH; [|lia].
      apply mapped_insert. eapply mapped_weaken; [done|lia|lia].
Qed.

(** C15: [memmove] copies the source block as it was before the call, whether
    or not the blocks overlap and whichever of its four string instructions
    (up or down, by bytes or by words) it picks; it changes no other byte and
    returns [dst]. *)
Theorem memmove_spec m d s l :
  bytes m (Addr s) l -> Forall is_byte l -> mapped m d (Z.of_nat (length l)) ->
  Z.of_nat (length l) < 4294967296 ->
  exists m', memmove m d s (Z.of_nat (length l)) = Ok (d, m') /\
    bytes m' (Addr d) l /\ same_outside d (Z.of_nat (length l)) m m'.
Proof.
  intros Hs Hb Hm Hl. exists (write_bytes m d l). split_and!.
  - by apply memmove_write.
  - auto with jos.
  - apply write_bytes_same_outside.
Qed.

Lemma memmove_spec_witness :
  exists m', memmove (write_bytes ∅ 64 [1; 2; 3; 4; 5; 6]) 66 64 4 = Ok (66, m') /\
    bytes m' (Addr 66) [1; 2; 3; 4] /\
    same_outside 66 4 (write_bytes ∅ 64 [1; 2; 3; 4; 5; 6]) m'.
Proof. apply (memmove_spec _ 66 64 [1; 2; 3; 4]); decided. Defined.


(** C32: the assembly [memmove] and the portable one under [#else] have the
    same result and the same effect on memory, overlapping blocks included. *)
Theorem memmove_asm_c m d s l :
  bytes m (Addr s) l -> Forall is_byte l -> mapped m d (Z.of_nat (length l)) ->
  Z.of_nat (length l) < 4294967296 ->
  memmove m d s (Z.of_nat (length l)) = memmove_c m d s (Z.of_nat (length l)).
Proof. intros. by rewrite memmove_write, memmove_c_write. Qed.

Lemma memmove_asm_c_witness :
  memmove (write_bytes ∅ 64 [1; 2; 3; 4; 5; 6; 7; 8]) 68 64 4 =
  memmove_c (write_bytes ∅ 64 [1; 2; 3; 4; 5; 6; 7; 8]) 68 64 4.
Proof. apply (memmove_asm_c _ 68 64 [1; 2; 3; 4]); decided. Defined.


(** The assembly [memset], by words or by bytes, and the portable one
    agree on every block of fewer than 2^31 bytes. *)
Theorem memset_asm_c m v c n :
  mapped m v n -> 0 <= n < 2147483648 -> memset m v c n = memset_c m v c n.
Proof.
  intros Hm Hn. rewrite memset_write by (done || lia). unfold memset_c.
  rewrite u32_small, s32_small by lia. rewrite <- (Z2Nat.id n) in Hm |- * by lia.
  erewrite while_runs; [|apply memset_c_runs; [done|lia]|lia]. red_bind. by rewrite Nat2Z.id.
Qed.

Lemma memset_asm_c_witness :
  memset (write_bytes ∅ 64 [1; 2; 3; 4]) 64 288 4 = memset_c (write_bytes ∅ 64 [1; 2; 3; 4]) 64 288 4.
Proof. apply (memset_asm_c _ 64 288 4); decided. Defined.


(** ** memcmp and memfind *)

Lemma memcmp_runs m l1 : forall l2 p q,
  length l1 = length l2 -> bytes m p l1 -> bytes m q l2 ->
  exists k, (k <= S (length l1))%nat /\
    runs (memcmp_body m) k (p, q, Z.of_nat (length l1)) (Ok (str_diff l1 l2)).
Proof.
  induction l1 as [|a l1 IH]; intros [|b l2] p q Hl Hp Hq; try done.
  - exists 1%nat. split; [lia|]. by apply runs_done.
  - destruct Hp as [Hp Hp'], Hq as [Hq Hq']. cbn [str_diff].
    destruct (Z.eqb_spec a b) as [->|Hne].
    + destruct (IH l2 _ _ ltac:(simpl in Hl; lia) Hp' Hq') as (k & Hk & Hr).
      exists (S k). split; [simpl; lia|]. eapply runs_step; [|done]. unfold memcmp_body.
      destruct (Z.gtb_spec (Z.of_nat (length (b :: l1))) 0); [|simpl in *; lia].
      rewrite Hp, Hq. red_bind. rewrite Z.eqb_refl. cbn [negb]. do 3 f_equal. simpl. lia.
    + exists 1%nat. split; [lia|]. apply runs_done. unfold memcmp_body.
      destruct (Z.gtb_spec (Z.of_nat (length (a :: l1))) 0); [|simpl in *; lia].
      rewrite Hp, Hq. red_bind. by rewrite (proj2 (Z.eqb_neq a b)).
Qed.

(** [memcmp] compares blocks of [n] bytes as unsigned characters. *)
Lemma memcmp_spec m p q l1 l2 :
  length l1 = length l2 -> bytes m p l1 -> bytes m q l2 ->
  Z.of_nat (length l1) < 4294967296 ->
  memcmp m p q (Z.of_nat (length l1)) = Ok (str_diff l1 l2).
Proof.
  intros Hl Hp Hq Hn. destruct (memcmp_runs m l1 l2 p q Hl Hp Hq) as (k & Hk & Hr).
  unfold memcmp. rewrite u32_small by lia. eapply while_runs; [done|lia].
Qed.

Lemma memfind_runs m c l : forall p,
  bytes m p l -> Forall is_byte l ->
  exists k, (k <= S (length l))%nat /\
    runs (memfind_body m (padd p (Z.of_nat (length l))) c) k p
      (Ok (padd p (default (Z.of_nat (length l)) (find_char (u8 c) l)))).
Proof.
  induction l as [|a l IH]; intros p Hp Hb.
  - exists 1%nat. split; [lia|]. apply runs_done. unfold memfind_body. simpl. rewrite padd_0.
    rewrite <- (padd_0 p) at 1. by rewrite psub_padd.
  - destruct Hp as [Hp Hp']. apply Forall_cons in Hb as [Ha Hb].
    assert (psub p (padd p (Z.of_nat (length (a :: l)))) =
            Ok (- Z.of_nat (length (a :: l)))) as Hps.
    { destruct p; simpl; [|rewrite decide_True by done]; f_equal; lia. }
    cbn [find_char]. destruct (Z.eqb_spec a (u8 c)) as [->|Hne].
    + exists 1%nat. split; [lia|]. apply runs_done. unfold memfind_body. rewrite Hps. red_bind.
      rewrite (proj2 (Z.ltb_lt _ 0)) by (simpl; lia). rewrite Hp. red_bind.
      rewrite Z.eqb_refl. simpl. by rewrite padd_0.
    + destruct (IH _ Hp' Hb) as (k & Hk & Hr). exists (S k). split; [simpl; lia|].
      replace (default (Z.of_nat (length (a :: l))) ((λ i : Z, i + 1) <$> find_char (u8 c) l))
        with (1 + default (Z.of_nat (length l)) (find_char (u8 c) l))
        by (destruct (find_char (u8 c) l); simpl; lia).
      rewrite <- padd_padd. rewrite padd_padd in Hr.
      replace (1 + Z.of_nat (length l)) with (Z.of_nat (length (a :: l))) in Hr by (simpl; lia).
      eapply runs_step; [|done]. unfold memfind_body. rewrite Hps. red_bind.
      rewrite (proj2 (Z.ltb_lt _ 0)) by (simpl; lia). rewrite Hp. red_bind.
      by rewrite (proj2 (Z.eqb_neq _ _) Hne).
Qed.

(** [memfind]: the first occurrence of the byte in the block, or its end. *)
Lemma memfind_spec m p l c :
  bytes m p l -> Forall is_byte l -> Z.of_nat (length l) < 4294967296 ->
  memfind m p c (Z.of_nat (length l)) =
    Ok (padd p (default (Z.of_nat (length l)) (find_char (u8 c) l))).
Proof.
  intros Hp Hb Hl. destruct (memfind_runs m c l p Hp Hb) as (k & Hk & Hr).
  unfold memfind. rewrite u32_small by lia. eapply while_runs; [done|lia].
Qed.

(** ** strtol against its description on lists *)

Definition ref_blank (c : Z) : bool := (c =? 32) || (c =? 9).

Fixpoint ref_space (l : list Z) : list Z :=
  match l with
  | c :: l' => if ref_blank c then ref_space l' else l
  | [] => []
  end.

Definition ref_sign (l : list Z) : list Z * bool :=
  match l with
  | c :: l' => if c =? 43 then (l', false) else if c =? 45 then (l', true) else (l, false)
  | [] => (l, false)
  end.

(** The prefix [0x] for bases 0 and 16, [0] for base 0. *)
Definition ref_prefix (base : Z) (l : list Z) : list Z * Z :=
  match l with
  | 48 :: 120 :: l' =>
      if (base =? 0) || (base =? 16) then (l', 16) else (l, base)
  | 48 :: l' => if base =? 0 then (l', 8) else (l, base)
  | _ => (l, if base =? 0 then 10 else base)
  end.

(** The digits in order, in both cases of the letters; a digit's value is its
    place. *)
Definition numerals : list (list Z) :=
  [bytes_of "0123456789abcdefghijklmnopqrstuvwxyz"; bytes_of "0123456789ABCDEFGHIJKLMNOPQRSTUVWXYZ"].

Definition ref_digit (c : Z) : option Z :=
  head (omap (fun ds => (fun p => Z.of_nat p.1) <$> list_find (c =.) ds) numerals).

Fixpoint ref_digits (base val : Z) (l : list Z) : Z * list Z :=
  match l with
  | c :: l' =>
      match ref_digit c with
      | Some d => if d <? base then ref_digits base (s32 (val * base + d)) l' else (val, l)
      | None => (val, l)
      end
  | [] => (val, [])
  end.

(** Value and unread rest. *)
Definition ref_strtol (l : list Z) (base : Z) : Z * list Z :=
  let '(l, neg) := ref_sign (ref_space l) in
  let '(l, base) := ref_prefix base l in
  let '(val, l) := ref_digits base 0 l in
  (if neg : bool then s32 (- val) else val, l).

(** [p] is [rest] characters before the end of the string [l] at [p0]. *)
Definition at_rest (m : mem) (p0 : ptr) (l : list Z) (p : ptr) (rest : list Z) : Prop :=
  cstr m p rest /\ (length rest <= length l)%nat /\
  p = padd p0 (Z.of_nat (length l) - Z.of_nat (length rest)).

Lemma at_rest_tail m p0 l p c rest :
  at_rest m p0 l p (c :: rest) -> at_rest m p0 l (padd p 1) rest.
Proof.
  intros (Hc & Hl & ->). simpl in Hc, Hl. split_and!; [naive_solver|lia|].
  rewrite padd_padd. f_equal. simpl. lia.
Qed.

(** The signed character at the head of the unread part (0 at the end). *)
Lemma at_rest_loadc m p0 l p rest :
  at_rest m p0 l p rest -> loadc m p = Ok (s8 (hd 0 rest)).
Proof.
  intros [Hc _]. unfold loadc. destruct rest as [|c rest]; simpl in Hc.
  - by rewrite Hc.
  - destruct Hc as (-> & _). done.
Qed.

Lemma s8_eqb_ascii c k : is_byte c -> 0 <= k < 128 -> (s8 c =? k) = (c =? k).
Proof. intros Hc Hk. apply eq_true_iff_eq. rewrite !Z.eqb_eq. zlia. Qed.

Lemma strtol_digit_ref c : is_byte c -> strtol_digit (s8 c) = ref_digit c.
Proof.
  revert c. refine (byte_forall _ _). vm_compute. reflexivity.
Qed.

Lemma strtol_space_runs m p0 l rest : forall p,
  at_rest m p0 l p rest ->
  exists k q, (k <= S (length rest))%nat /\
    runs (strtol_space m) k p (Ok q) /\ at_rest m p0 l q (ref_space rest).
Proof.
  induction rest as [|c rest IH]; intros p Hp;
    pose proof (at_rest_loadc _ _ _ _ _ Hp) as Hc; cbn [hd ref_space] in *.
  - exists 1%nat, p. split_and!; [lia| |done]. apply runs_done. unfold strtol_space. rewrite Hc.
    by red_bind.
  - assert (is_byte c) as Hcb by (destruct Hp as [Hp _]; simpl in Hp; unfold is_byte; lia).
    assert (strtol_space m p = Ok (if ref_blank c then inl (padd p 1) else inr p)) as Hb.
    { unfold strtol_space, ref_blank. rewrite Hc. red_bind.
      rewrite !s8_eqb_ascii by (done || lia). by destruct (_ || _). }
    destruct (ref_blank c).
    + destruct (IH _ (at_rest_tail _ _ _ _ _ _ Hp)) as (k & q & Hk & Hr & Hq).
      exists (S k), q. split_and!; [simpl; lia|by eapply runs_step|done].
    + exists 1%nat, p. split_and!; [lia|by apply runs_done|done].
Qed.

Lemma strtol_digits_runs m p0 l base rest : forall p val,
  at_rest m p0 l p rest ->
  exists k q, (k <= S (length rest))%nat /\
    runs (strtol_body m base) k (p, val) (Ok (q, (ref_digits base val rest).1)) /\
    at_rest m p0 l q (ref_digits base val rest).2.
Proof.
  induction rest as [|c rest IH]; intros p val Hp;
    pose proof (at_rest_loadc _ _ _ _ _ Hp) as Hc; cbn [hd ref_digits] in *.
  - exists 1%nat, p. split_and!; [lia| |done]. apply runs_done. unfold strtol_body. rewrite Hc.
    by red_bind.
  - assert (is_byte c) as Hcb by (destruct Hp as [Hp _]; simpl in Hp; unfold is_byte; lia).
    assert (strtol_body m base (p, val) = Ok (match ref_digit c with
      | Some d => if d <? base then inl (padd p 1, s32 (val * base + d)) else inr (p, val)
      | None => inr (p, val) end)) as Hb.
    { unfold strtol_body. rewrite Hc. red_bind. rewrite strtol_digit_ref by done.
      destruct (ref_digit c) as [d|]; [|done].
      destruct (Z.geb_spec d base), (Z.ltb_spec d base); done || lia. }
    destruct (ref_digit c) as [d|]; [destruct (d <? base)|].
    + destruct (IH _ (s32 (val * base + d)) (at_rest_tail _ _ _ _ _ _ Hp)) as (k & q & Hk & Hr & Hq).
      exists (S k), q. split_and!; [simpl; lia|by eapply runs_step|done].
    + exists 1%nat, p. split_and!; [lia|by apply runs_done|done].
    + exists 1%nat, p. split_and!; [lia|by apply runs_done|done].
Qed.

Lemma strtol_prefix_rest m p0 l base p rest :
  at_rest m p0 l p rest ->
  exists q, strtol_prefix m p base = Ok (q, (ref_prefix base rest).2) /\
    at_rest m p0 l q (ref_prefix base rest).1.
Proof.
  intros Hp. pose proof (at_rest_loadc _ _ _ _ _ Hp) as Hc.
  assert (forall c, c = hd 0 rest -> is_byte c) as Hcb.
  { intros c ->. destruct Hp as [Hp _], rest; simpl in *; unfold is_byte; lia. }
  unfold strtol_prefix. rewrite Hc. red_bind. rewrite s8_eqb_ascii by (auto || lia).
  destruct (Z.eqb_spec (hd 0 rest) 48) as [H48|H48].
  - destruct rest as [|c0 rest]; [done|]. simpl in H48. subst c0.
    pose proof (at_rest_tail _ _ _ _ _ _ Hp) as Hp1.
    pose proof (at_rest_loadc _ _ _ _ _ Hp1) as Hc1. rewrite Hc1.
    destruct rest as [|c1 rest]; simpl hd in *.
    + exists (if base =? 0 then padd p 1 else p). cbn [ref_prefix]. red_bind.
      destruct (Z.eqb_spec base 0) as [->|]; [done|]. destruct (base =? 16); by red_bind.
    + assert (is_byte c1) by (destruct Hp1 as [Hp1 _]; simpl in *; unfold is_byte; lia).
      pose proof (at_rest_tail _ _ _ _ _ _ Hp1) as Hp2. rewrite padd_padd in Hp2.
      destruct (decide (c1 = 120)) as [->|Hx].
      * exists (if (base =? 0) || (base =? 16) then padd p 2 else p). cbn [ref_prefix].
        destruct ((base =? 0) || (base =? 16)) eqn:Hbase; [by red_bind|].
        red_bind. apply orb_false_iff in Hbase as [-> _]. done.
      * exists (if base =? 0 then padd p 1 else p).
        assert (ref_prefix base (48 :: c1 :: rest) =
                if base =? 0 then (c1 :: rest, 8) else (48 :: c1 :: rest, base)) as ->.
        { unfold is_byte in *. do 8 (destruct c1 as [|c1|c1]; try done; try lia). }
        red_bind. rewrite s8_eqb_ascii, (proj2 (Z.eqb_neq c1 120)) by (done || lia).
        destruct (Z.eqb_spec base 0) as [->|]; [done|]. destruct (base =? 16); by red_bind.
  - exists p. assert (ref_prefix base rest = (rest, if base =? 0 then 10 else base)) as ->.
    { destruct rest as [|c0 rest]; [done|]. simpl in H48. unfold ref_prefix.
      repeat (match goal with |- context [match ?x with _ => _ end] => is_var x; destruct x end; try done). }
    replace (if (base =? 0) || (base =? 16) then Ok false else Ok false) with (Ok false)
      by (by destruct (_ || _)).
    red_bind. by destruct (base =? 0).
Qed.

Lemma strtol_sign_rest m p0 l p rest c :
  at_rest m p0 l p rest -> loadc m p = Ok c ->
  exists q, (if c =? 43 then (padd p 1, false)
             else if c =? 45 then (padd p 1, true) else (p, false)) = (q, (ref_sign rest).2) /\
    at_rest m p0 l q (ref_sign rest).1.
Proof.
  intros Hp Hc. rewrite (at_rest_loadc _ _ _ _ _ Hp) in Hc. injection Hc as <-.
  destruct rest as [|c rest]; [by exists p|]. cbn [hd ref_sign].
  assert (is_byte c) by (destruct Hp as [Hp _]; simpl in Hp; unfold is_byte; lia).
  rewrite !s8_eqb_ascii by (done || lia).
  destruct (c =? 43); [eexists; split; [done|by eapply at_rest_tail]|].
  destruct (c =? 45); [eexists; split; [done|by eapply at_rest_tail]|]. by exists p.
Qed.

Lemma strtol_ref m p l base :
  cstr m p l -> Z.of_nat (length l) < 4294967296 ->
  strtol m p base =
    Ok ((ref_strtol l base).1,
        padd p (Z.of_nat (length l) - Z.of_nat (length (ref_strtol l base).2))).
Proof.
  intros Hp Hl. assert (at_rest m p l p l) as H0.
  { split_and!; [done|lia|]. by rewrite Z.sub_diag, padd_0. }
  destruct (strtol_space_runs _ _ _ _ _ H0) as (k1 & q1 & Hk1 & Hr1 & H1).
  unfold strtol, ref_strtol. rewrite (while_runs _ _ _ _ Hr1) by lia. red_bind.
  pose proof (at_rest_loadc _ _ _ _ _ H1) as Hc1. rewrite Hc1. red_bind.
  destruct (strtol_sign_rest _ _ _ _ _ _ H1 Hc1) as (q2 & -> & H2).
  destruct (ref_sign (ref_space l)) as [r2 neg]. cbn [fst snd] in *.
  destruct (strtol_prefix_rest _ _ _ base _ _ H2) as (q3 & -> & H3). red_bind.
  destruct (ref_prefix base r2) as [r3 base'] eqn:E3. cbn [fst snd] in *.
  destruct (strtol_digits_runs _ _ _ base' _ _ 0 H3) as (k4 & q4 & Hk4 & Hr4 & (_ & _ & ->)).
  rewrite (while_runs _ _ _ _ Hr4). 2: { destruct H3 as (_ & ? & _). lia. } red_bind.
  destruct (ref_digits base' 0 r3) as [v r4]. done.
Qed.

(** C11: [strtol] stops on every string and implements its description on
    lists: leading blanks, an optional sign, the base prefix, then the longest
    run of digits of the base, accumulated with 32-bit wrap-around; the end
    pointer is where the first unread character is. *)
Theorem strtol_spec m p l base :
  cstr m p l -> Z.of_nat (length l) < 4294967296 ->
  strtol m p base =
    Ok ((ref_strtol l base).1,
        padd p (Z.of_nat (length l) - Z.of_nat (length (ref_strtol l base).2))).
Proof. apply strtol_ref. Qed.

Lemma strtol_spec_witness : strtol ∅ (lit " -0x1Fz") 0 = Ok (-31, padd (lit " -0x1Fz") 6).
Proof. apply (strtol_spec ∅ (lit " -0x1Fz") (bytes_of " -0x1Fz") 0); decided. Defined.

