(* ===== verification/Mmu.v ===== *)
(** inc/types.h, inc/mmu.h and inc/memlayout.h: rounding, the parts of a
    linear address, the memory map, segment and gate descriptors.

    A macro argument of type [uint32_t] or pointer is a [Z] reduced with
    [u32]; an assignment to a bit-field of [w] bits keeps [w] bits. *)
From S2P Require Import Prelude Mem.

(** ** inc/types.h *)

Definition MIN (a b : Z) : Z := if a <=? b then a else b.
Definition MAX (a b : Z) : Z := if a >=? b then a else b.

(** The cast back to the argument's type is [typ] ([u32] for an address or
    an unsigned, [s32] for a pointer difference). *)
Definition ROUNDDOWN (typ : Z -> Z) (a n : Z) : Z :=
  let a' := u32 a in typ (u32 (a' - a' mod n)).
Definition ROUNDUP (typ : Z -> Z) (a n : Z) : Z :=
  let n' := u32 n in typ (ROUNDDOWN u32 (u32 (u32 (u32 a + n') - 1)) n').

(** ** inc/mmu.h: linear addresses and page table entries *)

Definition NPDENTRIES : Z := 1024.
Definition NPTENTRIES : Z := 1024.
Definition PGSIZE : Z := 4096.
Definition PGSHIFT : Z := 12.
Definition PTSIZE : Z := PGSIZE * NPTENTRIES.
Definition PTSHIFT : Z := 22.
Definition PTXSHIFT : Z := 12.
Definition PDXSHIFT : Z := 22.

Definition PGNUM (la : Z) : Z := Z.shiftr (u32 la) PTXSHIFT.
Definition PDX (la : Z) : Z := Z.land (Z.shiftr (u32 la) PDXSHIFT) 0x3FF.
Definition PTX (la : Z) : Z := Z.land (Z.shiftr (u32 la) PTXSHIFT) 0x3FF.
Definition PGOFF (la : Z) : Z := Z.land (u32 la) 0xFFF.
Definition PGADDR (d t o : Z) : Z :=
  u32 (Z.lor (Z.lor (Z.shiftl d PDXSHIFT) (Z.shiftl t PTXSHIFT)) o).

Definition PTE_P : Z := 0x001.
Definition PTE_W : Z := 0x002.
Definition PTE_U : Z := 0x004.
Definition PTE_ADDR (pte : Z) : Z := Z.land (u32 pte) (u32 (Z.lnot 0xFFF)).

(** ** inc/memlayout.h *)

Definition KERNBASE : Z := 0xF0000000.
Definition IOPHYSMEM : Z := 0x0A0000.
Definition EXTPHYSMEM : Z := 0x100000.
Definition KSTACKTOP : Z := KERNBASE.
Definition KSTKSIZE : Z := 8 * PGSIZE.
Definition KSTKGAP : Z := 8 * PGSIZE.
Definition MMIOLIM : Z := KSTACKTOP - PTSIZE.
Definition MMIOBASE : Z := MMIOLIM - PTSIZE.
Definition ULIM : Z := MMIOBASE.
Definition UVPT : Z := ULIM - PTSIZE.
Definition UPAGES : Z := UVPT - PTSIZE.
Definition UENVS : Z := UPAGES - PTSIZE.
Definition UTOP : Z := UENVS.
Definition UXSTACKTOP : Z := UTOP.
Definition USTACKTOP : Z := UTOP - 2 * PGSIZE.
Definition UTEXT : Z := 2 * PTSIZE.
Definition UTEMP : Z := PTSIZE.
Definition PFTEMP : Z := UTEMP + PTSIZE - PGSIZE.
Definition USTABDATA : Z := PTSIZE / 2.

(** ** Segment descriptors *)

Record Segdesc := mkSegdesc {
  sd_lim_15_0 : Z; sd_base_15_0 : Z; sd_base_23_16 : Z; sd_type : Z; sd_s : Z;
  sd_dpl : Z; sd_p : Z; sd_lim_19_16 : Z; sd_avl : Z; sd_rsv1 : Z; sd_db : Z;
  sd_g : Z; sd_base_31_24 : Z }.

(** A value stored in a bit-field of [w] bits. *)
Definition field (w v : Z) : Z := v mod 2 ^ w.

(** Initialisation of the thirteen bit-fields, each cut to its width. *)
Definition segdesc (l15 b15 b23 ty s dpl p l19 avl rsv db g b31 : Z) : Segdesc :=
  mkSegdesc (field 16 l15) (field 16 b15) (field 8 b23) (field 4 ty) (field 1 s)
    (field 2 dpl) (field 1 p) (field 4 l19) (field 1 avl) (field 1 rsv) (field 1 db)
    (field 1 g) (field 8 b31).

Definition SEG_NULL : Segdesc := segdesc 0 0 0 0 0 0 0 0 0 0 0 0 0.
Definition SEG_FAULT : Segdesc := segdesc 0 0 0 0 1 0 1 0 0 0 1 0 0.
Definition SEG (type base lim dpl : Z) : Segdesc :=
  segdesc (Z.land (Z.shiftr lim 12) 0xffff) (Z.land base 0xffff)
    (Z.land (Z.shiftr base 16) 0xff) type 1 dpl 1 (Z.shiftr (u32 lim) 28) 0 0 1 1
    (Z.shiftr (u32 base) 24).
Definition SEG16 (type base lim dpl : Z) : Segdesc :=
  segdesc (Z.land lim 0xffff) (Z.land base 0xffff)
    (Z.land (Z.shiftr base 16) 0xff) type 1 dpl 1 (Z.shiftr (u32 lim) 16) 0 0 1 0
    (Z.shiftr (u32 base) 24).

(** The eight bytes of the bit-fields, allocated from the low bits upwards
    (gcc on i386). *)
Definition segdesc_bytes (d : Segdesc) : list Z :=
  le_split 2 (sd_lim_15_0 d) ++ le_split 2 (sd_base_15_0 d) ++
  [sd_base_23_16 d;
   sd_type d + 16 * (sd_s d + 2 * (sd_dpl d + 4 * sd_p d));
   sd_lim_19_16 d + 16 * (sd_avl d + 2 * (sd_rsv1 d + 2 * (sd_db d + 2 * sd_g d)));
   sd_base_31_24 d].

(** The assembler's [SEG(type,base,lim)] and [SEG_NULL], as bytes. *)
Definition SEG_asm (type base lim : Z) : list Z :=
  le_split 2 (Z.land (Z.shiftr lim 12) 0xffff) ++ le_split 2 (Z.land base 0xffff) ++
  [Z.land (Z.shiftr base 16) 0xff; Z.lor 0x90 type;
   Z.lor 0xC0 (Z.land (Z.shiftr lim 28) 0xf); Z.land (Z.shiftr base 24) 0xff].
Definition SEG_NULL_asm : list Z := le_split 2 0 ++ le_split 2 0 ++ [0; 0; 0; 0].

Definition STA_X : Z := 0x8.
Definition STA_W : Z := 0x2.
Definition STA_R : Z := 0x2.
Definition STS_CG32 : Z := 0xC.
Definition STS_IG32 : Z := 0xE.
Definition STS_TG32 : Z := 0xF.

(** ** Gate descriptors *)

Record Gatedesc := mkGatedesc {
  gd_off_15_0 : Z; gd_sel : Z; gd_args : Z; gd_rsv1 : Z; gd_type : Z; gd_s : Z;
  gd_dpl : Z; gd_p : Z; gd_off_31_16 : Z }.

Definition SETGATE (istrap : bool) (sel off dpl : Z) : Gatedesc :=
  mkGatedesc (field 16 (Z.land (u32 off) 0xffff)) (field 16 sel) 0 0
    (field 4 (if istrap then STS_TG32 else STS_IG32)) 0 (field 2 dpl) 1
    (field 16 (Z.shiftr (u32 off) 16)).

Definition SETCALLGATE (sel off dpl : Z) : Gatedesc :=
  mkGatedesc (field 16 (Z.land (u32 off) 0xffff)) (field 16 sel) 0 0
    (field 4 STS_CG32) 0 (field 2 dpl) 1 (field 16 (Z.shiftr (u32 off) 16)).

(** * Lemmas *)

(** Bit masks and shifts as arithmetic. *)
Lemma land_ones_mod z k : 0 <= k -> Z.land z (Z.ones k) = z mod 2 ^ k.
Proof. apply Z.land_ones. Qed.

Lemma PDX_arith la : PDX la = u32 la / 4194304.
Proof.
  unfold PDX, PDXSHIFT. change 0x3FF with (Z.ones 10).
  rewrite Z.shiftr_div_pow2, Z.land_ones by lia. change (2 ^ 22) with 4194304.
  change (2 ^ 10) with 1024. zlia.
Qed.

Lemma PTX_arith la : PTX la = u32 la / 4096 mod 1024.
Proof.
  unfold PTX, PTXSHIFT. change 0x3FF with (Z.ones 10).
  by rewrite Z.shiftr_div_pow2, Z.land_ones by lia.
Qed.

Lemma PGOFF_arith la : PGOFF la = u32 la mod 4096.
Proof. unfold PGOFF. change 0xFFF with (Z.ones 12). by rewrite Z.land_ones by lia. Qed.

Lemma PTE_ADDR_arith pte : PTE_ADDR pte = u32 pte - u32 pte mod 4096.
Proof.
  unfold PTE_ADDR. change (u32 (Z.lnot 0xFFF)) with (Z.ldiff (Z.ones 32) (Z.ones 12)).
  replace (Z.land (u32 pte) (Z.ldiff (Z.ones 32) (Z.ones 12)))
    with (Z.ldiff (u32 pte) (Z.ones 12)).
  - rewrite Z.ldiff_ones_r, Z.shiftr_div_pow2, Z.shiftl_mul_pow2 by lia.
    change (2 ^ 12) with 4096. zlia.
  - assert (Z.land (u32 pte) (Z.ones 32) = u32 pte) as E.
    { rewrite Z.land_ones by lia. change (2 ^ 32) with 4294967296. zlia. }
    rewrite <- E at 1. apply Z.bits_inj'. intros i Hi.
    rewrite !Z.ldiff_spec, !Z.land_spec, !Z.ldiff_spec.
    by destruct (Z.testbit (u32 pte) i), (Z.testbit (Z.ones 32) i), (Z.testbit (Z.ones 12) i).
Qed.

(** Or-ing disjoint bit ranges is addition. *)
Lemma lor_shiftl_add a b k :
  0 <= k -> 0 <= b < 2 ^ k -> Z.lor (Z.shiftl a k) b = a * 2 ^ k + b.
Proof.
  intros Hk Hb. rewrite <- Z.shiftl_mul_pow2 by done. rewrite <- Z.add_lor_land.
  enough (Z.land (Z.shiftl a k) b = 0) as -> by lia.
  apply Z.bits_inj'. intros i Hi. rewrite Z.land_spec, Z.bits_0.
  destruct (Z.lt_ge_cases i k) as [Hik|Hik].
  - by rewrite Z.shiftl_spec_low.
  - destruct (decide (b = 0)) as [->|Hb0]; [by rewrite Z.bits_0, andb_false_r|].
    rewrite (Z.bits_above_log2 b i), andb_false_r; [done|lia|].
    apply Z.log2_lt_pow2; [lia|]. pose proof (Z.pow_le_mono_r 2 k i ltac:(lia) Hik). lia.
Qed.

Lemma PGADDR_arith d t o :
  0 <= d < 1024 -> 0 <= t < 1024 -> 0 <= o < 4096 ->
  PGADDR d t o = d * 4194304 + t * 4096 + o.
Proof.
  intros Hd Ht Ho. unfold PGADDR, PDXSHIFT, PTXSHIFT.
  rewrite <- Z.lor_assoc.
  rewrite (lor_shiftl_add t o 12) by lia. change (2 ^ 12) with 4096.
  rewrite lor_shiftl_add by (change (2 ^ 22) with 4194304; lia).
  change (2 ^ 22) with 4194304. rewrite u32_small; lia.
Qed.

(** [PDX], [PTX] and [PGOFF] split a linear address, [PGADDR] puts it back
    together, and each index is within its table or page. *)
Theorem pgaddr_roundtrip la :
  0 <= la < 4294967296 ->
  PGADDR (PDX la) (PTX la) (PGOFF la) = la /\ PGNUM la = PDX la * NPTENTRIES + PTX la /\
  0 <= PDX la < NPDENTRIES /\ 0 <= PTX la < NPTENTRIES /\ 0 <= PGOFF la < PGSIZE.
Proof.
  intros Hla. unfold NPDENTRIES, NPTENTRIES, PGSIZE, PGNUM, PTXSHIFT.
  rewrite Z.shiftr_div_pow2 by lia. change (2 ^ 12) with 4096.
  rewrite PDX_arith, PTX_arith, PGOFF_arith, u32_small by done.
  rewrite PGADDR_arith by zlia. zlia.
Qed.

Lemma pgaddr_roundtrip_witness : PGADDR (PDX 0xf0101234) (PTX 0xf0101234) (PGOFF 0xf0101234) = 0xf0101234.
Proof. apply (pgaddr_roundtrip 0xf0101234). lia. Defined.


(** And conversely the parts of [PGADDR d t o] are [d], [t] and [o]. *)
Theorem pgaddr_parts d t o :
  0 <= d < NPDENTRIES -> 0 <= t < NPTENTRIES -> 0 <= o < PGSIZE ->
  PDX (PGADDR d t o) = d /\ PTX (PGADDR d t o) = t /\ PGOFF (PGADDR d t o) = o.
Proof.
  unfold NPDENTRIES, NPTENTRIES, PGSIZE. intros Hd Ht Ho.
  rewrite PDX_arith, PTX_arith, PGOFF_arith, PGADDR_arith by done. zlia.
Qed.

Lemma pgaddr_parts_witness : PDX (PGADDR 960 257 564) = 960.
Proof. apply (pgaddr_parts 960 257 564); decided. Defined.


Lemma rounddown_arith a n :
  0 <= a < 4294967296 -> 0 < n -> ROUNDDOWN u32 a n = a - a mod n.
Proof.
  intros Ha Hn. unfold ROUNDDOWN. pose proof (Z.mod_pos_bound a n Hn).
  pose proof (Z.mod_le a n ltac:(lia) Hn). rewrite (u32_small a) by lia.
  rewrite (u32_small (a - a mod n)) by lia. by rewrite u32_small by lia.
Qed.

(** [ROUNDDOWN] and [ROUNDUP] give the nearest multiple of [n] below and
    above, for any [n] (not only powers of 2) as long as [a + n - 1] does not
    overflow 32 bits. *)
Theorem round_spec a n :
  0 <= a -> 0 < n < 4294967296 -> a + n - 1 < 4294967296 ->
  (ROUNDDOWN u32 a n) mod n = 0 /\ ROUNDDOWN u32 a n <= a < ROUNDDOWN u32 a n + n /\
  (ROUNDUP u32 a n) mod n = 0 /\ a <= ROUNDUP u32 a n < a + n.
Proof.
  intros Ha Hn Hm. unfold ROUNDUP. rewrite (u32_small n), (u32_small a) by lia.
  assert (u32 (u32 (a + n) - 1) = a + n - 1) as -> by zlia.
  rewrite !rounddown_arith by lia.
  pose proof (Z.mod_pos_bound a n ltac:(lia)).
  pose proof (Z.mod_pos_bound (a + n - 1) n ltac:(lia)).
  pose proof (Z.mod_le (a + n - 1) n ltac:(lia) ltac:(lia)).
  rewrite (u32_small (a + n - 1 - _)) by lia.
  split_and!; try lia.
  - rewrite Zminus_mod_idemp_r, Z.sub_diag. apply Zmod_0_l.
  - rewrite Zminus_mod_idemp_r, Z.sub_diag. apply Zmod_0_l.
Qed.

Lemma round_spec_witness :
  (ROUNDUP u32 5000 4096) mod 4096 = 0 /\ 5000 <= ROUNDUP u32 5000 4096 < 5000 + 4096.
Proof. apply (round_spec 5000 4096); lia. Defined.


(** ** Descriptors *)

(** For a segment of privilege level 0 the assembler's [SEG] (boot.S) and
    the C [SEG] build the same eight bytes, and so do the two [SEG_NULL]. *)
Theorem seg_asm_c type base lim :
  0 <= type < 16 -> 0 <= base < 4294967296 -> 0 <= lim < 4294967296 ->
  segdesc_bytes (SEG type base lim 0) = SEG_asm type base lim /\
  segdesc_bytes SEG_NULL = SEG_NULL_asm.
Proof.
  intros Ht Hb Hl. split; [|done].
  unfold segdesc_bytes, SEG_asm, SEG, segdesc, field. cbn [sd_lim_15_0 sd_base_15_0
    sd_base_23_16 sd_type sd_s sd_dpl sd_p sd_lim_19_16 sd_avl sd_rsv1 sd_db sd_g sd_base_31_24].
  rewrite (u32_small lim), (u32_small base) by done.
  change 0xffff with (Z.ones 16). change 0xff with (Z.ones 8). change 0xf with (Z.ones 4).
  rewrite !Z.shiftr_div_pow2, !Z.land_ones by lia.
  rewrite !(Z.mod_mod _ (2 ^ 16)), !(Z.mod_mod _ (2 ^ 8)) by done. do 2 f_equal.
  assert (Z.lor 0x90 type = 0x90 + type) as ->.
  { change 0x90 with (Z.shiftl 9 4) at 1. by rewrite lor_shiftl_add by lia. }
  assert (Z.lor 0xC0 ((lim / 2 ^ 28) mod 2 ^ 4) = 0xC0 + (lim / 2 ^ 28) mod 2 ^ 4) as ->.
  { change 0xC0 with (Z.shiftl 12 4) at 1. rewrite lor_shiftl_add; [done|lia|].
    apply Z.mod_pos_bound. lia. }
  change (2 ^ 4) with 16. change (2 ^ 28) with 268435456. change (2 ^ 24) with 16777216.
  change (2 ^ 8) with 256. change (2 ^ 16) with 65536. change (2 ^ 2) with 4. change (2 ^ 1) with 2.
  repeat (apply (f_equal2 cons); [zlia|]). done.
Qed.

Lemma seg_asm_c_witness : segdesc_bytes (SEG 10 0 0xffffffff 0) = SEG_asm 10 0 0xffffffff.
Proof. apply (seg_asm_c 10 0 0xffffffff); lia. Defined.


(** The base and limit a descriptor describes (limit scaled by 4K pages when
    the granularity bit is set). *)
Definition seg_base (d : Segdesc) : Z :=
  sd_base_15_0 d + 65536 * (sd_base_23_16 d + 256 * sd_base_31_24 d).
Definition seg_limit (d : Segdesc) : Z :=
  let l := sd_lim_15_0 d + 65536 * sd_lim_19_16 d in
  if sd_g d =? 1 then l * 4096 + 4095 else l.

(** [SEG] describes exactly the base it is given and the limit rounded up
    to the end of its page; the flat segments of the boot GDT (base 0, limit
    0xffffffff) cover the whole address space. *)
Theorem seg_decode type base lim dpl :
  0 <= base < 4294967296 -> 0 <= lim < 4294967296 ->
  seg_base (SEG type base lim dpl) = base /\
  seg_limit (SEG type base lim dpl) = Z.lor lim 4095 /\
  seg_limit (SEG type base 0xffffffff dpl) = 0xffffffff.
Proof.
  intros Hb Hl. unfold seg_base, seg_limit, SEG, segdesc, field. cbn [sd_lim_15_0 sd_base_15_0
    sd_base_23_16 sd_type sd_s sd_dpl sd_p sd_lim_19_16 sd_avl sd_rsv1 sd_db sd_g sd_base_31_24].
  rewrite (u32_small lim), (u32_small base) by done.
  change 0xffff with (Z.ones 16). change 0xff with (Z.ones 8).
  rewrite !Z.shiftr_div_pow2, !Z.land_ones by lia.
  change (1 mod 2 ^ 1 =? 1) with true. cbn match.
  assert (Z.lor lim 4095 = lim / 4096 * 4096 + 4095) as ->.
  { assert (lim = Z.lor (Z.shiftl (lim / 4096) 12) (lim mod 4096)) as E.
    { rewrite lor_shiftl_add by (try lia; apply Z.mod_pos_bound; lia).
      change (2 ^ 12) with 4096. zlia. }
    rewrite E at 1. rewrite <- Z.lor_assoc.
    assert (Z.lor (lim mod 4096) 4095 = 4095) as ->.
    { change 4096 with (2 ^ 12). rewrite <- Z.land_ones by lia. change 4095 with (Z.ones 12).
      apply Z.bits_inj'. intros i Hi.
      rewrite Z.lor_spec, Z.land_spec. by destruct (Z.testbit lim i), (Z.testbit (Z.ones 12) i). }
    by rewrite lor_shiftl_add by lia. }
  change (2 ^ 12) with 4096. change (2 ^ 28) with 268435456. change (2 ^ 24) with 16777216.
  change (2 ^ 8) with 256. change (2 ^ 16) with 65536. change (2 ^ 4) with 16.
  split_and!; [zlia|zlia|done].
Qed.

Lemma seg_decode_witness : seg_limit (SEG 10 0xf0000000 0x12345 3) = Z.lor 0x12345 4095.
Proof. apply (seg_decode 10 0xf0000000 0x12345 3); lia. Defined.


(** The handler address a gate holds. *)
Definition gate_off (g : Gatedesc) : Z := gd_off_15_0 g + 65536 * gd_off_31_16 g.

(** [SETGATE] stores the handler's full 32-bit address, and a trap gate
    differs from an interrupt gate in its type only. *)
Theorem setgate_spec istrap sel off dpl :
  0 <= off < 4294967296 ->
  gate_off (SETGATE istrap sel off dpl) = off /\
  gate_off (SETCALLGATE sel off dpl) = off /\
  gd_type (SETGATE istrap sel off dpl) = (if istrap then STS_TG32 else STS_IG32) /\
  gd_p (SETGATE istrap sel off dpl) = 1 /\ gd_s (SETGATE istrap sel off dpl) = 0.
Proof.
  intros Ho. unfold gate_off, SETGATE, SETCALLGATE, field.
  cbn [gd_off_15_0 gd_off_31_16 gd_type gd_p gd_s]. rewrite (u32_small off) by done.
  change 0xffff with (Z.ones 16). rewrite Z.shiftr_div_pow2, Z.land_ones by lia.
  change (2 ^ 16) with 65536. split_and!; [zlia|zlia|by destruct istrap|done|done].
Qed.

Lemma setgate_spec_witness : gate_off (SETGATE true 8 0xf0101234 3) = 0xf0101234.
Proof. apply (setgate_spec true 8 0xf0101234 3); lia. Defined.

