(* ===== verification/Flags.v ===== *)
(** The flags and type codes of inc/mmu.h, inc/memlayout.h, inc/stab.h,
    inc/kbdreg.h, inc/elf.h, inc/error.h and kern/console.c.

    Each group of macros is the list of its names and values, in the source's
    order; [flag] looks a name up.  The examples say what a user of a group
    relies on: flags that may be combined have no bit in common, and codes that
    are alternatives differ. *)
From S2P Require Import Prelude Mmu.

Definition flags : Type := list (string * Z).

Definition flag (l : flags) (n : string) : Z :=
  match list_find (fun f => f.1 = n) l with Some (_, f) => f.2 | None => 0 end.

(** Page table and page directory entries. *)
Definition page_flags : flags := [
  ("PTE_P", 0x001); ("PTE_W", 0x002); ("PTE_U", 0x004); ("PTE_PWT", 0x008); ("PTE_PCD", 0x010);
  ("PTE_A", 0x020); ("PTE_D", 0x040); ("PTE_PS", 0x080); ("PTE_G", 0x100)]%string.

(** Control register 0. *)
Definition cr0_flags : flags := [
  ("CR0_PE", 0x00000001); ("CR0_MP", 0x00000002); ("CR0_EM", 0x00000004); ("CR0_TS", 0x00000008);
  ("CR0_ET", 0x00000010); ("CR0_NE", 0x00000020); ("CR0_WP", 0x00010000); ("CR0_AM", 0x00040000);
  ("CR0_NW", 0x20000000); ("CR0_CD", 0x40000000); ("CR0_PG", 0x80000000)]%string.

(** Control register 4. *)
Definition cr4_flags : flags := [
  ("CR4_PCE", 0x00000100); ("CR4_MCE", 0x00000040); ("CR4_PSE", 0x00000010); ("CR4_DE", 0x00000008);
  ("CR4_TSD", 0x00000004); ("CR4_PVI", 0x00000002); ("CR4_VME", 0x00000001)]%string.

(** The flags register; the I/O privilege level is a field of two bits. *)
Definition eflags : flags := [
  ("FL_CF", 0x00000001); ("FL_PF", 0x00000004); ("FL_AF", 0x00000010); ("FL_ZF", 0x00000040);
  ("FL_SF", 0x00000080); ("FL_TF", 0x00000100); ("FL_IF", 0x00000200); ("FL_DF", 0x00000400);
  ("FL_OF", 0x00000800); ("FL_IOPL_MASK", 0x00003000); ("FL_IOPL_0", 0x00000000); ("FL_IOPL_1", 0x00001000);
  ("FL_IOPL_2", 0x00002000); ("FL_IOPL_3", 0x00003000); ("FL_NT", 0x00004000); ("FL_RF", 0x00010000);
  ("FL_VM", 0x00020000); ("FL_AC", 0x00040000); ("FL_VIF", 0x00080000); ("FL_VIP", 0x00100000);
  ("FL_ID", 0x00200000)]%string.

(** The error code of a page fault. *)
Definition fault_flags : flags := [
  ("FEC_PR", 0x1); ("FEC_WR", 0x2); ("FEC_U", 0x4)]%string.

(** Types of application segments: the meaning of two bits depends on [STA_X]. *)
Definition app_types : flags := [
  ("STA_X", 0x8); ("STA_E", 0x4); ("STA_C", 0x4); ("STA_W", 0x2); ("STA_R", 0x2); ("STA_A", 0x1)]%string.

(** Types of system segments and gates. *)
Definition sys_types : flags := [
  ("STS_T16A", 0x1); ("STS_LDT", 0x2); ("STS_T16B", 0x3); ("STS_CG16", 0x4); ("STS_TG", 0x5);
  ("STS_IG16", 0x6); ("STS_TG16", 0x7); ("STS_T32A", 0x9); ("STS_T32B", 0xB); ("STS_CG32", 0xC);
  ("STS_IG32", 0xE); ("STS_TG32", 0xF)]%string.

(** Selectors in the global descriptor table. *)
Definition selectors : flags := [
  ("GD_KT", 0x08); ("GD_KD", 0x10); ("GD_UT", 0x18); ("GD_UD", 0x20); ("GD_TSS0", 0x28)]%string.

(** Types of the entries of the STABS table. *)
Definition stab_types : flags := [
  ("N_GSYM", 0x20); ("N_FNAME", 0x22); ("N_FUN", 0x24); ("N_STSYM", 0x26); ("N_LCSYM", 0x28);
  ("N_MAIN", 0x2a); ("N_PC", 0x30); ("N_RSYM", 0x40); ("N_SLINE", 0x44); ("N_DSLINE", 0x46);
  ("N_BSLINE", 0x48); ("N_SSYM", 0x60); ("N_SO", 0x64); ("N_LSYM", 0x80); ("N_BINCL", 0x82); ("N_SOL", 0x84);
  ("N_PSYM", 0xa0); ("N_EINCL", 0xa2); ("N_ENTRY", 0xa4); ("N_LBRAC", 0xc0); ("N_EXCL", 0xc2);
  ("N_RBRAC", 0xe0); ("N_BCOMM", 0xe2); ("N_ECOMM", 0xe4); ("N_ECOML", 0xe8); ("N_LENG", 0xfe)]%string.

(** The keyboard controller (inc/kbdreg.h): the ports it is written to, the bits
    of its status, its commands, the bits of its command byte. *)
Definition KBCMDP : Z := 0x64.
Definition KBOUTP : Z := 0x60.
Definition kbs_flags : flags := [
  ("KBS_DIB", 0x01); ("KBS_IBF", 0x02); ("KBS_WARM", 0x04); ("KBS_OCMD", 0x08); ("KBS_NOSEC", 0x10);
  ("KBS_TERR", 0x20); ("KBS_RERR", 0x40); ("KBS_PERR", 0x80)]%string.
Definition kbc_codes : flags := [
  ("KBC_RAMREAD", 0x20); ("KBC_RAMWRITE", 0x60); ("KBC_AUXDISABLE", 0xa7); ("KBC_AUXENABLE", 0xa8);
  ("KBC_AUXTEST", 0xa9); ("KBC_KBDECHO", 0xd2); ("KBC_AUXECHO", 0xd3); ("KBC_AUXWRITE", 0xd4);
  ("KBC_SELFTEST", 0xaa); ("KBC_KBDTEST", 0xab); ("KBC_KBDDISABLE", 0xad); ("KBC_KBDENABLE", 0xae);
  ("KBC_PULSE0", 0xfe); ("KBC_PULSE1", 0xfd); ("KBC_PULSE2", 0xfb); ("KBC_PULSE3", 0xf7)]%string.
Definition k_codes : flags := [
  ("K_RDCMDBYTE", 0x20); ("K_LDCMDBYTE", 0x60)]%string.
Definition kc8_flags : flags := [
  ("KC8_TRANS", 0x40); ("KC8_MDISABLE", 0x20); ("KC8_KDISABLE", 0x10); ("KC8_IGNSEC", 0x08); ("KC8_CPU", 0x04);
  ("KC8_MENABLE", 0x02); ("KC8_KENABLE", 0x01)]%string.
Definition CMDBYTE : Z :=
  Z.lor (Z.lor (Z.lor (flag kc8_flags "KC8_TRANS") (flag kc8_flags "KC8_CPU")) (flag kc8_flags "KC8_MENABLE"))
    (flag kc8_flags "KC8_KENABLE").

(** The keyboard itself: commands and responses. *)
Definition kbd_commands : flags := [
  ("KBC_RESET", 0xFF); ("KBC_RESEND", 0xFE); ("KBC_SETDEFAULT", 0xF6); ("KBC_DISABLE", 0xF5);
  ("KBC_ENABLE", 0xF4); ("KBC_TYPEMATIC", 0xF3); ("KBC_SETTABLE", 0xF0); ("KBC_MODEIND", 0xED); ("KBC_ECHO", 0xEE)]%string.
Definition kbd_responses : flags := [
  ("KBR_EXTENDED", 0xE0); ("KBR_RESEND", 0xFE); ("KBR_ACK", 0xFA); ("KBR_OVERRUN", 0x00); ("KBR_FAILURE", 0xFD);
  ("KBR_BREAK", 0xF0); ("KBR_RSTDONE", 0xAA); ("KBR_ECHO", 0xEE)]%string.

(** The modem control and line status registers of the serial port
    (kern/console.c). *)
Definition mcr_flags : flags := [("COM_MCR_RTS", 0x02); ("COM_MCR_DTR", 0x01); ("COM_MCR_OUT2", 0x08)]%string.
Definition lsr_flags : flags := [("COM_LSR_DATA", 0x01); ("COM_LSR_TXRDY", 0x20); ("COM_LSR_TSRE", 0x40)]%string.

(** Program and section headers (inc/elf.h). *)
Definition elf_prog_types : flags := [("ELF_PROG_LOAD", 1)]%string.
Definition elf_prog_flags : flags := [
  ("ELF_PROG_FLAG_EXEC", 1); ("ELF_PROG_FLAG_WRITE", 2); ("ELF_PROG_FLAG_READ", 4)]%string.
Definition elf_sht : flags := [
  ("ELF_SHT_NULL", 0); ("ELF_SHT_PROGBITS", 1); ("ELF_SHT_SYMTAB", 2); ("ELF_SHT_STRTAB", 3)]%string.
Definition ELF_SHN_UNDEF : Z := 0.

(** The error codes (inc/error.h); [MAXERROR] is the next value of the
    enumeration. *)
Definition errors : flags := [
  ("E_UNSPECIFIED", 1); ("E_BAD_ENV", 2); ("E_INVAL", 3); ("E_NO_MEM", 4); ("E_NO_FREE_ENV", 5); ("E_FAULT", 6);
  ("E_NO_SYS", 7); ("MAXERROR", 8)]%string.

Definition PTE_AVAIL : Z := 0xE00.
Definition PTE_SYSCALL : Z := Z.lor (Z.lor (Z.lor PTE_AVAIL PTE_P) PTE_W) PTE_U.

(** No bit in common, pair by pair. *)
Fixpoint apart (l : list Z) : bool :=
  match l with
  | [] => true
  | v :: l' => forallb (fun w => Z.land v w =? 0) l' && apart l'
  end.

Example flags_apart :
  apart (page_flags.*2 ++ [PTE_AVAIL]) && apart cr0_flags.*2 && apart cr4_flags.*2 && apart fault_flags.*2 &&
  apart kbs_flags.*2 && apart kc8_flags.*2 && apart mcr_flags.*2 && apart lsr_flags.*2 && apart elf_prog_flags.*2 &&
  apart (filter (fun f => f.1 <> "FL_IOPL_1" /\ f.1 <> "FL_IOPL_2" /\ f.1 <> "FL_IOPL_3")%string eflags).*2 = true.
Proof. reflexivity. Qed.

(** The names of Mmu and the flags a page table entry can have. *)
Example page_flags_all :
  flag page_flags "PTE_P" = PTE_P /\ flag page_flags "PTE_W" = PTE_W /\ flag page_flags "PTE_U" = PTE_U /\
  foldr Z.lor PTE_AVAIL page_flags.*2 = PGSIZE - 1.
Proof. done. Qed.

Example codes_differ :
  NoDup sys_types.*2 /\ NoDup stab_types.*2 /\ NoDup selectors.*2 /\ NoDup kbc_codes.*2 /\ NoDup kbd_commands.*2 /\
  NoDup kbd_responses.*2 /\ NoDup elf_sht.*2 /\ NoDup errors.*2.
Proof. split_and!; apply (bool_decide_unpack _); by vm_compute. Qed.

(** A selector is the index of a descriptor, times 8, for ring 0. *)
Example selectors_indices : selectors.*2 = (fun i => 8 * i) <$> [1; 2; 3; 4; 5].
Proof. done. Qed.

(** The command byte leaves keyboard and mouse enabled, with their interrupts, and
    the security lock heeded; a pulse command has the bit of its line low. *)
Example command_byte :
  (fun f => Z.land CMDBYTE (flag kc8_flags f) =? 0) <$>
    ["KC8_TRANS"; "KC8_MDISABLE"; "KC8_KDISABLE"; "KC8_IGNSEC"; "KC8_CPU"; "KC8_MENABLE"; "KC8_KENABLE"]%string =
  [false; true; true; true; false; false; false].
Proof. done. Qed.

Example pulses :
  (flag kbc_codes <$> ["KBC_PULSE0"; "KBC_PULSE1"; "KBC_PULSE2"; "KBC_PULSE3"]%string) =
  (fun i => Z.clearbit 0xFF i) <$> [0; 1; 2; 3].
Proof. done. Qed.

(** A system call may only set bits of an entry that are flags. *)
Lemma syscall_bits e : Z.land (PTE_ADDR e) PTE_SYSCALL = 0.
Proof.
  unfold PTE_ADDR. rewrite <- Z.land_assoc. by change (Z.land _ PTE_SYSCALL) with 0; rewrite Z.land_0_r.
Qed.
