(* ===== verification/Memmap.v ===== *)
(** The virtual memory map of inc/memlayout.h.

    The diagram of the header as a table, its bounds given by the macros below it.
    The theorems say that the two agree: the regions follow one another from 0 to
    the end of the address space on page boundaries, the addresses printed in the
    diagram are the values of the macros, and what a user may access lies below
    ULIM, what it may write below UTOP. *)
From S2P Require Import Prelude Mmu.

Inductive perm := No | RO | RW.
#[export] Instance perm_eq_dec : EqDecision perm.
Proof. solve_decision. Defined.

(** The diagram gives no permissions for the lowest regions, which belong to the
    user program. *)
Record region := mkRegion {
  rg_name : string; rg_low : Z; rg_high : Z; rg_kernel : option perm; rg_user : option perm }.

(** The stacks of the processors lie below KSTACKTOP, each above its gap. *)
Definition kstack_top (cpu : Z) : Z := KSTACKTOP - cpu * (KSTKSIZE + KSTKGAP).
Definition kstack (cpu : Z) : list region := [
  mkRegion "Invalid Memory" (kstack_top (cpu + 1)) (kstack_top cpu - KSTKSIZE) (Some No) (Some No);
  mkRegion "Kernel Stack" (kstack_top cpu - KSTKSIZE) (kstack_top cpu) (Some RW) (Some No)]%string.
Definition NKSTACKS : nat := Eval vm_compute in Z.to_nat (PTSIZE / (KSTKSIZE + KSTKGAP)).

(** From the bottom of the diagram to its top. *)
Definition memory_map : list region := [
  mkRegion "Empty Memory" 0 USTABDATA None None;
  mkRegion "User STAB Data" USTABDATA UTEMP None None;
  mkRegion "Empty Memory" UTEMP UTEXT None None;
  mkRegion "Program Data & Heap" UTEXT (USTACKTOP - PGSIZE) None None;
  mkRegion "Normal User Stack" (USTACKTOP - PGSIZE) USTACKTOP (Some RW) (Some RW);
  mkRegion "Empty Memory" USTACKTOP (UXSTACKTOP - PGSIZE) (Some No) (Some No);
  mkRegion "User Exception Stack" (UXSTACKTOP - PGSIZE) UXSTACKTOP (Some RW) (Some RW);
  mkRegion "RO ENVS" UENVS UPAGES (Some RO) (Some RO);
  mkRegion "RO PAGES" UPAGES UVPT (Some RO) (Some RO);
  mkRegion "Cur. Page Table" UVPT ULIM (Some RO) (Some RO);
  mkRegion "Memory-mapped I/O" MMIOBASE MMIOLIM (Some RW) (Some No)]%string ++
  flat_map (fun i => kstack (Z.of_nat i)) (rev (seq 0 NKSTACKS)) ++
  [mkRegion "Remapped Physical Memory" KERNBASE 0x100000000 (Some RW) (Some No)]%string.

(** The addresses printed in the diagram, from the top down. *)
Definition printed : list (Z * Z) := [
  (KERNBASE, 0xf0000000); (KSTACKTOP, 0xf0000000); (MMIOLIM, 0xefc00000); (ULIM, 0xef800000); (MMIOBASE, 0xef800000);
  (UVPT, 0xef400000); (UPAGES, 0xef000000); (UTOP, 0xeec00000); (UENVS, 0xeec00000); (UXSTACKTOP, 0xeec00000);
  (UXSTACKTOP - PGSIZE, 0xeebff000); (USTACKTOP, 0xeebfe000); (USTACKTOP - PGSIZE, 0xeebfd000);
  (UTEXT, 0x00800000); (UTEMP, 0x00400000); (USTABDATA, 0x00200000)].

(** Regions that follow one another from [a] to [b], none of them empty. *)
Fixpoint tiles (a b : Z) (l : list region) : bool :=
  match l with
  | [] => a =? b
  | r :: l' => (rg_low r =? a) && (a <? rg_high r) && (a mod PGSIZE =? 0) && tiles (rg_high r) b l'
  end.

Definition in_region (a : Z) (r : region) : Prop := rg_low r <= a < rg_high r.

Lemma tiles_find l : forall a b x, tiles a b l = true -> a <= x < b -> exists i r, l !! i = Some r /\ in_region x r.
Proof.
  induction l as [|r l IH]; intros a b x H Hx; cbn [tiles] in H; [lia|].
  apply andb_true_iff in H as [H Ht]. destruct (decide (x < rg_high r)).
  - exists 0%nat, r. split; [done|]. unfold in_region. lia.
  - destruct (IH _ _ x Ht) as (i & r' & Hi & Hr); [lia|]. by exists (S i), r'.
Qed.

Lemma tiles_low l : forall a b i r, tiles a b l = true -> l !! i = Some r -> a <= rg_low r.
Proof.
  induction l as [|r l IH]; intros a b i r' H Hi; [done|]. cbn [tiles] in H. apply andb_true_iff in H as [H Ht].
  destruct i as [|i]; [injection Hi as ->; lia|]. specialize (IH _ _ _ _ Ht Hi). lia.
Qed.

Lemma tiles_one l : forall a b x i j r q,
  tiles a b l = true -> l !! i = Some r -> l !! j = Some q -> in_region x r -> in_region x q -> i = j.
Proof.
  induction l as [|t l IH]; intros a b x i j r q H Hi Hj Hr Hq; [done|]. cbn [tiles] in H.
  apply andb_true_iff in H as [H Ht]. unfold in_region in *.
  destruct i as [|i], j as [|j]; cbn in Hi, Hj.
  - done.
  - injection Hi as ->. pose proof (tiles_low _ _ _ _ _ Ht Hj). lia.
  - injection Hj as ->. pose proof (tiles_low _ _ _ _ _ Ht Hi). lia.
  - f_equal. by apply (IH _ _ x _ _ r q Ht).
Qed.

Lemma memory_map_tiles : tiles 0 0x100000000 memory_map = true.
Proof. vm_compute. reflexivity. Qed.

Example printed_addresses : Forall (fun p => p.1 = p.2) printed.
Proof. repeat constructor. Qed.

(** Every address is in exactly one region, and the user reaches none above ULIM and
    writes none above UTOP. *)
Theorem memory_map_ok a :
  0 <= a < 0x100000000 ->
  exists i r, memory_map !! i = Some r /\ in_region a r /\
    (forall j q, memory_map !! j = Some q -> in_region a q -> i = j) /\
    (ULIM <= a -> rg_user r = Some No) /\ (UTOP <= a -> rg_user r <> Some RW).
Proof.
  intros Ha. destruct (tiles_find _ _ _ a memory_map_tiles Ha) as (i & r & Hi & Hr). exists i, r.
  split; [exact Hi|]. split; [exact Hr|]. split; [intros j q Hj Hq; by apply (tiles_one _ _ _ a _ _ _ _ memory_map_tiles Hi Hj Hr Hq)|].
  assert (Forall (fun r => (ULIM < rg_high r -> rg_user r = Some No) /\ (UTOP < rg_high r -> rg_user r <> Some RW)) memory_map) as Hf.
  { apply (bool_decide_unpack _). vm_compute. exact Logic.I. }
  rewrite Forall_forall in Hf. destruct (Hf r (list_elem_of_lookup_2 _ _ _ Hi)) as [H1 H2]. unfold in_region in Hr.
  split; intros H; [apply H1|apply H2]; lia.
Qed.
