(* ===== verification/Entrypgdir.v ===== *)
(** kern/entrypgdir.c: the page directory and page table entry.S turns
    paging on with, and the translation they give.

    The 1024 initialisers of [entry_pgtable] are transcribed as they are, in
    eight blocks of 128 lines; [entry_pgdir] depends on the address the linker
    gives [entry_pgtable], which the alignment attribute makes a multiple of
    [PGSIZE].  [page_walk] is the two-level translation inc/mmu.h documents,
    over a physical memory that holds both tables. *)
From S2P Require Import Prelude Mem Mmu.

Definition entry_pgtable_0 : list Z := [
  Z.lor (Z.lor 0x000000 PTE_P) PTE_W; Z.lor (Z.lor 0x001000 PTE_P) PTE_W;
  Z.lor (Z.lor 0x002000 PTE_P) PTE_W; Z.lor (Z.lor 0x003000 PTE_P) PTE_W;
  Z.lor (Z.lor 0x004000 PTE_P) PTE_W; Z.lor (Z.lor 0x005000 PTE_P) PTE_W;
  Z.lor (Z.lor 0x006000 PTE_P) PTE_W; Z.lor (Z.lor 0x007000 PTE_P) PTE_W;
  Z.lor (Z.lor 0x008000 PTE_P) PTE_W; Z.lor (Z.lor 0x009000 PTE_P) PTE_W;
  Z.lor (Z.lor 0x00a000 PTE_P) PTE_W; Z.lor (Z.lor 0x00b000 PTE_P) PTE_W;
  Z.lor (Z.lor 0x00c000 PTE_P) PTE_W; Z.lor (Z.lor 0x00d000 PTE_P) PTE_W;
  Z.lor (Z.lor 0x00e000 PTE_P) PTE_W; Z.lor (Z.lor 0x00f000 PTE_P) PTE_W;
  Z.lor (Z.lor 0x010000 PTE_P) PTE_W; Z.lor (Z.lor 0x011000 PTE_P) PTE_W;
  Z.lor (Z.lor 0x012000 PTE_P) PTE_W; Z.lor (Z.lor 0x013000 PTE_P) PTE_W;
  Z.lor (Z.lor 0x014000 PTE_P) PTE_W; Z.lor (Z.lor 0x015000 PTE_P) PTE_W;
  Z.lor (Z.lor 0x016000 PTE_P) PTE_W; Z.lor (Z.lor 0x017000 PTE_P) PTE_W;
  Z.lor (Z.lor 0x018000 PTE_P) PTE_W; Z.lor (Z.lor 0x019000 PTE_P) PTE_W;
  Z.lor (Z.lor 0x01a000 PTE_P) PTE_W; Z.lor (Z.lor 0x01b000 PTE_P) PTE_W;
  Z.lor (Z.lor 0x01c000 PTE_P) PTE_W; Z.lor (Z.lor 0x01d000 PTE_P) PTE_W;
  Z.lor (Z.lor 0x01e000 PTE_P) PTE_W; Z.lor (Z.lor 0x01f000 PTE_P) PTE_W;
  Z.lor (Z.lor 0x020000 PTE_P) PTE_W; Z.lor (Z.lor 0x021000 PTE_P) PTE_W;
  Z.lor (Z.lor 0x022000 PTE_P) PTE_W; Z.lor (Z.lor 0x023000 PTE_P) PTE_W;
  Z.lor (Z.lor 0x024000 PTE_P) PTE_W; Z.lor (Z.lor 0x025000 PTE_P) PTE_W;
  Z.lor (Z.lor 0x026000 PTE_P) PTE_W; Z.lor (Z.lor 0x027000 PTE_P) PTE_W;
  Z.lor (Z.lor 0x028000 PTE_P) PTE_W; Z.lor (Z.lor 0x029000 PTE_P) PTE_W;
  Z.lor (Z.lor 0x02a000 PTE_P) PTE_W; Z.lor (Z.lor 0x02b000 PTE_P) PTE_W;
  Z.lor (Z.lor 0x02c000 PTE_P) PTE_W; Z.lor (Z.lor 0x02d000 PTE_P) PTE_W;
  Z.lor (Z.lor 0x02e000 PTE_P) PTE_W; Z.lor (Z.lor 0x02f000 PTE_P) PTE_W;
  Z.lor (Z.lor 0x030000 PTE_P) PTE_W; Z.lor (Z.lor 0x031000 PTE_P) PTE_W;
  Z.lor (Z.lor 0x032000 PTE_P) PTE_W; Z.lor (Z.lor 0x033000 PTE_P) PTE_W;
  Z.lor (Z.lor 0x034000 PTE_P) PTE_W; Z.lor (Z.lor 0x035000 PTE_P) PTE_W;
  Z.lor (Z.lor 0x036000 PTE_P) PTE_W; Z.lor (Z.lor 0x037000 PTE_P) PTE_W;
  Z.lor (Z.lor 0x038000 PTE_P) PTE_W; Z.lor (Z.lor 0x039000 PTE_P) PTE_W;
  Z.lor (Z.lor 0x03a000 PTE_P) PTE_W; Z.lor (Z.lor 0x03b000 PTE_P) PTE_W;
  Z.lor (Z.lor 0x03c000 PTE_P) PTE_W; Z.lor (Z.lor 0x03d000 PTE_P) PTE_W;
  Z.lor (Z.lor 0x03e000 PTE_P) PTE_W; Z.lor (Z.lor 0x03f000 PTE_P) PTE_W;
  Z.lor (Z.lor 0x040000 PTE_P) PTE_W; Z.lor (Z.lor 0x041000 PTE_P) PTE_W;
  Z.lor (Z.lor 0x042000 PTE_P) PTE_W; Z.lor (Z.lor 0x043000 PTE_P) PTE_W;
  Z.lor (Z.lor 0x044000 PTE_P) PTE_W; Z.lor (Z.lor 0x045000 PTE_P) PTE_W;
  Z.lor (Z.lor 0x046000 PTE_P) PTE_W; Z.lor (Z.lor 0x047000 PTE_P) PTE_W;
  Z.lor (Z.lor 0x048000 PTE_P) PTE_W; Z.lor (Z.lor 0x049000 PTE_P) PTE_W;
  Z.lor (Z.lor 0x04a000 PTE_P) PTE_W; Z.lor (Z.lor 0x04b000 PTE_P) PTE_W;
  Z.lor (Z.lor 0x04c000 PTE_P) PTE_W; Z.lor (Z.lor 0x04d000 PTE_P) PTE_W;
  Z.lor (Z.lor 0x04e000 PTE_P) PTE_W; Z.lor (Z.lor 0x04f000 PTE_P) PTE_W;
  Z.lor (Z.lor 0x050000 PTE_P) PTE_W; Z.lor (Z.lor 0x051000 PTE_P) PTE_W;
  Z.lor (Z.lor 0x052000 PTE_P) PTE_W; Z.lor (Z.lor 0x053000 PTE_P) PTE_W;
  Z.lor (Z.lor 0x054000 PTE_P) PTE_W; Z.lor (Z.lor 0x055000 PTE_P) PTE_W;
  Z.lor (Z.lor 0x056000 PTE_P) PTE_W; Z.lor (Z.lor 0x057000 PTE_P) PTE_W;
  Z.lor (Z.lor 0x058000 PTE_P) PTE_W; Z.lor (Z.lor 0x059000 PTE_P) PTE_W;
  Z.lor (Z.lor 0x05a000 PTE_P) PTE_W; Z.lor (Z.lor 0x05b000 PTE_P) PTE_W;
  Z.lor (Z.lor 0x05c000 PTE_P) PTE_W; Z.lor (Z.lor 0x05d000 PTE_P) PTE_W;
  Z.lor (Z.lor 0x05e000 PTE_P) PTE_W; Z.lor (Z.lor 0x05f000 PTE_P) PTE_W;
  Z.lor (Z.lor 0x060000 PTE_P) PTE_W; Z.lor (Z.lor 0x061000 PTE_P) PTE_W;
  Z.lor (Z.lor 0x062000 PTE_P) PTE_W; Z.lor (Z.lor 0x063000 PTE_P) PTE_W;
  Z.lor (Z.lor 0x064000 PTE_P) PTE_W; Z.lor (Z.lor 0x065000 PTE_P) PTE_W;
  Z.lor (Z.lor 0x066000 PTE_P) PTE_W; Z.lor (Z.lor 0x067000 PTE_P) PTE_W;
  Z.lor (Z.lor 0x068000 PTE_P) PTE_W; Z.lor (Z.lor 0x069000 PTE_P) PTE_W;
  Z.lor (Z.lor 0x06a000 PTE_P) PTE_W; Z.lor (Z.lor 0x06b000 PTE_P) PTE_W;
  Z.lor (Z.lor 0x06c000 PTE_P) PTE_W; Z.lor (Z.lor 0x06d000 PTE_P) PTE_W;
  Z.lor (Z.lor 0x06e000 PTE_P) PTE_W; Z.lor (Z.lor 0x06f000 PTE_P) PTE_W;
  Z.lor (Z.lor 0x070000 PTE_P) PTE_W; Z.lor (Z.lor 0x071000 PTE_P) PTE_W;
  Z.lor (Z.lor 0x072000 PTE_P) PTE_W; Z.lor (Z.lor 0x073000 PTE_P) PTE_W;
  Z.lor (Z.lor 0x074000 PTE_P) PTE_W; Z.lor (Z.lor 0x075000 PTE_P) PTE_W;
  Z.lor (Z.lor 0x076000 PTE_P) PTE_W; Z.lor (Z.lor 0x077000 PTE_P) PTE_W;
  Z.lor (Z.lor 0x078000 PTE_P) PTE_W; Z.lor (Z.lor 0x079000 PTE_P) PTE_W;
  Z.lor (Z.lor 0x07a000 PTE_P) PTE_W; Z.lor (Z.lor 0x07b000 PTE_P) PTE_W;
  Z.lor (Z.lor 0x07c000 PTE_P) PTE_W; Z.lor (Z.lor 0x07d000 PTE_P) PTE_W;
  Z.lor (Z.lor 0x07e000 PTE_P) PTE_W; Z.lor (Z.lor 0x07f000 PTE_P) PTE_W].

Definition entry_pgtable_1 : list Z := [
  Z.lor (Z.lor 0x080000 PTE_P) PTE_W; Z.lor (Z.lor 0x081000 PTE_P) PTE_W;
  Z.lor (Z.lor 0x082000 PTE_P) PTE_W; Z.lor (Z.lor 0x083000 PTE_P) PTE_W;
  Z.lor (Z.lor 0x084000 PTE_P) PTE_W; Z.lor (Z.lor 0x085000 PTE_P) PTE_W;
  Z.lor (Z.lor 0x086000 PTE_P) PTE_W; Z.lor (Z.lor 0x087000 PTE_P) PTE_W;
  Z.lor (Z.lor 0x088000 PTE_P) PTE_W; Z.lor (Z.lor 0x089000 PTE_P) PTE_W;
  Z.lor (Z.lor 0x08a000 PTE_P) PTE_W; Z.lor (Z.lor 0x08b000 PTE_P) PTE_W;
  Z.lor (Z.lor 0x08c000 PTE_P) PTE_W; Z.lor (Z.lor 0x08d000 PTE_P) PTE_W;
  Z.lor (Z.lor 0x08e000 PTE_P) PTE_W; Z.lor (Z.lor 0x08f000 PTE_P) PTE_W;
  Z.lor (Z.lor 0x090000 PTE_P) PTE_W; Z.lor (Z.lor 0x091000 PTE_P) PTE_W;
  Z.lor (Z.lor 0x092000 PTE_P) PTE_W; Z.lor (Z.lor 0x093000 PTE_P) PTE_W;
  Z.lor (Z.lor 0x094000 PTE_P) PTE_W; Z.lor (Z.lor 0x095000 PTE_P) PTE_W;
  Z.lor (Z.lor 0x096000 PTE_P) PTE_W; Z.lor (Z.lor 0x097000 PTE_P) PTE_W;
  Z.lor (Z.lor 0x098000 PTE_P) PTE_W; Z.lor (Z.lor 0x099000 PTE_P) PTE_W;
  Z.lor (Z.lor 0x09a000 PTE_P) PTE_W; Z.lor (Z.lor 0x09b000 PTE_P) PTE_W;
  Z.lor (Z.lor 0x09c000 PTE_P) PTE_W; Z.lor (Z.lor 0x09d000 PTE_P) PTE_W;
  Z.lor (Z.lor 0x09e000 PTE_P) PTE_W; Z.lor (Z.lor 0x09f000 PTE_P) PTE_W;
  Z.lor (Z.lor 0x0a0000 PTE_P) PTE_W; Z.lor (Z.lor 0x0a1000 PTE_P) PTE_W;
  Z.lor (Z.lor 0x0a2000 PTE_P) PTE_W; Z.lor (Z.lor 0x0a3000 PTE_P) PTE_W;
  Z.lor (Z.lor 0x0a4000 PTE_P) PTE_W; Z.lor (Z.lor 0x0a5000 PTE_P) PTE_W;
  Z.lor (Z.lor 0x0a6000 PTE_P) PTE_W; Z.lor (Z.lor 0x0a7000 PTE_P) PTE_W;
  Z.lor (Z.lor 0x0a8000 PTE_P) PTE_W; Z.lor (Z.lor 0x0a9000 PTE_P) PTE_W;
  Z.lor (Z.lor 0x0aa000 PTE_P) PTE_W; Z.lor (Z.lor 0x0ab000 PTE_P) PTE_W;
  Z.lor (Z.lor 0x0ac000 PTE_P) PTE_W; Z.lor (Z.lor 0x0ad000 PTE_P) PTE_W;
  Z.lor (Z.lor 0x0ae000 PTE_P) PTE_W; Z.lor (Z.lor 0x0af000 PTE_P) PTE_W;
  Z.lor (Z.lor 0x0b0000 PTE_P) PTE_W; Z.lor (Z.lor 0x0b1000 PTE_P) PTE_W;
  Z.lor (Z.lor 0x0b2000 PTE_P) PTE_W; Z.lor (Z.lor 0x0b3000 PTE_P) PTE_W;
  Z.lor (Z.lor 0x0b4000 PTE_P) PTE_W; Z.lor (Z.lor 0x0b5000 PTE_P) PTE_W;
  Z.lor (Z.lor 0x0b6000 PTE_P) PTE_W; Z.lor (Z.lor 0x0b7000 PTE_P) PTE_W;
  Z.lor (Z.lor 0x0b8000 PTE_P) PTE_W; Z.lor (Z.lor 0x0b9000 PTE_P) PTE_W;
  Z.lor (Z.lor 0x0ba000 PTE_P) PTE_W; Z.lor (Z.lor 0x0bb000 PTE_P) PTE_W;
  Z.lor (Z.lor 0x0bc000 PTE_P) PTE_W; Z.lor (Z.lor 0x0bd000 PTE_P) PTE_W;
  Z.lor (Z.lor 0x0be000 PTE_P) PTE_W; Z.lor (Z.lor 0x0bf000 PTE_P) PTE_W;
  Z.lor (Z.lor 0x0c0000 PTE_P) PTE_W; Z.lor (Z.lor 0x0c1000 PTE_P) PTE_W;
  Z.lor (Z.lor 0x0c2000 PTE_P) PTE_W; Z.lor (Z.lor 0x0c3000 PTE_P) PTE_W;
  Z.lor (Z.lor 0x0c4000 PTE_P) PTE_W; Z.lor (Z.lor 0x0c5000 PTE_P) PTE_W;
  Z.lor (Z.lor 0x0c6000 PTE_P) PTE_W; Z.lor (Z.lor 0x0c7000 PTE_P) PTE_W;
  Z.lor (Z.lor 0x0c8000 PTE_P) PTE_W; Z.lor (Z.lor 0x0c9000 PTE_P) PTE_W;
  Z.lor (Z.lor 0x0ca000 PTE_P) PTE_W; Z.lor (Z.lor 0x0cb000 PTE_P) PTE_W;
  Z.lor (Z.lor 0x0cc000 PTE_P) PTE_W; Z.lor (Z.lor 0x0cd000 PTE_P) PTE_W;
  Z.lor (Z.lor 0x0ce000 PTE_P) PTE_W; Z.lor (Z.lor 0x0cf000 PTE_P) PTE_W;
  Z.lor (Z.lor 0x0d0000 PTE_P) PTE_W; Z.lor (Z.lor 0x0d1000 PTE_P) PTE_W;
  Z.lor (Z.lor 0x0d2000 PTE_P) PTE_W; Z.lor (Z.lor 0x0d3000 PTE_P) PTE_W;
  Z.lor (Z.lor 0x0d4000 PTE_P) PTE_W; Z.lor (Z.lor 0x0d5000 PTE_P) PTE_W;
  Z.lor (Z.lor 0x0d6000 PTE_P) PTE_W; Z.lor (Z.lor 0x0d7000 PTE_P) PTE_W;
  Z.lor (Z.lor 0x0d8000 PTE_P) PTE_W; Z.lor (Z.lor 0x0d9000 PTE_P) PTE_W;
  Z.lor (Z.lor 0x0da000 PTE_P) PTE_W; Z.lor (Z.lor 0x0db000 PTE_P) PTE_W;
  Z.lor (Z.lor 0x0dc000 PTE_P) PTE_W; Z.lor (Z.lor 0x0dd000 PTE_P) PTE_W;
  Z.lor (Z.lor 0x0de000 PTE_P) PTE_W; Z.lor (Z.lor 0x0df000 PTE_P) PTE_W;
  Z.lor (Z.lor 0x0e0000 PTE_P) PTE_W; Z.lor (Z.lor 0x0e1000 PTE_P) PTE_W;
  Z.lor (Z.lor 0x0e2000 PTE_P) PTE_W; Z.lor (Z.lor 0x0e3000 PTE_P) PTE_W;
  Z.lor (Z.lor 0x0e4000 PTE_P) PTE_W; Z.lor (Z.lor 0x0e5000 PTE_P) PTE_W;
  Z.lor (Z.lor 0x0e6000 PTE_P) PTE_W; Z.lor (Z.lor 0x0e7000 PTE_P) PTE_W;
  Z.lor (Z.lor 0x0e8000 PTE_P) PTE_W; Z.lor (Z.lor 0x0e9000 PTE_P) PTE_W;
  Z.lor (Z.lor 0x0ea000 PTE_P) PTE_W; Z.lor (Z.lor 0x0eb000 PTE_P) PTE_W;
  Z.lor (Z.lor 0x0ec000 PTE_P) PTE_W; Z.lor (Z.lor 0x0ed000 PTE_P) PTE_W;
  Z.lor (Z.lor 0x0ee000 PTE_P) PTE_W; Z.lor (Z.lor 0x0ef000 PTE_P) PTE_W;
  Z.lor (Z.lor 0x0f0000 PTE_P) PTE_W; Z.lor (Z.lor 0x0f1000 PTE_P) PTE_W;
  Z.lor (Z.lor 0x0f2000 PTE_P) PTE_W; Z.lor (Z.lor 0x0f3000 PTE_P) PTE_W;
  Z.lor (Z.lor 0x0f4000 PTE_P) PTE_W; Z.lor (Z.lor 0x0f5000 PTE_P) PTE_W;
  Z.lor (Z.lor 0x0f6000 PTE_P) PTE_W; Z.lor (Z.lor 0x0f7000 PTE_P) PTE_W;
  Z.lor (Z.lor 0x0f8000 PTE_P) PTE_W; Z.lor (Z.lor 0x0f9000 PTE_P) PTE_W;
  Z.lor (Z.lor 0x0fa000 PTE_P) PTE_W; Z.lor (Z.lor 0x0fb000 PTE_P) PTE_W;
  Z.lor (Z.lor 0x0fc000 PTE_P) PTE_W; Z.lor (Z.lor 0x0fd000 PTE_P) PTE_W;
  Z.lor (Z.lor 0x0fe000 PTE_P) PTE_W; Z.lor (Z.lor 0x0ff000 PTE_P) PTE_W].

Definition entry_pgtable_2 : list Z := [
  Z.lor (Z.lor 0x100000 PTE_P) PTE_W; Z.lor (Z.lor 0x101000 PTE_P) PTE_W;
  Z.lor (Z.lor 0x102000 PTE_P) PTE_W; Z.lor (Z.lor 0x103000 PTE_P) PTE_W;
  Z.lor (Z.lor 0x104000 PTE_P) PTE_W; Z.lor (Z.lor 0x105000 PTE_P) PTE_W;
  Z.lor (Z.lor 0x106000 PTE_P) PTE_W; Z.lor (Z.lor 0x107000 PTE_P) PTE_W;
  Z.lor (Z.lor 0x108000 PTE_P) PTE_W; Z.lor (Z.lor 0x109000 PTE_P) PTE_W;
  Z.lor (Z.lor 0x10a000 PTE_P) PTE_W; Z.lor (Z.lor 0x10b000 PTE_P) PTE_W;
  Z.lor (Z.lor 0x10c000 PTE_P) PTE_W; Z.lor (Z.lor 0x10d000 PTE_P) PTE_W;
  Z.lor (Z.lor 0x10e000 PTE_P) PTE_W; Z.lor (Z.lor 0x10f000 PTE_P) PTE_W;
  Z.lor (Z.lor 0x110000 PTE_P) PTE_W; Z.lor (Z.lor 0x111000 PTE_P) PTE_W;
  Z.lor (Z.lor 0x112000 PTE_P) PTE_W; Z.lor (Z.lor 0x113000 PTE_P) PTE_W;
  Z.lor (Z.lor 0x114000 PTE_P) PTE_W; Z.lor (Z.lor 0x115000 PTE_P) PTE_W;
  Z.lor (Z.lor 0x116000 PTE_P) PTE_W; Z.lor (Z.lor 0x117000 PTE_P) PTE_W;
  Z.lor (Z.lor 0x118000 PTE_P) PTE_W; Z.lor (Z.lor 0x119000 PTE_P) PTE_W;
  Z.lor (Z.lor 0x11a000 PTE_P) PTE_W; Z.lor (Z.lor 0x11b000 PTE_P) PTE_W;
  Z.lor (Z.lor 0x11c000 PTE_P) PTE_W; Z.lor (Z.lor 0x11d000 PTE_P) PTE_W;
  Z.lor (Z.lor 0x11e000 PTE_P) PTE_W; Z.lor (Z.lor 0x11f000 PTE_P) PTE_W;
  Z.lor (Z.lor 0x120000 PTE_P) PTE_W; Z.lor (Z.lor 0x121000 PTE_P) PTE_W;
  Z.lor (Z.lor 0x122000 PTE_P) PTE_W; Z.lor (Z.lor 0x123000 PTE_P) PTE_W;
  Z.lor (Z.lor 0x124000 PTE_P) PTE_W; Z.lor (Z.lor 0x125000 PTE_P) PTE_W;
  Z.lor (Z.lor 0x126000 PTE_P) PTE_W; Z.lor (Z.lor 0x127000 PTE_P) PTE_W;
  Z.lor (Z.lor 0x128000 PTE_P) PTE_W; Z.lor (Z.lor 0x129000 PTE_P) PTE_W;
  Z.lor (Z.lor 0x12a000 PTE_P) PTE_W; Z.lor (Z.lor 0x12b000 PTE_P) PTE_W;
  Z.lor (Z.lor 0x12c000 PTE_P) PTE_W; Z.lor (Z.lor 0x12d000 PTE_P) PTE_W;
  Z.lor (Z.lor 0x12e000 PTE_P) PTE_W; Z.lor (Z.lor 0x12f000 PTE_P) PTE_W;
  Z.lor (Z.lor 0x130000 PTE_P) PTE_W; Z.lor (Z.lor 0x131000 PTE_P) PTE_W;
  Z.lor (Z.lor 0x132000 PTE_P) PTE_W; Z.lor (Z.lor 0x133000 PTE_P) PTE_W;
  Z.lor (Z.lor 0x134000 PTE_P) PTE_W; Z.lor (Z.lor 0x135000 PTE_P) PTE_W;
  Z.lor (Z.lor 0x136000 PTE_P) PTE_W; Z.lor (Z.lor 0x137000 PTE_P) PTE_W;
  Z.lor (Z.lor 0x138000 PTE_P) PTE_W; Z.lor (Z.lor 0x139000 PTE_P) PTE_W;
  Z.lor (Z.lor 0x13a000 PTE_P) PTE_W; Z.lor (Z.lor 0x13b000 PTE_P) PTE_W;
  Z.lor (Z.lor 0x13c000 PTE_P) PTE_W; Z.lor (Z.lor 0x13d000 PTE_P) PTE_W;
  Z.lor (Z.lor 0x13e000 PTE_P) PTE_W; Z.lor (Z.lor 0x13f000 PTE_P) PTE_W;
  Z.lor (Z.lor 0x140000 PTE_P) PTE_W; Z.lor (Z.lor 0x141000 PTE_P) PTE_W;
  Z.lor (Z.lor 0x142000 PTE_P) PTE_W; Z.lor (Z.lor 0x143000 PTE_P) PTE_W;
  Z.lor (Z.lor 0x144000 PTE_P) PTE_W; Z.lor (Z.lor 0x145000 PTE_P) PTE_W;
  Z.lor (Z.lor 0x146000 PTE_P) PTE_W; Z.lor (Z.lor 0x147000 PTE_P) PTE_W;
  Z.lor (Z.lor 0x148000 PTE_P) PTE_W; Z.lor (Z.lor 0x149000 PTE_P) PTE_W;
  Z.lor (Z.lor 0x14a000 PTE_P) PTE_W; Z.lor (Z.lor 0x14b000 PTE_P) PTE_W;
  Z.lor (Z.lor 0x14c000 PTE_P) PTE_W; Z.lor (Z.lor 0x14d000 PTE_P) PTE_W;
  Z.lor (Z.lor 0x14e000 PTE_P) PTE_W; Z.lor (Z.lor 0x14f000 PTE_P) PTE_W;
  Z.lor (Z.lor 0x150000 PTE_P) PTE_W; Z.lor (Z.lor 0x151000 PTE_P) PTE_W;
  Z.lor (Z.lor 0x152000 PTE_P) PTE_W; Z.lor (Z.lor 0x153000 PTE_P) PTE_W;
  Z.lor (Z.lor 0x154000 PTE_P) PTE_W; Z.lor (Z.lor 0x155000 PTE_P) PTE_W;
  Z.lor (Z.lor 0x156000 PTE_P) PTE_W; Z.lor (Z.lor 0x157000 PTE_P) PTE_W;
  Z.lor (Z.lor 0x158000 PTE_P) PTE_W; Z.lor (Z.lor 0x159000 PTE_P) PTE_W;
  Z.lor (Z.lor 0x15a000 PTE_P) PTE_W; Z.lor (Z.lor 0x15b000 PTE_P) PTE_W;
  Z.lor (Z.lor 0x15c000 PTE_P) PTE_W; Z.lor (Z.lor 0x15d000 PTE_P) PTE_W;
  Z.lor (Z.lor 0x15e000 PTE_P) PTE_W; Z.lor (Z.lor 0x15f000 PTE_P) PTE_W;
  Z.lor (Z.lor 0x160000 PTE_P) PTE_W; Z.lor (Z.lor 0x161000 PTE_P) PTE_W;
  Z.lor (Z.lor 0x162000 PTE_P) PTE_W; Z.lor (Z.lor 0x163000 PTE_P) PTE_W;
  Z.lor (Z.lor 0x164000 PTE_P) PTE_W; Z.lor (Z.lor 0x165000 PTE_P) PTE_W;
  Z.lor (Z.lor 0x166000 PTE_P) PTE_W; Z.lor (Z.lor 0x167000 PTE_P) PTE_W;
  Z.lor (Z.lor 0x168000 PTE_P) PTE_W; Z.lor (Z.lor 0x169000 PTE_P) PTE_W;
  Z.lor (Z.lor 0x16a000 PTE_P) PTE_W; Z.lor (Z.lor 0x16b000 PTE_P) PTE_W;
  Z.lor (Z.lor 0x16c000 PTE_P) PTE_W; Z.lor (Z.lor 0x16d000 PTE_P) PTE_W;
  Z.lor (Z.lor 0x16e000 PTE_P) PTE_W; Z.lor (Z.lor 0x16f000 PTE_P) PTE_W;
  Z.lor (Z.lor 0x170000 PTE_P) PTE_W; Z.lor (Z.lor 0x171000 PTE_P) PTE_W;
  Z.lor (Z.lor 0x172000 PTE_P) PTE_W; Z.lor (Z.lor 0x173000 PTE_P) PTE_W;
  Z.lor (Z.lor 0x174000 PTE_P) PTE_W; Z.lor (Z.lor 0x175000 PTE_P) PTE_W;
  Z.lor (Z.lor 0x176000 PTE_P) PTE_W; Z.lor (Z.lor 0x177000 PTE_P) PTE_W;
  Z.lor (Z.lor 0x178000 PTE_P) PTE_W; Z.lor (Z.lor 0x179000 PTE_P) PTE_W;
  Z.lor (Z.lor 0x17a000 PTE_P) PTE_W; Z.lor (Z.lor 0x17b000 PTE_P) PTE_W;
  Z.lor (Z.lor 0x17c000 PTE_P) PTE_W; Z.lor (Z.lor 0x17d000 PTE_P) PTE_W;
  Z.lor (Z.lor 0x17e000 PTE_P) PTE_W; Z.lor (Z.lor 0x17f000 PTE_P) PTE_W].

Definition entry_pgtable_3 : list Z := [
  Z.lor (Z.lor 0x180000 PTE_P) PTE_W; Z.lor (Z.lor 0x181000 PTE_P) PTE_W;
  Z.lor (Z.lor 0x182000 PTE_P) PTE_W; Z.lor (Z.lor 0x183000 PTE_P) PTE_W;
  Z.lor (Z.lor 0x184000 PTE_P) PTE_W; Z.lor (Z.lor 0x185000 PTE_P) PTE_W;
  Z.lor (Z.lor 0x186000 PTE_P) PTE_W; Z.lor (Z.lor 0x187000 PTE_P) PTE_W;
  Z.lor (Z.lor 0x188000 PTE_P) PTE_W; Z.lor (Z.lor 0x189000 PTE_P) PTE_W;
  Z.lor (Z.lor 0x18a000 PTE_P) PTE_W; Z.lor (Z.lor 0x18b000 PTE_P) PTE_W;
  Z.lor (Z.lor 0x18c000 PTE_P) PTE_W; Z.lor (Z.lor 0x18d000 PTE_P) PTE_W;
  Z.lor (Z.lor 0x18e000 PTE_P) PTE_W; Z.lor (Z.lor 0x18f000 PTE_P) PTE_W;
  Z.lor (Z.lor 0x190000 PTE_P) PTE_W; Z.lor (Z.lor 0x191000 PTE_P) PTE_W;
  Z.lor (Z.lor 0x192000 PTE_P) PTE_W; Z.lor (Z.lor 0x193000 PTE_P) PTE_W;
  Z.lor (Z.lor 0x194000 PTE_P) PTE_W; Z.lor (Z.lor 0x195000 PTE_P) PTE_W;
  Z.lor (Z.lor 0x196000 PTE_P) PTE_W; Z.lor (Z.lor 0x197000 PTE_P) PTE_W;
  Z.lor (Z.lor 0x198000 PTE_P) PTE_W; Z.lor (Z.lor 0x199000 PTE_P) PTE_W;
  Z.lor (Z.lor 0x19a000 PTE_P) PTE_W; Z.lor (Z.lor 0x19b000 PTE_P) PTE_W;
  Z.lor (Z.lor 0x19c000 PTE_P) PTE_W; Z.lor (Z.lor 0x19d000 PTE_P) PTE_W;
  Z.lor (Z.lor 0x19e000 PTE_P) PTE_W; Z.lor (Z.lor 0x19f000 PTE_P) PTE_W;
  Z.lor (Z.lor 0x1a0000 PTE_P) PTE_W; Z.lor (Z.lor 0x1a1000 PTE_P) PTE_W;
  Z.lor (Z.lor 0x1a2000 PTE_P) PTE_W; Z.lor (Z.lor 0x1a3000 PTE_P) PTE_W;
  Z.lor (Z.lor 0x1a4000 PTE_P) PTE_W; Z.lor (Z.lor 0x1a5000 PTE_P) PTE_W;
  Z.lor (Z.lor 0x1a6000 PTE_P) PTE_W; Z.lor (Z.lor 0x1a7000 PTE_P) PTE_W;
  Z.lor (Z.lor 0x1a8000 PTE_P) PTE_W; Z.lor (Z.lor 0x1a9000 PTE_P) PTE_W;
  Z.lor (Z.lor 0x1aa000 PTE_P) PTE_W; Z.lor (Z.lor 0x1ab000 PTE_P) PTE_W;
  Z.lor (Z.lor 0x1ac000 PTE_P) PTE_W; Z.lor (Z.lor 0x1ad000 PTE_P) PTE_W;
  Z.lor (Z.lor 0x1ae000 PTE_P) PTE_W; Z.lor (Z.lor 0x1af000 PTE_P) PTE_W;
  Z.lor (Z.lor 0x1b0000 PTE_P) PTE_W; Z.lor (Z.lor 0x1b1000 PTE_P) PTE_W;
  Z.lor (Z.lor 0x1b2000 PTE_P) PTE_W; Z.lor (Z.lor 0x1b3000 PTE_P) PTE_W;
  Z.lor (Z.lor 0x1b4000 PTE_P) PTE_W; Z.lor (Z.lor 0x1b5000 PTE_P) PTE_W;
  Z.lor (Z.lor 0x1b6000 PTE_P) PTE_W; Z.lor (Z.lor 0x1b7000 PTE_P) PTE_W;
  Z.lor (Z.lor 0x1b8000 PTE_P) PTE_W; Z.lor (Z.lor 0x1b9000 PTE_P) PTE_W;
  Z.lor (Z.lor 0x1ba000 PTE_P) PTE_W; Z.lor (Z.lor 0x1bb000 PTE_P) PTE_W;
  Z.lor (Z.lor 0x1bc000 PTE_P) PTE_W; Z.lor (Z.lor 0x1bd000 PTE_P) PTE_W;
  Z.lor (Z.lor 0x1be000 PTE_P) PTE_W; Z.lor (Z.lor 0x1bf000 PTE_P) PTE_W;
  Z.lor (Z.lor 0x1c0000 PTE_P) PTE_W; Z.lor (Z.lor 0x1c1000 PTE_P) PTE_W;
  Z.lor (Z.lor 0x1c2000 PTE_P) PTE_W; Z.lor (Z.lor 0x1c3000 PTE_P) PTE_W;
  Z.lor (Z.lor 0x1c4000 PTE_P) PTE_W; Z.lor (Z.lor 0x1c5000 PTE_P) PTE_W;
  Z.lor (Z.lor 0x1c6000 PTE_P) PTE_W; Z.lor (Z.lor 0x1c7000 PTE_P) PTE_W;
  Z.lor (Z.lor 0x1c8000 PTE_P) PTE_W; Z.lor (Z.lor 0x1c9000 PTE_P) PTE_W;
  Z.lor (Z.lor 0x1ca000 PTE_P) PTE_W; Z.lor (Z.lor 0x1cb000 PTE_P) PTE_W;
  Z.lor (Z.lor 0x1cc000 PTE_P) PTE_W; Z.lor (Z.lor 0x1cd000 PTE_P) PTE_W;
  Z.lor (Z.lor 0x1ce000 PTE_P) PTE_W; Z.lor (Z.lor 0x1cf000 PTE_P) PTE_W;
  Z.lor (Z.lor 0x1d0000 PTE_P) PTE_W; Z.lor (Z.lor 0x1d1000 PTE_P) PTE_W;
  Z.lor (Z.lor 0x1d2000 PTE_P) PTE_W; Z.lor (Z.lor 0x1d3000 PTE_P) PTE_W;
  Z.lor (Z.lor 0x1d4000 PTE_P) PTE_W; Z.lor (Z.lor 0x1d5000 PTE_P) PTE_W;
  Z.lor (Z.lor 0x1d6000 PTE_P) PTE_W; Z.lor (Z.lor 0x1d7000 PTE_P) PTE_W;
  Z.lor (Z.lor 0x1d8000 PTE_P) PTE_W; Z.lor (Z.lor 0x1d9000 PTE_P) PTE_W;
  Z.lor (Z.lor 0x1da000 PTE_P) PTE_W; Z.lor (Z.lor 0x1db000 PTE_P) PTE_W;
  Z.lor (Z.lor 0x1dc000 PTE_P) PTE_W; Z.lor (Z.lor 0x1dd000 PTE_P) PTE_W;
  Z.lor (Z.lor 0x1de000 PTE_P) PTE_W; Z.lor (Z.lor 0x1df000 PTE_P) PTE_W;
  Z.lor (Z.lor 0x1e0000 PTE_P) PTE_W; Z.lor (Z.lor 0x1e1000 PTE_P) PTE_W;
  Z.lor (Z.lor 0x1e2000 PTE_P) PTE_W; Z.lor (Z.lor 0x1e3000 PTE_P) PTE_W;
  Z.lor (Z.lor 0x1e4000 PTE_P) PTE_W; Z.lor (Z.lor 0x1e5000 PTE_P) PTE_W;
  Z.lor (Z.lor 0x1e6000 PTE_P) PTE_W; Z.lor (Z.lor 0x1e7000 PTE_P) PTE_W;
  Z.lor (Z.lor 0x1e8000 PTE_P) PTE_W; Z.lor (Z.lor 0x1e9000 PTE_P) PTE_W;
  Z.lor (Z.lor 0x1ea000 PTE_P) PTE_W; Z.lor (Z.lor 0x1eb000 PTE_P) PTE_W;
  Z.lor (Z.lor 0x1ec000 PTE_P) PTE_W; Z.lor (Z.lor 0x1ed000 PTE_P) PTE_W;
  Z.lor (Z.lor 0x1ee000 PTE_P) PTE_W; Z.lor (Z.lor 0x1ef000 PTE_P) PTE_W;
  Z.lor (Z.lor 0x1f0000 PTE_P) PTE_W; Z.lor (Z.lor 0x1f1000 PTE_P) PTE_W;
  Z.lor (Z.lor 0x1f2000 PTE_P) PTE_W; Z.lor (Z.lor 0x1f3000 PTE_P) PTE_W;
  Z.lor (Z.lor 0x1f4000 PTE_P) PTE_W; Z.lor (Z.lor 0x1f5000 PTE_P) PTE_W;
  Z.lor (Z.lor 0x1f6000 PTE_P) PTE_W; Z.lor (Z.lor 0x1f7000 PTE_P) PTE_W;
  Z.lor (Z.lor 0x1f8000 PTE_P) PTE_W; Z.lor (Z.lor 0x1f9000 PTE_P) PTE_W;
  Z.lor (Z.lor 0x1fa000 PTE_P) PTE_W; Z.lor (Z.lor 0x1fb000 PTE_P) PTE_W;
  Z.lor (Z.lor 0x1fc000 PTE_P) PTE_W; Z.lor (Z.lor 0x1fd000 PTE_P) PTE_W;
  Z.lor (Z.lor 0x1fe000 PTE_P) PTE_W; Z.lor (Z.lor 0x1ff000 PTE_P) PTE_W].

Definition entry_pgtable_4 : list Z := [
  Z.lor (Z.lor 0x200000 PTE_P) PTE_W; Z.lor (Z.lor 0x201000 PTE_P) PTE_W;
  Z.lor (Z.lor 0x202000 PTE_P) PTE_W; Z.lor (Z.lor 0x203000 PTE_P) PTE_W;
  Z.lor (Z.lor 0x204000 PTE_P) PTE_W; Z.lor (Z.lor 0x205000 PTE_P) PTE_W;
  Z.lor (Z.lor 0x206000 PTE_P) PTE_W; Z.lor (Z.lor 0x207000 PTE_P) PTE_W;
  Z.lor (Z.lor 0x208000 PTE_P) PTE_W; Z.lor (Z.lor 0x209000 PTE_P) PTE_W;
  Z.lor (Z.lor 0x20a000 PTE_P) PTE_W; Z.lor (Z.lor 0x20b000 PTE_P) PTE_W;
  Z.lor (Z.lor 0x20c000 PTE_P) PTE_W; Z.lor (Z.lor 0x20d000 PTE_P) PTE_W;
  Z.lor (Z.lor 0x20e000 PTE_P) PTE_W; Z.lor (Z.lor 0x20f000 PTE_P) PTE_W;
  Z.lor (Z.lor 0x210000 PTE_P) PTE_W; Z.lor (Z.lor 0x211000 PTE_P) PTE_W;
  Z.lor (Z.lor 0x212000 PTE_P) PTE_W; Z.lor (Z.lor 0x213000 PTE_P) PTE_W;
  Z.lor (Z.lor 0x214000 PTE_P) PTE_W; Z.lor (Z.lor 0x215000 PTE_P) PTE_W;
  Z.lor (Z.lor 0x216000 PTE_P) PTE_W; Z.lor (Z.lor 0x217000 PTE_P) PTE_W;
  Z.lor (Z.lor 0x218000 PTE_P) PTE_W; Z.lor (Z.lor 0x219000 PTE_P) PTE_W;
  Z.lor (Z.lor 0x21a000 PTE_P) PTE_W; Z.lor (Z.lor 0x21b000 PTE_P) PTE_W;
  Z.lor (Z.lor 0x21c000 PTE_P) PTE_W; Z.lor (Z.lor 0x21d000 PTE_P) PTE_W;
  Z.lor (Z.lor 0x21e000 PTE_P) PTE_W; Z.lor (Z.lor 0x21f000 PTE_P) PTE_W;
  Z.lor (Z.lor 0x220000 PTE_P) PTE_W; Z.lor (Z.lor 0x221000 PTE_P) PTE_W;
  Z.lor (Z.lor 0x222000 PTE_P) PTE_W; Z.lor (Z.lor 0x223000 PTE_P) PTE_W;
  Z.lor (Z.lor 0x224000 PTE_P) PTE_W; Z.lor (Z.lor 0x225000 PTE_P) PTE_W;
  Z.lor (Z.lor 0x226000 PTE_P) PTE_W; Z.lor (Z.lor 0x227000 PTE_P) PTE_W;
  Z.lor (Z.lor 0x228000 PTE_P) PTE_W; Z.lor (Z.lor 0x229000 PTE_P) PTE_W;
  Z.lor (Z.lor 0x22a000 PTE_P) PTE_W; Z.lor (Z.lor 0x22b000 PTE_P) PTE_W;
  Z.lor (Z.lor 0x22c000 PTE_P) PTE_W; Z.lor (Z.lor 0x22d000 PTE_P) PTE_W;
  Z.lor (Z.lor 0x22e000 PTE_P) PTE_W; Z.lor (Z.lor 0x22f000 PTE_P) PTE_W;
  Z.lor (Z.lor 0x230000 PTE_P) PTE_W; Z.lor (Z.lor 0x231000 PTE_P) PTE_W;
  Z.lor (Z.lor 0x232000 PTE_P) PTE_W; Z.lor (Z.lor 0x233000 PTE_P) PTE_W;
  Z.lor (Z.lor 0x234000 PTE_P) PTE_W; Z.lor (Z.lor 0x235000 PTE_P) PTE_W;
  Z.lor (Z.lor 0x236000 PTE_P) PTE_W; Z.lor (Z.lor 0x237000 PTE_P) PTE_W;
  Z.lor (Z.lor 0x238000 PTE_P) PTE_W; Z.lor (Z.lor 0x239000 PTE_P) PTE_W;
  Z.lor (Z.lor 0x23a000 PTE_P) PTE_W; Z.lor (Z.lor 0x23b000 PTE_P) PTE_W;
  Z.lor (Z.lor 0x23c000 PTE_P) PTE_W; Z.lor (Z.lor 0x23d000 PTE_P) PTE_W;
  Z.lor (Z.lor 0x23e000 PTE_P) PTE_W; Z.lor (Z.lor 0x23f000 PTE_P) PTE_W;
  Z.lor (Z.lor 0x240000 PTE_P) PTE_W; Z.lor (Z.lor 0x241000 PTE_P) PTE_W;
  Z.lor (Z.lor 0x242000 PTE_P) PTE_W; Z.lor (Z.lor 0x243000 PTE_P) PTE_W;
  Z.lor (Z.lor 0x244000 PTE_P) PTE_W; Z.lor (Z.lor 0x245000 PTE_P) PTE_W;
  Z.lor (Z.lor 0x246000 PTE_P) PTE_W; Z.lor (Z.lor 0x247000 PTE_P) PTE_W;
  Z.lor (Z.lor 0x248000 PTE_P) PTE_W; Z.lor (Z.lor 0x249000 PTE_P) PTE_W;
  Z.lor (Z.lor 0x24a000 PTE_P) PTE_W; Z.lor (Z.lor 0x24b000 PTE_P) PTE_W;
  Z.lor (Z.lor 0x24c000 PTE_P) PTE_W; Z.lor (Z.lor 0x24d000 PTE_P) PTE_W;
  Z.lor (Z.lor 0x24e000 PTE_P) PTE_W; Z.lor (Z.lor 0x24f000 PTE_P) PTE_W;
  Z.lor (Z.lor 0x250000 PTE_P) PTE_W; Z.lor (Z.lor 0x251000 PTE_P) PTE_W;
  Z.lor (Z.lor 0x252000 PTE_P) PTE_W; Z.lor (Z.lor 0x253000 PTE_P) PTE_W;
  Z.lor (Z.lor 0x254000 PTE_P) PTE_W; Z.lor (Z.lor 0x255000 PTE_P) PTE_W;
  Z.lor (Z.lor 0x256000 PTE_P) PTE_W; Z.lor (Z.lor 0x257000 PTE_P) PTE_W;
  Z.lor (Z.lor 0x258000 PTE_P) PTE_W; Z.lor (Z.lor 0x259000 PTE_P) PTE_W;
  Z.lor (Z.lor 0x25a000 PTE_P) PTE_W; Z.lor (Z.lor 0x25b000 PTE_P) PTE_W;
  Z.lor (Z.lor 0x25c000 PTE_P) PTE_W; Z.lor (Z.lor 0x25d000 PTE_P) PTE_W;
  Z.lor (Z.lor 0x25e000 PTE_P) PTE_W; Z.lor (Z.lor 0x25f000 PTE_P) PTE_W;
  Z.lor (Z.lor 0x260000 PTE_P) PTE_W; Z.lor (Z.lor 0x261000 PTE_P) PTE_W;
  Z.lor (Z.lor 0x262000 PTE_P) PTE_W; Z.lor (Z.lor 0x263000 PTE_P) PTE_W;
  Z.lor (Z.lor 0x264000 PTE_P) PTE_W; Z.lor (Z.lor 0x265000 PTE_P) PTE_W;
  Z.lor (Z.lor 0x266000 PTE_P) PTE_W; Z.lor (Z.lor 0x267000 PTE_P) PTE_W;
  Z.lor (Z.lor 0x268000 PTE_P) PTE_W; Z.lor (Z.lor 0x269000 PTE_P) PTE_W;
  Z.lor (Z.lor 0x26a000 PTE_P) PTE_W; Z.lor (Z.lor 0x26b000 PTE_P) PTE_W;
  Z.lor (Z.lor 0x26c000 PTE_P) PTE_W; Z.lor (Z.lor 0x26d000 PTE_P) PTE_W;
  Z.lor (Z.lor 0x26e000 PTE_P) PTE_W; Z.lor (Z.lor 0x26f000 PTE_P) PTE_W;
  Z.lor (Z.lor 0x270000 PTE_P) PTE_W; Z.lor (Z.lor 0x271000 PTE_P) PTE_W;
  Z.lor (Z.lor 0x272000 PTE_P) PTE_W; Z.lor (Z.lor 0x273000 PTE_P) PTE_W;
  Z.lor (Z.lor 0x274000 PTE_P) PTE_W; Z.lor (Z.lor 0x275000 PTE_P) PTE_W;
  Z.lor (Z.lor 0x276000 PTE_P) PTE_W; Z.lor (Z.lor 0x277000 PTE_P) PTE_W;
  Z.lor (Z.lor 0x278000 PTE_P) PTE_W; Z.lor (Z.lor 0x279000 PTE_P) PTE_W;
  Z.lor (Z.lor 0x27a000 PTE_P) PTE_W; Z.lor (Z.lor 0x27b000 PTE_P) PTE_W;
  Z.lor (Z.lor 0x27c000 PTE_P) PTE_W; Z.lor (Z.lor 0x27d000 PTE_P) PTE_W;
  Z.lor (Z.lor 0x27e000 PTE_P) PTE_W; Z.lor (Z.lor 0x27f000 PTE_P) PTE_W].

Definition entry_pgtable_5 : list Z := [
  Z.lor (Z.lor 0x280000 PTE_P) PTE_W; Z.lor (Z.lor 0x281000 PTE_P) PTE_W;
  Z.lor (Z.lor 0x282000 PTE_P) PTE_W; Z.lor (Z.lor 0x283000 PTE_P) PTE_W;
  Z.lor (Z.lor 0x284000 PTE_P) PTE_W; Z.lor (Z.lor 0x285000 PTE_P) PTE_W;
  Z.lor (Z.lor 0x286000 PTE_P) PTE_W; Z.lor (Z.lor 0x287000 PTE_P) PTE_W;
  Z.lor (Z.lor 0x288000 PTE_P) PTE_W; Z.lor (Z.lor 0x289000 PTE_P) PTE_W;
  Z.lor (Z.lor 0x28a000 PTE_P) PTE_W; Z.lor (Z.lor 0x28b000 PTE_P) PTE_W;
  Z.lor (Z.lor 0x28c000 PTE_P) PTE_W; Z.lor (Z.lor 0x28d000 PTE_P) PTE_W;
  Z.lor (Z.lor 0x28e000 PTE_P) PTE_W; Z.lor (Z.lor 0x28f000 PTE_P) PTE_W;
  Z.lor (Z.lor 0x290000 PTE_P) PTE_W; Z.lor (Z.lor 0x291000 PTE_P) PTE_W;
  Z.lor (Z.lor 0x292000 PTE_P) PTE_W; Z.lor (Z.lor 0x293000 PTE_P) PTE_W;
  Z.lor (Z.lor 0x294000 PTE_P) PTE_W; Z.lor (Z.lor 0x295000 PTE_P) PTE_W;
  Z.lor (Z.lor 0x296000 PTE_P) PTE_W; Z.lor (Z.lor 0x297000 PTE_P) PTE_W;
  Z.lor (Z.lor 0x298000 PTE_P) PTE_W; Z.lor (Z.lor 0x299000 PTE_P) PTE_W;
  Z.lor (Z.lor 0x29a000 PTE_P) PTE_W; Z.lor (Z.lor 0x29b000 PTE_P) PTE_W;
  Z.lor (Z.lor 0x29c000 PTE_P) PTE_W; Z.lor (Z.lor 0x29d000 PTE_P) PTE_W;
  Z.lor (Z.lor 0x29e000 PTE_P) PTE_W; Z.lor (Z.lor 0x29f000 PTE_P) PTE_W;
  Z.lor (Z.lor 0x2a0000 PTE_P) PTE_W; Z.lor (Z.lor 0x2a1000 PTE_P) PTE_W;
  Z.lor (Z.lor 0x2a2000 PTE_P) PTE_W; Z.lor (Z.lor 0x2a3000 PTE_P) PTE_W;
  Z.lor (Z.lor 0x2a4000 PTE_P) PTE_W; Z.lor (Z.lor 0x2a5000 PTE_P) PTE_W;
  Z.lor (Z.lor 0x2a6000 PTE_P) PTE_W; Z.lor (Z.lor 0x2a7000 PTE_P) PTE_W;
  Z.lor (Z.lor 0x2a8000 PTE_P) PTE_W; Z.lor (Z.lor 0x2a9000 PTE_P) PTE_W;
  Z.lor (Z.lor 0x2aa000 PTE_P) PTE_W; Z.lor (Z.lor 0x2ab000 PTE_P) PTE_W;
  Z.lor (Z.lor 0x2ac000 PTE_P) PTE_W; Z.lor (Z.lor 0x2ad000 PTE_P) PTE_W;
  Z.lor (Z.lor 0x2ae000 PTE_P) PTE_W; Z.lor (Z.lor 0x2af000 PTE_P) PTE_W;
  Z.lor (Z.lor 0x2b0000 PTE_P) PTE_W; Z.lor (Z.lor 0x2b1000 PTE_P) PTE_W;
  Z.lor (Z.lor 0x2b2000 PTE_P) PTE_W; Z.lor (Z.lor 0x2b3000 PTE_P) PTE_W;
  Z.lor (Z.lor 0x2b4000 PTE_P) PTE_W; Z.lor (Z.lor 0x2b5000 PTE_P) PTE_W;
  Z.lor (Z.lor 0x2b6000 PTE_P) PTE_W; Z.lor (Z.lor 0x2b7000 PTE_P) PTE_W;
  Z.lor (Z.lor 0x2b8000 PTE_P) PTE_W; Z.lor (Z.lor 0x2b9000 PTE_P) PTE_W;
  Z.lor (Z.lor 0x2ba000 PTE_P) PTE_W; Z.lor (Z.lor 0x2bb000 PTE_P) PTE_W;
  Z.lor (Z.lor 0x2bc000 PTE_P) PTE_W; Z.lor (Z.lor 0x2bd000 PTE_P) PTE_W;
  Z.lor (Z.lor 0x2be000 PTE_P) PTE_W; Z.lor (Z.lor 0x2bf000 PTE_P) PTE_W;
  Z.lor (Z.lor 0x2c0000 PTE_P) PTE_W; Z.lor (Z.lor 0x2c1000 PTE_P) PTE_W;
  Z.lor (Z.lor 0x2c2000 PTE_P) PTE_W; Z.lor (Z.lor 0x2c3000 PTE_P) PTE_W;
  Z.lor (Z.lor 0x2c4000 PTE_P) PTE_W; Z.lor (Z.lor 0x2c5000 PTE_P) PTE_W;
  Z.lor (Z.lor 0x2c6000 PTE_P) PTE_W; Z.lor (Z.lor 0x2c7000 PTE_P) PTE_W;
  Z.lor (Z.lor 0x2c8000 PTE_P) PTE_W; Z.lor (Z.lor 0x2c9000 PTE_P) PTE_W;
  Z.lor (Z.lor 0x2ca000 PTE_P) PTE_W; Z.lor (Z.lor 0x2cb000 PTE_P) PTE_W;
  Z.lor (Z.lor 0x2cc000 PTE_P) PTE_W; Z.lor (Z.lor 0x2cd000 PTE_P) PTE_W;
  Z.lor (Z.lor 0x2ce000 PTE_P) PTE_W; Z.lor (Z.lor 0x2cf000 PTE_P) PTE_W;
  Z.lor (Z.lor 0x2d0000 PTE_P) PTE_W; Z.lor (Z.lor 0x2d1000 PTE_P) PTE_W;
  Z.lor (Z.lor 0x2d2000 PTE_P) PTE_W; Z.lor (Z.lor 0x2d3000 PTE_P) PTE_W;
  Z.lor (Z.lor 0x2d4000 PTE_P) PTE_W; Z.lor (Z.lor 0x2d5000 PTE_P) PTE_W;
  Z.lor (Z.lor 0x2d6000 PTE_P) PTE_W; Z.lor (Z.lor 0x2d7000 PTE_P) PTE_W;
  Z.lor (Z.lor 0x2d8000 PTE_P) PTE_W; Z.lor (Z.lor 0x2d9000 PTE_P) PTE_W;
  Z.lor (Z.lor 0x2da000 PTE_P) PTE_W; Z.lor (Z.lor 0x2db000 PTE_P) PTE_W;
  Z.lor (Z.lor 0x2dc000 PTE_P) PTE_W; Z.lor (Z.lor 0x2dd000 PTE_P) PTE_W;
  Z.lor (Z.lor 0x2de000 PTE_P) PTE_W; Z.lor (Z.lor 0x2df000 PTE_P) PTE_W;
  Z.lor (Z.lor 0x2e0000 PTE_P) PTE_W; Z.lor (Z.lor 0x2e1000 PTE_P) PTE_W;
  Z.lor (Z.lor 0x2e2000 PTE_P) PTE_W; Z.lor (Z.lor 0x2e3000 PTE_P) PTE_W;
  Z.lor (Z.lor 0x2e4000 PTE_P) PTE_W; Z.lor (Z.lor 0x2e5000 PTE_P) PTE_W;
  Z.lor (Z.lor 0x2e6000 PTE_P) PTE_W; Z.lor (Z.lor 0x2e7000 PTE_P) PTE_W;
  Z.lor (Z.lor 0x2e8000 PTE_P) PTE_W; Z.lor (Z.lor 0x2e9000 PTE_P) PTE_W;
  Z.lor (Z.lor 0x2ea000 PTE_P) PTE_W; Z.lor (Z.lor 0x2eb000 PTE_P) PTE_W;
  Z.lor (Z.lor 0x2ec000 PTE_P) PTE_W; Z.lor (Z.lor 0x2ed000 PTE_P) PTE_W;
  Z.lor (Z.lor 0x2ee000 PTE_P) PTE_W; Z.lor (Z.lor 0x2ef000 PTE_P) PTE_W;
  Z.lor (Z.lor 0x2f0000 PTE_P) PTE_W; Z.lor (Z.lor 0x2f1000 PTE_P) PTE_W;
  Z.lor (Z.lor 0x2f2000 PTE_P) PTE_W; Z.lor (Z.lor 0x2f3000 PTE_P) PTE_W;
  Z.lor (Z.lor 0x2f4000 PTE_P) PTE_W; Z.lor (Z.lor 0x2f5000 PTE_P) PTE_W;
  Z.lor (Z.lor 0x2f6000 PTE_P) PTE_W; Z.lor (Z.lor 0x2f7000 PTE_P) PTE_W;
  Z.lor (Z.lor 0x2f8000 PTE_P) PTE_W; Z.lor (Z.lor 0x2f9000 PTE_P) PTE_W;
  Z.lor (Z.lor 0x2fa000 PTE_P) PTE_W; Z.lor (Z.lor 0x2fb000 PTE_P) PTE_W;
  Z.lor (Z.lor 0x2fc000 PTE_P) PTE_W; Z.lor (Z.lor 0x2fd000 PTE_P) PTE_W;
  Z.lor (Z.lor 0x2fe000 PTE_P) PTE_W; Z.lor (Z.lor 0x2ff000 PTE_P) PTE_W].

Definition entry_pgtable_6 : list Z := [
  Z.lor (Z.lor 0x300000 PTE_P) PTE_W; Z.lor (Z.lor 0x301000 PTE_P) PTE_W;
  Z.lor (Z.lor 0x302000 PTE_P) PTE_W; Z.lor (Z.lor 0x303000 PTE_P) PTE_W;
  Z.lor (Z.lor 0x304000 PTE_P) PTE_W; Z.lor (Z.lor 0x305000 PTE_P) PTE_W;
  Z.lor (Z.lor 0x306000 PTE_P) PTE_W; Z.lor (Z.lor 0x307000 PTE_P) PTE_W;
  Z.lor (Z.lor 0x308000 PTE_P) PTE_W; Z.lor (Z.lor 0x309000 PTE_P) PTE_W;
  Z.lor (Z.lor 0x30a000 PTE_P) PTE_W; Z.lor (Z.lor 0x30b000 PTE_P) PTE_W;
  Z.lor (Z.lor 0x30c000 PTE_P) PTE_W; Z.lor (Z.lor 0x30d000 PTE_P) PTE_W;
  Z.lor (Z.lor 0x30e000 PTE_P) PTE_W; Z.lor (Z.lor 0x30f000 PTE_P) PTE_W;
  Z.lor (Z.lor 0x310000 PTE_P) PTE_W; Z.lor (Z.lor 0x311000 PTE_P) PTE_W;
  Z.lor (Z.lor 0x312000 PTE_P) PTE_W; Z.lor (Z.lor 0x313000 PTE_P) PTE_W;
  Z.lor (Z.lor 0x314000 PTE_P) PTE_W; Z.lor (Z.lor 0x315000 PTE_P) PTE_W;
  Z.lor (Z.lor 0x316000 PTE_P) PTE_W; Z.lor (Z.lor 0x317000 PTE_P) PTE_W;
  Z.lor (Z.lor 0x318000 PTE_P) PTE_W; Z.lor (Z.lor 0x319000 PTE_P) PTE_W;
  Z.lor (Z.lor 0x31a000 PTE_P) PTE_W; Z.lor (Z.lor 0x31b000 PTE_P) PTE_W;
  Z.lor (Z.lor 0x31c000 PTE_P) PTE_W; Z.lor (Z.lor 0x31d000 PTE_P) PTE_W;
  Z.lor (Z.lor 0x31e000 PTE_P) PTE_W; Z.lor (Z.lor 0x31f000 PTE_P) PTE_W;
  Z.lor (Z.lor 0x320000 PTE_P) PTE_W; Z.lor (Z.lor 0x321000 PTE_P) PTE_W;
  Z.lor (Z.lor 0x322000 PTE_P) PTE_W; Z.lor (Z.lor 0x323000 PTE_P) PTE_W;
  Z.lor (Z.lor 0x324000 PTE_P) PTE_W; Z.lor (Z.lor 0x325000 PTE_P) PTE_W;
  Z.lor (Z.lor 0x326000 PTE_P) PTE_W; Z.lor (Z.lor 0x327000 PTE_P) PTE_W;
  Z.lor (Z.lor 0x328000 PTE_P) PTE_W; Z.lor (Z.lor 0x329000 PTE_P) PTE_W;
  Z.lor (Z.lor 0x32a000 PTE_P) PTE_W; Z.lor (Z.lor 0x32b000 PTE_P) PTE_W;
  Z.lor (Z.lor 0x32c000 PTE_P) PTE_W; Z.lor (Z.lor 0x32d000 PTE_P) PTE_W;
  Z.lor (Z.lor 0x32e000 PTE_P) PTE_W; Z.lor (Z.lor 0x32f000 PTE_P) PTE_W;
  Z.lor (Z.lor 0x330000 PTE_P) PTE_W; Z.lor (Z.lor 0x331000 PTE_P) PTE_W;
  Z.lor (Z.lor 0x332000 PTE_P) PTE_W; Z.lor (Z.lor 0x333000 PTE_P) PTE_W;
  Z.lor (Z.lor 0x334000 PTE_P) PTE_W; Z.lor (Z.lor 0x335000 PTE_P) PTE_W;
  Z.lor (Z.lor 0x336000 PTE_P) PTE_W; Z.lor (Z.lor 0x337000 PTE_P) PTE_W;
  Z.lor (Z.lor 0x338000 PTE_P) PTE_W; Z.lor (Z.lor 0x339000 PTE_P) PTE_W;
  Z.lor (Z.lor 0x33a000 PTE_P) PTE_W; Z.lor (Z.lor 0x33b000 PTE_P) PTE_W;
  Z.lor (Z.lor 0x33c000 PTE_P) PTE_W; Z.lor (Z.lor 0x33d000 PTE_P) PTE_W;
  Z.lor (Z.lor 0x33e000 PTE_P) PTE_W; Z.lor (Z.lor 0x33f000 PTE_P) PTE_W;
  Z.lor (Z.lor 0x340000 PTE_P) PTE_W; Z.lor (Z.lor 0x341000 PTE_P) PTE_W;
  Z.lor (Z.lor 0x342000 PTE_P) PTE_W; Z.lor (Z.lor 0x343000 PTE_P) PTE_W;
  Z.lor (Z.lor 0x344000 PTE_P) PTE_W; Z.lor (Z.lor 0x345000 PTE_P) PTE_W;
  Z.lor (Z.lor 0x346000 PTE_P) PTE_W; Z.lor (Z.lor 0x347000 PTE_P) PTE_W;
  Z.lor (Z.lor 0x348000 PTE_P) PTE_W; Z.lor (Z.lor 0x349000 PTE_P) PTE_W;
  Z.lor (Z.lor 0x34a000 PTE_P) PTE_W; Z.lor (Z.lor 0x34b000 PTE_P) PTE_W;
  Z.lor (Z.lor 0x34c000 PTE_P) PTE_W; Z.lor (Z.lor 0x34d000 PTE_P) PTE_W;
  Z.lor (Z.lor 0x34e000 PTE_P) PTE_W; Z.lor (Z.lor 0x34f000 PTE_P) PTE_W;
  Z.lor (Z.lor 0x350000 PTE_P) PTE_W; Z.lor (Z.lor 0x351000 PTE_P) PTE_W;
  Z.lor (Z.lor 0x352000 PTE_P) PTE_W; Z.lor (Z.lor 0x353000 PTE_P) PTE_W;
  Z.lor (Z.lor 0x354000 PTE_P) PTE_W; Z.lor (Z.lor 0x355000 PTE_P) PTE_W;
  Z.lor (Z.lor 0x356000 PTE_P) PTE_W; Z.lor (Z.lor 0x357000 PTE_P) PTE_W;
  Z.lor (Z.lor 0x358000 PTE_P) PTE_W; Z.lor (Z.lor 0x359000 PTE_P) PTE_W;
  Z.lor (Z.lor 0x35a000 PTE_P) PTE_W; Z.lor (Z.lor 0x35b000 PTE_P) PTE_W;
  Z.lor (Z.lor 0x35c000 PTE_P) PTE_W; Z.lor (Z.lor 0x35d000 PTE_P) PTE_W;
  Z.lor (Z.lor 0x35e000 PTE_P) PTE_W; Z.lor (Z.lor 0x35f000 PTE_P) PTE_W;
  Z.lor (Z.lor 0x360000 PTE_P) PTE_W; Z.lor (Z.lor 0x361000 PTE_P) PTE_W;
  Z.lor (Z.lor 0x362000 PTE_P) PTE_W; Z.lor (Z.lor 0x363000 PTE_P) PTE_W;
  Z.lor (Z.lor 0x364000 PTE_P) PTE_W; Z.lor (Z.lor 0x365000 PTE_P) PTE_W;
  Z.lor (Z.lor 0x366000 PTE_P) PTE_W; Z.lor (Z.lor 0x367000 PTE_P) PTE_W;
  Z.lor (Z.lor 0x368000 PTE_P) PTE_W; Z.lor (Z.lor 0x369000 PTE_P) PTE_W;
  Z.lor (Z.lor 0x36a000 PTE_P) PTE_W; Z.lor (Z.lor 0x36b000 PTE_P) PTE_W;
  Z.lor (Z.lor 0x36c000 PTE_P) PTE_W; Z.lor (Z.lor 0x36d000 PTE_P) PTE_W;
  Z.lor (Z.lor 0x36e000 PTE_P) PTE_W; Z.lor (Z.lor 0x36f000 PTE_P) PTE_W;
  Z.lor (Z.lor 0x370000 PTE_P) PTE_W; Z.lor (Z.lor 0x371000 PTE_P) PTE_W;
  Z.lor (Z.lor 0x372000 PTE_P) PTE_W; Z.lor (Z.lor 0x373000 PTE_P) PTE_W;
  Z.lor (Z.lor 0x374000 PTE_P) PTE_W; Z.lor (Z.lor 0x375000 PTE_P) PTE_W;
  Z.lor (Z.lor 0x376000 PTE_P) PTE_W; Z.lor (Z.lor 0x377000 PTE_P) PTE_W;
  Z.lor (Z.lor 0x378000 PTE_P) PTE_W; Z.lor (Z.lor 0x379000 PTE_P) PTE_W;
  Z.lor (Z.lor 0x37a000 PTE_P) PTE_W; Z.lor (Z.lor 0x37b000 PTE_P) PTE_W;
  Z.lor (Z.lor 0x37c000 PTE_P) PTE_W; Z.lor (Z.lor 0x37d000 PTE_P) PTE_W;
  Z.lor (Z.lor 0x37e000 PTE_P) PTE_W; Z.lor (Z.lor 0x37f000 PTE_P) PTE_W].

Definition entry_pgtable_7 : list Z := [
  Z.lor (Z.lor 0x380000 PTE_P) PTE_W; Z.lor (Z.lor 0x381000 PTE_P) PTE_W;
  Z.lor (Z.lor 0x382000 PTE_P) PTE_W; Z.lor (Z.lor 0x383000 PTE_P) PTE_W;
  Z.lor (Z.lor 0x384000 PTE_P) PTE_W; Z.lor (Z.lor 0x385000 PTE_P) PTE_W;
  Z.lor (Z.lor 0x386000 PTE_P) PTE_W; Z.lor (Z.lor 0x387000 PTE_P) PTE_W;
  Z.lor (Z.lor 0x388000 PTE_P) PTE_W; Z.lor (Z.lor 0x389000 PTE_P) PTE_W;
  Z.lor (Z.lor 0x38a000 PTE_P) PTE_W; Z.lor (Z.lor 0x38b000 PTE_P) PTE_W;
  Z.lor (Z.lor 0x38c000 PTE_P) PTE_W; Z.lor (Z.lor 0x38d000 PTE_P) PTE_W;
  Z.lor (Z.lor 0x38e000 PTE_P) PTE_W; Z.lor (Z.lor 0x38f000 PTE_P) PTE_W;
  Z.lor (Z.lor 0x390000 PTE_P) PTE_W; Z.lor (Z.lor 0x391000 PTE_P) PTE_W;
  Z.lor (Z.lor 0x392000 PTE_P) PTE_W; Z.lor (Z.lor 0x393000 PTE_P) PTE_W;
  Z.lor (Z.lor 0x394000 PTE_P) PTE_W; Z.lor (Z.lor 0x395000 PTE_P) PTE_W;
  Z.lor (Z.lor 0x396000 PTE_P) PTE_W; Z.lor (Z.lor 0x397000 PTE_P) PTE_W;
  Z.lor (Z.lor 0x398000 PTE_P) PTE_W; Z.lor (Z.lor 0x399000 PTE_P) PTE_W;
  Z.lor (Z.lor 0x39a000 PTE_P) PTE_W; Z.lor (Z.lor 0x39b000 PTE_P) PTE_W;
  Z.lor (Z.lor 0x39c000 PTE_P) PTE_W; Z.lor (Z.lor 0x39d000 PTE_P) PTE_W;
  Z.lor (Z.lor 0x39e000 PTE_P) PTE_W; Z.lor (Z.lor 0x39f000 PTE_P) PTE_W;
  Z.lor (Z.lor 0x3a0000 PTE_P) PTE_W; Z.lor (Z.lor 0x3a1000 PTE_P) PTE_W;
  Z.lor (Z.lor 0x3a2000 PTE_P) PTE_W; Z.lor (Z.lor 0x3a3000 PTE_P) PTE_W;
  Z.lor (Z.lor 0x3a4000 PTE_P) PTE_W; Z.lor (Z.lor 0x3a5000 PTE_P) PTE_W;
  Z.lor (Z.lor 0x3a6000 PTE_P) PTE_W; Z.lor (Z.lor 0x3a7000 PTE_P) PTE_W;
  Z.lor (Z.lor 0x3a8000 PTE_P) PTE_W; Z.lor (Z.lor 0x3a9000 PTE_P) PTE_W;
  Z.lor (Z.lor 0x3aa000 PTE_P) PTE_W; Z.lor (Z.lor 0x3ab000 PTE_P) PTE_W;
  Z.lor (Z.lor 0x3ac000 PTE_P) PTE_W; Z.lor (Z.lor 0x3ad000 PTE_P) PTE_W;
  Z.lor (Z.lor 0x3ae000 PTE_P) PTE_W; Z.lor (Z.lor 0x3af000 PTE_P) PTE_W;
  Z.lor (Z.lor 0x3b0000 PTE_P) PTE_W; Z.lor (Z.lor 0x3b1000 PTE_P) PTE_W;
  Z.lor (Z.lor 0x3b2000 PTE_P) PTE_W; Z.lor (Z.lor 0x3b3000 PTE_P) PTE_W;
  Z.lor (Z.lor 0x3b4000 PTE_P) PTE_W; Z.lor (Z.lor 0x3b5000 PTE_P) PTE_W;
  Z.lor (Z.lor 0x3b6000 PTE_P) PTE_W; Z.lor (Z.lor 0x3b7000 PTE_P) PTE_W;
  Z.lor (Z.lor 0x3b8000 PTE_P) PTE_W; Z.lor (Z.lor 0x3b9000 PTE_P) PTE_W;
  Z.lor (Z.lor 0x3ba000 PTE_P) PTE_W; Z.lor (Z.lor 0x3bb000 PTE_P) PTE_W;
  Z.lor (Z.lor 0x3bc000 PTE_P) PTE_W; Z.lor (Z.lor 0x3bd000 PTE_P) PTE_W;
  Z.lor (Z.lor 0x3be000 PTE_P) PTE_W; Z.lor (Z.lor 0x3bf000 PTE_P) PTE_W;
  Z.lor (Z.lor 0x3c0000 PTE_P) PTE_W; Z.lor (Z.lor 0x3c1000 PTE_P) PTE_W;
  Z.lor (Z.lor 0x3c2000 PTE_P) PTE_W; Z.lor (Z.lor 0x3c3000 PTE_P) PTE_W;
  Z.lor (Z.lor 0x3c4000 PTE_P) PTE_W; Z.lor (Z.lor 0x3c5000 PTE_P) PTE_W;
  Z.lor (Z.lor 0x3c6000 PTE_P) PTE_W; Z.lor (Z.lor 0x3c7000 PTE_P) PTE_W;
  Z.lor (Z.lor 0x3c8000 PTE_P) PTE_W; Z.lor (Z.lor 0x3c9000 PTE_P) PTE_W;
  Z.lor (Z.lor 0x3ca000 PTE_P) PTE_W; Z.lor (Z.lor 0x3cb000 PTE_P) PTE_W;
  Z.lor (Z.lor 0x3cc000 PTE_P) PTE_W; Z.lor (Z.lor 0x3cd000 PTE_P) PTE_W;
  Z.lor (Z.lor 0x3ce000 PTE_P) PTE_W; Z.lor (Z.lor 0x3cf000 PTE_P) PTE_W;
  Z.lor (Z.lor 0x3d0000 PTE_P) PTE_W; Z.lor (Z.lor 0x3d1000 PTE_P) PTE_W;
  Z.lor (Z.lor 0x3d2000 PTE_P) PTE_W; Z.lor (Z.lor 0x3d3000 PTE_P) PTE_W;
  Z.lor (Z.lor 0x3d4000 PTE_P) PTE_W; Z.lor (Z.lor 0x3d5000 PTE_P) PTE_W;
  Z.lor (Z.lor 0x3d6000 PTE_P) PTE_W; Z.lor (Z.lor 0x3d7000 PTE_P) PTE_W;
  Z.lor (Z.lor 0x3d8000 PTE_P) PTE_W; Z.lor (Z.lor 0x3d9000 PTE_P) PTE_W;
  Z.lor (Z.lor 0x3da000 PTE_P) PTE_W; Z.lor (Z.lor 0x3db000 PTE_P) PTE_W;
  Z.lor (Z.lor 0x3dc000 PTE_P) PTE_W; Z.lor (Z.lor 0x3dd000 PTE_P) PTE_W;
  Z.lor (Z.lor 0x3de000 PTE_P) PTE_W; Z.lor (Z.lor 0x3df000 PTE_P) PTE_W;
  Z.lor (Z.lor 0x3e0000 PTE_P) PTE_W; Z.lor (Z.lor 0x3e1000 PTE_P) PTE_W;
  Z.lor (Z.lor 0x3e2000 PTE_P) PTE_W; Z.lor (Z.lor 0x3e3000 PTE_P) PTE_W;
  Z.lor (Z.lor 0x3e4000 PTE_P) PTE_W; Z.lor (Z.lor 0x3e5000 PTE_P) PTE_W;
  Z.lor (Z.lor 0x3e6000 PTE_P) PTE_W; Z.lor (Z.lor 0x3e7000 PTE_P) PTE_W;
  Z.lor (Z.lor 0x3e8000 PTE_P) PTE_W; Z.lor (Z.lor 0x3e9000 PTE_P) PTE_W;
  Z.lor (Z.lor 0x3ea000 PTE_P) PTE_W; Z.lor (Z.lor 0x3eb000 PTE_P) PTE_W;
  Z.lor (Z.lor 0x3ec000 PTE_P) PTE_W; Z.lor (Z.lor 0x3ed000 PTE_P) PTE_W;
  Z.lor (Z.lor 0x3ee000 PTE_P) PTE_W; Z.lor (Z.lor 0x3ef000 PTE_P) PTE_W;
  Z.lor (Z.lor 0x3f0000 PTE_P) PTE_W; Z.lor (Z.lor 0x3f1000 PTE_P) PTE_W;
  Z.lor (Z.lor 0x3f2000 PTE_P) PTE_W; Z.lor (Z.lor 0x3f3000 PTE_P) PTE_W;
  Z.lor (Z.lor 0x3f4000 PTE_P) PTE_W; Z.lor (Z.lor 0x3f5000 PTE_P) PTE_W;
  Z.lor (Z.lor 0x3f6000 PTE_P) PTE_W; Z.lor (Z.lor 0x3f7000 PTE_P) PTE_W;
  Z.lor (Z.lor 0x3f8000 PTE_P) PTE_W; Z.lor (Z.lor 0x3f9000 PTE_P) PTE_W;
  Z.lor (Z.lor 0x3fa000 PTE_P) PTE_W; Z.lor (Z.lor 0x3fb000 PTE_P) PTE_W;
  Z.lor (Z.lor 0x3fc000 PTE_P) PTE_W; Z.lor (Z.lor 0x3fd000 PTE_P) PTE_W;
  Z.lor (Z.lor 0x3fe000 PTE_P) PTE_W; Z.lor (Z.lor 0x3ff000 PTE_P) PTE_W].

Definition entry_pgtable : list Z :=
  entry_pgtable_0 ++ entry_pgtable_1 ++ entry_pgtable_2 ++ entry_pgtable_3 ++
  entry_pgtable_4 ++ entry_pgtable_5 ++ entry_pgtable_6 ++ entry_pgtable_7.

(** [pgtable] is the (virtual) address of [entry_pgtable]; the entries that
    have no initialiser are 0. *)
Definition entry_pgdir (pgtable : Z) : list Z :=
  <[ Z.to_nat (Z.shiftr KERNBASE PDXSHIFT) := u32 (u32 (pgtable - KERNBASE) + PTE_P + PTE_W) ]>
    (<[ 0%nat := u32 (u32 (pgtable - KERNBASE) + PTE_P) ]>
      (replicate (Z.to_nat NPDENTRIES) 0)).

(** entry.S, line 18: where a symbol is in physical memory. *)
Definition RELOC (x : Z) : Z := u32 (x - KERNBASE).

(** * Translation *)

(** An array of 32-bit words in memory. *)
Definition words_at (m : mem) (a : Z) (ws : list Z) : Prop :=
  bytes m (Addr a) (flat_map (le_split 4) ws).

Definition has_flag (e f : Z) : bool := negb (Z.land e f =? 0).

(** The physical address a linear address maps to, and whether it may be
    written, with the page directory at physical address [cr3]. *)
Definition page_walk (m : mem) (cr3 la : Z) : option (Z * bool) :=
  match load32 m (Addr (cr3 + 4 * PDX la)) with
  | Ok pde =>
      if has_flag pde PTE_P then
        match load32 m (Addr (PTE_ADDR pde + 4 * PTX la)) with
        | Ok pte =>
            if has_flag pte PTE_P then
              Some (PTE_ADDR pte + PGOFF la, has_flag pde PTE_W && has_flag pte PTE_W)
            else None
        | Err _ => None
        end
      else None
  | Err _ => None
  end.

(** * Lemmas *)

Definition pgtable_entry_ok (i : nat) : Prop :=
  entry_pgtable !! i = Some (Z.of_nat i * 4096 + 3).

Lemma entry_pgtable_all : Forall pgtable_entry_ok (seq 0 1024).
Proof.
  assert (forallb (fun i => bool_decide (entry_pgtable !! i = Some (Z.of_nat i * 4096 + 3)))
    (seq 0 1024) = true) as H by (vm_compute; reflexivity).
  rewrite forallb_forall in H. apply Forall_forall. intros i Hi.
  apply list_elem_of_In, H in Hi. by apply bool_decide_eq_true in Hi.
Qed.

Lemma entry_pgtable_lookup i :
  0 <= i < 1024 -> entry_pgtable !! Z.to_nat i = Some (i * 4096 + 3).
Proof.
  intros Hi. pose proof entry_pgtable_all as H. rewrite Forall_forall in H.
  specialize (H (Z.to_nat i)). unfold pgtable_entry_ok in H.
  rewrite H; [do 2 f_equal; lia|]. apply elem_of_seq. lia.
Qed.

Lemma length_words l : length (flat_map (le_split 4) l) = (4 * length l)%nat.
Proof. induction l as [|x l IH]; simpl in *; lia. Qed.

Lemma load32_word m a ws i w :
  words_at m a ws -> 0 <= i -> ws !! Z.to_nat i = Some w -> 0 <= w < 4294967296 ->
  load32 m (Addr (a + 4 * i)) = Ok w.
Proof.
  intros Hw Hi Hl Hr. unfold words_at in Hw.
  rewrite <- (take_drop_middle ws (Z.to_nat i) w Hl), flat_map_app in Hw.
  cbn [flat_map] in Hw.
  apply bytes_app in Hw as [_ Hw]. apply bytes_app in Hw as [Hw _].
  assert (length (flat_map (le_split 4) (take (Z.to_nat i) ws)) = (4 * Z.to_nat i)%nat) as Hlen.
  { apply lookup_lt_Some in Hl. rewrite length_words, length_take. lia. }
  rewrite Hlen in Hw. cbn [padd] in Hw. unfold load32.
  replace (a + Z.of_nat (4 * Z.to_nat i)) with (a + 4 * i) in Hw by lia.
  apply loadn_bytes in Hw. rewrite length_le_split in Hw. rewrite Hw. red_bind.
  rewrite le_combine_split. change (256 ^ Z.of_nat 4) with 4294967296. f_equal. zlia.
Qed.

Lemma has_flag_mod e k r :
  0 <= k -> e mod 2 ^ (k + 1) = r -> has_flag e (2 ^ k) = has_flag r (2 ^ k).
Proof.
  intros Hk <-. unfold has_flag. do 2 f_equal.
  rewrite <- Z.land_ones, <- Z.land_assoc by lia. f_equal.
  rewrite Z.land_comm, Z.land_ones by lia. symmetry. apply Z.mod_small.
  split; [lia|]. apply Z.pow_lt_mono_r; lia.
Qed.

Lemma flags_low e : 
  has_flag e PTE_P = has_flag (e mod 2) 1 /\ has_flag e PTE_W = has_flag (e mod 4) 2.
Proof. split; [by apply (has_flag_mod e 0)|by apply (has_flag_mod e 1)]. Qed.

(** The physical addresses of the two tables and what is stored there. *)
Definition tables_loaded (m : mem) (pgdir pgtable : Z) : Prop :=
  words_at m (RELOC pgdir) (entry_pgdir pgtable) /\
  words_at m (RELOC pgtable) entry_pgtable.

#[export] Instance words_at_dec m a ws : Decision (words_at m a ws).
Proof. apply bytes_dec. Defined.

(** The directory with any table. *)
Section dir.
Context (m : mem) (pgdir pgtable : Z).
Hypothesis Hdir : words_at m (RELOC pgdir) (entry_pgdir pgtable).
Hypothesis Halign : pgtable mod PGSIZE = 0.
Hypothesis Hrange : KERNBASE <= pgtable < KERNBASE + PTSIZE.

Lemma walk_pde la :
  0 <= la < 4294967296 ->
  load32 m (Addr (RELOC pgdir + 4 * PDX la)) =
    Ok (if decide (PDX la = 0) then pgtable - KERNBASE + 1
        else if decide (PDX la = 960) then pgtable - KERNBASE + 3 else 0).
Proof using Hdir Halign Hrange.
  intros Hla. unfold KERNBASE, PTSIZE, PGSIZE, NPTENTRIES in *.
  assert (0 <= PDX la < 1024) by (rewrite PDX_arith; zlia).
  apply (load32_word _ _ _ _ _ Hdir); [lia| |repeat case_decide; lia].
  unfold entry_pgdir, KERNBASE, PDXSHIFT, PTE_P, PTE_W, NPDENTRIES.
  change (Z.to_nat (Z.shiftr 0xF0000000 22)) with 960%nat.
  rewrite !list_lookup_insert, !length_insert, length_replicate.
  repeat case_decide; try lia; try (f_equal; zlia).
  rewrite lookup_replicate_2; [done|lia].
Qed.

Lemma table_walk ws la e :
  words_at m (RELOC pgtable) ws -> 0 <= la < 4294967296 -> ws !! Z.to_nat (PTX la) = Some e -> 0 <= e < 4294967296 ->
  page_walk m (RELOC pgdir) la =
    if decide (PDX la = 0 \/ PDX la = 960) then
      if has_flag e PTE_P then Some (PTE_ADDR e + PGOFF la, bool_decide (PDX la = 960) && has_flag e PTE_W) else None
    else None.
Proof using Hdir Halign Hrange.
  intros Hw Hla He Hr. unfold page_walk. rewrite walk_pde by done.
  assert (forall b, b = pgtable - KERNBASE + 1 \/ b = pgtable - KERNBASE + 3 ->
    PTE_ADDR b = RELOC pgtable /\ b mod 2 = 1 /\
    b mod 4 = (if decide (b = pgtable - KERNBASE + 3) then 3 else 1)) as Hb.
  { intros b Hb. rewrite PTE_ADDR_arith. unfold RELOC, KERNBASE, PTSIZE, PGSIZE, NPTENTRIES in *.
    case_decide; zlia. }
  assert (0 <= PTX la < 1024) by (rewrite PTX_arith; zlia).
  assert (load32 m (Addr (RELOC pgtable + 4 * PTX la)) = Ok e) as El by (apply (load32_word _ _ _ _ _ Hw); (done || lia)).
  destruct (decide (PDX la = 0)) as [E0|E0]; [|destruct (decide (PDX la = 960)) as [E1|E1]].
  - destruct (Hb (pgtable - KERNBASE + 1)) as (Ha & H2 & H4); [by left|].
    destruct (flags_low (pgtable - KERNBASE + 1)) as [-> ->].
    rewrite H2, H4, Ha, El. rewrite !decide_False by lia. rewrite decide_True by lia. rewrite bool_decide_eq_false_2 by lia. done.
  - destruct (Hb (pgtable - KERNBASE + 3)) as (Ha & H2 & H4); [by right|].
    destruct (flags_low (pgtable - KERNBASE + 3)) as [-> ->].
    rewrite H2, H4, Ha, El. rewrite !decide_True by lia. rewrite bool_decide_eq_true_2 by lia. done.
  - by rewrite decide_False by lia.
Qed.
End dir.

Section walk.
Context (m : mem) (pgdir pgtable : Z).
Hypothesis Hloaded : tables_loaded m pgdir pgtable.
Hypothesis Halign : pgtable mod PGSIZE = 0.
Hypothesis Hrange : KERNBASE <= pgtable < KERNBASE + PTSIZE.

Lemma page_walk_cases la :
  0 <= la < 4294967296 ->
  page_walk m (RELOC pgdir) la =
    if decide (PDX la = 0) then Some (la mod 4194304, false)
    else if decide (PDX la = 960) then Some (la mod 4194304, true) else None.
Proof using Hloaded Halign Hrange.
  intros Hla. assert (0 <= PTX la < 1024) as Hx by (rewrite PTX_arith; zlia).
  rewrite (table_walk m pgdir pgtable (proj1 Hloaded) Halign Hrange entry_pgtable la (PTX la * 4096 + 3))
    by (exact (proj2 Hloaded) || exact Hla || (by apply entry_pgtable_lookup) || lia).
  assert (PTE_ADDR (PTX la * 4096 + 3) + PGOFF la = la mod 4194304) as ->.
  { rewrite PTE_ADDR_arith, PGOFF_arith, PTX_arith. zlia. }
  destruct (flags_low (PTX la * 4096 + 3)) as [-> ->].
  replace ((PTX la * 4096 + 3) mod 2) with 1 by zlia. replace ((PTX la * 4096 + 3) mod 4) with 3 by zlia.
  change (has_flag 1 1) with true. change (has_flag 3 2) with true. rewrite andb_true_r. cbv iota.
  repeat case_decide; try lia; try done; (rewrite bool_decide_eq_false_2 by lia || rewrite bool_decide_eq_true_2 by lia); done.
Qed.

Lemma translation la :
  0 <= la < 4294967296 ->
  page_walk m (RELOC pgdir) la =
    if decide (KERNBASE <= la < KERNBASE + PTSIZE) then Some (la - KERNBASE, true)
    else if decide (0 <= la < PTSIZE) then Some (la, false) else None.
Proof using Hloaded Halign Hrange.
  intros Hla. rewrite page_walk_cases, PDX_arith, u32_small by done.
  unfold KERNBASE, PTSIZE, PGSIZE, NPTENTRIES.
  repeat case_decide; (done || (exfalso; zlia) || (repeat f_equal; zlia)).
Qed.

(** C16: with the tables of entrypgdir.c in place and [pgtable] page-aligned,
    paging maps [KERNBASE, KERNBASE+4MB) to the first 4MB of physical memory,
    writable; it maps [0, 4MB) to the same memory, read-only; and it maps no
    other address. *)
Theorem entry_translation la :
  0 <= la < 4294967296 ->
  page_walk m (RELOC pgdir) la =
    if decide (KERNBASE <= la < KERNBASE + PTSIZE) then Some (la - KERNBASE, true)
    else if decide (0 <= la < PTSIZE) then Some (la, false) else None.
Proof using Hloaded Halign Hrange. exact (translation la). Qed.
End walk.

(** The tables at the physical addresses 0x112000 and 0x113000. *)
Definition loaded_ex : mem :=
  write_bytes (write_bytes ∅ 0x113000 (flat_map (le_split 4) entry_pgtable)) 0x112000
    (flat_map (le_split 4) (entry_pgdir 0xf0113000)).

Lemma entry_translation_witness :
  page_walk loaded_ex (RELOC 0xf0112000) 0xf0100000 = Some (0x100000, true).
Proof.
  refine (eq_trans (entry_translation loaded_ex 0xf0112000 0xf0113000 _ _ _ 0xf0100000 _) _);
    [split; decided|decided|decided|decided|vm_compute; reflexivity].
Defined.
