(* ===== verification/Emit.v ===== *)
(** Character output as an interface: what a client of [putch] may rely on.

    [Sink S] is a state with a memory and a [putch] operation; the output
    routines (lib/printfmt.c and its callers) are written against it.
    [SinkLaws S m0 I] is the promise the theorems need: [putch] preserves the
    invariant [I] of the sink, and in every state that has it the bytes of
    [m0], where the format and the string arguments are, are readable.
    [does I m out a] says that the computation [m] emits exactly the
    characters [out], in order, and returns [a]; its rules for sequencing and
    loops are the program logic of the output code. *)
From S2P Require Import Prelude Mem.

Class Sink (S : Type) := {
  sink_mem : S -> mem;
  putch : Z -> M S unit }.

Class SinkLaws (S : Type) `{!Sink S} (m0 : mem) (I : S -> Prop) : Prop := {
  sink_reads : forall s, I s -> m0 ⊆ sink_mem s;
  sink_putch : forall c s s', I s -> putch c s = Ok (tt, s') -> I s' }.

Section emit.
Context {S : Type} `{!Sink S} (m0 : mem) (I : S -> Prop).

(** [m] emits [out] and returns [a], from every state of the invariant.
    If [putch] itself fails on the way, so does [m], at the same character. *)
Definition does {A} (m : M S A) (out : list Z) (a : A) : Prop :=
  forall s, I s -> m s = (each putch out ;; mret a) s.

(** A loop that emits [out] and stops with [a] after [n] iterations. *)
Inductive emits {X A} (body : X -> M S (X + A)) : nat -> X -> list Z -> A -> Prop :=
| emits_done x out a : does (body x) out (inr a) -> emits body 1 x out a
| emits_step n x x' out1 out2 a :
    does (body x) out1 (inl x') -> emits body n x' out2 a ->
    emits body (Datatypes.S n) x (out1 ++ out2) a.

(** ** Rules *)

Context `{!SinkLaws S m0 I}.

Lemma each_inv out s s' : I s -> each putch out s = Ok (tt, s') -> I s'.
Proof using All.
  revert s. induction out as [|c out IH]; intros s Hs; [by intros [= <-]|].
  simpl. rewrite Mbind_Ok. intros ([] & s1 & H1 & H2). apply (IH s1); [|done].
  by apply (sink_putch (m0 := m0) c s).
Qed.

Lemma does_ret {A} (a : A) : does (mret a) [] a.
Proof using Type. by intros s Hs. Qed.

Lemma does_putch c : does (putch c) [c] tt.
Proof using Type.
  intros s Hs. simpl. unfold mbind, M_bind, mret, M_ret.
  by destruct (putch c s) as [[[] s']|e].
Qed.

Lemma does_reads {A} (f : S -> res A) a :
  (forall s, I s -> f s = Ok a) -> does (reads f) [] a.
Proof using Type. intros Hf s Hs. unfold reads. rewrite Hf by done. done. Qed.

(** Reading the memory of the sink. *)
Lemma does_load {A} (f : mem -> res A) a :
  (forall m, m0 ⊆ m -> f m = Ok a) -> does (reads (fun s => f (sink_mem s))) [] a.
Proof using All. intros Hf. apply does_reads. intros s Hs. by apply Hf, (sink_reads (m0 := m0)). Qed.

Lemma does_bind {A B} (m : M S A) (f : A -> M S B) out1 out2 a b :
  does m out1 a -> does (f a) out2 b -> does (m ≫= f) (out1 ++ out2) b.
Proof using All.
  intros Hm Hf s Hs.
  assert ((m ≫= f) s = ((each putch out1 ;; mret a) ≫= f) s) as ->.
  { unfold mbind at 1 2, M_bind at 1 2. by rewrite Hm. }
  rewrite Mbind_assoc.
  transitivity ((each putch out1 ;; (each putch out2 ;; mret b)) s).
  - apply Mbind_ext. intros [] s' He. change ((mret a ≫= f) s') with (f a s').
    apply Hf. by eapply each_inv.
  - rewrite <- Mbind_assoc. unfold mbind at 1 3, M_bind at 1 3. by rewrite each_app.
Qed.

(** The two shapes of [does_bind] that lead: a silent action, and a character. *)
Lemma does_bind_silent {A B} (m : M S A) (f : A -> M S B) out a b :
  does m [] a -> does (f a) out b -> does (m ≫= f) out b.
Proof using All. intros. by apply (does_bind m f [] out a b). Qed.

Lemma does_bind_putch {B} c (f : unit -> M S B) out b :
  does (f tt) out b -> does (putch c ≫= f) (c :: out) b.
Proof using All.
  intros Hf. apply (does_bind _ _ [c] out tt b); [apply does_putch|done].
Qed.

Lemma emits_runs {X A} (body : X -> M S (X + A)) n x out a :
  emits body n x out a ->
  forall s, I s -> exists k r, (k <= n)%nat /\
    runs (fun st => r ← body st.1 st.2;
          match r with
          | (inl x', t') => Ok (inl (x', t'))
          | (inr a, t') => Ok (inr (a, t'))
          end) k (x, s) r /\ r = (each putch out ;; mret a) s.
Proof using All.
  induction 1 as [x out a Hd|n x x' out1 out2 a Hd _ IH]; intros s Hs.
  - specialize (Hd s Hs). unfold mbind, M_bind, mret, M_ret in Hd |- *.
    destruct (each putch out s) as [[[] s1]|e] eqn:He.
    + exists 1%nat, (Ok (a, s1)). split_and!; [lia| |done]. apply runs_done.
      cbn [fst snd]. by rewrite Hd.
    + exists 1%nat, (Err e). split_and!; [lia| |done]. apply runs_fail.
      cbn [fst snd]. by rewrite Hd.
  - specialize (Hd s Hs). unfold mbind, M_bind, mret, M_ret in Hd, IH |- *.
    rewrite each_app. unfold mbind, M_bind.
    destruct (each putch out1 s) as [[[] s1]|e] eqn:He.
    + destruct (IH s1) as (k & r & Hk & Hr & ->); [by eapply each_inv|].
      exists (Datatypes.S k), (match each putch out2 s1 with
        | Ok (_, s') => Ok (a, s') | Err e => Err e end).
      split_and!; [lia| |done]. eapply runs_step; [|done]. cbn [fst snd]. by rewrite Hd.
    + exists 1%nat, (Err e). split_and!; [lia| |done]. apply runs_fail.
      cbn [fst snd]. by rewrite Hd.
Qed.

Lemma does_while {X A} (body : X -> M S (X + A)) n x out a :
  emits body n x out a -> Z.of_nat n <= 2 ^ 64 -> does (whileM body x) out a.
Proof using All.
  intros He Hn s Hs. destruct (emits_runs _ _ _ _ _ He s Hs) as (k & r & Hk & Hr & ->).
  unfold whileM. apply (while_runs _ k); [done|lia].
Qed.

(** A step, or the last iteration, that emits nothing. *)
Lemma emits_skip {X A} (body : X -> M S (X + A)) n x x' out a :
  does (body x) [] (inl x') -> emits body n x' out a -> emits body (Datatypes.S n) x out a.
Proof using Type. intros H1 H2. by apply (emits_step body n x x' [] out a). Qed.

End emit.

(** ** What the bytes of [m0] give *)

Lemma load8_sub m0 m p b : m0 ⊆ m -> load8 m0 p = Ok b -> load8 m p = Ok b.
Proof.
  destruct p as [a|l o]; [|done]. intros Hm. rewrite !load8_addr.
  intros Hb. by eapply lookup_weaken.
Qed.

Lemma cstr_sub m0 m p l : m0 ⊆ m -> cstr m0 p l -> cstr m p l.
Proof.
  intros Hm. revert p. induction l as [|c l IH]; intros p; cbn [cstr].
  - by apply load8_sub.
  - intros (? & ? & ?). split_and!; [by apply (load8_sub m0)|lia|lia|by apply IH].
Qed.

(** A plain sink that only collects the characters: the reference the other
    sinks are compared with, and what the examples run on. *)
#[export] Instance list_sink : Sink (mem * list Z) := {|
  sink_mem := fst;
  putch c := fun s => Ok (tt, (s.1, s.2 ++ [c])) |}.

#[export] Instance list_sink_laws m0 :
  SinkLaws (mem * list Z) m0 (fun s => m0 ⊆ sink_mem s).
Proof. split; [done|]. intros c [m l] s' Hs [= <-]. exact Hs. Qed.

Lemma list_sink_each out m l : each putch out (m, l) = Ok (tt, (m, l ++ out)).
Proof.
  revert l. induction out as [|c out IH]; intros l; [by rewrite app_nil_r|].
  simpl. unfold mbind, M_bind. simpl. rewrite IH. by rewrite <- app_assoc.
Qed.
