(* ===== verification/Printfmt.v ===== *)
(** lib/printfmt.c: printf-style formatting.

    The code is written against the [Sink] interface: [putch] and its [putdat]
    are the sink's operation and state, and the format and the strings are
    read from the sink's memory.  A [va_list] is the list of the arguments not
    read yet: an [AInt] is a 32-bit word (int, unsigned, long), an [ALL] a
    64-bit one, an [APtr] a pointer; reading an argument of the wrong size, or
    one that is not there, is a [Fault].

    FormatSpec.v says what a format means and proves that this code emits it. *)
From S2P Require Import Prelude Mem Cstring Emit.

(** ** Arguments *)

Inductive arg :=
| AInt (z : Z)
| ALL (z : Z)
| APtr (p : ptr).

(** The 32-bit word of an argument; a pointer to a literal has an address
    only the linker knows. *)
Definition arg_word (a : arg) : option Z :=
  match a with
  | AInt z => Some z
  | APtr (Addr x) => Some x
  | _ => None
  end.

Definition va_word (conv : Z -> Z) (ap : list arg) : res (Z * list arg) :=
  match ap with
  | a :: ap' => match arg_word a with Some z => Ok (conv z, ap') | None => Err Fault end
  | [] => Err Fault
  end.

Definition va_llong (conv : Z -> Z) (ap : list arg) : res (Z * list arg) :=
  match ap with
  | ALL z :: ap' => Ok (conv z, ap')
  | _ => Err Fault
  end.

Definition va_ptr (ap : list arg) : res (ptr * list arg) :=
  match ap with
  | APtr p :: ap' => Ok (p, ap')
  | AInt z :: ap' => Ok (Addr (u32 z), ap')
  | _ => Err Fault
  end.

Definition getuint (ap : list arg) (lflag : Z) : res (Z * list arg) :=
  if lflag >=? 2 then va_llong u64 ap
  else if negb (lflag =? 0) then va_word u32 ap
  else va_word u32 ap.

Definition getint (ap : list arg) (lflag : Z) : res (Z * list arg) :=
  if lflag >=? 2 then va_llong s64 ap
  else if negb (lflag =? 0) then va_word s32 ap
  else va_word s32 ap.

(** ** Errors *)

Definition MAXERROR : Z := 8.
Definition E_INVAL : Z := 3.

(** [error_string]: indices 0 and [E_NO_SYS] have no initialiser. *)
Definition error_string : list (option string) :=
  [ None;
    Some "unspecified error"%string;
    Some "bad environment"%string;
    Some "invalid parameter"%string;
    Some "out of memory"%string;
    Some "out of environments"%string;
    Some "segmentation fault"%string;
    None ].

(** [error_string[err]]: an index out of the array is a fault. *)
Definition error_string_at (err : Z) : res (option string) :=
  if err <? 0 then Err Fault else of_option (error_string !! Z.to_nat err).

Section printfmt.
Context {S : Type} `{!Sink S}.

(** Read the sink's memory: an unsigned or a plain [char]. *)
Definition rd8 (p : ptr) : M S Z := reads (fun s => load8 (sink_mem s) p).
Definition rdc (p : ptr) : M S Z := reads (fun s => loadc (sink_mem s) p).

(** ** printnum *)

Definition pad_body (padc : Z) (width : Z) : M S (Z + unit) :=
  let width := s32 (width - 1) in
  if width >? 0 then putch padc ;; mret (inl width) else mret (inr tt).

Fixpoint printnum (fuel : nat) (num base width padc : Z) : M S unit :=
  match fuel with
  | O => fun _ => Err Fuel
  | Datatypes.S fuel' =>
      (if num >=? base
       then printnum fuel' (num / base) base (s32 (width - 1)) padc
       else whileM (pad_body padc) width) ;;
      c ← rdc (padd (lit "0123456789abcdef") (num mod base));
      putch c
  end.

(** A 64-bit number has at most 64 digits in any base. *)
Definition printnum_fuel : nat := 64.

(** ** vprintfmt *)

(** The local variables of one %-escape. *)
Record dir := mkDir {
  d_fmt : ptr; d_ap : list arg; d_padc : Z; d_width : Z; d_precision : Z;
  d_lflag : Z; d_altflag : bool }.

Definition set_fmt (d : dir) (p : ptr) : dir :=
  mkDir p (d_ap d) (d_padc d) (d_width d) (d_precision d) (d_lflag d) (d_altflag d).

(** [process_precision] *)
Definition process_precision (d : dir) : dir :=
  if d_width d <? 0
  then mkDir (d_fmt d) (d_ap d) (d_padc d) (d_precision d) (-1) (d_lflag d) (d_altflag d)
  else d.

(** The loop that reads a number: [ch] is its first digit. *)
Definition number_body (st : ptr * Z * Z) : M S (ptr * Z * Z + ptr * Z) :=
  let '(fmt, precision, ch) := st in
  let precision := s32 (s32 (precision * 10) + ch - 48) in
  ch ← rdc fmt;
  if (ch <? 48) || (ch >? 57) then mret (inr (fmt, precision))
  else mret (inl (padd fmt 1, precision, ch)).

(** Padding before, and blanks after, a string. *)
Definition spad_body (padc : Z) (width : Z) : M S (Z + Z) :=
  if width >? 0 then putch padc ;; mret (inl (s32 (width - 1))) else mret (inr width).

(** The characters of a string, up to its precision. *)
Definition schars_body (altflag : bool) (st : ptr * Z * Z) : M S (ptr * Z * Z + Z) :=
  let '(p, precision, width) := st in
  ch ← rdc p;
  if ch =? 0 then mret (inr width)
  else if (precision <? 0) || (precision - 1 >=? 0) then
    (if altflag && ((ch <? 32) || (ch >? 126)) then putch 63 else putch ch) ;;
    mret (inl (padd p 1, if precision <? 0 then precision else precision - 1, s32 (width - 1)))
  else mret (inr width).

(** Back to the character after the escape's '%'. *)
Definition backup_body (fmt : ptr) : M S (ptr + ptr) :=
  ch ← rdc (padd fmt (-1));
  if negb (ch =? 37) then mret (inl (padd fmt (-1))) else mret (inr fmt).

Section body.
(** The recursive call, for [%e]. *)
Context (printfmt : ptr -> list arg -> M S unit).

(** [case 's'] *)
Definition fmt_s (d : dir) : M S (ptr * list arg) :=
  pa ← reads (fun _ => va_ptr (d_ap d));
  let p := if is_null (pa.1) then lit "(null)" else pa.1 in
  width ← (if (d_width d >? 0) && negb (d_padc d =? 45) then
             n ← reads (fun s => strnlen (sink_mem s) p (u32 (d_precision d)));
             whileM (spad_body (d_padc d)) (s32 (d_width d - n))
           else mret (d_width d));
  width ← whileM (schars_body (d_altflag d)) (p, d_precision d, width);
  whileM (spad_body 32) width ;;
  mret (d_fmt d, pa.2).

(** [case 'e'] *)
Definition fmt_e (d : dir) : M S (ptr * list arg) :=
  ea ← reads (fun _ => va_word s32 (d_ap d));
  let err := if ea.1 <? 0 then s32 (- ea.1) else ea.1 in
  p ← (if err >=? MAXERROR then mret None else reads (fun _ => error_string_at err));
  match p with
  | None => printfmt (lit "error %d") [AInt err]
  | Some str => printfmt (lit "%s") [APtr (lit str)]
  end ;;
  mret (d_fmt d, ea.2).

(** [number:] *)
Definition fmt_number (d : dir) (num base : Z) (ap : list arg) : M S (ptr * list arg) :=
  printnum printnum_fuel num base (d_width d) (d_padc d) ;;
  mret (d_fmt d, ap).

(** One pass of the switch at [reswitch]: [inl] goes back to it, [inr] leaves
    it with the rest of the format and of the arguments. *)
Definition reswitch_body (d : dir) : M S (dir + ptr * list arg) :=
  ch ← rd8 (d_fmt d);
  let d := set_fmt d (padd (d_fmt d) 1) in
  if ch =? 45 (* - *) then
    mret (inl (mkDir (d_fmt d) (d_ap d) 45 (d_width d) (d_precision d) (d_lflag d) (d_altflag d)))
  else if ch =? 48 (* 0 *) then
    mret (inl (mkDir (d_fmt d) (d_ap d) 48 (d_width d) (d_precision d) (d_lflag d) (d_altflag d)))
  else if (49 <=? ch) && (ch <=? 57) (* 1-9 *) then
    r ← whileM number_body (d_fmt d, 0, ch);
    mret (inl (process_precision
      (mkDir (r.1) (d_ap d) (d_padc d) (d_width d) (r.2) (d_lflag d) (d_altflag d))))
  else if ch =? 42 (* * *) then
    a ← reads (fun _ => va_word s32 (d_ap d));
    mret (inl (process_precision
      (mkDir (d_fmt d) (a.2) (d_padc d) (d_width d) (a.1) (d_lflag d) (d_altflag d))))
  else if ch =? 46 (* . *) then
    mret (inl (if d_width d <? 0
               then mkDir (d_fmt d) (d_ap d) (d_padc d) 0 (d_precision d) (d_lflag d) (d_altflag d)
               else d))
  else if ch =? 35 (* # *) then
    mret (inl (mkDir (d_fmt d) (d_ap d) (d_padc d) (d_width d) (d_precision d) (d_lflag d) true))
  else if ch =? 108 (* l *) then
    mret (inl (mkDir (d_fmt d) (d_ap d) (d_padc d) (d_width d) (d_precision d)
                 (s32 (d_lflag d + 1)) (d_altflag d)))
  else if ch =? 99 (* c *) then
    a ← reads (fun _ => va_word s32 (d_ap d));
    putch (a.1) ;;
    mret (inr (d_fmt d, a.2))
  else if ch =? 101 (* e *) then r ← fmt_e d; mret (inr r)
  else if ch =? 115 (* s *) then r ← fmt_s d; mret (inr r)
  else if ch =? 100 (* d *) then
    a ← reads (fun _ => getint (d_ap d) (d_lflag d));
    r ← (if a.1 <? 0
         then putch 45 ;; fmt_number d (u64 (s64 (- a.1))) 10 (a.2)
         else fmt_number d (u64 (a.1)) 10 (a.2));
    mret (inr r)
  else if ch =? 117 (* u *) then
    a ← reads (fun _ => getuint (d_ap d) (d_lflag d));
    r ← fmt_number d (a.1) 10 (a.2); mret (inr r)
  else if ch =? 111 (* o *) then
    a ← reads (fun _ => getuint (d_ap d) (d_lflag d));
    r ← fmt_number d (a.1) 8 (a.2); mret (inr r)
  else if ch =? 112 (* p *) then
    putch 48 ;; putch 120 ;;
    a ← reads (fun _ => va_word u32 (d_ap d));
    r ← fmt_number d (a.1) 16 (a.2); mret (inr r)
  else if ch =? 120 (* x *) then
    a ← reads (fun _ => getuint (d_ap d) (d_lflag d));
    r ← fmt_number d (a.1) 16 (a.2); mret (inr r)
  else if ch =? 37 (* % *) then
    putch ch ;; mret (inr (d_fmt d, d_ap d))
  else
    putch 37 ;;
    fmt ← whileM backup_body (padd (d_fmt d) (-1));
    mret (inr (fmt, d_ap d)).

(** The ordinary characters before the next '%': [None] at the end. *)
Definition text_body (fmt : ptr) : M S (ptr + option ptr) :=
  ch ← rd8 fmt;
  let fmt := padd fmt 1 in
  if negb (ch =? 37) then
    if ch =? 0 then mret (inr None) else putch ch ;; mret (inl fmt)
  else mret (inr (Some fmt)).

Definition vprintfmt_body (st : ptr * list arg) : M S (ptr * list arg + unit) :=
  fmt ← whileM text_body (st.1);
  match fmt with
  | None => mret (inr tt)
  | Some fmt =>
      r ← whileM reswitch_body (mkDir fmt (st.2) 32 (-1) (-1) 0 false);
      mret (inl r)
  end.
End body.

(** [%e] calls [printfmt] on formats that do not use [%e]: one level of
    recursion is all there is. *)
Definition vprintfmt_e (fmt : ptr) (ap : list arg) : M S unit :=
  whileM (vprintfmt_body (fun _ _ _ => Err Fuel)) (fmt, ap).

Definition printfmt (fmt : ptr) (ap : list arg) : M S unit := vprintfmt_e fmt ap.

Definition vprintfmt (fmt : ptr) (ap : list arg) : M S unit :=
  whileM (vprintfmt_body printfmt) (fmt, ap).
End printfmt.

(** ** sprintf *)

Record sprintbuf := mkSprintbuf { sb_buf : Z; sb_ebuf : Z; sb_cnt : Z }.

Definition sprintputch (ch : Z) : M (mem * sprintbuf) unit := fun '(m, b) =>
  let cnt := s32 (sb_cnt b + 1) in
  if sb_buf b <? sb_ebuf b then
    m' ← store8 m (Addr (sb_buf b)) ch;
    Ok (tt, (m', mkSprintbuf (sb_buf b + 1) (sb_ebuf b) cnt))
  else Ok (tt, (m, mkSprintbuf (sb_buf b) (sb_ebuf b) cnt)).

#[export] Instance sprint_sink : Sink (mem * sprintbuf) := {|
  sink_mem := fst;
  putch := sprintputch |}.

Definition vsnprintf (m : mem) (buf n : Z) (fmt : ptr) (ap : list arg) : res (Z * mem) :=
  let b := mkSprintbuf buf (buf + n - 1) 0 in
  if (buf =? 0) || (n <? 1) then Ok (- E_INVAL, m)
  else
    r ← vprintfmt fmt ap (m, b);
    m' ← store8 (r.2.1) (Addr (sb_buf (r.2.2))) 0;
    Ok (sb_cnt (r.2.2), m').

Definition snprintf (m : mem) (buf n : Z) (fmt : ptr) (ap : list arg) : res (Z * mem) :=
  rc ← vsnprintf m buf n fmt ap; Ok rc.

Definition run_fmt (fmt : string) (ap : list arg) : res (list Z) :=
  r ← vprintfmt (S := mem * list Z) (lit fmt) ap (∅, []); Ok (r.2.2).

Example octal_ex : run_fmt "6828 decimal is %o octal!" [AInt 6828]
  = Ok (bytes_of "6828 decimal is 15254 octal!").
Proof. vm_compute. reflexivity. Qed.
Example mixed_ex : run_fmt "%5d|%-5s|%08x|%e|%z|%.3s" [AInt (-3); APtr (lit "ab"); AInt 48879; AInt (-4); APtr (lit "abcdef")]
  = Ok (bytes_of "-    3|ab   |0000beef|out of memory|%z|abc").
Proof. vm_compute. reflexivity. Qed.

(** A ["-"] flag on a number is the fill character, on the left. *)
Example minus_number : run_fmt "%-5d|" [AInt 42] = Ok (bytes_of "---42|").
Proof. vm_compute. reflexivity. Qed.
