(* ===== verification/FormatSpec.v ===== *)
(** What a printf format means, and that lib/printfmt.c emits it.

    [format] gives the characters a format string and its arguments stand for,
    as a function on lists: no pointers, no loops over widths.  The main
    theorem is that [vprintfmt] emits exactly those characters, in any sink
    that keeps the format and the strings readable; the theorems on
    [vsnprintf] and [strtol] build on it. *)
From S2P Require Import Prelude Mem Cstring Emit Printfmt.

(** * What a format means *)

Definition digit_char (d : Z) : Z := default 0 (bytes_of "0123456789abcdef" !! Z.to_nat d).

(** The digits of a number, most significant first. *)
Fixpoint digits (fuel : nat) (base num : Z) : list Z :=
  match fuel with
  | O => []
  | S fuel' => (if num >=? base then digits fuel' base (num / base) else []) ++ [num mod base]
  end.

Definition render_num (width padc base num : Z) : list Z :=
  let ds := digit_char <$> digits printnum_fuel base num in
  replicate (Z.to_nat (width - Z.of_nat (length ds))) padc ++ ds.

Record flags := mkFlags {
  f_padc : Z; f_width : Z; f_prec : Z; f_lflag : Z; f_alt : bool }.

Definition flags0 : flags := mkFlags 32 (-1) (-1) 0 false.

Definition f_process (f : flags) : flags :=
  if f_width f <? 0 then mkFlags (f_padc f) (f_prec f) (-1) (f_lflag f) (f_alt f) else f.

(** A string: cut to the precision, its bytes as plain (signed) chars, with
    [#] the unprintable ones as question marks; padded on the left, or with
    [-] on the right with blanks. *)
Definition render_str (f : flags) (s : list Z) : list Z :=
  let s := if f_prec f <? 0 then s else take (Z.to_nat (f_prec f)) s in
  let chars := (fun c => if f_alt f && ((s8 c <? 32) || (s8 c >? 126)) then 63 else s8 c) <$> s in
  let pad := Z.to_nat (f_width f - Z.of_nat (length s)) in
  if f_padc f =? 45 then chars ++ replicate pad 32
  else replicate pad (f_padc f) ++ chars.

Definition render_err (err : Z) : option (list Z) :=
  let err := if err <? 0 then s32 (- err) else err in
  if err >=? MAXERROR then Some (bytes_of "error " ++ render_num (-1) 32 10 err)
  else match error_string_at err with
       | Err _ => None
       | Ok None => Some (bytes_of "error " ++ render_num (-1) 32 10 err)
       | Ok (Some str) => Some (bytes_of str)
       end.

(** Widths for which no 32-bit subtraction of the padding loops overflows,
    for strings of fewer than 2^30 characters. *)
Definition width_ok (f : flags) : bool :=
  (-1073741824 <=? f_width f) && (f_width f <? 2147483648) && (f_prec f <? 2147483648)
  && (-2147483648 <=? f_prec f).

Definition ok {A} (r : res A) : option A := match r with Ok a => Some a | Err _ => None end.

(** The output of a conversion character and the arguments left; [None] when
    it is outside the description (a missing argument, a width out of range).
    [deref] gives the string an argument points to. *)
Definition render_conv (deref : ptr -> option (list Z)) (with_e : bool) (ch : Z) (f : flags)
    (ap : list arg) : option (list Z * list arg) :=
  let number base a := Some (render_num (f_width f) (f_padc f) base a.1, a.2 : list arg) in
  if negb (width_ok f) then None
  else if ch =? 99 then a ← ok (va_word s32 ap); Some ([a.1], a.2)
  else if ch =? 101 then
    if with_e then a ← ok (va_word s32 ap); out ← render_err (a.1); Some (out, a.2) else None
  else if ch =? 115 then
    a ← ok (va_ptr ap);
    s ← (if is_null (a.1) then Some (bytes_of "(null)") else deref (a.1));
    Some (render_str f s, a.2)
  else if ch =? 100 then
    a ← ok (getint ap (f_lflag f));
    Some ((if a.1 <? 0 then 45 :: render_num (f_width f) (f_padc f) 10 (- a.1)
           else render_num (f_width f) (f_padc f) 10 (a.1)), a.2)
  else if ch =? 117 then a ← ok (getuint ap (f_lflag f)); number 10 a
  else if ch =? 111 then a ← ok (getuint ap (f_lflag f)); number 8 a
  else if ch =? 112 then
    a ← ok (va_word u32 ap); o ← number 16 a; Some ([48; 120] ++ o.1, o.2)
  else if ch =? 120 then a ← ok (getuint ap (f_lflag f)); number 16 a
  else Some ([37], ap).

Definition is_conv (ch : Z) : bool :=
  bool_decide (ch ∈ [99; 101; 115; 100; 117; 111; 112; 120; 37]).

(** The value of the digits at the head of the format, [val] being that of the
    ones already read. *)
Fixpoint ref_number (val : Z) (l : list Z) : Z * list Z :=
  match l with
  | c :: l' => if (c <? 48) || (c >? 57) then (val, l)
               else ref_number (s32 (s32 (val * 10) + c - 48)) l'
  | [] => (val, [])
  end.

(** What follows a '%': [start] is the format after it, [l] what is left of it
    to read.  Output, rest of the format, rest of the arguments. *)
Fixpoint directive (deref : ptr -> option (list Z)) (with_e : bool) (fuel : nat) (start l : list Z)
    (f : flags) (ap : list arg) : option (list Z * list Z * list arg) :=
  match fuel, l with
  | O, _ => None
  | S _, [] => Some ([37], start, ap)
  | S fuel', c :: l' =>
      let again := directive deref with_e fuel' start in
      if c =? 45 then again l' (mkFlags 45 (f_width f) (f_prec f) (f_lflag f) (f_alt f)) ap
      else if c =? 48 then again l' (mkFlags 48 (f_width f) (f_prec f) (f_lflag f) (f_alt f)) ap
      else if (49 <=? c) && (c <=? 57) then
        let '(v, l'') := ref_number (c - 48) l' in
        again l'' (f_process (mkFlags (f_padc f) (f_width f) v (f_lflag f) (f_alt f))) ap
      else if c =? 42 then
        a ← ok (va_word s32 ap);
        again l' (f_process (mkFlags (f_padc f) (f_width f) (a.1) (f_lflag f) (f_alt f))) (a.2)
      else if c =? 46 then
        again l' (if f_width f <? 0 then mkFlags (f_padc f) 0 (f_prec f) (f_lflag f) (f_alt f) else f) ap
      else if c =? 35 then again l' (mkFlags (f_padc f) (f_width f) (f_prec f) (f_lflag f) true) ap
      else if c =? 108 then
        again l' (mkFlags (f_padc f) (f_width f) (f_prec f) (s32 (f_lflag f + 1)) (f_alt f)) ap
      else if is_conv c then
        o ← render_conv deref with_e c f ap; Some (o.1, l', o.2)
      else Some ([37], start, ap)
  end.

(** The characters a format stands for. *)
Fixpoint render (deref : ptr -> option (list Z)) (with_e : bool) (fuel : nat) (l : list Z)
    (ap : list arg) : option (list Z) :=
  match fuel, l with
  | O, _ => None
  | S _, [] => Some []
  | S fuel', c :: l' =>
      if c =? 37 then
        o ← directive deref with_e (S (length l')) l' l' flags0 ap;
        (fun out => o.1.1 ++ out) <$> render deref with_e fuel' (o.1.2) (o.2)
      else (fun out => c :: out) <$> render deref with_e fuel' l' ap
  end.

(** The meaning of a whole format. *)
Definition format (deref : ptr -> option (list Z)) (l : list Z) (ap : list arg) : option (list Z) :=
  render deref true (S (length l)) l ap.

(** * Numbers *)

Lemma digits_length fuel : forall base num, (length (digits fuel base num) <= fuel)%nat.
Proof.
  induction fuel as [|fuel IH]; intros base num; [done|]. simpl. rewrite length_app. simpl.
  destruct (num >=? base); [specialize (IH base (num / base))|simpl]; lia.
Qed.

(** The digits are those of the number: they are within the base and their
    value is the number. *)
Lemma digits_range fuel : forall base num,
  2 <= base -> Forall (fun d => 0 <= d < base) (digits fuel base num).
Proof.
  induction fuel as [|fuel IH]; intros base num Hb; [done|]. simpl. apply Forall_app. split.
  - destruct (num >=? base); [by apply IH|done].
  - constructor; [|done]. apply Z.mod_pos_bound. lia.
Qed.

Definition digits_value (base : Z) (ds : list Z) : Z :=
  fold_left (fun v d => v * base + d) ds 0.

Lemma digits_value_snoc base ds d :
  digits_value base (ds ++ [d]) = digits_value base ds * base + d.
Proof. unfold digits_value. by rewrite fold_left_app. Qed.

Lemma digits_value_ok fuel : forall base num,
  2 <= base -> 0 <= num < base ^ Z.of_nat fuel ->
  digits_value base (digits fuel base num) = num.
Proof.
  induction fuel as [|fuel IH]; intros base num Hb Hn; [simpl in *; unfold digits_value; simpl; lia|].
  cbn [digits]. rewrite digits_value_snoc. pose proof (Z.div_mod num base ltac:(lia)) as Hdm.
  pose proof (Z.mod_pos_bound num base ltac:(lia)).
  destruct (Z.geb_spec num base).
  - rewrite Nat2Z.inj_succ, Z.pow_succ_r in Hn by lia.
    assert (0 <= num / base < base ^ Z.of_nat fuel) as Hd.
    { split; [apply Z.div_pos; lia|apply Z.div_lt_upper_bound; lia]. }
    rewrite (IH base (num / base) Hb Hd). lia.
  - rewrite Z.mod_small by lia. unfold digits_value. simpl. lia.
Qed.

Section numbers.
Context {S : Type} `{!Sink S} (m0 : mem) (I : S -> Prop) `{!SinkLaws S m0 I}.
Notation does := (does I).
Notation emits := (emits I).

Lemma does_rd8 p b : load8 m0 p = Ok b -> does (rd8 p) [] b.
Proof using All.
  intros Hb. apply (does_load m0 I (fun m => load8 m p)). intros m Hm. by eapply load8_sub.
Qed.

Lemma does_rdc p b : load8 m0 p = Ok b -> does (rdc p) [] (s8 b).
Proof using All.
  intros Hb. apply (does_load m0 I (fun m => loadc m p)). intros m Hm. unfold loadc.
  by rewrite (load8_sub m0 m p b Hm Hb).
Qed.

(** A literal is readable whatever the memory. *)
Lemma does_rdc_lit l o b : load8 ∅ (Lit l o) = Ok b -> does (rdc (Lit l o)) [] (s8 b).
Proof using All. intros Hb. apply does_rdc. exact Hb. Qed.

Lemma pad_emits padc n : forall width,
  n = Z.to_nat (width - 1) -> -2147483648 < width < 2147483648 ->
  emits (pad_body padc) (Datatypes.S n) width (replicate n padc) tt.
Proof using All.
  induction n as [|n IH]; intros width Hn Hw.
  - apply emits_done. unfold pad_body. rewrite s32_small by lia.
    destruct (Z.gtb_spec (width - 1) 0); [lia|]. apply does_ret.
  - apply (emits_step _ _ _ _ (width - 1) [padc]).
    + unfold pad_body. rewrite s32_small by lia.
      destruct (Z.gtb_spec (width - 1) 0); [|lia]. apply (does_bind_putch m0 I), does_ret.
    + apply IH; lia.
Qed.

Lemma does_pad padc width :
  -2147483648 < width < 2147483648 ->
  does (whileM (pad_body padc) width) (replicate (Z.to_nat (width - 1)) padc) tt.
Proof using All.
  intros Hw. eapply (does_while m0 I); [by apply pad_emits|lia].
Qed.

Lemma does_digit d :
  0 <= d < 16 ->
  does (rdc (padd (lit "0123456789abcdef") d)) [] (digit_char d).
Proof using All.
  intros Hd. assert (Forall (fun d => s8 (digit_char d) = digit_char d /\
    load8 ∅ (padd (lit "0123456789abcdef") d) = Ok (digit_char d)) (seqZ 0 16)) as Hall
    by (apply (bool_decide_unpack _); vm_compute; exact Logic.I).
  rewrite Forall_forall in Hall. destruct (Hall d) as [H1 H2]; [apply elem_of_seqZ; lia|].
  rewrite <- H1. by apply does_rdc_lit.
Qed.

Lemma does_printnum fuel : forall num base width padc,
  (0 < fuel)%nat -> 2 <= base <= 16 -> 0 <= num < base ^ Z.of_nat fuel ->
  -2147483648 + Z.of_nat fuel < width < 2147483648 ->
  let ds := digit_char <$> digits fuel base num in
  does (printnum fuel num base width padc)
    (replicate (Z.to_nat (width - Z.of_nat (length ds))) padc ++ ds) tt.
Proof using All.
  induction fuel as [|fuel IH]; intros num base width padc Hf Hb Hn Hw; cbv zeta; [lia|].
  cbn [printnum digits]. rewrite fmap_app, length_app, app_assoc.
  pose proof (Z.mod_pos_bound num base ltac:(lia)).
  eapply (does_bind m0 I); [|eapply (does_bind_silent m0 I); [apply does_digit; lia|apply does_putch]].
  destruct (Z.geb_spec num base).
  - rewrite s32_small by lia.
    replace (width - Z.of_nat (_ + _)) with
      (width - 1 - Z.of_nat (length (digit_char <$> digits fuel base (num / base)))) by (simpl; lia).
    rewrite Nat2Z.inj_succ, Z.pow_succ_r in Hn by lia. apply IH; [|done| |lia].
    + destruct fuel; [simpl in Hn; lia|lia].
    + split; [apply Z.div_pos; lia|apply Z.div_lt_upper_bound; lia].
  - simpl. rewrite app_nil_r. replace (Z.of_nat 1) with 1 by done. apply does_pad. lia.
Qed.

Lemma does_number d num base ap :
  8 <= base <= 16 -> 0 <= num < 18446744073709551616 ->
  -1073741824 <= d_width d < 2147483648 ->
  does (fmt_number d num base ap) (render_num (d_width d) (d_padc d) base num) (d_fmt d, ap).
Proof using All.
  intros Hb Hn Hw. unfold fmt_number.
  rewrite <- (app_nil_r (render_num _ _ _ _)). eapply (does_bind m0 I); [|apply does_ret].
  apply does_printnum; [unfold printnum_fuel; lia|lia| |unfold printnum_fuel; lia].
  split; [lia|]. pose proof (Z.pow_le_mono_l 8 base 64 ltac:(lia)). unfold printnum_fuel.
  assert (18446744073709551616 <= 8 ^ 64) by (vm_compute; discriminate).
  change (Z.of_nat 64) with 64. lia.
Qed.
End numbers.

(** * Strings *)

Definition flags_of (d : dir) : flags :=
  mkFlags (d_padc d) (d_width d) (d_precision d) (d_lflag d) (d_altflag d).

Definition str_char (alt : bool) (c : Z) : Z :=
  if alt && ((s8 c <? 32) || (s8 c >? 126)) then 63 else s8 c.

Definition str_cut (prec : Z) (s : list Z) : list Z :=
  if prec <? 0 then s else take (Z.to_nat prec) s.

Section strings.
Context {S : Type} `{!Sink S} (m0 : mem) (I : S -> Prop) `{!SinkLaws S m0 I}.
Notation does := (does I).
Notation emits := (emits I).

Lemma spad_emits padc n : forall width,
  n = Z.to_nat width -> -2147483648 <= width < 2147483648 ->
  emits (spad_body padc) (Datatypes.S n) width (replicate n padc) (Z.min width 0).
Proof using All.
  induction n as [|n IH]; intros width Hn Hw.
  - apply emits_done. unfold spad_body. destruct (Z.gtb_spec width 0); [lia|].
    rewrite Z.min_l by lia. apply does_ret.
  - apply (emits_step _ _ _ _ (width - 1) [padc]).
    + unfold spad_body. destruct (Z.gtb_spec width 0); [|lia]. rewrite s32_small by lia.
      apply (does_bind_putch m0 I), does_ret.
    + replace (Z.min width 0) with (Z.min (width - 1) 0) by lia. apply IH; lia.
Qed.

Lemma does_spad padc width :
  -2147483648 <= width < 2147483648 ->
  does (whileM (spad_body padc) width) (replicate (Z.to_nat width) padc) (Z.min width 0).
Proof using All.
  intros Hw. eapply (does_while m0 I); [by apply spad_emits|lia].
Qed.

Lemma schars_emits alt s : forall p prec width,
  cstr m0 p s -> -2147483648 <= prec < 2147483648 ->
  -2147483648 <= width - Z.of_nat (length s) -> width < 2147483648 ->
  exists n, (n <= Datatypes.S (length s))%nat /\
    emits (schars_body alt) n (p, prec, width) (str_char alt <$> str_cut prec s)
      (width - Z.of_nat (length (str_cut prec s))).
Proof using All.
  induction s as [|c s IH]; intros p prec width Hp Hprec Hw1 Hw2.
  - exists 1%nat. split; [lia|]. assert (str_cut prec [] = []) as ->.
    { unfold str_cut. rewrite take_nil. by destruct (prec <? 0). }
    simpl in *. rewrite Z.sub_0_r. apply emits_done. unfold schars_body.
    eapply (does_bind_silent m0 I); [by apply (does_rdc m0 I)|]. apply does_ret.
  - destruct Hp as (Hc & Hcr & Hp).
    assert ((s8 c =? 0) = false) as H0 by (rewrite Z.eqb_neq, s8_zero by (unfold is_byte; lia); lia).
    destruct (decide (prec = 0)) as [->|Hne].
    + exists 1%nat. split; [lia|]. simpl. rewrite Z.sub_0_r. apply emits_done. unfold schars_body.
      eapply (does_bind_silent m0 I); [by apply (does_rdc m0 I)|]. rewrite H0. apply does_ret.
    + cbn [length] in *.
      destruct (IH (padd p 1) (if prec <? 0 then prec else prec - 1) (width - 1)) as (n & Hn & He);
        [done|destruct (Z.ltb_spec prec 0); lia|lia|lia|].
      exists (Datatypes.S n). split; [lia|].
      assert (str_cut prec (c :: s) = c :: str_cut (if prec <? 0 then prec else prec - 1) s) as ->.
      { unfold str_cut. destruct (Z.ltb_spec prec 0) as [Hp0|Hp0].
        - by rewrite (proj2 (Z.ltb_lt prec 0)).
        - rewrite (proj2 (Z.ltb_ge (prec - 1) 0)) by lia.
          by replace (Z.to_nat prec) with (Datatypes.S (Z.to_nat (prec - 1))) by lia. }
      cbn [length fmap list_fmap]. replace (width - Z.of_nat (Datatypes.S _))
        with (width - 1 - Z.of_nat (length (str_cut (if prec <? 0 then prec else prec - 1) s))) by lia.
      apply (emits_step I _ _ _ _ [str_char alt c] _ _) with (2 := He). unfold schars_body.
      eapply (does_bind_silent m0 I); [by apply (does_rdc m0 I)|]. rewrite H0.
      replace ((prec <? 0) || (prec - 1 >=? 0)) with true.
      2: { symmetry. apply orb_true_iff. rewrite Z.ltb_lt, Z.geb_le. lia. }
      rewrite s32_small by lia. unfold str_char.
      destruct (alt && _); apply (does_bind_putch m0 I), does_ret.
Qed.

Lemma does_fmt_s d p ap' s :
  va_ptr (d_ap d) = Ok (p, ap') ->
  cstr m0 (if is_null p then lit "(null)" else p) s -> Z.of_nat (length s) < 1073741824 ->
  width_ok (flags_of d) = true ->
  does (fmt_s d) (render_str (flags_of d) s) (d_fmt d, ap').
Proof using All.
  intros Hva Hs Hl Hok. unfold width_ok in Hok. cbn in Hok.
  rewrite !andb_true_iff, !Z.leb_le, !Z.ltb_lt in Hok. destruct Hok as (((Hw1 & Hw2) & Hp1) & Hp2).
  unfold fmt_s. eapply (does_bind_silent m0 I).
  { apply (does_reads I ). intros; exact Hva. }
  cbn [fst snd]. set (q := if is_null p then lit "(null)" else p) in *.
  unfold render_str. cbn [flags_of f_prec f_width f_padc f_alt].
  fold (str_char (d_altflag d)). fold (str_cut (d_precision d) s).
  set (k := str_cut (d_precision d) s).
  assert (Z.of_nat (length k) <= Z.of_nat (length s)) as Hk.
  { unfold k, str_cut. destruct (_ <? 0); [lia|]. rewrite length_take. lia. }
  assert (forall width, -1073741824 <= width < 2147483648 ->
    does (width ← whileM (schars_body (d_altflag d)) (q, d_precision d, width);
          whileM (spad_body 32) width ;; mret (d_fmt d, ap'))
      ((str_char (d_altflag d) <$> k) ++ replicate (Z.to_nat (width - Z.of_nat (length k))) 32)
      (d_fmt d, ap')) as Htail.
  { intros width Hw. destruct (schars_emits (d_altflag d) s q (d_precision d) width) as (n & Hn & He);
      [done|lia|lia|lia|].
    eapply (does_bind m0 I); [eapply (does_while m0 I); [exact He|lia]|]. fold k.
    rewrite <- (app_nil_r (replicate _ _)). eapply (does_bind m0 I); [|apply does_ret].
    apply does_spad. lia. }
  destruct ((d_width d >? 0) && negb (d_padc d =? 45)) eqn:Hleft.
  - apply andb_true_iff in Hleft as [Hpos Hpadc]. rewrite Z.gtb_lt in Hpos.
    apply negb_true_iff in Hpadc. rewrite Hpadc.
    eapply (does_bind m0 I).
    + eapply (does_bind_silent m0 I).
      { apply (does_load m0 I (fun m => strnlen m q (u32 (d_precision d)))). intros m Hm.
        apply (strnlen_cstr m q s); [by apply (cstr_sub m0)|zlia|lia]. }
      assert (Z.min (u32 (d_precision d)) (Z.of_nat (length s)) = Z.of_nat (length k)) as ->.
      { unfold k, str_cut. destruct (Z.ltb_spec (d_precision d) 0); [zlia|].
        rewrite length_take, u32_small by lia. lia. }
      rewrite s32_small by lia. apply does_spad. lia.
    + specialize (Htail (Z.min (d_width d - Z.of_nat (length k)) 0)).
      replace (Z.to_nat (Z.min _ 0 - Z.of_nat (length k))) with 0%nat in Htail by lia.
      rewrite app_nil_r in Htail. apply Htail. lia.
  - eapply (does_bind_silent m0 I); [apply does_ret|]. specialize (Htail (d_width d)).
    destruct (d_padc d =? 45); [apply Htail; lia|].
    rewrite andb_true_r in Hleft. assert (d_width d <= 0).
    { destruct (Z.gtb_spec (d_width d) 0); [done|lia]. }
    replace (Z.to_nat (d_width d - Z.of_nat (length k))) with 0%nat in * by lia.
    rewrite app_nil_r in Htail. apply Htail. lia.
Qed.
End strings.

(** * Escapes *)

(** Evaluate the comparisons of the switch on a known character. *)
Ltac eval_switch :=
  repeat match goal with
  | |- context [?a =? ?b] =>
      let v := eval vm_compute in (a =? b) in
      lazymatch v with true => idtac | false => idtac end;
      change (a =? b) with v
  | |- context [?a <=? ?b] =>
      let v := eval vm_compute in (a <=? b) in
      lazymatch v with true => idtac | false => idtac end;
      change (a <=? b) with v
  end; cbn [andb orb negb].

(** In the escape that starts at [p0] with the text [start], the pointer [p]
    has the text [l] before it read, and none of it is a '%'. *)
Definition at_pos (p0 : ptr) (start : list Z) (p : ptr) (l : list Z) : Prop :=
  exists pre, start = pre ++ l /\ p = padd p0 (Z.of_nat (length pre)) /\
    Forall (fun c => c <> 37) pre.

Lemma at_pos_next p0 start p c l :
  at_pos p0 start p (c :: l) -> c <> 37 -> at_pos p0 start (padd p 1) l.
Proof.
  intros (pre & -> & -> & Hpre) Hc. exists (pre ++ [c]). split_and!.
  - by rewrite <- app_assoc.
  - rewrite padd_padd, length_app. f_equal. simpl. lia.
  - apply Forall_app. split; [done|]. by constructor.
Qed.

Section escapes.
Context {S : Type} `{!Sink S} (m0 : mem) (I : S -> Prop) `{!SinkLaws S m0 I}.
Notation does := (does I).
Notation emits := (emits I).

Section start.
Context (p0 : ptr) (start : list Z).
Hypothesis Hstart : cstr m0 p0 start.
Hypothesis Hpercent : load8 m0 (padd p0 (-1)) = Ok 37.

Lemma at_pos_cstr p l : at_pos p0 start p l -> cstr m0 p l.
Proof using Hstart.
  intros (pre & E & -> & _). apply cstr_app with (l1 := pre). by rewrite <- E.
Qed.

Lemma at_pos_head p l : at_pos p0 start p l -> does (rd8 p) [] (hd 0 l) /\ is_byte (hd 0 l).
Proof using Hstart SinkLaws0.
  intros Hp%at_pos_cstr. split.
  - apply (does_rd8 m0 I). by apply cstr_head.
  - destruct l; simpl in *; unfold is_byte; lia.
Qed.

Lemma number_emits l : forall p prec ch,
  at_pos p0 start p l ->
  exists n q, (n <= Datatypes.S (length l))%nat /\
    emits number_body n (p, prec, ch) []
      (q, (ref_number (s32 (s32 (prec * 10) + ch - 48)) l).1) /\
    at_pos p0 start q (ref_number (s32 (s32 (prec * 10) + ch - 48)) l).2.
Proof using All.
  induction l as [|c l IH]; intros p prec ch Hp; pose proof (cstr_head _ _ _ (at_pos_cstr _ _ Hp)) as Hh.
  - exists 1%nat, p. split_and!; [lia| |done]. apply emits_done. unfold number_body.
    eapply (does_bind_silent m0 I); [by apply (does_rdc m0 I)|]. apply does_ret.
  - cbn [hd ref_number] in *. pose proof (at_pos_cstr _ _ Hp) as (_ & Hc & _).
    assert ((s8 c <? 48) || (s8 c >? 57) = (c <? 48) || (c >? 57) /\
            ((c <? 48) || (c >? 57) = false -> s8 c = c)) as [Hd Hs].
    { clear -Hc. assert (is_byte c) as Hb by (unfold is_byte; lia). revert c Hb Hc.
      assert (forall c, is_byte c -> (s8 c <? 48) || (s8 c >? 57) = (c <? 48) || (c >? 57) /\
            ((c <? 48) || (c >? 57) = false -> s8 c = c)) as Hall; [|auto].
      refine (byte_forall _ _). vm_compute. reflexivity. }
    destruct ((c <? 48) || (c >? 57)) eqn:Hr.
    + exists 1%nat, p. split_and!; [lia| |done]. apply emits_done. unfold number_body.
      eapply (does_bind_silent m0 I); [by apply (does_rdc m0 I)|]. rewrite Hd. apply does_ret.
    + destruct (IH (padd p 1) (s32 (s32 (prec * 10) + ch - 48)) c) as (n & q & Hn & He & Hq).
      { apply (at_pos_next _ _ _ c); [done|]. intros ->. done. }
      exists (Datatypes.S n), q. split_and!; [simpl; lia| |done].
      eapply emits_skip; [|exact He]. unfold number_body.
      eapply (does_bind_silent m0 I); [by apply (does_rdc m0 I)|]. rewrite Hd, Hs by done. apply does_ret.
Qed.

Lemma backup_emits pre : forall l,
  start = pre ++ l -> Forall (fun c => c <> 37) pre ->
  emits backup_body (Datatypes.S (length pre)) (padd p0 (Z.of_nat (length pre))) [] p0.
Proof using All.
  induction pre as [|c pre IH] using rev_ind; intros l E Hpre.
  - apply emits_done. unfold backup_body. rewrite padd_padd.
    eapply (does_bind_silent m0 I); [by apply (does_rdc m0 I)|]. simpl. rewrite padd_0. apply does_ret.
  - apply Forall_app in Hpre as [Hpre Hc]. apply Forall_cons in Hc as [Hc _].
    rewrite <- app_assoc in E. specialize (IH _ E Hpre).
    destruct (cstr_lookup _ _ _ (length pre) c Hstart) as [Hld Hcr].
    { rewrite E, lookup_app_r, Nat.sub_diag by lia. done. }
    rewrite length_app, Nat.add_comm. cbn [length Nat.add].
    eapply emits_skip; [|exact IH]. unfold backup_body. rewrite padd_padd.
    replace (Z.of_nat (Datatypes.S (length pre)) + -1) with (Z.of_nat (length pre)) by lia.
    eapply (does_bind_silent m0 I); [by apply (does_rdc m0 I)|].
    rewrite s8_eqb_ascii, (proj2 (Z.eqb_neq c 37)) by (unfold is_byte; lia). apply does_ret.
Qed.

Lemma does_backup p l :
  at_pos p0 start p l -> Z.of_nat (length start) < 4294967296 ->
  does (whileM backup_body p) [] p0.
Proof using All.
  intros (pre & E & -> & Hpre) Hl. eapply (does_while m0 I); [by eapply backup_emits|].
  apply (f_equal length) in E. rewrite length_app in E. lia.
Qed.

(** ** The conversions *)

Context (pf : ptr -> list arg -> M S unit) (deref : ptr -> option (list Z)) (with_e : bool).

(** What the recursive calls of [%e] do. *)
Definition errors_ok : Prop :=
  (forall err, 0 <= err < 2147483648 ->
     does (pf (lit "error %d") [AInt err]) (bytes_of "error " ++ render_num (-1) 32 10 err) tt) /\
  (forall err str, error_string_at err = Ok (Some str) ->
     does (pf (lit "%s") [APtr (lit str)]) (bytes_of str) tt).

Definition deref_ok : Prop :=
  forall p s, deref p = Some s -> cstr m0 p s /\ Z.of_nat (length s) < 1073741824.

Hypothesis Herrors : with_e = true -> errors_ok.
Hypothesis Hderef : deref_ok.

Lemma does_fmt_e d err ap' out :
  with_e = true -> va_word s32 (d_ap d) = Ok (err, ap') -> render_err err = Some out ->
  does (fmt_e pf d) out (d_fmt d, ap').
Proof using All.
  intros He Hva Hr. destruct (Herrors He) as [Hnum Hstr]. unfold fmt_e.
  assert (-2147483648 <= err < 2147483648) as Herr.
  { unfold va_word in Hva. destruct (d_ap d) as [|a ap]; [done|].
    destruct (arg_word a); [|done]. injection Hva as <- <-. apply s32_range. }
  eapply (does_bind_silent m0 I); [apply (does_reads I ); intros; exact Hva|]. cbn [fst snd].
  unfold render_err in Hr. set (e := if err <? 0 then s32 (- err) else err) in *.
  assert (forall o, (match o with None => True | Some str => error_string_at e = Ok (Some str) end) ->
    0 <= e < 2147483648 ->
    out = match o with None => bytes_of "error " ++ render_num (-1) 32 10 e | Some str => bytes_of str end ->
    does (match o with
          | None => pf (lit "error %d") [AInt e]
          | Some str => pf (lit "%s") [APtr (lit str)]
          end ;; mret (d_fmt d, ap')) out (d_fmt d, ap')) as Htail.
  { intros o Ho Hpos ->. rewrite <- (app_nil_r (match o with None => _ | Some _ => _ end)).
    eapply (does_bind m0 I); [|apply does_ret]. destruct o as [str|]; [by eapply Hstr|by apply Hnum]. }
  assert (0 <= e < 2147483648 \/ e < 0) as [Hpos|Hneg].
  { unfold e. destruct (Z.ltb_spec err 0); zlia. }
  2: { destruct (Z.geb_spec e MAXERROR) as [H8|H8]; [unfold MAXERROR in H8; lia|].
       unfold error_string_at in Hr. by rewrite (proj2 (Z.ltb_lt e 0)) in Hr. }
  destruct (e >=? MAXERROR).
  - injection Hr as <-. eapply (does_bind_silent m0 I); [apply does_ret|]. by apply (Htail None).
  - destruct (error_string_at e) as [[str|]|] eqn:Hes; try done; injection Hr as <-;
      (eapply (does_bind_silent m0 I); [apply (does_reads I ); intros; reflexivity|]).
    + by apply (Htail (Some str)).
    + by apply (Htail None).
Qed.

Lemma does_number' d num base ap :
  width_ok (flags_of d) = true -> 8 <= base <= 16 -> 0 <= num < 18446744073709551616 ->
  does (r ← fmt_number d num base ap; mret (inr (A := dir) r))
    (render_num (d_width d) (d_padc d) base num) (inr (d_fmt d, ap)).
Proof using All.
  intros Hok Hb Hn. unfold width_ok in Hok. cbn in Hok.
  rewrite !andb_true_iff, !Z.leb_le, !Z.ltb_lt in Hok.
  rewrite <- (app_nil_r (render_num _ _ _ _)). eapply (does_bind m0 I); [|apply does_ret].
  apply (does_number m0 I); lia.
Qed.

Lemma getuint_range ap lflag a ap' : getuint ap lflag = Ok (a, ap') -> 0 <= a < 18446744073709551616.
Proof using Type.
  unfold getuint, va_llong, va_word. repeat case_match; intros [= <- <-]; zlia.
Qed.

Lemma getint_range ap lflag a ap' :
  getint ap lflag = Ok (a, ap') -> -9223372036854775808 <= a < 9223372036854775808.
Proof using Type.
  unfold getint, va_llong, va_word. repeat case_match; intros [= <- <-]; zlia.
Qed.

Lemma neg_u64 a : -9223372036854775808 <= a < 0 -> u64 (s64 (- a)) = - a.
Proof using Type. zlia. Qed.

(** The pass of the switch that meets a conversion character. *)
Lemma does_conv d c l out ap' :
  at_pos p0 start (d_fmt d) (c :: l) -> is_conv c = true ->
  render_conv deref with_e c (flags_of d) (d_ap d) = Some (out, ap') ->
  does (reswitch_body pf d) out (inr (padd (d_fmt d) 1, ap')).
Proof using All.
  intros Hp Hconv Hr. destruct (at_pos_head _ _ Hp) as [Hh _]. unfold reswitch_body.
  eapply (does_bind_silent m0 I); [exact Hh|]. cbn [hd]. set (d' := set_fmt d (padd (d_fmt d) 1)).
  change (flags_of d) with (flags_of d') in Hr. change (d_ap d) with (d_ap d') in Hr.
  change (padd (d_fmt d) 1) with (d_fmt d'). clearbody d'.
  unfold render_conv in Hr. destruct (width_ok (flags_of d')) eqn:Hok; [|done].
  cbn [negb f_lflag flags_of f_width f_padc] in Hr.
  apply bool_decide_eq_true in Hconv.
  repeat (apply elem_of_cons in Hconv as [->|Hconv]; [|]); [..|by apply elem_of_nil in Hconv].
  all: revert Hr; eval_switch; intros Hr.
  - destruct (va_word s32 (d_ap d')) as [[a ap1]|] eqn:Hva; [|done]. injection Hr as <- <-.
    eapply (does_bind_silent m0 I); [apply (does_reads I ); intros; reflexivity|].
    apply (does_bind_putch m0 I), does_ret.
  - assert (with_e = true) as Hwe by (clear -Hr; by destruct with_e). rewrite Hwe in Hr.
    destruct (va_word s32 (d_ap d')) as [[a ap1]|] eqn:Hva; [|done]. simpl in Hr.
    destruct (render_err a) as [o|] eqn:He; [|done]. injection Hr as <- <-.
    rewrite <- (app_nil_r o). eapply (does_bind m0 I); [|apply does_ret]. by eapply does_fmt_e.
  - destruct (va_ptr (d_ap d')) as [[p ap1]|] eqn:Hva; [|done]. simpl in Hr.
    rewrite <- (app_nil_r out).
    destruct (is_null p) eqn:Hnull.
    + injection Hr as <- <-. eapply (does_bind m0 I); [|apply does_ret].
      apply (does_fmt_s m0 I d' p); [done| |done|done]. rewrite Hnull. apply cstr_lit.
      apply (bool_decide_unpack _). vm_compute. exact Logic.I.
    + destruct (deref p) as [s|] eqn:Hs; [|done]. injection Hr as <- <-.
      destruct (Hderef p s Hs) as [Hc Hl]. eapply (does_bind m0 I); [|apply does_ret].
      apply (does_fmt_s m0 I d' p); [done| |done|done]. by rewrite Hnull.
  - destruct (getint (d_ap d') (d_lflag d')) as [[a ap1]|] eqn:Hva; [|done]. injection Hr as <- <-.
    pose proof (getint_range _ _ _ _ Hva).
    eapply (does_bind_silent m0 I); [apply (does_reads I ); intros; reflexivity|]. cbn [fst snd].
    destruct (Z.ltb_spec a 0).
    + rewrite neg_u64 by lia. intros s Hs. rewrite Mbind_assoc. revert s Hs.
      apply (does_bind_putch m0 I). apply does_number'; [done|lia|lia].
    + rewrite u64_small by lia. apply does_number'; [done|lia|lia].
  - destruct (getuint (d_ap d') (d_lflag d')) as [[a ap1]|] eqn:Hva; [|done]. injection Hr as <- <-.
    eapply (does_bind_silent m0 I); [apply (does_reads I ); intros; reflexivity|].
    apply does_number'; [done|lia|by eapply getuint_range].
  - destruct (getuint (d_ap d') (d_lflag d')) as [[a ap1]|] eqn:Hva; [|done]. injection Hr as <- <-.
    eapply (does_bind_silent m0 I); [apply (does_reads I ); intros; reflexivity|].
    apply does_number'; [done|lia|by eapply getuint_range].
  - destruct (va_word u32 (d_ap d')) as [[a ap1]|] eqn:Hva; [|done]. injection Hr as <- <-.
    apply (does_bind_putch m0 I), (does_bind_putch m0 I).
    eapply (does_bind_silent m0 I); [apply (does_reads I ); intros; reflexivity|].
    apply does_number'; [done|lia|]. cbn [fst].
    unfold va_word in Hva. repeat case_match; try done. injection Hva as <- <-. zlia.
  - destruct (getuint (d_ap d') (d_lflag d')) as [[a ap1]|] eqn:Hva; [|done]. injection Hr as <- <-.
    eapply (does_bind_silent m0 I); [apply (does_reads I ); intros; reflexivity|].
    apply does_number'; [done|lia|by eapply getuint_range].
  - injection Hr as <- <-. apply (does_bind_putch m0 I), does_ret.
Qed.

Lemma ref_number_length l : forall v, (length (ref_number v l).2 <= length l)%nat.
Proof using Type.
  induction l as [|c l IH]; intros v; simpl; [lia|]. destruct (_ || _); [done|].
  etransitivity; [apply IH|lia].
Qed.

Lemma again_fmt d p : d_fmt (set_fmt d p) = p.
Proof using Type. done. Qed.

Lemma flags_process d : flags_of (process_precision d) = f_process (flags_of d).
Proof using Type. unfold process_precision, f_process. cbn. by destruct (d_width d <? 0). Qed.
Lemma fmt_process d : d_fmt (process_precision d) = d_fmt d.
Proof using Type. unfold process_precision. by destruct (d_width d <? 0). Qed.
Lemma ap_process d : d_ap (process_precision d) = d_ap d.
Proof using Type. unfold process_precision. by destruct (d_width d <? 0). Qed.

(** What a whole escape does: its output, and where it leaves the format. *)
Definition escape_does (n : nat) (d : dir) (out rest : list Z) (ap' : list arg) : Prop :=
  exists k q, (k <= n)%nat /\ emits (reswitch_body pf) k d out (q, ap') /\
    cstr m0 q rest /\ (length rest <= length start)%nat.

Lemma escape_step n d d' out rest ap' :
  does (reswitch_body pf d) [] (inl d') -> escape_does n d' out rest ap' ->
  escape_does (Datatypes.S n) d out rest ap'.
Proof using Type.
  intros Hd (k & q & Hk & He & Hq). exists (Datatypes.S k), q.
  split_and!; [lia| |naive_solver|naive_solver]. by eapply emits_skip.
Qed.

Lemma at_pos_length p l : at_pos p0 start p l -> (length l <= length start)%nat.
Proof using Type. intros (pre & E & _). rewrite E, length_app. lia. Qed.

(** The pass of the switch that meets any other character, or the end. *)
Lemma does_unknown d l :
  at_pos p0 start (d_fmt d) l -> Z.of_nat (length start) < 4294967296 ->
  Forall (fun c => hd 0 l <> c) [45; 48; 42; 46; 35; 108] ->
  (49 <=? hd 0 l) && (hd 0 l <=? 57) = false -> is_conv (hd 0 l) = false ->
  does (reswitch_body pf d) [37] (inr (p0, d_ap d)).
Proof using Hpercent Hstart SinkLaws0.
  intros Hp Hl Hflag Hdig Hconv. destruct (at_pos_head _ _ Hp) as [Hh _]. unfold reswitch_body.
  eapply (does_bind_silent m0 I); [exact Hh|]. set (c := hd 0 l) in *. clearbody c.
  rewrite !Forall_cons in Hflag. destruct Hflag as (F1 & F2 & F3 & F4 & F5 & F6 & _).
  apply bool_decide_eq_false in Hconv. rewrite !not_elem_of_cons in Hconv.
  destruct Hconv as (C1 & C2 & C3 & C4 & C5 & C6 & C7 & C8 & C9 & _).
  rewrite Hdig. rewrite !(proj2 (Z.eqb_neq _ _)) by done.
  apply (does_bind_putch m0 I). eapply (does_bind_silent m0 I); [|apply does_ret].
  cbn [d_fmt set_fmt]. rewrite padd_padd, padd_0. by eapply does_backup.
Qed.

Ltac flag_pass Hh := unfold reswitch_body; eapply (does_bind_silent m0 I); [exact Hh|];
  eval_switch; apply does_ret.

(** A pass that meets the first digit of a number. *)
Lemma does_digits d c l :
  at_pos p0 start (d_fmt d) (c :: l) -> (49 <=? c) && (c <=? 57) = true ->
  Z.of_nat (length start) < 4294967296 ->
  exists q, at_pos p0 start q (ref_number (c - 48) l).2 /\
    does (reswitch_body pf d) [] (inl (process_precision
      (mkDir q (d_ap d) (d_padc d) (d_width d) (ref_number (c - 48) l).1 (d_lflag d) (d_altflag d)))).
Proof using Hpercent Hstart SinkLaws0.
  intros Hp Hc Hlen. destruct (at_pos_head _ _ Hp) as [Hh _].
  pose proof (at_pos_length _ _ Hp) as Hl. simpl in Hl.
  pose proof Hc as Hc'. apply andb_true_iff in Hc' as [H1 H2]. rewrite Z.leb_le in H1, H2.
  destruct (number_emits l (padd (d_fmt d) 1) 0 c) as (n & q & Hn & He & Hq).
  { apply (at_pos_next _ _ _ c); [done|lia]. }
  replace (s32 (s32 (0 * 10) + c - 48)) with (c - 48) in * by zlia.
  exists q. split; [done|]. unfold reswitch_body. eapply (does_bind_silent m0 I); [exact Hh|].
  cbn [hd]. rewrite (proj2 (Z.eqb_neq c 45)), (proj2 (Z.eqb_neq c 48)), Hc by lia.
  eapply (does_bind_silent m0 I); [eapply (does_while m0 I); [exact He|lia]|]. apply does_ret.
Qed.

Lemma directive_emits fuel : forall d l out rest ap',
  directive deref with_e fuel start l (flags_of d) (d_ap d) = Some (out, rest, ap') ->
  at_pos p0 start (d_fmt d) l -> Z.of_nat (length start) < 4294967296 ->
  escape_does fuel d out rest ap'.
Proof using All.
  induction fuel as [|fuel IH]; intros d l out rest ap' Hd Hp Hlen; [done|].
  destruct (at_pos_head _ _ Hp) as [Hh _]. cbn [directive] in Hd.
  assert (does (reswitch_body pf d) [37] (inr (p0, d_ap d)) ->
    Some ([37], start, d_ap d) = Some (out, rest, ap') -> escape_does (Datatypes.S fuel) d out rest ap')
    as Hunknown.
  { intros Hu [= <- <- <-]. exists 1%nat, p0. split_and!; [lia|by apply emits_done|done|done]. }
  destruct l as [|c l]; cbn [hd] in *.
  { apply Hunknown; [|done]. apply (does_unknown d []); try done. by repeat constructor. }
  pose proof (at_pos_next _ _ _ c l Hp) as Hnext.
  assert (forall d' l', does (reswitch_body pf d) [] (inl d') ->
    directive deref with_e fuel start l' (flags_of d') (d_ap d') = Some (out, rest, ap') ->
    at_pos p0 start (d_fmt d') l' -> escape_does (Datatypes.S fuel) d out rest ap') as Hagain.
  { intros d' l' H1 H2 H3. eapply escape_step; [exact H1|]. by eapply IH. }
  destruct (Z.eqb_spec c 45) as [->|N1].
  { eapply (Hagain (mkDir _ (d_ap d) 45 _ _ _ _) l); [flag_pass Hh|exact Hd|by apply Hnext]. }
  destruct (Z.eqb_spec c 48) as [->|N2].
  { eapply (Hagain (mkDir _ (d_ap d) 48 _ _ _ _) l); [flag_pass Hh|exact Hd|by apply Hnext]. }
  destruct ((49 <=? c) && (c <=? 57)) eqn:Hdig.
  { destruct (does_digits d c l Hp Hdig Hlen) as (q & Hq & Hdoes).
    destruct (ref_number (c - 48) l) as [v l'']. eapply Hagain; [exact Hdoes| |by rewrite fmt_process].
    rewrite flags_process, ap_process. exact Hd. }
  destruct (Z.eqb_spec c 42) as [->|N3].
  { destruct (va_word s32 (d_ap d)) as [[a ap1]|] eqn:Hva; [|done]. simpl in Hd.
    eapply (Hagain (process_precision (mkDir (padd (d_fmt d) 1) ap1 (d_padc d) (d_width d) a _ _)) l).
    - unfold reswitch_body. eapply (does_bind_silent m0 I); [exact Hh|]. eval_switch.
      eapply (does_bind_silent m0 I); [apply (does_reads I ); intros; exact Hva|]. apply does_ret.
    - rewrite flags_process, ap_process. exact Hd.
    - rewrite fmt_process. by apply Hnext. }
  destruct (Z.eqb_spec c 46) as [->|N4].
  { eapply (Hagain (if d_width d <? 0 then mkDir (padd (d_fmt d) 1) (d_ap d) (d_padc d) 0
      (d_precision d) (d_lflag d) (d_altflag d) else set_fmt d (padd (d_fmt d) 1)) l).
    - flag_pass Hh.
    - cbn [f_width flags_of] in Hd. destruct (d_width d <? 0); exact Hd.
    - destruct (d_width d <? 0); by apply Hnext. }
  destruct (Z.eqb_spec c 35) as [->|N5].
  { eapply (Hagain (mkDir _ (d_ap d) _ _ _ _ true) l); [flag_pass Hh|exact Hd|by apply Hnext]. }
  destruct (Z.eqb_spec c 108) as [->|N6].
  { eapply (Hagain (mkDir _ (d_ap d) _ _ _ (s32 (d_lflag d + 1)) _) l);
      [flag_pass Hh|exact Hd|by apply Hnext]. }
  destruct (is_conv c) eqn:Hconv.
  - destruct (render_conv deref with_e c (flags_of d) (d_ap d)) as [[o a']|] eqn:Hr; [|done].
    injection Hd as <- <- <-. exists 1%nat, (padd (d_fmt d) 1).
    pose proof (at_pos_cstr _ _ Hp) as (_ & _ & Hc). pose proof (at_pos_length _ _ Hp).
    split_and!; [lia| |done|simpl in *; lia]. apply emits_done. by eapply does_conv.
  - apply Hunknown; [|done]. apply (does_unknown d (c :: l)); try done. by repeat constructor.
Qed.
End start.

(** ** Whole formats *)

Section whole.
Context (pf : ptr -> list arg -> M S unit) (deref : ptr -> option (list Z)) (with_e : bool).
Hypothesis Herrors : with_e = true -> errors_ok pf.
Hypothesis Hderef : deref_ok deref.

(** The text before the next '%', or the rest of the format. *)
Lemma text_emits txt : forall p l,
  cstr m0 p (txt ++ l) -> Forall (fun c => c <> 37) txt -> hd 37 l = 37 ->
  emits text_body (Datatypes.S (length txt)) p txt
    (match l with [] => None | _ => Some (padd p (Z.of_nat (length txt) + 1)) end).
Proof using SinkLaws0.
  induction txt as [|c txt IH]; intros p l Hp Ht Hl; cbn [app length] in *.
  - apply emits_done. unfold text_body.
    eapply (does_bind_silent m0 I); [apply (does_rd8 m0 I); by apply cstr_head|].
    destruct l as [|c l]; [apply does_ret|]. simpl in Hl. subst c. apply does_ret.
  - apply Forall_cons in Ht as [Hc Ht]. destruct Hp as (Hld & Hcr & Hp).
    replace (padd p (Z.of_nat (Datatypes.S (length txt)) + 1))
      with (padd (padd p 1) (Z.of_nat (length txt) + 1)) by (rewrite padd_padd; f_equal; lia).
    apply (emits_step I _ _ _ _ [c] txt) with (2 := IH _ _ Hp Ht Hl). unfold text_body.
    eapply (does_bind_silent m0 I); [by apply (does_rd8 m0 I)|].
    rewrite (proj2 (Z.eqb_neq c 37)), (proj2 (Z.eqb_neq c 0)) by lia. cbn [negb].
    apply (does_bind_putch m0 I), does_ret.
Qed.

(** Split a format at its first '%'. *)
Lemma split_percent l :
  exists txt l', l = txt ++ l' /\ Forall (fun c => c <> 37) txt /\ hd 37 l' = 37.
Proof using Type.
  induction l as [|c l IH]; [by exists [], []|].
  destruct (decide (c = 37)) as [->|Hc]; [by exists [], (37 :: l)|].
  destruct IH as (txt & l' & -> & ? & ?). exists (c :: txt), l'. split_and!; [done|by constructor|done].
Qed.

Lemma render_text txt : forall fuel l ap out,
  Forall (fun c => c <> 37) txt -> render deref with_e fuel (txt ++ l) ap = Some out ->
  exists fuel' out', render deref with_e fuel' l ap = Some out' /\ out = txt ++ out' /\
    (fuel' <= fuel)%nat.
Proof using Type.
  induction txt as [|c txt IH]; intros fuel l ap out Ht Hr; [by exists fuel, out|].
  apply Forall_cons in Ht as [Hc Ht]. destruct fuel as [|fuel]; [done|]. cbn [render app] in Hr.
  rewrite (proj2 (Z.eqb_neq c 37) Hc) in Hr.
  destruct (render deref with_e fuel (txt ++ l) ap) as [o|] eqn:E; [|done]. injection Hr as <-.
  destruct (IH _ _ _ _ Ht E) as (f' & o' & ? & -> & ?). exists f', o'. split_and!; [done|done|lia].
Qed.

Lemma render_emits n : forall fuel p l ap out,
  (length l <= n)%nat -> cstr m0 p l -> Z.of_nat (length l) < 4294967296 ->
  render deref with_e fuel l ap = Some out ->
  exists k, (k <= Datatypes.S n)%nat /\ emits (vprintfmt_body pf) k (p, ap) out tt.
Proof using All.
  induction n as [n IH] using lt_wf_ind; intros fuel p l ap out Hn Hp Hl Hr.
  destruct (split_percent l) as (txt & l' & -> & Ht & Hl').
  destruct (render_text _ _ _ _ _ Ht Hr) as (fuel' & out' & Hr' & -> & _).
  pose proof (text_emits txt p l' Hp Ht Hl') as Htext. rewrite length_app in *.
  destruct l' as [|c l'].
  - destruct fuel'; [done|]. injection Hr' as <-. exists 1%nat. split; [lia|]. apply emits_done.
    unfold vprintfmt_body. rewrite app_nil_r. rewrite <- (app_nil_r txt).
    eapply (does_bind m0 I); [eapply (does_while m0 I); [exact Htext|lia]|]. apply does_ret.
  - simpl in Hl'. subst c. destruct fuel' as [|fuel']; [done|]. cbn [render length] in *.
    change (37 =? 37) with true in Hr'. cbn match in Hr'.
    destruct (directive deref with_e (Datatypes.S (length l')) l' l' flags0 ap)
      as [[[o rest] ap']|] eqn:Hd; [|done]. simpl in Hr'.
    destruct (render deref with_e fuel' rest ap') as [o'|] eqn:Ho; [|done]. injection Hr' as <-.
    set (q := padd p (Z.of_nat (length txt) + 1)) in *.
    pose proof (cstr_app _ _ _ _ Hp) as Hpq. destruct Hpq as (Hld & _ & Hq).
    rewrite padd_padd in Hq. fold q in Hq.
    assert (load8 m0 (padd q (-1)) = Ok 37) as Hpc.
    { unfold q. rewrite padd_padd. by replace (Z.of_nat (length txt) + 1 + -1) with (Z.of_nat (length txt)) by lia. }
    destruct (directive_emits q l' Hq Hpc pf deref with_e Herrors Hderef (Datatypes.S (length l'))
      (mkDir q ap 32 (-1) (-1) 0 false) l' o rest ap' Hd) as (k & q' & Hk & He & Hq' & Hrest).
    { exists []. simpl. by rewrite padd_0. }
    { lia. }
    destruct (IH (length l') ltac:(lia) fuel' q' rest ap' o') as (k2 & Hk2 & He2); [done|done|lia|done|].
    exists (Datatypes.S k2). split; [lia|]. rewrite app_assoc. eapply emits_step; [|exact He2].
    unfold vprintfmt_body. eapply (does_bind m0 I); [eapply (does_while m0 I); [exact Htext|lia]|].
    rewrite <- (app_nil_r o). eapply (does_bind m0 I); [eapply (does_while m0 I); [exact He|lia]|].
    apply does_ret.
Qed.

Lemma does_vprintfmt_body p l ap out fuel :
  cstr m0 p l -> Z.of_nat (length l) < 4294967296 ->
  render deref with_e fuel l ap = Some out ->
  does (whileM (vprintfmt_body pf) (p, ap)) out tt.
Proof using All.
  intros Hp Hl Hr. destruct (render_emits (length l) fuel p l ap out) as (k & Hk & He); try done.
  eapply (does_while m0 I); [exact He|lia].
Qed.
End whole.
End escapes.

(** * The formatter *)

(** Literals are strings of their own; an address is not one. *)
Definition deref_lit (p : ptr) : option (list Z) :=
  match p with
  | Lit s o =>
      if (o =? 0) && forallb (fun c => (0 <? c) && (c <? 256)) s
         && (Z.of_nat (length s) <? 1073741824) then Some s else None
  | Addr _ => None
  end.

Lemma deref_lit_ok m0 : deref_ok m0 deref_lit.
Proof.
  intros [a|l o] s; [done|]. simpl. destruct ((o =? 0) && _ && _) eqn:E; [|done].
  intros [= <-]. rewrite !andb_true_iff in E. destruct E as [[E1 E2] E3].
  apply Z.eqb_eq in E1 as ->. rewrite Z.ltb_lt in E3. split; [|done]. apply cstr_lit.
  rewrite forallb_forall in E2. apply Forall_forall. intros c Hc%list_elem_of_In%E2.
  rewrite andb_true_iff, !Z.ltb_lt in Hc. done.
Qed.

Lemma deref_ok_sub m0 m deref : m0 ⊆ m -> deref_ok m0 deref -> deref_ok m deref.
Proof.
  intros Hm Hd p s Hs. destruct (Hd p s Hs) as [Hc Hl]. split; [|done]. by eapply cstr_sub.
Qed.

Section formatter.
Context {S : Type} `{!Sink S} (m0 : mem) (I : S -> Prop) `{!SinkLaws S m0 I}.
Notation does := (does I).

Lemma does_printfmt deref p l ap out fuel :
  cstr m0 p l -> Z.of_nat (length l) < 4294967296 -> deref_ok m0 deref ->
  render deref false fuel l ap = Some out -> does (printfmt p ap) out tt.
Proof using SinkLaws0.
  intros Hp Hl Hd Hr. unfold printfmt, vprintfmt_e.
  by eapply (does_vprintfmt_body m0 I _ deref false).
Qed.

Lemma error_string_known err str :
  error_string_at err = Ok (Some str) -> In (Some str) error_string.
Proof using Type.
  unfold error_string_at. destruct (err <? 0); [done|].
  destruct (error_string !! Z.to_nat err) as [o|] eqn:E; [|done].
  intros [= ->]. by eapply list_elem_of_In, list_elem_of_lookup_2.
Qed.

Lemma render_error_d err :
  0 <= err < 2147483648 ->
  render deref_lit false 9 (bytes_of "error %d") [AInt err] =
    Some (bytes_of "error " ++ render_num (-1) 32 10 err).
Proof using Type.
  intros Herr. lazy -[render_num s32 Z.opp app]. rewrite s32_small by lia.
  destruct err; [by rewrite app_nil_r..|lia].
Qed.

Lemma printfmt_errors_ok : errors_ok I printfmt.
Proof using SinkLaws0.
  split.
  - intros err Herr. eapply (does_printfmt deref_lit _ (bytes_of "error %d") _ _ 9);
      [apply cstr_lit; apply (bool_decide_unpack _); vm_compute; exact Logic.I|vm_compute; done
      |apply deref_lit_ok|].
    rewrite render_error_d by done. done.
  - intros err str Hs%error_string_known.
    eapply (does_printfmt deref_lit _ (bytes_of "%s") _ _ 3);
      [apply cstr_lit; apply (bool_decide_unpack _); vm_compute; exact Logic.I|vm_compute; done
      |apply deref_lit_ok|].
    simpl in Hs. repeat destruct Hs as [[= <-]|Hs]; try done.
Qed.

Lemma does_vprintfmt deref p l ap out :
  cstr m0 p l -> Z.of_nat (length l) < 4294967296 -> deref_ok m0 deref ->
  format deref l ap = Some out -> does (vprintfmt p ap) out tt.
Proof using SinkLaws0.
  intros Hp Hl Hd Hr. unfold vprintfmt.
  eapply (does_vprintfmt_body m0 I _ deref true); [|done|done|done|exact Hr].
  intros _. apply printfmt_errors_ok.
Qed.
End formatter.

(** C4: [vprintfmt] terminates and hands [putch] exactly the characters its
    format and arguments stand for, in order and nothing else, in any sink
    whose [putch] leaves the format and the strings alone; if [putch] fails,
    it fails at that character. *)
Theorem vprintfmt_format {S : Type} `{!Sink S} m0 (I : S -> Prop) `{!SinkLaws S m0 I}
    deref p l ap out s :
  cstr m0 p l -> Z.of_nat (length l) < 4294967296 -> deref_ok m0 deref ->
  format deref l ap = Some out -> I s ->
  vprintfmt p ap s = each putch out s.
Proof.
  intros Hp Hl Hd Hf Hs. rewrite (does_vprintfmt m0 I deref p l ap out Hp Hl Hd Hf s Hs).
  unfold mbind, M_bind, mret, M_ret. by destruct (each putch out s) as [[[] s']|e].
Qed.

Lemma vprintfmt_format_witness :
  vprintfmt (S := mem * list Z) (lit "%5d|%-3s|%e") [AInt (-3); APtr (lit "a"); AInt (-4)] (∅, []) =
  each putch (bytes_of "-    3|a  |out of memory") (∅, []).
Proof.
  apply (vprintfmt_format ∅ (fun s => ∅ ⊆ sink_mem s) deref_lit _ (bytes_of "%5d|%-3s|%e"));
    [decided|decided|apply deref_lit_ok|vm_compute; reflexivity|apply map_empty_subseteq].
Defined.


(** ** snprintf *)

(** The memory outside a block. *)
Definition mem_outside (m : mem) (a n : Z) : mem :=
  filter (fun kv => ~ (a <= kv.1 < a + n)) m.

Lemma mem_outside_sub m a n : mem_outside m a n ⊆ m.
Proof. apply map_filter_subseteq. Qed.

(** The invariant of the buffer [sprintputch] fills. *)
Definition sprint_inv (m0 : mem) (buf n : Z) (s : mem * sprintbuf) : Prop :=
  m0 ⊆ s.1 /\ (forall x, buf <= x < buf + n -> m0 !! x = None) /\
  buf <= sb_buf s.2 <= sb_ebuf s.2 /\ sb_ebuf s.2 = buf + n - 1.

Lemma sprint_laws m0 buf n : SinkLaws (mem * sprintbuf) m0 (sprint_inv m0 buf n).
Proof.
  split; [by intros s [? _]|]. intros c [m b] s' (Hm & H0 & Hb & He) Hp.
  cbn [putch sprint_sink sprintputch fst snd] in *.
  destruct (Z.ltb_spec (sb_buf b) (sb_ebuf b)) as [Hlt|Hge].
  - apply bind_Ok in Hp as (m' & Hst & [= <-]). unfold store8 in Hst.
    destruct (m !! sb_buf b) eqn:Hl; [|done]. injection Hst as <-. unfold sprint_inv. simpl.
    split_and!; [|done|lia|lia|lia]. apply insert_subseteq_r; [|done]. apply H0. lia.
  - injection Hp as <-. unfold sprint_inv. simpl. split_and!; (done || lia).
Qed.

Lemma sprint_each out : forall m buf k e cnt,
  0 <= k -> e = buf + k -> mapped m buf (k + 1) -> 0 <= cnt ->
  cnt + Z.of_nat (length out) < 2147483648 ->
  each (S := mem * sprintbuf) putch out (m, mkSprintbuf buf e cnt) =
    let w := take (Z.to_nat k) (u8 <$> out) in
    Ok (tt, (write_bytes m buf w,
             mkSprintbuf (buf + Z.of_nat (length w)) e (cnt + Z.of_nat (length out)))).
Proof.
  induction out as [|c out IH]; intros m buf k e cnt Hk -> Hm Hc Hl; cbv zeta.
  - simpl. rewrite take_nil. simpl. by rewrite !Z.add_0_r.
  - cbn [each]. cbn [length] in Hl. unfold mbind, M_bind.
    change (putch c (m, mkSprintbuf buf (buf + k) cnt))
      with (sprintputch c (m, mkSprintbuf buf (buf + k) cnt)). unfold sprintputch.
    cbn [sb_buf sb_ebuf sb_cnt]. rewrite s32_small by lia.
    destruct (Z.ltb_spec buf (buf + k)) as [Hlt|Hge].
    + rewrite store8_ok by (apply Hm; lia). red_bind.
      rewrite (IH _ (buf + 1) (k - 1)) by
        (first [lia | apply mapped_insert; eapply mapped_weaken; [done|lia|lia]]).
      cbv zeta. replace (Z.to_nat k) with (Datatypes.S (Z.to_nat (k - 1))) by lia.
      cbn [fmap list_fmap take length]. rewrite <- write_bytes_insert. do 4 f_equal; lia.
    + rewrite (IH m buf k) by (done || lia). cbv zeta.
      replace (Z.to_nat k) with 0%nat by lia. cbn [take length]. do 4 f_equal; lia.
Qed.

Lemma vsnprintf_format m buf n p l ap deref out :
  0 < buf -> 1 <= n -> mapped m buf n ->
  cstr (mem_outside m buf n) p l -> Z.of_nat (length l) < 4294967296 ->
  deref_ok (mem_outside m buf n) deref ->
  format deref l ap = Some out -> Z.of_nat (length out) < 2147483648 ->
  vsnprintf m buf n p ap =
    Ok (Z.of_nat (length out),
        write_bytes m buf (take (Z.to_nat (n - 1)) (u8 <$> out) ++ [0])).
Proof.
  intros Hbuf Hn Hm Hp Hl Hd Hf Hout. unfold vsnprintf.
  rewrite (proj2 (Z.eqb_neq buf 0)), (proj2 (Z.ltb_ge n 1)) by lia. cbn [orb].
  set (b := mkSprintbuf buf (buf + n - 1) 0).
  pose proof (sprint_laws (mem_outside m buf n) buf n) as Hlaws.
  assert (sprint_inv (mem_outside m buf n) buf n (m, b)) as Hinv.
  { split_and!; simpl; try lia; [apply mem_outside_sub|]. intros x Hx.
    apply map_lookup_filter_None. right. naive_solver. }
  rewrite (does_vprintfmt _ _ deref p l ap out Hp Hl Hd Hf (m, b) Hinv).
  unfold b.
  erewrite Mbind_run by (apply (sprint_each out m buf (n - 1));
    [lia|lia|by replace (n - 1 + 1) with n by lia|lia|lia]).
  cbv zeta. unfold mret, M_ret. red_bind. cbn [sb_buf sb_cnt].
  set (w := take (Z.to_nat (n - 1)) (u8 <$> out)).
  assert (Z.of_nat (length w) <= n - 1) as Hw by (unfold w; rewrite length_take; lia).
  rewrite store8_ok by (eapply write_bytes_mapped; [exact Hm|lia]). red_bind.
  by rewrite write_bytes_app, Z.add_0_l.
Qed.

(** C9: [vsnprintf] into a buffer of [n] bytes stores the first [n-1]
    characters of the formatted text and a NUL, writes no other byte, and
    returns the length of the whole text; a null buffer or [n < 1] gives
    [-E_INVAL] and touches nothing. *)
Theorem vsnprintf_spec m buf n p l ap deref out :
  cstr (mem_outside m buf n) p l -> Z.of_nat (length l) < 4294967296 ->
  deref_ok (mem_outside m buf n) deref ->
  format deref l ap = Some out -> Z.of_nat (length out) < 2147483648 ->
  0 <= buf -> mapped m buf n ->
  (0 < buf -> 1 <= n -> exists m',
     vsnprintf m buf n p ap = Ok (Z.of_nat (length out), m') /\
     bytes m' (Addr buf) (take (Z.to_nat (n - 1)) (u8 <$> out) ++ [0]) /\
     same_outside buf (Z.min n (Z.of_nat (length out) + 1)) m m') /\
  (buf = 0 \/ n < 1 -> vsnprintf m buf n p ap = Ok (-3, m)).
Proof.
  intros Hp Hl Hd Hf Hout Hbuf Hm. split.
  - intros Hb Hn. exists (write_bytes m buf (take (Z.to_nat (n - 1)) (u8 <$> out) ++ [0])).
    split_and!; [by eapply vsnprintf_format|apply bytes_write_bytes|].
    intros x Hx. apply write_bytes_out. rewrite length_app, length_take, length_fmap.
    simpl. lia.
  - intros Hc. unfold vsnprintf. by rewrite (proj2 (orb_true_iff _ _)) by lia.
Qed.

Lemma vsnprintf_spec_witness :
  exists m', vsnprintf (write_bytes ∅ 64 [1; 1; 1; 1]) 64 4 (lit "%d%%") [AInt 100] = Ok (4, m') /\
    bytes m' (Addr 64) [49; 48; 48; 0] /\
    same_outside 64 4 (write_bytes ∅ 64 [1; 1; 1; 1]) m'.
Proof.
  apply (vsnprintf_spec _ 64 4 (lit "%d%%") (bytes_of "%d%%") [AInt 100] deref_lit (bytes_of "100%"));
    first [decided | apply deref_lit_ok | vm_compute; reflexivity].
Defined.


(** ** Printing a number and reading it back *)

Lemma digits_short fuel : forall base num k,
  2 <= base -> (0 < k)%nat -> 0 <= num < base ^ Z.of_nat k -> (length (digits fuel base num) <= k)%nat.
Proof.
  induction fuel as [|fuel IH]; intros base num k Hb Hk Hn; [simpl; lia|]. cbn [digits].
  rewrite length_app. cbn [length]. destruct (Z.geb_spec num base); [|simpl; lia].
  destruct k as [|[|k]]; [lia|simpl in Hn; lia|].
  rewrite Nat2Z.inj_succ, Z.pow_succ_r in Hn by lia.
  cut (length (digits fuel base (num / base)) <= Datatypes.S k)%nat; [lia|]. apply IH; [lia..|].
  split; [apply Z.div_pos; lia|apply Z.div_lt_upper_bound; lia].
Qed.

(** A digit [strtol] reads back, none of the characters it treats apart. *)
Definition digit_ok (base d : Z) : Prop :=
  ref_digit (digit_char d) = Some d /\ 0 < digit_char d < 128 /\
  ref_blank (digit_char d) = false /\
  digit_char d <> 43 /\ digit_char d <> 45 /\ digit_char d <> 120.

Lemma digit_char_ok d : 0 <= d < 16 -> digit_ok 16 d.
Proof.
  intros Hd. assert (Forall (digit_ok 16) (seqZ 0 16)) as H.
  { apply (bool_decide_unpack (Forall _ _)). vm_compute. exact Logic.I. }
  rewrite Forall_forall in H. apply H, elem_of_seqZ. lia.
Qed.

Lemma ref_digits_chars base ds : forall v,
  base <= 16 -> Forall (fun d => 0 <= d < base) ds ->
  ref_digits base (s32 v) (digit_char <$> ds) =
    (s32 (fold_left (fun v d => v * base + d) ds v), []).
Proof.
  induction ds as [|d ds IH]; intros v Hb Hds; [done|]. apply Forall_cons in Hds as [Hd Hds].
  cbn [fmap list_fmap ref_digits fold_left]. destruct (digit_char_ok d) as [-> _]; [lia|].
  rewrite (proj2 (Z.ltb_lt d base)) by lia. rewrite <- (IH (v * base + d)) by done.
  f_equal. pose proof (Z.mul_comm v base). unfold s32.
  assert (forall a b c, a = b + c * 4294967296 -> a mod 4294967296 = b mod 4294967296) as Hm.
  { intros a b c ->. apply Z_mod_plus_full. }
  f_equal. apply (Hm _ _ (- base * ((v + 2147483648) / 4294967296))).
  pose proof (Z.div_mod (v + 2147483648) 4294967296 ltac:(lia)). nia.
Qed.

Lemma ref_prefix_plain base l :
  base <> 0 -> (forall c, l !! 1%nat = Some c -> c <> 120) -> ref_prefix base l = (l, base).
Proof.
  intros Hb Hl. unfold ref_prefix. rewrite (proj2 (Z.eqb_neq base 0)) by done. cbn [orb].
  destruct l as [|c l]; [done|].
  destruct (decide (c = 48)) as [->|Hc].
  - destruct l as [|c1 l]; [done|]. specialize (Hl c1 eq_refl).
    destruct c1 as [|p|p]; try done. do 7 (destruct p as [p|p|]; try done).
  - destruct c as [|p|p]; try done. do 6 (destruct p as [p|p|]; try done).
Qed.

(** What [strtol] finds in the digits of a number, with its sign. *)
Lemma ref_strtol_digits base (neg : bool) num :
  2 <= base <= 16 -> 0 <= num < 18446744073709551616 ->
  ref_strtol ((if neg then [45] else []) ++ (digit_char <$> digits printnum_fuel base num)) base =
    (if neg then s32 (- s32 num) else s32 num, []).
Proof.
  intros Hb Hn. pose proof (digits_range printnum_fuel base num ltac:(lia)) as Hr.
  assert (2 ^ 64 <= base ^ 64) by (apply Z.pow_le_mono_l; lia).
  pose proof (digits_value_ok printnum_fuel base num ltac:(lia)) as Hv.
  specialize (Hv ltac:(split; [lia|change (Z.of_nat printnum_fuel) with 64; lia])).
  destruct (digits printnum_fuel base num) as [|d ds] eqn:E.
  { unfold printnum_fuel in E. cbn [digits] in E. by destruct (app_cons_not_nil _ _ _ (eq_sym E)). }
  pose proof (ref_digits_chars base (d :: ds) 0 ltac:(lia) Hr) as Hd.
  change (fold_left _ (d :: ds) 0) with (digits_value base (d :: ds)) in Hd.
  rewrite Hv in Hd. change (s32 0) with 0 in Hd.
  apply Forall_cons in Hr as [Hd0 Hds].
  destruct (digit_char_ok d ltac:(lia)) as (_ & _ & Hbl & H43 & H45 & _).
  assert (ref_prefix base (digit_char <$> d :: ds) = (digit_char <$> d :: ds, base)) as Hpre.
  { apply ref_prefix_plain; [lia|]. intros c Hc. rewrite list_lookup_fmap in Hc.
    change ((d :: ds) !! 1%nat) with (ds !! 0%nat) in Hc.
    destruct (ds !! 0%nat) as [d1|] eqn:E1; [|done]. injection Hc as <-.
    rewrite Forall_lookup in Hds. specialize (Hds _ _ E1).
    destruct (digit_char_ok d1 ltac:(lia)) as (_ & _ & _ & _ & _ & Hx). exact Hx. }
  set (l := digit_char <$> d :: ds) in *.
  assert (ref_sign (ref_space l) = (l, false)) as Hl.
  { unfold l. cbn [fmap list_fmap ref_space]. rewrite Hbl. cbn [ref_sign].
    by rewrite (proj2 (Z.eqb_neq _ _) H43), (proj2 (Z.eqb_neq _ _) H45). }
  clearbody l. unfold ref_strtol. destruct neg; cbn [app].
  - change (ref_sign (ref_space (45 :: l))) with (l, true). cbv beta iota.
    rewrite Hpre. cbv beta iota. by rewrite Hd.
  - rewrite Hl. cbv beta iota. rewrite Hpre. cbv beta iota. by rewrite Hd.
Qed.

(** The three conversions of a word that [strtol] inverts. *)
Definition conv_base (c : string) : option Z :=
  if (c =? "%d")%string then Some 10
  else if (c =? "%x")%string then Some 16
  else if (c =? "%o")%string then Some 8 else None.

Lemma render_num_plain base num : render_num (-1) 32 base num = digit_char <$> digits printnum_fuel base num.
Proof. unfold render_num. by replace (Z.to_nat _) with 0%nat by lia. Qed.

Lemma format_d x :
  -2147483648 <= x < 2147483648 ->
  format deref_lit (bytes_of "%d") [AInt x] =
    Some ((if x <? 0 then [45] else []) ++ render_num (-1) 32 10 (Z.abs x)).
Proof.
  intros Hx. lazy -[render_num s32 Z.opp Z.abs app]. rewrite s32_small by lia.
  destruct x; by rewrite app_nil_r.
Qed.

Lemma format_x x :
  format deref_lit (bytes_of "%x") [AInt x] = Some (render_num (-1) 32 16 (u32 x)).
Proof. lazy -[render_num u32 app]. by rewrite app_nil_r. Qed.

Lemma format_o x :
  format deref_lit (bytes_of "%o") [AInt x] = Some (render_num (-1) 32 8 (u32 x)).
Proof. lazy -[render_num u32 app]. by rewrite app_nil_r. Qed.

Lemma format_conv c base x :
  conv_base c = Some base -> -2147483648 <= x < 2147483648 ->
  let neg := (base =? 10) && (x <? 0) in
  let num := if base =? 10 then Z.abs x else u32 x in
  8 <= base <= 16 /\ (exists c1, bytes_of c = [37; c1] /\ 0 < c1 < 256) /\
  format deref_lit (bytes_of c) [AInt x] =
    Some ((if neg then [45] else []) ++ (digit_char <$> digits printnum_fuel base num)).
Proof.
  intros Hc Hx neg num. rewrite <- render_num_plain. unfold neg, num, conv_base in *.
  destruct (String.eqb_spec c "%d") as [->|].
  { injection Hc as <-. split_and!; [lia..|by exists 100|by rewrite format_d]. }
  destruct (String.eqb_spec c "%x") as [->|].
  { injection Hc as <-. split_and!; [lia..|by exists 120|by rewrite format_x]. }
  destruct (String.eqb_spec c "%o") as [->|]; [|done].
  injection Hc as <-. split_and!; [lia..|by exists 111|by rewrite format_o].
Qed.

Lemma digits_nonempty fuel base num : (0 < fuel)%nat -> (0 < length (digits fuel base num))%nat.
Proof. destruct fuel; [lia|]. cbn [digits]. rewrite length_app. cbn [length]. lia. Qed.

(** The text of a 32-bit number: short, and made of plain characters. *)
Lemma conv_text base (neg : bool) num :
  8 <= base <= 16 -> 0 <= num <= 4294967295 -> (neg = true -> base = 10 /\ num <= 2147483648) ->
  let out := (if neg then [45] else []) ++ (digit_char <$> digits printnum_fuel base num) in
  0 < Z.of_nat (length out) <= 11 /\ Forall (fun c => 0 < c < 256) out /\ u8 <$> out = out.
Proof.
  intros Hb Hnum Hneg out.
  assert (Forall (fun c => 0 < c < 256) out) as Hout.
  { unfold out. apply Forall_app. split; [destruct neg; by repeat constructor|].
    apply Forall_fmap. eapply Forall_impl; [apply digits_range; lia|]. intros d Hd.
    cbv beta in Hd. destruct (digit_char_ok d ltac:(lia)) as (_ & Hc & _).
    change (0 < digit_char d < 256). lia. }
  split_and!; [| |exact Hout|].
  - unfold out. rewrite length_app, length_fmap.
    pose proof (digits_nonempty printnum_fuel base num ltac:(unfold printnum_fuel; lia)). lia.
  - unfold out. rewrite length_app, length_fmap. destruct neg; cbn [length].
    + destruct Hneg as [-> Hn]; [done|].
      pose proof (digits_short printnum_fuel 10 num 10 ltac:(lia) ltac:(lia) ltac:(lia)). lia.
    + assert (8 ^ 11 <= base ^ 11) by (apply Z.pow_le_mono_l; lia).
      pose proof (digits_short printnum_fuel base num 11 ltac:(lia) ltac:(lia)
        ltac:(change (Z.of_nat 11) with 11; cut (8 ^ 11 = 8589934592); [lia|done])). lia.
  - rewrite <- (list_fmap_id out) at 2. apply list_fmap_ext. intros i d Hd.
    rewrite Forall_lookup in Hout. specialize (Hout i d Hd). simpl. apply u8_small. lia.
Qed.

(** C10: printing a word and reading it back gives the word: [snprintf] of any
    32-bit [x] with ["%d"], ["%x"] or ["%o"] into 13 bytes, then [strtol] of
    the buffer in the base of the conversion, returns [x] (INT_MIN included)
    and leaves the end pointer at the NUL. *)
Theorem number_roundtrip m buf c base x :
  conv_base c = Some base -> -2147483648 <= x < 2147483648 ->
  0 < buf -> mapped m buf 13 ->
  exists len m', snprintf m buf 13 (lit c) [AInt x] = Ok (len, m') /\ 0 < len <= 11 /\
    strtol m' (Addr buf) base = Ok (x, Addr (buf + len)).
Proof.
  intros Hc Hx Hbuf Hm. destruct (format_conv c base x Hc Hx) as (Hb & (c1 & Ec & Hc1) & Hf).
  set (neg := (base =? 10) && (x <? 0)) in *.
  set (num := if base =? 10 then Z.abs x else u32 x) in *.
  set (ds := digits printnum_fuel base num) in *.
  assert (0 <= num <= 4294967295 /\ (neg = true -> base = 10 /\ num <= 2147483648)) as [Hnum Hneg].
  { unfold num, neg. pose proof (u32_range x). destruct (Z.eqb_spec base 10); simpl; [lia|split; [lia|done]]. }
  destruct (conv_text base neg num Hb Hnum) as (Hlen & Hout & Hu8);
    [exact Hneg|].
  fold ds in Hlen, Hout, Hu8. set (out := (if neg then [45] else []) ++ (digit_char <$> ds)) in *.
  pose proof (vsnprintf_format m buf 13 (lit c) (bytes_of c) [AInt x] deref_lit out Hbuf ltac:(lia) Hm) as Hv.
  rewrite Hu8, take_ge in Hv by (change (Z.to_nat (13 - 1)) with 12%nat; lia).
  eexists _, _. split_and!; [|exact (proj1 Hlen)|exact (proj2 Hlen)|].
  - unfold snprintf. rewrite Hv; [done| |..|exact Hf|lia].
    + apply cstr_lit. rewrite Ec. repeat (apply Forall_cons; split; [lia|]). constructor.
    + rewrite Ec. simpl. lia.
    + apply deref_lit_ok.
  - rewrite (strtol_ref _ _ out) by (lia || (apply cstr_bytes; split; [apply bytes_write_bytes|done])).
    assert (ref_strtol out base = (if neg then s32 (- s32 num) else s32 num, [])) as ->
      by (apply ref_strtol_digits; lia).
    cbn [fst snd length padd].
    rewrite Z.sub_0_r. do 2 f_equal. unfold num, neg in *.
    clear - Hx.
    destruct (Z.eqb_spec base 10); simpl; [destruct (Z.ltb_spec x 0)|].
    + destruct (decide (x = -2147483648)) as [->|]; [done|]. rewrite (s32_small (Z.abs x)) by lia. rewrite s32_small; lia.
    + rewrite s32_small; lia.
    + clear - Hx. zlia.
Qed.

Lemma number_roundtrip_witness :
  exists len m', snprintf (write_bytes ∅ 64 (replicate 13 1)) 64 13 (lit "%d") [AInt (-2147483648)] =
      Ok (len, m') /\ 0 < len <= 11 /\
    strtol m' (Addr 64) 10 = Ok (-2147483648, Addr (64 + len)).
Proof. apply (number_roundtrip _ 64 "%d" 10); first [decided | done | lia]. Defined.

