(* ===== verification/Machine.v ===== *)
(** The machine and the kernel's global state.

    Devices are a parameter: [Ports D] is a device state [D] with the answer
    to each port access, and what the bus returns for an address no memory
    backs.  Nothing is assumed of them, except by the theorems that say so.
    [hw] is the memory, the devices and the log of all port accesses in order;
    the accessors of inc/x86.h act on it.  [kst] adds the static variables of
    kern/console.c and kern/init.c. *)
From S2P Require Import Prelude Mem.

Class Ports (D : Type) := {
  dev_in : Z -> D -> Z * D;
  dev_in16 : Z -> D -> Z * D;
  dev_in32 : Z -> D -> Z * D;
  dev_out : Z -> Z -> D -> D;
  dev_out16 : Z -> Z -> D -> D;
  dev_out32 : Z -> Z -> D -> D;
  dev_bus : D -> Z -> Z }.

(** A port access and the value transferred. *)
Inductive ioev :=
| In (port v : Z)
| In16 (port v : Z)
| In32 (port v : Z)
| Out (port v : Z)
| Out16 (port v : Z)
| Out32 (port v : Z).

#[export] Instance ioev_eq_dec : EqDecision ioev.
Proof. solve_decision. Defined.

Record hw (D : Type) := mkHw { h_mem : mem; h_dev : D; h_log : list ioev }.
Arguments mkHw {_} _ _ _.
Arguments h_mem {_} _.
Arguments h_dev {_} _.
Arguments h_log {_} _.

Section x86.
Context {D : Type} `{!Ports D}.
Notation H := (M (hw D)).

(** ** inc/x86.h *)

Definition inb (port : Z) : H Z := fun h =>
  let '(v, d) := dev_in port (h_dev h) in
  Ok (u8 v, mkHw (h_mem h) d (h_log h ++ [In port (u8 v)])).

Definition outb (port data : Z) : H unit := fun h =>
  Ok (tt, mkHw (h_mem h) (dev_out port (u8 data) (h_dev h)) (h_log h ++ [Out port (u8 data)])).

Definition outw (port data : Z) : H unit := fun h =>
  Ok (tt, mkHw (h_mem h) (dev_out16 port (u16 data) (h_dev h)) (h_log h ++ [Out16 port (u16 data)])).

Definition inw (port : Z) : H Z := fun h =>
  let '(v, d) := dev_in16 port (h_dev h) in
  Ok (u16 v, mkHw (h_mem h) d (h_log h ++ [In16 port (u16 v)])).

Definition inl_ (port : Z) : H Z := fun h =>
  let '(v, d) := dev_in32 port (h_dev h) in
  Ok (u32 v, mkHw (h_mem h) d (h_log h ++ [In32 port (u32 v)])).

Definition outl (port data : Z) : H unit := fun h =>
  Ok (tt, mkHw (h_mem h) (dev_out32 port (u32 data) (h_dev h)) (h_log h ++ [Out32 port (u32 data)])).

(** Operands of [size] bytes in memory. *)
Definition mem_get (size : nat) (a : Z) : H Z := reads (fun h => le_combine <$> loadn (h_mem h) (Addr a) size).
Definition mem_put (size : nat) (a v : Z) : H unit := fun h =>
  m ← storen (h_mem h) (Addr a) (le_split size v); Ok (tt, mkHw m (h_dev h) (h_log h)).

(** [cld; rep]: the instruction [step], [cnt] times, the address going up. *)
Fixpoint rep_at (step : Z -> H unit) (size : nat) (addr : Z) (cnt : nat) : H unit :=
  match cnt with
  | O => mret tt
  | S cnt' => step addr ;; rep_at step size (addr + Z.of_nat size) cnt'
  end.

Definition rep_ins (size : nat) (read : H Z) (addr cnt : Z) : H unit :=
  rep_at (fun a => v ← read; mem_put size a v) size addr (Z.to_nat (u32 cnt)).
Definition rep_outs (size : nat) (write : Z -> H unit) (addr cnt : Z) : H unit :=
  rep_at (fun a => v ← mem_get size a; write v) size addr (Z.to_nat (u32 cnt)).

Definition insb (port addr cnt : Z) : H unit := rep_ins 1 (inb port) addr cnt.
Definition insw (port addr cnt : Z) : H unit := rep_ins 2 (inw port) addr cnt.
Definition insl (port addr cnt : Z) : H unit := rep_ins 4 (inl_ port) addr cnt.
Definition outsb (port addr cnt : Z) : H unit := rep_outs 1 (outb port) addr cnt.
Definition outsw (port addr cnt : Z) : H unit := rep_outs 2 (outw port) addr cnt.
Definition outsl (port addr cnt : Z) : H unit := rep_outs 4 (outl port) addr cnt.

(** [lock; xchgl]: one step, so nothing can come between. *)
Definition xchg (addr newval : Z) : H Z :=
  result ← mem_get 4 addr; mem_put 4 addr (u32 newval) ;; mret result.

(** The registers the instruction answers are a parameter; each is stored where
    the pointer for it is not null. *)
Definition put_reg (p : ptr) (v : Z) : H unit := fun h =>
  if is_null p then Ok (tt, h)
  else m ← store32 (h_mem h) p (u32 v); Ok (tt, mkHw m (h_dev h) (h_log h)).

Definition cpuid (insn : Z -> Z * Z * Z * Z) (info : Z) (eaxp ebxp ecxp edxp : ptr) : H unit :=
  let '(eax, ebx, ecx, edx) := insn (u32 info) in
  put_reg eaxp eax ;; put_reg ebxp ebx ;; put_reg ecxp ecx ;; put_reg edxp edx.
End x86.

(** ** The kernel's static variables *)

(** kern/console.c: the display. *)
Record crt := mkCrt { addr_6845 : Z; crt_buf : Z; crt_pos : Z }.

(** kern/console.c: the input ring [cons]. *)
Record ring := mkRing { r_buf : list Z; r_rpos : Z; r_wpos : Z }.

(** [shift] is the static variable of [kbd_proc_data]; [panicstr] that of
    kern/init.c. *)
Record kst (D : Type) := mkKst {
  k_hw : hw D; k_serial_exists : bool; k_crt : crt; k_shift : Z; k_cons : ring;
  k_panicstr : ptr }.
Arguments mkKst {_} _ _ _ _ _ _.
Arguments k_hw {_} _.
Arguments k_serial_exists {_} _.
Arguments k_crt {_} _.
Arguments k_shift {_} _.
Arguments k_cons {_} _.
Arguments k_panicstr {_} _.

Section state.
Context {D : Type}.

Definition set_hw (h : hw D) (s : kst D) : kst D :=
  mkKst h (k_serial_exists s) (k_crt s) (k_shift s) (k_cons s) (k_panicstr s).
Definition set_serial (b : bool) (s : kst D) : kst D :=
  mkKst (k_hw s) b (k_crt s) (k_shift s) (k_cons s) (k_panicstr s).
Definition set_crt (c : crt) (s : kst D) : kst D :=
  mkKst (k_hw s) (k_serial_exists s) c (k_shift s) (k_cons s) (k_panicstr s).
Definition set_shift (z : Z) (s : kst D) : kst D :=
  mkKst (k_hw s) (k_serial_exists s) (k_crt s) z (k_cons s) (k_panicstr s).
Definition set_cons (r : ring) (s : kst D) : kst D :=
  mkKst (k_hw s) (k_serial_exists s) (k_crt s) (k_shift s) r (k_panicstr s).
Definition set_panicstr (p : ptr) (s : kst D) : kst D :=
  mkKst (k_hw s) (k_serial_exists s) (k_crt s) (k_shift s) (k_cons s) p.

Definition k_mem (s : kst D) : mem := h_mem (k_hw s).
Definition k_log (s : kst D) : list ioev := h_log (k_hw s).

Definition set_mem (m : mem) (s : kst D) : kst D :=
  set_hw (mkHw m (h_dev (k_hw s)) (h_log (k_hw s))) s.

(** Run an action of the machine, or a memory routine, in the kernel. *)
Definition on_hw {A} (a : M (hw D) A) : M (kst D) A := fun s =>
  r ← a (k_hw s); Ok (r.1, set_hw r.2 s).
Definition on_mem {A} (f : mem -> res (A * mem)) : M (kst D) A := fun s =>
  r ← f (k_mem s); Ok (r.1, set_mem r.2 s).
Definition store_k (f : mem -> res mem) : M (kst D) unit :=
  on_mem (fun m => m' ← f m; Ok (tt, m')).
End state.

(** * Lemmas *)

(** The state after port accesses [evs] that leave the devices in [d]. *)
Definition after_io {D} (d : D) (evs : list ioev) (s : kst D) : kst D :=
  set_hw (mkHw (k_mem s) d (k_log s ++ evs)) s.

(** An action that only accesses ports, and returns [a]. *)
Definition io_only {D A} (Q : A -> list ioev -> Prop) (m : M (kst D) A) : Prop :=
  forall s, exists a d evs, m s = Ok (a, after_io d evs s) /\ Q a evs.

Section io.
Context {D : Type} `{!Ports D}.

Lemma after_io_io d1 d2 e1 e2 (s : kst D) :
  after_io d2 e2 (after_io d1 e1 s) = after_io d2 (e1 ++ e2) s.
Proof. unfold after_io, set_hw, k_mem, k_log. simpl. by rewrite <- app_assoc. Qed.

Lemma after_io_nil (s : kst D) : after_io (h_dev (k_hw s)) [] s = s.
Proof. destruct s as [[] ? ? ? ? ?]. unfold after_io, set_hw, k_mem, k_log. simpl. by rewrite app_nil_r. Qed.

Lemma io_ret {A} (Q : A -> list ioev -> Prop) (a : A) : Q a [] -> io_only Q (mret a : M (kst D) A).
Proof using Type. intros HQ s. exists a, (h_dev (k_hw s)), []. by rewrite after_io_nil. Qed.

Lemma io_bind {A B} (Q1 : A -> list ioev -> Prop) (Q2 : B -> list ioev -> Prop)
    (m : M (kst D) A) (f : A -> M (kst D) B) :
  io_only Q1 m -> (forall a e1, Q1 a e1 -> io_only (fun b e2 => Q2 b (e1 ++ e2)) (f a)) ->
  io_only Q2 (m ≫= f).
Proof using Type.
  intros H1 H2 s. destruct (H1 s) as (a & d1 & e1 & E1 & Q1a).
  destruct (H2 a e1 Q1a (after_io d1 e1 s)) as (b & d2 & e2 & E2 & Q2b).
  exists b, d2, (e1 ++ e2). rewrite (Mbind_run _ _ _ _ _ E1), E2, after_io_io. done.
Qed.

Lemma io_weaken {A} (Q1 Q2 : A -> list ioev -> Prop) (m : M (kst D) A) :
  (forall a e, Q1 a e -> Q2 a e) -> io_only Q1 m -> io_only Q2 m.
Proof using Type. intros HQ Hm s. destruct (Hm s) as (a & d & e & E & Q1a). eauto 6. Qed.

Lemma io_inb port : io_only (fun v e => is_byte v /\ e = [In port v]) (on_hw (inb port) : M (kst D) Z).
Proof using Type.
  intros s. unfold on_hw, inb. destruct (dev_in port (h_dev (k_hw s))) as [v d].
  exists (u8 v), d, [In port (u8 v)]. split; [done|]. split; [apply u8_range|done].
Qed.

Lemma io_outb port v : io_only (fun _ e => e = [Out port (u8 v)]) (on_hw (outb port v) : M (kst D) unit).
Proof using Type.
  intros s. exists tt, (dev_out port (u8 v) (h_dev (k_hw s))), [Out port (u8 v)]. done.
Qed.

Lemma io_each_outb l :
  io_only (fun _ e => e = (fun pv => Out pv.1 (u8 pv.2)) <$> l)
    (each (fun pv => on_hw (outb pv.1 pv.2)) l : M (kst D) unit).
Proof using Type.
  induction l as [|[p v] l IH]; simpl; [by apply io_ret|].
  eapply io_bind; [apply io_outb|]. intros _ e1 ->. simpl.
  eapply io_weaken; [|exact IH]. by intros _ e ->.
Qed.
End io.

(** A loop of port accesses: [P] relates the loop's state to the accesses so
    far, and the variant [f] bounds the iterations left. *)
Section io_loop.
Context {D X A : Type} (body : X -> M (kst D) (X + A)) (f : X -> nat)
  (P : X -> list ioev -> Prop) (Q : A -> list ioev -> Prop).
Hypothesis Hbody : forall x e, P x e ->
  io_only (fun r e2 => match r with
                       | inl x' => P x' (e ++ e2) /\ (f x' < f x)%nat
                       | inr a => Q a (e ++ e2)
                       end) (body x).

Lemma io_runs n : forall x e s, (f x < n)%nat -> P x e ->
  exists k a d e2, (k <= n)%nat /\ Q a (e ++ e2) /\
    runs (fun st => r ← body st.1 st.2;
          match r with
          | (inl x', t') => Ok (inl (x', t'))
          | (inr a, t') => Ok (inr (a, t'))
          end) k (x, s) (Ok (a, after_io d e2 s)).
Proof using All.
  induction n as [|n IH]; intros x e s Hf Hx; [lia|].
  destruct (Hbody x e Hx s) as ([x'|a] & d & e1 & E & HQ).
  - destruct HQ as [HP Hlt].
    destruct (IH x' (e ++ e1) (after_io d e1 s)) as (k & a & d2 & e2 & Hk & HQ & Hr); [lia|done|].
    exists (S k), a, d2, (e1 ++ e2). split_and!; [lia|by rewrite app_assoc|].
    eapply runs_step; [cbn [fst snd]; by rewrite E|]. by rewrite after_io_io in Hr.
  - exists 1%nat, a, d, e1. split_and!; [lia|done|].
    apply runs_done. cbn [fst snd]. by rewrite E.
Qed.

Lemma io_while x : P x [] -> Z.of_nat (f x) < 2 ^ 64 -> io_only Q (whileM body x).
Proof using All.
  intros Hx Hf s. destruct (io_runs (S (f x)) x [] s) as (k & a & d & e & Hk & HQ & Hr); [lia|done|].
  exists a, d, e. split; [|done]. unfold whileM. apply (while_runs _ k); [done|lia].
Qed.
End io_loop.
