(* ===== verification/X86.v ===== *)
(** inc/x86.h: block transfers with a port, and [xchg].

    The string instructions move [cnt] operands between memory and a port, the
    address going up.  A device that gives back what it is given is a [Fifo] of
    the width of its port; a block sent to it with [outs] and read back with
    [ins] is a copy, which fixes the order of the operands, the order of their
    bytes, the step of the address and the count. *)
From S2P Require Import Prelude Mem Machine.

Inductive width := Byte | Word | Long.
Definition size_of (w : width) : nat := match w with Byte => 1 | Word => 2 | Long => 4 end.
Definition wrap (w : width) : Z -> Z := match w with Byte => u8 | Word => u16 | Long => u32 end.

Lemma wrap_id w v : 0 <= v < 256 ^ Z.of_nat (size_of w) -> wrap w v = v.
Proof. destruct w; cbn [wrap size_of]; intros Hv; [apply u8_small|apply u16_small|apply u32_small]; exact Hv. Qed.

Section x86.
Context {D : Type} `{!Ports D}.
Notation H := (M (hw D)).

Definition dev_read (w : width) : Z -> D -> Z * D :=
  match w with Byte => dev_in | Word => dev_in16 | Long => dev_in32 end.
Definition dev_write (w : width) : Z -> Z -> D -> D :=
  match w with Byte => dev_out | Word => dev_out16 | Long => dev_out32 end.

(** The routines of inc/x86.h by the width of their operands. *)
Definition in_ (w : width) : Z -> H Z := match w with Byte => inb | Word => inw | Long => inl_ end.
Definition out_ (w : width) : Z -> Z -> H unit := match w with Byte => outb | Word => outw | Long => outl end.
Definition ins (w : width) : Z -> Z -> Z -> H unit := match w with Byte => insb | Word => insw | Long => insl end.
Definition outs (w : width) : Z -> Z -> Z -> H unit := match w with Byte => outsb | Word => outsw | Long => outsl end.

Lemma ins_rep w port addr cnt :
  ins w port addr cnt =
    rep_at (fun a => v ← in_ w port; mem_put (size_of w) a v) (size_of w) addr (Z.to_nat (u32 cnt)).
Proof using Type. by destruct w. Qed.

Lemma outs_rep w port addr cnt :
  outs w port addr cnt =
    rep_at (fun a => v ← mem_get (size_of w) a; out_ w port v) (size_of w) addr (Z.to_nat (u32 cnt)).
Proof using Type. by destruct w. Qed.

(** What is queued on [port] comes back in order. *)
Class Fifo (w : width) (port : Z) (q : D -> list Z) : Prop := {
  fifo_out : forall v d, q (dev_write w port v d) = q d ++ [v];
  fifo_in : forall v vs d, q d = v :: vs ->
    exists v' d', dev_read w port d = (v', d') /\ wrap w v' = wrap w v /\ q d' = vs }.

Section fifo.
Context (w : width) (port : Z) (q : D -> list Z) `{!Fifo w port q}.
Notation sz := (size_of w).
Implicit Types vs : list Z.

Definition operands (vs : list Z) : list Z := flat_map (le_split sz) vs.
Definition operand_ok (v : Z) : Prop := 0 <= v < 256 ^ Z.of_nat sz.

Lemma length_operands vs : length (operands vs) = (sz * length vs)%nat.
Proof using Type.
  induction vs as [|v vs IH]; [by cbn; lia|]. unfold operands in *. cbn [flat_map length].
  rewrite length_app, IH, length_le_split. lia.
Qed.

Lemma mem_get_run m (d : D) l a v :
  bytes m (Addr a) (le_split sz v) -> operand_ok v -> mem_get sz a (mkHw m d l) = Ok (v, mkHw m d l).
Proof using Type.
  intros Hb Hv. unfold mem_get, reads. cbn [h_mem]. apply loadn_bytes in Hb.
  rewrite length_le_split in Hb. rewrite Hb. cbn [fmap res_fmap].
  by rewrite le_combine_split, Z.mod_small by exact Hv.
Qed.

Lemma outs_run vs : forall m d l a,
  bytes m (Addr a) (operands vs) -> Forall operand_ok vs ->
  exists d' l', rep_at (fun a => v ← mem_get sz a; out_ w port v) sz a (length vs) (mkHw m d l) =
    Ok (tt, mkHw m d' l') /\ q d' = q d ++ vs.
Proof using All.
  induction vs as [|v vs IH]; intros m d l a Hb Hv; [by exists d, l; rewrite app_nil_r|].
  apply Forall_cons in Hv as [Hv Hvs]. unfold operands in Hb. cbn [flat_map] in Hb.
  apply bytes_app in Hb as [Hb1 Hb2]. rewrite length_le_split in Hb2. cbn [padd] in Hb2.
  assert (exists l1, out_ w port v (mkHw m d l) = Ok (tt, mkHw m (dev_write w port v d) l1)) as (l1 & E1).
  { pose proof (wrap_id w v Hv) as Hw. destruct w; cbn [wrap] in Hw; eexists; cbn [out_ dev_write];
      unfold outb, outw, outl; cbn [h_mem h_dev h_log]; rewrite Hw; reflexivity. }
  destruct (IH m (dev_write w port v d) l1 (a + Z.of_nat sz) Hb2 Hvs) as (d' & l' & E & Hq).
  exists d', l'. split; [|by rewrite Hq, fifo_out, <- app_assoc].
  cbn [length rep_at]. erewrite Mbind_run by (erewrite Mbind_run by (by apply mem_get_run); exact E1). exact E.
Qed.

Lemma ins_run vs : forall m d l a,
  q d = vs -> Forall operand_ok vs -> mapped m a (Z.of_nat (sz * length vs)) ->
  exists d' l', rep_at (fun a => v ← in_ w port; mem_put sz a v) sz a (length vs) (mkHw m d l) =
    Ok (tt, mkHw (write_bytes m a (operands vs)) d' l') /\ q d' = [].
Proof using All.
  induction vs as [|v vs IH]; intros m d l a Hq Hv Hm; [by exists d, l|].
  apply Forall_cons in Hv as [Hv Hvs]. destruct (fifo_in v vs d Hq) as (v' & d1 & Ed & Hw & Hq1).
  rewrite (wrap_id w v Hv) in Hw.
  assert (exists l1, in_ w port (mkHw m d l) = Ok (v, mkHw m d1 l1)) as (l1 & E1).
  { destruct w; cbn [wrap] in Hw; eexists; cbn [in_ dev_read] in *; unfold inb, inw, inl_; cbn [h_dev];
      rewrite Ed, Hw; reflexivity. }
  assert (storen m (Addr a) (le_split sz v) = Ok (write_bytes m a (le_split sz v))) as E2.
  { apply storen_write; [|apply le_split_bytes]. rewrite length_le_split.
    eapply mapped_weaken; [exact Hm|lia|cbn [length]; lia]. }
  destruct (IH (write_bytes m a (le_split sz v)) d1 l1 (a + Z.of_nat sz) Hq1 Hvs) as (d' & l' & E & Hq').
  { apply write_bytes_mapped. eapply mapped_weaken; [exact Hm|lia|cbn [length]; lia]. }
  exists d', l'. split; [|exact Hq']. cbn [length rep_at].
  erewrite Mbind_run by (erewrite Mbind_run by exact E1; cbv beta; unfold mem_put; cbn [h_mem h_dev h_log];
    rewrite E2; reflexivity).
  cbv beta. rewrite E. unfold operands. cbn [flat_map]. by rewrite write_bytes_app, length_le_split.
Qed.
End fifo.

(** [xchg] stores the new value and returns the one it replaced. *)
Lemma xchg_run m (d : D) l a old new :
  bytes m (Addr a) (le_split 4 old) -> 0 <= old < 2 ^ 32 ->
  xchg a new (mkHw m d l : hw D) = Ok (old, mkHw (write_bytes m a (le_split 4 (u32 new))) d l).
Proof using Type.
  intros Hb Ho. unfold xchg. erewrite Mbind_run by (apply (mem_get_run Long); [exact Hb|exact Ho]). cbv beta.
  erewrite Mbind_run; [reflexivity|]. unfold mem_put. cbn [h_mem h_dev h_log].
  by rewrite storen_write by (apply le_split_bytes || exact (bytes_mapped _ _ _ Hb)).
Qed.
End x86.

(** C39: the string instructions copy: a block of [n] operands sent to an empty
    queue with [outsb], [outsw] or [outsl] and read back with [insb], [insw] or
    [insl] is at the other address, byte by byte, even when the two overlap; the
    queue is empty again. *)
Theorem string_io_copy {D} `{!Ports D} w port q `{!Fifo w port q} m d l a b vs :
  q d = [] -> Z.of_nat (length vs) < 2 ^ 32 -> Forall (operand_ok w) vs ->
  bytes m (Addr a) (operands w vs) -> mapped m b (Z.of_nat (size_of w * length vs)) ->
  exists d' l', (outs w port a (Z.of_nat (length vs)) ;; ins w port b (Z.of_nat (length vs)) : M (hw D) unit)
      (mkHw m d l) = Ok (tt, mkHw (write_bytes m b (operands w vs)) d' l') /\ q d' = [].
Proof.
  intros Hq Hn Hv Hb Hm. rewrite outs_rep, ins_rep, u32_small, Nat2Z.id by (change (2 ^ 32) with 4294967296 in Hn; lia).
  destruct (outs_run w port q vs m d l a Hb Hv) as (d1 & l1 & E1 & Hq1). rewrite Hq in Hq1.
  destruct (ins_run w port q vs m d1 l1 b Hq1 Hv Hm) as (d2 & l2 & E2 & Hq2).
  exists d2, l2. split; [|exact Hq2]. erewrite Mbind_run by exact E1. exact E2.
Qed.

(** A queue on every port. *)
#[local] Instance queue_ports : Ports (list Z) := {|
  dev_in := fun _ d => (hd 0 d, tl d); dev_in16 := fun _ d => (hd 0 d, tl d); dev_in32 := fun _ d => (hd 0 d, tl d);
  dev_out := fun _ v d => d ++ [v]; dev_out16 := fun _ v d => d ++ [v]; dev_out32 := fun _ v d => d ++ [v];
  dev_bus := fun _ _ => 0 |}.

#[local] Instance queue_fifo w port : Fifo w port (fun d : list Z => d).
Proof.
  split.
  - by intros v d; destruct w.
  - intros v vs d ->. exists v, vs. by destruct w.
Qed.

(** Two words, copied one byte up. *)
Lemma string_io_copy_witness :
  exists d' l', (outs Word 0x1F0 0x1000 2 ;; ins Word 0x1F0 0x1001 2 : M (hw (list Z)) unit)
      (mkHw (write_bytes ∅ 0x1000 [1; 2; 3; 4; 5]) [] []) =
    Ok (tt, mkHw (write_bytes (write_bytes ∅ 0x1000 [1; 2; 3; 4; 5]) 0x1001 [1; 2; 3; 4]) d' l') /\ d' = [].
Proof.
  apply (string_io_copy Word 0x1F0 (fun d : list Z => d) (write_bytes ∅ 0x1000 [1; 2; 3; 4; 5]) [] [] 0x1000 0x1001 [513; 1027]);
    [done|done| |by apply (bytes_app _ _ [1; 2; 3; 4] [5]), bytes_write_bytes|decided].
  repeat (apply Forall_cons; split; [decided|]). constructor.
Defined.
