(* ===== verification/Cpu.v ===== *)
(** The processor, and the privileged instructions of inc/x86.h.

    [cpu] is the state an i386 adds to the machine [hw]: registers, the hidden
    parts of the segment registers, control registers, descriptor tables and the
    translations it has cached.  An address goes through a segment ([linear]),
    the page tables or the cache ([look]), and the address lines ([bus]), of
    which line 20 is held low until the keyboard controller lets it go.  All code
    runs at privilege level 0, so privilege is never checked; the accessed bits the
    processor sets in descriptors and page table entries are not modelled. *)
From stdpp Require Import functions.
From S2P Require Import Prelude Mem Mmu Flags Entrypgdir Machine.

Inductive reg := EAX | ECX | EDX | EBX | ESP | EBP | ESI | EDI.
Inductive sreg := CS | DS | ES | FS | GS | SS.
Inductive creg := CR0 | CR2 | CR3 | CR4.
Inductive dtab := GDT | IDT.
Inductive sysreg := LDTR | TR.

#[export] Instance reg_eq_dec : EqDecision reg.
Proof. solve_decision. Defined.
#[export] Instance sreg_eq_dec : EqDecision sreg.
Proof. solve_decision. Defined.
#[export] Instance creg_eq_dec : EqDecision creg.
Proof. solve_decision. Defined.
#[export] Instance dtab_eq_dec : EqDecision dtab.
Proof. solve_decision. Defined.
#[export] Instance sysreg_eq_dec : EqDecision sysreg.
Proof. solve_decision. Defined.

(** A segment register: the selector, and what was read from its descriptor. *)
Record seg := mkSeg { sg_sel : Z; sg_base : Z; sg_limit : Z; sg_type : Z; sg_db : bool }.

(** A descriptor table register. *)
Record dtr := mkDtr { dt_limit : Z; dt_base : Z }.

(** [c_tlb] has the cached translations: a page number, the address of its
    frame, and whether it may be written. *)
Record cpu := mkCpu {
  c_reg : reg -> Z; c_eip : Z; c_eflags : Z; c_seg : sreg -> seg; c_cr : creg -> Z;
  c_dt : dtab -> dtr; c_sys : sysreg -> Z; c_tlb : gmap Z (Z * bool) }.

Definition set_reg (r : reg) (v : Z) (c : cpu) : cpu :=
  mkCpu (<[r := v]> (c_reg c)) (c_eip c) (c_eflags c) (c_seg c) (c_cr c) (c_dt c) (c_sys c) (c_tlb c).
Definition set_eip (v : Z) (c : cpu) : cpu :=
  mkCpu (c_reg c) v (c_eflags c) (c_seg c) (c_cr c) (c_dt c) (c_sys c) (c_tlb c).
Definition set_eflags (v : Z) (c : cpu) : cpu :=
  mkCpu (c_reg c) (c_eip c) v (c_seg c) (c_cr c) (c_dt c) (c_sys c) (c_tlb c).
Definition set_seg (r : sreg) (g : seg) (c : cpu) : cpu :=
  mkCpu (c_reg c) (c_eip c) (c_eflags c) (<[r := g]> (c_seg c)) (c_cr c) (c_dt c) (c_sys c) (c_tlb c).
Definition set_cr (r : creg) (v : Z) (c : cpu) : cpu :=
  mkCpu (c_reg c) (c_eip c) (c_eflags c) (c_seg c) (<[r := v]> (c_cr c)) (c_dt c) (c_sys c) (c_tlb c).
Definition set_dt (t : dtab) (v : dtr) (c : cpu) : cpu :=
  mkCpu (c_reg c) (c_eip c) (c_eflags c) (c_seg c) (c_cr c) (<[t := v]> (c_dt c)) (c_sys c) (c_tlb c).
Definition set_sys (r : sysreg) (v : Z) (c : cpu) : cpu :=
  mkCpu (c_reg c) (c_eip c) (c_eflags c) (c_seg c) (c_cr c) (c_dt c) (<[r := v]> (c_sys c)) (c_tlb c).
Definition set_tlb (t : gmap Z (Z * bool)) (c : cpu) : cpu :=
  mkCpu (c_reg c) (c_eip c) (c_eflags c) (c_seg c) (c_cr c) (c_dt c) (c_sys c) t.

(** The whole machine. *)
Record pc (D : Type) := mkPc { p_cpu : cpu; p_hw : hw D }.
Arguments mkPc {_} _ _.
Arguments p_cpu {_} _.
Arguments p_hw {_} _.

(** What the processor sees of the board: address line 20, which the keyboard
    controller drives, and the time stamp counter. *)
Class Board (D : Type) := { a20 : D -> bool; tsc : D -> Z }.

Definition CR0_PE : Z := Eval vm_compute in flag cr0_flags "CR0_PE".
Definition CR0_WP : Z := Eval vm_compute in flag cr0_flags "CR0_WP".
Definition CR0_PG : Z := Eval vm_compute in flag cr0_flags "CR0_PG".
Definition CR4_PSE : Z := Eval vm_compute in flag cr4_flags "CR4_PSE".
Definition FL_IF : Z := Eval vm_compute in flag eflags "FL_IF".
Definition FL_DF : Z := Eval vm_compute in flag eflags "FL_DF".
Definition FL_ZF : Z := Eval vm_compute in flag eflags "FL_ZF".

Definition protected (c : cpu) : bool := has_flag (c_cr c CR0) CR0_PE.
Definition paging (c : cpu) : bool := has_flag (c_cr c CR0) CR0_PG.
Definition write_protect (c : cpu) : bool := has_flag (c_cr c CR0) CR0_WP.

Section cpu.
Context {D : Type} `{!Ports D} `{!Board D}.
Notation K := (M (pc D)).

Definition p_mem (s : pc D) : mem := h_mem (p_hw s).
Definition p_dev (s : pc D) : D := h_dev (p_hw s).
Definition with_cpu (c : cpu) (s : pc D) : pc D := mkPc c (p_hw s).
Definition with_mem (m : mem) (s : pc D) : pc D :=
  mkPc (p_cpu s) (mkHw m (h_dev (p_hw s)) (h_log (p_hw s))).

Definition on_cpu (f : cpu -> cpu) : K unit := modify (fun s => with_cpu (f (p_cpu s)) s).
Definition the {A} (f : cpu -> A) : K A := gets (fun s => f (p_cpu s)).

(** An exception: there are no handlers, so the processor resets. *)
Definition fault {A} : K A := fun _ => Err Fault.

(** An instruction that accesses a port. *)
Definition on_io {A} (a : M (hw D) A) : K A := fun s =>
  r ← a (p_hw s); Ok (r.1, mkPc (p_cpu s) r.2).

(** ** Addresses *)

(** Code segments cannot be written. *)
Definition writable (g : seg) : bool := negb (has_flag (sg_type g) 8) && has_flag (sg_type g) 2.

(** [n] bytes at [off] in a segment. *)
Definition linear (c : cpu) (r : sreg) (w : bool) (off n : Z) : res Z :=
  let g := c_seg c r in
  if (off + n - 1 <=? sg_limit g) && (negb w || writable g) then Ok (u32 (sg_base g + off))
  else Err Fault.

Definition bus (d : D) (a : Z) : Z := if a20 d then a else Z.clearbit a 20.

(** A translation: the cached one if there is one. *)
Definition look (s : pc D) (la : Z) : option (Z * bool) :=
  match c_tlb (p_cpu s) !! PGNUM la with
  | Some (frame, w) => Some (frame + PGOFF la, w)
  | None => page_walk (p_mem s) (PTE_ADDR (c_cr (p_cpu s) CR3)) la
  end.

(** The physical address of a linear one.  Paging with address line 20 low is
    left without meaning, since the walk would read the tables elsewhere. *)
Definition physical (s : pc D) (w : bool) (la : Z) : res Z :=
  if paging (p_cpu s) then
    if a20 (p_dev s) then
      e ← of_option (look s la);
      if w && write_protect (p_cpu s) && negb e.2 then Err Fault else Ok e.1
    else Err Fault
  else Ok (bus (p_dev s) la).

Fixpoint physicals (s : pc D) (w : bool) (la : Z) (n : nat) : res (list Z) :=
  match n with
  | O => Ok []
  | S n' => pa ← physical s w la; l ← physicals s w (u32 (la + 1)) n'; Ok (pa :: l)
  end.

Fixpoint load_each (m : mem) (pas : list Z) : res (list Z) :=
  match pas with
  | [] => Ok []
  | pa :: pas' => b ← load8 m (Addr pa); l ← load_each m pas'; Ok (b :: l)
  end.

Fixpoint store_each (m : mem) (pas vs : list Z) : res mem :=
  match pas, vs with
  | pa :: pas', v :: vs' => m' ← store8 m (Addr pa) v; store_each m' pas' vs'
  | _, _ => Ok m
  end.

(** Memory at a linear address: every byte is translated before any is
    stored. *)
Definition lin_read (n : nat) (la : Z) : K (list Z) := reads (fun s =>
  pas ← physicals s false la n; load_each (p_mem s) pas).
Definition lin_write (la : Z) (vs : list Z) : K unit := fun s =>
  pas ← physicals s true la (length vs); m ← store_each (p_mem s) pas vs; Ok (tt, with_mem m s).

Definition mem_read (r : sreg) (n : nat) (off : Z) : K (list Z) :=
  la ← reads (fun s => linear (p_cpu s) r false off (Z.of_nat n)); lin_read n la.
Definition mem_write (r : sreg) (off : Z) (vs : list Z) : K unit :=
  la ← reads (fun s => linear (p_cpu s) r true off (Z.of_nat (length vs))); lin_write la vs.

(** The stack. *)
Definition push32 (v : Z) : K unit :=
  esp ← the (fun c => c_reg c ESP);
  mem_write SS (u32 (esp - 4)) (le_split 4 v) ;;
  on_cpu (set_reg ESP (u32 (esp - 4))).
Definition pop32 : K Z :=
  esp ← the (fun c => c_reg c ESP);
  bs ← mem_read SS 4 esp;
  on_cpu (set_reg ESP (u32 (esp + 4))) ;;
  mret (le_combine bs).

(** ** Segment registers *)

(** [n] bits of a descriptor, from bit [lo] on. *)
Definition bits (v lo n : Z) : Z := Z.land (Z.shiftr v lo) (Z.ones n).

Definition desc_base (v : Z) : Z := bits v 16 24 + Z.shiftl (bits v 56 8) 24.
Definition desc_limit (v : Z) : Z :=
  let l := bits v 0 16 + Z.shiftl (bits v 48 4) 16 in
  if Z.testbit v 55 then l * 4096 + 4095 else l.
Definition desc_seg (sel v : Z) : seg :=
  mkSeg sel (desc_base v) (desc_limit v) (bits v 40 4) (Z.testbit v 54).

(** Which segments a register takes: code for [CS], writable data for [SS], what
    can be read for the others. *)
Definition fits (r : sreg) (ty : Z) : bool :=
  match r with
  | CS => has_flag ty 8
  | SS => negb (has_flag ty 8) && has_flag ty 2
  | _ => negb (has_flag ty 8) || has_flag ty 2
  end.

(** The descriptor a selector names in the GDT; there is no local table. *)
Definition descriptor (sel : Z) : K Z :=
  t ← the (fun c => c_dt c GDT);
  let idx := Z.land sel 0xFFF8 in
  if has_flag sel 4 || (dt_limit t <? idx + 7) then fault
  else bs ← lin_read 8 (u32 (dt_base t + idx)); mret (le_combine bs).

Definition load_seg (r : sreg) (sel : Z) : K unit :=
  pe ← the protected;
  old ← the (fun c => c_seg c r);
  if negb pe then on_cpu (set_seg r (mkSeg sel (16 * sel) (sg_limit old) (sg_type old) (sg_db old)))
  else if Z.land sel 0xFFFC =? 0 then
    match r with
    | CS | SS => fault
    | _ => on_cpu (set_seg r (mkSeg sel 0 (-1) 0 false))
    end
  else
    v ← descriptor sel;
    if Z.testbit v 47 && Z.testbit v 44 && fits r (bits v 40 4) then on_cpu (set_seg r (desc_seg sel v))
    else fault.

(** ** inc/x86.h *)

Definition invlpg (addr : Z) : K unit := on_cpu (fun c => set_tlb (delete (PGNUM addr) (c_tlb c)) c).

(** The pseudo-descriptor at [p]; 16-bit code takes 24 bits of the base. *)
Definition load_dt (t : dtab) (p : Z) : K unit :=
  bs ← mem_read DS 6 p;
  wide ← the (fun c => sg_db (c_seg c CS));
  let base := le_combine (drop 2 bs) in
  on_cpu (set_dt t (mkDtr (le_combine (take 2 bs)) (if (wide : bool) then base else base mod 16777216))).
Definition lidt (p : Z) : K unit := load_dt IDT p.
Definition lgdt (p : Z) : K unit := load_dt GDT p.

(** The descriptor of a local table or a task is a present system descriptor. *)
Definition lldt (sel : Z) : K unit :=
  let sel := u16 sel in
  if Z.land sel 0xFFFC =? 0 then on_cpu (set_sys LDTR sel)
  else
    v ← descriptor sel;
    if Z.testbit v 47 && negb (Z.testbit v 44) && (bits v 40 4 =? flag sys_types "STS_LDT")
    then on_cpu (set_sys LDTR sel) else fault.

(** The task is marked busy in the table. *)
Definition ltr (sel : Z) : K unit :=
  let sel := u16 sel in
  if Z.land sel 0xFFFC =? 0 then fault
  else
    v ← descriptor sel;
    if Z.testbit v 47 && negb (Z.testbit v 44) && (bits v 40 4 =? flag sys_types "STS_T32A")
    then
      t ← the (fun c => c_dt c GDT);
      lin_write (u32 (dt_base t + Z.land sel 0xFFF8 + 5)) [Z.lor (bits v 40 8) 2] ;;
      on_cpu (set_sys TR sel)
    else fault.

(** Paging needs protected mode; turning it on or off empties the cache. *)
Definition lcr0 (val : Z) : K unit :=
  pg ← the paging;
  let val := u32 val in
  if has_flag val CR0_PG && negb (has_flag val CR0_PE) then fault
  else
    on_cpu (set_cr CR0 val) ;;
    if Bool.eqb pg (has_flag val CR0_PG) then mret tt else on_cpu (set_tlb ∅).
Definition rcr0 : K Z := the (fun c => c_cr c CR0).
Definition rcr2 : K Z := the (fun c => c_cr c CR2).
Definition lcr3 (val : Z) : K unit := on_cpu (fun c => set_tlb ∅ (set_cr CR3 (u32 val) c)).
Definition rcr3 : K Z := the (fun c => c_cr c CR3).
Definition lcr4 (val : Z) : K unit :=
  old ← the (fun c => c_cr c CR4);
  on_cpu (set_cr CR4 (u32 val)) ;;
  if Bool.eqb (has_flag old CR4_PSE) (has_flag (u32 val) CR4_PSE) then mret tt else on_cpu (set_tlb ∅).
Definition rcr4 : K Z := the (fun c => c_cr c CR4).

Definition tlbflush : K unit := cr3 ← rcr3; lcr3 cr3.

(** [pushfl] stores the flags without RF and VM. *)
Definition FL_HIDDEN : Z := Eval vm_compute in Z.lor (flag eflags "FL_RF") (flag eflags "FL_VM").

(** What [popfl] can change: all flags but these and the virtual interrupt
    flags. *)
Definition FL_POPPED : Z := Eval vm_compute in
  foldr Z.lor 0 (flag eflags <$> ["FL_CF"; "FL_PF"; "FL_AF"; "FL_ZF"; "FL_SF"; "FL_TF"; "FL_IF"; "FL_DF";
    "FL_OF"; "FL_IOPL_MASK"; "FL_NT"; "FL_AC"; "FL_ID"]%string).

Definition pushfl : K unit := fl ← the c_eflags; push32 (Z.ldiff fl FL_HIDDEN).
Definition popfl : K unit :=
  v ← pop32;
  on_cpu (fun c => set_eflags (Z.lor (Z.ldiff (Z.ldiff (c_eflags c) FL_POPPED) (flag eflags "FL_RF")) (Z.land v FL_POPPED)) c).

Definition read_eflags : K Z := pushfl ;; pop32.
Definition write_eflags (eflags : Z) : K unit := push32 (u32 eflags) ;; popfl.

Definition read_ebp : K Z := the (fun c => c_reg c EBP).
Definition read_esp : K Z := the (fun c => c_reg c ESP).

Definition read_tsc : K Z := gets (fun s => u64 (tsc (p_dev s))).
End cpu.

(** * Lemmas *)

Section lemmas.
Context {D : Type} `{!Ports D} `{!Board D}.
Notation K := (M (pc D)).
Implicit Types s : pc D.

(** The [n] bytes from [la] on are at the physical addresses from [pa] on. *)
Definition maps s (w : bool) (la n pa : Z) : Prop :=
  forall i, 0 <= i < n -> physical s w (la + i) = Ok (pa + i).

Lemma maps_part s w la n pa k n' : maps s w la n pa -> 0 <= k -> k + n' <= n -> maps s w (la + k) n' (pa + k).
Proof using Type. intros H Hk Hn i Hi. rewrite <- !Z.add_assoc. apply H. lia. Qed.

Lemma physicals_run s w n : forall la pa,
  maps s w la (Z.of_nat n) pa -> 0 <= la -> la + Z.of_nat n <= 2 ^ 32 -> physicals s w la n = Ok (seqZ pa (Z.of_nat n)).
Proof using Type.
  induction n as [|n IH]; intros la pa H H0 Hl; [done|]. change (2 ^ 32) with 4294967296 in *.
  rewrite seqZ_cons by lia. cbn [physicals].
  pose proof (H 0 ltac:(lia)) as E. rewrite !Z.add_0_r in E. rewrite E. red_bind.
  destruct n as [|n]; [done|]. rewrite u32_small by lia.
  rewrite (IH (la + 1) (pa + 1)); [red_bind; do 3 f_equal; lia| |lia|lia].
  apply (maps_part _ _ _ _ _ 1) with (1 := H); lia.
Qed.

Lemma load_each_seq m n : forall pa, load_each m (seqZ pa (Z.of_nat n)) = loadn m (Addr pa) n.
Proof using Type.
  induction n as [|n IH]; intros pa; [done|]. rewrite seqZ_cons by lia. cbn [load_each loadn].
  replace (Z.pred (Z.of_nat (S n))) with (Z.of_nat n) by lia. by rewrite IH.
Qed.

Lemma store_each_seq vs : forall m pa, store_each m (seqZ pa (Z.of_nat (length vs))) vs = storen m (Addr pa) vs.
Proof using Type.
  induction vs as [|v vs IH]; intros m pa; [done|]. cbn [length]. rewrite seqZ_cons by lia. cbn [store_each storen].
  destruct (store8 m (Addr pa) v) as [m'|]; red_bind; [|done].
  replace (Z.pred (Z.of_nat (S (length vs)))) with (Z.of_nat (length vs)) by lia. by rewrite IH.
Qed.

Lemma lin_read_run s la pa bs :
  maps s false la (Z.of_nat (length bs)) pa -> 0 <= la -> la + Z.of_nat (length bs) <= 2 ^ 32 ->
  bytes (p_mem s) (Addr pa) bs -> lin_read (length bs) la s = Ok (bs, s).
Proof using Type.
  intros H H0 Hl Hb. unfold lin_read, reads. rewrite (physicals_run _ _ _ _ _ H H0 Hl). red_bind.
  by rewrite load_each_seq, (loadn_bytes _ _ _ Hb).
Qed.

Lemma lin_write_run s la pa vs :
  maps s true la (Z.of_nat (length vs)) pa -> 0 <= la -> la + Z.of_nat (length vs) <= 2 ^ 32 ->
  mapped (p_mem s) pa (Z.of_nat (length vs)) -> Forall is_byte vs ->
  lin_write la vs s = Ok (tt, with_mem (write_bytes (p_mem s) pa vs) s).
Proof using Type.
  intros H H0 Hl Hm Hv. unfold lin_write. rewrite (physicals_run _ _ _ _ _ H H0 Hl). red_bind.
  by rewrite store_each_seq, storen_write.
Qed.

(** A flat segment that holds the addresses below [2^32], or at least the [n]
    at [off]. *)
Lemma linear_flat c r w o n :
  sg_base (c_seg c r) = 0 -> o + n - 1 <= sg_limit (c_seg c r) -> (w = true -> writable (c_seg c r) = true) ->
  0 <= o < 2 ^ 32 -> linear c r w o n = Ok o.
Proof using Type.
  intros Hb Hl Hw Ho. unfold linear. rewrite (proj2 (Z.leb_le _ _) Hl), Hb, Z.add_0_l, u32_small by exact Ho.
  destruct w; [by rewrite Hw|done].
Qed.

Lemma mem_read_flat s r o pa bs :
  sg_base (c_seg (p_cpu s) r) = 0 -> o + Z.of_nat (length bs) - 1 <= sg_limit (c_seg (p_cpu s) r) ->
  0 <= o < 2 ^ 32 -> o + Z.of_nat (length bs) <= 2 ^ 32 ->
  maps s false o (Z.of_nat (length bs)) pa -> bytes (p_mem s) (Addr pa) bs ->
  mem_read r (length bs) o s = Ok (bs, s).
Proof using Type.
  intros Hb Hl Ho Hn Hm Hbs. unfold mem_read.
  erewrite Mbind_run by (unfold reads; rewrite linear_flat by (assumption || discriminate); reflexivity).
  cbv beta. by apply lin_read_run with (pa := pa); try lia.
Qed.

Lemma mem_write_flat s r o pa vs :
  sg_base (c_seg (p_cpu s) r) = 0 -> o + Z.of_nat (length vs) - 1 <= sg_limit (c_seg (p_cpu s) r) ->
  writable (c_seg (p_cpu s) r) = true -> 0 <= o < 2 ^ 32 -> o + Z.of_nat (length vs) <= 2 ^ 32 ->
  maps s true o (Z.of_nat (length vs)) pa -> mapped (p_mem s) pa (Z.of_nat (length vs)) -> Forall is_byte vs ->
  mem_write r o vs s = Ok (tt, with_mem (write_bytes (p_mem s) pa vs) s).
Proof using Type.
  intros Hb Hl Hw Ho Hn Hm Hmap Hv. unfold mem_write.
  erewrite Mbind_run by (unfold reads; rewrite linear_flat by (assumption || done); reflexivity).
  cbv beta. by apply lin_write_run; try lia.
Qed.

(** A push on a flat stack. *)
Lemma push32_flat s v pa :
  sg_base (c_seg (p_cpu s) SS) = 0 -> c_reg (p_cpu s) ESP - 1 <= sg_limit (c_seg (p_cpu s) SS) ->
  writable (c_seg (p_cpu s) SS) = true -> 4 <= c_reg (p_cpu s) ESP < 2 ^ 32 ->
  maps s true (c_reg (p_cpu s) ESP - 4) 4 pa -> mapped (p_mem s) pa 4 ->
  push32 v s = Ok (tt, mkPc (set_reg ESP (c_reg (p_cpu s) ESP - 4) (p_cpu s))
    (mkHw (write_bytes (p_mem s) pa (le_split 4 v)) (p_dev s) (h_log (p_hw s)))).
Proof using Type.
  intros Hb Hl Hw He Hm Hmap. unfold push32. change (2 ^ 32) with 4294967296 in *. set (esp := c_reg (p_cpu s) ESP) in *.
  unfold the. rewrite gets_bind, u32_small by lia.
  erewrite Mbind_run by (apply (mem_write_flat s SS (esp - 4) pa); rewrite ?length_le_split;
    (exact Hb || exact Hw || exact Hm || exact Hmap || apply le_split_bytes || change (2 ^ 32) with 4294967296; lia)).
  reflexivity.
Qed.

(** Segment registers: in real mode the base is 16 times the selector; in
    protected mode the descriptor is read from the GDT. *)
Lemma load_seg_real s r sel :
  protected (p_cpu s) = false ->
  load_seg r sel s = Ok (tt, with_cpu (set_seg r (mkSeg sel (16 * sel) (sg_limit (c_seg (p_cpu s) r))
    (sg_type (c_seg (p_cpu s) r)) (sg_db (c_seg (p_cpu s) r))) (p_cpu s)) s).
Proof using Type. intros Hp. unfold load_seg, the. by rewrite !gets_bind, Hp. Qed.

Lemma load_seg_table s r sel bs :
  let base := dt_base (c_dt (p_cpu s) GDT) in let idx := Z.land sel 0xFFF8 in let v := le_combine bs in
  protected (p_cpu s) = true -> length bs = 8%nat ->
  has_flag sel 4 = false -> Z.land sel 0xFFFC <> 0 -> idx + 7 <= dt_limit (c_dt (p_cpu s) GDT) ->
  0 <= base + idx -> base + idx + 8 <= 2 ^ 32 -> maps s false (base + idx) 8 (base + idx) ->
  bytes (p_mem s) (Addr (base + idx)) bs ->
  Z.testbit v 47 && Z.testbit v 44 && fits r (bits v 40 4) = true ->
  load_seg r sel s = Ok (tt, with_cpu (set_seg r (desc_seg sel v) (p_cpu s)) s).
Proof using Type.
  intros base idx v Hp H8 Hti Hnz Hl H0 Hb Hm Hbs Hfit. unfold load_seg, the. rewrite !gets_bind, Hp.
  cbn [negb]. rewrite (proj2 (Z.eqb_neq _ _) Hnz). change (2 ^ 32) with 4294967296 in *.
  erewrite Mbind_run; [|unfold descriptor, the; rewrite gets_bind, Hti; fold base idx;
    rewrite (proj2 (Z.ltb_ge _ _) Hl); cbn [orb]; rewrite u32_small by lia; rewrite <- H8;
    erewrite Mbind_run by (apply (lin_read_run s (base + idx) (base + idx)); rewrite ?H8; (assumption || lia)); reflexivity].
  cbv beta. fold v. by rewrite Hfit.
Qed.
End lemmas.
