(* ===== verification/Asm.v ===== *)
(** Assembly programs: the instructions boot/boot.S and kern/entry.S use, and
    how the processor runs them.

    A program is the list of its lines.  The assembler and the linker are
    parameters: the length in bytes of each instruction, the address the program
    is linked at, the physical address it is loaded at, and the addresses of the
    symbols it imports.  [step] fetches the instruction at the program counter,
    through the code segment and the page tables, and executes it; code assembled
    for 16 bits only runs in a 16-bit segment.  A [call] leaves the program for a
    C function. *)
From stdpp Require Import functions relations.
From S2P Require Import Prelude Mem Mmu Flags Entrypgdir Machine X86 Cpu.

(** A number, or a symbol and a number to add to its address. *)
Inductive expr := Num (v : Z) | Sym (x : string) (k : Z).

(** Operands in the order of the source: from, to. *)
Inductive instr :=
| Cli | Cld
| Xor (w : width) (src dst : reg)
| OrI (w : width) (e : expr) (r : reg)
| TestI (w : width) (e : expr) (r : reg)
| MovI (w : width) (e : expr) (r : reg)
| MovIM (w : width) (e a : expr)
| MovRS (r : reg) (s : sreg)
| MovRC (r : reg) (c : creg)
| MovCR (c : creg) (r : reg)
| InB (port : Z) (r : reg)
| OutB (r : reg) (port : Z)
| Lgdt (a : expr)
| Jnz (l : string)
| Jmp (l : string)
| JmpR (r : reg)
| Ljmp (sel : Z) (l : string)
| Call (f : string).

Inductive line := Label (l : string) | Code16 | Code32 | I (i : instr).

(** The instructions, each with the mode it is assembled for. *)
Fixpoint instrs (wide : bool) (p : list line) : list (bool * instr) :=
  match p with
  | [] => []
  | Label _ :: p' => instrs wide p'
  | Code16 :: p' => instrs false p'
  | Code32 :: p' => instrs true p'
  | I i :: p' => (wide, i) :: instrs wide p'
  end.

(** The instruction a label stands before. *)
Fixpoint label_at (x : string) (p : list line) : option nat :=
  match p with
  | [] => None
  | Label l :: p' => if decide (l = x) then Some O else label_at x p'
  | I _ :: p' => S <$> label_at x p'
  | _ :: p' => label_at x p'
  end.

(** Where execution goes on. *)
Inductive ctl :=
| Next
| Near (target : Z)
| Abs (target : Z)
| Far (sel target : Z)
| Enter (f : string).

Definition set_flag (f : Z) (b : bool) (fl : Z) : Z := if b then Z.lor fl f else Z.ldiff fl f.

(** An even number of ones among the low eight bits. *)
Definition parity (v : Z) : bool := Z.even (foldr Z.add 0 ((fun i => Z.b2z (Z.testbit v i)) <$> seqZ 0 8)).

(** The flags after a logical operation with the result [v]. *)
Definition logic_flags (w : width) (v fl : Z) : Z :=
  set_flag (flag eflags "FL_CF") false (set_flag (flag eflags "FL_OF") false
    (set_flag FL_ZF (v =? 0) (set_flag (flag eflags "FL_SF") (Z.testbit v (8 * Z.of_nat (size_of w) - 1))
      (set_flag (flag eflags "FL_PF") (parity v) fl)))).

(** A register of [w] bytes is the low part of the full one. *)
Definition reg_get (w : width) (r : reg) (c : cpu) : Z := wrap w (c_reg c r).
Definition reg_put (w : width) (r : reg) (v : Z) (c : cpu) : cpu :=
  set_reg r (match w with Long => u32 v | _ => c_reg c r - wrap w (c_reg c r) + wrap w v end) c.

Section asm.
Context {D : Type} `{!Ports D} `{!Board D}.
Notation K := (M (pc D)).

Context (prog : list line) (sizes : list Z) (link load : Z) (sym : string -> Z).

Definition code : list (bool * instr) := instrs true prog.
Definition size (k : nat) : Z := nth k sizes 0.
Definition off (k : nat) : Z := foldr Z.add 0 (take k sizes).

Definition addr_of (x : string) : Z :=
  match label_at x prog with Some k => link + off k | None => sym x end.
Definition eval (e : expr) : Z :=
  match e with Num v => v | Sym x k => u32 (addr_of x + k) end.

(** The instruction that starts [o] bytes into the program. *)
Fixpoint index_at (l : list Z) (o : Z) : option nat :=
  match l with
  | [] => None
  | n :: l' => if o =? 0 then Some O else S <$> index_at l' (o - n)
  end.

Definition fetch : K (nat * instr) := reads (fun s =>
  la ← linear (p_cpu s) CS false (c_eip (p_cpu s)) 1;
  pa ← physical s false la;
  k ← of_option (index_at sizes (pa - load));
  i ← of_option (code !! k);
  if Bool.eqb i.1 (sg_db (c_seg (p_cpu s) CS)) then Ok (k, i.2) else Err Fault).

(** A logical operation: the flags, and the value. *)
Definition logic (w : width) (v : Z) : K unit := on_cpu (fun c => set_eflags (logic_flags w v (c_eflags c)) c).

Definition exec (i : instr) : K ctl :=
  match i with
  | Cli => on_cpu (fun c => set_eflags (set_flag FL_IF false (c_eflags c)) c) ;; mret Next
  | Cld => on_cpu (fun c => set_eflags (set_flag FL_DF false (c_eflags c)) c) ;; mret Next
  | Xor w src dst =>
      a ← the (reg_get w src); b ← the (reg_get w dst);
      logic w (Z.lxor a b) ;; on_cpu (reg_put w dst (Z.lxor a b)) ;; mret Next
  | OrI w e r =>
      a ← the (reg_get w r);
      let v := Z.lor a (wrap w (eval e)) in
      logic w v ;; on_cpu (reg_put w r v) ;; mret Next
  | TestI w e r => a ← the (reg_get w r); logic w (Z.land a (wrap w (eval e))) ;; mret Next
  | MovI w e r => on_cpu (reg_put w r (eval e)) ;; mret Next
  | MovIM w e a => mem_write DS (eval a) (le_split (size_of w) (eval e)) ;; mret Next
  | MovRS r s => v ← the (reg_get Word r); load_seg s v ;; mret Next
  | MovRC r cr =>
      v ← the (fun c => c_reg c r);
      match cr with
      | CR0 => lcr0 v
      | CR2 => on_cpu (set_cr CR2 v)
      | CR3 => lcr3 v
      | CR4 => lcr4 v
      end ;; mret Next
  | MovCR cr r => v ← the (fun c => c_cr c cr); on_cpu (reg_put Long r v) ;; mret Next
  | InB port r => v ← on_io (inb port); on_cpu (reg_put Byte r v) ;; mret Next
  | OutB r port => v ← the (reg_get Byte r); on_io (outb port v) ;; mret Next
  | Lgdt a => lgdt (eval a) ;; mret Next
  | Jnz l =>
      zf ← the (fun c => has_flag (c_eflags c) FL_ZF);
      mret (if zf : bool then Next else Near (addr_of l))
  | Jmp l => mret (Near (addr_of l))
  | JmpR r => v ← the (fun c => c_reg c r); mret (Abs v)
  | Ljmp sel l => mret (Far sel (addr_of l))
  | Call f => mret (Enter f)
  end.

(** Near jumps and calls are relative to the next instruction. *)
Definition displaced (next target : Z) (k : nat) : Z := u32 (next + (target - (link + off (S k)))).

(** One instruction; [Some f] when the C function [f] has been called. *)
Definition step : K (option string) :=
  i ← fetch;
  eip ← the c_eip;
  let next := u32 (eip + size i.1) in
  t ← exec i.2;
  match t with
  | Next => on_cpu (set_eip next) ;; mret None
  | Near a => on_cpu (set_eip (displaced next a i.1)) ;; mret None
  | Abs a => on_cpu (set_eip a) ;; mret None
  | Far sel a => load_seg CS sel ;; on_cpu (set_eip a) ;; mret None
  | Enter f => push32 next ;; on_cpu (set_eip (displaced next (sym f) i.1)) ;; mret (Some f)
  end.

Inductive goes (s s' : pc D) : Prop := goes_step : step s = Ok (None, s') -> goes s s'.

(** The program runs until it calls [f]. *)
Definition enters (f : string) (s s' : pc D) : Prop :=
  exists s1, rtc goes s s1 /\ step s1 = Ok (Some f, s').

(** The same as a function. *)
Fixpoint run (fuel : nat) (s : pc D) : res (string * pc D) :=
  match fuel with
  | O => Err Fuel
  | S n => r ← step s; match r.1 with None => run n r.2 | Some f => Ok (f, r.2) end
  end.
End asm.

(** * Lemmas *)

Lemma set_flag_get f b fl : f <> 0 -> has_flag (set_flag f b fl) f = b.
Proof.
  intros Hf. unfold has_flag, set_flag. destruct b.
  - rewrite Z.land_lor_distr_l, Z.land_diag. destruct (Z.eqb_spec (Z.lor (Z.land fl f) f) 0) as [E|]; [|done].
    by apply Z.lor_eq_0_iff in E as [_ ?].
  - replace (Z.land (Z.ldiff fl f) f) with 0; [done|]. symmetry. apply Z.bits_inj'. intros i Hi.
    rewrite Z.land_spec, Z.ldiff_spec, Z.bits_0. by destruct (Z.testbit fl i), (Z.testbit f i).
Qed.

Lemma set_flag_other f g b fl : Z.land f g = 0 -> has_flag (set_flag f b fl) g = has_flag fl g.
Proof.
  intros H. unfold has_flag, set_flag. do 2 f_equal. destruct b.
  - by rewrite Z.land_lor_distr_l, H, Z.lor_0_r.
  - apply Z.bits_inj'. intros i Hi. apply (f_equal (fun z => Z.testbit z i)) in H.
    rewrite Z.land_spec, Z.bits_0 in H. rewrite !Z.land_spec, Z.ldiff_spec.
    by destruct (Z.testbit fl i), (Z.testbit f i), (Z.testbit g i).
Qed.

Lemma has_flag_lor v fs f : Z.land fs f = f -> f <> 0 -> has_flag (Z.lor v fs) f = true.
Proof.
  intros Hs Hf. unfold has_flag. rewrite Z.land_lor_distr_l, Hs.
  destruct (Z.eqb_spec (Z.lor (Z.land v f) f) 0) as [E|]; [|done]. by apply Z.lor_eq_0_iff in E as [_ ?].
Qed.

Lemma has_flag_u32 v f : 0 <= f < 2 ^ 32 -> has_flag (u32 v) f = has_flag v f.
Proof.
  intros Hf. unfold has_flag, u32. do 2 f_equal. change 4294967296 with (2 ^ 32).
  rewrite <- Z.land_ones, <- Z.land_assoc, (Z.land_comm (Z.ones 32)), Z.land_ones by lia. by rewrite Z.mod_small.
Qed.

(** Interrupts off, string operations upwards. *)
Definition quiet (fl : Z) : Prop := has_flag fl FL_IF = false /\ has_flag fl FL_DF = false.

Lemma quiet_logic w v fl : quiet fl -> quiet (logic_flags w v fl).
Proof. intros [Hi Hd]. split; unfold logic_flags; by rewrite !set_flag_other. Qed.

Lemma logic_zf w v fl : has_flag (logic_flags w v fl) FL_ZF = (v =? 0).
Proof. unfold logic_flags. by do 2 rewrite (set_flag_other _ FL_ZF) by done; rewrite set_flag_get. Qed.

Lemma sum_pos l : Forall (fun n => 0 < n) l -> 0 <= foldr Z.add 0 l.
Proof. induction 1; cbn [foldr]; lia. Qed.
Lemma sum_app l1 l2 : foldr Z.add 0 (l1 ++ l2) = foldr Z.add 0 l1 + foldr Z.add 0 l2.
Proof. induction l1 as [|n l IH]; cbn [foldr app]; lia. Qed.

(** Addresses that physical ones are found by. *)
Lemma physical_unpaged {D} `{!Board D} (s : pc D) w la :
  paging (p_cpu s) = false -> a20 (p_dev s) = true \/ 0 <= la < 2 ^ 20 -> physical s w la = Ok la.
Proof.
  intros Hp Ha. unfold physical, bus. rewrite Hp. destruct (a20 (p_dev s)); [done|]. f_equal.
  destruct Ha as [|Hl]; [done|]. unfold Z.clearbit. apply Z.bits_inj'. intros i Hi.
  rewrite Z.ldiff_spec, Z.shiftl_1_l, Z.pow2_bits_eqb by lia.
  destruct (Z.eqb_spec 20 i) as [<-|]; [|by rewrite andb_true_r].
  destruct (Z.eqb_spec la 0) as [->|]; [by rewrite Z.bits_0|].
  rewrite (Z.bits_above_log2 la 20); [done|lia|]. apply Z.log2_lt_pow2; lia.
Qed.

Section running.
Context {D : Type} `{!Ports D} `{!Board D}.
Notation K := (M (pc D)).
Context (prog : list line) (sizes : list Z) (link load : Z) (sym : string -> Z).
Notation code := (code prog).
Notation size := (size sizes).
Notation off := (off sizes).
Notation step := (step prog sizes link load sym).
Notation exec := (exec prog sizes link sym).
Notation goes := (goes prog sizes link load sym).
Notation enters := (enters prog sizes link load sym).
Notation run := (run prog sizes link load sym).

(** The step relation and the function agree, so a program enters one function
    in one state. *)
Lemma run_enters fuel : forall s f s', run fuel s = Ok (f, s') -> enters f s s'.
Proof using Type.
  induction fuel as [|n IH]; intros s f s' E; [done|]. cbn [Asm.run] in E.
  apply bind_Ok in E as ([[g|] s1] & E1 & E); cbn [fst snd] in E.
  - injection E as -> ->. exists s. split; [constructor|exact E1].
  - destruct (IH _ _ _ E) as (s2 & Hr & E2). exists s2. split; [|exact E2].
    eapply rtc_l; [by constructor|exact Hr].
Qed.

Lemma enters_run f s s' : enters f s s' -> exists fuel, run fuel s = Ok (f, s').
Proof using Type.
  intros (s1 & Hr & E). induction Hr as [s|s s2 s1 [E2] Hr IH].
  - exists 1%nat. cbn [Asm.run]. rewrite E. by red_bind.
  - destruct (IH E) as (n & En). exists (S n). cbn [Asm.run]. rewrite E2. by red_bind.
Qed.

Lemma enters_det f g s s1 s2 : enters f s s1 -> enters g s s2 -> f = g /\ s1 = s2.
Proof using Type.
  intros (t1 & H1 & E1) (t2 & H2 & E2).
  induction H1 as [s|s t t1 [E] _ IH].
  - destruct H2 as [s|s t t2 [E] _]; rewrite E1 in *; [|done]. by injection E2 as -> ->.
  - apply IH; [exact E1|]. destruct H2 as [s|s t' t2 [E'] H2]; rewrite E in *; [done|].
    by injection E' as ->.
Qed.

Context (Hpos : Forall (fun n => 0 < n) sizes) (Hlen : length sizes = length code).
Definition total : Z := foldr Z.add 0 sizes.

Lemma off_S k : off (S k) = off k + size k.
Proof using Type.
  unfold Asm.off, Asm.size. clear. revert k. induction sizes as [|n l IH]; intros k; [by destruct k|].
  destruct k as [|k]; cbn [take firstn foldr nth]; [destruct l; cbn [take firstn foldr]; lia|]. specialize (IH k). lia.
Qed.

Lemma off_range k : 0 <= off k <= total.
Proof using Hpos.
  clear Hlen. unfold Asm.off, total. split; [by apply sum_pos, Forall_take|].
  rewrite <- (take_drop k sizes) at 2. rewrite sum_app.
  pose proof (sum_pos (drop k sizes) (Forall_drop _ _ _ Hpos)). lia.
Qed.

Lemma off_lt k : (k < length sizes)%nat -> off k < total.
Proof using Hpos.
  clear Hlen.
  intros Hk. pose proof (off_range (S k)) as Ho. rewrite off_S in Ho.
  assert (0 < size k); [|lia]. rewrite Forall_forall in Hpos. apply Hpos, list_elem_of_In, nth_In. lia.
Qed.

Lemma index_at_off k : (k < length code)%nat -> index_at sizes (off k) = Some k.
Proof using Hpos Hlen.
  rewrite <- Hlen. unfold Asm.off. clear Hlen. revert k. induction Hpos as [|n l Hn Hl IH]; intros k Hk; [cbn in Hk; lia|].
  destruct k as [|k]; [done|]. cbn [take firstn foldr index_at length] in *.
  pose proof (sum_pos (take k l) (Forall_take _ _ _ Hl)) as Hf.
  destruct (Z.eqb_spec (n + foldr Z.add 0 (take k l)) 0); [lia|].
  replace (n + foldr Z.add 0 (take k l) - n) with (foldr Z.add 0 (take k l)) by lia.
  by rewrite IH by (exact Hl || lia).
Qed.

(** The program, seen at [base]. *)
Definition window (base : Z) (s : pc D) : Prop :=
  forall k, (k < length code)%nat -> physical s false (base + off k) = Ok (load + off k).

(** The program counter is at instruction [k], in a flat code segment. *)
Record at_ (wide : bool) (base : Z) (k : nat) (s : pc D) : Prop := {
  at_eip : c_eip (p_cpu s) = base + off k;
  at_base : sg_base (c_seg (p_cpu s) CS) = 0;
  at_wide : sg_db (c_seg (p_cpu s) CS) = wide;
  at_limit : base + total <= sg_limit (c_seg (p_cpu s) CS);
  at_bound : 0 <= base /\ base + total < 2 ^ 32;
  at_window : window base s }.

Lemma at_fetch wide base k s i :
  at_ wide base k s -> code !! k = Some (wide, i) -> fetch prog sizes load s = Ok ((k, i), s).
Proof using Hpos Hlen.
  intros [He Hb Hw Hl [H0 Hd] Hwin] Hi. pose proof (lookup_lt_Some _ _ _ Hi) as Hk.
  change (2 ^ 32) with 4294967296 in Hd. pose proof (off_range k) as Ho.
  unfold fetch, reads, linear. rewrite He, Hb, Hw.
  rewrite (proj2 (Z.leb_le _ _)) by lia. cbn [andb negb orb]. red_bind.
  rewrite Z.add_0_l, u32_small by lia. rewrite (Hwin k Hk). red_bind.
  replace (load + off k - load) with (off k) by lia. rewrite index_at_off by done. red_bind.
  rewrite Hi. red_bind. by rewrite Bool.eqb_reflx.
Qed.

(** The program counter of the next instruction. *)
Lemma at_next wide base k s i :
  at_ wide base k s -> code !! k = Some (wide, i) -> u32 (c_eip (p_cpu s) + size k) = base + off (S k).
Proof using Hpos Hlen.
  intros [He _ _ _ [H0 Hd] _] Hi. change (2 ^ 32) with 4294967296 in Hd.
  pose proof (off_range (S k)) as Ho. rewrite off_S in *. rewrite He, u32_small; lia.
Qed.

(** A segment and the parts of the state that fetching looks at do not change. *)
Lemma at_move wide base k k' s c h :
  at_ wide base k s -> c_seg c CS = c_seg (p_cpu s) CS -> window base (mkPc c h) ->
  at_ wide base k' (mkPc (set_eip (base + off k') c) h).
Proof using Type. intros [He Hb Hw Hl Hd Hwin] E Hwin'. split; cbn [p_cpu c_eip c_seg set_eip]; rewrite ?E; done. Qed.

(** ** One instruction at a time *)

Definition reaches (P : pc D -> Prop) (s : pc D) : Prop := exists s', rtc goes s s' /\ P s'.

Lemma reaches_now (P : pc D -> Prop) s : P s -> reaches P s.
Proof using Type. exists s. by split; [constructor|]. Qed.

Lemma reaches_step (P : pc D -> Prop) s s1 : step s = Ok (None, s1) -> reaches P s1 -> reaches P s.
Proof using Type. intros E (s' & Hr & HP). exists s'. split; [|exact HP]. by eapply rtc_l; [constructor|]. Qed.

Lemma reaches_trans (P Q : pc D -> Prop) s :
  reaches P s -> (forall s', P s' -> reaches Q s') -> reaches Q s.
Proof using Type.
  intros (s1 & H1 & HP) HQ. destruct (HQ s1 HP) as (s2 & H2 & HQ2). exists s2. split; [by etrans|exact HQ2].
Qed.

Lemma reaches_next wide base k s i c h (P : pc D -> Prop) :
  at_ wide base k s -> code !! k = Some (wide, i) ->
  exec i s = Ok (Next, mkPc c h) -> c_seg c CS = c_seg (p_cpu s) CS -> window base (mkPc c h) ->
  (at_ wide base (S k) (mkPc (set_eip (base + off (S k)) c) h) -> reaches P (mkPc (set_eip (base + off (S k)) c) h)) ->
  reaches P s.
Proof using Hpos Hlen.
  intros Ha Hi E Es Hw HP. eapply reaches_step; [|apply HP, (at_move _ _ _ _ _ _ _ Ha Es Hw)].
  unfold Asm.step. erewrite Mbind_run by exact (at_fetch _ _ _ _ _ Ha Hi). cbv beta. cbn [fst snd].
  erewrite Mbind_run by reflexivity. cbv beta zeta. erewrite Mbind_run by exact E. cbv beta iota.
  by rewrite (at_next _ _ _ _ _ Ha Hi).
Qed.

(** A jump within the program. *)
Lemma reaches_near wide base k s i c h x kx (P : pc D -> Prop) :
  at_ wide base k s -> code !! k = Some (wide, i) ->
  exec i s = Ok (Near (addr_of prog sizes link sym x), mkPc c h) -> label_at x prog = Some kx ->
  c_seg c CS = c_seg (p_cpu s) CS -> window base (mkPc c h) ->
  (at_ wide base kx (mkPc (set_eip (base + off kx) c) h) -> reaches P (mkPc (set_eip (base + off kx) c) h)) ->
  reaches P s.
Proof using Hpos Hlen.
  intros Ha Hi E Hx Es Hw HP. eapply reaches_step; [|apply HP, (at_move _ _ _ _ _ _ _ Ha Es Hw)].
  unfold Asm.step. erewrite Mbind_run by exact (at_fetch _ _ _ _ _ Ha Hi). cbv beta. cbn [fst snd].
  erewrite Mbind_run by reflexivity. cbv beta zeta. erewrite Mbind_run by exact E. cbv beta iota.
  rewrite (at_next _ _ _ _ _ Ha Hi). unfold displaced, addr_of. rewrite Hx.
  replace (u32 _) with (base + off kx); [reflexivity|].
  pose proof (off_range kx). destruct (at_bound _ _ _ _ Ha) as [? Hd]. change (2 ^ 32) with 4294967296 in Hd.
  rewrite u32_small; lia.
Qed.

(** A jump to another address of the same program. *)
Lemma reaches_abs wide base k s i c h base' k' (P : pc D -> Prop) :
  at_ wide base k s -> code !! k = Some (wide, i) -> exec i s = Ok (Abs (base' + off k'), mkPc c h) ->
  c_seg c CS = c_seg (p_cpu s) CS -> window base' (mkPc c h) ->
  base' + total <= sg_limit (c_seg c CS) -> 0 <= base' /\ base' + total < 2 ^ 32 ->
  (at_ wide base' k' (mkPc (set_eip (base' + off k') c) h) -> reaches P (mkPc (set_eip (base' + off k') c) h)) ->
  reaches P s.
Proof using Hpos Hlen.
  intros Ha Hi E Es Hw Hl Hb HP. eapply reaches_step; [|apply HP].
  - unfold Asm.step. erewrite Mbind_run by exact (at_fetch _ _ _ _ _ Ha Hi). cbv beta. cbn [fst snd].
    erewrite Mbind_run by reflexivity. cbv beta zeta. by erewrite Mbind_run by exact E.
  - destruct Ha as [_ H0 H1 _ _ _]. split; cbn [p_cpu c_eip c_seg set_eip]; rewrite ?Es in *; done.
Qed.

(** The call that leaves the program. *)
Lemma call_step wide base k s f c h :
  at_ wide base k s -> code !! k = Some (wide, Call f) ->
  push32 (base + off (S k)) s = Ok (tt, mkPc c h) ->
  step s = Ok (Some f, mkPc (set_eip (displaced sizes link (base + off (S k)) (sym f) k) c) h).
Proof using Hpos Hlen.
  intros Ha Hi E. unfold Asm.step. erewrite Mbind_run by exact (at_fetch _ _ _ _ _ Ha Hi). cbv beta. cbn [fst snd].
  erewrite Mbind_run by reflexivity. cbv beta zeta. cbn [Asm.exec]. rewrite ret_bind. cbv beta iota.
  rewrite (at_next _ _ _ _ _ Ha Hi). by erewrite Mbind_run by exact E.
Qed.

(** Fetching without page tables. *)
Lemma window_unpaged s :
  paging (p_cpu s) = false -> 0 <= load -> a20 (p_dev s) = true \/ load + total <= 2 ^ 20 ->
  window load s.
Proof using Hpos Hlen.
  intros Hp H0 Ha k Hk. apply physical_unpaged; [exact Hp|]. pose proof (off_range k).
  pose proof (off_lt k ltac:(lia)). destruct Ha as [|Ha]; [by left|right; lia].
Qed.
End running.
