(* ===== verification/Bootasm.v ===== *)
(** boot/boot.S: from the BIOS to [bootmain].

    The processor starts in real mode with address line 20 low.  The program
    turns the interrupts off, clears the data segments, has the keyboard
    controller let line 20 go, loads a table of flat segments, enters protected
    mode and calls [bootmain] on a stack below itself.  The keyboard controller is
    a device; what is assumed of it is the class [Gate]. *)
From stdpp Require Import functions relations.
From S2P Require Import Prelude Mem Mmu Flags Entrypgdir Machine X86 Cpu Asm.

Definition PROT_MODE_CSEG : Z := 0x8.
Definition PROT_MODE_DSEG : Z := 0x10.
Definition CR0_PE_ON : Z := 0x1.

Definition boot_S : list line := [
  Label "start"; Code16;
  I Cli;
  I Cld;
  I (Xor Word EAX EAX);
  I (MovRS EAX DS);
  I (MovRS EAX ES);
  I (MovRS EAX SS);
  Label "seta20.1";
  I (InB 0x64 EAX);
  I (TestI Byte (Num 0x2) EAX);
  I (Jnz "seta20.1");
  I (MovI Byte (Num 0xd1) EAX);
  I (OutB EAX 0x64);
  Label "seta20.2";
  I (InB 0x64 EAX);
  I (TestI Byte (Num 0x2) EAX);
  I (Jnz "seta20.2");
  I (MovI Byte (Num 0xdf) EAX);
  I (OutB EAX 0x60);
  I (Lgdt (Sym "gdtdesc" 0));
  I (MovCR CR0 EAX);
  I (OrI Long (Num CR0_PE_ON) EAX);
  I (MovRC EAX CR0);
  I (Ljmp PROT_MODE_CSEG "protcseg");
  Code32; Label "protcseg";
  I (MovI Word (Num PROT_MODE_DSEG) EAX);
  I (MovRS EAX DS);
  I (MovRS EAX ES);
  I (MovRS EAX FS);
  I (MovRS EAX GS);
  I (MovRS EAX SS);
  I (MovI Long (Sym "start" 0) ESP);
  I (Call "bootmain");
  Label "spin";
  I (Jmp "spin")]%string.

(** The data of the program. *)
Definition gdt : list Z :=
  SEG_NULL_asm ++ SEG_asm (Z.lor STA_X STA_R) 0x0 0xffffffff ++ SEG_asm STA_W 0x0 0xffffffff.
Definition gdtdesc (gdt_addr : Z) : list Z := le_split 2 0x17 ++ le_split 4 gdt_addr.

(** The physical address the BIOS loads the program at, which it is linked at. *)
Definition BOOT : Z := 0x7c00.

(** * The keyboard controller *)

Section gate.
Context {D : Type} `{!Ports D} `{!Board D}.

(** Reading the status port until the controller takes input: [n] times busy. *)
Inductive busy : nat -> D -> D -> Prop :=
| busy_done d v d' : dev_in 0x64 d = (v, d') -> Z.land (u8 v) 2 = 0 -> busy 0 d d'
| busy_wait n d v d1 d' :
    dev_in 0x64 d = (v, d1) -> Z.land (u8 v) 2 <> 0 -> busy n d1 d' -> busy (S n) d d'.
End gate.

(** A controller that is ready in finite time, and that passes bit 1 of the data
    after the command 0xd1 to address line 20, when each is written after it was
    seen to be ready; nothing is known of what is written to a busy one. *)
Class Gate (D : Type) `{!Ports D, !Board D} (waiting : D -> bool) : Prop := {
  gate_ready : forall d, exists n d', busy n d d';
  gate_status : forall d v d', dev_in 0x64 d = (v, d') -> a20 d' = a20 d /\ waiting d' = waiting d;
  gate_command : forall n d d', busy n d d' ->
    waiting (dev_out 0x64 0xd1 d') = true /\ a20 (dev_out 0x64 0xd1 d') = a20 d';
  gate_data : forall n d d' v, busy n d d' -> waiting d' = true -> a20 (dev_out 0x60 v d') = Z.testbit v 1 }.

(** Properties of the devices that the accesses of the program keep. *)
Record untouched {D} `{!Ports D} (J : D -> Prop) : Prop := {
  unt_in : forall d v d', J d -> dev_in 0x64 d = (v, d') -> J d';
  unt_out : forall port v d, port = 0x60 \/ port = 0x64 -> J d -> J (dev_out port v d) }.

(** * The start and the end *)

(** What the BIOS leaves: real mode, the program at 0x7c00 with its data, and
    memory for a return address below it. *)
Record bios {D} `{!Board D} (total gdt_addr gdtdesc_addr : Z) (s : pc D) : Prop := {
  bi_real : protected (p_cpu s) = false /\ paging (p_cpu s) = false;
  bi_cs : sg_base (c_seg (p_cpu s) CS) = 0 /\ sg_db (c_seg (p_cpu s) CS) = false /\
    0xFFFF <= sg_limit (c_seg (p_cpu s) CS);
  bi_ds : 0xFFFF <= sg_limit (c_seg (p_cpu s) DS);
  bi_eip : c_eip (p_cpu s) = BOOT;
  bi_size : total <= 512;
  bi_gdt : bytes (p_mem s) (Addr gdt_addr) gdt /\ 0 <= gdt_addr < 0x10000;
  bi_gdtdesc : bytes (p_mem s) (Addr gdtdesc_addr) (gdtdesc gdt_addr) /\ 0 <= gdtdesc_addr <= 0xFFFA;
  bi_apart : BOOT <= gdt_addr /\ BOOT <= gdtdesc_addr;
  bi_stack : mapped (p_mem s) (BOOT - 4) 4 }.

(** A segment register that gives access to all of memory. *)
Definition flat (g : seg) : Prop := sg_base g = 0 /\ sg_limit g = 0xFFFFFFFF /\ sg_db g = true.

(** What [bootmain] runs on: 32-bit protected mode, segments and addresses that
    are the identity, no interrupts, and its return address on the stack. *)
Record flat_mode {D} `{!Board D} (s : pc D) : Prop := {
  fm_mode : protected (p_cpu s) = true /\ paging (p_cpu s) = false;
  fm_a20 : a20 (p_dev s) = true;
  fm_flat : forall r, flat (c_seg (p_cpu s) r);
  fm_kinds : fits CS (sg_type (c_seg (p_cpu s) CS)) = true /\ writable (c_seg (p_cpu s) DS) = true /\
    writable (c_seg (p_cpu s) ES) = true /\ writable (c_seg (p_cpu s) SS) = true;
  fm_quiet : quiet (c_eflags (p_cpu s)) }.

Lemma flat_mode_identity {D} `{!Board D} (s : pc D) w a n :
  flat_mode s -> 0 <= a -> 0 < n -> a + n <= 2 ^ 32 ->
  linear (p_cpu s) DS w a n = Ok a /\ maps s w a n a.
Proof.
  intros [[Hp Hg] Ha Hf (_ & Hd & _) _] H0 Hn Hl. destruct (Hf DS) as (Hb & Hlim & _). split.
  - apply linear_flat; [exact Hb|rewrite Hlim; lia|intros _; exact Hd|lia].
  - intros i Hi. apply physical_unpaged; [exact Hg|by left].
Qed.

(** * The run *)

Lemma reg_get_put w r v c : reg_get w r (reg_put w r v c) = wrap w v.
Proof.
  unfold reg_get, reg_put, set_reg. cbn [c_reg]. rewrite fn_lookup_insert.
  destruct w; cbn [wrap]; zlia.
Qed.

(** ** The table of segments *)

Section table.
Context {D : Type} `{!Ports D} `{!Board D} (g gd : Z).

(** The table as the processor sees it. *)
Definition boot_gdt (m : mem) : Prop := bytes m (Addr g) gdt /\ 0 <= g < 0x10000.
Definition code_seg : seg := mkSeg PROT_MODE_CSEG 0 0xFFFFFFFF 0xA true.
Definition data_seg : seg := mkSeg PROT_MODE_DSEG 0 0xFFFFFFFF 2 true.

Lemma lgdt_run c m d l :
  bytes m (Addr gd) (gdtdesc g) -> 0 <= gd <= 0xFFFA -> 0 <= g < 0x10000 ->
  sg_base (c_seg c DS) = 0 -> 0xFFFF <= sg_limit (c_seg c DS) -> paging c = false -> a20 d = true ->
  lgdt gd (mkPc c (mkHw m d l)) = Ok (tt, mkPc (set_dt GDT (mkDtr 0x17 g) c) (mkHw m d l)).
Proof using Type.
  intros Hb Hgd Hg Hbase Hlim Hp Ha. unfold lgdt, load_dt.
  assert (mem_read DS 6 gd (mkPc c (mkHw m d l)) = Ok (gdtdesc g, mkPc c (mkHw m d l))) as E.
  { apply (mem_read_flat _ DS gd gd (gdtdesc g)); [exact Hbase|cbn [p_cpu]; change (Z.of_nat _) with 6; lia|lia| | |exact Hb].
    - change (Z.of_nat _) with 6. lia.
    - intros i Hi. apply physical_unpaged; [exact Hp|by left]. }
  erewrite Mbind_run by exact E. cbv beta. unfold the. rewrite gets_bind.
  unfold gdtdesc. rewrite take_app_length', drop_app_length' by done. rewrite !le_combine_split.
  change (0x17 mod 256 ^ Z.of_nat 2) with 0x17. change (256 ^ Z.of_nat 4) with 4294967296.
  rewrite (Z.mod_small g) by lia. rewrite (Z.mod_small g 16777216) by lia. by destruct (sg_db _).
Qed.

Lemma desc_run r sel c m d l :
  r = CS /\ sel = PROT_MODE_CSEG \/ r <> CS /\ sel = PROT_MODE_DSEG ->
  boot_gdt m -> c_dt c GDT = mkDtr 0x17 g -> protected c = true -> paging c = false -> a20 d = true ->
  load_seg r sel (mkPc c (mkHw m d l)) =
    Ok (tt, mkPc (set_seg r (if decide (r = CS) then code_seg else data_seg) c) (mkHw m d l)).
Proof using Type.
  intros Hr [Hb Hg] Hdt Hpe Hp Ha.
  assert (exists k, (k = 1%nat \/ k = 2%nat) /\ Z.land sel 0xFFF8 = 8 * Z.of_nat k /\ has_flag sel 4 = false /\
    Z.land sel 0xFFFC <> 0 /\ desc_seg sel (le_combine (take 8 (drop (8 * k) gdt))) =
      (if decide (r = CS) then code_seg else data_seg) /\
    let v := le_combine (take 8 (drop (8 * k) gdt)) in Z.testbit v 47 && Z.testbit v 44 && fits r (bits v 40 4) = true)
    as (k & Hk & Hi & Hti & Hnz & Hd & Hfit).
  { destruct Hr as [[-> ->]|[Hr ->]]; [exists 1%nat|exists 2%nat]; (split; [auto|]).
    - split_and!; (done || by vm_compute).
    - rewrite decide_False by exact Hr. split_and!; try (done || by vm_compute). by destruct r. }
  pose proof (bytes_part _ _ _ (8 * k) 8 Hb) as Hbk. rewrite <- Hd.
  replace (g + Z.of_nat (8 * k)) with (g + Z.land sel 0xFFF8) in Hbk by lia.
  apply (load_seg_table (mkPc c (mkHw m d l)) r sel (take 8 (drop (8 * k) gdt))); cbn [p_cpu p_mem p_hw h_mem];
    rewrite ?Hdt; cbn [dt_base dt_limit]; rewrite ?Hi; try (assumption || lia).
  - by destruct Hk as [-> | ->].
  - intros i Hr8. apply physical_unpaged; [exact Hp|by left].
  - by rewrite Hi in Hbk.
Qed.
End table.

Section boot.
Context {D : Type} `{!Ports D} `{!Board D} (waiting : D -> bool) `{!Gate D waiting}.
Context (sizes : list Z) (sym : string -> Z).
Hypothesis Hpos : Forall (fun n => 0 < n) sizes.
Hypothesis Hlen : length sizes = length (code boot_S).
Hypothesis Htotal : total sizes <= 512.
Notation at_ := (at_ boot_S sizes BOOT).
Notation reaches := (reaches boot_S sizes BOOT BOOT sym).
Notation off := (off sizes).

Lemma boot_window c h : paging c = false -> window boot_S sizes BOOT BOOT (mkPc c h).
Proof using Hpos Hlen Htotal.
  intros Hp. apply window_unpaged; [exact Hpos|exact Hlen|exact Hp|done|]. right. unfold BOOT. lia.
Qed.

(** A straight instruction, before paging. *)
Lemma boot_next wide k s i c h (P : pc D -> Prop) :
  at_ wide BOOT k s -> code boot_S !! k = Some (wide, i) -> exec boot_S sizes BOOT sym i s = Ok (Next, mkPc c h) ->
  c_seg c CS = c_seg (p_cpu s) CS -> paging c = false ->
  (at_ wide BOOT (S k) (mkPc (set_eip (BOOT + off (S k)) c) h) -> reaches P (mkPc (set_eip (BOOT + off (S k)) c) h)) ->
  reaches P s.
Proof using Hpos Hlen Htotal.
  intros Ha Hi E Es Hp HP. apply (reaches_next boot_S sizes BOOT BOOT sym Hpos Hlen wide BOOT k s i c h P Ha Hi E Es); [|exact HP].
  by apply boot_window.
Qed.

(** The two loops that wait for the controller. *)
Lemma poll_run k x n d d' : busy n d d' ->
  code boot_S !! k = Some (false, InB 0x64 EAX) -> code boot_S !! S k = Some (false, TestI Byte (Num 2) EAX) ->
  code boot_S !! S (S k) = Some (false, Jnz x) -> label_at x boot_S = Some k ->
  forall c m l (P : pc D -> Prop),
  at_ false BOOT k (mkPc c (mkHw m d l)) -> paging c = false -> quiet (c_eflags c) ->
  (forall c' l', c_seg c' = c_seg c -> c_cr c' = c_cr c -> c_dt c' = c_dt c -> quiet (c_eflags c') ->
    at_ false BOOT (S (S (S k))) (mkPc c' (mkHw m d' l')) -> reaches P (mkPc c' (mkHw m d' l'))) ->
  reaches P (mkPc c (mkHw m d l)).
Proof using Hpos Hlen Htotal.
  intros Hb H0 H1 H2 Hx. induction Hb as [d v d' E Hv|n d v d1 d' E Hv _ IH]; intros c m l P Ha Hp Hq HP.
  all: eapply (boot_next _ _ _ _ _ _ _ Ha H0);
    [cbn [exec]; erewrite Mbind_run by (unfold on_io, inb; cbn [p_hw h_dev]; rewrite E; reflexivity); reflexivity
    |reflexivity|exact Hp|clear Ha; intros Ha].
  all: eapply (boot_next _ _ _ _ _ _ _ Ha H1); [reflexivity|reflexivity|exact Hp|clear Ha; intros Ha].
  all: set (fl := logic_flags Byte _ _) in Ha; change (logic_flags Byte _ _) with fl.
  all: assert (has_flag fl FL_ZF = (Z.land (u8 v) 2 =? 0)) as Hz by
    (unfold fl; rewrite logic_zf; apply (f_equal (fun z => Z.land z 2 =? 0));
     exact (eq_trans (reg_get_put Byte EAX (u8 v) c) (u8_small _ (u8_range v)))).
  all: assert (quiet fl) as Hql by (by apply quiet_logic).
  - eapply (boot_next _ _ _ _ _ _ _ Ha H2); [cbn [exec]; unfold the; rewrite gets_bind; cbn [p_cpu c_eflags set_eip set_eflags];
      rewrite Hz, Hv; reflexivity|reflexivity|exact Hp|clear Ha; intros Ha].
    by apply HP.
  - eapply (reaches_near boot_S sizes BOOT BOOT sym Hpos Hlen _ _ _ _ _ _ _ x k _ Ha H2);
      [cbn [exec]; unfold the; rewrite gets_bind; cbn [p_cpu c_eflags set_eip set_eflags];
      rewrite Hz, (proj2 (Z.eqb_neq _ _) Hv); reflexivity|exact Hx|reflexivity|by apply boot_window|clear Ha; intros Ha].
    apply IH; [exact Ha|exact Hp|exact Hql|]. intros c' l' E1 E2 E3. by apply HP.
Qed.

(** The data segments of real mode. *)
Lemma segs_run c h (P : pc D -> Prop) :
  at_ false BOOT 0 (mkPc c h) -> protected c = false -> paging c = false ->
  (forall c', c_seg c' CS = c_seg c CS -> c_cr c' = c_cr c -> sg_base (c_seg c' DS) = 0 ->
    sg_limit (c_seg c' DS) = sg_limit (c_seg c DS) -> quiet (c_eflags c') ->
    at_ false BOOT 6 (mkPc c' h) -> reaches P (mkPc c' h)) ->
  reaches P (mkPc c h).
Proof using Hpos Hlen Htotal.
  intros Ha Hpe Hp HP.
  eapply (boot_next _ _ _ _ _ _ _ Ha); [reflexivity|reflexivity|reflexivity|exact Hp|clear Ha; intros Ha].
  eapply (boot_next _ _ _ _ _ _ _ Ha); [reflexivity|reflexivity|reflexivity|exact Hp|clear Ha; intros Ha].
  eapply (boot_next _ _ _ _ _ _ _ Ha); [reflexivity|reflexivity|reflexivity|exact Hp|clear Ha; intros Ha].
  match type of Ha with Asm.at_ _ _ _ _ _ _ (mkPc ?x _) => set (c3 := x) in * end.
  assert (reg_get Word EAX c3 = 0) as Hax by (refine (eq_trans (reg_get_put Word EAX _ _) _); by rewrite Z.lxor_nilpotent).
  assert (quiet (c_eflags c3)) as Hq.
  { apply quiet_logic. split; [|by apply (set_flag_get FL_DF false)].
    refine (eq_trans (set_flag_other FL_DF FL_IF false _ eq_refl) _). by apply (set_flag_get FL_IF false). }
  assert (c_seg c3 = c_seg c /\ c_cr c3 = c_cr c) as [Hs Hc] by done. clearbody c3.
  assert (paging c3 = false /\ protected c3 = false) as [Hp3 Hpe3] by (unfold paging, protected; by rewrite Hc).
  eapply (boot_next _ _ _ _ _ _ _ Ha); [reflexivity|cbn [exec]; unfold the; rewrite gets_bind; cbn [p_cpu]; rewrite Hax;
    erewrite Mbind_run by (by apply load_seg_real); reflexivity|reflexivity|exact Hp3|clear Ha; intros Ha].
  eapply (boot_next _ _ _ _ _ _ _ Ha); [reflexivity|cbn [exec]; unfold the; rewrite gets_bind;
    erewrite Mbind_run by (by apply load_seg_real); reflexivity|reflexivity|exact Hp3|clear Ha; intros Ha].
  eapply (boot_next _ _ _ _ _ _ _ Ha); [reflexivity|cbn [exec]; unfold the; rewrite gets_bind;
    erewrite Mbind_run by (by apply load_seg_real); reflexivity|reflexivity|exact Hp3|clear Ha; intros Ha].
  apply HP; [by rewrite <- Hs|exact Hc|reflexivity|by rewrite <- Hs|exact Hq|exact Ha].
Qed.

(** A byte sent to the controller. *)
Lemma send_run k v port c m d l (P : pc D -> Prop) :
  code boot_S !! k = Some (false, MovI Byte (Num v) EAX) -> code boot_S !! S k = Some (false, OutB EAX port) ->
  at_ false BOOT k (mkPc c (mkHw m d l)) -> paging c = false ->
  (forall c' l', c_seg c' = c_seg c -> c_cr c' = c_cr c -> c_eflags c' = c_eflags c ->
    at_ false BOOT (S (S k)) (mkPc c' (mkHw m (dev_out port (u8 v) d) l')) ->
    reaches P (mkPc c' (mkHw m (dev_out port (u8 v) d) l'))) ->
  reaches P (mkPc c (mkHw m d l)).
Proof using Hpos Hlen Htotal.
  intros H0 H1 Ha Hp HP.
  eapply (boot_next _ _ _ _ _ _ _ Ha H0); [reflexivity|reflexivity|exact Hp|clear Ha; intros Ha].
  eapply (boot_next _ _ _ _ _ _ _ Ha H1); [|reflexivity|exact Hp|clear Ha; intros Ha; by apply HP].
  cbn [exec]. unfold the. rewrite gets_bind. cbn [p_cpu].
  replace (reg_get Byte EAX _) with (u8 v) by (symmetry; exact (reg_get_put Byte EAX v c)).
  erewrite Mbind_run; [reflexivity|]. unfold on_io, outb. cbn [p_hw h_mem h_dev h_log].
  by rewrite (u8_small (u8 v)) by apply u8_range.
Qed.

(** ** Protected mode *)

Context (g : Z).
Notation gd := (sym "gdtdesc").

Lemma eval_gdtdesc : 0 <= gd <= 0xFFFA -> eval boot_S sizes BOOT sym (Sym "gdtdesc" 0) = gd.
Proof using Type.
  clear Hlen Hpos Htotal. intros H. unfold eval, addr_of. change (label_at "gdtdesc" boot_S) with (@None nat). cbv iota.
  rewrite Z.add_0_r. apply u32_small. lia.
Qed.

(** [lgdt], the mode bit, and the jump to the code segment. *)
Lemma protect_run c m d l (P : pc D -> Prop) :
  at_ false BOOT 16 (mkPc c (mkHw m d l)) -> paging c = false -> quiet (c_eflags c) -> a20 d = true ->
  sg_base (c_seg c DS) = 0 -> 0xFFFF <= sg_limit (c_seg c DS) ->
  boot_gdt g m -> bytes m (Addr gd) (gdtdesc g) -> 0 <= gd <= 0xFFFA ->
  (forall c', c_dt c' GDT = mkDtr 0x17 g -> protected c' = true -> paging c' = false -> c_seg c' CS = code_seg ->
    quiet (c_eflags c') -> at_ true BOOT 21 (mkPc c' (mkHw m d l)) -> reaches P (mkPc c' (mkHw m d l))) ->
  reaches P (mkPc c (mkHw m d l)).
Proof using Hpos Hlen Htotal.
  intros Ha Hp Hq Ha20 Hds Hdl Hgdt Hgd Hgr HP.
  eapply (boot_next _ _ _ _ _ _ _ Ha); [reflexivity|cbn [exec]; rewrite (eval_gdtdesc Hgr);
    erewrite Mbind_run by (apply (lgdt_run g gd); (apply Hgdt || assumption)); reflexivity
    |reflexivity|exact Hp|clear Ha; intros Ha].
  eapply (boot_next _ _ _ _ _ _ _ Ha); [reflexivity|reflexivity|reflexivity|exact Hp|clear Ha; intros Ha].
  eapply (boot_next _ _ _ _ _ _ _ Ha); [reflexivity|cbn [exec]; unfold the; rewrite gets_bind; cbv zeta; reflexivity
    |reflexivity|exact Hp|clear Ha; intros Ha].
  match type of Ha with Asm.at_ _ _ _ _ _ _ (mkPc ?x _) => set (c3 := x) in * end.
  assert (has_flag (u32 (c_reg c3 EAX)) CR0_PE = true /\ has_flag (u32 (c_reg c3 EAX)) CR0_PG = false) as [He Hg].
  { change (c_reg c3 EAX) with (u32 (set_flag CR0_PE true (u32 (u32 (c_cr c CR0))))).
    rewrite !has_flag_u32 by done. split; [by apply set_flag_get|].
    rewrite set_flag_other by done. by rewrite !has_flag_u32 by done. }
  assert (quiet (c_eflags c3)) as Hq3 by (by apply quiet_logic).
  assert (c_dt c3 GDT = mkDtr 0x17 g /\ paging c3 = false) as [Hdt Hp3] by done. clearbody c3.
  eapply (boot_next _ _ _ _ _ _ _ Ha); [reflexivity|cbn [exec]; unfold the; rewrite gets_bind; cbn [p_cpu];
    erewrite Mbind_run by (unfold lcr0, the; rewrite gets_bind; cbn [p_cpu]; rewrite Hg, Hp3; reflexivity);
    reflexivity|reflexivity|exact Hg|clear Ha; intros Ha].
  match type of Ha with Asm.at_ _ _ _ _ _ _ (mkPc ?x _) => set (c4 := x) in * end.
  assert (protected c4 = true /\ paging c4 = false) as [Hpe4 Hp4] by done.
  assert (c_dt c4 GDT = mkDtr 0x17 g /\ quiet (c_eflags c4)) as [Hdt4 Hq4] by done. clearbody c4.
  eapply reaches_step.
  { unfold Asm.step. erewrite Mbind_run by (eapply at_fetch; [exact Hpos|exact Hlen|exact Ha|reflexivity]). cbv beta. cbn [fst snd].
    erewrite Mbind_run by reflexivity. cbv beta zeta. cbn [exec]. rewrite ret_bind. cbv beta iota.
    erewrite Mbind_run by (apply (desc_run g CS PROT_MODE_CSEG); (by left) || assumption). reflexivity. }
  apply HP; try done. destruct Ha as [He4 Hb4 Hw4 Hl4 Hd4 Hwin4]. split; try done.
  change (BOOT + total sizes <= 0xFFFFFFFF). unfold BOOT. lia.
Qed.

(** The data segments of protected mode, the stack, and the call. *)
Lemma flat_run c m d l :
  at_ true BOOT 21 (mkPc c (mkHw m d l)) -> c_dt c GDT = mkDtr 0x17 g -> protected c = true -> paging c = false ->
  c_seg c CS = code_seg -> quiet (c_eflags c) -> a20 d = true -> boot_gdt g m -> mapped m (BOOT - 4) 4 ->
  exists s', enters boot_S sizes BOOT BOOT sym "bootmain" (mkPc c (mkHw m d l)) s' /\ flat_mode s' /\
    c_eip (p_cpu s') = u32 (sym "bootmain") /\ c_reg (p_cpu s') ESP = BOOT - 4 /\
    p_hw s' = mkHw (write_bytes m (BOOT - 4) (le_split 4 (addr_of boot_S sizes BOOT sym "spin"))) d l.
Proof using Hpos Hlen Htotal.
  intros Ha Hdt Hpe Hp Hcs Hq Ha20 Hgdt Hst.
  set (Q := fun s => exists c', s = mkPc c' (mkHw m d l) /\ at_ true BOOT 28 s /\ protected c' = true /\ paging c' = false /\
    (forall r, c_seg c' r = if decide (r = CS) then code_seg else data_seg) /\ quiet (c_eflags c') /\ c_reg c' ESP = BOOT).
  assert (reaches Q (mkPc c (mkHw m d l))) as (s1 & Hr & c1 & -> & Ha1 & Hpe1 & Hp1 & Hs1 & Hq1 & Hesp).
  { eapply (boot_next _ _ _ _ _ _ _ Ha); [reflexivity|reflexivity|reflexivity|exact Hp|clear Ha; intros Ha].
    match type of Ha with Asm.at_ _ _ _ _ _ _ (mkPc ?x _) => set (c1 := x) in * end.
    assert (reg_get Word EAX c1 = PROT_MODE_DSEG) as Hax by exact (reg_get_put Word EAX PROT_MODE_DSEG c).
    assert (c_dt c1 GDT = mkDtr 0x17 g /\ protected c1 = true /\ paging c1 = false /\ c_seg c1 CS = code_seg /\
      quiet (c_eflags c1)) as (Hdt1 & Hpe1 & Hp1 & Hcs1 & Hq1) by done. clearbody c1.
    do 5 (eapply (boot_next _ _ _ _ _ _ _ Ha); [reflexivity|cbn [exec]; unfold the; rewrite gets_bind; cbn [p_cpu];
      erewrite Mbind_run; [reflexivity|etransitivity; [refine (f_equal (fun v => load_seg _ v _) Hax)|apply (desc_run g); (by right) || assumption]]
      |reflexivity|exact Hp1|clear Ha; intros Ha]).
    eapply (boot_next _ _ _ _ _ _ _ Ha); [reflexivity|reflexivity|reflexivity|exact Hp1|clear Ha; intros Ha].
    apply reaches_now. eexists. split; [reflexivity|]. split; [exact Ha|]. split_and!; [exact Hpe1|exact Hp1| |exact Hq1|].
    - by intros [].
    - reflexivity. }
  assert (c_seg c1 SS = data_seg) as Hss by exact (Hs1 SS).
  eexists. split; [exists (mkPc c1 (mkHw m d l)); split; [exact Hr|]|].
  { eapply call_step; [exact Hpos|exact Hlen|exact Ha1|reflexivity|].
    apply (push32_flat (mkPc c1 (mkHw m d l)) _ (BOOT - 4)); cbn [p_cpu p_mem p_hw h_mem];
      rewrite ?Hss, ?Hesp; (done || exact Hst || idtac).
    intros i Hi. by apply physical_unpaged; [exact Hp1|left]. }
  cbn [p_cpu p_hw p_dev p_mem h_mem h_dev h_log]. rewrite Hesp.
  split; [|split; [cbn [c_eip set_eip]; unfold displaced; f_equal; lia|done]]. split; cbn [p_cpu p_dev p_hw h_dev].
  - by split.
  - exact Ha20.
  - intros r. cbn [c_seg set_eip set_reg]. rewrite Hs1. by destruct (decide (r = CS)).
  - cbn [c_seg set_eip set_reg]. rewrite !Hs1. done.
  - exact Hq1.
Qed.

Lemma busy_keeps n d d' : busy n d d' -> a20 d' = a20 d /\ waiting d' = waiting d.
Proof using Gate0.
  induction 1 as [d v d' E _|n d v d1 d' E _ _ [IH1 IH2]]; [exact (gate_status _ _ _ E)|].
  destruct (gate_status _ _ _ E) as [<- <-]. by split.
Qed.

Lemma busy_untouched n d d' (J : D -> Prop) : busy n d d' -> untouched J -> J d -> J d'.
Proof using Type.
  clear. intros Hb HJ. induction Hb as [d v d' E _|n d v d1 d' E _ _ IH]; intros Hd; [by eapply (unt_in _ HJ)|].
  by apply IH; eapply (unt_in _ HJ).
Qed.

Lemma boot_S_at s : bios (total sizes) g gd s -> at_ false BOOT 0 s.
Proof using Hpos Hlen Htotal.
  intros [[_ Hp] (Hb & Hw & Hl) _ He _ _ _ _ _]. destruct s as [c h]. split; try done.
  - cbn [p_cpu] in *. unfold BOOT. lia.
  - unfold BOOT. lia.
  - by apply boot_window.
Qed.

Lemma boot_S_enters s :
  bios (total sizes) g gd s ->
  exists s', enters boot_S sizes BOOT BOOT sym "bootmain" s s' /\ flat_mode s' /\
    c_eip (p_cpu s') = u32 (sym "bootmain") /\ c_reg (p_cpu s') ESP = BOOT - 4 /\
    p_mem s' = write_bytes (p_mem s) (BOOT - 4) (le_split 4 (addr_of boot_S sizes BOOT sym "spin")) /\
    forall J, untouched J -> J (p_dev s) -> J (p_dev s').
Proof using Hpos Hlen Htotal Gate0.
  intros Hs. pose proof (boot_S_at s Hs) as Ha. destruct Hs as [[Hpe Hp] _ Hds _ _ Hgdt [Hgd Hgr] _ Hst].
  destruct s as [c [m d l]]. cbn [p_cpu p_mem p_hw h_mem] in *.
  destruct (gate_ready d) as (n1 & d1 & Hb1). set (d2 := dev_out 0x64 0xd1 d1).
  destruct (gate_ready d2) as (n2 & d3 & Hb2). set (d4 := dev_out 0x60 0xdf d3).
  assert (a20 d4 = true) as Ha20.
  { unfold d4. rewrite (gate_data _ _ _ _ Hb2); [done|]. destruct (busy_keeps _ _ _ Hb2) as [_ ->].
    by apply (gate_command _ _ _ Hb1). }
  set (Q := fun s => exists c' l', s = mkPc c' (mkHw m d4 l') /\ at_ true BOOT 21 s /\ c_dt c' GDT = mkDtr 0x17 g /\
    protected c' = true /\ paging c' = false /\ c_seg c' CS = code_seg /\ quiet (c_eflags c')).
  assert (reaches Q (mkPc c (mkHw m d l))) as (s1 & Hr & c1 & l1 & -> & Ha1 & Hdt1 & Hpe1 & Hp1 & Hcs1 & Hq1).
  { apply segs_run; [exact Ha|exact Hpe|exact Hp|]. intros c1 Ecs Ecr Hb1' Hl1 Hq1 Ha1.
    rewrite <- Hl1 in Hds. assert (paging c1 = false) as Hp1 by (unfold paging; by rewrite Ecr). clear Ecs Ecr Hpe Hp Ha Hl1 c.
    apply (poll_run 6 "seta20.1" _ _ _ Hb1); [reflexivity..|exact Ha1|exact Hp1|exact Hq1|]. intros c2 l2 Es2 Ec2 _ Hq2 Ha2.
    assert (paging c2 = false) as Hp2 by (unfold paging; by rewrite Ec2). rewrite <- Es2 in Hb1', Hds.
    apply (send_run 9 0xd1 0x64); [reflexivity..|exact Ha2|exact Hp2|]. intros c3 l3 Es3 Ec3 Ef3 Ha3.
    assert (paging c3 = false) as Hp3 by (unfold paging; by rewrite Ec3). rewrite <- Es3 in Hb1', Hds.
    change (dev_out 0x64 (u8 0xd1) d1) with d2 in *.
    apply (poll_run 11 "seta20.2" _ _ _ Hb2); [reflexivity..|exact Ha3|exact Hp3|by rewrite Ef3|]. intros c4 l4 Es4 Ec4 _ Hq4 Ha4.
    assert (paging c4 = false) as Hp4 by (unfold paging; by rewrite Ec4). rewrite <- Es4 in Hb1', Hds.
    apply (send_run 14 0xdf 0x60); [reflexivity..|exact Ha4|exact Hp4|]. intros c5 l5 Es5 Ec5 Ef5 Ha5.
    assert (paging c5 = false) as Hp5 by (unfold paging; by rewrite Ec5). rewrite <- Es5 in Hb1', Hds.
    change (dev_out 0x60 (u8 0xdf) d3) with d4 in *.
    apply protect_run; [exact Ha5|exact Hp5|by rewrite Ef5|exact Ha20|exact Hb1'|exact Hds|exact Hgdt|exact Hgd|exact Hgr|].
    intros c6 Hdt6 Hpe6 Hp6 Hcs6 Hq6 Ha6. apply reaches_now. exists c6, l5. by split_and!. }
  destruct (flat_run c1 m d4 l1 Ha1 Hdt1 Hpe1 Hp1 Hcs1 Hq1 Ha20 Hgdt Hst) as (s' & (s2 & Hr2 & E2) & Hm & He & Hesp & Hh).
  exists s'. split; [exists s2; split; [by etrans|exact E2]|]. split; [exact Hm|]. split; [exact He|]. split; [exact Hesp|].
  unfold p_mem, p_dev. rewrite Hh. split; [done|]. intros J HJ Hd. cbn [h_dev]. apply (unt_out _ HJ); [by left|].
  apply (busy_untouched _ _ _ J Hb2 HJ), (unt_out _ HJ); [by right|]. by apply (busy_untouched _ _ _ J Hb1 HJ).
Qed.
End boot.

(** C25: boot.S takes the processor from real mode to [bootmain]: whatever the
    assembler makes of the lengths of its instructions, once the keyboard
    controller has become ready it calls [bootmain], and there every byte of
    memory is at its own address, for reading and writing: the segments are flat,
    paging is off and address line 20 is free; interrupts are off, the stack is
    below the program, and memory has changed only where the return address is. *)
Theorem boot_S_spec {D} `{!Ports D} `{!Board D} waiting `{!Gate D waiting} sizes sym g (s : pc D) :
  Forall (fun n => 0 < n) sizes -> length sizes = length (code boot_S) -> total sizes <= 512 ->
  bios (total sizes) g (sym "gdtdesc"%string) s ->
  exists s', enters boot_S sizes BOOT BOOT sym "bootmain" s s' /\
    (forall w a n, 0 <= a -> 0 < n -> a + n <= 2 ^ 32 -> linear (p_cpu s') DS w a n = Ok a /\ maps s' w a n a) /\
    flat_mode s' /\ c_eip (p_cpu s') = u32 (sym "bootmain"%string) /\ c_reg (p_cpu s') ESP = BOOT - 4 /\
    p_mem s' = write_bytes (p_mem s) (BOOT - 4) (le_split 4 (addr_of boot_S sizes BOOT sym "spin")).
Proof.
  intros Hpos Hlen Htot Hs.
  destruct (boot_S_enters waiting sizes sym Hpos Hlen Htot g s Hs) as (s' & E & Hm & He & Hsp & Hmem & _).
  exists s'. split; [exact E|]. split; [intros w a n H0 Hn Hl; by apply flat_mode_identity|]. by split_and!.
Qed.

(** * A machine for the witness

    A controller that is busy up to three times after each command and ignores
    what is written to it meanwhile, with scan
    codes waiting, and the program as the GNU assembler lays it out. *)
Record kbc := mkKbc { kb_busy : nat; kb_waiting : bool; kb_a20 : bool; kb_codes : list Z }.

#[export] Instance kbc_ports : Ports kbc := {|
  dev_in := fun port d =>
    if port =? 0x64 then
      match Nat.min (kb_busy d) 3 with
      | S n => (2, mkKbc n (kb_waiting d) (kb_a20 d) (kb_codes d))
      | O => (match kb_codes d with [] => 0 | _ => 1 end, d)
      end
    else if port =? 0x60 then (hd 0 (kb_codes d), mkKbc (kb_busy d) (kb_waiting d) (kb_a20 d) (tl (kb_codes d)))
    else (0, d);
  dev_in16 := fun _ d => (0, d); dev_in32 := fun _ d => (0, d);
  dev_out := fun port v d =>
    match kb_busy d with
    | S _ => d
    | O => if port =? 0x64 then mkKbc 2 (v =? 0xd1) (kb_a20 d) (kb_codes d)
           else if (port =? 0x60) && kb_waiting d then mkKbc 2 false (Z.testbit v 1) (kb_codes d) else d
    end;
  dev_out16 := fun _ _ d => d; dev_out32 := fun _ _ d => d; dev_bus := fun _ _ => 0 |}.
#[export] Instance kbc_board : Board kbc := {| a20 := kb_a20; tsc := fun _ => 0 |}.

Lemma kbc_busy n w a ks : (n <= 3)%nat -> exists k d', busy k (mkKbc n w a ks) d'.
Proof.
  induction n as [|n IH]; intros Hn.
  - exists 0%nat, (mkKbc 0 w a ks). apply busy_done with (v := match ks with [] => 0 | _ => 1 end); by destruct ks.
  - destruct IH as (k & d' & H); [lia|]. exists (S k), d'. apply busy_wait with (v := 2) (d1 := mkKbc n w a ks); [|done|exact H].
    cbn [dev_in kbc_ports kb_busy]. rewrite Nat.min_l by lia. done.
Qed.

Lemma kbc_polled n d d' : busy n d d' -> kb_busy d' = 0%nat.
Proof.
  induction 1 as [[n w a ks] v d' E Hv|]; [|done]. cbn [dev_in kbc_ports kb_busy] in E.
  change (0x64 =? 0x64) with true in E. cbv iota in E.
  destruct n as [|n]; [by injection E as _ <-|]. cbn [Nat.min] in E. by injection E as <- _.
Qed.

#[export] Instance kbc_gate : Gate kbc kb_waiting.
Proof.
  split.
  - intros [n w a ks]. destruct (decide (n <= 3)%nat) as [Hn|Hn]; [by apply kbc_busy|].
    destruct (kbc_busy 2 w a ks) as (k & d' & H); [lia|]. exists (S k), d'.
    apply busy_wait with (v := 2) (d1 := mkKbc 2 w a ks); [|done|exact H].
    cbn [dev_in kbc_ports kb_busy]. rewrite Nat.min_r by lia. done.
  - intros [n w a ks] v d' E. cbn [dev_in kbc_ports kb_busy] in E. change (0x64 =? 0x64) with true in E. cbv iota in E.
    destruct (Nat.min n 3); by injection E as _ <-.
  - intros n d [k w a ks] Hb%kbc_polled. cbn [kb_busy] in Hb. by subst k.
  - intros n d [k w a ks] v Hb%kbc_polled Hw. cbn [kb_busy kb_waiting] in *. by subst k w.
Qed.

Definition boot_sizes : list Z :=
  [1; 1; 2; 2; 2; 2; 2; 2; 2; 2; 2; 2; 2; 2; 2; 2; 5; 3; 4; 3; 5; 4; 2; 2; 2; 2; 2; 5; 5; 2].
Definition boot_sym (x : string) : Z :=
  if decide (x = "gdtdesc"%string) then 0x7c64 else if decide (x = "bootmain"%string) then 0x7d15 else 0.
Definition bios_cpu : cpu :=
  mkCpu (fun _ => 0) BOOT FL_IF (fun r => mkSeg 0 0 0xFFFF (if decide (r = CS) then 0xB else 0x3) false) (fun _ => 0)
    (fun _ => mkDtr 0x3FF 0) (fun _ => 0) ∅.
Definition boot_sector : mem :=
  write_bytes (write_bytes (write_bytes ∅ 0x7c64 (gdtdesc 0x7c4c)) 0x7c4c gdt) (BOOT - 4) [0; 0; 0; 0].
Definition bios_pc : pc kbc := mkPc bios_cpu (mkHw boot_sector (mkKbc 3 false false []) []).

Lemma bios_pc_ok : bios (total boot_sizes) 0x7c4c (boot_sym "gdtdesc"%string) bios_pc.
Proof. split; decided. Qed.

Lemma boot_S_spec_witness :
  exists s', enters boot_S boot_sizes BOOT BOOT boot_sym "bootmain" bios_pc s' /\
    (forall w a n, 0 <= a -> 0 < n -> a + n <= 2 ^ 32 -> linear (p_cpu s') DS w a n = Ok a /\ maps s' w a n a) /\
    flat_mode s' /\ c_eip (p_cpu s') = u32 (boot_sym "bootmain"%string) /\ c_reg (p_cpu s') ESP = BOOT - 4 /\
    p_mem s' = write_bytes (p_mem bios_pc) (BOOT - 4) (le_split 4 (addr_of boot_S boot_sizes BOOT boot_sym "spin")).
Proof.
  apply (boot_S_spec kb_waiting boot_sizes boot_sym 0x7c4c bios_pc); [|done|by vm_compute|exact bios_pc_ok].
  repeat (apply Forall_cons; split; [decided|]). constructor.
Defined.
