(* ===== verification/Entry.v ===== *)
(** kern/entry.S: from the boot loader to [i386_init].

    The code is linked above KERNBASE and entered at its load address.  It turns
    paging on with the tables of kern/entrypgdir.c, jumps to its linked address,
    clears the frame pointer, where backtraces end, and calls [i386_init] on the
    boot stack. *)
From stdpp Require Import functions relations.
From S2P Require Import Prelude Mem Mmu Flags Entrypgdir Machine X86 Cpu Asm Bootasm.

Definition entry_S : list line := [
  Label "entry";
  I (MovIM Word (Num 0x1234) (Num 0x472));
  I (MovI Long (Sym "entry_pgdir" (- KERNBASE)) EAX);
  I (MovRC EAX CR3);
  I (MovCR CR0 EAX);
  I (OrI Long (Num (Z.lor (Z.lor CR0_PE CR0_PG) CR0_WP)) EAX);
  I (MovRC EAX CR0);
  I (MovI Long (Sym "relocated" 0) EAX);
  I (JmpR EAX);
  Label "relocated";
  I (MovI Long (Num 0x0) EBP);
  I (MovI Long (Sym "bootstacktop" 0) ESP);
  I (Call "i386_init");
  Label "spin";
  I (Jmp "spin")]%string.

(** The words before the code, by which a Multiboot loader knows the kernel. *)
Definition MULTIBOOT_HEADER_MAGIC : Z := 0x1BADB002.
Definition MULTIBOOT_HEADER_FLAGS : Z := 0.
Definition CHECKSUM : Z := u32 (- (MULTIBOOT_HEADER_MAGIC + MULTIBOOT_HEADER_FLAGS)).
Definition multiboot_header : list Z := [MULTIBOOT_HEADER_MAGIC; MULTIBOOT_HEADER_FLAGS; CHECKSUM].

Example multiboot_sum : u32 (foldr Z.add 0 multiboot_header) = 0.
Proof. reflexivity. Qed.

(** * The run *)

Section entry.
Context {D : Type} `{!Ports D} `{!Board D}.
Context (sizes : list Z) (link : Z) (sym : string -> Z) (pgtable : Z).
Hypothesis Hpos : Forall (fun n => 0 < n) sizes.
Hypothesis Hlen : length sizes = length (code entry_S).
Notation load := (RELOC link).
Notation pgdir := (sym "entry_pgdir").
Notation top := (sym "bootstacktop").
Notation at_ := (at_ entry_S sizes load).
Notation reaches := (reaches entry_S sizes link load sym).
Notation off := (off sizes).

(** Where the linker puts things: the code, the tables and the stack are in the
    first 4 MB above KERNBASE, past the first megabyte; the tables are
    page-aligned; the stack's last word is not part of a table. *)
Record linked : Prop := {
  lk_code : KERNBASE <= link /\ link + total sizes <= KERNBASE + PTSIZE;
  lk_pgdir : pgdir mod PGSIZE = 0 /\ KERNBASE + EXTPHYSMEM <= pgdir < KERNBASE + PTSIZE;
  lk_pgtable : pgtable mod PGSIZE = 0 /\ KERNBASE + EXTPHYSMEM <= pgtable < KERNBASE + PTSIZE;
  lk_stack : KERNBASE + 4 <= top <= KERNBASE + PTSIZE;
  lk_apart : (top <= pgdir \/ pgdir + PGSIZE <= top - 4) /\ (top <= pgtable \/ pgtable + PGSIZE <= top - 4) }.

(** The processor once paging is on. *)
Record paged (c : cpu) : Prop := {
  pg_mode : protected c = true /\ paging c = true /\ write_protect c = true;
  pg_cr3 : c_cr c CR3 = RELOC pgdir;
  pg_tlb : c_tlb c = ∅ }.

Hypothesis Hlink : linked.

Lemma RELOC_high x : KERNBASE <= x < 4294967296 -> RELOC x = x - KERNBASE.
Proof using Type. clear. unfold RELOC, KERNBASE. intros H. apply u32_small. lia. Qed.

Lemma paged_look (s : pc D) la :
  paged (p_cpu s) -> tables_loaded (p_mem s) pgdir pgtable -> 0 <= la < 4294967296 ->
  look s la = if decide (KERNBASE <= la < KERNBASE + PTSIZE) then Some (la - KERNBASE, true)
    else if decide (0 <= la < PTSIZE) then Some (la, false) else None.
Proof using Hlink.
  clear Hpos Hlen. intros [_ Hcr Ht] Htab Hla. destruct Hlink as [_ [Hpa Hpr] [Hta Htr] _ _].
  unfold look. rewrite Ht, lookup_empty, Hcr.
  replace (PTE_ADDR (RELOC pgdir)) with (RELOC pgdir).
  - apply (translation _ pgdir pgtable); [exact Htab|exact Hta| |exact Hla]. unfold EXTPHYSMEM in Htr. lia.
  - unfold KERNBASE, EXTPHYSMEM, PTSIZE, NPTENTRIES, PGSIZE in *. rewrite PTE_ADDR_arith, RELOC_high by (unfold KERNBASE; lia).
    unfold KERNBASE. zlia.
Qed.

(** With line 20 free, reads and writes at KERNBASE reach the first 4 MB; at the
    bottom there is only a view to read; nothing else is mapped. *)
Lemma paged_physical (s : pc D) w la :
  paged (p_cpu s) -> a20 (p_dev s) = true -> tables_loaded (p_mem s) pgdir pgtable -> 0 <= la < 4294967296 ->
  physical s w la = if decide (KERNBASE <= la < KERNBASE + PTSIZE) then Ok (la - KERNBASE)
    else if decide (0 <= la < PTSIZE /\ w = false) then Ok la else Err Fault.
Proof using Hlink.
  intros Hpg Ha Htab Hla. unfold physical. rewrite (paged_look s la Hpg Htab Hla), Ha.
  destruct (pg_mode _ Hpg) as (_ & -> & ->). repeat case_decide; red_bind; destruct w; try done; naive_solver.
Qed.

(** The tables are where nothing is stored. *)
Lemma tables_write m a l :
  tables_loaded m pgdir pgtable ->
  a + Z.of_nat (length l) <= RELOC pgdir \/ RELOC pgdir + PGSIZE <= a ->
  a + Z.of_nat (length l) <= RELOC pgtable \/ RELOC pgtable + PGSIZE <= a ->
  tables_loaded (write_bytes m a l) pgdir pgtable.
Proof using Type.
  clear. intros [Hd Ht] H1 H2. unfold PGSIZE in *. split; apply bytes_write_bytes_out; (exact Hd || exact Ht || rewrite length_words).
  - assert (length (entry_pgdir pgtable) = 1024%nat) as -> by (unfold entry_pgdir; by rewrite !length_insert, length_replicate). lia.
  - change (length entry_pgtable) with 1024%nat. lia.
Qed.

Lemma window_low c h :
  paging c = false -> a20 (h_dev h) = true -> window entry_S sizes load load (mkPc c h).
Proof using Hpos Hlen.
  intros Hp Ha. apply window_unpaged; [exact Hpos|exact Hlen|exact Hp|unfold RELOC; apply u32_range|by left].
Qed.

Lemma window_paged c h base :
  paged c -> a20 (h_dev h) = true -> tables_loaded (h_mem h) pgdir pgtable -> base = load \/ base = link ->
  window entry_S sizes load base (mkPc c h).
Proof using Hpos Hlen Hlink.
  intros Hpg Ha Htab Hb k Hk. pose proof (off_range sizes Hpos k) as Ho.
  assert (off k < total sizes) as Hlt by (apply off_lt; [exact Hpos|lia]).
  destruct (lk_code Hlink) as [H1 H2]. unfold KERNBASE, PTSIZE, NPTENTRIES, PGSIZE in *.
  assert (load = link - 0xF0000000) as El by (apply RELOC_high; unfold KERNBASE; lia).
  rewrite (paged_physical (mkPc c h) false _ Hpg Ha Htab) by (destruct Hb as [-> | ->]; lia).
  unfold KERNBASE, PTSIZE, NPTENTRIES, PGSIZE. destruct Hb as [-> | ->].
  - rewrite decide_False, decide_True by (first [split; [lia|done]|lia]). done.
  - rewrite decide_True by lia. f_equal. lia.
Qed.

(** A straight instruction. *)
Lemma entry_next base k s i c h (P : pc D -> Prop) :
  at_ true base k s -> code entry_S !! k = Some (true, i) -> exec entry_S sizes link sym i s = Ok (Next, mkPc c h) ->
  c_seg c CS = c_seg (p_cpu s) CS -> window entry_S sizes load base (mkPc c h) ->
  (at_ true base (S k) (mkPc (set_eip (base + off (S k)) c) h) -> reaches P (mkPc (set_eip (base + off (S k)) c) h)) ->
  reaches P s.
Proof using Hpos Hlen. intros Ha Hi E Es Hw. by apply (reaches_next entry_S sizes link load sym Hpos Hlen true base k s i c h P). Qed.

Lemma eval_reloc : eval entry_S sizes link sym (Sym "entry_pgdir" (- KERNBASE)) = RELOC pgdir.
Proof using Type. done. Qed.

(** Up to the instruction that turns paging on. *)
Lemma low_run c m d l (P : pc D -> Prop) :
  at_ true load 0 (mkPc c (mkHw m d l)) -> paging c = false -> a20 d = true ->
  (forall r, flat (c_seg c r)) -> writable (c_seg c DS) = true -> quiet (c_eflags c) ->
  tables_loaded m pgdir pgtable -> mapped m 0x472 2 ->
  let m1 := write_bytes m 0x472 (le_split 2 0x1234) in
  (forall c', paged c' -> c_seg c' = c_seg c -> quiet (c_eflags c') -> tables_loaded m1 pgdir pgtable ->
    at_ true load 6 (mkPc c' (mkHw m1 d l)) -> reaches P (mkPc c' (mkHw m1 d l))) ->
  reaches P (mkPc c (mkHw m d l)).
Proof using Hpos Hlen Hlink.
  intros Ha Hp Ha20 Hflat Hw Hq Htab Hm m1 HP. destruct (Hflat DS) as (Hb & Hl & _).
  assert (tables_loaded m1 pgdir pgtable) as Htab1.
  { destruct (lk_pgdir Hlink) as [_ H1], (lk_pgtable Hlink) as [_ H2]. apply tables_write; [exact Htab| |];
      left; rewrite RELOC_high by (unfold KERNBASE, EXTPHYSMEM, PTSIZE, NPTENTRIES, PGSIZE in *; lia);
      change (Z.of_nat _) with 2; unfold EXTPHYSMEM in *; lia. }
  assert (mem_write DS 0x472 (le_split 2 0x1234) (mkPc c (mkHw m d l)) = Ok (tt, mkPc c (mkHw m1 d l))) as E1.
  { refine (mem_write_flat (mkPc c (mkHw m d l)) DS 0x472 0x472 (le_split 2 0x1234) Hb _ Hw _ _ _ Hm (le_split_bytes _ _)).
    - cbn [p_cpu]. rewrite Hl. done.
    - done.
    - done.
    - intros i Hi. apply physical_unpaged; [exact Hp|by left]. }
  eapply (entry_next _ _ _ _ _ _ _ Ha); [reflexivity|cbn [exec eval size_of]; erewrite Mbind_run by exact E1; reflexivity
    |reflexivity|by apply window_low|clear Ha; intros Ha].
  eapply (entry_next _ _ _ _ _ _ _ Ha); [reflexivity|reflexivity|reflexivity|by apply window_low|clear Ha; intros Ha].
  eapply (entry_next _ _ _ _ _ _ _ Ha); [reflexivity|reflexivity|reflexivity|by apply window_low|clear Ha; intros Ha].
  eapply (entry_next _ _ _ _ _ _ _ Ha); [reflexivity|reflexivity|reflexivity|by apply window_low|clear Ha; intros Ha].
  eapply (entry_next _ _ _ _ _ _ _ Ha); [reflexivity|cbn [exec]; unfold the; rewrite gets_bind; cbv zeta; reflexivity
    |reflexivity|by apply window_low|clear Ha; intros Ha].
  match type of Ha with Asm.at_ _ _ _ _ _ _ (mkPc ?x _) => set (c5 := x) in * end.
  assert (has_flag (u32 (c_reg c5 EAX)) CR0_PE = true /\ has_flag (u32 (c_reg c5 EAX)) CR0_PG = true /\
    has_flag (u32 (c_reg c5 EAX)) CR0_WP = true) as (He & Hg & Hwp).
  { change (c_reg c5 EAX) with (u32 (Z.lor (u32 (u32 (c_cr c CR0))) (Z.lor (Z.lor CR0_PE CR0_PG) CR0_WP))).
    rewrite !has_flag_u32 by done. split_and!; by apply has_flag_lor. }
  assert (quiet (c_eflags c5)) as Hq5 by (by apply quiet_logic).
  assert (c_cr c5 CR3 = RELOC pgdir) as Hc5.
  { change (c_cr c5 CR3) with (u32 (u32 (RELOC pgdir))). unfold RELOC. by rewrite !(u32_small (u32 _)) by apply u32_range. }
  assert (c_seg c5 = c_seg c /\ paging c5 = false) as [Hs5 Hp5] by done. clearbody c5.
  set (c6 := set_tlb ∅ (set_cr CR0 (u32 (c_reg c5 EAX)) c5)).
  assert (paged c6) as Hpg by (split; [by split_and!|exact Hc5|done]).
  eapply (entry_next _ _ _ _ c6 _ _ Ha); [reflexivity|cbn [exec]; unfold the; rewrite gets_bind; cbn [p_cpu];
    erewrite Mbind_run by (unfold lcr0, the; rewrite gets_bind; cbn [p_cpu]; rewrite Hg, He, Hp5; reflexivity);
    reflexivity|reflexivity|apply window_paged; [exact Hpg|exact Ha20|exact Htab1|by left]|clear Ha; intros Ha].
  apply HP; [by split; apply Hpg|exact Hs5|exact Hq5|exact Htab1|exact Ha].
Qed.

Lemma eval_sym x k : label_at x entry_S = None -> 0 <= sym x + k < 4294967296 ->
  eval entry_S sizes link sym (Sym x k) = sym x + k.
Proof using Type. clear. intros Hx H. unfold eval, addr_of. rewrite Hx. by apply u32_small. Qed.

(** From there: up to the linked address, and the call. *)
Lemma high_run c m d l :
  at_ true load 6 (mkPc c (mkHw m d l)) -> paged c -> a20 d = true ->
  (forall r, flat (c_seg c r)) -> writable (c_seg c SS) = true -> quiet (c_eflags c) ->
  tables_loaded m pgdir pgtable -> mapped m (RELOC top - 4) 4 ->
  exists s', enters entry_S sizes link load sym "i386_init" (mkPc c (mkHw m d l)) s' /\
    paged (p_cpu s') /\ c_seg (p_cpu s') = c_seg c /\ quiet (c_eflags (p_cpu s')) /\
    c_eip (p_cpu s') = u32 (sym "i386_init") /\ c_reg (p_cpu s') EBP = 0 /\ c_reg (p_cpu s') ESP = top - 4 /\
    p_hw s' = mkHw (write_bytes m (RELOC top - 4) (le_split 4 (addr_of entry_S sizes link sym "spin"))) d l.
Proof using Hpos Hlen Hlink.
  intros Ha Hpg Ha20 Hflat Hw Hq Htab Hst. destruct (Hflat SS) as (Hb & Hl & _). destruct (Hflat CS) as (_ & Hlc & _).
  destruct (lk_code Hlink) as [Hk1 Hk2]. pose proof (lk_stack Hlink) as Hk3.
  pose proof (off_range sizes Hpos 8) as Ho8.
  unfold KERNBASE, PTSIZE, NPTENTRIES, PGSIZE in Hk1, Hk2, Hk3. change (0xF0000000 + 4096 * 1024) with 4030726144 in *.
  set (Q := fun s => exists c', s = mkPc c' (mkHw m d l) /\ at_ true link 10 s /\ paged c' /\ c_seg c' = c_seg c /\
    quiet (c_eflags c') /\ c_reg c' EBP = 0 /\ c_reg c' ESP = top).
  assert (reaches Q (mkPc c (mkHw m d l))) as (s1 & Hr & c1 & -> & Ha1 & Hpg1 & Hs1 & Hq1 & Hbp & Hsp).
  { eapply (entry_next _ _ _ _ _ _ _ Ha); [reflexivity|reflexivity|reflexivity|
      apply window_paged; [by split; apply Hpg|exact Ha20|exact Htab|by left]|clear Ha; intros Ha].
    match type of Ha with Asm.at_ _ _ _ _ _ _ (mkPc ?x _) => set (c1 := x) in * end.
    assert (c_reg c1 EAX = link + off 8) as Hax.
    { change (c_reg c1 EAX) with (u32 (u32 (link + off 8 + 0))). rewrite Z.add_0_r, (u32_small (link + off 8)) by lia. apply u32_small. lia. }
    assert (paged c1) as Hpg1 by (split; apply Hpg).
    assert (c_seg c1 = c_seg c /\ quiet (c_eflags c1)) as [Hs1 Hq1] by done. clearbody c1.
    eapply (reaches_abs entry_S sizes link load sym Hpos Hlen _ _ _ _ _ _ _ link 8 _ Ha); [reflexivity|
      cbn [exec]; unfold the; rewrite gets_bind; cbn [p_cpu]; rewrite Hax; reflexivity|reflexivity|
      apply window_paged; [exact Hpg1|exact Ha20|exact Htab|by right]|rewrite Hs1, Hlc; lia|lia|clear Ha; intros Ha].
    eapply (entry_next _ _ _ _ _ _ _ Ha); [reflexivity|reflexivity|reflexivity|
      apply window_paged; [by split; apply Hpg1|exact Ha20|exact Htab|by right]|clear Ha; intros Ha].
    eapply (entry_next _ _ _ _ _ _ _ Ha); [reflexivity|reflexivity|reflexivity|
      apply window_paged; [by split; apply Hpg1|exact Ha20|exact Htab|by right]|clear Ha; intros Ha].
    apply reaches_now. eexists. split; [reflexivity|]. split; [exact Ha|].
    split_and!; [by split; apply Hpg1|exact Hs1|exact Hq1|reflexivity|].
    change (u32 (eval entry_S sizes link sym (Sym "bootstacktop" 0)) = top).
    rewrite eval_sym by (done || lia). rewrite Z.add_0_r. apply u32_small. lia. }
  exists (mkPc (set_eip (displaced sizes link (link + off 11) (sym "i386_init") 10) (set_reg ESP (c_reg c1 ESP - 4) c1))
    (mkHw (write_bytes m (RELOC top - 4) (le_split 4 (link + off 11))) d l)).
  split; [exists (mkPc c1 (mkHw m d l)); split; [exact Hr|]|].
  { eapply call_step; [exact Hpos|exact Hlen|exact Ha1|reflexivity|].
    apply (push32_flat (mkPc c1 (mkHw m d l)) _ (RELOC top - 4)); cbn [p_cpu p_mem p_hw h_mem];
      rewrite ?Hs1, ?Hl, ?Hsp; [exact Hb|lia|exact Hw|change (2 ^ 32) with 4294967296; lia| |exact Hst].
    intros i Hi. rewrite (paged_physical (mkPc c1 (mkHw m d l)) true _ Hpg1 Ha20 Htab) by lia.
    unfold KERNBASE, PTSIZE, NPTENTRIES, PGSIZE. rewrite decide_True by lia.
    rewrite RELOC_high by (unfold KERNBASE; lia). unfold KERNBASE. f_equal. lia. }
  cbn [p_cpu p_hw c_eip c_seg c_eflags c_reg set_eip set_reg]. split; [by split; apply Hpg1|].
  split; [exact Hs1|]. split; [exact Hq1|]. split; [unfold displaced; f_equal; lia|]. split; [exact Hbp|].
  split; [by rewrite fn_lookup_insert, Hsp|done].
Qed.

Lemma entry_S_enters s :
  flat_mode s -> c_eip (p_cpu s) = load -> tables_loaded (p_mem s) pgdir pgtable ->
  mapped (p_mem s) 0x472 2 -> mapped (p_mem s) (RELOC top - 4) 4 ->
  exists s', enters entry_S sizes link load sym "i386_init" s s' /\
    paged (p_cpu s') /\ tables_loaded (p_mem s') pgdir pgtable /\ p_dev s' = p_dev s /\
    c_seg (p_cpu s') = c_seg (p_cpu s) /\ quiet (c_eflags (p_cpu s')) /\
    c_eip (p_cpu s') = u32 (sym "i386_init") /\ c_reg (p_cpu s') EBP = 0 /\ c_reg (p_cpu s') ESP = top - 4 /\
    p_mem s' = write_bytes (write_bytes (p_mem s) 0x472 (le_split 2 0x1234)) (RELOC top - 4)
      (le_split 4 (addr_of entry_S sizes link sym "spin")).
Proof using Hpos Hlen Hlink.
  intros [[Hpe Hp] Ha20 Hflat (_ & Hwd & _ & Hws) Hq] He Htab Hm Hst. destruct s as [c [m d l]].
  cbn [p_cpu p_mem p_dev p_hw h_mem h_dev] in *. set (m1 := write_bytes m 0x472 (le_split 2 0x1234)).
  destruct (lk_code Hlink) as [Hk1 Hk2]. pose proof (lk_stack Hlink) as Hk3. pose proof (lk_apart Hlink) as [Hk4 Hk5].
  destruct (lk_pgdir Hlink) as [_ Hk6], (lk_pgtable Hlink) as [_ Hk7].
  assert (KERNBASE + PTSIZE < 4294967296) as Hlim by done.
  assert (load = link - KERNBASE) as El by (apply RELOC_high; pose proof (off_range sizes Hpos 0); lia).
  assert (at_ true load 0 (mkPc c (mkHw m d l))) as Ha.
  { destruct (Hflat CS) as (Hb & Hl & Hdb). unfold KERNBASE, PTSIZE, NPTENTRIES, PGSIZE in *. split; cbn [p_cpu]; try done.
    - rewrite He. change (off 0) with 0. lia.
    - rewrite Hl. lia.
    - change (2 ^ 32) with 4294967296. lia.
    - by apply window_low. }
  set (Q := fun s => exists c', s = mkPc c' (mkHw m1 d l) /\ at_ true load 6 s /\ paged c' /\ c_seg c' = c_seg c /\
    quiet (c_eflags c') /\ tables_loaded m1 pgdir pgtable).
  assert (reaches Q (mkPc c (mkHw m d l))) as (s1 & Hr & c1 & -> & Ha1 & Hpg1 & Hs1 & Hq1 & Htab1).
  { apply low_run; try assumption. intros c' H1 H2 H3 H4 H5. apply reaches_now. exists c'. by split_and!. }
  assert (forall r, flat (c_seg c1 r)) as Hflat1 by (intros r; rewrite Hs1; apply Hflat).
  destruct (high_run c1 m1 d l Ha1 Hpg1 Ha20 Hflat1) as (s' & (s2 & Hr2 & E2) & Hpg' & Hs' & Hq' & He' & Hbp' & Hsp' & Hh');
    [by rewrite Hs1|exact Hq1|exact Htab1|by apply write_bytes_mapped|].
  exists s'. split; [exists s2; split; [by etrans|exact E2]|]. split; [exact Hpg'|].
  unfold p_mem, p_dev. rewrite Hh', Hs'. cbn [h_mem h_dev].
  split; [|split; [done|split; [exact Hs1|by split_and!]]].
  unfold EXTPHYSMEM, KERNBASE in *. apply tables_write; [exact Htab1| |]; rewrite length_le_split; change (Z.of_nat 4) with 4;
    rewrite !RELOC_high by (unfold KERNBASE; lia); unfold KERNBASE; lia.
Qed.
End entry.
