(* ===== verification/Tlb.v ===== *)
(** Cached translations: [invlpg], [tlbflush] and the page tables.

    The processor may go on using a translation it has cached after the page
    tables have changed.  [coherent] says that it has none that differs from the
    tables; then every access is translated as the tables say.  A flush always
    makes the cache coherent, whatever it held; after a change of one entry of the
    page table, which the entry page directory uses for two pages, so does
    [invlpg] on both, whatever was cached for these two pages. *)
From stdpp Require Import functions.
From S2P Require Import Prelude Mem Mmu Flags Entrypgdir Machine Cpu.

Section tlb.
Context {D : Type} `{!Ports D} `{!Board D}.
Notation K := (M (pc D)).
Implicit Types s : pc D.

Definition walk s (la : Z) : option (Z * bool) := page_walk (p_mem s) (PTE_ADDR (c_cr (p_cpu s) CR3)) la.

(** What is cached for [la], if anything, is what the tables say. *)
Definition coherent_at s la : Prop :=
  forall e, c_tlb (p_cpu s) !! PGNUM la = Some e -> walk s la = Some (e.1 + PGOFF la, e.2).

Definition coherent s : Prop := forall la, 0 <= la < 4294967296 -> coherent_at s la.

Lemma coherent_look s la : coherent s -> 0 <= la < 4294967296 -> look s la = walk s la.
Proof using Type.
  intros Hc Hla. unfold look. destruct (c_tlb (p_cpu s) !! PGNUM la) as [[f w]|] eqn:E; [|done].
  by rewrite (Hc la Hla (f, w) E).
Qed.

(** The processor may cache what it has walked. *)
Definition fill (la : Z) s : pc D :=
  match walk s (PGNUM la * PGSIZE) with
  | Some e => with_cpu (set_tlb (<[PGNUM la := e]> (c_tlb (p_cpu s))) (p_cpu s)) s
  | None => s
  end.

Lemma walk_page s la :
  0 <= la < 4294967296 ->
  walk s la = (fun e => (e.1 + PGOFF la, e.2)) <$> walk s (PGNUM la * PGSIZE).
Proof using Type.
  intros Hla. unfold walk, page_walk. set (b := PGNUM la * PGSIZE).
  assert (PDX b = PDX la /\ PTX b = PTX la /\ PGOFF b = 0) as (-> & -> & ->).
  { unfold b, PGNUM, PGSIZE, PTXSHIFT. rewrite Z.shiftr_div_pow2 by lia. change (2 ^ 12) with 4096.
    rewrite !PDX_arith, !PTX_arith, PGOFF_arith. zlia. }
  destruct (load32 _ _) as [pde|]; [|done]. destruct (has_flag pde PTE_P); [|done].
  destruct (load32 _ _) as [pte|]; [|done]. destruct (has_flag pte PTE_P); [|done].
  cbn [fmap option_fmap option_map fst snd]. by rewrite Z.add_0_r.
Qed.

(** Filling keeps the cache coherent. *)
Lemma fill_coherent_at s la lb :
  coherent_at s lb -> 0 <= lb < 4294967296 -> 0 <= la < 4294967296 -> coherent_at (fill la s) lb.
Proof using Type.
  intros Hc Hlb Hla. unfold fill. destruct (walk s (PGNUM la * PGSIZE)) as [e|] eqn:E; [|done].
  intros e' El. cbn [p_cpu with_cpu set_tlb c_tlb] in El. rewrite lookup_insert in El.
  change (walk s lb = Some (e'.1 + PGOFF lb, e'.2)). case_decide as Hp; [|by apply Hc].
  injection El as <-. rewrite walk_page, <- Hp, E by exact Hlb. done.
Qed.

Lemma fill_coherent s la : coherent s -> 0 <= la < 4294967296 -> coherent (fill la s).
Proof using Type. intros Hc Hla lb Hlb. apply fill_coherent_at; [by apply Hc|done..]. Qed.

Lemma fill_same s la : p_hw (fill la s) = p_hw s /\ c_cr (p_cpu (fill la s)) = c_cr (p_cpu s).
Proof using Type. unfold fill. by destruct (walk s _). Qed.

Lemma empty_coherent s : c_tlb (p_cpu s) = ∅ -> coherent s.
Proof using Type. intros E la _ e. by rewrite E, lookup_empty. Qed.

(** [tlbflush] always does. *)
Lemma tlbflush_run s : 0 <= c_cr (p_cpu s) CR3 < 4294967296 ->
  exists s', tlbflush s = Ok (tt, s') /\ coherent s' /\ p_hw s' = p_hw s /\ c_cr (p_cpu s') CR3 = c_cr (p_cpu s) CR3.
Proof using Type.
  intros H. eexists. split; [reflexivity|]. split; [by apply empty_coherent|]. split; [done|].
  cbn [p_cpu with_cpu set_tlb set_cr c_cr]. rewrite fn_lookup_insert. by apply u32_small.
Qed.

(** [invlpg] on the pages whose translation has changed. *)
Lemma invlpg_run s las : exists s', each invlpg las s = Ok (tt, s') /\
  p_hw s' = p_hw s /\ c_cr (p_cpu s') = c_cr (p_cpu s) /\
  forall pg, c_tlb (p_cpu s') !! pg = if decide (pg ∈ PGNUM <$> las) then None else c_tlb (p_cpu s) !! pg.
Proof using Type.
  revert s. induction las as [|a las IH]; intros s.
  - exists s. by split_and!.
  - destruct (IH (with_cpu (set_tlb (delete (PGNUM a) (c_tlb (p_cpu s))) (p_cpu s)) s)) as (s' & E & Hh & Hc & Ht).
    exists s'. split; [exact E|]. split; [exact Hh|]. split; [exact Hc|]. intros pg. rewrite Ht. cbn [fmap list_fmap].
    cbn [p_cpu with_cpu set_tlb c_tlb]. rewrite lookup_delete.
    pose proof (elem_of_cons (PGNUM <$> las) pg (PGNUM a)) as He. clear -He.
    repeat case_decide; (reflexivity || exfalso; naive_solver).
Qed.

Lemma invlpg_coherent s m' las :
  (forall la, 0 <= la < 4294967296 -> PGNUM la ∉ PGNUM <$> las ->
    coherent_at s la /\ walk (with_mem m' s) la = walk s la) ->
  exists s', each invlpg las (with_mem m' s) = Ok (tt, s') /\ coherent s' /\ p_mem s' = m' /\
    c_cr (p_cpu s') = c_cr (p_cpu s).
Proof using Type.
  intros Hm. destruct (invlpg_run (with_mem m' s) las) as (s' & E & Hh & Hcr & Ht).
  exists s'. split; [exact E|]. split; [|split; [unfold p_mem; by rewrite Hh|by rewrite Hcr]].
  intros la Hla e El. rewrite Ht in El. case_decide as Hp; [done|]. destruct (Hm la Hla Hp) as [Hc Hw].
  unfold walk, p_mem. rewrite Hh, Hcr. change (walk (with_mem m' s) la = Some (e.1 + PGOFF la, e.2)).
  rewrite Hw. by apply Hc.
Qed.
End tlb.

(** ** One entry of a table *)

Lemma words_insert m a ws i w :
  words_at m a ws -> (i < length ws)%nat ->
  words_at (write_bytes m (a + 4 * Z.of_nat i) (le_split 4 w)) a (<[i := w]> ws).
Proof.
  intros Hw Hi. unfold words_at in *. destruct (lookup_lt_is_Some_2 ws i Hi) as [x Hx].
  rewrite insert_take_drop by exact Hi. rewrite <- (take_drop_middle ws i x Hx) in Hw.
  rewrite flat_map_app in *. cbn [flat_map] in *.
  assert (Z.of_nat (length (flat_map (le_split 4) (take i ws))) = 4 * Z.of_nat i) as Hl.
  { rewrite length_words, length_take. lia. }
  apply bytes_app in Hw as [H1 H2]. apply bytes_app in H2 as [_ H3]. rewrite Hl in H3. cbn [padd] in H3.
  rewrite length_le_split in H3. apply bytes_app. rewrite Hl. cbn [padd]. split.
  - apply bytes_write_bytes_out; [exact H1|lia].
  - apply bytes_app. split; [apply bytes_write_bytes|]. rewrite length_le_split. cbn [padd].
    apply bytes_write_bytes_out; [exact H3|rewrite length_le_split; lia].
Qed.

(** The two pages entry [i] of the page table serves. *)
Definition served (i : Z) : list Z := PGNUM <$> [i * PGSIZE; KERNBASE + i * PGSIZE].

(** C29: a changed page table entry takes effect, whatever the page table
    holds: when entry [i] of the table under the entry page directory is
    overwritten with [pte], every address is translated as the new tables say
    once [tlbflush] has run, whatever translations were cached before, or once
    [invlpg] has run for the two pages the entry serves, whatever was cached for
    these two and as long as nothing stale was cached for another page. *)
Theorem pte_change {D} `{!Ports D} `{!Board D} (s : pc D) pgdir pgtable ws i pte (flush : bool) :
  words_at (p_mem s) (RELOC pgdir) (entry_pgdir pgtable) -> words_at (p_mem s) (RELOC pgtable) ws ->
  length ws = 1024%nat -> Forall (fun e => 0 <= e < 4294967296) ws -> c_cr (p_cpu s) CR3 = RELOC pgdir ->
  (flush = false -> forall la, 0 <= la < 4294967296 -> PGNUM la ∉ served i -> coherent_at s la) ->
  pgdir mod PGSIZE = 0 -> KERNBASE <= pgdir < KERNBASE + PTSIZE ->
  pgtable mod PGSIZE = 0 -> KERNBASE <= pgtable < KERNBASE + PTSIZE -> pgdir <> pgtable ->
  0 <= i < NPTENTRIES -> 0 <= pte < 4294967296 ->
  let m' := write_bytes (p_mem s) (RELOC pgtable + 4 * i) (le_split 4 pte) in
  exists s', (if flush then tlbflush else invlpg (i * PGSIZE) ;; invlpg (KERNBASE + i * PGSIZE) : M (pc D) unit)
      (with_mem m' s) = Ok (tt, s') /\ p_mem s' = m' /\ coherent s' /\
    forall la, 0 <= la < 4294967296 ->
      look s' la = if decide (PDX la = 0 \/ PDX la = 960) then
          let e := if decide (PTX la = i) then pte else default 0 (ws !! Z.to_nat (PTX la)) in
          if has_flag e PTE_P then Some (PTE_ADDR e + PGOFF la, bool_decide (PDX la = 960) && has_flag e PTE_W) else None
        else None.
Proof.
  intros Hd Ht Hlen Hws32 Hcr Hc Hda Hdr Hta Htr Hne Hi Hp m'. unfold KERNBASE, PTSIZE, NPTENTRIES, PGSIZE in *.
  assert (RELOC pgdir = pgdir - KERNBASE /\ RELOC pgtable = pgtable - KERNBASE) as [Ed Et]
    by (unfold RELOC, KERNBASE; split; apply u32_small; lia).
  assert (PTE_ADDR (RELOC pgdir) = RELOC pgdir) as Ead by (rewrite PTE_ADDR_arith, Ed; unfold KERNBASE; zlia).
  assert (words_at m' (RELOC pgdir) (entry_pgdir pgtable)) as Hd'.
  { apply bytes_write_bytes_out; [exact Hd|]. rewrite length_words, length_le_split.
    assert (length (entry_pgdir pgtable) = 1024%nat) as -> by (unfold entry_pgdir; by rewrite !length_insert, length_replicate).
    rewrite Ed, Et. unfold KERNBASE. zlia. }
  assert (words_at m' (RELOC pgtable) (<[Z.to_nat i := pte]> ws)) as Ht'.
  { unfold m'. replace i with (Z.of_nat (Z.to_nat i)) by lia. rewrite Nat2Z.id. apply words_insert; [exact Ht|]. lia. }
  assert (forall la, 0 <= la < 4294967296 -> exists e, ws !! Z.to_nat (PTX la) = Some e /\ 0 <= e < 4294967296) as Hold.
  { intros la Hla. destruct (lookup_lt_is_Some_2 ws (Z.to_nat (PTX la))) as [e He]; [rewrite PTX_arith, Hlen; zlia|].
    exists e. split; [exact He|]. by apply (Forall_lookup_1 _ _ _ _ Hws32 He). }
  assert (forall la, 0 <= la < 4294967296 -> 0 <= PTX la) as Hx by (intros; rewrite PTX_arith; zlia).
  assert (forall la, 0 <= la < 4294967296 -> page_walk m' (RELOC pgdir) la =
      if decide (PDX la = 0 \/ PDX la = 960) then
        let e := if decide (PTX la = i) then pte else default 0 (ws !! Z.to_nat (PTX la)) in
        if has_flag e PTE_P then Some (PTE_ADDR e + PGOFF la, bool_decide (PDX la = 960) && has_flag e PTE_W) else None
      else None) as Hnew.
  { intros la Hla. destruct (Hold la Hla) as (e & He & Hr). pose proof (Hx la Hla).
    apply (table_walk m' pgdir pgtable Hd' Hta Htr _ la _ Ht' Hla); [|case_decide; [exact Hp|by rewrite He]].
    rewrite list_lookup_insert. case_decide as Hd1; case_decide as Hd2; try lia; [done|by rewrite He]. }
  assert (forall la, 0 <= la < 4294967296 -> PGNUM la ∉ served i -> page_walk m' (RELOC pgdir) la = page_walk (p_mem s) (RELOC pgdir) la)
    as Hsame.
  { intros la Hla Hn. rewrite (Hnew la Hla). destruct (Hold la Hla) as (e & He & Hr).
    rewrite (table_walk (p_mem s) pgdir pgtable Hd Hta Htr ws la e Ht Hla He Hr), He. cbn [default].
    destruct (decide (PDX la = 0 \/ PDX la = 960)) as [H1|H1]; [|done]. rewrite decide_False; [done|].
    intros <-. apply Hn. unfold served. cbn [fmap list_fmap]. unfold PGNUM, PTXSHIFT, PGSIZE, KERNBASE. rewrite !Z.shiftr_div_pow2 by lia.
    change (2 ^ 12) with 4096. rewrite PTX_arith, PDX_arith in *. rewrite !elem_of_cons. destruct H1; [left|right; left]; zlia. }
  assert (exists s', (if flush then tlbflush else invlpg (i * 4096) ;; invlpg (0xF0000000 + i * 4096) : M (pc D) unit)
    (with_mem m' s) = Ok (tt, s') /\ p_mem s' = m' /\ coherent s' /\ c_cr (p_cpu s') CR3 = RELOC pgdir)
    as (s' & E & Em & Hc' & Ecr).
  { destruct flush.
    - destruct (tlbflush_run (with_mem m' s)) as (s' & E & Hc' & Hh & Hr).
      { cbn [p_cpu with_mem]. rewrite Hcr. unfold RELOC. apply u32_range. }
      exists s'. unfold p_mem. rewrite Hh, Hr. by split_and!.
    - destruct (invlpg_coherent s m' [i * 4096; 0xF0000000 + i * 4096]) as (s' & E & Hc' & Em & Hr).
      { intros la Hla Hn. split; [by apply Hc|]. unfold walk, p_mem, with_mem. cbn [p_cpu p_hw h_mem].
        rewrite Hcr, Ead. by apply Hsame. }
      exists s'. rewrite Hr. by split_and!. }
  exists s'. split; [exact E|]. split; [exact Em|]. split; [exact Hc'|]. intros la Hla.
  rewrite (coherent_look s' la Hc' Hla). unfold walk. rewrite Em, Ecr, Ead. by apply Hnew.
Qed.

(** The tables of Entrypgdir's example, with stale translations of page 0xF0100
    and of the same frame at 0; the page is then unmapped. *)
#[local] Instance no_ports : Ports unit := {|
  dev_in := fun _ d => (0, d); dev_in16 := fun _ d => (0, d); dev_in32 := fun _ d => (0, d);
  dev_out := fun _ _ d => d; dev_out16 := fun _ _ d => d; dev_out32 := fun _ _ d => d; dev_bus := fun _ _ => 0 |}.
#[local] Instance no_board : Board unit := {| a20 := fun _ => true; tsc := fun _ => 0 |}.

Definition ex_paged : pc unit :=
  mkPc (mkCpu (fun _ => 0) 0 0 (fun _ => mkSeg 0 0 0 0 false) (fun r => if decide (r = CR3) then 0x112000 else 0)
    (fun _ => mkDtr 0 0) (fun _ => 0) ∅) (mkHw loaded_ex tt []).
Definition ex_cached : pc unit :=
  fill 0xF0101000 (with_cpu (set_tlb {[0xF0100 := (0x5000, true); 0x100 := (0x6000, false)]} (p_cpu ex_paged)) ex_paged).

Lemma pte_change_witness :
  let m' := write_bytes (p_mem ex_cached) (RELOC 0xF0113000 + 4 * 0x100) (le_split 4 0) in
  look ex_cached 0xF0100000 = Some (0x5000, true) /\
  exists s', (invlpg (0x100 * PGSIZE) ;; invlpg (KERNBASE + 0x100 * PGSIZE) : M (pc unit) unit) (with_mem m' ex_cached) =
      Ok (tt, s') /\ look s' 0xF0100000 = None /\ look s' 0xF0101000 = Some (0x101000, true).
Proof.
  set (s1 := with_cpu (set_tlb {[0xF0100 := (0x5000, true); 0x100 := (0x6000, false)]} (p_cpu ex_paged)) ex_paged).
  destruct (fill_same s1 0xF0101000) as [Eh Ec].
  assert (tables_loaded (p_mem ex_cached) 0xF0112000 0xF0113000) as [Hd Ht].
  { unfold ex_cached, p_mem. fold s1. rewrite Eh. change (tables_loaded loaded_ex 0xF0112000 0xF0113000). split; decided. }
  assert (c_cr (p_cpu ex_cached) CR3 = RELOC 0xF0112000) as Hcr by (unfold ex_cached; fold s1; by rewrite Ec).
  assert (forall la, 0 <= la < 4294967296 -> PGNUM la ∉ served 0x100 -> coherent_at ex_cached la) as Hc.
  { intros la Hla Hn. apply fill_coherent_at; [|exact Hla|lia]. intros e El. exfalso. apply Hn.
    assert (({[0xF0100 := (0x5000, true); 0x100 := (0x6000, false)]} : gmap Z (Z * bool)) !! PGNUM la = Some e) as El' by exact El.
    change (served 0x100) with [0x100; 0xF0100]. rewrite !elem_of_cons.
    apply lookup_insert_Some in El' as [[<- _]|[_ El2]]; [by right; left|].
    apply lookup_singleton_Some in El2 as [<- _]. by left. }
  split; [by vm_compute|].
  destruct (pte_change ex_cached 0xF0112000 0xF0113000 entry_pgtable 0x100 0 false Hd Ht eq_refl ltac:(decided) Hcr (fun _ => Hc) eq_refl
    (ltac:(decided) : KERNBASE <= 0xF0112000 < KERNBASE + PTSIZE) eq_refl
    (ltac:(decided) : KERNBASE <= 0xF0113000 < KERNBASE + PTSIZE) (ltac:(lia) : 0xF0112000 <> 0xF0113000)
    (ltac:(decided) : 0 <= 0x100 < NPTENTRIES) (ltac:(lia) : 0 <= 0 < 4294967296)) as (s' & E & _ & _ & Hl).
  exists s'. split; [exact E|]. split; rewrite Hl by lia; by vm_compute.
Defined.
