(* ===== verification/Trap.v ===== *)
(** The breakpoint instruction, through a gate that [SETGATE] made.

    [int3] enters the handler of vector 3 of the interrupt descriptor table:
    [lidt] names the table, a [Gatedesc] the handler, and the gate's selector a
    code segment that [SEG] describes.  The flags survive [read_eflags] and
    [write_eflags] on the stack. *)
From stdpp Require Import functions.
From S2P Require Import Prelude Mem Mmu Flags Entrypgdir Machine Cpu Asm.

(** The eight bytes of a gate, its bit-fields allocated from the low bits
    upwards. *)
Definition gatedesc_bytes (g : Gatedesc) : list Z :=
  le_split 2 (gd_off_15_0 g) ++ le_split 2 (gd_sel g) ++
  [gd_args g + 32 * gd_rsv1 g; gd_type g + 16 * (gd_s g + 2 * (gd_dpl g + 4 * gd_p g))] ++
  le_split 2 (gd_off_31_16 g).

Definition T_BRKPT : Z := 3.

(** The flags a gate clears: single steps and nested tasks, and, for an
    interrupt gate, the interrupt flag. *)
Definition FL_STEP : Z := Eval vm_compute in
  foldr Z.lor 0 (flag eflags <$> ["FL_TF"; "FL_NT"; "FL_RF"; "FL_VM"]%string).
Definition gate_flags (ty fl : Z) : Z :=
  let fl := Z.ldiff fl FL_STEP in
  if ty =? flag sys_types "STS_IG32" then Z.ldiff fl FL_IF else fl.

Section trap.
Context {D : Type} `{!Ports D} `{!Board D}.
Notation K := (M (pc D)).

(** An interrupt in protected mode, at privilege level 0 and for a handler at
    that level: a 32-bit interrupt or trap gate, whose code segment must be present
    and hold the handler.  The frame is the flags, [CS] and the address of the next
    instruction; it is translated as a whole before any of it is stored. *)
Definition interrupt (n : Z) : K unit :=
  pe ← the protected;
  t ← the (fun c => c_dt c IDT);
  if negb pe || (dt_limit t <? 8 * n + 7) then fault
  else
    bs ← lin_read 8 (u32 (dt_base t + 8 * n));
    let v := le_combine bs in
    let ty := bits v 40 4 in
    let sel := bits v 16 16 in
    let off := bits v 0 16 + Z.shiftl (bits v 48 16) 16 in
    if negb (Z.testbit v 47) || Z.testbit v 44 ||
       negb ((ty =? flag sys_types "STS_IG32") || (ty =? flag sys_types "STS_TG32")) || (Z.land sel 0xFFFC =? 0)
    then fault
    else
      d ← descriptor sel;
      let g := desc_seg (Z.land sel 0xFFFC) d in
      if negb (Z.testbit d 47 && Z.testbit d 44 && fits CS (bits d 40 4) && (bits d 45 2 =? 0)) || (sg_limit g <? off)
      then fault
      else
        c ← the id;
        let esp := u32 (c_reg c ESP - 12) in
        mem_write SS esp (le_split 4 (c_eip c) ++ le_split 4 (sg_sel (c_seg c CS)) ++ le_split 4 (c_eflags c)) ;;
        on_cpu (fun c => set_eip off (set_seg CS g (set_eflags (gate_flags ty (c_eflags c)) (set_reg ESP esp c)))).

Definition breakpoint : K unit := interrupt T_BRKPT.
End trap.

(** * Bit-fields of a descriptor *)

Lemma bits_div v lo n : 0 <= lo -> 0 <= n -> bits v lo n = v / 2 ^ lo mod 2 ^ n.
Proof. intros Hl Hn. unfold bits. by rewrite Z.shiftr_div_pow2, Z.land_ones. Qed.

Lemma testbit_div v k : 0 <= k -> Z.testbit v k = (v / 2 ^ k mod 2 =? 1).
Proof.
  intros Hk. rewrite Z.testbit_eqb by exact Hk. reflexivity.
Qed.

(** A field between what is below and what is above it. *)
Lemma bits_mid v low x high lo n :
  0 <= lo -> 0 <= n -> 0 <= low < 2 ^ lo -> 0 <= x < 2 ^ n -> v = low + 2 ^ lo * (x + 2 ^ n * high) -> bits v lo n = x.
Proof.
  intros Hlo Hn Hl Hx ->. rewrite bits_div by assumption.
  rewrite Z.add_comm, Z.mul_comm, Z.div_add_l, (Z.div_small low), Z.add_0_r by lia.
  rewrite Z.mul_comm, Z_mod_plus_full. by apply Z.mod_small.
Qed.

Lemma testbit_mid v low x high k :
  0 <= k -> 0 <= low < 2 ^ k -> 0 <= x < 2 -> v = low + 2 ^ k * (x + 2 * high) -> Z.testbit v k = (x =? 1).
Proof.
  intros Hk Hl Hx E. rewrite testbit_div by exact Hk. f_equal. change 2 with (2 ^ 1) at 2. rewrite <- bits_div by lia.
  by apply (bits_mid v low x high).
Qed.

(** The side conditions: no more than linear arithmetic. *)
Ltac mid_lia :=
  change (2 ^ 0) with 1; change (2 ^ 2) with 4; change (2 ^ 4) with 16; change (2 ^ 8) with 256; change (2 ^ 16) with 65536;
  change (2 ^ 24) with 16777216; change (2 ^ 40) with 1099511627776; change (2 ^ 44) with 17592186044416;
  change (2 ^ 45) with 35184372088832; change (2 ^ 47) with 140737488355328; change (2 ^ 48) with 281474976710656;
  change (2 ^ 54) with 18014398509481984; change (2 ^ 55) with 36028797018963968; change (2 ^ 56) with 72057594037927936; lia.

Lemma field_range w v : 0 <= w -> 0 <= field w v < 2 ^ w.
Proof. intros Hw. unfold field. apply Z.mod_pos_bound. lia. Qed.

(** What the processor reads in the bytes of a gate, field by field. *)
Lemma gate_bits g :
  0 <= gd_off_15_0 g < 65536 -> 0 <= gd_sel g < 65536 -> 0 <= gd_args g + 32 * gd_rsv1 g < 256 -> 0 <= gd_type g < 16 ->
  0 <= gd_s g < 2 -> 0 <= gd_dpl g < 4 -> 0 <= gd_p g < 2 -> 0 <= gd_off_31_16 g < 65536 ->
  let v := le_combine (gatedesc_bytes g) in
  bits v 0 16 = gd_off_15_0 g /\ bits v 16 16 = gd_sel g /\ bits v 40 4 = gd_type g /\
  Z.testbit v 44 = (gd_s g =? 1) /\ Z.testbit v 47 = (gd_p g =? 1) /\ bits v 48 16 = gd_off_31_16 g.
Proof.
  intros H1 H2 H3 H4 H5 H6 H7 H8 v.
  assert (v = gd_off_15_0 g + 65536 * (gd_sel g + 65536 * (gd_args g + 32 * gd_rsv1 g + 256 *
    (gd_type g + 16 * (gd_s g + 2 * (gd_dpl g + 4 * gd_p g)) + 256 * gd_off_31_16 g)))) as E.
  { unfold v, gatedesc_bytes. cbn [le_split app le_combine]. zlia. }
  clearbody v. set (a := gd_args g + 32 * gd_rsv1 g) in *. clearbody a.
  rewrite !bits_div, !testbit_div by lia.
  change (2 ^ 0) with 1. change (2 ^ 4) with 16. change (2 ^ 16) with 65536. change (2 ^ 40) with 1099511627776.
  change (2 ^ 44) with 17592186044416. change (2 ^ 47) with 140737488355328. change (2 ^ 48) with 281474976710656.
  split_and!; try (f_equal); subst v; zlia.
Qed.

(** What [SETGATE] stores, as the processor reads it. *)
Lemma gate_read (istrap : bool) sel off dpl :
  0 <= off < 4294967296 -> 0 <= sel < 65536 ->
  let v := le_combine (gatedesc_bytes (SETGATE istrap sel off dpl)) in
  bits v 0 16 + Z.shiftl (bits v 48 16) 16 = off /\ bits v 16 16 = sel /\
  bits v 40 4 = (if istrap then STS_TG32 else STS_IG32) /\ Z.testbit v 44 = false /\ Z.testbit v 47 = true.
Proof.
  intros Ho Hs v. destruct (setgate_spec istrap sel off dpl Ho) as (Eo & _ & Et & Ep & Es).
  destruct (gate_bits (SETGATE istrap sel off dpl)) as (E0 & E16 & E40 & E44 & E47 & E48);
    try apply (field_range 16); try apply (field_range 4); try apply (field_range 2); try done.
  fold v in E0, E16, E40, E44, E47, E48. rewrite E0, E16, E40, E44, E47, E48, Et, Ep, Es, Z.shiftl_mul_pow2 by lia.
  split_and!; try done; [unfold gate_off in Eo; lia|by apply Z.mod_small].
Qed.

(** And in the bytes of a segment descriptor. *)
Lemma seg_bits d :
  0 <= sd_lim_15_0 d < 65536 -> 0 <= sd_base_15_0 d < 65536 -> 0 <= sd_base_23_16 d < 256 -> 0 <= sd_type d < 16 ->
  0 <= sd_s d < 2 -> 0 <= sd_dpl d < 4 -> 0 <= sd_p d < 2 -> 0 <= sd_lim_19_16 d < 16 -> 0 <= sd_avl d < 2 ->
  0 <= sd_rsv1 d < 2 -> 0 <= sd_db d < 2 -> 0 <= sd_g d < 2 -> 0 <= sd_base_31_24 d < 256 ->
  let v := le_combine (segdesc_bytes d) in
  (forall sel, desc_seg sel v = mkSeg sel (seg_base d) (seg_limit d) (sd_type d) (sd_db d =? 1)) /\
  Z.testbit v 44 = (sd_s d =? 1) /\ bits v 45 2 = sd_dpl d /\ Z.testbit v 47 = (sd_p d =? 1).
Proof.
  intros H1 H2 H3 H4 H5 H6 H7 H8 H9 H10 H11 H12 H13 v.
  assert (v = sd_lim_15_0 d + 65536 * (sd_base_15_0 d + 65536 * (sd_base_23_16 d + 256 *
    (sd_type d + 16 * (sd_s d + 2 * (sd_dpl d + 4 * sd_p d)) + 256 *
    (sd_lim_19_16 d + 16 * (sd_avl d + 2 * (sd_rsv1 d + 2 * (sd_db d + 2 * sd_g d))) + 256 * sd_base_31_24 d))))) as E.
  { unfold v, segdesc_bytes. cbn [le_split app le_combine]. zlia. }
  unfold desc_seg, desc_base, desc_limit, seg_base, seg_limit. rewrite !Z.shiftl_mul_pow2 by lia.
  clearbody v. destruct d as [l15 b15 b23 ty sb dpl p l19 avl rsv db g b31].
  cbn [sd_lim_15_0 sd_base_15_0 sd_base_23_16 sd_type sd_s sd_dpl sd_p sd_lim_19_16 sd_avl sd_rsv1 sd_db sd_g sd_base_31_24] in *.
  set (low40 := l15 + 65536 * (b15 + 65536 * b23)). set (low48 := low40 + 1099511627776 * (ty + 16 * (sb + 2 * (dpl + 4 * p)))).
  set (low56 := low48 + 281474976710656 * (l19 + 16 * (avl + 2 * (rsv + 2 * (db + 2 * g))))).
  set (top48 := l19 + 16 * (avl + 2 * (rsv + 2 * (db + 2 * g))) + 256 * b31).
  set (top40 := ty + 16 * (sb + 2 * (dpl + 4 * p)) + 256 * top48).
  rewrite (bits_mid v 0 l15 (b15 + 65536 * (b23 + 256 * top40)) 0 16), (bits_mid v l15 (b15 + 65536 * b23) top40 16 24),
    (bits_mid v low40 ty (sb + 2 * (dpl + 4 * p) + 16 * top48) 40 4),
    (bits_mid v low48 l19 (avl + 2 * (rsv + 2 * (db + 2 * g)) + 16 * b31) 48 4), (bits_mid v low56 b31 0 56 8),
    (bits_mid v (low40 + 1099511627776 * (ty + 16 * sb)) dpl (p + 2 * top48) 45 2),
    (testbit_mid v (low40 + 1099511627776 * ty) sb (dpl + 4 * p + 8 * top48) 44),
    (testbit_mid v (low40 + 1099511627776 * (ty + 16 * (sb + 2 * dpl))) p top48 47),
    (testbit_mid v (low48 + 281474976710656 * (l19 + 16 * (avl + 2 * rsv))) db (g + 2 * b31) 54),
    (testbit_mid v (low48 + 281474976710656 * (l19 + 16 * (avl + 2 * (rsv + 2 * db)))) g b31 55);
    try (subst low40 low48 low56 top40 top48; mid_lia).
  split_and!; try done. intros sel. f_equal; [lia|]. destruct (g =? 1); lia.
Qed.

(** What [SEG] describes, as the processor reads it. *)
Lemma seg_read type base lim dpl sel :
  0 <= base < 4294967296 -> 0 <= lim < 4294967296 ->
  let v := le_combine (segdesc_bytes (SEG type base lim dpl)) in
  desc_seg sel v = mkSeg sel base (Z.lor lim 4095) (type mod 16) true /\
  Z.testbit v 44 = true /\ bits v 45 2 = dpl mod 4 /\ Z.testbit v 47 = true /\ bits v 40 4 = type mod 16.
Proof.
  intros Hb Hl v. destruct (seg_decode type base lim dpl Hb Hl) as (Eb & El & _).
  destruct (seg_bits (SEG type base lim dpl)) as (Es & E44 & E45 & E47); try apply (field_range 1); try apply (field_range 2);
    try apply (field_range 4); try apply (field_range 8); try apply (field_range 16); try done.
  fold v in Es, E44, E45, E47. pose proof (f_equal sg_type (Es sel)) as Ht. cbn [desc_seg sg_type] in Ht.
  rewrite Es, Eb, El, E44, E45, E47, Ht. done.
Qed.

(** * Running *)

Section run.
Context {D : Type} `{!Ports D} `{!Board D}.
Notation K := (M (pc D)).
Implicit Types s : pc D.

(** Eight bytes of a descriptor table, at physical address [pa]. *)
Lemma read8 s la pa bs :
  length bs = 8%nat -> 0 <= la -> la + 8 <= 2 ^ 32 -> maps s false la 8 pa -> bytes (p_mem s) (Addr pa) bs ->
  lin_read 8 (u32 la) s = Ok (bs, s).
Proof using Type.
  intros H8 H0 Hl Hm Hb. change (2 ^ 32) with 4294967296 in *. rewrite u32_small by lia. rewrite <- H8.
  by apply lin_read_run with (pa := pa); rewrite ?H8.
Qed.

Lemma descriptor_run s sel pa bs :
  let base := dt_base (c_dt (p_cpu s) GDT) in let idx := Z.land sel 0xFFF8 in
  length bs = 8%nat -> has_flag sel 4 = false -> idx + 7 <= dt_limit (c_dt (p_cpu s) GDT) ->
  0 <= base + idx -> base + idx + 8 <= 2 ^ 32 -> maps s false (base + idx) 8 pa -> bytes (p_mem s) (Addr pa) bs ->
  descriptor sel s = Ok (le_combine bs, s).
Proof using Type.
  intros base idx H8 Hti Hl H0 Hb Hm Hbs. unfold descriptor, the. rewrite gets_bind, Hti. fold base idx.
  rewrite (proj2 (Z.ltb_ge _ _) Hl). cbn [orb]. erewrite Mbind_run by (apply (read8 s _ pa bs); assumption). done.
Qed.

(** [lidt] in 32-bit code. *)
Lemma lidt_run s p pp lim base :
  sg_base (c_seg (p_cpu s) DS) = 0 -> p + 5 <= sg_limit (c_seg (p_cpu s) DS) -> 0 <= p -> p + 6 <= 2 ^ 32 ->
  maps s false p 6 pp -> bytes (p_mem s) (Addr pp) (le_split 2 lim ++ le_split 4 base) ->
  sg_db (c_seg (p_cpu s) CS) = true -> 0 <= lim < 65536 -> 0 <= base < 2 ^ 32 ->
  lidt p s = Ok (tt, with_cpu (set_dt IDT (mkDtr lim base) (p_cpu s)) s).
Proof using Type.
  intros Hs Hl H0 Hp Hm Hb Hdb Hlim Hbase. change (2 ^ 32) with 4294967296 in *. unfold lidt, load_dt.
  erewrite Mbind_run.
  2:{ apply (mem_read_flat s DS p pp (le_split 2 lim ++ le_split 4 base));
        change (Z.of_nat (length _)) with 6; change (2 ^ 32) with 4294967296; (assumption || lia). }
  cbv beta. unfold the. rewrite gets_bind, Hdb.
  rewrite take_app_length', drop_app_length' by done. rewrite !le_combine_split.
  change (256 ^ Z.of_nat 2) with 65536. change (256 ^ Z.of_nat 4) with 4294967296. rewrite !Z.mod_small by lia. reflexivity.
Qed.
End run.

(** The table [lidt] is given at [p], with the gate of vector 3 for a handler at
    [off] in the code segment of [sel]; the addresses with two letters are the
    physical ones of the bytes they are about. *)
Record trap_ready {D} `{!Board D} (p pp lim ib pi : Z) (istrap : bool) (sel off dpl ty base slim pg ps : Z) (s : pc D) : Prop := {
  tr_mode : protected (p_cpu s) = true /\ sg_db (c_seg (p_cpu s) CS) = true;
  tr_ds : sg_base (c_seg (p_cpu s) DS) = 0 /\ p + 5 <= sg_limit (c_seg (p_cpu s) DS);
  tr_pseudo : 0 <= p /\ p + 6 <= 2 ^ 32 /\ maps s false p 6 pp /\ bytes (p_mem s) (Addr pp) (le_split 2 lim ++ le_split 4 ib);
  tr_idt : 31 <= lim < 65536 /\ 0 <= ib /\ ib + 32 <= 2 ^ 32;
  tr_gate : maps s false (ib + 24) 8 pi /\ bytes (p_mem s) (Addr pi) (gatedesc_bytes (SETGATE istrap sel off dpl));
  tr_off : 0 <= off < 2 ^ 32 /\ off <= Z.lor slim 4095;
  tr_sel : 0 <= sel < 65536 /\ has_flag sel 4 = false /\ Z.land sel 0xFFFC <> 0;
  tr_gdt : let g := c_dt (p_cpu s) GDT in let idx := Z.land sel 0xFFF8 in
    idx + 7 <= dt_limit g /\ 0 <= dt_base g + idx /\ dt_base g + idx + 8 <= 2 ^ 32 /\
    maps s false (dt_base g + idx) 8 pg /\ bytes (p_mem s) (Addr pg) (segdesc_bytes (SEG ty base slim 0));
  tr_code : 0 <= ty < 16 /\ has_flag ty 8 = true /\ 0 <= base < 2 ^ 32 /\ 0 <= slim < 2 ^ 32;
  tr_ss : sg_base (c_seg (p_cpu s) SS) = 0 /\ writable (c_seg (p_cpu s) SS) = true /\
    c_reg (p_cpu s) ESP - 1 <= sg_limit (c_seg (p_cpu s) SS) /\ 12 <= c_reg (p_cpu s) ESP < 2 ^ 32;
  tr_stack : maps s true (c_reg (p_cpu s) ESP - 12) 12 ps /\ mapped (p_mem s) ps 12 }.

Lemma has_flag_ldiff v m f : Z.land m f = 0 -> has_flag (Z.ldiff v m) f = has_flag v f.
Proof.
  intros H. unfold has_flag. do 2 f_equal. apply Z.bits_inj'. intros i Hi.
  pose proof (f_equal (fun x => Z.testbit x i) H) as Hb. cbv beta in Hb.
  rewrite !Z.land_spec, Z.ldiff_spec, Z.bits_0 in *. by destruct (Z.testbit v i), (Z.testbit m i), (Z.testbit f i).
Qed.

Lemma has_flag_cleared v f : has_flag (Z.ldiff v f) f = false.
Proof.
  unfold has_flag. replace (Z.land (Z.ldiff v f) f) with 0; [done|]. apply Z.bits_inj'. intros i Hi.
  rewrite Z.land_spec, Z.ldiff_spec, Z.bits_0. by destruct (Z.testbit v i), (Z.testbit f i).
Qed.

(** A trap gate leaves the interrupt flag alone, an interrupt gate clears it. *)
Lemma gate_flags_if (istrap : bool) fl :
  has_flag (gate_flags (if istrap then STS_TG32 else STS_IG32) fl) FL_IF = istrap && has_flag fl FL_IF.
Proof. destruct istrap; [by apply has_flag_ldiff|apply has_flag_cleared]. Qed.

(** C28: a breakpoint enters its handler: after [lidt] of a table whose gate 3 is
    made by [SETGATE], [breakpoint] continues at the gate's address in the code
    segment its selector names, with the flags, the old code segment and the
    address of the next instruction on the stack; interrupts are off behind an
    interrupt gate and unchanged behind a trap gate; nothing else changes. *)
Theorem breakpoint_spec {D} `{!Ports D} `{!Board D} (s : pc D) p pp lim ib pi istrap sel off dpl ty base slim pg ps :
  trap_ready p pp lim ib pi istrap sel off dpl ty base slim pg ps s ->
  let c := p_cpu s in
  let frame := le_split 4 (c_eip c) ++ le_split 4 (sg_sel (c_seg c CS)) ++ le_split 4 (c_eflags c) in
  let fl := gate_flags (if istrap then STS_TG32 else STS_IG32) (c_eflags c) in
  (lidt p ;; breakpoint) s = Ok (tt, mkPc
    (set_eip off (set_seg CS (mkSeg (Z.land sel 0xFFFC) base (Z.lor slim 4095) ty true) (set_eflags fl
      (set_reg ESP (c_reg c ESP - 12) (set_dt IDT (mkDtr lim ib) c)))))
    (mkHw (write_bytes (p_mem s) ps frame) (p_dev s) (h_log (p_hw s)))) /\
  has_flag fl FL_IF = istrap && has_flag (c_eflags c) FL_IF.
Proof.
  intros [[Hpe Hdb] [Hds Hdl] (Hp0 & Hp & Hpm & Hpb) (Hlim & Hib0 & Hib) [Hgm Hgb] [Ho Hol] (Hsel & Hti & Hnz)
    (Hgl & Hg0 & Hg & Hsm & Hsb) (Hty & Hx & Hbase & Hslim) (Hss & Hsw & Hsl & Hesp) [Hkm Hk]] c frame fl.
  split; [|apply gate_flags_if]. change (2 ^ 32) with 4294967296 in *.
  erewrite Mbind_run by (apply (lidt_run s p pp lim ib); try assumption; change (2 ^ 32) with 4294967296; lia).
  cbv beta. set (s1 := with_cpu _ s). unfold breakpoint, interrupt, T_BRKPT, the. rewrite !gets_bind.
  assert (c_dt (p_cpu s1) IDT = mkDtr lim ib) as E1 by (cbn [p_cpu with_cpu s1 set_dt c_dt]; apply fn_lookup_insert).
  assert (c_dt (p_cpu s1) GDT = c_dt (p_cpu s) GDT) as E2
    by (cbn [p_cpu with_cpu s1 set_dt c_dt]; by rewrite fn_lookup_insert_ne).
  assert (protected (p_cpu s1) = true) as E3 by exact Hpe. rewrite E3, E1. cbn [dt_limit dt_base].
  rewrite (proj2 (Z.ltb_ge lim _)) by lia. cbn [negb orb].
  erewrite Mbind_run by (apply (read8 s1 _ pi (gatedesc_bytes (SETGATE istrap sel off dpl))); try done;
    change (2 ^ 32) with 4294967296; lia). cbv beta zeta.
  destruct (gate_read istrap sel off dpl Ho Hsel) as (-> & -> & -> & -> & ->).
  rewrite (proj2 (Z.eqb_neq _ _) Hnz).
  assert ((if istrap then STS_TG32 else STS_IG32) =? flag sys_types "STS_IG32" = negb istrap /\
    ((if istrap then STS_TG32 else STS_IG32) =? flag sys_types "STS_TG32") = istrap) as [-> ->] by (by destruct istrap).
  rewrite orb_negb_l. cbn [negb orb].
  erewrite Mbind_run by (apply (descriptor_run s1 sel pg (segdesc_bytes (SEG ty base slim 0))); rewrite ?E2;
    change (2 ^ 32) with 4294967296; assumption || reflexivity). cbv beta.
  destruct (seg_read ty base slim 0 (Z.land sel 0xFFFC) Hbase Hslim) as (-> & -> & -> & -> & ->).
  rewrite (Z.mod_small ty) by lia. cbn [sg_limit fits]. rewrite Hx, (proj2 (Z.ltb_ge _ _) Hol). cbn [negb andb orb Z.eqb].
  change (0 mod 4 =? 0) with true. cbn [negb orb]. rewrite gets_bind. unfold id.
  change (c_reg (p_cpu s1) ESP) with (c_reg c ESP). rewrite u32_small by (unfold c; lia).
  erewrite Mbind_run by (apply (mem_write_flat s1 SS (c_reg c ESP - 12) ps);
    change (Z.of_nat (length _)) with 12; change (2 ^ 32) with 4294967296;
    change (c_seg (p_cpu s1) SS) with (c_seg (p_cpu s) SS); unfold c;
    (assumption || lia || (repeat apply Forall_app_2; apply le_split_bytes))).
  reflexivity.
Qed.

(** Flat segments, no paging: the tables are in memory, and the stack. *)
#[local] Instance no_ports : Ports unit := {|
  dev_in := fun _ d => (0, d); dev_in16 := fun _ d => (0, d); dev_in32 := fun _ d => (0, d);
  dev_out := fun _ _ d => d; dev_out16 := fun _ _ d => d; dev_out32 := fun _ _ d => d; dev_bus := fun _ _ => 0 |}.
#[local] Instance no_board : Board unit := {| a20 := fun _ => true; tsc := fun _ => 0 |}.

Definition ex_trap_mem : mem :=
  let m := write_bytes ∅ 0x8018 (gatedesc_bytes (SETGATE false 8 0xf0104242 0)) in
  let m := write_bytes m 0x9000 (le_split 2 0x7ff ++ le_split 4 0x8000) in
  let m := write_bytes m 0xa008 (segdesc_bytes (SEG (Z.lor STA_X STA_R) 0 0xffffffff 0)) in
  write_bytes m 0x7bf4 (replicate 12 0).
Definition ex_trap : pc unit :=
  mkPc (mkCpu (fun r => if decide (r = ESP) then 0x7c00 else 0) 0xf0100123 0x246
    (fun r => if decide (r = CS) then mkSeg 8 0 0xFFFFFFFF 0xA true else mkSeg 16 0 0xFFFFFFFF 2 true)
    (fun r => if decide (r = CR0) then CR0_PE else 0) (fun t => if decide (t = GDT) then mkDtr 0x17 0xa000 else mkDtr 0 0)
    (fun _ => 0) ∅) (mkHw ex_trap_mem tt []).

Lemma breakpoint_spec_witness :
  exists s', (lidt 0x9000 ;; breakpoint) ex_trap = Ok (tt, s') /\ c_eip (p_cpu s') = 0xf0104242 /\
    c_eflags (p_cpu s') = 0x46 /\ bytes (p_mem s') (Addr 0x7bf4) (le_split 4 0xf0100123 ++ le_split 4 8 ++ le_split 4 0x246).
Proof.
  assert (forall w la n, maps ex_trap w la n la) as Hm by (intros w la n i _; by apply physical_unpaged; [|left]).
  eexists. split.
  - apply (breakpoint_spec ex_trap 0x9000 0x9000 0x7ff 0x8000 0x8018 false 8 0xf0104242 0 0xA 0 0xffffffff 0xa008 0x7bf4).
    split; repeat first [split | apply Hm]; try reflexivity; try (vm_compute; congruence); try decided.
  - split; [reflexivity|]. split; [reflexivity|]. apply bytes_write_bytes.
Defined.

(** * The flags on the stack *)

(** Words, bit by bit. *)
Lemma word_high v i : 0 <= v < 2 ^ 32 -> 32 <= i -> Z.testbit v i = false.
Proof.
  intros Hv Hi. rewrite Z.testbit_eqb, Z.div_small; [done| |lia].
  pose proof (Z.pow_le_mono_r 2 32 i ltac:(lia) Hi). lia.
Qed.

Lemma word_bits v : (forall i, 32 <= i -> Z.testbit v i = false) -> 0 <= v < 2 ^ 32.
Proof.
  intros H. replace v with (Z.land v (Z.ones 32)); [rewrite Z.land_ones by lia; apply Z.mod_pos_bound; lia|].
  apply Z.bits_inj'. intros i Hi. rewrite Z.land_spec, Z.testbit_ones_nonneg by lia.
  destruct (Z.ltb_spec i 32); [by rewrite andb_true_r|by rewrite andb_false_r, H].
Qed.

(** The flags after [popfl] of [v], and what [pushfl] stores of them. *)
Definition popped (v old : Z) : Z := Z.lor (Z.ldiff (Z.ldiff old FL_POPPED) (flag eflags "FL_RF")) (Z.land v FL_POPPED).

Lemma popped_word v old : 0 <= old < 2 ^ 32 -> 0 <= popped v old < 2 ^ 32.
Proof.
  intros Ho. apply word_bits. intros i Hi. unfold popped. rewrite Z.lor_spec, !Z.ldiff_spec, Z.land_spec.
  rewrite (word_high old), (word_high FL_POPPED) by (assumption || by vm_compute). by rewrite andb_false_r.
Qed.

Lemma hidden_word v : 0 <= v < 2 ^ 32 -> 0 <= Z.ldiff v FL_HIDDEN < 2 ^ 32.
Proof. intros Hv. apply word_bits. intros i Hi. by rewrite Z.ldiff_spec, word_high. Qed.

Lemma popped_pushed v old :
  Z.ldiff (popped v old) FL_HIDDEN = Z.ldiff (Z.lor (Z.ldiff old FL_POPPED) (Z.land v FL_POPPED)) FL_HIDDEN.
Proof.
  assert (forall i, 0 <= i -> Z.testbit (flag eflags "FL_RF") i = true -> Z.testbit FL_HIDDEN i = true) as H.
  { intros i Hi Ht. change FL_HIDDEN with (Z.lor (flag eflags "FL_RF") (flag eflags "FL_VM")). by rewrite Z.lor_spec, Ht. }
  apply Z.bits_inj'. intros i Hi. unfold popped. rewrite !Z.ldiff_spec, !Z.lor_spec, !Z.ldiff_spec, !Z.land_spec.
  specialize (H i Hi). destruct (Z.testbit (flag eflags "FL_RF") i); [rewrite H by done; by rewrite !andb_false_r|].
  by rewrite andb_true_r.
Qed.

Lemma popped_hidden old : has_flag old FL_HIDDEN = false -> popped (Z.ldiff old FL_HIDDEN) old = old.
Proof.
  unfold has_flag. intros H%negb_false_iff%Z.eqb_eq. apply Z.bits_inj'. intros i Hi.
  pose proof (f_equal (fun x => Z.testbit x i) H) as Hb. cbv beta in Hb.
  change FL_HIDDEN with (Z.lor (flag eflags "FL_RF") (flag eflags "FL_VM")) in *. unfold popped.
  rewrite Z.land_spec, Z.lor_spec, Z.bits_0 in Hb.
  rewrite Z.lor_spec, Z.land_spec, !Z.ldiff_spec, Z.lor_spec.
  destruct (Z.testbit old i), (Z.testbit FL_POPPED i), (Z.testbit (flag eflags "FL_RF") i); cbn in *; try done;
    by rewrite Hb.
Qed.

Section flags.
Context {D : Type} `{!Ports D} `{!Board D}.
Implicit Types s : pc D.

(** A flat stack with room for a word, whose translation no store to it
    changes. *)
Record push_room (pa : Z) s : Prop := {
  pr_seg : sg_base (c_seg (p_cpu s) SS) = 0 /\ writable (c_seg (p_cpu s) SS) = true /\
    c_reg (p_cpu s) ESP - 1 <= sg_limit (c_seg (p_cpu s) SS) /\ 4 <= c_reg (p_cpu s) ESP < 2 ^ 32;
  pr_maps : forall m w, (forall a, a < pa \/ pa + 4 <= a -> m !! a = p_mem s !! a) ->
    maps (with_mem m s) w (c_reg (p_cpu s) ESP - 4) 4 pa;
  pr_mapped : mapped (p_mem s) pa 4 }.

(** A word pushed and popped again. *)
Definition pushed (pa v : Z) s : pc D :=
  let c := p_cpu s in let esp := c_reg c ESP in
  mkPc (set_reg ESP esp (set_reg ESP (esp - 4) c)) (mkHw (write_bytes (p_mem s) pa (le_split 4 v)) (p_dev s) (h_log (p_hw s))).

Lemma push_pop pa s v :
  push_room pa s -> (push32 v ;; pop32) s = Ok (u32 v, pushed pa v s).
Proof using Type.
  intros [(Hb & Hw & Hl & He) Hm Hk]. change (2 ^ 32) with 4294967296 in *.
  assert (with_mem (p_mem s) s = s) as Es by (by destruct s as [? [? ? ?]]).
  pose proof (Hm (p_mem s) true ltac:(done)) as Hpush. rewrite Es in Hpush.
  erewrite Mbind_run by (apply (push32_flat s v pa); try assumption; change (2 ^ 32) with 4294967296; lia).
  cbv beta. set (s1 := mkPc _ _). unfold pop32, the. rewrite gets_bind.
  assert (c_reg (p_cpu s1) ESP = c_reg (p_cpu s) ESP - 4) as E by (cbn [s1 p_cpu set_reg c_reg]; apply fn_lookup_insert).
  rewrite E. erewrite Mbind_run.
  2:{ apply (mem_read_flat s1 SS _ pa (le_split 4 v)); rewrite ?length_le_split; change (Z.of_nat 4) with 4;
      change (2 ^ 32) with 4294967296; change (c_seg (p_cpu s1) SS) with (c_seg (p_cpu s) SS); try assumption; try lia.
      - apply (Hm (p_mem s1) false). intros a Ha. cbn [s1 p_mem p_hw h_mem]. apply write_bytes_out.
        rewrite length_le_split. lia.
      - apply bytes_write_bytes. }
  cbv beta. unfold on_cpu. rewrite modify_bind, le_combine_split. change (256 ^ Z.of_nat 4) with 4294967296.
  rewrite u32_small by lia. replace (c_reg (p_cpu s) ESP - 4 + 4) with (c_reg (p_cpu s) ESP) by lia. reflexivity.
Qed.

Lemma push_room_pushed pa s v : push_room pa s -> push_room pa (pushed pa v s).
Proof using Type.
  intros [Hs Hm Hk]. assert (forall c : cpu, c_reg (set_reg ESP (c_reg (p_cpu s) ESP) c) ESP = c_reg (p_cpu s) ESP) as E
    by (intros c; apply fn_lookup_insert).
  split; cbn [pushed p_cpu].
  - exact Hs.
  - rewrite E. intros m w Ha. apply (Hm m w). intros a Hout. rewrite (Ha a Hout). apply write_bytes_out.
    rewrite length_le_split. lia.
  - by apply write_bytes_mapped.
Qed.

Lemma push_room_flags pa s f : push_room pa s -> push_room pa (with_cpu (set_eflags f (p_cpu s)) s).
Proof using Type. intros [Hs Hm Hk]. by split. Qed.

Lemma write_eflags_run pa s v :
  push_room pa s ->
  let s1 := pushed pa (u32 v) s in
  write_eflags v s = Ok (tt, with_cpu (set_eflags (popped (u32 v) (c_eflags (p_cpu s))) (p_cpu s1)) s1).
Proof using Type.
  intros Hr s1. unfold write_eflags, popfl. rewrite <- (Mbind_assoc _ (fun _ => pop32)).
  erewrite Mbind_run by exact (push_pop pa s (u32 v) Hr). rewrite (u32_small (u32 v)) by apply u32_range. reflexivity.
Qed.

Lemma read_eflags_run pa s :
  push_room pa s -> 0 <= c_eflags (p_cpu s) < 2 ^ 32 ->
  read_eflags s = Ok (Z.ldiff (c_eflags (p_cpu s)) FL_HIDDEN, pushed pa (Z.ldiff (c_eflags (p_cpu s)) FL_HIDDEN) s).
Proof using Type.
  intros Hr Hf. unfold read_eflags, pushfl, the. rewrite Mbind_assoc, gets_bind, (push_pop pa s _ Hr). do 2 f_equal.
  apply u32_small. by apply hidden_word.
Qed.
End flags.

(** The flags go through memory and back: [read_eflags] after [write_eflags]
    gives the written flags where [popfl] may change them and the old ones
    elsewhere, without RF and VM; writing back what was read restores the flags. *)
Theorem eflags_roundtrip {D} `{!Ports D} `{!Board D} (s : pc D) pa v :
  push_room pa s -> let old := c_eflags (p_cpu s) in 0 <= old < 2 ^ 32 -> 0 <= v < 2 ^ 32 ->
  (exists s', (write_eflags v ;; read_eflags) s =
     Ok (Z.ldiff (Z.lor (Z.ldiff old FL_POPPED) (Z.land v FL_POPPED)) FL_HIDDEN, s') /\
     c_reg (p_cpu s') ESP = c_reg (p_cpu s) ESP) /\
  (has_flag old FL_HIDDEN = false -> exists s', (fl ← read_eflags; write_eflags fl) s = Ok (tt, s') /\
     c_eflags (p_cpu s') = old /\ c_reg (p_cpu s') ESP = c_reg (p_cpu s) ESP).
Proof.
  intros Hr old Ho Hv. assert (u32 v = v) as Ev by (by apply u32_small).
  pose proof (push_room_pushed pa s (u32 v) Hr) as Hr1. split.
  - eexists. split.
    + erewrite Mbind_run by exact (write_eflags_run pa s v Hr). cbv beta.
      rewrite (read_eflags_run pa _ (push_room_flags pa _ _ Hr1)) by (by apply popped_word).
      cbn [with_cpu p_cpu set_eflags c_eflags]. rewrite popped_pushed, Ev. reflexivity.
    + apply fn_lookup_insert.
  - intros Hh. eexists. split.
    + erewrite Mbind_run by exact (read_eflags_run pa s Hr Ho). cbv beta.
      apply (write_eflags_run pa). by apply push_room_pushed.
    + cbn [with_cpu p_cpu set_eflags c_eflags]. split; [|apply fn_lookup_insert].
      rewrite u32_small by (by apply hidden_word). by apply popped_hidden.
Qed.
