(* ===== verification/ConsOut.v ===== *)
(** kern/console.c, output: the serial port, the parallel port and the CGA
    display.

    [cons_putc] and [cga_putc] call each other (a tab is printed as blanks):
    [cga_putc] takes the recursive call as an argument and [cons_putc] ties
    the knot at depth two, which no call exceeds since a blank is not a tab.
    [crt_buf] is an address of the kernel's memory, where the display's cells
    are 16-bit words; [screen_putc] is what the display promises, on a list of
    cells. *)
From S2P Require Import Prelude Mem Cstring Mmu Machine.

(** ** Constants *)

Definition COM1 : Z := 0x3F8.
Definition COM_RX : Z := 0.
Definition COM_TX : Z := 0.
Definition COM_DLL : Z := 0.
Definition COM_DLM : Z := 1.
Definition COM_IER : Z := 1.
Definition COM_IER_RDI : Z := 0x01.
Definition COM_IIR : Z := 2.
Definition COM_FCR : Z := 2.
Definition COM_LCR : Z := 3.
Definition COM_LCR_DLAB : Z := 0x80.
Definition COM_LCR_WLEN8 : Z := 0x03.
Definition COM_MCR : Z := 4.
Definition COM_LSR : Z := 5.
Definition COM_LSR_DATA : Z := 0x01.
Definition COM_LSR_TXRDY : Z := 0x20.

Definition MONO_BASE : Z := 0x3B4.
Definition MONO_BUF : Z := 0xB0000.
Definition CGA_BASE : Z := 0x3D4.
Definition CGA_BUF : Z := 0xB8000.
Definition CRT_ROWS : Z := 25.
Definition CRT_COLS : Z := 80.
Definition CRT_SIZE : Z := CRT_ROWS * CRT_COLS.

Section output.
Context {D : Type} `{!Ports D}.
Notation K := (M (kst D)).

Definition inb_k (port : Z) : K Z := on_hw (inb port).
Definition outb_k (port data : Z) : K unit := on_hw (outb port data).

Definition delay : K unit :=
  inb_k 0x84 ;; inb_k 0x84 ;; inb_k 0x84 ;; inb_k 0x84 ;; mret tt.

(** Poll a status port for a bit, at most 12800 times. *)
Definition poll_body (port mask i : Z) : K (Z + unit) :=
  v ← inb_k port;
  if (Z.land v mask =? 0) && (i <? 12800) then delay ;; mret (inl (s32 (i + 1)))
  else mret (inr tt).

(** ** Serial port *)

Definition serial_putc (c : Z) : K unit :=
  whileM (poll_body (COM1 + COM_LSR) COM_LSR_TXRDY) 0 ;;
  outb_k (COM1 + COM_TX) c.

Definition serial_init : K unit :=
  outb_k (COM1 + COM_FCR) 0 ;;
  outb_k (COM1 + COM_LCR) COM_LCR_DLAB ;;
  outb_k (COM1 + COM_DLL) (u8 (115200 / 9600)) ;;
  outb_k (COM1 + COM_DLM) 0 ;;
  outb_k (COM1 + COM_LCR) (Z.land COM_LCR_WLEN8 (Z.lnot COM_LCR_DLAB)) ;;
  outb_k (COM1 + COM_MCR) 0 ;;
  outb_k (COM1 + COM_IER) COM_IER_RDI ;;
  v ← inb_k (COM1 + COM_LSR);
  modify (set_serial (negb (v =? 0xFF))) ;;
  inb_k (COM1 + COM_IIR) ;;
  inb_k (COM1 + COM_RX) ;;
  mret tt.

(** ** Parallel port *)

Definition lpt_putc (c : Z) : K unit :=
  whileM (poll_body (0x378 + 1) 0x80) 0 ;;
  outb_k (0x378 + 0) c ;;
  outb_k (0x378 + 2) (Z.lor (Z.lor 0x08 0x04) 0x01) ;;
  outb_k (0x378 + 2) 0x08.

(** ** Display *)

(** A volatile access: where no memory answers, a read returns what is on the
    bus and a write is lost. *)
Definition vload16 (a : Z) : K Z := fun s =>
  match load16 (k_mem s) (Addr a) with
  | Ok v => Ok (v, s)
  | Err _ => Ok (u16 (dev_bus (h_dev (k_hw s)) a), s)
  end.
Definition vstore16 (a v : Z) : K unit := fun s =>
  match store16 (k_mem s) (Addr a) v with
  | Ok m => Ok (tt, set_mem m s)
  | Err _ => Ok (tt, s)
  end.

Definition cga_init : K unit :=
  let cp := KERNBASE + CGA_BUF in
  was ← vload16 cp;
  vstore16 cp 0xA55A ;;
  now ← vload16 cp;
  r ← (if negb (now =? 0xA55A) then mret (KERNBASE + MONO_BUF, MONO_BASE)
       else vstore16 cp was ;; mret (cp, CGA_BASE));
  outb_k r.2 14 ;;
  hi ← inb_k (r.2 + 1);
  outb_k r.2 15 ;;
  lo ← inb_k (r.2 + 1);
  let pos := Z.lor (Z.shiftl hi 8) lo in
  modify (set_crt (mkCrt r.2 r.1 (u16 pos))).

Definition set_pos (p : Z) : K unit :=
  modify (fun s => set_crt (mkCrt (addr_6845 (k_crt s)) (crt_buf (k_crt s)) (u16 p)) s).

(** [crt_buf[i] = v] *)
Definition crt_store (i v : Z) : K unit := fun s =>
  store_k (fun m => store16 m (Addr (crt_buf (k_crt s) + 2 * i)) (u16 v)) s.

Definition blank_body (i : Z) : K (Z + unit) :=
  if i <? CRT_SIZE then crt_store i (Z.lor 0x0700 32) ;; mret (inl (i + 1))
  else mret (inr tt).

(** Scroll up by a line when the cursor is off the screen. *)
Definition cga_scroll : K unit :=
  crt ← gets k_crt;
  if crt_pos crt >=? CRT_SIZE then
    on_mem (fun m => memmove m (crt_buf crt) (crt_buf crt + 2 * CRT_COLS)
                       ((CRT_SIZE - CRT_COLS) * 2)) ;;
    whileM blank_body (CRT_SIZE - CRT_COLS) ;;
    set_pos (crt_pos crt - CRT_COLS)
  else mret tt.

(** Move the hardware cursor. *)
Definition cga_cursor : K unit :=
  crt ← gets k_crt;
  outb_k (addr_6845 crt) 14 ;;
  outb_k (addr_6845 crt + 1) (Z.shiftr (crt_pos crt) 8) ;;
  outb_k (addr_6845 crt) 15 ;;
  outb_k (addr_6845 crt + 1) (crt_pos crt).

(** The switch on the character. *)
Definition cga_switch (cons_putc : Z -> K unit) (c : Z) : K unit :=
  crt ← gets k_crt;
  let pos := crt_pos crt in
  let ch := Z.land c 0xff in
  if ch =? 8 (* \b *) then
    if pos >? 0 then
      set_pos (pos - 1) ;;
      crt_store (u16 (pos - 1)) (Z.lor (Z.land c (Z.lnot 0xff)) 32)
    else mret tt
  else if ch =? 10 (* \n *) then
    let pos := u16 (pos + CRT_COLS) in set_pos (pos - pos mod CRT_COLS)
  else if ch =? 13 (* \r *) then set_pos (pos - pos mod CRT_COLS)
  else if ch =? 9 (* \t *) then
    cons_putc 32 ;; cons_putc 32 ;; cons_putc 32 ;; cons_putc 32 ;; cons_putc 32
  else
    crt_store pos c ;; set_pos (pos + 1).

Definition cga_putc (cons_putc : Z -> K unit) (c : Z) : K unit :=
  let c := if Z.land c (Z.lnot 0xFF) =? 0 then Z.lor c 0x0700 else c in
  cga_switch cons_putc c ;;
  cga_scroll ;;
  cga_cursor.

(** ** The console *)

Fixpoint cons_putc_at (depth : nat) (c : Z) : K unit :=
  match depth with
  | O => fun _ => Err Fuel
  | S depth' => serial_putc c ;; lpt_putc c ;; cga_putc (cons_putc_at depth') c
  end.

Definition cons_putc (c : Z) : K unit := cons_putc_at 2 c.

Definition cputchar (c : Z) : K unit := cons_putc c.
End output.

(** * The display as a list of cells *)

Definition screen : Type := list Z * Z.

Definition blank : Z := 0x720.

(** A character with its attribute: black on white when it has none. *)
Definition with_attr (c : Z) : Z := if (0 <=? c) && (c <? 256) then c + 0x700 else c.

Definition screen_scroll (sc : screen) : screen :=
  if sc.2 >=? 2000 then (drop 80 sc.1 ++ replicate 80 blank, sc.2 - 80) else sc.

(** Any character but a tab. *)
Definition screen_char (c : Z) (sc : screen) : screen :=
  let '(cells, pos) := sc in
  if u8 c =? 8 then
    if pos >? 0 then (<[Z.to_nat (pos - 1) := u16 (with_attr c - 8 + 32)]> cells, pos - 1) else sc
  else if u8 c =? 10 then (cells, (pos / 80 + 1) * 80)
  else if u8 c =? 13 then (cells, pos / 80 * 80)
  else (<[Z.to_nat pos := u16 (with_attr c)]> cells, pos + 1).

(** A tab is five blanks. *)
Definition screen_putc (c : Z) (sc : screen) : screen :=
  if u8 c =? 9 then Nat.iter 5 (fun sc => screen_scroll (screen_char 32 sc)) sc
  else screen_scroll (screen_char c sc).

(** The characters the serial and the parallel port are sent. *)
Definition sent (c : Z) : list Z := if u8 c =? 9 then [9; 32; 32; 32; 32; 32] else [u8 c].

(** The values written to a port. *)
Definition outs (port : Z) (l : list ioev) : list Z :=
  omap (fun e => match e with Out p v => if p =? port then Some v else None | _ => None end) l.

(** * Lemmas *)

(** ** Cells in memory *)

Definition words (cells : list Z) : list Z := flat_map (le_split 2) cells.

Definition cell_ok (v : Z) : Prop := 0 <= v < 65536.

#[export] Instance cell_ok_dec v : Decision (cell_ok v).
Proof. unfold cell_ok. apply _. Defined.

Lemma length_cells cells : length (words cells) = (2 * length cells)%nat.
Proof. unfold words. induction cells; simpl in *; lia. Qed.

Lemma words_app l1 l2 : words (l1 ++ l2) = words l1 ++ words l2.
Proof. unfold words. by rewrite flat_map_app. Qed.

Lemma words_bytes cells : Forall is_byte (words cells).
Proof.
  unfold words. induction cells as [|c cells IH]; [constructor|].
  cbn [flat_map]. apply Forall_app. split; [apply le_split_bytes|done].
Qed.

(** Rewriting a part of a block. *)
Lemma write_bytes_part m a l1 l2 l3 l2' :
  length l2' = length l2 ->
  write_bytes (write_bytes m a (l1 ++ l2 ++ l3)) (a + Z.of_nat (length l1)) l2' =
  write_bytes m a (l1 ++ l2' ++ l3).
Proof.
  intros Hl. rewrite !(write_bytes_app _ _ l1), !(write_bytes_app _ _ _ l3), Hl.
  rewrite <- (write_bytes_comm _ _ l2') by lia. f_equal. by apply write_bytes_over.
Qed.

Lemma write_bytes_start m a l l3 l2 :
  length l = length l2 -> bytes m (Addr a) (l2 ++ l3) ->
  write_bytes m a l = write_bytes m a (l ++ l3).
Proof.
  intros Hl Hb. pose proof (write_bytes_part m a [] l2 l3 l Hl) as H.
  cbn [app length] in H. by rewrite Z.add_0_r, (write_bytes_id m a _ Hb) in H.
Qed.

Lemma store_cell m a cells i v :
  0 <= i < Z.of_nat (length cells) ->
  store16 (write_bytes m a (words cells)) (Addr (a + 2 * i)) v =
    Ok (write_bytes m a (words (<[Z.to_nat i := v]> cells))).
Proof.
  intros Hi. destruct (lookup_lt_is_Some_2 cells (Z.to_nat i)) as [c Hc]; [lia|].
  assert (length (words (take (Z.to_nat i) cells)) = (2 * Z.to_nat i)%nat) as Hlen
    by (rewrite length_cells, length_take; lia).
  rewrite insert_take_drop by lia. rewrite <- (take_drop_middle cells _ _ Hc) at 1.
  rewrite !words_app. change (words (?x :: ?l)) with (le_split 2 x ++ words l).
  unfold store16. replace (a + 2 * i) with (a + Z.of_nat (length (words (take (Z.to_nat i) cells)))) by lia.
  rewrite storen_write; [by rewrite write_bytes_part|..|apply le_split_bytes].
  intros x Hx. rewrite write_bytes_lookup. rewrite length_le_split in Hx.
  rewrite !length_app, length_le_split. rewrite decide_True by lia.
  apply lookup_lt_is_Some_2. rewrite !length_app, length_le_split. lia.
Qed.

(** Reading a cell back. *)
Lemma load16_store m a cells i v :
  Forall cell_ok cells -> cells !! Z.to_nat i = Some v -> 0 <= i ->
  bytes m (Addr a) (words cells) -> load16 m (Addr (a + 2 * i)) = Ok v.
Proof.
  intros Hc Hv Hi Hb. rewrite <- (take_drop_middle cells _ _ Hv), !words_app in Hb.
  change (words (?x :: ?l)) with (le_split 2 x ++ words l) in Hb.
  apply bytes_app in Hb as [_ Hb]. apply bytes_app in Hb as [Hb _]. cbn [padd] in Hb.
  rewrite length_cells, length_take in Hb. apply lookup_lt_Some in Hv as Hlt.
  replace (a + Z.of_nat (2 * (Z.to_nat i `min` length cells))) with (a + 2 * i) in Hb by lia.
  unfold load16. apply loadn_bytes in Hb. rewrite length_le_split in Hb. rewrite Hb. red_bind.
  rewrite le_combine_split. rewrite Forall_lookup in Hc. specialize (Hc _ _ Hv).
  f_equal. apply Z.mod_small. exact Hc.
Qed.

(** Bit operations of [cga_putc] as arithmetic. *)
Lemma land_lnot255 c : Z.land c (Z.lnot 0xFF) = c - u8 c.
Proof.
  change 0xFF with (Z.ones 8). rewrite <- Z.ldiff_land, Z.ldiff_ones_r by lia.
  rewrite Z.shiftr_div_pow2, Z.shiftl_mul_pow2 by lia. change (2 ^ 8) with 256. zlia.
Qed.

Lemma land255 c : Z.land c 0xff = u8 c.
Proof. change 0xff with (Z.ones 8). by rewrite Z.land_ones by lia. Qed.

Lemma lor_attr c : 0 <= c < 256 -> Z.lor c 0x700 = c + 0x700.
Proof.
  revert c. refine (byte_forall (fun c => Z.lor c 0x700 = c + 0x700) _). vm_compute. reflexivity.
Qed.

Lemma with_attr_code c : (if Z.land c (Z.lnot 0xFF) =? 0 then Z.lor c 0x0700 else c) = with_attr c.
Proof.
  rewrite land_lnot255. unfold with_attr. destruct (Z.eqb_spec (c - u8 c) 0) as [Hc|Hc].
  - pose proof (u8_range c). rewrite lor_attr by lia.
    destruct (Z.leb_spec 0 c), (Z.ltb_spec c 256); simpl; lia.
  - destruct (Z.leb_spec 0 c), (Z.ltb_spec c 256); simpl; try done. rewrite u8_small in Hc; lia.
Qed.

Lemma u8_with_attr c : u8 (with_attr c) = u8 c.
Proof. unfold with_attr. destruct ((0 <=? c) && (c <? 256)); [|done]. zlia. Qed.

Lemma lor_blank c : Z.lor (Z.land c (Z.lnot 0xff)) 32 = c - u8 c + 32.
Proof.
  rewrite land_lnot255. replace (c - u8 c) with (Z.shiftl (c / 256) 8)
    by (rewrite Z.shiftl_mul_pow2 by lia; change (2 ^ 8) with 256; zlia).
  rewrite lor_shiftl_add by (change (2 ^ 8) with 256; lia).
  by rewrite Z.shiftl_mul_pow2 by lia.
Qed.

(** ** Polling *)

Definition is_in (e : ioev) : Prop := match e with In _ _ => True | _ => False end.

Lemma outs_app port l1 l2 : outs port (l1 ++ l2) = outs port l1 ++ outs port l2.
Proof. apply omap_app. Qed.

Lemma outs_in port l : Forall is_in l -> outs port l = [].
Proof. induction 1 as [|[] l He _ IH]; simpl in *; done. Qed.

Section polling.
Context {D : Type} `{!Ports D}.
Notation K := (M (kst D)).

Lemma io_delay :
  io_only (fun _ e => Forall is_in e /\ length e = 4%nat) (delay : K unit).
Proof using Type.
  unfold delay, inb_k. repeat (eapply io_bind; [apply io_inb|]; intros ? ? (_ & ->)).
  apply io_ret. simpl. split; [repeat constructor|done].
Qed.

(** Polling stops: after at most 12801 reads of the status port. *)
Lemma io_poll port mask :
  io_only (fun _ e => Forall is_in e /\ Z.of_nat (length e) <= 64001)
    (whileM (poll_body port mask) 0 : K unit).
Proof using Type.
  eapply (io_while _ (fun i => Z.to_nat (12801 - i))
    (fun i e => 0 <= i <= 12800 /\ Forall is_in e /\ Z.of_nat (length e) = 5 * i)
    (fun _ e => Forall is_in e /\ Z.of_nat (length e) <= 64001));
    [|split_and!; [lia|lia|constructor|done]|vm_compute; reflexivity].
  intros i e (Hi & He & Hl). unfold poll_body, inb_k.
  eapply io_bind; [apply io_inb|]. intros v e1 [_ ->]. cbv beta.
  destruct ((Z.land v mask =? 0) && (i <? 12800)) eqn:Hc.
  - apply andb_true_iff in Hc as [_ Hc]. apply Z.ltb_lt in Hc.
    eapply io_bind; [apply io_delay|]. intros _ e2 [He2 Hl2]. apply io_ret. cbv beta.
    rewrite s32_small, !app_nil_r by lia. rewrite !length_app. simpl.
    split_and!; [lia|lia| |lia|lia]. apply Forall_app; split; [done|].
    by constructor.
  - apply io_ret. rewrite app_nil_r, length_app. simpl. split; [|lia].
    apply Forall_app; split; [done|by repeat constructor].
Qed.

(** The serial port gets exactly the character, after finitely many polls. *)
Lemma io_serial_putc c :
  io_only (fun _ e => exists polls, e = polls ++ [Out (COM1 + COM_TX) (u8 c)] /\
    Forall is_in polls /\ Z.of_nat (length polls) <= 64001) (serial_putc c : K unit).
Proof using Type.
  unfold serial_putc. eapply io_bind; [apply io_poll|]. intros _ e1 [He Hl].
  eapply io_weaken; [|apply io_outb]. intros _ e2 ->. by exists e1.
Qed.

Lemma io_lpt_putc c :
  io_only (fun _ e => exists polls, e = polls ++ [Out 0x378 (u8 c); Out 0x37a 13; Out 0x37a 8] /\
    Forall is_in polls /\ Z.of_nat (length polls) <= 64001) (lpt_putc c : K unit).
Proof using Type.
  unfold lpt_putc. eapply io_bind; [apply io_poll|]. intros _ e1 [He Hl].
  eapply io_bind; [apply io_outb|]. intros _ e2 ->.
  eapply io_bind; [apply io_outb|]. intros _ e3 ->.
  eapply io_weaken; [|apply io_outb]. intros _ e4 ->. by exists e1.
Qed.
End polling.

(** ** Actions on the screen *)

Section display.
Context {D : Type} `{!Ports D}.
Notation K := (M (kst D)).

(** [s] with the screen [sc]. *)
Definition show (sc : screen) (s : kst D) : kst D :=
  set_crt (mkCrt (addr_6845 (k_crt s)) (crt_buf (k_crt s)) sc.2)
    (set_mem (write_bytes (k_mem s) (crt_buf (k_crt s)) (words sc.1)) s).

Definition wf_screen (bound : Z) (sc : screen) : Prop :=
  length sc.1 = 2000%nat /\ Forall cell_ok sc.1 /\ 0 <= sc.2 < bound.

(** The display of [s] shows [sc]; the cursor may be past the end while
    [cga_putc] runs, when [bound] is more than 2000. *)
Definition on_screen (bound : Z) (s : kst D) (sc : screen) : Prop :=
  wf_screen bound sc /\ bytes (k_mem s) (Addr (crt_buf (k_crt s))) (words sc.1) /\
  crt_pos (k_crt s) = sc.2 /\ addr_6845 (k_crt s) ∈ [MONO_BASE; CGA_BASE].

Lemma show_id b s sc : on_screen b s sc -> show sc s = s.
Proof.
  intros (Hw & Hb & Hp & _). unfold show. rewrite write_bytes_id by done. rewrite <- Hp.
  by destruct s as [[] ? [] ? ? ?].
Qed.

Lemma show_after_io d e sc s : show sc (after_io d e s) = after_io d e (show sc s).
Proof. done. Qed.

Lemma show_show b1 b2 sc1 sc2 s :
  wf_screen b1 sc1 -> wf_screen b2 sc2 -> show sc2 (show sc1 s) = show sc2 s.
Proof.
  intros (H1 & _) (H2 & _). destruct s as [[] ? [] ? ? ?]. unfold show, set_crt, set_mem, set_hw, k_mem. simpl.
  rewrite write_bytes_over; [done|]. rewrite !length_cells. lia.
Qed.

Lemma on_screen_show b1 b2 s sc sc' d e :
  on_screen b1 s sc -> wf_screen b2 sc' -> on_screen b2 (after_io d e (show sc' s)) sc'.
Proof.
  intros (_ & _ & _ & Ha) Hw. split_and!; [done..| |done|exact Ha].
  apply bytes_write_bytes.
Qed.

Lemma on_screen_weaken b1 b2 s sc : b1 <= b2 -> on_screen b1 s sc -> on_screen b2 s sc.
Proof. unfold on_screen, wf_screen. intros ? ((? & ? & ?) & ?). split_and!; naive_solver lia. Qed.

(** ** The steps of [cga_putc] *)

Lemma crt_store_run b s sc i v :
  on_screen b s sc -> 0 <= i < 2000 ->
  crt_store i v s = Ok (tt, show (<[Z.to_nat i := u16 v]> sc.1, sc.2) s).
Proof using Type.
  intros ((Hl & _) & Hb & Hp & _) Hi. unfold crt_store, store_k, on_mem.
  pose proof (store_cell (k_mem s) (crt_buf (k_crt s)) sc.1 i (u16 v) ltac:(lia)) as Hst.
  rewrite (write_bytes_id _ _ _ Hb) in Hst. rewrite Hst. red_bind. unfold show. simpl. rewrite <- Hp.
  by destruct s as [[] ? [] ? ? ?].
Qed.

Lemma set_pos_run b s sc p :
  on_screen b s sc -> set_pos p s = Ok (tt, show (sc.1, u16 p) s).
Proof using Type.
  intros (_ & Hb & _). unfold set_pos, modify, show. simpl. rewrite write_bytes_id by done.
  by destruct s as [[] ? [] ? ? ?].
Qed.

Lemma wf_insert b sc i v p b' :
  wf_screen b sc -> 0 <= p < b' -> wf_screen b' (<[i := u16 v]> sc.1, p).
Proof using Type.
  intros (Hl & Hc & Hp) Hpb. split_and!; simpl; [by rewrite length_insert| |lia|lia].
  apply Forall_insert; [done|apply u16_range].
Qed.

Lemma on_screen_show0 b1 b2 s sc sc' :
  on_screen b1 s sc -> wf_screen b2 sc' -> on_screen b2 (show sc' s) sc'.
Proof using Type.
  intros Hs Hw. pose proof (on_screen_show b1 b2 s sc sc' (h_dev (k_hw (show sc' s))) [] Hs Hw) as H.
  by rewrite after_io_nil in H.
Qed.

(** The switch, on any character but a tab. *)
Lemma cga_switch_run cp c s sc :
  on_screen 2000 s sc -> u8 c <> 9 ->
  cga_switch cp (with_attr c) s = Ok (tt, show (screen_char c sc) s) /\
  wf_screen 2080 (screen_char c sc).
Proof using Type.
  intros Hs Ht. unfold cga_switch, screen_char. rewrite land255, u8_with_attr.
  destruct sc as [cells pos]. pose proof Hs as ((Hl & Hc & Hp) & Hb & Hpos & _). simpl in Hp, Hpos.
  unfold mbind at 1, M_bind at 1, gets at 1. rewrite Hpos. unfold CRT_COLS.
  destruct (u8 c =? 8) eqn:E8; [|destruct (u8 c =? 10) eqn:E10; [|destruct (u8 c =? 13) eqn:E13]].
  - apply Z.eqb_eq in E8. destruct (Z.gtb_spec pos 0).
    + erewrite Mbind_run by (eapply set_pos_run, Hs). cbn [fst].
      assert (wf_screen 2000 (cells, u16 (pos - 1))) as Hw.
      { split_and!; [done|done|apply u16_range|]. simpl. rewrite u16_small by lia. lia. }
      rewrite u16_small in * by lia.
      erewrite crt_store_run by (eauto using on_screen_show0 || lia). cbn [fst snd].
      rewrite lor_blank, u8_with_attr, E8.
      rewrite (show_show 2000 2000) by first [done | eapply (wf_insert 2000 (cells, pos)); [apply Hs|lia]].
      split; [done|]. eapply (wf_insert 2000 (cells, pos)); [apply Hs|lia].
    + split; [by rewrite (show_id _ _ _ Hs)|]. split_and!; simpl; (done || lia).
  - rewrite (u16_small (pos + 80)) by lia. erewrite set_pos_run by exact Hs. cbn [fst].
    replace (u16 _) with ((pos / 80 + 1) * 80) by (rewrite u16_small by zlia; zlia).
    split; [done|]. split_and!; simpl; (done || zlia).
  - erewrite set_pos_run by exact Hs. cbn [fst].
    replace (u16 _) with (pos / 80 * 80) by (rewrite u16_small by zlia; zlia).
    split; [done|]. split_and!; simpl; (done || zlia).
  - rewrite (proj2 (Z.eqb_neq _ _) Ht).
    erewrite Mbind_run by (eapply crt_store_run; [exact Hs|lia]). cbn [fst snd].
    assert (wf_screen 2080 (<[Z.to_nat pos := u16 (with_attr c)]> cells, pos)) as Hw
      by (eapply (wf_insert 2000 (cells, pos)); [apply Hs|lia]).
    erewrite set_pos_run by (eapply on_screen_show0; [exact Hs|exact Hw]). cbn [fst].
    rewrite (u16_small (pos + 1)) by lia.
    assert (wf_screen 2080 (<[Z.to_nat pos := u16 (with_attr c)]> cells, pos + 1)) as Hw2
      by (eapply (wf_insert 2000 (cells, pos)); [apply Hs|lia]).
    by rewrite (show_show 2080 2080).
Qed.

(** ** Scrolling *)

Lemma blank_runs n : forall cells pos b s,
  Z.of_nat n <= 2000 -> on_screen b s (cells, pos) ->
  runs (fun st => r ← blank_body st.1 st.2;
        match r with
        | (inl x', t') => Ok (inl (x', t'))
        | (inr a, t') => Ok (inr (a, t'))
        end) (Datatypes.S n) (2000 - Z.of_nat n, s)
    (Ok (tt, show (take (Z.to_nat (2000 - Z.of_nat n)) cells ++ replicate n blank, pos) s)).
Proof using Type.
  induction n as [|n IH]; intros cells pos b s Hn Hs; pose proof Hs as ((Hl & Hc & Hp) & _); simpl in Hl.
  - apply runs_done. cbn [fst snd]. unfold blank_body, CRT_SIZE, CRT_ROWS, CRT_COLS.
    destruct (Z.ltb_spec (2000 - Z.of_nat 0) (25 * 80)); [lia|].
    rewrite app_nil_r, take_ge by lia. by rewrite (show_id _ _ _ Hs).
  - set (i := 2000 - Z.of_nat (Datatypes.S n)).
    pose proof (wf_insert b (cells, pos) (Z.to_nat i) blank pos b (proj1 Hs) Hp) as Hw.
    change (u16 blank) with blank in Hw.
    pose proof (on_screen_show0 _ _ _ _ _ Hs Hw) as Hs'.
    eapply runs_step.
    + cbn [fst snd]. unfold blank_body, CRT_SIZE, CRT_ROWS, CRT_COLS.
      destruct (Z.ltb_spec i (25 * 80)); [|lia].
      erewrite Mbind_run by (eapply crt_store_run; [exact Hs|lia]). done.
    + replace (i + 1) with (2000 - Z.of_nat n) by lia.
      change (u16 (Z.lor 0x0700 32)) with blank. cbn [fst snd].
      specialize (IH _ _ _ _ ltac:(lia) Hs'). cbn [fst] in IH.
      replace (take (Z.to_nat i) cells ++ replicate (Datatypes.S n) blank) with
        (take (Z.to_nat (2000 - Z.of_nat n)) (<[Z.to_nat i := blank]> cells) ++ replicate n blank).
      * rewrite (show_show b b) in IH; [exact IH|exact Hw|].
        split_and!; cbn [fst snd]; [rewrite length_app, length_take, length_insert, length_replicate; lia
          | |exact (proj1 Hp)|exact (proj2 Hp)].
        apply Forall_app. split; [apply Forall_take, Hw|].
        apply Forall_replicate. unfold cell_ok, blank. lia.
      * replace (Z.to_nat (2000 - Z.of_nat n)) with (Datatypes.S (Z.to_nat i)) by lia.
        rewrite (take_S_r _ _ blank) by (apply list_lookup_insert_eq; lia).
        rewrite take_insert, decide_False by lia. by rewrite <- app_assoc.
Qed.

(** [memmove] moves the lines up; the last line is still there. *)
Lemma scroll_move s cells pos :
  on_screen 2080 s (cells, pos) ->
  let cells1 := drop 80 cells ++ drop 1920 cells in
  on_mem (fun m => memmove m (crt_buf (k_crt s)) (crt_buf (k_crt s) + 2 * 80) ((2000 - 80) * 2)) s
    = Ok (crt_buf (k_crt s), show (cells1, pos) s) /\ wf_screen 2080 (cells1, pos).
Proof using Type.
  intros ((Hl & Hc & Hp) & Hb & Hpos & _) cells1. cbn [fst snd] in *. split.
  2: { split_and!; cbn [fst snd]; [unfold cells1; rewrite length_app, !length_drop; lia| |lia|lia].
       apply Forall_app. split; by apply Forall_drop. }
  pose proof Hb as Hb1. rewrite <- (take_drop 80 cells), words_app in Hb1.
  apply bytes_app in Hb1 as [_ Hb1]. cbn [padd] in Hb1. rewrite length_cells, length_take in Hb1.
  replace (Z.of_nat (2 * (80 `min` length cells))) with (2 * 80) in Hb1 by lia.
  assert (Z.of_nat (length (words (drop 80 cells))) = (2000 - 80) * 2) as Hlw
    by (rewrite length_cells, length_drop; lia).
  pose proof (memmove_write (k_mem s) (crt_buf (k_crt s)) _ _ Hb1 (words_bytes _)) as Hmm.
  rewrite Hlw in Hmm. unfold on_mem. rewrite Hmm; [|eapply mapped_weaken;
    [exact (bytes_mapped _ _ _ Hb)|lia|rewrite length_cells, Hl; lia]|lia]. red_bind.
  unfold show. cbn [fst snd]. unfold cells1. rewrite words_app.
  rewrite (write_bytes_start _ _ _ (words (drop 1920 cells)) (words (take 1920 cells))).
  2: { rewrite !length_cells, length_drop, length_take. lia. }
  2: { by rewrite <- words_app, take_drop. }
  rewrite <- Hpos. by destruct s as [[] ? [] ? ? ?].
Qed.

Lemma scroll_blank s cells pos :
  on_screen 2080 s (cells, pos) ->
  whileM blank_body (2000 - 80) s = Ok (tt, show (take 1920 cells ++ replicate 80 blank, pos) s) /\
  wf_screen 2080 (take 1920 cells ++ replicate 80 blank, pos).
Proof using Type.
  intros Hs. split.
  - unfold whileM. change (2000 - 80) with (2000 - Z.of_nat 80).
    by erewrite (while_runs _ _ _ _ (blank_runs 80 _ _ _ _ ltac:(lia) Hs)) by lia.
  - destruct Hs as ((Hl & Hc & Hp) & _). cbn [fst snd] in *.
    split_and!; cbn [fst snd]; [rewrite length_app, length_take, length_replicate; lia| |lia|lia].
    apply Forall_app. split; [by apply Forall_take|apply Forall_replicate; unfold cell_ok, blank; lia].
Qed.

Lemma cga_scroll_run s sc :
  on_screen 2080 s sc ->
  cga_scroll s = Ok (tt, show (screen_scroll sc) s) /\ wf_screen 2000 (screen_scroll sc).
Proof using Type.
  intros Hs. pose proof Hs as ((Hl & Hc & Hp) & Hb & Hpos & _). destruct sc as [cells pos].
  cbn [fst snd] in *. unfold cga_scroll, screen_scroll. cbn [fst snd].
  unfold mbind at 1, M_bind at 1, gets at 1. rewrite Hpos. unfold CRT_SIZE, CRT_ROWS, CRT_COLS.
  change (25 * 80) with 2000. destruct (Z.geb_spec pos 2000) as [Hge|Hlt].
  2: { rewrite (show_id _ _ _ Hs). split; [done|]. split_and!; simpl; (done || lia). }
  destruct (scroll_move _ _ _ Hs) as [Hmove Hw1]. erewrite Mbind_run by exact Hmove. cbv beta.
  destruct (scroll_blank _ _ _ (on_screen_show0 _ _ _ _ _ Hs Hw1)) as [Hblank Hw2].
  erewrite Mbind_run by exact Hblank. cbv beta.
  rewrite take_app_length' in * by (rewrite length_drop; lia).
  rewrite (show_show 2080 2080) by done.
  erewrite set_pos_run by (eapply on_screen_show0; [exact Hs|exact Hw2]). cbn [fst snd].
  rewrite u16_small by lia.
  assert (wf_screen 2000 (drop 80 cells ++ replicate 80 blank, pos - 80)) as Hw3.
  { destruct Hw2 as (? & ? & ?). split_and!; cbn [fst snd]; (done || lia). }
  by rewrite (show_show 2080 2000).
Qed.

(** ** Characters on the console *)

Definition cursor_evs (a pos : Z) : list ioev :=
  [Out a 14; Out (a + 1) (u8 (Z.shiftr pos 8)); Out a 15; Out (a + 1) (u8 pos)].

Lemma io_cursor s b sc :
  on_screen b s sc -> exists d, cga_cursor s = Ok (tt, after_io d (cursor_evs (addr_6845 (k_crt s)) sc.2) s).
Proof using Type.
  intros (_ & _ & Hp & _). unfold cga_cursor, mbind at 1, M_bind at 1, gets at 1. rewrite Hp.
  set (a := addr_6845 (k_crt s)).
  assert (io_only (fun _ e => e = cursor_evs a sc.2)
    (outb_k a 14;; outb_k (a + 1) (Z.shiftr sc.2 8);; outb_k a 15;; outb_k (a + 1) sc.2 : K unit)) as Hio.
  { do 3 (eapply io_bind; [apply io_outb|]; intros _ ? ->).
    eapply io_weaken; [|apply io_outb]. by intros _ ? ->. }
  destruct (Hio s) as ([] & d & e & E & ->). by exists d.
Qed.

Lemma outs_cursor a pos port :
  a ∈ [MONO_BASE; CGA_BASE] -> port = COM1 \/ port = 0x378 -> outs port (cursor_evs a pos) = [].
Proof using Type.
  intros Ha Hp. rewrite !elem_of_cons, elem_of_nil in Ha.
  destruct Ha as [->|[->|[]]], Hp as [->| ->]; done.
Qed.

(** Scrolling and moving the cursor, after a switch that left [sc]. *)
Lemma cga_finish s sc :
  on_screen 2080 s sc ->
  exists d, (cga_scroll ;; cga_cursor) s =
      Ok (tt, after_io d (cursor_evs (addr_6845 (k_crt s)) (screen_scroll sc).2) (show (screen_scroll sc) s)).
Proof using Type.
  intros Hs. destruct (cga_scroll_run s sc Hs) as [Hscr Hw2].
  erewrite Mbind_run by exact Hscr. cbv beta.
  exact (io_cursor _ 2000 _ (on_screen_show0 _ _ _ _ _ Hs Hw2)).
Qed.

Lemma cga_putc_plain cp c s sc :
  on_screen 2000 s sc -> u8 c <> 9 ->
  exists d, cga_putc cp c s =
      Ok (tt, after_io d (cursor_evs (addr_6845 (k_crt s)) (screen_putc c sc).2) (show (screen_putc c sc) s)) /\
    wf_screen 2000 (screen_putc c sc).
Proof using Type.
  intros Hs Ht. unfold cga_putc. rewrite with_attr_code. cbv zeta.
  destruct (cga_switch_run cp c s sc Hs Ht) as [Hsw Hw1].
  erewrite Mbind_run by exact Hsw. cbv beta.
  pose proof (on_screen_show0 _ _ _ _ _ Hs Hw1) as Hs1.
  destruct (cga_finish _ _ Hs1) as [d Hf]. exists d.
  destruct (cga_scroll_run _ _ Hs1) as [_ Hw2].
  rewrite (show_show 2080 2000) in Hf by done.
  unfold screen_putc. rewrite (proj2 (Z.eqb_neq _ _) Ht). split; [exact Hf|done].
Qed.

Lemma ports_io c :
  io_only (fun _ e => outs (COM1 + COM_TX) e = [u8 c] /\ outs 0x378 e = [u8 c])
    (serial_putc c ;; lpt_putc c : K unit).
Proof using Type.
  eapply io_bind; [apply io_serial_putc|]. intros _ e1 (p1 & -> & Hp1 & _).
  eapply io_weaken; [|apply io_lpt_putc]. intros _ e2 (p2 & -> & Hp2 & _). cbv beta.
  rewrite !outs_app, !(outs_in _ p1), !(outs_in _ p2) by done. done.
Qed.

Lemma wf_screen_char c sc : wf_screen 2000 sc -> wf_screen 2080 (screen_char c sc).
Proof using Type.
  intros Hw. destruct sc as [cells pos]. pose proof Hw as (Hl & Hc & Hp). cbn [fst snd] in *.
  unfold screen_char. repeat case_match;
    first [by eapply (wf_insert 2000 (cells, pos)); [exact Hw|lia]
          |split_and!; cbn [fst snd]; [done|done|zlia|zlia]].
Qed.

Lemma wf_screen_scroll sc : wf_screen 2080 sc -> wf_screen 2000 (screen_scroll sc).
Proof using Type.
  intros (Hl & Hc & Hp). unfold screen_scroll. destruct (Z.geb_spec sc.2 2000).
  - split_and!; cbn [fst snd]; [rewrite length_app, length_drop, length_replicate; lia| |lia|lia].
    apply Forall_app. split; [by apply Forall_drop|apply Forall_replicate; unfold cell_ok, blank; lia].
  - split_and!; (done || lia).
Qed.

Lemma wf_screen_iter n c sc :
  wf_screen 2000 sc -> u8 c <> 9 ->
  wf_screen 2000 (Nat.iter n (fun sc => screen_scroll (screen_char c sc)) sc).
Proof using Type.
  intros Hw Hc. induction n as [|n IH]; [done|]. simpl. by apply wf_screen_scroll, wf_screen_char.
Qed.

Lemma wf_screen_putc c sc : wf_screen 2000 sc -> wf_screen 2000 (screen_putc c sc).
Proof using Type.
  intros Hw. unfold screen_putc.
  destruct (u8 c =? 9); [by apply wf_screen_iter|by apply wf_screen_scroll, wf_screen_char].
Qed.

(** ** What an action prints

    [prints f chars a]: from a state that shows a screen, [a] succeeds, shows
    [f] of it, sends [chars] to the serial and to the parallel port, leaves the
    hardware cursor where the screen's is, and changes nothing else but the
    devices and the log. *)
Definition prints (f : screen -> screen) (chars : list Z) (a : K unit) : Prop :=
  forall s sc, on_screen 2000 s sc ->
  wf_screen 2000 (f sc) /\
  exists d e, a s = Ok (tt, after_io d e (show (f sc) s)) /\
    outs (COM1 + COM_TX) e = chars /\ outs 0x378 e = chars /\
    exists e', e = e' ++ cursor_evs (addr_6845 (k_crt s)) (f sc).2.

Lemma prints_bind f g c1 c2 a1 a2 :
  prints f c1 a1 -> prints g c2 a2 -> prints (fun sc => g (f sc)) (c1 ++ c2) (a1 ;; a2).
Proof using Type.
  intros H1 H2 s sc Hs. destruct (H1 s sc Hs) as (Hw1 & d1 & e1 & E1 & A1 & B1 & _).
  destruct (H2 _ _ (on_screen_show _ _ _ _ _ d1 e1 Hs Hw1)) as (Hw2 & d2 & e2 & E2 & A2 & B2 & e' & C2).
  split; [done|]. exists d2, (e1 ++ e2). rewrite (Mbind_run _ _ _ _ _ E1), E2, show_after_io, after_io_io.
  rewrite (show_show 2000 2000), !outs_app, A1, A2, B1, B2 by done. split_and!; [done..|].
  exists (e1 ++ e'). by rewrite C2, app_assoc.
Qed.

Lemma prints_plain n c :
  u8 c <> 9 -> prints (screen_putc c) [u8 c] (cons_putc_at (Datatypes.S n) c).
Proof using Type.
  intros Ht s sc Hs. split; [by apply wf_screen_putc, Hs|]. cbn [cons_putc_at].
  destruct (ports_io c s) as ([] & d1 & e1 & E1 & Ho1 & Ho2).
  rewrite <- Mbind_assoc. erewrite Mbind_run by exact E1. cbv beta.
  destruct (cga_putc_plain (cons_putc_at n) c (after_io d1 e1 s) sc) as (d & E & _); [exact Hs|done|].
  exists d, (e1 ++ cursor_evs (addr_6845 (k_crt s)) (screen_putc c sc).2).
  rewrite E, show_after_io, after_io_io. split; [done|].
  destruct Hs as (_ & _ & _ & Ha). split_and!; [..|by exists e1];
    rewrite outs_app, outs_cursor by (done || by (left + right)); by rewrite ?Ho1, ?Ho2, ?app_nil_r.
Qed.

Lemma prints_ext f g chars a b :
  (forall sc, f sc = g sc) -> (forall s, a s = b s) -> prints f chars a -> prints g chars b.
Proof using Type.
  intros Hfg Hab Ha s sc Hs. rewrite <- Hab, <- Hfg. by apply Ha.
Qed.

Lemma cga_switch_tab cp c s :
  u8 c = 9 ->
  cga_switch cp (with_attr c) s = (cp 32 ;; cp 32 ;; cp 32 ;; cp 32 ;; cp 32 : K unit) s.
Proof using Type.
  intros Hc. unfold cga_switch. unfold mbind at 1, M_bind at 1, gets at 1.
  by rewrite land255, u8_with_attr, Hc.
Qed.

(** Once on the screen, scrolling does nothing and the cursor is where it was. *)
Lemma prints_finish f chars a :
  prints f chars a -> prints f chars (a ;; cga_scroll ;; cga_cursor).
Proof using Type.
  intros Ha s sc Hs. destruct (Ha s sc Hs) as (Hw & d1 & e1 & E1 & A & B & e' & C). split; [done|].
  pose proof (on_screen_show _ _ _ _ _ d1 e1 Hs Hw) as Hs1.
  destruct (cga_finish _ _ (on_screen_weaken 2000 2080 _ _ ltac:(lia) Hs1)) as [d2 E2].
  assert (screen_scroll (f sc) = f sc) as Hscr.
  { unfold screen_scroll. destruct Hw as (_ & _ & ?). by destruct (Z.geb_spec (f sc).2 2000); [lia|]. }
  rewrite Hscr in E2. eexists d2, (e1 ++ _). erewrite Mbind_run by exact E1. rewrite E2.
  rewrite show_after_io, after_io_io, (show_show 2000 2000) by done. split; [done|].
  destruct Hs as (_ & _ & _ & Ha0). split_and!; [..|by exists e1];
    rewrite outs_app, outs_cursor, app_nil_r by (done || by (left + right)); done.
Qed.

Lemma prints_cons_putc c : prints (screen_putc c) (sent c) (cons_putc c).
Proof using Type.
  unfold sent. destruct (Z.eqb_spec (u8 c) 9) as [Hc|Hc]; [|by apply prints_plain].
  assert (prints (screen_putc 32) [32] (cons_putc_at 1 32)) as H1 by (by apply prints_plain).
  pose proof (prints_bind _ _ _ _ _ _ H1 (prints_bind _ _ _ _ _ _ H1 (prints_bind _ _ _ _ _ _ H1
    (prints_bind _ _ _ _ _ _ H1 H1)))) as H5.
  apply prints_finish in H5.
  assert (screen_putc c = Nat.iter 5 (screen_putc 32)) as ->.
  { unfold screen_putc at 1. by rewrite Hc. }
  intros s sc Hs. destruct (ports_io c s) as ([] & d1 & e1 & E1 & Ho1 & Ho2).
  destruct (H5 (after_io d1 e1 s) sc Hs) as (Hw & d2 & e2 & E2 & A & B & e' & C).
  split; [exact Hw|]. exists d2, (e1 ++ e2). unfold cons_putc. cbn [cons_putc_at].
  rewrite <- Mbind_assoc. erewrite Mbind_run by exact E1. cbv beta.
  unfold cga_putc. rewrite with_attr_code. cbv zeta. rewrite <- (after_io_io d1 d2), <- show_after_io.
  rewrite outs_app, Ho1, A, outs_app, Ho2, B, Hc.
  split_and!; [|done|done|exists (e1 ++ e'); by rewrite C, app_assoc].
  etransitivity; [|exact E2]. unfold mbind at 1 2, M_bind at 1 2. by rewrite cga_switch_tab.
Qed.
End display.

(** ** What the console promises *)

Section promises.
Context {D : Type} `{!Ports D}.
Notation K := (M (kst D)).

(** C5: a character printed on the console is shown by the display as
    [screen_putc] says (backspace, newline, return, tab and scrolling
    included), goes to the serial and the parallel port (a tab with the five
    blanks it also becomes), and leaves the hardware cursor at the screen's;
    the call always returns, however long the devices stay busy, writes no
    memory but the display's and changes no other variable. *)
Theorem cputchar_spec c (s : kst D) sc :
  on_screen 2000 s sc ->
  exists d e,
    let s' := after_io d e (show (screen_putc c sc) s) in
    cputchar c s = Ok (tt, s') /\ on_screen 2000 s' (screen_putc c sc) /\
    same_outside (crt_buf (k_crt s)) 4000 (k_mem s) (k_mem s') /\
    outs (COM1 + COM_TX) e = sent c /\ outs 0x378 e = sent c /\
    exists e', e = e' ++ cursor_evs (addr_6845 (k_crt s)) (screen_putc c sc).2.
Proof.
  intros Hs. destruct (prints_cons_putc c s sc Hs) as (Hw & d & e & E & A & B & C).
  exists d, e. cbv zeta. split_and!; try done.
  - by eapply on_screen_show.
  - pose proof (write_bytes_same_outside (k_mem s) (crt_buf (k_crt s)) (words (screen_putc c sc).1)) as H.
    rewrite length_cells, (proj1 Hw) in H. exact H.
Qed.

(** Waiting for a device that never gets ready ends: [serial_putc] and
    [lpt_putc] read the status port at most 12801 times (64001 port reads with
    the delays) and then send the character all the same. *)
Theorem putc_bounded c (s : kst D) :
  (exists d polls, serial_putc c s = Ok (tt, after_io d (polls ++ [Out COM1 (u8 c)]) s) /\
     Forall is_in polls /\ Z.of_nat (length polls) <= 64001) /\
  (exists d polls,
     lpt_putc c s = Ok (tt, after_io d (polls ++ [Out 0x378 (u8 c); Out 0x37a 13; Out 0x37a 8]) s) /\
     Forall is_in polls /\ Z.of_nat (length polls) <= 64001).
Proof.
  destruct (io_serial_putc c s) as ([] & d1 & e1 & E1 & p1 & -> & H1 & L1).
  destruct (io_lpt_putc c s) as ([] & d2 & e2 & E2 & p2 & -> & H2 & L2). eauto 10.
Qed.

Lemma serial_init_run (s : kst D) :
  exists d lsr iir rx,
    serial_init s = Ok (tt, set_serial (negb (lsr =? 0xFF)) (after_io d
      [Out 0x3FA 0; Out 0x3FB 0x80; Out 0x3F8 12; Out 0x3F9 0; Out 0x3FB 3; Out 0x3FC 0;
       Out 0x3F9 1; In 0x3FD lsr; In 0x3FA iir; In 0x3F8 rx] s)).
Proof.
  unfold serial_init, inb_k, outb_k, on_hw, outb, inb, mbind, M_bind, modify. cbn [k_hw h_dev].
  repeat (unfold mbind, res_bind; cbn [k_hw h_dev h_mem h_log set_hw set_serial fst snd mret M_ret];
    match goal with |- context [dev_in ?p ?d] =>
      let v := fresh "v" in let d' := fresh "d" in destruct (dev_in p d) as [v d'] end).
  unfold mbind, res_bind; cbn [k_hw h_dev h_mem h_log set_hw set_serial fst snd mret M_ret].
  eexists _, (u8 _), (u8 _), (u8 _). rewrite <- !app_assoc. reflexivity.
Qed.

(** [serial_init] sets the divisor for 9600 baud, 8 bits, no parity, turns
    the receive interrupt on, and takes the port to exist exactly when its
    line status register does not read as 0xFF. *)
Theorem serial_init_spec (s : kst D) :
  exists d lsr iir rx,
    serial_init s = Ok (tt, set_serial (negb (lsr =? 0xFF)) (after_io d
      [Out 0x3FA 0; Out 0x3FB 0x80; Out 0x3F8 12; Out 0x3F9 0; Out 0x3FB 3; Out 0x3FC 0;
       Out 0x3F9 1; In 0x3FD lsr; In 0x3FA iir; In 0x3F8 rx] s)).
Proof. apply serial_init_run. Qed.

Lemma inb_run port (s : kst D) :
  inb_k port s =
    let '(v, d) := dev_in port (h_dev (k_hw s)) in Ok (u8 v, after_io d [In port (u8 v)] s).
Proof using Type. unfold inb_k, on_hw, inb. by destruct (dev_in port _). Qed.

Lemma outb_run port v (s : kst D) :
  outb_k port v s = Ok (tt, after_io (dev_out port (u8 v) (h_dev (k_hw s))) [Out port (u8 v)] s).
Proof using Type. done. Qed.

(** The cursor's position, as the 6845 at [base] answers it. *)
Definition cursor_at (base : Z) (d : D) : Z :=
  let '(hi, d1) := dev_in (base + 1) (dev_out base 14 d) in
  let '(lo, _) := dev_in (base + 1) (dev_out base 15 d1) in
  256 * u8 hi + u8 lo.

(** Reading the cursor position from the 6845. *)
Lemma cga_cursor_read base buf (s : kst D) :
  exists d hi lo,
    (outb_k base 14 ;; hi ← inb_k (base + 1); outb_k base 15 ;; lo ← inb_k (base + 1);
     modify (set_crt (mkCrt base buf (u16 (Z.lor (Z.shiftl hi 8) lo)))) : K unit) s =
    Ok (tt, set_crt (mkCrt base buf (256 * hi + lo))
         (after_io d [Out base 14; In (base + 1) hi; Out base 15; In (base + 1) lo] s)) /\
    is_byte hi /\ is_byte lo /\ 256 * hi + lo = cursor_at base (h_dev (k_hw s)).
Proof using Type.
  unfold cursor_at. destruct (dev_in (base + 1) (dev_out base 14 _)) as [h d1] eqn:E1.
  destruct (dev_in (base + 1) (dev_out base 15 d1)) as [l d2] eqn:E2.
  exists d2, (u8 h), (u8 l). split; [|split_and!; try apply u8_range; done].
  erewrite Mbind_run by apply outb_run. cbv beta. change (u8 14) with 14.
  erewrite Mbind_run by (rewrite inb_run; cbn [k_hw h_dev set_hw after_io]; by rewrite E1). cbv beta. rewrite after_io_io.
  erewrite Mbind_run by apply outb_run. cbv beta. change (u8 15) with 15. rewrite after_io_io.
  erewrite Mbind_run by (rewrite inb_run; cbn [k_hw h_dev set_hw after_io]; by rewrite E2). cbv beta. rewrite after_io_io.
  unfold modify.
  pose proof (u8_range h). pose proof (u8_range l). unfold is_byte in *.
  rewrite lor_shiftl_add by (change (2 ^ 8) with 256; lia). change (2 ^ 8) with 256.
  rewrite u16_small by lia. by rewrite (Z.mul_comm 256).
Qed.

Lemma load16_bytes m a b0 b1 :
  bytes m (Addr a) [b0; b1] -> load16 m (Addr a) = Ok (b0 + 256 * b1).
Proof using Type.
  intros Hb. unfold load16. apply loadn_bytes in Hb. cbn [length] in Hb. rewrite Hb. red_bind.
  cbn [le_combine]. f_equal. lia.
Qed.

Lemma cga_init_run (s : kst D) (colour : bool) :
  let cp := KERNBASE + CGA_BUF in
  (if colour then exists b0 b1, bytes (k_mem s) (Addr cp) [b0; b1] /\ is_byte b0 /\ is_byte b1
   else k_mem s !! cp = None /\ u16 (dev_bus (h_dev (k_hw s)) cp) <> 0xA55A) ->
  let base := if colour then CGA_BASE else MONO_BASE in
  let buf := if colour then cp else KERNBASE + MONO_BUF in
  exists d hi lo,
    cga_init s = Ok (tt, set_crt (mkCrt base buf (256 * hi + lo))
         (after_io d [Out base 14; In (base + 1) hi; Out base 15; In (base + 1) lo] s)) /\
    is_byte hi /\ is_byte lo /\ 256 * hi + lo = cursor_at base (h_dev (k_hw s)).
Proof.
  intros cp Hc base buf. destruct (cga_cursor_read base buf s) as (d & hi & lo & E & H).
  exists d, hi, lo. split; [|exact H]. rewrite <- E. unfold cga_init. fold cp. destruct colour.
  - destruct Hc as (b0 & b1 & Hb & Hb0 & Hb1).
    assert (storen (k_mem s) (Addr cp) (le_split 2 0xA55A) = Ok (write_bytes (k_mem s) cp (le_split 2 0xA55A))) as Hst.
    { apply storen_write; [exact (bytes_mapped _ _ _ Hb)|apply le_split_bytes]. }
    erewrite Mbind_run by (unfold vload16; by rewrite (load16_bytes _ _ _ _ Hb)). cbv beta.
    erewrite Mbind_run by (unfold vstore16, store16; by rewrite Hst). cbv beta.
    erewrite Mbind_run by (unfold vload16; cbn [k_mem k_hw set_mem set_hw h_mem];
      by rewrite (load16_bytes _ _ _ _ (bytes_write_bytes _ _ (le_split 2 0xA55A)))). cbv beta.
    change (negb _) with false. cbv iota.
    assert (storen (write_bytes (k_mem s) cp (le_split 2 0xA55A)) (Addr cp) (le_split 2 (b0 + 256 * b1)) =
      Ok (k_mem s)) as Hst2.
    { rewrite storen_write, write_bytes_over by (done || apply le_split_bytes ||
        (eapply write_bytes_mapped; exact (bytes_mapped _ _ _ Hb))).
      apply f_equal, write_bytes_id. cbn [le_split]. unfold is_byte in *.
      replace (u8 (b0 + 256 * b1)) with b0 by zlia.
      by replace (u8 ((b0 + 256 * b1) / 256)) with b1 by zlia. }
    rewrite !Mbind_assoc. erewrite Mbind_run by (unfold vstore16, store16; cbn [k_mem k_hw set_mem set_hw h_mem];
      by rewrite Hst2). by destruct s as [[] ? ? ? ? ?].
  - destruct Hc as [Hn Hbus].
    assert (load16 (k_mem s) (Addr cp) = Err Fault) as Hld.
    { unfold load16. cbn [loadn load8]. by rewrite Hn. }
    assert (store16 (k_mem s) (Addr cp) 0xA55A = Err Fault) as Hst.
    { unfold store16. cbn [le_split storen store8]. by rewrite Hn. }
    erewrite Mbind_run by (unfold vload16; by rewrite Hld). cbv beta.
    erewrite Mbind_run by (unfold vstore16; by rewrite Hst). cbv beta.
    erewrite Mbind_run by (unfold vload16; by rewrite Hld). cbv beta.
    by rewrite (proj2 (Z.eqb_neq _ _) Hbus).
Qed.

(** [cga_init] finds out which display there is without disturbing it:
    where the colour buffer is memory it is used and holds what it held; where
    nothing answers at its address the monochrome one is.  The position is the
    hardware cursor's. *)
Theorem cga_init_spec (s : kst D) (colour : bool) :
  let cp := KERNBASE + CGA_BUF in
  (if colour then exists b0 b1, bytes (k_mem s) (Addr cp) [b0; b1] /\ is_byte b0 /\ is_byte b1
   else k_mem s !! cp = None /\ u16 (dev_bus (h_dev (k_hw s)) cp) <> 0xA55A) ->
  let base := if colour then CGA_BASE else MONO_BASE in
  let buf := if colour then cp else KERNBASE + MONO_BUF in
  exists d hi lo,
    cga_init s = Ok (tt, set_crt (mkCrt base buf (256 * hi + lo))
         (after_io d [Out base 14; In (base + 1) hi; Out base 15; In (base + 1) lo] s)) /\
    is_byte hi /\ is_byte lo /\ 256 * hi + lo = cursor_at base (h_dev (k_hw s)).
Proof. apply cga_init_run. Qed.
End promises.

(** ** A concrete machine: devices always ready, a blank colour display *)

Definition idle_ports : Ports unit := {|
  dev_in := fun _ d => (0xA0, d); dev_in16 := fun _ d => (0, d); dev_in32 := fun _ d => (0, d);
  dev_out := fun _ _ d => d; dev_out16 := fun _ _ d => d; dev_out32 := fun _ _ d => d; dev_bus := fun _ _ => 0xFFFF |}.

Definition idle_kst (mem0 : mem) (pos : Z) : kst unit :=
  mkKst (mkHw (write_bytes mem0 (KERNBASE + CGA_BUF) (words (replicate 2000 blank))) tt [])
    true (mkCrt CGA_BASE (KERNBASE + CGA_BUF) pos) 0 (mkRing (replicate 512 0) 0 0) Null.

Lemma idle_on_screen mem0 pos :
  0 <= pos < 2000 -> on_screen 2000 (idle_kst mem0 pos) (replicate 2000 blank, pos).
Proof.
  intros Hp. unfold on_screen, wf_screen; split_and!; [exact (length_replicate _ _)| |cbn; lia|cbn; lia|apply bytes_write_bytes|done|].
  - apply Forall_replicate. decided.
  - cbn [addr_6845 k_crt idle_kst]. decided.
Qed.

(** A tab on the last columns of the last line: it wraps, and scrolls. *)
Lemma cputchar_spec_witness :
  exists d e,
    let s := idle_kst ∅ 1998 in
    let sc := screen_putc 9 (replicate 2000 blank, 1998) in
    let s' := after_io d e (show sc s) in
    cputchar (Ports0 := idle_ports) 9 s = Ok (tt, s') /\
    on_screen 2000 s' sc /\
    same_outside (crt_buf (k_crt s)) 4000 (k_mem s) (k_mem s') /\
    outs (COM1 + COM_TX) e = sent 9 /\ outs 0x378 e = sent 9 /\
    exists e', e = e' ++ cursor_evs (addr_6845 (k_crt s)) sc.2.
Proof.
  apply (cputchar_spec (Ports0 := idle_ports) 9 (idle_kst ∅ 1998) (replicate 2000 blank, 1998)).
  apply idle_on_screen. lia.
Defined.

Lemma cga_init_spec_witness :
  exists d hi lo,
    cga_init (Ports0 := idle_ports) (idle_kst ∅ 0) =
      Ok (tt, set_crt (mkCrt CGA_BASE (KERNBASE + CGA_BUF) (256 * hi + lo))
        (after_io d [Out CGA_BASE 14; In (CGA_BASE + 1) hi; Out CGA_BASE 15; In (CGA_BASE + 1) lo]
          (idle_kst ∅ 0))) /\ is_byte hi /\ is_byte lo /\ 256 * hi + lo = 0xA0A0.
Proof.
  apply (cga_init_spec (Ports0 := idle_ports) (idle_kst ∅ 0) true). exists 32, 7.
  split_and!; decided.
Defined.
