(* ===== verification/Printf.v ===== *)
(** kern/printf.c: formatted output on the console.

    [vcprintf] runs [vprintfmt] on a sink whose [putch] prints a character on
    the console; with the laws of that sink the theorem on the formatter gives
    what [cprintf] shows and sends.  [putch]'s [*cnt++] increments the pointer
    [cnt], a local copy, and not the counter, so the counter stays 0. *)
From S2P Require Import Prelude Mem Emit Printfmt FormatSpec Mmu Machine ConsOut.

Section printf.
Context {D : Type} `{!Ports D}.
Notation K := (M (kst D)).

(** [putch]: the state is the kernel's and the integer [cnt] points to. *)
Definition console_putch (ch : Z) : M (kst D * Z) unit := fun '(s, cnt) =>
  r ← cputchar ch s; Ok (tt, (r.2, cnt)).

#[export] Instance console_sink : Sink (kst D * Z) := {|
  sink_mem := fun s => k_mem s.1;
  putch := console_putch |}.

Definition vcprintf (fmt : ptr) (ap : list arg) : K Z := fun s =>
  r ← vprintfmt fmt ap (s, 0); Ok (r.2.2, r.2.1).

Definition cprintf (fmt : ptr) (ap : list arg) : K Z :=
  cnt ← vcprintf fmt ap; mret cnt.

(** * The sink's laws *)

(** The screen after a text. *)
Definition screen_text (out : list Z) (sc : screen) : screen :=
  foldl (fun sc c => screen_putc c sc) sc out.

(** The memory a format and its strings may be in. *)
Definition text_mem (s : kst D) : mem := mem_outside (k_mem s) (crt_buf (k_crt s)) 4000.

Definition console_inv (buf : Z) (m0 : mem) (st : kst D * Z) : Prop :=
  (exists sc, on_screen 2000 st.1 sc) /\ crt_buf (k_crt st.1) = buf /\ m0 ⊆ k_mem st.1 /\
  forall x, buf <= x < buf + 4000 -> m0 !! x = None.

Lemma subseteq_outside (m0 m m' : mem) a n :
  m0 ⊆ m -> same_outside a n m m' -> (forall x, a <= x < a + n -> m0 !! x = None) -> m0 ⊆ m'.
Proof using Type.
  intros Hm Hs H0. apply map_subseteq_spec. intros x v Hx.
  destruct (decide (a <= x < a + n)) as [Hin|Hout]; [by rewrite H0 in Hx|].
  rewrite Hs by done. by eapply lookup_weaken.
Qed.

Lemma prints_mem f chars (a : K unit) s sc :
  prints f chars a -> on_screen 2000 s sc ->
  exists s', a s = Ok (tt, s') /\ on_screen 2000 s' (f sc) /\ crt_buf (k_crt s') = crt_buf (k_crt s) /\
    same_outside (crt_buf (k_crt s)) 4000 (k_mem s) (k_mem s').
Proof using Type.
  intros Ha Hs. destruct (Ha s sc Hs) as (Hw & d & e & E & _).
  exists (after_io d e (show (f sc) s)). split_and!; [done|by eapply on_screen_show|done|].
  pose proof (write_bytes_same_outside (k_mem s) (crt_buf (k_crt s)) (words (f sc).1)) as H.
  rewrite length_cells, (proj1 Hw) in H. exact H.
Qed.

Lemma console_laws buf m0 : SinkLaws (kst D * Z) m0 (console_inv buf m0).
Proof using Type.
  split; [by intros s (_ & _ & Hm & _)|].
  intros c [s cnt] st' ((sc & Hs) & Hb & Hm & H0) Hp. cbn [fst] in *.
  destruct (prints_mem _ _ _ _ _ (prints_cons_putc c) Hs) as (s' & E & Hs' & Hb' & Ho).
  cbn [putch console_sink console_putch] in Hp. unfold cputchar in Hp. rewrite E in Hp.
  injection Hp as <-. split_and!; cbn [fst]; [by eexists|congruence| |done].
  subst buf. by eapply subseteq_outside.
Qed.

Lemma console_inv_start s sc :
  on_screen 2000 s sc -> console_inv (crt_buf (k_crt s)) (text_mem s) (s, 0).
Proof using Type.
  intros Hs. split_and!; cbn [fst]; [by exists sc|done|apply mem_outside_sub|].
  intros x Hx. apply map_lookup_filter_None. right. naive_solver.
Qed.

(** Printing a text. *)
Lemma console_each out : forall s sc cnt,
  on_screen 2000 s sc ->
  exists d e,
    each (S := kst D * Z) putch out (s, cnt) =
      Ok (tt, (after_io d e (show (screen_text out sc) s), cnt)) /\
    wf_screen 2000 (screen_text out sc) /\
    outs (COM1 + COM_TX) e = flat_map sent out /\ outs 0x378 e = flat_map sent out.
Proof using Type.
  induction out as [|c out IH]; intros s sc cnt Hs.
  - exists (h_dev (k_hw s)), []. change (screen_text [] sc) with sc.
    rewrite (show_id _ _ _ Hs), after_io_nil.
    split_and!; try done; apply Hs.
  - destruct (prints_cons_putc c s sc Hs) as (Hw & d1 & e1 & E1 & A1 & B1 & _).
    destruct (IH _ _ cnt (on_screen_show _ _ _ _ _ d1 e1 Hs Hw)) as (d2 & e2 & E2 & Hw2 & A2 & B2).
    exists d2, (e1 ++ e2). cbn [each screen_text foldl flat_map].
    rewrite !outs_app, A1, A2, B1, B2. split_and!; [|done..].
    erewrite Mbind_run by (cbn [putch console_sink console_putch]; unfold cputchar; by rewrite E1).
    cbv beta. cbn [fst snd]. rewrite E2, show_after_io, after_io_io. by rewrite (show_show 2000 2000).
Qed.

Lemma vcprintf_prints p l ap deref out s sc :
  on_screen 2000 s sc -> cstr (text_mem s) p l -> Z.of_nat (length l) < 4294967296 ->
  deref_ok (text_mem s) deref -> format deref l ap = Some out ->
  exists d e,
    vcprintf p ap s = Ok (0, after_io d e (show (screen_text out sc) s)) /\
    wf_screen 2000 (screen_text out sc) /\
    outs (COM1 + COM_TX) e = flat_map sent out /\ outs 0x378 e = flat_map sent out.
Proof using Type.
  intros Hs Hp Hl Hd Hf. pose proof (console_laws (crt_buf (k_crt s)) (text_mem s)) as Hlaws.
  destruct (console_each out s sc 0 Hs) as (d & e & E & H). exists d, e. split; [|exact H].
  unfold vcprintf.
  rewrite (does_vprintfmt _ _ deref p l ap out Hp Hl Hd Hf (s, 0) (console_inv_start s sc Hs)).
  by erewrite Mbind_run by exact E.
Qed.

(** A literal without directives is printed as it is. *)
Lemma cprintf_lit l out s sc ap :
  on_screen 2000 s sc -> Forall (fun c => 0 < c < 256) l -> Z.of_nat (length l) < 4294967296 ->
  format deref_lit l ap = Some out ->
  exists d e,
    cprintf (Lit l 0) ap s = Ok (0, after_io d e (show (screen_text out sc) s)) /\
    wf_screen 2000 (screen_text out sc) /\
    outs (COM1 + COM_TX) e = flat_map sent out /\ outs 0x378 e = flat_map sent out.
Proof using Type.
  intros Hs Hl Hlen Hf.
  destruct (vcprintf_prints (Lit l 0) l ap deref_lit out s sc) as (d & e & E & H); try done.
  - by apply cstr_lit.
  - apply deref_lit_ok.
  - exists d, e. split; [|done]. unfold cprintf. by erewrite Mbind_run by exact E.
Qed.
End printf.

(** C6: [cprintf] shows on the display, and sends to the serial and the
    parallel port, exactly the text its format and arguments stand for; it
    changes no memory but the display's and no other variable of the kernel.
    It returns 0 whatever it prints. *)
Theorem cprintf_spec {D} `{!Ports D} p l ap deref out (s : kst D) sc :
  on_screen 2000 s sc -> cstr (text_mem s) p l -> Z.of_nat (length l) < 4294967296 ->
  deref_ok (text_mem s) deref -> format deref l ap = Some out ->
  exists d e,
    let s' := after_io d e (show (screen_text out sc) s) in
    cprintf p ap s = Ok (0, s') /\ on_screen 2000 s' (screen_text out sc) /\
    same_outside (crt_buf (k_crt s)) 4000 (k_mem s) (k_mem s') /\
    outs (COM1 + COM_TX) e = flat_map sent out /\ outs 0x378 e = flat_map sent out.
Proof.
  intros Hs Hp Hl Hd Hf.
  destruct (vcprintf_prints p l ap deref out s sc Hs Hp Hl Hd Hf) as (d & e & E & Hw & A & B).
  exists d, e. cbv zeta. split_and!; [|by eapply on_screen_show| |done|done].
  - unfold cprintf. by erewrite Mbind_run by exact E.
  - pose proof (write_bytes_same_outside (k_mem s) (crt_buf (k_crt s)) (words (screen_text out sc).1)) as H.
    rewrite length_cells, (proj1 Hw) in H. exact H.
Qed.

Lemma cprintf_spec_witness :
  exists d e,
    let s := idle_kst ∅ 0 in
    let sc := screen_text (bytes_of "6828 decimal is 15254 octal!") (replicate 2000 blank, 0) in
    let s' := after_io d e (show sc s) in
    cprintf (Ports0 := idle_ports) (lit "%d decimal is %o octal!") [AInt 6828; AInt 6828] s = Ok (0, s') /\
    on_screen 2000 s' sc /\
    same_outside (crt_buf (k_crt s)) 4000 (k_mem s) (k_mem s') /\
    outs (COM1 + COM_TX) e = flat_map sent (bytes_of "6828 decimal is 15254 octal!") /\
    outs 0x378 e = flat_map sent (bytes_of "6828 decimal is 15254 octal!").
Proof.
  apply (cprintf_spec (Ports0 := idle_ports) (lit "%d decimal is %o octal!")
    (bytes_of "%d decimal is %o octal!") _ deref_lit); [|decided|decided| |vm_compute; reflexivity].
  - apply idle_on_screen. lia.
  - apply deref_lit_ok.
Defined.
