(* ===== verification/ConsIn.v ===== *)
(** kern/console.c, input: the keyboard, the serial receiver, the input ring,
    and the console's initialisation.

    [kbd_key] is the part of [kbd_proc_data] that decodes a scan code, on the
    [shift] variable; [kbd_press] below is what it means, on the modifiers as
    booleans.  [cons_intr] stores what a device yields in the ring, whose
    contents as a queue are [queue].  The loops of [cons_intr] and [getchar]
    run as long as the devices make them: their theorems say for how long. *)
From S2P Require Import Prelude Mem Cstring Emit Printfmt FormatSpec Mmu Machine ConsOut Printf.

(** ** Keyboard tables (inc/kbdreg.h and kern/console.c) *)

Definition KEY_HOME : Z := 0xE0.
Definition KEY_END : Z := 0xE1.
Definition KEY_UP : Z := 0xE2.
Definition KEY_DN : Z := 0xE3.
Definition KEY_LF : Z := 0xE4.
Definition KEY_RT : Z := 0xE5.
Definition KEY_PGUP : Z := 0xE6.
Definition KEY_PGDN : Z := 0xE7.
Definition KEY_INS : Z := 0xE8.
Definition KEY_DEL : Z := 0xE9.
Definition KBSTATP : Z := 0x64.
Definition KBS_DIB : Z := 0x01.
Definition KBDATAP : Z := 0x60.

Definition NO : Z := 0.
Definition SHIFT : Z := Z.shiftl 1 0.
Definition CTL : Z := Z.shiftl 1 1.
Definition ALT : Z := Z.shiftl 1 2.
Definition CAPSLOCK : Z := Z.shiftl 1 3.
Definition NUMLOCK : Z := Z.shiftl 1 4.
Definition SCROLLLOCK : Z := Z.shiftl 1 5.
Definition E0ESC : Z := Z.shiftl 1 6.

(** A [uint8_t] array of 256 elements: its first elements, then its designated
    initialisers, the rest 0. *)
Definition table (first : list Z) (inits : list (Z * Z)) : list Z :=
  foldl (fun l kv => <[Z.to_nat kv.1 := u8 kv.2]> l)
    ((u8 <$> first) ++ replicate (256 - length first) 0) inits.

Definition shiftcode : list Z := table []
  [(0x1D, CTL); (0x2A, SHIFT); (0x36, SHIFT); (0x38, ALT); (0x9D, CTL); (0xB8, ALT)].

Definition togglecode : list Z := table []
  [(0x3A, CAPSLOCK); (0x45, NUMLOCK); (0x46, SCROLLLOCK)].

(** The keypad and cursor keys, the same in both maps. *)
Definition cursor_inits : list (Z * Z) :=
  [(0xC7, KEY_HOME); (0x9C, 10); (0xB5, 47); (0xC8, KEY_UP); (0xC9, KEY_PGUP); (0xCB, KEY_LF);
   (0xCD, KEY_RT); (0xCF, KEY_END); (0xD0, KEY_DN); (0xD1, KEY_PGDN); (0xD2, KEY_INS); (0xD3, KEY_DEL)].

Definition normalmap : list Z := table
  ([NO; 0x1B] ++ bytes_of "123456" ++
   bytes_of "7890-=" ++ [8; 9] ++
   bytes_of "qwertyui" ++
   bytes_of "op[]" ++ [10; NO] ++ bytes_of "as" ++
   bytes_of "dfghjkl;" ++
   bytes_of "'`" ++ [NO] ++ bytes_of "\zxcv" ++
   bytes_of "bnm,./" ++ [NO] ++ bytes_of "*" ++
   [NO; 32; NO; NO; NO; NO; NO; NO] ++
   [NO; NO; NO; NO; NO; NO; NO] ++ bytes_of "7" ++
   bytes_of "89-456+1" ++
   bytes_of "230." ++ [NO; NO; NO; NO]) cursor_inits.

Definition shiftmap : list Z := table
  ([NO; 27] ++ bytes_of "!@#$%^" ++
   bytes_of "&*()_+" ++ [8; 9] ++
   bytes_of "QWERTYUI" ++
   bytes_of "OP{}" ++ [10; NO] ++ bytes_of "AS" ++
   bytes_of "DFGHJKL:" ++
   [34] ++ bytes_of "~" ++ [NO] ++ bytes_of "|ZXCV" ++
   bytes_of "BNM<>?" ++ [NO] ++ bytes_of "*" ++
   [NO; 32; NO; NO; NO; NO; NO; NO] ++
   [NO; NO; NO; NO; NO; NO; NO] ++ bytes_of "7" ++
   bytes_of "89-456+1" ++
   bytes_of "230." ++ [NO; NO; NO; NO]) cursor_inits.

(** [C(x)], for the characters of a string. *)
Definition C (s : string) : list Z := (fun x => x - 64) <$> bytes_of s.

Definition ctlmap : list Z := table
  (replicate 8 NO ++ replicate 8 NO ++
   C "QWERTYUI" ++
   C "OP" ++ [NO; NO; 13; NO] ++ C "AS" ++
   C "DFGHJKL" ++ [NO] ++
   [NO; NO; NO] ++ C "\ZXCV" ++
   C "BNM" ++ [NO; NO] ++ C "/" ++ [NO; NO])
  [(0x97, KEY_HOME); (0xB5, 47 - 64); (0xC8, KEY_UP); (0xC9, KEY_PGUP); (0xCB, KEY_LF);
   (0xCD, KEY_RT); (0xCF, KEY_END); (0xD0, KEY_DN); (0xD1, KEY_PGDN); (0xD2, KEY_INS); (0xD3, KEY_DEL)].

Definition charcode : list (list Z) := [normalmap; shiftmap; ctlmap; ctlmap].

(** ** Decoding a scan code: the new [shift], and the result *)

Definition kbd_key (shift data : Z) : res (Z * Z) :=
  if data =? 0xE0 then Ok (Z.lor shift E0ESC, 0)
  else if negb (Z.land data 0x80 =? 0) then
    let data := if negb (Z.land shift E0ESC =? 0) then data else Z.land data 0x7F in
    code ← at_idx shiftcode data;
    Ok (Z.land shift (u32 (Z.lnot (Z.lor code E0ESC))), 0)
  else
    let '(data, shift) :=
      if negb (Z.land shift E0ESC =? 0)
      then (Z.lor data 0x80, Z.land shift (u32 (Z.lnot E0ESC))) else (data, shift) in
    code ← at_idx shiftcode data;
    let shift := Z.lor shift code in
    toggle ← at_idx togglecode data;
    let shift := Z.lxor shift toggle in
    map ← at_idx charcode (Z.land shift (Z.lor CTL SHIFT));
    c ← at_idx map data;
    let c := if negb (Z.land shift CAPSLOCK =? 0) then
               if (97 <=? c) && (c <=? 122) then c + (65 - 97)
               else if (65 <=? c) && (c <=? 90) then c + (97 - 65) else c
             else c in
    Ok (shift, c).

Definition CONSBUFSIZE : Z := 512.

(** [cons.buf[cons.wpos++] = c], and the wrap. *)
Definition ring_put (c : Z) (r : ring) : res ring :=
  _ ← at_idx (r_buf r) (r_wpos r);
  let w := u32 (r_wpos r + 1) in
  Ok (mkRing (<[Z.to_nat (r_wpos r) := u8 c]> (r_buf r)) (r_rpos r)
        (if w =? CONSBUFSIZE then 0 else w)).

Definition ring_get (r : ring) : res (Z * ring) :=
  if negb (r_rpos r =? r_wpos r) then
    c ← at_idx (r_buf r) (r_rpos r);
    let p := u32 (r_rpos r + 1) in
    Ok (c, mkRing (r_buf r) (if p =? CONSBUFSIZE then 0 else p) (r_wpos r))
  else Ok (0, r).

Section input.
Context {D : Type} `{!Ports D}.
Notation K := (M (kst D)).

Definition kbd_proc_data : K Z :=
  st ← inb_k KBSTATP;
  if Z.land st KBS_DIB =? 0 then mret (-1)
  else
    data ← inb_k KBDATAP;
    shift ← gets k_shift;
    r ← reads (fun _ => kbd_key shift data);
    modify (set_shift r.1) ;;
    (* the early returns above, for a prefix or a release, return 0 *)
    (if (Z.land (Z.lnot r.1) (Z.lor CTL ALT) =? 0) && (r.2 =? KEY_DEL) then
       cprintf (lit_nl "Rebooting!") [] ;; outb_k 0x92 0x3
     else mret tt) ;;
    mret r.2.

Definition serial_proc_data : K Z :=
  v ← inb_k (COM1 + COM_LSR);
  if Z.land v COM_LSR_DATA =? 0 then mret (-1) else inb_k (COM1 + COM_RX).

Definition cons_put (c : Z) : K unit := fun s =>
  r ← ring_put c (k_cons s); Ok (tt, set_cons r s).

Definition cons_intr_body (proc : K Z) (_ : unit) : K (unit + unit) :=
  c ← proc;
  if c =? -1 then mret (inr tt)
  else if c =? 0 then mret (inl tt)
  else cons_put c ;; mret (inl tt).

Definition cons_intr (proc : K Z) : K unit := whileM (cons_intr_body proc) tt.

Definition serial_intr : K unit :=
  e ← gets k_serial_exists;
  if e : bool then cons_intr serial_proc_data else mret tt.

Definition kbd_intr : K unit := cons_intr kbd_proc_data.

Definition kbd_init : K unit := mret tt.

(** Take the next character, or 0. *)
Definition cons_take : K Z := fun s =>
  r ← ring_get (k_cons s); Ok (r.1, set_cons r.2 s).

Definition cons_getc : K Z := serial_intr ;; kbd_intr ;; cons_take.

Definition cons_init : K unit :=
  cga_init ;;
  kbd_init ;;
  serial_init ;;
  e ← gets k_serial_exists;
  if negb e then cprintf (lit_nl "Serial port does not exist!") [] ;; mret tt
  else mret tt.

Definition getchar_body (_ : unit) : K (unit + Z) :=
  c ← cons_getc;
  if c =? 0 then mret (inl tt) else mret (inr c).

Definition getchar : K Z := whileM getchar_body tt.

Definition iscons (fdnum : Z) : Z := 1.
End input.

(** * The keyboard's meaning *)

(** The modifiers, and whether the last code was the prefix 0xE0. *)
Record mods := mkMods {
  m_shift : bool; m_ctl : bool; m_alt : bool; m_caps : bool; m_num : bool; m_scroll : bool;
  m_e0 : bool }.

Definition enc_mods (m : mods) : Z :=
  let bit (b : bool) (k : Z) := if b then k else 0 in
  bit (m_shift m) 1 + bit (m_ctl m) 2 + bit (m_alt m) 4 + bit (m_caps m) 8 +
  bit (m_num m) 16 + bit (m_scroll m) 32 + bit (m_e0 m) 64.

(** Keys are numbered as by [data] with bit 7 set after the prefix.  The
    modifier keys set their modifier when pressed and clear it when released;
    the lock keys flip theirs when pressed. *)
Definition set_modifiers (key : Z) (b : bool) (m : mods) : mods :=
  let one_of ks := bool_decide (key ∈ (ks : list Z)) in
  mkMods (if one_of [0x2A; 0x36] then b else m_shift m) (if one_of [0x1D; 0x9D] then b else m_ctl m)
    (if one_of [0x38; 0xB8] then b else m_alt m) (m_caps m) (m_num m) (m_scroll m) false.

Definition flip_locks (key : Z) (m : mods) : mods :=
  mkMods (m_shift m) (m_ctl m) (m_alt m) (xorb (m_caps m) (key =? 0x3A))
    (xorb (m_num m) (key =? 0x45)) (xorb (m_scroll m) (key =? 0x46)) (m_e0 m).

Definition swap_case (c : Z) : Z :=
  if (97 <=? c) && (c <=? 122) then c - 32
  else if (65 <=? c) && (c <=? 90) then c + 32 else c.

(** ** The keys of a US keyboard

    The rows of keys by the code of their first one, with what is engraved on
    them: without and with shift.  The keypad has its digits always. *)
Definition key_rows : list (Z * (list Z * list Z)) := [
  (0x02, (bytes_of "1234567890-=", bytes_of "!@#$%^&*()_+"));
  (0x10, (bytes_of "qwertyuiop[]", bytes_of "QWERTYUIOP{}"));
  (0x1E, (bytes_of "asdfghjkl;'`", bytes_of "ASDFGHJKL:" ++ [34] ++ bytes_of "~"));
  (0x2B, (bytes_of "\zxcvbnm,./", bytes_of "|ZXCVBNM<>?"));
  (0x47, (bytes_of "789-456+1230.", bytes_of "789-456+1230."))].

(** Escape, backspace, tab, enter, the keypad's star, the space bar; with the
    prefix, the keypad's enter and slash. *)
Definition key_others : list (Z * Z) :=
  [(0x01, 27); (0x0E, 8); (0x0F, 9); (0x1C, 10); (0x37, 42); (0x39, 32); (0x9C, 10); (0xB5, 47)].

(** Home, end, up, down, left, right, page up, page down, insert and delete are
    the characters from 0xE0 on. *)
Definition key_cursor : list Z := [0xC7; 0xCF; 0xC8; 0xD0; 0xCB; 0xCD; 0xC9; 0xD1; 0xD2; 0xD3].

Definition key_engraved (shifted : bool) (key : Z) : option Z :=
  head (omap (fun r : Z * (list Z * list Z) =>
    if r.1 <=? key then (if shifted then r.2.2 else r.2.1) !! Z.to_nat (key - r.1) else None) key_rows).
Definition key_other (key : Z) : option Z := snd <$> (snd <$> list_find (fun p => p.1 = key) key_others).
Definition key_moves (key : Z) : option Z := (fun p => 0xE0 + Z.of_nat p.1) <$> list_find (fun k => k = key) key_cursor.

(** With control: the letters and the backslash give their character's low five
    bits; enter is a carriage return, and a slash is 0xEF.  The other keys give
    nothing, but for the cursor keys.  Of these home is missing, and is
    where no key is, at 0x97. *)
Definition key_control (key : Z) : Z :=
  match key_engraved false key with
  | Some c => if (97 <=? c) && (c <=? 122) || (c =? 92) then c mod 32 else if c =? 47 then 0xEF else 0
  | None =>
      if key =? 0x1C then 13 else if key =? 0xB5 then 0xEF else if key =? 0x97 then 0xE0
      else if key =? 0xC7 then 0 else default 0 (key_moves key)
  end.

Definition key_plain (shifted : bool) (key : Z) : Z :=
  match key_engraved shifted key, key_other key with
  | Some c, _ => c
  | None, Some c => c
  | None, None => default 0 (key_moves key)
  end.

(** The character of a key: control wins over shift, and caps lock swaps the
    case of the result. *)
Definition key_char (m : mods) (key : Z) : Z :=
  let c := if m_ctl m then key_control key else key_plain (m_shift m) key in
  if m_caps m then swap_case c else c.

Definition kbd_press (m : mods) (data : Z) : mods * Z :=
  let key := if m_e0 m then data mod 128 + 128 else data mod 128 in
  if data =? 0xE0 then
    (mkMods (m_shift m) (m_ctl m) (m_alt m) (m_caps m) (m_num m) (m_scroll m) true, 0)
  else if 128 <=? data then (set_modifiers key false m, 0)
  else let m' := flip_locks key (set_modifiers key true m) in (m', key_char m' key).

Definition all_mods : list mods :=
  let bs := [false; true] in
  a ← bs; b ← bs; c ← bs; d ← bs; e ← bs; f ← bs; g ← bs; [mkMods a b c d e f g].

Definition kbd_ok (m : mods) (data : Z) : bool :=
  let r := kbd_press m data in
  bool_decide (kbd_key (enc_mods m) data = Ok (enc_mods r.1, r.2)) && (0 <=? r.2) && (r.2 <? 256).

Lemma kbd_all : forallb (fun m => forallb (kbd_ok m) (seqZ 0 256)) all_mods = true.
Proof. vm_compute. reflexivity. Qed.

#[export] Instance mods_eq_dec : EqDecision mods.
Proof. solve_decision. Defined.

Lemma elem_of_all_mods m : m ∈ all_mods.
Proof. destruct m as [[] [] [] [] [] [] []]; decided. Qed.

Lemma kbd_key_press m data :
  is_byte data ->
  kbd_key (enc_mods m) data = Ok (enc_mods (kbd_press m data).1, (kbd_press m data).2) /\
  is_byte (kbd_press m data).2.
Proof.
  intros Hd. pose proof kbd_all as H. rewrite forallb_forall in H.
  specialize (H m). rewrite <- list_elem_of_In in H. specialize (H (elem_of_all_mods m)).
  rewrite forallb_forall in H. specialize (H data). rewrite <- list_elem_of_In, elem_of_seqZ in H.
  unfold is_byte in Hd. specialize (H ltac:(lia)). unfold kbd_ok in H.
  rewrite !andb_true_iff, bool_decide_eq_true, Z.leb_le, Z.ltb_lt in H. unfold is_byte. tauto.
Qed.

(** * The ring as a queue *)

Definition ring_ok (r : ring) : Prop :=
  length (r_buf r) = 512%nat /\ Forall is_byte (r_buf r) /\
  0 <= r_rpos r < 512 /\ 0 <= r_wpos r < 512.

Definition ring_len (r : ring) : Z := (r_wpos r - r_rpos r) mod 512.

(** The pending characters, oldest first. *)
Definition queue (r : ring) : list Z :=
  (fun i => default 0 (r_buf r !! Z.to_nat ((r_rpos r + i) mod 512))) <$> seqZ 0 (ring_len r).

Lemma length_queue r : Z.of_nat (length (queue r)) = ring_len r.
Proof.
  unfold queue. rewrite length_fmap, length_seqZ. unfold ring_len.
  pose proof (Z.mod_pos_bound (r_wpos r - r_rpos r) 512). lia.
Qed.

Definition ring_push (c : Z) (r : ring) : ring :=
  mkRing (<[Z.to_nat (r_wpos r) := u8 c]> (r_buf r)) (r_rpos r) ((r_wpos r + 1) mod 512).

(** The wrap-around test of the code is the remainder. *)
Lemma wrap_index p :
  0 <= p < 512 -> (if u32 (p + 1) =? CONSBUFSIZE then 0 else u32 (p + 1)) = (p + 1) mod 512.
Proof.
  intros Hp. unfold CONSBUFSIZE. rewrite u32_small by lia. destruct (Z.eqb_spec (p + 1) 512); zlia.
Qed.

Lemma ring_put_push c r : ring_ok r -> ring_put c r = Ok (ring_push c r) /\ ring_ok (ring_push c r).
Proof.
  intros (Hl & Hb & Hr & Hw).
  destruct (lookup_lt_is_Some_2 (r_buf r) (Z.to_nat (r_wpos r))) as [x Hx]; [lia|]. split.
  - unfold ring_put, ring_push. rewrite (at_idx_ok _ _ x) by (done || lia). red_bind.
    cbv zeta. by rewrite wrap_index.
  - split_and!; simpl; [by rewrite length_insert| |lia|lia|zlia|zlia].
    apply Forall_insert; [done|apply u8_range].
Qed.

Lemma queue_push c r :
  ring_ok r -> ring_len r < 511 -> queue (ring_push c r) = queue r ++ [u8 c].
Proof.
  intros (Hl & Hb & Hr & Hw) Hlen. unfold queue.
  assert (ring_len (ring_push c r) = ring_len r + 1) as ->
    by (unfold ring_len, ring_push in *; simpl; zlia).
  pose proof (Z.mod_pos_bound (r_wpos r - r_rpos r) 512) as Hm. fold (ring_len r) in Hm.
  rewrite seqZ_app, fmap_app by lia. f_equal.
  - apply list_fmap_ext. intros i x [-> Hi]%lookup_seqZ. simpl.
    rewrite list_lookup_insert_ne; [done|]. unfold ring_len in *. zlia.
  - simpl. unfold ring_push. simpl.
    replace ((r_rpos r + _) mod 512) with (r_wpos r) by (unfold ring_len in *; zlia).
    by rewrite list_lookup_insert_eq by lia.
Qed.

(** The 512th pending character makes the ring look empty. *)
Lemma queue_push_full c r : ring_ok r -> ring_len r = 511 -> queue (ring_push c r) = [].
Proof.
  intros (Hl & Hb & Hr & Hw) Hlen. unfold queue.
  assert (ring_len (ring_push c r) = 0) as -> by (unfold ring_len, ring_push in *; simpl; zlia).
  done.
Qed.

Lemma ring_get_queue r :
  ring_ok r ->
  exists r', ring_get r = Ok (hd 0 (queue r), r') /\ ring_ok r' /\ queue r' = tl (queue r).
Proof.
  intros (Hl & Hb & Hr & Hw). unfold ring_get. destruct (Z.eqb_spec (r_rpos r) (r_wpos r)) as [He|Hne].
  - exists r. assert (ring_len r = 0) as H0 by (unfold ring_len; rewrite He, Z.sub_diag; done).
    unfold queue. rewrite H0. by split_and!.
  - destruct (lookup_lt_is_Some_2 (r_buf r) (Z.to_nat (r_rpos r))) as [x Hx]; [lia|].
    rewrite (at_idx_ok _ _ x) by (done || lia). cbn [negb]. red_bind. cbv zeta.
    rewrite wrap_index by lia. eexists. assert (0 < ring_len r) as Hpos by (unfold ring_len; zlia).
    assert (queue r = x :: queue (mkRing (r_buf r) ((r_rpos r + 1) mod 512) (r_wpos r))) as ->.
    + unfold queue at 1. rewrite seqZ_cons by done. rewrite fmap_cons. f_equal.
      * replace ((r_rpos r + 0) mod 512) with (r_rpos r) by zlia. by rewrite Hx.
      * unfold queue. set (r1 := mkRing _ _ _).
        assert (ring_len r1 = Z.pred (ring_len r)) as -> by (unfold ring_len in *; simpl; zlia).
        change (Z.succ 0) with (1 + 0). rewrite <- fmap_add_seqZ, <- list_fmap_compose.
        apply list_fmap_ext. intros i y [-> Hi]%lookup_seqZ. simpl. do 3 f_equal. zlia.
    + split_and!; [done| |done]. split_and!; simpl; (done || zlia).
Qed.

(** * Interrupts *)

Section interrupts.
Context {D : Type} `{!Ports D}.
Notation K := (M (kst D)).

(** [drains proc s cs s']: called again and again from [s], [proc] yields the
    values [cs], then -1, and the state ends as [s']; the nonzero ones go to
    the ring as they come. *)
Inductive drains (proc : K Z) : kst D -> list Z -> kst D -> Prop :=
| drains_end s s' : proc s = Ok (-1, s') -> drains proc s [] s'
| drains_zero s s1 cs s' :
    proc s = Ok (0, s1) -> drains proc s1 cs s' -> drains proc s (0 :: cs) s'
| drains_char s c s1 cs s' :
    proc s = Ok (c, s1) -> c <> -1 -> c <> 0 ->
    drains proc (set_cons (ring_push c (k_cons s1)) s1) cs s' -> drains proc s (c :: cs) s'.

(** A device routine keeps its invariant, and leaves the ring alone. *)
Definition keeps_ring (I : kst D -> Prop) (proc : K Z) : Prop :=
  forall s c s1, I s -> proc s = Ok (c, s1) ->
  k_cons s1 = k_cons s /\ I s1 /\ forall r, I (set_cons r s1).

Lemma cons_put_run c (s : kst D) :
  ring_ok (k_cons s) -> cons_put c s = Ok (tt, set_cons (ring_push c (k_cons s)) s).
Proof using Type. intros Hr. unfold cons_put. by rewrite (proj1 (ring_put_push c _ Hr)). Qed.

Lemma cons_intr_runs (I : kst D -> Prop) proc s cs s' :
  keeps_ring I proc -> I s -> ring_ok (k_cons s) -> drains proc s cs s' ->
  runs (fun st => r ← cons_intr_body proc st.1 st.2;
        match r with
        | (inl x', t') => Ok (inl (x', t'))
        | (inr a, t') => Ok (inr (a, t'))
        end) (Datatypes.S (length cs)) (tt, s) (Ok (tt, s')) /\
  I s' /\ ring_ok (k_cons s').
Proof using Type.
  intros Hk Hi Hr Hd. induction Hd as [s s' E|s s1 cs s' E _ IH|s c s1 cs s' E H1 H0 _ IH].
  - destruct (Hk _ _ _ Hi E) as (Hc & Hi' & _). rewrite Hc. split; [|done].
    apply runs_done. cbn [fst snd]. unfold cons_intr_body. by erewrite Mbind_run by exact E.
  - destruct (Hk _ _ _ Hi E) as (Hc & Hi' & _).
    destruct IH as (Hruns & HI); [done|by rewrite Hc|]. split; [|done].
    eapply runs_step; [|exact Hruns]. cbn [fst snd]. unfold cons_intr_body.
    by erewrite Mbind_run by exact E.
  - destruct (Hk _ _ _ Hi E) as (Hc & Hi' & Hset). assert (ring_ok (k_cons s1)) as Hr1 by by rewrite Hc.
    destruct IH as (Hruns & HI); [apply Hset|apply ring_put_push, Hr1|]. split; [|done].
    eapply runs_step; [|exact Hruns]. cbn [fst snd]. unfold cons_intr_body.
    erewrite Mbind_run by exact E. rewrite (proj2 (Z.eqb_neq c (-1))), (proj2 (Z.eqb_neq c 0)) by done.
    by erewrite Mbind_run by (by apply cons_put_run).
Qed.

(** The characters among the values: what is not 0, as bytes. *)
Definition chars_of (cs : list Z) : list Z := u8 <$> filter (fun c => c <> 0) cs.

Lemma drains_queue (I : kst D -> Prop) proc s cs s' :
  keeps_ring I proc -> I s -> ring_ok (k_cons s) -> drains proc s cs s' ->
  Z.of_nat (length (queue (k_cons s) ++ chars_of cs)) <= 511 ->
  queue (k_cons s') = queue (k_cons s) ++ chars_of cs.
Proof using Type.
  intros Hk Hi Hr Hd. induction Hd as [s s' E|s s1 cs s' E _ IH|s c s1 cs s' E H1 H0 _ IH]; intros Hlen.
  - destruct (Hk _ _ _ Hi E) as (-> & _). by rewrite app_nil_r.
  - destruct (Hk _ _ _ Hi E) as (Hc & Hi' & _). rewrite Hc in IH. by apply IH.
  - destruct (Hk _ _ _ Hi E) as (Hc & Hi' & Hset). rewrite Hc in IH. cbn [k_cons set_cons] in IH.
    assert (chars_of (c :: cs) = u8 c :: chars_of cs) as Hcs
      by (unfold chars_of; rewrite filter_cons_True by done; done).
    rewrite Hcs in Hlen |- *. rewrite length_app in Hlen. cbn [length] in Hlen.
    rewrite queue_push in IH; [|done|rewrite <- length_queue; lia].
    rewrite IH; [by rewrite <- app_assoc|apply Hset|by apply ring_put_push|].
    rewrite !length_app. cbn [length]. lia.
Qed.
End interrupts.

(** * The devices *)

Section devices.
Context {D : Type} `{!Ports D}.
Notation K := (M (kst D)).

Definition reboot_text : list Z := bytes_of "Rebooting!" ++ [10].

(** What the routines rely on and keep: a working display, and a [shift]
    variable that is a set of modifiers. *)
Definition ready (s : kst D) : Prop :=
  (exists sc, on_screen 2000 s sc) /\ exists m, k_shift s = enc_mods m.

(** What one call of [kbd_proc_data] returns and leaves. *)
Definition kbd_step (s : kst D) (sc : screen) (m : mods) (r : res (Z * kst D)) : Prop :=
  let '(st, d1) := dev_in KBSTATP (h_dev (k_hw s)) in
  if Z.land (u8 st) KBS_DIB =? 0 then r = Ok (-1, after_io d1 [In KBSTATP (u8 st)] s)
  else
    let '(dt, d2) := dev_in KBDATAP d1 in
    let '(m', c) := kbd_press m (u8 dt) in
    let s2 := set_shift (enc_mods m') (after_io d2 [In KBSTATP (u8 st); In KBDATAP (u8 dt)] s) in
    if m_ctl m' && m_alt m' && (c =? KEY_DEL) then
      exists d e, outs (COM1 + COM_TX) e = flat_map sent reboot_text /\ outs 0x378 e = flat_map sent reboot_text /\
        r = Ok (c, after_io d (e ++ [Out 0x92 3]) (show (screen_text reboot_text sc) s2))
    else r = Ok (c, s2).

Lemma ctl_alt_test m : (Z.land (Z.lnot (enc_mods m)) (Z.lor CTL ALT) =? 0) = m_ctl m && m_alt m.
Proof using Type. destruct m as [[] [] [] [] [] [] []]; vm_compute; done. Qed.

Lemma kbd_proc_run s sc m :
  on_screen 2000 s sc -> k_shift s = enc_mods m -> kbd_step s sc m (kbd_proc_data s).
Proof using Type.
  intros Hs Hm. unfold kbd_step, kbd_proc_data. destruct (dev_in KBSTATP (h_dev (k_hw s))) as [st d1] eqn:E1.
  erewrite Mbind_run by (rewrite inb_run; by rewrite E1). cbv beta.
  destruct (Z.land (u8 st) KBS_DIB =? 0); [done|].
  destruct (dev_in KBDATAP d1) as [dt d2] eqn:E2.
  erewrite Mbind_run by (rewrite inb_run; cbn [h_dev k_hw after_io set_hw]; by rewrite E2). cbv beta.
  rewrite after_io_io. cbn [app]. rewrite gets_bind.
  change (k_shift (after_io d2 _ s)) with (k_shift s). rewrite Hm.
  destruct (kbd_key_press m (u8 dt) (u8_range dt)) as [Hkey _].
  erewrite Mbind_run by (unfold reads; rewrite Hkey; reflexivity). cbv beta. cbn [fst snd].
  destruct (kbd_press m (u8 dt)) as [m' c]. cbn [fst snd].
  rewrite modify_bind. set (s2 := set_shift _ _). rewrite ctl_alt_test.
  destruct (m_ctl m' && m_alt m' && (c =? KEY_DEL)); [|done].
  destruct (cprintf_lit reboot_text reboot_text s2 sc []) as (d & e & E & _ & A & B);
    [exact Hs|decided|decided|vm_compute; reflexivity|].
  rewrite Mbind_assoc. erewrite Mbind_run by exact E. cbv beta.
  rewrite (Mbind_run _ _ _ _ _ (outb_run 0x92 3 _)), after_io_io. eexists _, e. split; [exact A|]. split; [exact B|done].
Qed.

Lemma ready_set_cons s r : ready s -> ready (set_cons r s).
Proof using Type. done. Qed.

Lemma kbd_keeps_ring : keeps_ring ready (kbd_proc_data (D := D)).
Proof using Type.
  intros s c s1 ((sc & Hs) & m & Hm) E. pose proof (kbd_proc_run s sc m Hs Hm) as Hk.
  rewrite E in Hk. unfold kbd_step in Hk. destruct (dev_in KBSTATP _) as [st d1].
  assert (forall m' s2, (exists sc', on_screen 2000 s2 sc') -> k_shift s2 = enc_mods m' ->
    k_cons s2 = k_cons s -> s1 = s2 -> k_cons s1 = k_cons s /\ ready s1 /\ forall r, ready (set_cons r s1)) as Hfin.
  { intros m' s2 Hs2 Hm2 Hc2 ->. split; [done|]. assert (ready s2) by (split; eauto). done. }
  destruct (Z.land _ _ =? 0).
  { apply Ok_pair_inj in Hk as [_ Hk]. eapply (Hfin m); [..|exact Hk]; [by exists sc|done|done]. }
  destruct (dev_in KBDATAP d1) as [dt d2]. destruct (kbd_press m (u8 dt)) as [m' c'].
  destruct (_ && _).
  - destruct Hk as (d & e & _ & _ & [_ Hk]%Ok_pair_inj). eapply (Hfin m'); [..|exact Hk]; [|done|done].
    assert (wf_screen 2000 (screen_text reboot_text sc)) as Hw.
    { destruct (console_each reboot_text s sc 0 Hs) as (? & ? & _ & Hw & _). exact Hw. }
    exists (screen_text reboot_text sc). refine (on_screen_show 2000 2000 _ sc _ _ _ _ Hw). exact Hs.
  - apply Ok_pair_inj in Hk as [_ Hk]. eapply (Hfin m'); [..|exact Hk]; [by exists sc|done|done].
Qed.

Lemma serial_keeps_ring : keeps_ring ready (serial_proc_data (D := D)).
Proof using Type.
  intros s c s1 Hr E. unfold serial_proc_data in E.
  apply Mbind_Ok in E as (v & s2 & E2 & E). rewrite inb_run in E2.
  destruct (dev_in _ _) as [v2 d2]. injection E2 as -> <-.
  destruct (Z.land _ _ =? 0); [by injection E as <- <-|].
  rewrite inb_run in E. destruct (dev_in _ _) as [v3 d3]. by injection E as <- <-.
Qed.

Lemma cons_intr_drains proc s cs s' :
  keeps_ring ready proc -> ready s -> ring_ok (k_cons s) -> drains proc s cs s' ->
  Z.of_nat (length cs) < 2 ^ 64 - 1 ->
  cons_intr proc s = Ok (tt, s') /\ ready s' /\ ring_ok (k_cons s').
Proof using Type.
  intros Hk Hr Ho Hd Hl. destruct (cons_intr_runs ready proc s cs s' Hk Hr Ho Hd) as (Hruns & H).
  split; [|done]. unfold cons_intr, whileM. apply (while_runs _ _ _ _ Hruns). lia.
Qed.

(** The receiver is polled only when it exists. *)
Definition serial_drains (s : kst D) (cs : list Z) (s' : kst D) : Prop :=
  if k_serial_exists s then drains serial_proc_data s cs s' else cs = [] /\ s' = s.

Lemma cons_getc_queue s cs1 s1 cs2 s2 :
  ready s -> ring_ok (k_cons s) ->
  serial_drains s cs1 s1 -> drains kbd_proc_data s1 cs2 s2 ->
  Z.of_nat (length cs1) < 2 ^ 64 - 1 -> Z.of_nat (length cs2) < 2 ^ 64 - 1 ->
  let q := queue (k_cons s) ++ chars_of cs1 ++ chars_of cs2 in
  Z.of_nat (length q) <= 511 ->
  exists r', cons_getc s = Ok (hd 0 q, set_cons r' s2) /\ ring_ok r' /\ queue r' = tl q.
Proof using Type.
  intros Hr Ho H1 H2 L1 L2 q Hq. unfold q in *. rewrite app_assoc in Hq |- *.
  assert (serial_intr s = Ok (tt, s1) /\ ready s1 /\ ring_ok (k_cons s1) /\
    queue (k_cons s1) = queue (k_cons s) ++ chars_of cs1) as (E1 & Hr1 & Ho1 & Q1).
  { unfold serial_intr, serial_drains in *. rewrite gets_bind. destruct (k_serial_exists s).
    - destruct (cons_intr_drains _ _ _ _ serial_keeps_ring Hr Ho H1 L1) as (E & Hr1 & Ho1).
      split_and!; [done..|]. eapply drains_queue; [apply serial_keeps_ring|done..|].
      rewrite length_app in Hq. lia.
    - destruct H1 as [-> ->]. by rewrite app_nil_r. }
  destruct (cons_intr_drains _ _ _ _ kbd_keeps_ring Hr1 Ho1 H2 L2) as (E2 & Hr2 & Ho2).
  assert (queue (k_cons s2) = (queue (k_cons s) ++ chars_of cs1) ++ chars_of cs2) as Q2.
  { rewrite <- Q1 in Hq |- *. eapply drains_queue; [apply kbd_keeps_ring|done..]. }
  destruct (ring_get_queue _ Ho2) as (r' & E3 & Hr' & Q3). rewrite Q2 in E3, Q3. exists r'.
  split; [|done]. unfold cons_getc. erewrite Mbind_run by exact E1. cbv beta.
  erewrite Mbind_run by exact E2. cbv beta. unfold cons_take. by rewrite E3.
Qed.

(** Evaluation of [drains]. *)
Fixpoint drain (fuel : nat) (proc : K Z) (s : kst D) : option (list Z * kst D) :=
  match fuel with
  | O => None
  | S fuel' =>
      match proc s with
      | Err _ => None
      | Ok (c, s1) =>
          if c =? -1 then Some ([], s1)
          else
            r ← drain fuel' proc (if c =? 0 then s1 else set_cons (ring_push c (k_cons s1)) s1);
            Some (c :: r.1, r.2)
      end
  end.

Lemma drain_drains fuel proc : forall s cs s',
  drain fuel proc s = Some (cs, s') -> drains proc s cs s'.
Proof using Type.
  induction fuel as [|fuel IH]; intros s cs s' Hd; [done|]. cbn [drain] in Hd.
  destruct (proc s) as [[c s1]|e] eqn:E; [|done].
  destruct (Z.eqb_spec c (-1)) as [->|H1].
  { injection Hd as <- <-. by apply drains_end. }
  destruct (drain fuel proc _) as [[cs1 s2]|] eqn:Ed; [|done]. injection Hd as <- <-. cbn [fst snd].
  destruct (Z.eqb_spec c 0) as [->|H0]; [eapply drains_zero|eapply drains_char]; eauto.
Qed.

Definition drained (fuel : nat) (proc : K Z) (s : kst D) : kst D :=
  match drain fuel proc s with Some r => r.2 | None => s end.

Lemma drains_drained fuel proc s cs :
  fst <$> drain fuel proc s = Some cs -> drains proc s cs (drained fuel proc s).
Proof using Type.
  unfold drained. intros H. apply (drain_drains fuel).
  destruct (drain fuel proc s) as [[cs' s']|]; [|done]. cbn in H. by injection H as ->.
Qed.

(** ** Waiting for a character *)

(** [n] calls of [cons_getc] that find nothing. *)
Inductive idles : nat -> kst D -> kst D -> Prop :=
| idles_0 s : idles 0 s s
| idles_S n s s1 s2 : cons_getc s = Ok (0, s1) -> idles n s1 s2 -> idles (S n) s s2.

Lemma getchar_waits n s s1 c s2 :
  idles n s s1 -> cons_getc s1 = Ok (c, s2) -> c <> 0 -> Z.of_nat n < 2 ^ 64 ->
  getchar s = Ok (c, s2).
Proof using Type.
  intros Hi Hc Hc0 Hn. unfold getchar, whileM. apply (while_runs _ (S n)); [|lia].
  induction Hi as [s|n s s3 s4 E _ IH].
  - apply runs_done. cbn [fst snd]. unfold getchar_body. erewrite Mbind_run by exact Hc.
    by rewrite (proj2 (Z.eqb_neq c 0)).
  - eapply runs_step; [|apply IH; [done|lia]]. cbn [fst snd]. unfold getchar_body.
    by erewrite Mbind_run by exact E.
Qed.
End devices.

(** * What the input side promises *)

(** C12: the decoding of a scan code is what a US keyboard means: the prefix
    0xE0, releases, modifier and lock keys change the modifiers as
    [kbd_press] says, and the result is the character engraved on the key
    ([key_rows]) or of its name, or its control character, 0 for none; no
    table is indexed out of bounds. *)
Theorem kbd_key_spec m data :
  is_byte data ->
  kbd_key (enc_mods m) data = Ok (enc_mods (kbd_press m data).1, (kbd_press m data).2) /\
  is_byte (kbd_press m data).2.
Proof. apply kbd_key_press. Qed.

Lemma kbd_key_spec_witness :
  kbd_key 9 0x1E = Ok (9, 97).
Proof.
  exact (proj1 (kbd_key_spec (mkMods true false false true false false false) 0x1E ltac:(decided))).
Defined.

(** Control and home give nothing, with and without the other modifiers; the
    cursor key beside it does. *)
Example ctrl_home :
  Forall (fun m => kbd_key (enc_mods (mkMods m true false false false false true)) 0x47 =
      Ok (enc_mods (mkMods m true false false false false false), 0) /\
    kbd_key (enc_mods (mkMods m true false false false false true)) 0x48 =
      Ok (enc_mods (mkMods m true false false false false false), KEY_UP)) [false; true].
Proof. decided. Qed.

Definition types_char (c : Z) : bool :=
  existsb (fun code => existsb (fun shift => bool_decide (kbd_key shift code = Ok (shift, c))) [0; 1])
    (seqZ 0 128).

(** Every printable ASCII character can be typed, with one key and at most
    the shift modifier, which the key leaves as it was. *)
Theorem kbd_ascii c :
  32 <= c < 127 ->
  exists code shift, 0 <= code < 128 /\ (shift = 0 \/ shift = SHIFT) /\
    kbd_key shift code = Ok (shift, c).
Proof.
  intros Hc. assert (forallb types_char (seqZ 32 95) = true) as H by (vm_compute; reflexivity).
  rewrite forallb_forall in H. specialize (H c). rewrite <- list_elem_of_In, elem_of_seqZ in H.
  specialize (H ltac:(lia)). unfold types_char in H. apply existsb_exists in H as (code & Hcode & H).
  apply existsb_exists in H as (shift & Hs & H%bool_decide_eq_true).
  rewrite <- list_elem_of_In, elem_of_seqZ in Hcode. exists code, shift.
  split_and!; [lia|lia| |done]. destruct Hs as [<-|[<-|[]]]; [by left|by right].
Qed.

Lemma kbd_ascii_witness :
  exists code shift, 0 <= code < 128 /\ (shift = 0 \/ shift = SHIFT) /\ kbd_key shift code = Ok (shift, 126).
Proof. apply (kbd_ascii 126). lia. Defined.

(** C13: one call of [kbd_proc_data], in any state of the kernel with a working
    display: -1 when the controller has no data; otherwise the modifiers and
    the result are those of the code read, nothing else changes, and only
    Ctrl-Alt-Del also prints and then asks for the reset. *)
Theorem kbd_proc_data_spec {D} `{!Ports D} (s : kst D) sc m :
  on_screen 2000 s sc -> k_shift s = enc_mods m -> kbd_step s sc m (kbd_proc_data s).
Proof. apply kbd_proc_run. Qed.

(** C7: the input ring is a queue: [cons_getc] takes in what the receiver and
    the keyboard have, in this order, and returns the oldest character, or 0
    when there is none, as long as no more than 511 are pending. *)
Theorem cons_getc_spec {D} `{!Ports D} (s : kst D) cs1 s1 cs2 s2 :
  ready s -> ring_ok (k_cons s) ->
  serial_drains s cs1 s1 -> drains kbd_proc_data s1 cs2 s2 ->
  Z.of_nat (length cs1) < 2 ^ 64 - 1 -> Z.of_nat (length cs2) < 2 ^ 64 - 1 ->
  let q := queue (k_cons s) ++ chars_of cs1 ++ chars_of cs2 in
  Z.of_nat (length q) <= 511 ->
  exists r', cons_getc s = Ok (hd 0 q, set_cons r' s2) /\ ring_ok r' /\ queue r' = tl q.
Proof. apply cons_getc_queue. Qed.

(** C34: one character more than 511 and all of them are lost: the write index
    meets the read index and the ring reads as empty. *)
Theorem ring_overflow c r :
  ring_ok r -> Z.of_nat (length (queue r)) = 511 ->
  exists r', ring_put c r = Ok r' /\ ring_ok r' /\ queue r' = [].
Proof.
  intros Hr Hl. exists (ring_push c r). destruct (ring_put_push c r Hr). split_and!; [done|done|].
  apply queue_push_full; [done|by rewrite <- length_queue].
Qed.

Lemma ring_overflow_witness :
  exists r', ring_put 65 (mkRing (replicate 512 66) 0 511) = Ok r' /\ ring_ok r' /\ queue r' = [].
Proof.
  apply (ring_overflow 65 (mkRing (replicate 512 66) 0 511)); [|vm_compute; reflexivity].
  unfold ring_ok. split_and!; cbn [r_buf r_rpos r_wpos]; try lia; [vm_compute; reflexivity|].
  apply Forall_replicate. unfold is_byte. lia.
Defined.

(** A keyboard with scan codes waiting, and no serial input. *)
Definition kbd_ports : Ports (list Z) := {|
  dev_in := fun port d =>
    if port =? KBSTATP then (match d with [] => 0 | _ => 1 end, d)
    else if port =? KBDATAP then (hd 0 d, tl d)
    else (0xA0, d);
  dev_in16 := fun _ d => (0, d); dev_in32 := fun _ d => (0, d); dev_out := fun _ _ d => d; dev_out16 := fun _ _ d => d; dev_out32 := fun _ _ d => d;
  dev_bus := fun _ _ => 0xFFFF |}.

Definition kbd_kst (codes : list Z) : kst (list Z) :=
  mkKst (mkHw (write_bytes ∅ (KERNBASE + CGA_BUF) (words (replicate 2000 blank))) codes [])
    false (mkCrt CGA_BASE (KERNBASE + CGA_BUF) 0) 0 (mkRing (replicate 512 0) 0 0) Null.

Lemma kbd_kst_on_screen codes : on_screen 2000 (kbd_kst codes) (replicate 2000 blank, 0).
Proof.
  unfold on_screen, wf_screen. split_and!; [exact (length_replicate _ _)| |cbn; lia|cbn; lia|
    apply bytes_write_bytes|done|cbn [addr_6845 k_crt kbd_kst]; decided].
  apply Forall_replicate. decided.
Qed.

Definition no_mods : mods := mkMods false false false false false false false.

Lemma kbd_proc_data_spec_witness :
  kbd_step (Ports0 := kbd_ports) (kbd_kst [0x1E]) (replicate 2000 blank, 0) no_mods
    (kbd_proc_data (Ports0 := kbd_ports) (kbd_kst [0x1E])).
Proof. apply (kbd_proc_data_spec (Ports0 := kbd_ports)); [apply kbd_kst_on_screen|reflexivity]. Defined.

(** The keys J and O, pressed and released. *)
Definition typed_codes : list Z := [0x24; 0xA4; 0x18; 0x98].
Definition typed_kst : kst (list Z) :=
  drained 10 (kbd_proc_data (Ports0 := kbd_ports)) (kbd_kst typed_codes).

Lemma cons_getc_spec_witness :
  exists r', cons_getc (Ports0 := kbd_ports) (kbd_kst typed_codes) = Ok (106, set_cons r' typed_kst) /\
    ring_ok r' /\ queue r' = [111].
Proof.
  apply (cons_getc_spec (Ports0 := kbd_ports) (kbd_kst typed_codes) [] (kbd_kst typed_codes)
    [106; 0; 111; 0] typed_kst); [| | |apply (drains_drained 10)|decided..].
  - split; [eexists; apply kbd_kst_on_screen|by exists no_mods].
  - unfold ring_ok. cbn [k_cons kbd_kst r_buf r_rpos r_wpos]. split_and!; try lia; [vm_compute; reflexivity|].
    apply Forall_replicate. unfold is_byte. lia.
  - by split.
  - vm_compute. reflexivity.
Defined.
