(* ===== verification/Keeps.v ===== *)
(** What the console's output and its initialisation leave alone.

    A property of the kernel's state that does not depend on memory, on the
    display's variables nor on [serial_exists], and that the port accesses other
    than reading the keyboard's data keep ([Apart]), is kept by all of
    kern/console.c's output and by the initialisation of the display and the
    serial port. *)
From S2P Require Import Prelude Mem Emit Printfmt FormatSpec Mmu Machine ConsOut Printf ConsIn.

(** Properties output does not depend on. *)
Class Apart {D : Type} `{!Ports D} (P : kst D -> Prop) : Prop := {
  apart_inb : forall port, port <> KBDATAP -> keeps P (inb_k port);
  apart_outb : forall port v, keeps P (outb_k port v);
  apart_mem : forall s m, P s -> P (set_mem m s);
  apart_crt : forall s c, P s -> P (set_crt c s);
  apart_serial : forall s b, P s -> P (set_serial b s) }.

Section output.
Context {D : Type} `{!Ports D} (P : kst D -> Prop) `{!Apart P}.
Notation K := (M (kst D)).

Lemma keeps_on_mem {A} (f : mem -> res (A * mem)) : keeps P (on_mem f).
Proof using All.
  intros s a s' Hs E. unfold on_mem in E. destruct (f (k_mem s)) as [[b m]|]; [|done].
  injection E as _ <-. by apply apart_mem.
Qed.

Lemma keeps_set (f : kst D -> kst D) : (forall s, P s -> P (f s)) -> keeps P (modify f).
Proof using Type. intros Hf s a s' Hs [= _ <-]. by apply Hf. Qed.

Lemma keeps_set_pos p : keeps P (set_pos p).
Proof using All. intros s a s' Hs [= _ <-]. by apply apart_crt. Qed.

Lemma keeps_crt_store i v : keeps P (crt_store i v).
Proof using All. intros s a s' Hs E. exact (keeps_on_mem _ s a s' Hs E). Qed.

(** Code that is made of these. *)
Ltac keep :=
  repeat first
    [ apply keeps_bind; [|intro]
    | apply keeps_ret | apply keeps_gets | apply keeps_err
    | apply apart_inb; by vm_compute
    | apply apart_outb | apply keeps_on_mem | apply keeps_set_pos | apply keeps_crt_store
    | apply keeps_set; intros ? ?; first [by apply apart_crt | by apply apart_serial]
    | apply keeps_while; intro
    | match goal with |- keeps _ (if ?b then _ else _) => destruct b end ].

Lemma keeps_poll port mask i : port <> KBDATAP -> keeps P (poll_body port mask i).
Proof using All. intros Hp. unfold poll_body, delay. keep. all: by apply apart_inb. Qed.

Lemma keeps_cons_putc_at n : forall c, keeps P (cons_putc_at n c).
Proof using All.
  induction n as [|n IH]; intros c; cbn [cons_putc_at]; [apply keeps_err|].
  unfold serial_putc, lpt_putc, cga_putc, cga_switch, cga_scroll, cga_cursor, blank_body. keep.
  all: first [apply IH | by apply keeps_poll].
Qed.

Lemma keeps_vload16 a : keeps P (vload16 a).
Proof using Type. intros s b s' Hs E. unfold vload16 in E. destruct (load16 _ _); injection E as _ <-; exact Hs. Qed.

Lemma keeps_vstore16 a v : keeps P (vstore16 a v).
Proof using All.
  intros s b s' Hs E. unfold vstore16 in E. destruct (store16 _ _ _); injection E as _ <-; [by apply apart_mem|exact Hs].
Qed.

Lemma keeps_cga_init : keeps P cga_init.
Proof using All.
  intros s a s' Hs E. unfold cga_init in E. apply Mbind_Ok in E as (was & s1 & E1 & E).
  apply (keeps_vload16 _ _ _ _ Hs) in E1. apply Mbind_Ok in E as ([] & s2 & E2 & E).
  apply (keeps_vstore16 _ _ _ _ _ E1) in E2. apply Mbind_Ok in E as (now & s3 & E3 & E).
  apply (keeps_vload16 _ _ _ _ E2) in E3. apply Mbind_Ok in E as (p & s4 & E4 & E).
  assert (P s4 /\ p.2 + 1 <> KBDATAP) as [Hs4 Hr].
  { destruct (negb (now =? 0xA55A)); [by injection E4 as <- <-|].
    apply Mbind_Ok in E4 as ([] & s5 & E5 & E4). apply (keeps_vstore16 _ _ _ _ _ E3) in E5. by injection E4 as <- <-. }
  revert E. apply (fun H => H s4 a s' Hs4).
  keep.
Qed.

Lemma keeps_serial_init : keeps P serial_init.
Proof using All. unfold serial_init. keep. Qed.
End output.
