(* ===== verification/Kdebug.v ===== *)
(** kern/kdebug.c: finding the source line of an instruction in the STABS
    tables the linker puts in the kernel.

    The table between [__STAB_BEGIN__] and [__STAB_END__] is a list of [Stab];
    an index outside it is a fault.  The string table is in memory, from
    [stabstr] to [stabstr_end].  [int]s do not overflow here: they are indices
    of a table of fewer than 2^30 entries.  The binary search is shown to stop
    without leaving its range on any table, and to find the entry that contains
    the address when the entries of its type are in order. *)
From S2P Require Import Prelude Mem Cstring Mmu Emit.

(** ** inc/stab.h *)

Definition N_FUN : Z := 0x24.
Definition N_SLINE : Z := 0x44.
Definition N_SO : Z := 0x64.
Definition N_SOL : Z := 0x84.
Definition N_PSYM : Z := 0xa0.

Record Stab := mkStab {
  n_strx : Z; n_type : Z; n_other : Z; n_desc : Z; n_value : Z }.

(** ** stab_binsearch *)

Section search.
Context (stabs : list Stab) (type : Z).

(** The earliest stab of the right type, backwards from [m]. *)
Definition back_body (l m : Z) : res (Z + Z) :=
  if m >=? l then
    s ← at_idx stabs m;
    if negb (n_type s =? type) then Ok (inl (m - 1)) else Ok (inr m)
  else Ok (inr m).

Record bin_state := mkBin {
  b_l : Z; b_r : Z; b_left : Z; b_right : Z; b_addr : Z; b_any : bool }.

Definition bin_body (b : bin_state) : res (bin_state + bin_state) :=
  if b_l b <=? b_r b then
    let true_m := Z.quot (b_l b + b_r b) 2 in
    m ← while_ (back_body (b_l b)) true_m;
    if m <? b_l b then
      Ok (inl (mkBin (true_m + 1) (b_r b) (b_left b) (b_right b) (b_addr b) (b_any b)))
    else
      s ← at_idx stabs m;
      if n_value s <? b_addr b then
        Ok (inl (mkBin (true_m + 1) (b_r b) m (b_right b) (b_addr b) true))
      else if n_value s >? b_addr b then
        Ok (inl (mkBin (b_l b) (m - 1) (b_left b) (m - 1) (b_addr b) true))
      else
        Ok (inl (mkBin m (b_r b) m (b_right b) (u32 (b_addr b + 1)) true))
  else Ok (inr b).

(** The rightmost region containing the address. *)
Definition fwd_body (left l : Z) : res (Z + Z) :=
  if l >? left then
    s ← at_idx stabs l;
    if negb (n_type s =? type) then Ok (inl (l - 1)) else Ok (inr l)
  else Ok (inr l).

(** The new [*region_left] and [*region_right]. *)
Definition stab_binsearch (left right addr : Z) : res (Z * Z) :=
  b ← while_ bin_body (mkBin left right left right addr false);
  if negb (b_any b) then Ok (b_left b, b_left b - 1)
  else
    l ← while_ (fwd_body (b_left b)) (b_right b);
    Ok (l, b_right b).
End search.

(** ** debuginfo_eip *)

Record Eipdebuginfo := mkInfo {
  eip_file : ptr; eip_line : Z; eip_fn_name : ptr; eip_fn_namelen : Z; eip_fn_addr : Z;
  eip_fn_narg : Z }.

(** The tables the linker provides. *)
Record stab_tables := mkTables { t_stabs : list Stab; t_stabstr : Z; t_stabstr_end : Z }.

(** [debuginfo_eip] returns, or panics on a user address. *)
Inductive dbg :=
| DbgPanic
| DbgRet (rc : Z) (info : Eipdebuginfo).

Section debuginfo.
Context (m : mem) (t : stab_tables).

(** [stabs[i].n_strx < stabstr_end - stabstr], an unsigned comparison, and the
    string there. *)
Definition stab_name (i : Z) (dflt : ptr) : res ptr :=
  s ← at_idx (t_stabs t) i;
  if n_strx s <? u32 (t_stabstr_end t - t_stabstr t)
  then Ok (Addr (t_stabstr t + n_strx s)) else Ok dflt.

(** Backwards to the file name of a line. *)
Definition file_body (lfile lline : Z) : res (Z + Z) :=
  if lline >=? lfile then
    s ← at_idx (t_stabs t) lline;
    if negb (n_type s =? N_SOL) && (negb (n_type s =? N_SO) || (n_value s =? 0))
    then Ok (inl (lline - 1)) else Ok (inr lline)
  else Ok (inr lline).

(** The number of parameters of the function. *)
Definition narg_body (rfun : Z) (st : Z * Z) : res (Z * Z + Z) :=
  let '(lline, n) := st in
  if lline <? rfun then
    s ← at_idx (t_stabs t) lline;
    if n_type s =? N_PSYM then Ok (inl (lline + 1, n + 1)) else Ok (inr n)
  else Ok (inr n).

(** After the function is known: name, line, file and arguments. *)
Definition debuginfo_line (info : Eipdebuginfo) (addr lfile lfun rfun lline rline : Z) : res dbg :=
  colon ← strfind m (eip_fn_name info) 58;
  len ← psub colon (eip_fn_name info);
  let info := mkInfo (eip_file info) (eip_line info) (eip_fn_name info) len (eip_fn_addr info) (eip_fn_narg info) in
  b ← stab_binsearch (t_stabs t) N_SLINE lline rline addr;
  if b.1 >? b.2 then Ok (DbgRet (-1) info)
  else
    s ← at_idx (t_stabs t) b.1;
    lline ← while_ (file_body lfile) b.1;
    file ← (if lline >=? lfile then stab_name lline (eip_file info) else Ok (eip_file info));
    narg ← (if lfun <? rfun then while_ (narg_body rfun) (lfun + 1, eip_fn_narg info)
            else Ok (eip_fn_narg info));
    Ok (DbgRet 0 (mkInfo file (n_desc s) (eip_fn_name info) len (eip_fn_addr info) narg)).

Definition debuginfo_eip (addr : Z) : res dbg :=
  let info := mkInfo (lit "<unknown>") 0 (lit "<unknown>") 9 addr 0 in
  if addr >=? ULIM then
    ok ← (if t_stabstr_end t <=? t_stabstr t then Ok false
          else c ← loadc m (Addr (t_stabstr_end t - 1)); Ok (c =? 0));
    if negb ok then Ok (DbgRet (-1) info)
    else
      f ← stab_binsearch (t_stabs t) N_SO 0 (Z.of_nat (length (t_stabs t)) - 1) addr;
      if f.1 =? 0 then Ok (DbgRet (-1) info)
      else
        g ← stab_binsearch (t_stabs t) N_FUN f.1 f.2 addr;
        if g.1 <=? g.2 then
          s ← at_idx (t_stabs t) g.1;
          name ← stab_name g.1 (eip_fn_name info);
          let info := mkInfo (eip_file info) 0 name 9 (n_value s) 0 in
          debuginfo_line info (u32 (addr - n_value s)) f.1 g.1 g.2 g.1 g.2
        else
          debuginfo_line info addr f.1 g.1 g.2 f.1 f.2
  else Ok DbgPanic.
End debuginfo.

(** * The binary search *)

Section binsearch.
Context (stabs : list Stab) (type : Z).
Let n := Z.of_nat (length stabs).

Definition matches (i : Z) : Prop := exists s, at_idx stabs i = Ok s /\ n_type s = type.
Definition value (i : Z) : Z := match at_idx stabs i with Ok s => n_value s | Err _ => 0 end.
Definition no_match (a b : Z) : Prop := forall i, a <= i <= b -> ~ matches i.

Lemma no_match_snoc a b c : no_match a b -> no_match (b + 1) c -> no_match a c.
Proof using Type. intros H1 H2 i Hi. destruct (Z.le_gt_cases i b); [by apply H1; lia|by apply H2; lia]. Qed.

Lemma back_run l m :
  0 <= l -> l - 1 <= m < n -> n < 2 ^ 63 ->
  exists m', while_ (back_body stabs type l) m = Ok m' /\ l - 1 <= m' <= m /\
    no_match (m' + 1) m /\ (l <= m' -> matches m').
Proof using Type.
  intros Hl Hm Hn.
  destruct (while_total (back_body stabs type l)
    (fun x => l - 1 <= x <= m /\ no_match (x + 1) m)
    (fun x => l - 1 <= x <= m /\ no_match (x + 1) m /\ (l <= x -> matches x))
    (fun x => Z.to_nat (x + 1 - l)) m) as (m' & E & H); [|split; [lia|intros i ?; lia]|lia|by exists m'].
  intros x [Hx Hno]. unfold back_body. destruct (Z.geb_spec x l) as [Hge|Hlt].
  - destruct (at_idx_in stabs x) as (s & Es & _); [lia|]. rewrite Es. red_bind.
    destruct (Z.eqb_spec (n_type s) type) as [Ht|Ht]; cbn [negb]; eexists; (split; [done|]).
    + split_and!; try lia; [done|]. intros _. by exists s.
    + split; [|lia]. split; [lia|]. replace (x - 1 + 1) with x by lia.
      intros i Hi (s' & Es' & Ht'). destruct (decide (i = x)) as [->|]; [congruence|].
      apply (Hno i); [lia|by exists s'].
  - eexists; split; [done|]. split_and!; try lia. done.
Qed.

Lemma fwd_back left l : fwd_body stabs type left l = back_body stabs type (left + 1) l.
Proof using Type.
  unfold fwd_body, back_body. by destruct (Z.gtb_spec l left), (Z.geb_spec l (left + 1)); try lia.
Qed.

(** ** The invariant of the search *)

Context (L R addr : Z).
Hypothesis HL : 0 <= L.
Hypothesis HR : L - 1 <= R < n.
Hypothesis Hn : n < 2 ^ 30.
(** No entry is at the last address, so the search's [addr++] does not wrap. *)
Hypothesis Hval : Forall (fun s => 0 <= n_value s < 4294967295) stabs.

(** The entries of the type are in order, and none is at the address next to
    one that is exactly [addr]. *)
Definition in_order : Prop :=
  0 <= addr < 2 ^ 32 - 1 /\
  (forall i j, L <= i <= R -> L <= j <= R -> i <= j -> matches i -> matches j -> value i <= value j) /\
  (forall i j, L <= i <= R -> L <= j <= R -> matches i -> matches j -> value i = addr -> value j <> addr + 1).

Record bin_inv (b : bin_state) : Prop := {
  bi_l : L <= b_l b <= b_r b + 1;
  bi_r : L - 1 <= b_r b <= R;
  bi_right : b_right b = b_r b;
  bi_left : L <= b_left b <= b_l b;
  bi_next : b_r b = R \/ matches (b_r b + 1);
  bi_hit : b_left b = L \/
    matches (b_left b) /\ value (b_left b) < b_addr b /\ b_left b <= b_r b;
  bi_any : if b_any b then exists i, L <= i <= R /\ matches i else b_left b = L /\ b_r b = R /\ no_match L (b_l b - 1) }.

Record bin_ord (b : bin_state) : Prop := {
  bo_addr : b_addr b = addr \/ b_addr b = addr + 1 /\ exists i, L <= i <= R /\ matches i /\ value i = addr;
  bo_r : forall i, b_r b < i <= R -> matches i -> addr < value i;
  bo_left : b_left b = L /\ no_match L (b_l b - 1) \/
    b_left b <= R /\ matches (b_left b) /\ value (b_left b) <= addr /\ no_match (b_left b + 1) (b_l b - 1) }.

(** Where the next comparison is an exact match. *)
Definition exact_at (i a : Z) : bool :=
  match at_idx stabs i with Ok s => (n_type s =? type) && (n_value s =? a) | Err _ => false end.

Definition bin_measure (b : bin_state) : nat :=
  Z.to_nat (2 * (b_r b - b_l b + 1) + (if exact_at (b_l b) (b_addr b) then 1 else 0)).

(** One iteration: what the middle entry says. *)
Inductive bin_step (b : bin_state) : bin_state -> Prop :=
| step_none t : b_l b <= t <= b_r b -> no_match (b_l b) t ->
    bin_step b (mkBin (t + 1) (b_r b) (b_left b) (b_right b) (b_addr b) (b_any b))
| step_less t k : b_l b <= k <= t -> t <= b_r b -> matches k -> no_match (k + 1) t -> value k < b_addr b ->
    bin_step b (mkBin (t + 1) (b_r b) k (b_right b) (b_addr b) true)
| step_more k : b_l b <= k <= b_r b -> matches k -> b_addr b < value k ->
    bin_step b (mkBin (b_l b) (k - 1) (b_left b) (k - 1) (b_addr b) true)
| step_exact k : b_l b <= k <= b_r b -> matches k -> value k = b_addr b ->
    bin_step b (mkBin k (b_r b) k (b_right b) (u32 (b_addr b + 1)) true).

Lemma bin_body_step b :
  bin_inv b ->
  (b_r b < b_l b /\ bin_body stabs type b = Ok (inr b)) \/
  (b_l b <= b_r b /\ exists b', bin_body stabs type b = Ok (inl b') /\ bin_step b b').
Proof using HL HR Hn Hval.
  intros [Hl Hr _ _ _ _ _]. unfold bin_body. destruct (Z.leb_spec (b_l b) (b_r b)) as [Hle|Hlt]; [right|left; split; [lia|done]].
  split; [done|]. rewrite Z.quot_div_nonneg by lia. set (t := (b_l b + b_r b) / 2).
  assert (b_l b <= t <= b_r b) as Ht by (unfold t; zlia).
  destruct (back_run (b_l b) t) as (k & E & Hk & Hno & Hm); [lia|lia|lia|]. rewrite E. red_bind.
  destruct (Z.ltb_spec k (b_l b)).
  - eexists. split; [done|]. apply step_none; [lia|]. by replace (b_l b) with (k + 1) by lia.
  - specialize (Hm ltac:(lia)). pose proof Hm as (s & Es & Hty). rewrite Es. red_bind.
    assert (value k = n_value s) as Hv by (unfold value; by rewrite Es).
    destruct (Z.ltb_spec (n_value s) (b_addr b)); [|destruct (Z.gtb_spec (n_value s) (b_addr b))];
      (eexists; split; [done|]).
    + apply (step_less _ t k); (done || lia).
    + apply step_more; (done || lia).
    + apply step_exact; (done || lia).
Qed.

Lemma bin_step_measure b b' :
  bin_inv b -> b_l b <= b_r b -> bin_step b b' -> (bin_measure b' < bin_measure b)%nat.
Proof using HL HR Hn Hval.
  intros _ Hle Hs. unfold bin_measure.
  destruct Hs as [t Ht Hno|t k Hk Ht Hm Hno Hv|k Hk Hm Hv|k Hk Hm Hv]; cbn [b_l b_r b_addr].
  1-3: repeat destruct (exact_at _ _); lia.
  assert (exact_at k (u32 (b_addr b + 1)) = false) as ->.
  { destruct Hm as (s & Es & Hty). unfold exact_at, value in *. rewrite Es in *.
    apply andb_false_iff. right. apply Z.eqb_neq. rewrite Hv. unfold u32. zlia. }
  destruct (decide (k = b_l b)) as [->|]; [|destruct (exact_at (b_l b) (b_addr b)); lia].
  assert (exact_at (b_l b) (b_addr b) = true) as ->; [|lia].
  destruct Hm as (s & Es & Hty). unfold exact_at, value in *. rewrite Es in *. by rewrite Hty, Hv, !Z.eqb_refl.
Qed.

Lemma value_range k : matches k -> 0 <= value k < 4294967295.
Proof using Hval.
  intros (s & Es & _). unfold value. rewrite Es. unfold at_idx in Es. destruct (k <? 0); [done|].
  destruct (stabs !! Z.to_nat k) as [s'|] eqn:E; [|done]. injection Es as ->.
  rewrite Forall_lookup in Hval. by apply (Hval _ _ E).
Qed.

Lemma bin_step_inv b b' : bin_inv b -> bin_step b b' -> bin_inv b'.
Proof using HL HR Hn Hval.
  intros [Hl Hr Hri Hle Hnx Hhit Hany] Hs.
  assert (forall k, b_l b <= k <= b_r b -> matches k -> exists i, L <= i <= R /\ matches i) as Hex.
  { intros k Hk Hm. exists k. split; [lia|done]. }
  destruct Hs as [t Ht Hno|t k Hk Ht Hm Hno Hv|k Hk Hm Hv|k Hk Hm Hv];
    (split; cbn [b_l b_r b_left b_right b_any b_addr]; try lia; try done);
    try (apply (Hex k); [lia|done]); try (right; by replace (k - 1 + 1) with k by lia).
  2: { right. split_and!; (done || lia). }
  2: { destruct Hhit as [|(? & ? & ?)]; [by left|]. right. split_and!; [done|done|].
       destruct (decide (k = b_left b)) as [->|]; lia. }
  2: { right. pose proof (value_range k Hm). rewrite u32_small by lia. split_and!; (done || lia). }
  destruct (b_any b); [done|]. destruct Hany as (-> & -> & Hno1). split_and!; [done|done|].
  replace (t + 1 - 1) with t by lia. apply (no_match_snoc _ (b_l b - 1)); [done|].
  by replace (b_l b - 1 + 1) with (b_l b) by lia.
Qed.

Lemma bin_step_ord b b' : in_order -> bin_inv b -> bin_ord b -> bin_step b b' -> bin_ord b'.
Proof using HL HR Hn Hval.
  intros (Ha & Hord & Hadj) [Hl Hr Hri Hle _ _ Hany] [Oa Or Ol] Hs.
  assert (addr <= b_addr b <= addr + 1) as Hab by lia.
  destruct Hs as [t Ht Hno|t k Hk Ht Hm Hno Hv|k Hk Hm Hv|k Hk Hm Hv];
    split; cbn [b_l b_r b_left b_right b_any b_addr]; try done.
  - replace (t + 1 - 1) with t by lia.
    destruct Ol as [[-> Hn1]|(? & ? & ? & Hn1)]; [left; split; [done|]|right; split_and!; [done..|]];
      (apply (no_match_snoc _ (b_l b - 1)); [done|]; by replace (b_l b - 1 + 1) with (b_l b) by lia).
  - replace (t + 1 - 1) with t by lia. right. split_and!; try (done || lia).
  - intros i Hi Hmi. destruct (Z.le_gt_cases i (b_r b)); [|by apply Or; [lia|]].
    pose proof (Hord k i ltac:(lia) ltac:(lia) ltac:(lia) Hm Hmi). lia.
  - assert (value k = addr) as Hka.
    { destruct Oa as [->|(-> & i & Hi & Hmi & Hvi)] in Hv; [done|].
      destruct (Hadj i k ltac:(lia) ltac:(lia) Hmi Hm Hvi Hv). }
    right. assert (b_addr b = addr) by lia. rewrite u32_small by lia. split; [lia|].
    exists k. split_and!; (done || lia).
  - right. split_and!; [lia|done| |intros i ?; lia].
    destruct Oa as [Hx|(Hx & i & Hi & Hmi & Hvi)]; [lia|].
    destruct (Hadj i k ltac:(lia) ltac:(lia) Hmi Hm Hvi ltac:(lia)).
Qed.

(** The loop stops, with its invariants. *)
Lemma bin_loop :
  exists b, while_ (bin_body stabs type) (mkBin L R L R addr false) = Ok b /\
    bin_inv b /\ b_l b = b_r b + 1 /\ (in_order -> bin_ord b).
Proof using HL HR Hn Hval.
  apply (while_total (bin_body stabs type) (fun b => bin_inv b /\ (in_order -> bin_ord b)) _ bin_measure).
  - intros b [Hi Ho]. destruct (bin_body_step b Hi) as [[Hlt E]|(Hle & b' & E & Hs)].
    + exists (inr b). split; [done|]. split_and!; [done| |done]. destruct Hi as [Hl _ _ _ _ _ _]. lia.
    + exists (inl b'). split; [done|]. split; [|by apply bin_step_measure]. split; [by eapply bin_step_inv|].
      intros Hord. eapply bin_step_ord; eauto.
  - split; [|intros _].
    + split; cbn [b_l b_r b_left b_right b_any b_addr]; [lia|lia|lia|lia|by left|by left|].
      split_and!; [done|done|]. intros i ?; lia.
    + split; cbn [b_l b_r b_left b_right b_any b_addr]; [by left|intros; lia|].
      left. split; [done|]. intros i ?; lia.
  - unfold bin_measure. cbn [b_l b_r b_addr]. destruct (exact_at _ _); lia.
Qed.

(** The last walk, down from [right] to [left] or a match. *)
Lemma fwd_run left right :
  -1 <= left -> right < n ->
  exists l, while_ (fwd_body stabs type left) right = Ok l /\
    (right < left -> l = right) /\
    (left <= right -> left <= l <= right /\ no_match (l + 1) right /\ (left < l -> matches l)).
Proof using HL HR Hn Hval.
  intros H0 Hr. rewrite (while_ext _ (back_body stabs type (left + 1))) by apply fwd_back.
  destruct (Z.le_gt_cases left right).
  - destruct (back_run (left + 1) right) as (l & E & Hl & Hno & Hm); [lia|lia|lia|].
    exists l. split; [done|]. split; [lia|]. intros _. split_and!; [lia|lia|done|]. intros. apply Hm. lia.
  - exists right. split; [|split; [done|lia]]. apply (while_runs _ 1); [|lia]. apply runs_done.
    unfold back_body. by destruct (Z.geb_spec right (left + 1)); [lia|].
Qed.

(** The region found, when the entries are in order: none of the type; the
    last one at or below the address, up to the next one; or, when all are
    above the address, the entries before the first. *)
Definition region_ok (l r : Z) : Prop :=
  (no_match L R -> l = L /\ r = L - 1) /\
  (forall k, L <= k <= R -> matches k -> value k <= addr ->
     (forall i, k < i <= R -> matches i -> addr < value i) ->
     l = k /\ k <= r <= R /\ no_match (k + 1) r /\ (r = R \/ matches (r + 1))) /\
  (forall j, L <= j <= R -> matches j -> no_match L (j - 1) -> addr < value j ->
     l = Z.min L (j - 1) /\ r = j - 1).

Lemma region_left b l :
  in_order -> bin_ord b -> (b_r b = R \/ matches (b_r b + 1)) -> b_l b = b_r b + 1 -> b_left b <= b_l b -> b_r b <= R -> L <= b_left b ->
  (exists i, L <= i <= R /\ matches i) ->
  (b_r b < b_left b -> l = b_r b) ->
  (b_left b <= b_r b -> b_left b <= l <= b_r b /\ no_match (l + 1) (b_r b) /\ (b_left b < l -> matches l)) ->
  region_ok l (b_r b).
Proof using HL HR Hn Hval.
  intros (Ha & Hord & Hadj) [_ Or Ol] On Hend Hle Hr HLl (i0 & Hi0 & Hm0) Hlt Hge.
  rewrite Hend in *. replace (b_r b + 1 - 1) with (b_r b) in Ol by lia.
  split_and!; [intros Hno; by destruct (Hno i0)|..].
  - intros k Hk Hmk Hvk Hnext.
    assert (k <= b_r b) as Hkr. { destruct (Z.le_gt_cases k (b_r b)); [done|]. specialize (Or k ltac:(lia) Hmk). lia. }
    destruct Ol as [[_ Hno]|(HlR & Hml & Hvl & Hno)]; [destruct (Hno k); [lia|done]|].
    assert (b_left b = k) as Hlk.
    { destruct (Z.lt_trichotomy k (b_left b)) as [Hc|[Hc|Hc]]; [|done|].
      - specialize (Hnext (b_left b) ltac:(lia) Hml). lia.
      - destruct (Hno k); [lia|done]. }
    destruct (Hge ltac:(lia)) as (Hl & Hno2 & Hml2).
    assert (l = k) as ->. { destruct (decide (b_left b < l)); [|lia]. destruct (Hno l); [lia|]. by apply Hml2. }
    rewrite Hlk in Hno. split_and!; (done || lia).
  - intros j Hj Hmj Hnoj Hvj.
    assert (b_left b = L /\ no_match L (b_r b)) as [Hlft Hno].
    { destruct Ol as [?|(HlR & Hml & Hvl & Hno)]; [done|].
      destruct (Z.le_gt_cases j (b_left b)).
      - pose proof (Hord j (b_left b) ltac:(lia) ltac:(lia) ltac:(lia) Hmj Hml). lia.
      - destruct (Hnoj (b_left b)); [lia|done]. }
    assert (b_r b = j - 1) as Hrj.
    { destruct (Z.lt_trichotomy (b_r b) (j - 1)) as [Hc|[Hc|Hc]]; [|done|].
      - destruct On as [HrR|Hm1]; [lia|]. destruct (Hnoj (b_r b + 1)); [lia|done].
      - destruct (Hno j); [lia|done]. }
    split; [|done]. rewrite Hlft in Hlt, Hge. destruct (Z.le_gt_cases L (b_r b)).
    + destruct (Hge ltac:(lia)) as (Hl & Hno2 & Hml2).
      destruct (decide (L < l)); [|lia]. destruct (Hno l); [lia|]. by apply Hml2.
    + rewrite Hlt by lia. lia.
Qed.

Lemma stab_binsearch_run :
  exists l r, stab_binsearch stabs type L R addr = Ok (l, r) /\
    L - 1 <= r <= R /\ L - 1 <= l <= r + 1 /\ (l = L - 1 -> matches L) /\
    (L < l -> matches l) /\ (in_order -> region_ok l r).
Proof using HL HR Hn Hval.
  destruct bin_loop as (b & E & [Hl Hr Hri Hle Hnx Hhit Hany] & Hend & Hord).
  unfold stab_binsearch. rewrite E. red_bind. destruct (b_any b) eqn:Ea; cbn [negb].
  - rewrite Hri. destruct (fwd_run (b_left b) (b_r b)) as (l & El & Hlt & Hge); [lia|lia|].
    rewrite El. red_bind. exists l, (b_r b).
    assert (b_left b <= b_r b -> b_left b <= l) as Hge1 by (intros; by apply Hge).
    assert (l <= b_r b) as Hlb by (destruct (Z.le_gt_cases (b_left b) (b_r b)); [apply Hge; lia|lia]).
    split_and!; [done|lia|lia|destruct (Z.le_gt_cases (b_left b) (b_r b)); lia|lia| | |].
    + intros ->. destruct (Z.le_gt_cases (b_left b) (b_r b)); [lia|].
      assert (b_r b = L - 1) as Hb by lia. rewrite Hb in Hnx. replace (L - 1 + 1) with L in Hnx by lia.
      destruct Hnx as [Hnx|]; [|done]. destruct Hany as (i & Hi & _). lia.
    + intros HL1. destruct (Z.le_gt_cases (b_left b) (b_r b));
        [|destruct Hhit as [|(? & ? & ?)]; lia].
      destruct (Hge ltac:(lia)) as (? & _ & Hm). destruct (decide (b_left b < l)); [by apply Hm|].
      replace l with (b_left b) in HL1 |- * by lia. destruct Hhit as [|(? & _)]; [lia|done].
    + intros Ho. eapply (region_left b); eauto; lia.
  - destruct Hany as (Hlft & HrR & Hno). exists (b_left b), (b_left b - 1). split_and!; [done|lia|lia|lia|lia|lia|lia|].
    intros Ho. rewrite Hend, HrR in Hno. replace (R + 1 - 1) with R in Hno by lia.
    split_and!; [intros _; lia|..]; intros k Hk Hmk; destruct (Hno k); (lia || done).
Qed.
End binsearch.

(** * debuginfo_eip *)

(** The table: not empty of the name's bytes, at most 2^30 entries, the first
    one the header the linker puts there, which is not a file entry; the
    string table readable, its offsets those of characters. *)
Record tables_ok (m : mem) (t : stab_tables) : Prop := {
  to_len : Z.of_nat (length (t_stabs t)) < 2 ^ 30;
  to_head : ~ matches (t_stabs t) N_SO 0;
  to_str : 0 < t_stabstr_end t - t_stabstr t < 4294967296;
  to_bytes : exists l c, bytes m (Addr (t_stabstr t)) (l ++ [c]) /\ Forall is_byte (l ++ [c]) /\
    Z.of_nat (length (l ++ [c])) = t_stabstr_end t - t_stabstr t;
  to_strx : Forall (fun s => 0 <= n_strx s) (t_stabs t);
  to_value : Forall (fun s => 0 <= n_value s < 4294967295) (t_stabs t) }.

(** A string starts at every offset of a block that ends with a NUL. *)
Lemma cstr_inside m a l : forall k,
  bytes m (Addr a) (l ++ [0]) -> Forall is_byte l -> 0 <= k <= Z.of_nat (length l) ->
  exists s, cstr m (Addr (a + k)) s /\ (length s <= length l)%nat.
Proof.
  revert a. induction l as [|c l IH]; intros a k Hb Hl Hk; cbn [length] in *.
  - exists []. replace (a + k) with a by lia. by destruct Hb.
  - apply Forall_cons in Hl as [Hc Hl]. destruct Hb as [Hc0 Hb]. cbn [padd] in Hb.
    destruct (decide (k = 0)) as [->|].
    + rewrite Z.add_0_r. destruct (decide (c = 0)) as [->|]; [exists []; split; [done|simpl; lia]|].
      destruct (IH (a + 1) 0 Hb Hl ltac:(lia)) as (s & Hs & Hlen). rewrite Z.add_0_r in Hs.
      exists (c :: s). cbn [cstr length padd]. unfold is_byte in Hc. split; [|lia]. split_and!; (done || lia).
    + destruct (IH (a + 1) (k - 1) Hb Hl ltac:(lia)) as (s & Hs & Hlen).
      exists s. replace (a + 1 + (k - 1)) with (a + k) in Hs by lia. split; [done|lia].
Qed.

Section debuginfo_total.
Context (m : mem) (t : stab_tables) (Hok : tables_ok m t).
Let len := Z.of_nat (length (t_stabs t)).

(** A string pointer [debuginfo_eip] may hand out. *)
Definition name_ok (p : ptr) : Prop :=
  p = lit "<unknown>" \/ exists o, 0 <= o < t_stabstr_end t - t_stabstr t /\ p = Addr (t_stabstr t + o).

(** The last byte of the string table is a NUL. *)
Definition str_ended : Prop := loadc m (Addr (t_stabstr_end t - 1)) = Ok 0.

Lemma name_cstr p :
  str_ended -> name_ok p -> exists s, cstr m p s /\ Z.of_nat (length s) <= Z.max 9 (t_stabstr_end t - t_stabstr t).
Proof using Hok.
  intros He [->|(o & Ho & ->)].
  { exists (bytes_of "<unknown>"). split; [apply cstr_lit; decided|]. change (Z.of_nat (length (bytes_of "<unknown>"))) with 9. lia. }
  destruct (to_bytes _ _ Hok) as (l & c & Hb & Hl & Hlen). rewrite length_app in Hlen. cbn [length] in Hlen.
  pose proof (to_str _ _ Hok) as Hstr. assert (c = 0) as ->.
  { pose proof Hb as Hb1. apply bytes_app in Hb1 as [_ [Hc _]]. cbn [padd] in Hc.
    unfold str_ended, loadc in He.
    replace (t_stabstr_end t - 1) with (t_stabstr t + Z.of_nat (length l)) in He by lia.
    rewrite Hc in He. apply Forall_app in Hl as [_ Hl]. apply Forall_cons in Hl as [Hl _].
    apply s8_zero; [done|]. by injection He. }
  apply Forall_app in Hl as [Hl _].
  destruct (cstr_inside m (t_stabstr t) l o Hb Hl ltac:(lia)) as (s & Hs & Hlen2).
  exists s. split; [done|lia].
Qed.

Lemma stab_name_ok i dflt :
  0 <= i < len -> name_ok dflt -> exists p, stab_name t i dflt = Ok p /\ name_ok p.
Proof using Hok.
  intros Hi Hd. destruct (at_idx_in (t_stabs t) i Hi) as (s & Es & Hs). unfold stab_name. rewrite Es. red_bind.
  pose proof (to_str _ _ Hok). rewrite u32_small by lia.
  destruct (Z.ltb_spec (n_strx s) (t_stabstr_end t - t_stabstr t)); [|by exists dflt].
  eexists; split; [done|]. right. exists (n_strx s). split; [|done]. split; [|done].
  pose proof (to_strx _ _ Hok) as Hf. rewrite Forall_lookup in Hf. by eapply Hf.
Qed.

Lemma file_run lfile lline :
  0 <= lfile -> lline < len ->
  exists k, while_ (file_body t lfile) lline = Ok k /\ k <= lline.
Proof using Hok.
  intros Hf Hl. pose proof (to_len _ _ Hok).
  destruct (while_total (file_body t lfile) (fun x => x <= lline) (fun x => x <= lline)
    (fun x => Z.to_nat (x + 1 - lfile)) lline) as (k & E & Hk); [|lia|lia|by exists k].
  intros x Hx. unfold file_body. destruct (Z.geb_spec x lfile); [|by eexists].
  destruct (at_idx_in (t_stabs t) x) as (s & Es & _); [lia|]. rewrite Es. red_bind.
  destruct (negb (n_type s =? N_SOL) && _); eexists; (split; [done|]); [split; lia|done].
Qed.

Lemma narg_run rfun st :
  0 <= st.1 -> rfun < len -> exists k, while_ (narg_body t rfun) st = Ok k.
Proof using Hok.
  intros Hf Hr. pose proof (to_len _ _ Hok).
  destruct (while_total (narg_body t rfun) (fun st => 0 <= st.1) (fun _ => True)
    (fun st => Z.to_nat (rfun - st.1)) st) as (k & E & Hk); [|done|lia|by exists k].
  intros [x c] Hx. cbn [fst] in Hx. unfold narg_body. destruct (Z.ltb_spec x rfun); [|by eexists].
  destruct (at_idx_in (t_stabs t) x) as (s & Es & _); [lia|]. rewrite Es. red_bind.
  destruct (n_type s =? N_PSYM); eexists; (split; [done|]); cbn [fst]; [split; lia|done].
Qed.

(** The outcome: an error code or 0, with strings that can be printed. *)
Definition dbg_ok (r : res dbg) : Prop :=
  exists rc info, r = Ok (DbgRet rc info) /\ (rc = 0 \/ rc = -1) /\
    name_ok (eip_fn_name info) /\ name_ok (eip_file info) /\
    0 <= eip_fn_namelen info <= Z.max 9 (t_stabstr_end t - t_stabstr t).

Lemma debuginfo_line_ok info addr lfile lfun rfun lline rline :
  str_ended -> name_ok (eip_fn_name info) -> name_ok (eip_file info) ->
  0 <= lfile -> 0 <= lfun + 1 -> rfun < len -> 1 <= lline -> lline - 1 <= rline < len ->
  dbg_ok (debuginfo_line m t info addr lfile lfun rfun lline rline).
Proof using Hok.
  intros He Hn Hfi Hf Hlf Hrf Hl Hr. pose proof (to_len _ _ Hok) as Hlen. unfold debuginfo_line.
  destruct (name_cstr _ He Hn) as (s & Hs & Hsl). pose proof (to_str _ _ Hok).
  rewrite (strfind_spec _ _ s) by (done || lia). red_bind.
  pose proof (find_char_bound (u8 58) s).
  rewrite psub_padd. red_bind. cbn [eip_fn_name eip_file eip_line eip_fn_addr eip_fn_narg].
  destruct (stab_binsearch_run (t_stabs t) N_SLINE lline rline addr ltac:(lia) Hr Hlen (to_value _ _ Hok))
    as (l & r & E & Hrr & Hll & _). rewrite E. red_bind.
  destruct (Z.gtb_spec l r); [by eexists _, _; split; [done|split_and!; [right|..]]; cbn [eip_fn_namelen]; try lia|].
  destruct (at_idx_in (t_stabs t) l) as (st & Est & _); [lia|]. rewrite Est. red_bind.
  destruct (file_run lfile l) as (k & Ek & Hk); [lia|lia|]. rewrite Ek. red_bind.
  assert (exists p, (if k >=? lfile then stab_name t k (eip_file info) else Ok (eip_file info)) = Ok p /\
    name_ok p) as (p & Ep & Hp).
  { destruct (Z.geb_spec k lfile); [apply stab_name_ok; [lia|done]|by eexists]. }
  rewrite Ep. red_bind.
  assert (exists na, (if lfun <? rfun then while_ (narg_body t rfun) (lfun + 1, eip_fn_narg info)
    else Ok (eip_fn_narg info)) = Ok na) as (na & Ena).
  { destruct (Z.ltb_spec lfun rfun); [apply narg_run; [cbn; lia|lia]|by eexists]. }
  rewrite Ena. red_bind. eexists _, _. split; [done|]. split_and!; [by left|done|done|cbn [eip_fn_namelen]; lia..].
Qed.

Lemma type_unique i ty ty' : matches (t_stabs t) ty i -> matches (t_stabs t) ty' i -> ty = ty'.
Proof using Type. intros (s & E & <-) (s' & E' & <-). congruence. Qed.

Lemma debuginfo_eip_ok addr :
  ULIM <= addr -> dbg_ok (debuginfo_eip m t addr).
Proof using Hok.
  intros Ha. pose proof (to_len _ _ Hok) as Hlen. pose proof (to_str _ _ Hok) as Hstr. unfold debuginfo_eip.
  destruct (Z.geb_spec addr ULIM); [|lia]. destruct (Z.leb_spec (t_stabstr_end t) (t_stabstr t)); [lia|].
  assert (exists c, loadc m (Addr (t_stabstr_end t - 1)) = Ok c) as (c & Ec).
  { destruct (to_bytes _ _ Hok) as (l & c & Hb & _ & Hl). rewrite length_app in Hl. cbn [length] in Hl.
    apply bytes_app in Hb as [_ [Hc _]]. cbn [padd] in Hc. unfold loadc.
    replace (t_stabstr_end t - 1) with (t_stabstr t + Z.of_nat (length l)) by lia. rewrite Hc. by eexists. }
  rewrite Ec. red_bind.
  assert (name_ok (lit "<unknown>")) as Hu by by left.
  assert (forall i, dbg_ok (Ok (DbgRet (-1) (mkInfo (lit "<unknown>") 0 (lit "<unknown>") 9 i 0)))) as Hbad
    by (intros i; eexists _, _; split; [done|split_and!; [by right|done|done|cbn [eip_fn_namelen]; lia..]]).
  destruct (Z.eqb_spec c 0) as [->|]; cbn [negb]; [|apply Hbad]. fold len.
  destruct (stab_binsearch_run (t_stabs t) N_SO 0 (len - 1) addr ltac:(lia) ltac:(lia) Hlen (to_value _ _ Hok))
    as (fl & fr & Ef & Hfr & Hfl & Hf0 & Hfm & _). rewrite Ef. red_bind.
  destruct (Z.eqb_spec fl 0) as [|Hfl0]; [apply Hbad|].
  assert (1 <= fl) as Hfl1.
  { destruct (decide (fl = -1)) as [->|]; [|lia]. destruct (to_head _ _ Hok). by apply Hf0. }
  specialize (Hfm ltac:(lia)).
  destruct (stab_binsearch_run (t_stabs t) N_FUN fl fr addr ltac:(lia) ltac:(lia) Hlen (to_value _ _ Hok))
    as (gl & gr & Eg & Hgr & Hgl & Hg0 & _). rewrite Eg. red_bind.
  assert (fl <= gl) as Hgl1.
  { destruct (decide (gl = fl - 1)) as [He|]; [|lia]. discriminate (type_unique _ _ _ Hfm (Hg0 He)). }
  destruct (Z.leb_spec gl gr).
  - destruct (at_idx_in (t_stabs t) gl) as (st & Est & _); [lia|]. rewrite Est. red_bind.
    destruct (stab_name_ok gl (lit "<unknown>")) as (p & Ep & Hp); [lia|done|].
    cbn [eip_fn_name eip_file]. rewrite Ep. red_bind. apply debuginfo_line_ok; (done || lia).
  - apply debuginfo_line_ok; (done || lia).
Qed.

(** The strings handed out can be read. *)
Lemma debuginfo_strings addr :
  ULIM <= addr ->
  exists rc info file name, debuginfo_eip m t addr = Ok (DbgRet rc info) /\
    cstr m (eip_file info) file /\ cstr m (eip_fn_name info) name /\
    Z.of_nat (length file) <= Z.max 9 (t_stabstr_end t - t_stabstr t) /\
    Z.of_nat (length name) <= Z.max 9 (t_stabstr_end t - t_stabstr t) /\
    0 <= eip_fn_namelen info <= Z.max 9 (t_stabstr_end t - t_stabstr t).
Proof using Hok.
  intros Ha. destruct (debuginfo_eip_ok addr Ha) as (rc & info & E & _ & Hn & Hf & Hl). exists rc, info.
  destruct (decide (loadc m (Addr (t_stabstr_end t - 1)) = Ok 0)) as [He|He].
  - destruct (name_cstr _ He Hn) as (name & Hname & ?), (name_cstr _ He Hf) as (file & Hfile & ?).
    exists file, name. split_and!; (done || lia).
  - assert (info = mkInfo (lit "<unknown>") 0 (lit "<unknown>") 9 addr 0) as ->.
    { unfold debuginfo_eip in E. destruct (Z.geb_spec addr ULIM); [|lia]. pose proof (to_str _ _ Hok).
      destruct (Z.leb_spec (t_stabstr_end t) (t_stabstr t)); [lia|].
      apply bind_Ok in E as (ok & (c & Ec & [= <-])%bind_Ok & E).
      destruct (Z.eqb_spec c 0) as [->|]; [done|]. by injection E. }
    exists (bytes_of "<unknown>"), (bytes_of "<unknown>"). cbn [eip_file eip_fn_name eip_fn_namelen].
    change (Z.of_nat (length (bytes_of "<unknown>"))) with 9.
    split_and!; [done|apply cstr_lit; decided|apply cstr_lit; decided|lia..].
Qed.
End debuginfo_total.

(** More memory does not change the result. *)
Lemma loadc_sub m0 m p c : m0 ⊆ m -> loadc m0 p = Ok c -> loadc m p = Ok c.
Proof.
  intros Hm. unfold loadc. destruct (load8 m0 p) as [b|] eqn:E; [|done]. by rewrite (load8_sub m0 m p b Hm E).
Qed.

Lemma strfind_sub m0 m p c q : m0 ⊆ m -> strfind m0 p c = Ok q -> strfind m p c = Ok q.
Proof.
  intros Hm. apply while_mono. intros s r. unfold strfind_body.
  intros (a & Ea & E)%bind_Ok. by rewrite (loadc_sub m0 m s a Hm Ea).
Qed.

Lemma debuginfo_sub m0 m t addr d :
  m0 ⊆ m -> debuginfo_eip m0 t addr = Ok d -> debuginfo_eip m t addr = Ok d.
Proof.
  intros Hm. assert (forall info a lf lfn rfn ll rl d,
    debuginfo_line m0 t info a lf lfn rfn ll rl = Ok d -> debuginfo_line m t info a lf lfn rfn ll rl = Ok d) as Hline.
  { intros info a lf lfn rfn ll rl d'. unfold debuginfo_line. intros (q & Eq & E)%bind_Ok.
    by rewrite (strfind_sub m0 m _ _ q Hm Eq). }
  unfold debuginfo_eip. destruct (addr >=? ULIM); [|done]. intros (ok & Eok & E)%bind_Ok.
  assert ((if t_stabstr_end t <=? t_stabstr t then Ok false
    else c ← loadc m (Addr (t_stabstr_end t - 1)); Ok (c =? 0)) = Ok ok) as ->.
  { destruct (t_stabstr_end t <=? t_stabstr t); [done|]. apply bind_Ok in Eok as (c & Ec & Eok).
    by rewrite (loadc_sub m0 m _ c Hm Ec). }
  red_bind. destruct (negb ok); [done|]. apply bind_Ok in E as (f & Ef & E). rewrite Ef. red_bind.
  destruct (f.1 =? 0); [done|]. apply bind_Ok in E as (g & Eg & E). rewrite Eg. red_bind.
  destruct (g.1 <=? g.2); [|by apply Hline].
  apply bind_Ok in E as (s & Es & E). rewrite Es. red_bind.
  apply bind_Ok in E as (name & En & E). rewrite En. red_bind. by apply Hline.
Qed.

(** * What the debugger promises *)

(** C8: on a table whose entries of the type are in order, [stab_binsearch]
    returns the last of them at or below the address, up to the entry before
    the next one; an empty region when there is none of the type; and, when
    all of them are above the address, what precedes the first. *)
Theorem stab_binsearch_spec stabs type L R addr :
  0 <= L -> L - 1 <= R < Z.of_nat (length stabs) -> Z.of_nat (length stabs) < 2 ^ 30 ->
  Forall (fun s => 0 <= n_value s < 4294967295) stabs ->
  in_order stabs type L R addr ->
  exists l r, stab_binsearch stabs type L R addr = Ok (l, r) /\ region_ok stabs type L R addr l r.
Proof.
  intros HL HR Hn Hv Ho.
  destruct (stab_binsearch_run stabs type L R addr HL HR Hn Hv) as (l & r & E & _ & _ & _ & _ & H).
  exists l, r. auto.
Qed.

(** C35: on any table, in order or not, [stab_binsearch] stops, reads no entry
    outside the range it is given, and returns a region inside it. *)
Theorem stab_binsearch_safe stabs type L R addr :
  0 <= L -> L - 1 <= R < Z.of_nat (length stabs) -> Z.of_nat (length stabs) < 2 ^ 30 ->
  Forall (fun s => 0 <= n_value s < 4294967295) stabs ->
  exists l r, stab_binsearch stabs type L R addr = Ok (l, r) /\
    L - 1 <= r <= R /\ L - 1 <= l <= r + 1.
Proof.
  intros HL HR Hn Hv.
  destruct (stab_binsearch_run stabs type L R addr HL HR Hn Hv) as (l & r & E & ? & ? & _).
  exists l, r. auto.
Qed.

(** C27: [debuginfo_eip] on a kernel address stops, never reads outside the
    tables, returns 0 or -1, and the strings it hands out are in the string
    table or the initial ones; on a user address it panics. *)
Theorem debuginfo_eip_safe m t addr :
  tables_ok m t ->
  (ULIM <= addr -> dbg_ok t (debuginfo_eip m t addr)) /\
  (addr < ULIM -> debuginfo_eip m t addr = Ok DbgPanic).
Proof.
  intros Hok. split; [by apply debuginfo_eip_ok|].
  intros Ha. unfold debuginfo_eip. by destruct (Z.geb_spec addr ULIM); [lia|].
Qed.

Definition fun_at (a : Z) : Stab := mkStab 0 N_FUN 0 0 a.

(** One iteration whose middle entry has the type. *)
Lemma bin_body_at stabs type b t s :
  b_l b <= t <= b_r b -> Z.quot (b_l b + b_r b) 2 = t ->
  at_idx stabs t = Ok s -> n_type s = type ->
  bin_body stabs type b = Ok (inl (
    if n_value s <? b_addr b then mkBin (t + 1) (b_r b) t (b_right b) (b_addr b) true
    else if n_value s >? b_addr b then mkBin (b_l b) (t - 1) (b_left b) (t - 1) (b_addr b) true
    else mkBin t (b_r b) t (b_right b) (u32 (b_addr b + 1)) true)).
Proof.
  intros Ht Hq Es Hty. unfold bin_body. rewrite Hq. destruct (Z.leb_spec (b_l b) (b_r b)); [|lia].
  rewrite (while_runs _ 1 _ (Ok t)); [|apply runs_done; unfold back_body|lia].
  2: { destruct (Z.geb_spec t (b_l b)); [|done]. rewrite Es. red_bind. by rewrite Hty, Z.eqb_refl. }
  red_bind. destruct (Z.ltb_spec t (b_l b)); [lia|]. rewrite Es. red_bind.
  by destruct (n_value s <? b_addr b), (n_value s >? b_addr b).
Qed.

(** A function of one byte is not found: for its address, the search
    returns the function that follows it, which the incremented [addr] matches
    exactly too. *)
Theorem stab_binsearch_adjacent a :
  0 <= a < 4294967294 -> stab_binsearch [fun_at a; fun_at (a + 1)] N_FUN 0 1 a = Ok (1, 1).
Proof.
  intros Ha. set (stabs := [fun_at a; fun_at (a + 1)]).
  assert (forall l r left right ad any t s, t = 0 /\ s = fun_at a \/ t = 1 /\ s = fun_at (a + 1) ->
    l <= t <= r -> Z.quot (l + r) 2 = t ->
    bin_body stabs N_FUN (mkBin l r left right ad any) = Ok (inl (
      if n_value s <? ad then mkBin (t + 1) r t right ad true
      else if n_value s >? ad then mkBin l (t - 1) left (t - 1) ad true
      else mkBin t r t right (u32 (ad + 1)) true))) as Hb.
  { intros l r left right ad any t s Hts Hlt Hq.
    by apply (bin_body_at _ _ (mkBin l r left right ad any)); destruct Hts as [[-> ->]|[-> ->]]. }
  unfold stab_binsearch.
  rewrite (while_runs _ 5 _ (Ok (mkBin 2 1 1 1 (a + 2) true))); [|
    eapply runs_step; [rewrite (Hb _ _ _ _ _ _ 0 (fun_at a)) by (by left || lia || done); reflexivity|]|lia].
  { red_bind. cbn [negb b_any b_left b_right].
    rewrite (while_runs _ 1 _ (Ok 1)); [done|by apply runs_done|lia]. }
  cbn [n_value fun_at]. rewrite Z.ltb_irrefl. destruct (Z.gtb_spec a a); [lia|]. rewrite u32_small by lia.
  eapply runs_step; [rewrite (Hb _ _ _ _ _ _ 0 (fun_at a)) by (by left || lia || done); reflexivity|].
  cbn [n_value fun_at]. rewrite (proj2 (Z.ltb_lt a (a + 1))) by lia.
  eapply runs_step; [rewrite (Hb _ _ _ _ _ _ 1 (fun_at (a + 1))) by (by right || lia || done); reflexivity|].
  cbn [n_value fun_at]. rewrite Z.ltb_irrefl. destruct (Z.gtb_spec (a + 1) (a + 1)); [lia|].
  rewrite u32_small by lia. replace (a + 1 + 1) with (a + 2) by lia.
  eapply runs_step; [rewrite (Hb _ _ _ _ _ _ 1 (fun_at (a + 1))) by (by right || lia || done); reflexivity|].
  cbn [n_value fun_at]. rewrite (proj2 (Z.ltb_lt (a + 1) (a + 2))) by lia. by apply runs_done.
Qed.

Lemma stab_binsearch_adjacent_witness :
  stab_binsearch [fun_at 0xf0100000; fun_at (0xf0100000 + 1)] N_FUN 0 1 0xf0100000 = Ok (1, 1).
Proof. apply (stab_binsearch_adjacent 0xf0100000). lia. Defined.

(** ** A concrete table *)

(** The example of the comment before [stab_binsearch]. *)
Definition doc_stabs : list Stab :=
  let so i a := (i, mkStab 0 N_SO 0 0 a) in
  foldl (fun l kv => <[kv.1 := kv.2]> l) (replicate 658 (mkStab 0 N_SLINE 0 0 0))
    [so 0%nat 0xf0100000; so 13%nat 0xf0100040; so 117%nat 0xf0100176; so 118%nat 0xf0100178;
     so 555%nat 0xf0100652; so 556%nat 0xf0100654; so 657%nat 0xf0100849].

Example binsearch_doc : stab_binsearch doc_stabs N_SO 0 657 0xf0100184 = Ok (118, 554).
Proof. vm_compute. reflexivity. Qed.

(** An address below every entry: the comment says the region is then empty,
    but [left] is not above [right]. *)
Example binsearch_below :
  stab_binsearch [mkStab 0 N_SO 0 0 0xf0100000; fun_at 0xf0100010] N_FUN 0 1 0xf0100000 = Ok (0, 0).
Proof. vm_compute. reflexivity. Qed.

(** Two functions of one file, with line entries relative to the function. *)
Definition ex_stabs : list Stab :=
  [mkStab 0 0 0 7 14; mkStab 1 N_SO 0 0 0xf0100000; mkStab 8 N_FUN 0 0 0xf0100000;
   mkStab 0 N_SLINE 0 10 0; mkStab 0 N_SLINE 0 12 7; mkStab 14 N_FUN 0 0 0xf0100040;
   mkStab 0 N_SLINE 0 20 0; mkStab 1 N_SO 0 0 0xf0100100].

Definition ex_str : list Z := [0] ++ bytes_of "init.c" ++ [0] ++ bytes_of "f:F(0)" ++ bytes_of "g:F(0)" ++ [0].

Definition ex_mem : mem := write_bytes ∅ 0xf0200000 ex_str.
Definition ex_tables : stab_tables := mkTables ex_stabs 0xf0200000 (0xf0200000 + 21).

Example debuginfo_ex :
  debuginfo_eip ex_mem ex_tables 0xf0100009 =
    Ok (DbgRet 0 (mkInfo (Addr 0xf0200001) 12 (Addr 0xf0200008) 1 0xf0100000 0)).
Proof. vm_compute. reflexivity. Qed.

Lemma ex_values : Forall (fun s => 0 <= n_value s < 4294967295) ex_stabs.
Proof. repeat (apply Forall_cons; split; [cbn; lia|]). constructor. Qed.

Lemma ex_matches i : matches ex_stabs N_SO i -> i = 1 \/ i = 7.
Proof.
  intros (s & E & Ht). unfold at_idx in E. destruct (Z.ltb_spec i 0); [done|].
  assert (i = Z.of_nat (Z.to_nat i)) as Hi by lia. revert E Hi. generalize (Z.to_nat i). intros k E ->.
  do 8 (destruct k as [|k]; [injection E as <-; (discriminate Ht || lia)|]). discriminate E.
Qed.

Lemma stab_binsearch_spec_witness :
  exists l r, stab_binsearch ex_stabs N_SO 0 7 0xf0100009 = Ok (l, r) /\
    region_ok ex_stabs N_SO 0 7 0xf0100009 l r.
Proof.
  apply (stab_binsearch_spec ex_stabs N_SO 0 7 0xf0100009); [lia|vm_compute; split; congruence|
    vm_compute; reflexivity|apply ex_values|].
  split_and!; [lia|lia|..].
  - intros i j _ _ Hij [->| ->]%ex_matches [->| ->]%ex_matches; first [lia | (vm_compute; congruence)].
  - intros i j _ _ [->| ->]%ex_matches _; vm_compute; congruence.
Defined.

Lemma stab_binsearch_safe_witness :
  exists l r, stab_binsearch ex_stabs N_SLINE 2 4 9 = Ok (l, r) /\ 2 - 1 <= r <= 4 /\ 2 - 1 <= l <= r + 1.
Proof.
  apply (stab_binsearch_safe ex_stabs N_SLINE 2 4 9); [lia|vm_compute; split; congruence|
    vm_compute; reflexivity|apply ex_values].
Defined.

Lemma debuginfo_eip_safe_witness :
  dbg_ok ex_tables (debuginfo_eip ex_mem ex_tables 0xf0100009).
Proof.
  apply (debuginfo_eip_safe ex_mem ex_tables 0xf0100009); [|vm_compute; congruence]. split.
  - vm_compute. reflexivity.
  - intros (s & E & Ht). injection E as <-. discriminate Ht.
  - vm_compute. done.
  - exists (take 20 ex_str), 0. split_and!; [decided| |vm_compute; reflexivity].
    unfold is_byte. decided.
  - repeat (apply Forall_cons; split; [cbn; lia|]). constructor.
  - apply ex_values.
Defined.
