(* ===== verification/Boot.v ===== *)
(** boot/main.c: the boot loader, which reads the kernel's ELF image from the
    first IDE disk and enters it.

    The loader runs before paging, so addresses are physical; it acts on the
    machine ([hw]) only.  The ELF header and the program headers (inc/elf.h)
    are read from memory at their offsets.  The disk is a device, so what is
    assumed of it is the class [Disk]: it becomes ready, and after the command
    sequence of [readsect] it delivers the sector asked for.  [Hung] is the
    endless loop at [bad]; [Entered] the jump to the kernel's entry point. *)
From S2P Require Import Prelude Mem Layout Machine.

Definition SECTSIZE : Z := 512.
Definition ELFHDR : Z := 0x10000.
Definition ELF_MAGIC : Z := 0x464C457F.

Inductive boot := Entered (eip : Z) | Hung.

Section bootloader.
Context {D : Type} `{!Ports D}.
Notation H := (M (hw D)).

Definition waitdisk_body (_ : unit) : H (unit + unit) :=
  v ← inb 0x1F7;
  if negb (Z.land v 0xC0 =? 0x40) then mret (inl tt) else mret (inr tt).

Definition waitdisk : H unit := whileM waitdisk_body tt.

Definition readsect (dst offset : Z) : H unit :=
  waitdisk ;;
  outb 0x1F2 1 ;;
  outb 0x1F3 offset ;;
  outb 0x1F4 (Z.shiftr offset 8) ;;
  outb 0x1F5 (Z.shiftr offset 16) ;;
  outb 0x1F6 (Z.lor (Z.shiftr offset 24) 0xE0) ;;
  outb 0x1F7 0x20 ;;
  waitdisk ;;
  insl 0x1F0 dst (SECTSIZE / 4).

Definition readseg_body (end_pa : Z) (st : Z * Z) : H (Z * Z + unit) :=
  let '(pa, offset) := st in
  if pa <? end_pa then
    readsect pa offset ;;
    mret (inl (u32 (pa + SECTSIZE), u32 (offset + 1)))
  else mret (inr tt).

Definition readseg (pa count offset : Z) : H unit :=
  let end_pa := u32 (pa + count) in
  let pa := Z.land pa (u32 (Z.lnot (SECTSIZE - 1))) in
  let offset := u32 (offset / SECTSIZE + 1) in
  whileM (readseg_body end_pa) (pa, offset).

(** Fields of the structs of inc/elf.h. *)
Definition field32 (a off : Z) : H Z := reads (fun h => load32 (h_mem h) (Addr (a + off))).
Definition field16 (a off : Z) : H Z := reads (fun h => load16 (h_mem h) (Addr (a + off))).

Definition e_magic : H Z := Eval cbv -[field32 field16 ELFHDR] in field32 ELFHDR (offset_of Elf "e_magic").
Definition e_entry : H Z := Eval cbv -[field32 field16 ELFHDR] in field32 ELFHDR (offset_of Elf "e_entry").
Definition e_phoff : H Z := Eval cbv -[field32 field16 ELFHDR] in field32 ELFHDR (offset_of Elf "e_phoff").
Definition e_phnum : H Z := Eval cbv -[field32 field16 ELFHDR] in field16 ELFHDR (offset_of Elf "e_phnum").
Definition p_offset (ph : Z) : H Z := Eval cbv -[field32 field16 ELFHDR] in field32 ph (offset_of Proghdr "p_offset").
Definition p_pa (ph : Z) : H Z := Eval cbv -[field32 field16 ELFHDR] in field32 ph (offset_of Proghdr "p_pa").
Definition p_memsz (ph : Z) : H Z := Eval cbv -[field32 field16 ELFHDR] in field32 ph (offset_of Proghdr "p_memsz").
Definition sizeof_Proghdr : Z := Eval cbv -[field32 field16 ELFHDR] in struct_size Proghdr.

Definition bootmain_body (eph ph : Z) : H (Z + unit) :=
  if ph <? eph then
    pa ← p_pa ph;
    memsz ← p_memsz ph;
    off ← p_offset ph;
    readseg pa memsz off ;;
    mret (inl (u32 (ph + sizeof_Proghdr)))
  else mret (inr tt).

Definition bad : H boot :=
  outw 0x8A00 0x8A00 ;;
  outw 0x8A00 0x8E00 ;;
  mret Hung.

Definition bootmain : H boot :=
  readseg ELFHDR (SECTSIZE * 8) 0 ;;
  magic ← e_magic;
  if negb (magic =? ELF_MAGIC) then bad
  else
    phoff ← e_phoff;
    phnum ← e_phnum;
    let ph := u32 (ELFHDR + phoff) in
    let eph := u32 (ph + sizeof_Proghdr * phnum) in
    whileM (bootmain_body eph) ph ;;
    entry ← e_entry;
    mret (Entered entry).
End bootloader.

(** * The disk *)

Section disk.
Context {D : Type} `{!Ports D}.

(** Reading the status port until the disk says it is ready: [n] times busy. *)
Inductive polls : nat -> D -> D -> Prop :=
| polls_ready d v d' :
    dev_in 0x1F7 d = (v, d') -> Z.land (u8 v) 0xC0 = 0x40 -> polls 0 d d'
| polls_busy n d v d1 d' :
    dev_in 0x1F7 d = (v, d1) -> Z.land (u8 v) 0xC0 <> 0x40 -> polls n d1 d' -> polls (S n) d d'.

(** The data port delivers the words [ws]. *)
Inductive delivers : D -> list Z -> D -> Prop :=
| delivers_nil d : delivers d [] d
| delivers_cons d w d1 ws d' :
    dev_in32 0x1F0 d = (w, d1) -> delivers d1 ws d' -> delivers d (u32 w :: ws) d'.

(** The command sequence of the IDE protocol for one sector. *)
Definition read_command (lba : Z) (d : D) : D :=
  let d := dev_out 0x1F2 1 d in
  let d := dev_out 0x1F3 (u8 lba) d in
  let d := dev_out 0x1F4 (u8 (Z.shiftr lba 8)) d in
  let d := dev_out 0x1F5 (u8 (Z.shiftr lba 16)) d in
  let d := dev_out 0x1F6 (u8 (Z.lor (Z.shiftr lba 24) 0xE0)) d in
  dev_out 0x1F7 0x20 d.
End disk.

(** A disk with the bytes [image] from sector 1 on.  When idle it is ready in
    finite time; a command given after it was seen to be ready makes it busy, and
    when it is seen to be ready again it delivers the sector.  Nothing is known of
    a disk that is not waited for. *)
Class Disk (D : Type) `{!Ports D} (image : Z -> Z) (idle : D -> Prop) : Prop := {
  disk_bytes : forall i, is_byte (image i);
  disk_ready : forall d, idle d -> exists n d', Z.of_nat n < 2 ^ 63 /\ polls n d d';
  disk_read : forall d n0 d0 lba, idle d -> polls n0 d d0 -> 1 <= lba < 2 ^ 28 ->
    exists n d1 ws d2, Z.of_nat n < 2 ^ 63 /\ polls n (read_command lba d0) d1 /\
      delivers d1 ws d2 /\ idle d2 /\
      flat_map (le_split 4) ws = image <$> seqZ ((lba - 1) * 512) 512 }.

(** * Reading sectors *)

Section reading.
Context {D : Type} `{!Ports D} (image : Z -> Z) (idle : D -> Prop) `{!Disk D image idle}.
Notation H := (M (hw D)).

Definition img (o n : Z) : list Z := image <$> seqZ o n.

Lemma length_img o n : 0 <= n -> Z.of_nat (length (img o n)) = n.
Proof using Type. intros Hn. unfold img. rewrite length_fmap, length_seqZ. lia. Qed.

Lemma img_app o a b : 0 <= a -> 0 <= b -> img o (a + b) = img o a ++ img (o + a) b.
Proof using Type. intros Ha Hb. unfold img. by rewrite seqZ_app, fmap_app. Qed.

Lemma img_lookup o n i : 0 <= i < n -> img o n !! Z.to_nat i = Some (image (o + i)).
Proof using Type.
  intros Hi. unfold img. rewrite list_lookup_fmap, lookup_seqZ_lt by lia. simpl. do 2 f_equal. lia.
Qed.

Lemma inb_at port v m (d d' : D) l :
  dev_in port d = (v, d') ->
  inb port (mkHw m d l) = Ok (u8 v, mkHw m d' (l ++ [In port (u8 v)])).
Proof using Type. intros E. unfold inb. cbn [h_dev h_mem h_log]. by rewrite E. Qed.

Lemma waitdisk_run n d d' m l :
  polls n d d' -> Z.of_nat n < 2 ^ 63 ->
  exists l', waitdisk (mkHw m d l) = Ok (tt, mkHw m d' l').
Proof using Type.
  intros Hp Hn. unfold waitdisk, whileM.
  assert (exists l', runs (fun st => r ← waitdisk_body st.1 st.2;
      match r with
      | (inl x', t') => Ok (inl (x', t'))
      | (inr a, t') => Ok (inr (a, t'))
      end) (S n) (tt, mkHw m d l) (Ok (tt, mkHw m d' l'))) as (l' & Hr);
    [|exists l'; apply (while_runs _ _ _ _ Hr); lia].
  clear Hn. revert l. induction Hp as [d v d' E Hv|n d v d1 d' E Hv _ IH]; intros l.
  - eexists. apply runs_done. cbn [fst snd]. unfold waitdisk_body.
    rewrite (Mbind_run _ _ _ _ _ (inb_at _ _ _ _ _ l E)), Hv. reflexivity.
  - destruct (IH (l ++ [In 0x1F7 (u8 v)])) as (l' & Hr). exists l'. eapply runs_step; [|exact Hr].
    cbn [fst snd]. unfold waitdisk_body.
    by rewrite (Mbind_run _ _ _ _ _ (inb_at _ _ _ _ _ l E)), (proj2 (Z.eqb_neq _ _) Hv).
Qed.

Lemma insl_run port a ws : forall d d' m l,
  port = 0x1F0 -> delivers d ws d' -> mapped m a (4 * Z.of_nat (length ws)) ->
  Forall (fun w => 0 <= w < 4294967296) ws ->
  exists l', rep_at (fun a => v ← inl_ port; mem_put 4 a v) 4 a (length ws) (mkHw m d l) =
    Ok (tt, mkHw (write_bytes m a (flat_map (le_split 4) ws)) d' l').
Proof using Type.
  revert a. induction ws as [|w ws IH]; intros a d d' m l -> Hd Hm Hw; inversion Hd as [|? w' d1 ? ? E Hd']; subst.
  - by exists l.
  - cbn [length rep_at flat_map].
    erewrite Mbind_run by (erewrite Mbind_run by (unfold inl_; cbn [h_dev h_mem h_log]; by rewrite E); cbv beta;
      unfold mem_put; cbn [h_mem h_dev h_log]; rewrite storen_write; [reflexivity|rewrite length_le_split;
        eapply mapped_weaken; [exact Hm|lia|cbn [length]; lia]|apply le_split_bytes]). cbv beta.
    change (a + Z.of_nat 4) with (a + 4).
    destruct (IH (a + 4) d1 d' (write_bytes m a (le_split 4 (u32 w'))) (l ++ [In32 0x1F0 (u32 w')])) as (l' & E');
      [done|done| |by apply Forall_cons in Hw as [_ Hw]|].
    + apply write_bytes_mapped. eapply mapped_weaken; [exact Hm|lia|cbn [length]; lia].
    + exists l'. rewrite E'. rewrite write_bytes_app, length_le_split. done.
Qed.

Lemma delivers_words d ws d' : delivers d ws d' -> Forall (fun w => 0 <= w < 4294967296) ws.
Proof using Type. induction 1; constructor; [apply u32_range|done]. Qed.

Lemma outb_at port v m (d : D) l :
  outb port v (mkHw m d l) = Ok (tt, mkHw m (dev_out port (u8 v) d) (l ++ [Out port (u8 v)])).
Proof using Type. done. Qed.

Lemma readsect_run dst lba m d l :
  idle d -> 1 <= lba < 2 ^ 28 -> mapped m dst 512 ->
  exists d' l', readsect dst lba (mkHw m d l) =
    Ok (tt, mkHw (write_bytes m dst (img ((lba - 1) * 512) 512)) d' l') /\ idle d'.
Proof using All.
  intros Hi Hl Hm. destruct (disk_ready d Hi) as (n0 & d0 & Hn0 & Hp0).
  destruct (disk_read d n0 d0 lba Hi Hp0 Hl) as (n1 & d1 & ws & d2 & Hn1 & Hp1 & Hd & Hi2 & Hws).
  exists d2. unfold readsect.
  destruct (waitdisk_run n0 d d0 m l Hp0 Hn0) as (l0 & E0). erewrite Mbind_run by exact E0. cbv beta.
  do 6 (erewrite Mbind_run by apply outb_at; cbv beta).
  change (u8 1) with 1. change (u8 0x20) with 0x20.
  match goal with |- context [mkHw m ?d ?l] => change d with (read_command lba d0); set (l1 := l) end.
  destruct (waitdisk_run n1 _ d1 m l1 Hp1 Hn1) as (l2 & E2). erewrite Mbind_run by exact E2. cbv beta.
  assert (length ws = 128%nat) as Hlen.
  { assert (length (flat_map (le_split 4) ws) = length (img ((lba - 1) * 512) 512)) as Hx
      by (unfold img; by rewrite Hws).
    assert (length (flat_map (le_split 4) ws) = (4 * length ws)%nat) as Hy
      by (clear; induction ws; simpl in *; lia).
    pose proof (length_img ((lba - 1) * 512) 512). lia. }
  destruct (insl_run 0x1F0 dst ws d1 d2 m l2) as (l3 & E3); [done|done| |by eapply delivers_words|].
  { rewrite Hlen. done. }
  exists l3. split; [|done]. unfold insl, rep_ins. change (u32 (SECTSIZE / 4)) with 128.
  change (Z.to_nat 128) with 128%nat. rewrite <- Hlen, E3. unfold img. by rewrite Hws.
Qed.

(** ** Segments *)

Lemma readseg_runs k : forall pa lba m d l end_pa,
  idle d -> mapped m pa (512 * Z.of_nat k) -> 1 <= lba -> lba + Z.of_nat k <= 2 ^ 28 ->
  0 <= pa -> pa + 512 * Z.of_nat k < 4294967296 ->
  pa + 512 * (Z.of_nat k - 1) < end_pa \/ k = 0%nat -> end_pa <= pa + 512 * Z.of_nat k ->
  exists d' l', idle d' /\
    runs (fun st => r ← readseg_body end_pa st.1 st.2;
      match r with
      | (inl x', t') => Ok (inl (x', t'))
      | (inr a, t') => Ok (inr (a, t'))
      end) (S k) ((pa, lba), mkHw m d l)
      (Ok (tt, mkHw (write_bytes m pa (img ((lba - 1) * 512) (512 * Z.of_nat k))) d' l')).
Proof using All.
  induction k as [|k IH]; intros pa lba m d l end_pa Hi Hm Hl Hlk Hp Hpk He1 He2.
  - exists d, l. split; [done|]. apply runs_done. cbn [fst snd]. unfold readseg_body.
    by destruct (Z.ltb_spec pa end_pa); [lia|].
  - destruct (readsect_run pa lba m d l Hi) as (d1 & l1 & E1 & Hi1);
      [lia|eapply mapped_weaken; [exact Hm|lia|lia]|].
    destruct (IH (pa + 512) (lba + 1) (write_bytes m pa (img ((lba - 1) * 512) 512)) d1 l1 end_pa)
      as (d' & l' & Hi' & Hr); try lia; [done|..].
    { apply write_bytes_mapped. eapply mapped_weaken; [exact Hm|lia|lia]. }
    exists d', l'. split; [done|]. eapply runs_step.
    + cbn [fst snd]. unfold readseg_body. destruct (Z.ltb_spec pa end_pa); [|lia].
      erewrite Mbind_run by exact E1. reflexivity.
    + unfold SECTSIZE. rewrite !u32_small by lia.
      replace (512 * Z.of_nat (S k)) with (512 + 512 * Z.of_nat k) by lia.
      rewrite img_app, write_bytes_app, length_img by lia.
      by replace ((lba - 1) * 512 + 512) with ((lba + 1 - 1) * 512) by lia.
Qed.

(** The sectors [readseg] reads, and where they go. *)
Definition seg_start (pa : Z) : Z := pa - pa mod 512.
Definition seg_sectors (pa count : Z) : Z := (pa + count - seg_start pa + 511) / 512.
Definition seg_end (pa count : Z) : Z := seg_start pa + 512 * seg_sectors pa count.

Lemma readseg_run pa count offset m d l :
  idle d -> 0 <= pa -> 0 <= count -> 0 <= offset < 4294967296 -> seg_end pa count < 4294967296 ->
  offset / 512 + 1 + seg_sectors pa count <= 2 ^ 28 ->
  mapped m (seg_start pa) (seg_end pa count - seg_start pa) ->
  exists d' l', idle d' /\
    readseg pa count offset (mkHw m d l) = Ok (tt, mkHw (write_bytes m (seg_start pa)
      (img (offset / 512 * 512) (seg_end pa count - seg_start pa))) d' l').
Proof using All.
  intros Hi Hpa Hc Ho He Hs Hm.
  assert (Z.land pa (u32 (Z.lnot (SECTSIZE - 1))) = seg_start pa) as Hland.
  { unfold seg_start. change (u32 (Z.lnot (SECTSIZE - 1))) with (Z.ldiff (Z.ones 32) (Z.ones 9)).
    assert (pa < 4294967296) by (unfold seg_end, seg_sectors, seg_start in He; zlia).
    replace (Z.land pa (Z.ldiff (Z.ones 32) (Z.ones 9))) with (Z.ldiff pa (Z.ones 9)).
    - rewrite Z.ldiff_ones_r, Z.shiftr_div_pow2, Z.shiftl_mul_pow2 by lia. change (2 ^ 9) with 512. zlia.
    - assert (Z.land pa (Z.ones 32) = pa) as E.
      { rewrite Z.land_ones by lia. change (2 ^ 32) with 4294967296. apply Z.mod_small. lia. }
      rewrite <- E at 1. apply Z.bits_inj'. intros i Hb.
      rewrite !Z.ldiff_spec, !Z.land_spec, !Z.ldiff_spec.
      by destruct (Z.testbit pa i), (Z.testbit (Z.ones 32) i), (Z.testbit (Z.ones 9) i). }
  assert (0 <= seg_sectors pa count /\ 0 <= seg_start pa /\ seg_start pa <= pa /\
    seg_end pa count - seg_start pa = 512 * seg_sectors pa count /\
    pa + count <= seg_end pa count < pa + count + 512) as (H1 & H2 & H3 & H4 & H5)
    by (unfold seg_end, seg_sectors, seg_start; zlia).
  unfold readseg. rewrite Hland. unfold SECTSIZE. rewrite (u32_small (pa + count)), (u32_small (offset / 512 + 1)) by zlia.
  destruct (readseg_runs (Z.to_nat (seg_sectors pa count)) (seg_start pa) (offset / 512 + 1) m d l (pa + count))
    as (d' & l' & Hi' & Hr); try (zlia || done).
  { rewrite Z2Nat.id by lia. by rewrite <- H4. }
  exists d', l'. split; [done|]. unfold whileM. rewrite (while_runs _ _ _ _ Hr) by zlia.
  rewrite Z2Nat.id by lia. rewrite <- H4. by replace (offset / 512 + 1 - 1) with (offset / 512) by lia.
Qed.

(** ** The kernel image *)

Definition w32 (o : Z) : Z := le_combine (img o 4).
Definition w16 (o : Z) : Z := le_combine (img o 2).

Definition phnum : Z := w16 44.
Definition seg_off (i : Z) : Z := w32 (w32 28 + 32 * i + 4).
Definition seg_pa (i : Z) : Z := w32 (w32 28 + 32 * i + 12).
Definition seg_memsz (i : Z) : Z := w32 (w32 28 + 32 * i + 20).
Definition seg_lo (i : Z) : Z := seg_start (seg_pa i).
Definition seg_hi (i : Z) : Z := seg_end (seg_pa i) (seg_memsz i).

(** Two address ranges do not meet. *)
Definition disjoint (a b c d : Z) : Prop := b <= c \/ d <= a.

(** An image the loader can load: its headers are in the first page, every
    segment's file offset and address agree within a sector, and the sectors of
    the segments meet neither each other nor the headers. *)
Record loadable (m : mem) : Prop := {
  ld_mem : mapped m ELFHDR 4096;
  ld_magic : w32 0 = ELF_MAGIC;
  ld_ph : w32 28 + 32 * phnum <= 4096;
  ld_seg : forall i, 0 <= i < phnum ->
    seg_pa i mod 512 = seg_off i mod 512 /\ seg_hi i < 4294967296 /\
    seg_off i / 512 + 1 + seg_sectors (seg_pa i) (seg_memsz i) <= 2 ^ 28 /\
    mapped m (seg_lo i) (seg_hi i - seg_lo i) /\
    disjoint (seg_lo i) (seg_hi i) ELFHDR (ELFHDR + 4096);
  ld_disj : forall i j, 0 <= i < j -> j < phnum -> disjoint (seg_lo i) (seg_hi i) (seg_lo j) (seg_hi j) }.

Definition headers (m : mem) : Prop := bytes m (Addr ELFHDR) (img 0 4096).

Definition loaded (m : mem) (i : Z) : Prop :=
  forall j, 0 <= j < seg_memsz i -> m !! (seg_pa i + j) = Some (image (seg_off i + j)).

Lemma w32_range o : 0 <= w32 o < 4294967296.
Proof using All.
  unfold w32. pose proof (le_combine_bound (img o 4)) as H. assert (length (img o 4) = 4%nat) as Hl by done.
  rewrite Hl in H. change (256 ^ Z.of_nat 4) with 4294967296 in H. apply H.
  unfold img. apply Forall_fmap, Forall_true. intros x. apply disk_bytes.
Qed.

Lemma w16_range o : 0 <= w16 o < 65536.
Proof using All.
  unfold w16. pose proof (le_combine_bound (img o 2)) as H. assert (length (img o 2) = 2%nat) as Hl by done.
  rewrite Hl in H. change (256 ^ Z.of_nat 2) with 65536 in H. apply H.
  unfold img. apply Forall_fmap, Forall_true. intros x. apply disk_bytes.
Qed.

Lemma headers_load m o n :
  headers m -> 0 <= o -> 0 <= n -> o + n <= 4096 ->
  loadn m (Addr (ELFHDR + o)) (Z.to_nat n) = Ok (img o n).
Proof using Type.
  intros Hh Ho Hn Hon. unfold headers in Hh.
  replace 4096 with (o + (n + (4096 - o - n))) in Hh by lia. rewrite !img_app in Hh by lia.
  apply bytes_app in Hh as [_ Hh]. apply bytes_app in Hh as [Hh _]. cbn [padd] in Hh.
  rewrite length_img in Hh by lia. rewrite Z.add_0_l in Hh.
  pose proof (length_img o n Hn). replace (Z.to_nat n) with (length (img o n)) by lia. by apply loadn_bytes.
Qed.

Lemma field32_run m d l o :
  headers m -> 0 <= o -> o + 4 <= 4096 ->
  field32 ELFHDR o (mkHw m d l : hw D) = Ok (w32 o, mkHw m d l).
Proof using Type.
  intros Hh Ho Ho4. unfold field32, reads, load32. cbn [h_mem].
  change 4%nat with (Z.to_nat 4). by rewrite headers_load by (done || lia).
Qed.

Lemma field16_run m d l o :
  headers m -> 0 <= o -> o + 2 <= 4096 ->
  field16 ELFHDR o (mkHw m d l : hw D) = Ok (w16 o, mkHw m d l).
Proof using Type.
  intros Hh Ho Ho4. unfold field16, reads, load16. cbn [h_mem].
  change 2%nat with (Z.to_nat 2). by rewrite headers_load by (done || lia).
Qed.

(** A block written apart from what matters. *)
Lemma headers_write m a l :
  headers m -> disjoint a (a + Z.of_nat (length l)) ELFHDR (ELFHDR + 4096) -> headers (write_bytes m a l).
Proof using Type.
  unfold headers, disjoint. rewrite !bytes_lookup. intros Hh Hd i b Hi.
  pose proof (lookup_lt_Some _ _ _ Hi) as Hlt. pose proof (length_img 0 4096).
  rewrite write_bytes_out by lia. by apply Hh.
Qed.

Lemma seg_bounds i :
  seg_lo i <= seg_pa i /\ seg_pa i + seg_memsz i <= seg_hi i /\ seg_lo i <= seg_hi i /\ 0 <= seg_lo i.
Proof using All.
  pose proof (w32_range (w32 28 + 32 * i + 12)). pose proof (w32_range (w32 28 + 32 * i + 20)).
  unfold seg_lo, seg_hi, seg_end, seg_sectors, seg_start, seg_pa, seg_memsz. zlia.
Qed.

Lemma loaded_write m a l i :
  loaded m i -> disjoint a (a + Z.of_nat (length l)) (seg_lo i) (seg_hi i) -> loaded (write_bytes m a l) i.
Proof using All.
  unfold loaded, disjoint. intros Hl Hd j Hj. pose proof (seg_bounds i).
  rewrite write_bytes_out by lia. by apply Hl.
Qed.

Lemma loaded_new m i :
  seg_pa i mod 512 = seg_off i mod 512 ->
  loaded (write_bytes m (seg_lo i) (img (seg_off i / 512 * 512) (seg_hi i - seg_lo i))) i.
Proof using All.
  intros Hmod j Hj. pose proof (seg_bounds i) as (H1 & H2 & H3 & _).
  rewrite write_bytes_lookup, length_img by lia. rewrite decide_True by lia.
  rewrite img_lookup by lia. do 2 f_equal.
  assert (seg_pa i - seg_lo i = seg_pa i mod 512) as Hd by (unfold seg_lo, seg_start; lia).
  pose proof (Z.div_mod (seg_off i) 512). lia.
Qed.

(** The loop over the program headers, from the [i]th on. *)
Lemma bootmain_runs k : forall i m d l m0,
  loadable m0 -> mapped m ELFHDR 4096 -> (forall x, is_Some (m0 !! x) -> is_Some (m !! x)) ->
  idle d -> headers m -> 0 <= i -> i + Z.of_nat k = phnum ->
  (forall j, 0 <= j < i -> loaded m j) ->
  let ph := ELFHDR + w32 28 in
  exists m' d' l', headers m' /\ (forall j, 0 <= j < phnum -> loaded m' j) /\
    runs (fun st => r ← bootmain_body (ph + 32 * phnum) st.1 st.2;
      match r with
      | (inl x', t') => Ok (inl (x', t'))
      | (inr a, t') => Ok (inr (a, t'))
      end) (S k) (ph + 32 * i, mkHw m d l) (Ok (tt, mkHw m' d' l')).
Proof using All.
  induction k as [|k IH]; intros i m d l m0 Hld Hmm Hdom Hi Hh Hi0 Hik Hdone ph.
  - exists m, d, l. split_and!; [done|intros; apply Hdone; lia|]. apply runs_done. cbn [fst snd].
    unfold bootmain_body. by destruct (Z.ltb_spec (ph + 32 * i) (ph + 32 * phnum)); [lia|].
  - pose proof (w32_range 28) as H28. pose proof (w16_range 44) as H44. fold phnum in H44.
    pose proof (ld_ph _ Hld) as Hph. destruct (ld_seg _ Hld i ltac:(lia)) as (Hmod & Hhi & Hlim & Hmap & Hdh).
    pose proof (seg_bounds i) as (B1 & B2 & B3 & B4).
    destruct (readseg_run (seg_pa i) (seg_memsz i) (seg_off i) m d l Hi) as (d1 & l1 & Hi1 & E1);
      [lia|apply w32_range|apply w32_range|exact Hhi|exact Hlim| |].
    { intros x Hx. by apply Hdom, Hmap. }
    set (m1 := write_bytes m (seg_start (seg_pa i)) _) in E1.
    assert (Z.of_nat (length (img (seg_off i / 512 * 512) (seg_end (seg_pa i) (seg_memsz i) - seg_start (seg_pa i))))
      = seg_hi i - seg_lo i) as Hlen by (apply length_img; unfold seg_hi, seg_lo in *; lia).
    destruct (IH (i + 1) m1 d1 l1 m0) as (m' & d' & l' & Hh' & Hl' & Hr);
      [exact Hld| | |exact Hi1| |lia|lia| |].
    + by apply write_bytes_mapped.
    + intros x Hx. pose proof (Hdom x Hx). apply (write_bytes_mapped _ _ _ x 1); [|lia].
      intros y Hy. by replace y with x by lia.
    + apply headers_write; [done|]. rewrite Hlen. unfold disjoint, seg_lo in *. lia.
    + intros j Hj. destruct (decide (j = i)) as [->|]; [by apply loaded_new|].
      apply loaded_write; [apply Hdone; lia|]. rewrite Hlen.
      pose proof (ld_disj _ Hld j i ltac:(lia) ltac:(lia)). unfold disjoint, seg_lo in *. lia.
    + exists m', d', l'. split_and!; [done|done|]. eapply runs_step.
      * cbn [fst snd]. unfold bootmain_body, p_pa, p_memsz, p_offset.
        destruct (Z.ltb_spec (ph + 32 * i) (ph + 32 * phnum)); [|lia].
        assert (forall o, 0 <= o <= 28 -> field32 (ph + 32 * i) o (mkHw m d l : hw D) =
          Ok (w32 (w32 28 + 32 * i + o), mkHw m d l)) as Hf.
        { intros o Ho. rewrite <- (field32_run m d l (w32 28 + 32 * i + o)) by (done || lia).
          unfold field32, ph. by replace (ELFHDR + w32 28 + 32 * i + o) with (ELFHDR + (w32 28 + 32 * i + o)) by lia. }
        erewrite Mbind_run by (apply Hf; lia). cbv beta. erewrite Mbind_run by (apply Hf; lia). cbv beta.
        erewrite Mbind_run by (apply Hf; lia). cbv beta. erewrite Mbind_run by exact E1. reflexivity.
      * unfold sizeof_Proghdr. rewrite u32_small by (unfold ELFHDR in ph; lia).
        by replace (ph + 32 * i + 32) with (ph + 32 * (i + 1)) by lia.
Qed.

Lemma header_page m d l :
  idle d -> mapped m ELFHDR 4096 ->
  exists d' l', idle d' /\
    readseg ELFHDR (SECTSIZE * 8) 0 (mkHw m d l) = Ok (tt, mkHw (write_bytes m ELFHDR (img 0 4096)) d' l').
Proof using All. intros Hi Hm. by apply (readseg_run ELFHDR (SECTSIZE * 8) 0 m d l Hi). Qed.
End reading.

Section promises.
Context {D : Type} `{!Ports D} (image : Z -> Z) (idle : D -> Prop) `{!Disk D image idle}.

Lemma bootmain_run m d l :
  idle d -> loadable image m ->
  exists m' d' l', bootmain (mkHw m d l) = Ok (Entered (w32 image 24), mkHw m' d' l') /\
    forall i, 0 <= i < phnum image -> loaded image m' i.
Proof.
  intros Hi Hld. pose proof (ld_mem _ _ Hld) as Hm.
  destruct (header_page image idle m d l Hi Hm) as (d1 & l1 & Hi1 & E1).
  set (m1 := write_bytes m ELFHDR (img image 0 4096)) in E1.
  assert (headers image m1) as Hh by apply bytes_write_bytes.
  pose proof (w32_range image idle 28) as H28. pose proof (w16_range image idle 44) as H44. fold (phnum image) in H44.
  destruct (bootmain_runs image idle (Z.to_nat (phnum image)) 0 m1 d1 l1 m) as (m' & d' & l' & Hh' & Hl & Hr);
    [exact Hld| | |exact Hi1|exact Hh|lia|lia|intros; lia|].
  { by apply write_bytes_mapped. }
  { intros x Hx. apply (write_bytes_mapped _ _ _ x 1); [|lia]. intros y Hy. by replace y with x by lia. }
  exists m', d', l'. split; [|done]. unfold bootmain. erewrite Mbind_run by exact E1. cbv beta.
  unfold e_magic, e_phoff, e_phnum, e_entry. pose proof (ld_ph _ _ Hld) as Hph.
  erewrite Mbind_run by (apply (field32_run image); [assumption|lia|lia]). cbv beta.
  rewrite (ld_magic _ _ Hld), Z.eqb_refl. cbn [negb].
  erewrite Mbind_run by (apply (field32_run image); [assumption|lia|lia]). cbv beta.
  erewrite Mbind_run by (apply (field16_run image); [assumption|lia|lia]). cbv beta zeta. fold (phnum image).
  unfold sizeof_Proghdr, ELFHDR in *.
  rewrite (u32_small (65536 + w32 image 28)), (u32_small (_ + 32 * _)) by lia.
  assert (whileM (bootmain_body (65536 + w32 image 28 + 32 * phnum image)) (65536 + w32 image 28) (mkHw m1 d1 l1)
    = Ok (tt, mkHw m' d' l')) as Hloop.
  { unfold whileM. rewrite Z.mul_0_r, Z.add_0_r in Hr. apply (while_runs _ _ _ _ Hr). lia. }
  erewrite Mbind_run by exact Hloop. cbv beta.
  by erewrite Mbind_run by (apply (field32_run image); [assumption|lia|lia]).
Qed.

(** C24: with the disk idle and a loadable image on it, [bootmain] returns to
    no one: it enters the kernel at the entry point of the ELF header, with
    every byte of every segment in memory at its load address. *)
Theorem bootmain_spec m d l :
  idle d -> loadable image m ->
  exists m' d' l', bootmain (mkHw m d l) = Ok (Entered (w32 image 24), mkHw m' d' l') /\
    forall i, 0 <= i < phnum image -> loaded image m' i.
Proof. exact (bootmain_run m d l). Qed.

(** C36: an image without the ELF magic number is not run: after its first page
    is read the loader reports on port 0x8A00 and hangs. *)
Theorem bootmain_bad m d l :
  idle d -> mapped m ELFHDR 4096 -> w32 image 0 <> ELF_MAGIC ->
  exists d' l', bootmain (mkHw m d l) =
    Ok (Hung, mkHw (write_bytes m ELFHDR (img image 0 4096)) d' (l' ++ [Out16 0x8A00 0x8A00; Out16 0x8A00 0x8E00])).
Proof.
  intros Hi Hm Hmg. destruct (header_page image idle m d l Hi Hm) as (d1 & l1 & Hi1 & E1).
  eexists _, l1. unfold bootmain. erewrite Mbind_run by exact E1. cbv beta. unfold e_magic.
  erewrite Mbind_run by (apply (field32_run image); (lia || apply bytes_write_bytes)). cbv beta.
  rewrite (proj2 (Z.eqb_neq _ _) Hmg). cbn [negb]. unfold bad, outw, mbind, M_bind, mret, M_ret.
  cbn [h_mem h_dev h_log]. by rewrite <- app_assoc.
Qed.
End promises.

(** ** What the loader leaves alone *)

(** Properties that the accesses of the loader keep. *)
Class Unloaded {D : Type} `{!Ports D} (P : hw D -> Prop) : Prop := {
  un_status : keeps P (inb 0x1F7);
  un_command : forall port v, 0x1F2 <= port <= 0x1F7 -> keeps P (outb port v);
  un_data : keeps P (inl_ 0x1F0);
  un_store : forall a v, keeps P (mem_put 4 a v);
  un_report : forall v, keeps P (outw 0x8A00 v) }.

Section leaves.
Context {D : Type} `{!Ports D} (P : hw D -> Prop) `{!Unloaded P}.

Lemma keeps_waitdisk : keeps P waitdisk.
Proof using All.
  apply keeps_while. intros []. apply keeps_bind; [apply un_status|]. intros v.
  destruct (negb _); apply keeps_ret.
Qed.

Lemma keeps_insl a n : keeps P (rep_at (fun a => v ← inl_ 0x1F0; mem_put 4 a v) 4 a n).
Proof using All.
  revert a. induction n as [|n IH]; intros a; cbn [rep_at]; [apply keeps_ret|].
  apply keeps_bind; [apply keeps_bind; [apply un_data|intros v; apply un_store]|]. intros _. apply IH.
Qed.

Lemma keeps_readseg pa count offset : keeps P (readseg pa count offset).
Proof using All.
  apply keeps_while. intros [a o]. unfold readseg_body. destruct (a <? _); [|apply keeps_ret].
  apply keeps_bind; [|intros _; apply keeps_ret]. unfold readsect.
  apply keeps_bind; [apply keeps_waitdisk|intros _].
  do 6 (apply keeps_bind; [apply un_command; lia|intros _]).
  apply keeps_bind; [apply keeps_waitdisk|intros _]. apply keeps_insl.
Qed.

Lemma keeps_bootmain : keeps P bootmain.
Proof using All.
  apply keeps_bind; [apply keeps_readseg|intros _]. apply keeps_bind; [apply keeps_reads|intros magic].
  destruct (negb _).
  - apply keeps_bind; [apply un_report|intros _]. apply keeps_bind; [apply un_report|intros _]. apply keeps_ret.
  - apply keeps_bind; [apply keeps_reads|intros phoff]. apply keeps_bind; [apply keeps_reads|intros phnum].
    apply keeps_bind; [|intros _; apply keeps_bind; [apply keeps_reads|intros e; apply keeps_ret]].
    apply keeps_while. intros ph. unfold bootmain_body. destruct (ph <? _); [|apply keeps_ret].
    do 3 (apply keeps_bind; [apply keeps_reads|intros ?]). apply keeps_bind; [apply keeps_readseg|intros _; apply keeps_ret].
Qed.
End leaves.

(** * A disk for the witnesses

    An IDE disk: the address registers select the sector, and the read command
    puts its 128 words on the data port.  It is busy for a while, at first and
    after the command; then it ignores what is written and has no data. *)

Record ide := mkIde { i_busy : nat; i_lba0 : Z; i_lba1 : Z; i_lba2 : Z; i_lba3 : Z; i_words : list Z }.

Section ide.
Context (image : Z -> Z) (image_byte : forall i, is_byte (image i)).

Definition sector_words (lba : Z) : list Z :=
  (fun k => le_combine (image <$> seqZ ((lba - 1) * 512 + 4 * k) 4)) <$> seqZ 0 128.

Definition ide_lba (d : ide) : Z :=
  i_lba0 d + 256 * i_lba1 d + 65536 * i_lba2 d + 16777216 * Z.land (i_lba3 d) 15.

Definition ide_out (port v : Z) (d : ide) : ide :=
  match d with
  | mkIde O a b c e ws =>
      if port =? 0x1F3 then mkIde 0 v b c e ws
      else if port =? 0x1F4 then mkIde 0 a v c e ws
      else if port =? 0x1F5 then mkIde 0 a b v e ws
      else if port =? 0x1F6 then mkIde 0 a b c v ws
      else if port =? 0x1F7 then mkIde 2 a b c e (sector_words (ide_lba d))
      else d
  | _ => d
  end.

(** The status register: busy up to three times. *)
Definition ide_in (port : Z) (d : ide) : Z * ide :=
  let '(mkIde n a b c e ws) := d in
  if port =? 0x1F7 then
    match Nat.min n 3 with
    | O => (0x40, d)
    | S n' => (0x80, mkIde n' a b c e ws)
    end
  else (0, d).

Definition ide_in32 (port : Z) (d : ide) : Z * ide :=
  match d with
  | mkIde O a b c e ws => (hd 0 ws, mkIde 0 a b c e (tl ws))
  | _ => (0xFFFFFFFF, d)
  end.

#[export] Instance ide_ports : Ports ide := {
  dev_in := ide_in;
  dev_in16 := fun _ d => (0, d);
  dev_in32 := ide_in32;
  dev_out := ide_out;
  dev_out16 := fun _ _ d => d; dev_out32 := fun _ _ d => d;
  dev_bus := fun _ _ => 0 }.

Lemma ide_delivers a b c e ws : Forall (fun w => 0 <= w < 4294967296) ws ->
  delivers (mkIde 0 a b c e ws) ws (mkIde 0 a b c e []).
Proof using Type.
  induction 1 as [|w ws Hw _ IH]; [constructor|].
  rewrite <- (u32_small w) at 2 by done. by eapply delivers_cons.
Qed.

Lemma le_split_combine l : Forall is_byte l -> le_split (length l) (le_combine l) = l.
Proof using Type.
  induction 1 as [|b l Hb Hl IH]; [done|]. cbn [length le_split le_combine]. f_equal.
  - unfold u8. unfold is_byte in Hb. rewrite Z.mul_comm, Z.mod_add by lia. by apply Z.mod_small.
  - unfold is_byte in Hb. rewrite Z.mul_comm, Z.div_add, Z.div_small by lia. exact IH.
Qed.

Lemma image_bytes o n : Forall is_byte (image <$> seqZ o n).
Proof using image_byte. by apply Forall_fmap, Forall_true. Qed.

Lemma sector_words_range lba : Forall (fun w => 0 <= w < 4294967296) (sector_words lba).
Proof using image_byte.
  apply Forall_fmap, Forall_true. intros k. cbn.
  exact (le_combine_bound (image <$> seqZ ((lba - 1) * 512 + 4 * k) 4) (image_bytes _ _)).
Qed.

Lemma words_split o k : forall i,
  flat_map (le_split 4) ((fun k => le_combine (image <$> seqZ (o + 4 * k) 4)) <$> seqZ i (Z.of_nat k))
  = image <$> seqZ (o + 4 * i) (4 * Z.of_nat k).
Proof using image_byte.
  induction k as [|k IH]; intros i; [done|].
  rewrite (seqZ_cons i) by lia. replace (Z.pred (Z.of_nat (S k))) with (Z.of_nat k) by lia.
  cbn [fmap list_fmap flat_map]. rewrite IH.
  change 4%nat with (length (image <$> seqZ (o + 4 * i) 4)).
  rewrite le_split_combine by apply image_bytes.
  replace (4 * Z.of_nat (S k)) with (4 + 4 * Z.of_nat k) by lia.
  rewrite seqZ_app, fmap_app by lia. do 2 f_equal. f_equal. lia.
Qed.

Lemma drive_bits z : 0 <= z < 16 -> Z.land (u8 (Z.lor z 0xE0)) 15 = z.
Proof using Type.
  intros Hz. pose proof (byte_forall (fun b => b < 16 -> Z.land (u8 (Z.lor b 0xE0)) 15 = b) eq_refl z) as H.
  apply H; [unfold is_byte|]; lia.
Qed.

Lemma ide_polled n d d' : polls n d d' -> i_busy d' = 0%nat.
Proof using Type.
  induction 1 as [[n a b c e ws] v d' E Hv|]; [|done]. cbn [dev_in ide_ports ide_in] in E.
  change (0x1F7 =? 0x1F7) with true in E. cbv iota in E.
  destruct n as [|n]; [by injection E as _ <-|]. cbn [Nat.min] in E. by injection E as <- _.
Qed.

Lemma ide_waits n a b c e ws : exists k d', Z.of_nat k < 2 ^ 63 /\ polls k (mkIde n a b c e ws) d'.
Proof using Type.
  assert (forall m, (m <= 3)%nat -> polls m (mkIde m a b c e ws) (mkIde 0 a b c e ws)) as H.
  { induction m as [|m IH]; intros Hm; [by eapply polls_ready|].
    eapply (polls_busy _ _ 0x80); [|done|apply IH; lia]. cbn [dev_in ide_ports ide_in]. by rewrite Nat.min_l by lia. }
  destruct (decide (n <= 3)%nat) as [Hn|Hn]; [exists n; eexists; split; [lia|by apply H]|].
  exists 3%nat. eexists. split; [lia|]. eapply (polls_busy _ _ 0x80); [|done|apply (H 2%nat); lia].
  cbn [dev_in ide_ports ide_in]. by rewrite Nat.min_r by lia.
Qed.

#[export] Instance ide_disk : Disk ide image (fun _ => True).
Proof using image_byte.
  split; [exact image_byte|..].
  - intros [n a b c e ws] _. apply ide_waits.
  - intros d n0 [n a b c e ws] lba _ Hp Hlba. apply ide_polled in Hp. cbn [i_busy] in Hp. subst n.
    assert (ide_lba (mkIde 0 (u8 lba) (u8 (Z.shiftr lba 8)) (u8 (Z.shiftr lba 16))
      (u8 (Z.lor (Z.shiftr lba 24) 0xE0)) ws) = lba) as El.
    { unfold ide_lba. cbn [i_lba0 i_lba1 i_lba2 i_lba3]. rewrite drive_bits.
      - rewrite !Z.shiftr_div_pow2 by lia.
        change (2 ^ 8) with 256. change (2 ^ 16) with 65536. change (2 ^ 24) with 16777216. zlia.
      - rewrite Z.shiftr_div_pow2 by lia. change (2 ^ 24) with 16777216. change (2 ^ 28) with 268435456 in Hlba. zlia. }
    exists 2%nat, (mkIde 0 (u8 lba) (u8 (Z.shiftr lba 8)) (u8 (Z.shiftr lba 16)) (u8 (Z.lor (Z.shiftr lba 24) 0xE0)) (sector_words lba)),
      (sector_words lba), (mkIde 0 (u8 lba) (u8 (Z.shiftr lba 8)) (u8 (Z.shiftr lba 16)) (u8 (Z.lor (Z.shiftr lba 24) 0xE0)) []).
    split_and!; [lia| |apply ide_delivers, sector_words_range|done|].
    + unfold read_command. cbn [dev_out ide_ports ide_out Z.eqb Pos.eqb]. rewrite El.
      do 2 (eapply polls_busy; [reflexivity|done|]). by eapply polls_ready.
    + unfold sector_words. change 128 with (Z.of_nat 128). rewrite words_split. do 2 f_equal. lia.
Qed.
End ide.

(** A kernel image with two segments: 5 bytes at 0x100000 and 3 at 0x100404. *)
Definition ex_elf : list Z :=
  le_split 4 ELF_MAGIC ++ replicate 20 0 ++ le_split 4 0x10000c ++ le_split 4 52 ++ replicate 12 0 ++
  le_split 2 2 ++ replicate 6 0 ++
  (le_split 4 1 ++ le_split 4 0x1000 ++ replicate 4 0 ++ le_split 4 0x100000 ++ replicate 4 0 ++
   le_split 4 5 ++ replicate 8 0) ++
  (le_split 4 1 ++ le_split 4 0x1204 ++ replicate 4 0 ++ le_split 4 0x100404 ++ replicate 4 0 ++
   le_split 4 3 ++ replicate 8 0).

Definition image_of (l : list Z) (i : Z) : Z :=
  if i <? Z.of_nat (length l) then u8 (default 0 (l !! Z.to_nat i)) else i mod 251.

Lemma image_of_byte l i : is_byte (image_of l i).
Proof. unfold image_of. case_match; [apply u8_range|zlia]. Qed.

Definition ex_boot_mem : mem :=
  write_bytes (write_bytes ∅ ELFHDR (replicate 4096 0)) 0x100000 (replicate 0x600 0).
Definition ex_ide : ide := mkIde 1 0 0 0 0 [].

Lemma ex_boot_mapped : mapped ex_boot_mem ELFHDR 4096 /\ mapped ex_boot_mem 0x100000 0x600.
Proof.
  split; [apply write_bytes_mapped|]; apply mapped_block; rewrite length_replicate; lia.
Qed.

Lemma ex_loadable : loadable (image_of ex_elf) ex_boot_mem.
Proof.
  split.
  - apply ex_boot_mapped.
  - by vm_compute.
  - by vm_compute.
  - assert (phnum (image_of ex_elf) = 2) as -> by by vm_compute.
    intros i Hi. assert (i = 0 \/ i = 1) as [-> | ->] by lia;
      (split_and!; [by vm_compute|by vm_compute|by vm_compute|
        eapply mapped_weaken; [apply ex_boot_mapped|by vm_compute|by vm_compute]|right; by vm_compute]).
  - assert (phnum (image_of ex_elf) = 2) as -> by by vm_compute.
    intros i j ??. assert (i = 0 /\ j = 1) as [-> ->] by lia. left. by vm_compute.
Qed.

Lemma bootmain_spec_witness :
  w32 (image_of ex_elf) 24 = 0x10000c /\
  exists m' d' l',
    @bootmain _ (ide_ports (image_of ex_elf)) (mkHw ex_boot_mem ex_ide []) =
      Ok (Entered (w32 (image_of ex_elf) 24), mkHw m' d' l') /\
    forall i, 0 <= i < phnum (image_of ex_elf) -> loaded (image_of ex_elf) m' i.
Proof.
  split; [by vm_compute|].
  pose proof (ide_disk (image_of ex_elf) (image_of_byte ex_elf)).
  exact (bootmain_spec (image_of ex_elf) (fun _ => True) ex_boot_mem ex_ide [] Logic.I ex_loadable).
Defined.

Lemma bootmain_bad_witness :
  w32 (image_of []) 0 <> ELF_MAGIC /\
  exists d' l',
    @bootmain _ (ide_ports (image_of [])) (mkHw ex_boot_mem ex_ide []) =
      Ok (Hung, mkHw (write_bytes ex_boot_mem ELFHDR (img (image_of []) 0 4096)) d'
        (l' ++ [Out16 0x8A00 0x8A00; Out16 0x8A00 0x8E00])).
Proof.
  assert (w32 (image_of []) 0 <> ELF_MAGIC) as Hm by by vm_compute.
  split; [exact Hm|].
  pose proof (ide_disk (image_of []) (image_of_byte [])).
  refine (bootmain_bad (image_of []) (fun _ => True) ex_boot_mem ex_ide [] Logic.I _ Hm). apply ex_boot_mapped.
Defined.
