(* ===== verification/Startup.v ===== *)
(** From the boot loader to the kernel's addresses: boot/main.c and
    kern/entrypgdir.c together.

    The page tables kern/entry.S turns paging on with are part of the image
    the boot loader reads.  Here the two meet: once [bootmain] has entered the
    kernel, the translation by these tables finds each segment at its linked
    address, KERNBASE above its load address, and the code that runs until the
    jump to it at its physical one. *)
From S2P Require Import Prelude Mem Mmu Entrypgdir Machine Boot.

Section startup.
Context {D : Type} `{!Ports D} (image : Z -> Z) (idle : D -> Prop) `{!Disk D image idle}.

(** The segments of the image put the bytes [l] at the physical address [pa]. *)
Definition provides (pa : Z) (l : list Z) : Prop :=
  exists i, 0 <= i < phnum image /\ seg_pa image i <= pa /\
    pa + Z.of_nat (length l) <= seg_pa image i + seg_memsz image i /\
    img image (seg_off image i + (pa - seg_pa image i)) (Z.of_nat (length l)) = l.

Lemma loaded_provides m pa l :
  (forall i, 0 <= i < phnum image -> loaded image m i) -> provides pa l -> bytes m (Addr pa) l.
Proof using Type.
  intros Hm (i & Hi & Hlo & Hhi & Hl). specialize (Hm i Hi). rewrite bytes_lookup. intros k b Hk.
  pose proof (lookup_lt_Some _ _ _ Hk) as Hlt. rewrite <- Hl in Hk. unfold img in Hk.
  apply list_lookup_fmap_Some in Hk as (x & -> & Hx%lookup_seqZ).
  replace (pa + Z.of_nat k) with (seg_pa image i + (pa - seg_pa image i + Z.of_nat k)) by lia.
  rewrite Hm by lia. do 2 f_equal. lia.
Qed.

(** The page tables the image brings are in memory when the kernel is entered. *)
Lemma tables_provided m pgdir pgtable :
  (forall i, 0 <= i < phnum image -> loaded image m i) ->
  provides (RELOC pgdir) (flat_map (le_split 4) (entry_pgdir pgtable)) ->
  provides (RELOC pgtable) (flat_map (le_split 4) entry_pgtable) ->
  tables_loaded m pgdir pgtable.
Proof using Type. intros Hm Hd Ht. split; by apply loaded_provides. Qed.
End startup.

(** When the boot loader enters a kernel whose image holds the entry page
    tables, every byte of every segment below 4 MB is found, writable, at
    KERNBASE above its load address through these tables, and the entry point
    at its physical address too, where execution continues when paging is
    turned on. *)
Theorem kernel_mapped {D} `{!Ports D} image idle `{!Disk D image idle} m d l pgdir pgtable :
  idle d -> loadable image m ->
  pgtable mod PGSIZE = 0 -> KERNBASE <= pgtable < KERNBASE + PTSIZE ->
  provides image (RELOC pgdir) (flat_map (le_split 4) (entry_pgdir pgtable)) ->
  provides image (RELOC pgtable) (flat_map (le_split 4) entry_pgtable) ->
  exists m' d' l', bootmain (mkHw m d l) = Ok (Entered (w32 image 24), mkHw m' d' l') /\
    (w32 image 24 < PTSIZE -> page_walk m' (RELOC pgdir) (w32 image 24) = Some (w32 image 24, false)) /\
    forall i j, 0 <= i < phnum image -> 0 <= j < seg_memsz image i -> seg_pa image i + j < PTSIZE ->
      page_walk m' (RELOC pgdir) (KERNBASE + (seg_pa image i + j)) = Some (seg_pa image i + j, true) /\
      m' !! (seg_pa image i + j) = Some (image (seg_off image i + j)).
Proof.
  intros Hi Hld Ha Hr Hd Ht. destruct (bootmain_run image idle m d l Hi Hld) as (m' & d' & l' & E & Hm).
  pose proof (tables_provided image m' pgdir pgtable Hm Hd Ht) as Htab.
  exists m', d', l'. split; [exact E|]. unfold PTSIZE, NPTENTRIES, PGSIZE in *. split.
  - intros He. pose proof (w32_range image idle 24).
    rewrite (translation m' pgdir pgtable Htab Ha Hr) by lia. unfold KERNBASE, PTSIZE, NPTENTRIES, PGSIZE.
    by rewrite decide_False, decide_True by lia.
  - intros i j Hin Hj Hb. pose proof (w32_range image idle (w32 image 28 + 32 * i + 12)). fold (seg_pa image i) in *.
    split; [|by apply Hm]. rewrite (translation m' pgdir pgtable Htab Ha Hr) by (unfold KERNBASE; lia).
    unfold KERNBASE, PTSIZE, NPTENTRIES, PGSIZE. rewrite decide_True by lia. do 2 f_equal. lia.
Qed.

(** An image with one segment at 0x100000: the page directory, the page table,
    16 bytes of code and 1024 of BSS. *)
Definition ex_header : list Z :=
  le_split 4 ELF_MAGIC ++ replicate 20 0 ++ le_split 4 0x102000 ++ le_split 4 52 ++ replicate 12 0 ++
  le_split 2 1 ++ replicate 6 0 ++
  (le_split 4 1 ++ le_split 4 0x1000 ++ replicate 4 0 ++ le_split 4 0x100000 ++ replicate 4 0 ++
   le_split 4 0x2410 ++ replicate 8 0).
Definition ex_kernel : list Z :=
  ex_header ++ replicate (4096 - length ex_header) 0 ++
  flat_map (le_split 4) (entry_pgdir 0xF0101000) ++ flat_map (le_split 4) entry_pgtable ++ replicate 16 0x90 ++ replicate 1024 0.
Definition ex_image (i : Z) : Z := default 0 (ex_kernel !! Z.to_nat i).
Definition ex_kernel_mem : mem :=
  write_bytes (write_bytes ∅ ELFHDR (replicate 4096 0)) 0x100000 (replicate 0x2600 0).

Lemma words_are_bytes ws : Forall is_byte (flat_map (le_split 4) ws).
Proof. induction ws as [|w ws IH]; [constructor|]. cbn [flat_map]. apply Forall_app. split; [apply le_split_bytes|exact IH]. Qed.

Lemma ex_image_byte i : is_byte (ex_image i).
Proof.
  unfold ex_image. destruct (ex_kernel !! Z.to_nat i) as [b|] eqn:E; [|by unfold is_byte; cbn; lia].
  cbn [default]. revert b E. change (forall b, ex_kernel !! Z.to_nat i = Some b -> is_byte b).
  intros b E. apply (Forall_lookup_1 is_byte ex_kernel (Z.to_nat i)); [|exact E].
  unfold ex_kernel. rewrite !Forall_app. split_and!; try apply words_are_bytes; try (apply Forall_replicate; decided).
  apply (bool_decide_unpack _). by vm_compute.
Qed.

(** A part of the image, read off as a list. *)
Lemma ex_image_part l1 l2 l3 :
  ex_kernel = l1 ++ l2 ++ l3 -> img ex_image (Z.of_nat (length l1)) (Z.of_nat (length l2)) = l2.
Proof.
  intros E. apply list_eq. intros i. unfold img. rewrite list_lookup_fmap.
  destruct (decide (i < length l2)%nat) as [Hi|Hi].
  - rewrite lookup_seqZ_lt by lia. cbn [fmap option_fmap option_map]. unfold ex_image. rewrite E.
    rewrite lookup_app_r by lia. rewrite lookup_app_l by lia.
    replace (Z.to_nat (Z.of_nat (length l1) + Z.of_nat i) - length l1)%nat with i by lia.
    by destruct (lookup_lt_is_Some_2 l2 i Hi) as [x ->].
  - rewrite lookup_seqZ_ge by lia. symmetry. apply lookup_ge_None. lia.
Qed.

Lemma ex_kernel_loadable : loadable ex_image ex_kernel_mem.
Proof.
  assert (phnum ex_image = 1) as Hn by by vm_compute.
  assert (mapped ex_kernel_mem ELFHDR 4096 /\ mapped ex_kernel_mem 0x100000 0x2600) as [Hm1 Hm2].
  { split; [apply write_bytes_mapped|]; apply mapped_block; rewrite length_replicate; lia. }
  split; [exact Hm1|by vm_compute|by vm_compute| |intros i j ??; lia].
  rewrite Hn. intros i Hi. assert (i = 0) as -> by lia.
  split_and!; [by vm_compute|by vm_compute|by vm_compute|
    eapply mapped_weaken; [exact Hm2|by vm_compute|by vm_compute]|right; by vm_compute].
Qed.

Lemma ex_kernel_tables :
  provides ex_image (RELOC 0xF0100000) (flat_map (le_split 4) (entry_pgdir 0xF0101000)) /\
  provides ex_image (RELOC 0xF0101000) (flat_map (le_split 4) entry_pgtable).
Proof.
  assert (length (entry_pgdir 0xF0101000) = 1024%nat) as Hd by by vm_compute.
  assert (length entry_pgtable = 1024%nat) as Ht by by vm_compute.
  assert (phnum ex_image = 1) as Hn by by vm_compute.
  assert (seg_pa ex_image 0 = 0x100000) as Hpa by by vm_compute.
  assert (seg_memsz ex_image 0 = 0x2410) as Hsz by by vm_compute.
  assert (seg_off ex_image 0 = 0x1000) as Hoff by by vm_compute.
  change (RELOC 0xF0100000) with 0x100000. change (RELOC 0xF0101000) with 0x101000.
  split; exists 0; rewrite Hn, Hpa, Hsz, Hoff, length_words, ?Hd, ?Ht; (split_and!; [lia|lia|lia|lia|]).
  - pose proof (ex_image_part (ex_header ++ replicate (4096 - length ex_header) 0) (flat_map (le_split 4) (entry_pgdir 0xF0101000))
      (flat_map (le_split 4) entry_pgtable ++ replicate 16 0x90 ++ replicate 1024 0)) as H.
    rewrite length_words, Hd in H. apply H. unfold ex_kernel. by rewrite <- app_assoc.
  - pose proof (ex_image_part (ex_header ++ replicate (4096 - length ex_header) 0 ++ flat_map (le_split 4) (entry_pgdir 0xF0101000))
      (flat_map (le_split 4) entry_pgtable) (replicate 16 0x90 ++ replicate 1024 0)) as H.
    rewrite !length_app, !length_words, Hd, Ht in H. apply H. unfold ex_kernel. by rewrite <- !app_assoc.
Qed.

Lemma kernel_mapped_witness :
  let image := ex_image in
  exists m' d' l', @bootmain _ (ide_ports image) (mkHw ex_kernel_mem ex_ide []) =
      Ok (Entered (w32 image 24), mkHw m' d' l') /\
    (w32 image 24 < PTSIZE -> page_walk m' (RELOC 0xF0100000) (w32 image 24) = Some (w32 image 24, false)) /\
    forall i j, 0 <= i < phnum image -> 0 <= j < seg_memsz image i -> seg_pa image i + j < PTSIZE ->
      page_walk m' (RELOC 0xF0100000) (KERNBASE + (seg_pa image i + j)) = Some (seg_pa image i + j, true) /\
      m' !! (seg_pa image i + j) = Some (image (seg_off image i + j)).
Proof.
  pose proof (ide_disk ex_image ex_image_byte).
  exact (kernel_mapped ex_image (fun _ => True) ex_kernel_mem ex_ide [] 0xF0100000 0xF0101000
    Logic.I ex_kernel_loadable eq_refl (ltac:(decided) : KERNBASE <= 0xF0101000 < KERNBASE + PTSIZE)
    (proj1 ex_kernel_tables) (proj2 ex_kernel_tables)).
Defined.
