(* ===== verification/Poweron.v ===== *)
(** From the BIOS to the kernel: boot/boot.S, boot/main.c, kern/entry.S and
    kern/entrypgdir.c together.

    The programs run on the processor, [bootmain] on the machine below it.  What
    compiled C code leaves in the general registers and the arithmetic flags is
    not known, so [c_runs] leaves them open; the frames it pushes below the boot
    sector are not modelled. *)
From stdpp Require Import functions relations.
From S2P Require Import Prelude Mem Mmu Flags Entrypgdir Machine X86 Cpu Asm Bootasm Entry Boot Startup.

(** C code entered in [s] has left the machine as [h] and jumped to [eip]. *)
Inductive c_runs {D} (s : pc D) (eip : Z) (h : hw D) : pc D -> Prop :=
| c_runs_intro regs fl : quiet fl ->
    c_runs s eip h (mkPc (mkCpu regs eip fl (c_seg (p_cpu s)) (c_cr (p_cpu s)) (c_dt (p_cpu s))
      (c_sys (p_cpu s)) (c_tlb (p_cpu s))) h).

(** The disk and the keyboard controller are different devices: what is done to
    one does not change the other. *)
Class Wired (D : Type) `{!Ports D, !Board D} (idle : D -> Prop) : Prop := {
  wired_idle : untouched idle;
  wired_status : forall d v d', dev_in 0x1F7 d = (v, d') -> a20 d' = a20 d;
  wired_data : forall d v d', dev_in32 0x1F0 d = (v, d') -> a20 d' = a20 d;
  wired_command : forall port v d, 0x1F2 <= port <= 0x1F7 -> a20 (dev_out port v d) = a20 d;
  wired_report : forall v d, a20 (dev_out16 0x8A00 v d) = a20 d }.

(** A property of the devices that nothing done while the machine starts
    changes. *)
Class Beside (D : Type) `{!Ports D} (J : D -> Prop) : Prop := {
  beside_gate : untouched J;
  beside_status : forall d v d', J d -> dev_in 0x1F7 d = (v, d') -> J d';
  beside_data : forall d v d', J d -> dev_in32 0x1F0 d = (v, d') -> J d';
  beside_command : forall port v d, 0x1F2 <= port <= 0x1F7 -> J d -> J (dev_out port v d);
  beside_report : forall v d, J d -> J (dev_out16 0x8A00 v d) }.

#[export] Instance beside_true {D} `{!Ports D} : Beside D (fun _ => True).
Proof. by repeat split. Qed.

Section poweron.
Context {D : Type} `{!Ports D} `{!Board D} (idle : D -> Prop) `{!Wired D idle} (J : D -> Prop) `{!Beside D J}.

(** What the loader keeps: address line 20 is free, what is memory, and that it
    holds bytes. *)
Record still (m : mem) (h : hw D) : Prop := {
  st_a20 : a20 (h_dev h) = true;
  st_mapped : forall x, is_Some (m !! x) -> is_Some (h_mem h !! x);
  st_bytes : byte_mem m -> byte_mem (h_mem h);
  st_dev : J (h_dev h) }.

#[export] Instance still_unloaded m : Unloaded (still m).
Proof using Wired0 Beside0.
  split.
  - intros [m1 d l] v h' [Ha Hm Hb Hj] E. unfold inb in E. cbn [h_dev h_mem h_log] in *.
    destruct (dev_in 0x1F7 d) as [w d'] eqn:Ed. injection E as _ <-.
    split; cbn [h_dev h_mem]; [by rewrite (wired_status _ _ _ Ed)|exact Hm|exact Hb|by apply (beside_status _ _ _ Hj Ed)].
  - intros port v Hp [m1 d l] [] h' [Ha Hm Hb Hj] E. unfold outb in E. injection E as <-.
    split; cbn [h_dev h_mem]; [by rewrite wired_command|exact Hm|exact Hb|by apply beside_command].
  - intros [m1 d l] v h' [Ha Hm Hb Hj] E. unfold inl_ in E. cbn [h_dev h_mem h_log] in *.
    destruct (dev_in32 0x1F0 d) as [w d'] eqn:Ed. injection E as _ <-.
    split; cbn [h_dev h_mem]; [by rewrite (wired_data _ _ _ Ed)|exact Hm|exact Hb|by apply (beside_data _ _ _ Hj Ed)].
  - intros a v [m1 d l] [] h' [Ha Hm Hb Hj] E. unfold mem_put in E. cbn [h_dev h_mem h_log] in *.
    destruct (storen m1 (Addr a) (le_split 4 v)) as [m2|] eqn:Em; red_bind; [|done]. injection E as <-.
    split; cbn [h_dev h_mem]; [exact Ha| | |exact Hj].
    + intros x Hx. apply (storen_keeps_mapped _ _ _ _ _ Em), Hm, Hx.
    + intros H0. exact (storen_byte_mem _ _ _ _ Em (Hb H0)).
  - intros v [m1 d l] [] h' [Ha Hm Hb Hj] E. unfold outw in E. injection E as <-.
    split; cbn [h_dev h_mem]; [by rewrite wired_report|exact Hm|exact Hb|by apply beside_report].
Qed.

Lemma loadable_write image m a l : loadable image m -> loadable image (write_bytes m a l).
Proof using Type.
  intros [Hm H1 H2 Hs H3]. split; try assumption; [by apply write_bytes_mapped|].
  intros i Hi. destruct (Hs i Hi) as (?&?&?&?&?). split_and!; try assumption. by apply write_bytes_mapped.
Qed.
End poweron.

(** What the BIOS starts: the program of boot.S in the boot sector, with its data,
    and a disk with a kernel whose image holds the code of entry.S and the page
    tables where its symbols say, all of it past the first megabyte. *)
Record can_boot {D} `{!Ports D} `{!Board D} (image : Z -> Z) (idle : D -> Prop) (bsizes : list Z) (bsym : string -> Z) (g : Z)
    (sizes : list Z) (link : Z) (sym : string -> Z) (pgtable : Z) (s : pc D) : Prop := {
  cb_boot_S : Forall (fun n => 0 < n) bsizes /\ length bsizes = length (code boot_S) /\ total bsizes <= 512;
  cb_entry_S : Forall (fun n => 0 < n) sizes /\ length sizes = length (code entry_S);
  cb_bios : bios (total bsizes) g (bsym "gdtdesc"%string) s;
  cb_disk : idle (p_dev s) /\ loadable image (p_mem s);
  cb_linked : linked sizes link sym pgtable;
  cb_entry : w32 image 24 = RELOC link;
  cb_pgdir : provides image (RELOC (sym "entry_pgdir"%string)) (flat_map (le_split 4) (entry_pgdir pgtable));
  cb_pgtable : provides image (RELOC pgtable) (flat_map (le_split 4) entry_pgtable);
  cb_high : forall i, 0 <= i < phnum image -> EXTPHYSMEM <= seg_pa image i;
  cb_room : mapped (p_mem s) 0x472 2 /\ mapped (p_mem s) (RELOC (sym "bootstacktop"%string) - 4) 4 }.

(** The machine when [i386_init] is entered. *)
Record started {D} `{!Ports D} `{!Board D} (image : Z -> Z) (sym : string -> Z) (s : pc D) : Prop := {
  sd_eip : c_eip (p_cpu s) = u32 (sym "i386_init"%string);
  sd_ebp : c_reg (p_cpu s) EBP = 0;
  sd_esp : c_reg (p_cpu s) ESP = sym "bootstacktop"%string - 4;
  sd_quiet : quiet (c_eflags (p_cpu s));
  sd_flat : forall r, flat (c_seg (p_cpu s) r);
  sd_paged : forall w la, 0 <= la < 4294967296 ->
    physical s w la = if decide (KERNBASE <= la < KERNBASE + PTSIZE) then Ok (la - KERNBASE)
      else if decide (0 <= la < PTSIZE /\ w = false) then Ok la else Err Fault;
  sd_image : forall i j, 0 <= i < phnum image -> 0 <= j < seg_memsz image i ->
    ~ (RELOC (sym "bootstacktop"%string) - 4 <= seg_pa image i + j < RELOC (sym "bootstacktop"%string)) ->
    p_mem s !! (seg_pa image i + j) = Some (image (seg_off image i + j)) }.

(** The way from the BIOS to [i386_init], through the registers [bootmain] leaves. *)
Definition boots {D} `{!Ports D} `{!Board D} bsizes bsym sizes link sym (s : pc D) (Q : pc D -> Prop) : Prop :=
  exists s1 h, enters boot_S bsizes BOOT BOOT bsym "bootmain" s s1 /\
    bootmain (p_hw s1) = Ok (Entered (RELOC link), h) /\
    forall s2, c_runs s1 (RELOC link) h s2 ->
      exists s3, enters entry_S sizes link (RELOC link) sym "i386_init" s2 s3 /\ Q s3.

Lemma boots_run {D} `{!Ports D} `{!Board D} waiting `{!Gate D waiting} image idle `{!Disk D image idle, !Wired D idle}
    J `{!Beside D J} bsizes bsym g sizes link sym pgtable (s : pc D) :
  can_boot image idle bsizes bsym g sizes link sym pgtable s -> J (p_dev s) ->
  boots bsizes bsym sizes link sym s (fun s3 => started image sym s3 /\ J (p_dev s3) /\
    (forall x, is_Some (p_mem s !! x) -> is_Some (p_mem s3 !! x)) /\ (byte_mem (p_mem s) -> byte_mem (p_mem s3))).
Proof.
  intros [(Hbp & Hbl & Hbt) [Hep Hel] Hs [Hidle Hld] Hlk He Hpd Hpt Hseg [Hwarm Hst]] Hj.
  destruct (boot_S_enters waiting bsizes bsym Hbp Hbl Hbt g s Hs) as (s1 & E1 & Hm1 & _ & _ & Hmem1 & Hunt).
  pose proof (Hunt J beside_gate Hj) as Hj1. specialize (Hunt idle wired_idle Hidle).
  destruct s1 as [c1 [m1 d1 l1]]. cbn [p_mem p_dev p_hw h_mem h_dev] in *.
  assert (loadable image m1) as Hld1 by (rewrite Hmem1; by apply loadable_write).
  destruct (bootmain_run image idle m1 d1 l1 Hunt Hld1) as (m2 & d2 & l2 & E2 & Hload). rewrite He in E2.
  assert (still J m1 (mkHw m2 d2 l2)) as [Ha2 Hmap2 Hby2 Hj2].
  { refine (keeps_bootmain (still J m1) (mkHw m1 d1 l1) _ _ _ E2). by split; [exact (fm_a20 _ Hm1)|..]. }
  cbn [h_mem h_dev] in *.
  assert (forall x, is_Some (p_mem s !! x) -> is_Some (m2 !! x)) as Hsome.
  { intros x H. apply Hmap2. rewrite Hmem1. apply (write_bytes_mapped _ _ _ x 1); [|lia].
    intros y Hy. by replace y with x by lia. }
  assert (forall a n, mapped (p_mem s) a n -> mapped m2 a n) as Hmapped by (intros a n H x Hx; apply Hsome, H, Hx).
  pose proof (tables_provided image m2 _ _ Hload Hpd Hpt) as Htab.
  exists (mkPc c1 (mkHw m1 d1 l1)), (mkHw m2 d2 l2). split; [exact E1|]. split; [exact E2|].
  intros s2 Hc. inversion Hc as [regs fl Hq Heq]. subst s2. clear Hc. set (s2 := mkPc _ _).
  assert (flat_mode s2) as Hm2 by (destruct Hm1; by split).
  destruct (entry_S_enters sizes link sym pgtable Hep Hel Hlk s2 Hm2 eq_refl Htab (Hmapped _ _ Hwarm) (Hmapped _ _ Hst))
    as (s3 & E3 & Hpg & Htab3 & Hd3 & Hs3 & Hq3 & He3 & Hbp3 & Hsp3 & Hmem3).
  exists s3. split; [exact E3|]. split; [|split; [by rewrite Hd3|split]].
  - split; try assumption.
    + intros r. rewrite Hs3. apply (fm_flat _ Hm2).
    + intros w la Hla. apply (paged_physical sizes link sym pgtable Hlk); try assumption. by rewrite Hd3.
    + intros i j Hi Hj' Hn. pose proof (Hseg i Hi) as H1. unfold EXTPHYSMEM in H1. rewrite Hmem3.
      rewrite !write_bytes_out by (rewrite length_le_split; lia). by apply Hload.
  - intros x Hx. rewrite Hmem3. apply (write_bytes_mapped _ _ _ x 1); [|lia]. apply write_bytes_mapped.
    intros y Hy. replace y with x by lia. by apply Hsome.
  - intros Hb. rewrite Hmem3. do 2 (apply byte_mem_write; [|apply le_split_bytes]). apply Hby2. rewrite Hmem1.
    apply byte_mem_write; [exact Hb|apply le_split_bytes].
Qed.

(** C14: from the BIOS to the kernel: on a machine with a keyboard controller and
    a disk with a kernel on it, boot.S calls [bootmain], which loads the kernel
    and enters it, and entry.S calls [i386_init].  There the first 4 MB of memory
    are at KERNBASE, for reading and writing, and at 0 for reading only, and
    there is no other memory; the frame pointer is null, where backtraces end; the
    stack is the kernel's; and every byte of every segment is where it was linked
    to be, the return address on the stack apart. *)
Theorem power_on {D} `{!Ports D} `{!Board D} waiting `{!Gate D waiting} image idle `{!Disk D image idle, !Wired D idle}
    bsizes bsym g sizes link sym pgtable (s : pc D) :
  can_boot image idle bsizes bsym g sizes link sym pgtable s ->
  boots bsizes bsym sizes link sym s (started image sym).
Proof.
  intros Hs. destruct (boots_run waiting image idle (fun _ => True) bsizes bsym g sizes link sym pgtable s Hs Logic.I)
    as (s1 & h & E1 & E2 & H). exists s1, h. split; [exact E1|]. split; [exact E2|]. intros s2 Hc.
  destruct (H s2 Hc) as (s3 & E3 & H3 & _). by exists s3.
Qed.

(** * A machine for the witness: a keyboard controller and another device *)

Section both.
Context {D : Type} `{!Ports D}.

Definition to_kbc (port : Z) : bool := (port =? 0x60) || (port =? 0x64).

#[export] Instance both_ports : Ports (kbc * D) := {|
  dev_in := fun port d => if to_kbc port then let '(v, k) := dev_in port d.1 in (v, (k, d.2))
                          else let '(v, e) := dev_in port d.2 in (v, (d.1, e));
  dev_in16 := fun port d => let '(v, e) := dev_in16 port d.2 in (v, (d.1, e));
  dev_in32 := fun port d => let '(v, e) := dev_in32 port d.2 in (v, (d.1, e));
  dev_out := fun port v d => if to_kbc port then (dev_out port v d.1, d.2) else (d.1, dev_out port v d.2);
  dev_out16 := fun port v d => (d.1, dev_out16 port v d.2);
  dev_out32 := fun port v d => (d.1, dev_out32 port v d.2);
  dev_bus := fun d => dev_bus d.2 |}.
#[export] Instance both_board : Board (kbc * D) := {| a20 := fun d => kb_a20 d.1; tsc := fun _ => 0 |}.

Lemma both_busy n d d' : busy n d d' -> busy n d.1 d'.1.
Proof using Type.
  assert (forall (d d1 : kbc * D) v, dev_in 0x64 d = (v, d1) -> dev_in 0x64 d.1 = (v, d1.1)) as H.
  { intros [k e] d1 v E. cbn [dev_in both_ports fst snd] in E. change (to_kbc 0x64) with true in E. cbv iota in E.
    cbn [fst]. destruct (dev_in 0x64 k) as [w k']. by injection E as -> <-. }
  induction 1 as [d v d' E Hv|n d v d1 d' E Hv _ IH]; [by eapply busy_done; [apply H|]|by eapply busy_wait; [apply H|..]].
Qed.

#[export] Instance both_gate : Gate (kbc * D) (fun d => kb_waiting d.1).
Proof using Type.
  split.
  - intros [k e]. destruct (gate_ready k) as (n & k' & Hb). exists n, (k', e).
    induction Hb as [k v k' E Hv|n k v k1 k' E Hv _ IH].
    + apply busy_done with (v := v); [|exact Hv]. cbn [dev_in both_ports to_kbc fst snd].
      change (to_kbc 0x64) with true. cbv iota. by rewrite E.
    + apply busy_wait with (v := v) (d1 := (k1, e)); [|exact Hv|exact IH]. cbn [dev_in both_ports fst snd].
      change (to_kbc 0x64) with true. cbv iota. by rewrite E.
  - intros [k e] v d' E. cbn [dev_in both_ports fst snd] in E. change (to_kbc 0x64) with true in E. cbv iota in E.
    destruct (dev_in 0x64 k) as [w k'] eqn:Ek. injection E as _ <-. exact (gate_status _ _ _ Ek).
  - intros n d [k e] Hb. exact (gate_command n _ k (both_busy n _ _ Hb)).
  - intros n d [k e] v Hb. exact (gate_data n _ k v (both_busy n _ _ Hb)).
Qed.

Context (image : Z -> Z) (idle : D -> Prop) `{!Disk D image idle}.

Lemma both_polls k n d d' : polls n d d' -> polls n (k, d) (k, d').
Proof using Type.
  induction 1 as [d v d' E Hv|n d v d1 d' E Hv _ IH].
  - apply polls_ready with (v := v); [|exact Hv]. cbn [dev_in both_ports fst snd]. change (to_kbc 0x1F7) with false.
    cbv iota. by rewrite E.
  - apply polls_busy with (v := v) (d1 := (k, d1)); [|exact Hv|exact IH]. cbn [dev_in both_ports fst snd].
    change (to_kbc 0x1F7) with false. cbv iota. by rewrite E.
Qed.

Lemma polls_both n (d d' : kbc * D) : polls n d d' -> polls n d.2 d'.2.
Proof using Type.
  assert (forall (d d1 : kbc * D) v, dev_in 0x1F7 d = (v, d1) -> dev_in 0x1F7 d.2 = (v, d1.2)) as H.
  { intros [k e] d1 v E. cbn [dev_in both_ports fst snd] in E. change (to_kbc 0x1F7) with false in E. cbv iota in E.
    cbn [snd]. destruct (dev_in 0x1F7 e) as [w e']. by injection E as -> <-. }
  induction 1 as [d v d' E Hv|n d v d1 d' E Hv _ IH]; [by eapply polls_ready; [apply H|]|by eapply polls_busy; [apply H|..]].
Qed.

Lemma both_delivers k d ws d' : delivers d ws d' -> delivers (k, d) ws (k, d').
Proof using Type.
  induction 1 as [|d w d1 ws d' E _ IH]; [constructor|]. apply delivers_cons with (d1 := (k, d1)); [|exact IH].
  cbn [dev_in32 both_ports fst snd]. by rewrite E.
Qed.

#[export] Instance both_disk : Disk (kbc * D) image (fun d => idle d.2).
Proof using Disk0.
  split; [apply disk_bytes|..].
  - intros [k d] Hd. destruct (disk_ready d Hd) as (n & d' & Hn & Hp). exists n, (k, d').
    split; [done|by apply both_polls].
  - intros [k0 d] n0 [k d0] lba Hd Hp0%polls_both Hl. destruct (disk_read d n0 d0 lba Hd Hp0 Hl) as (n & d1 & ws & d2 & Hn & Hp & Hw & Hi & Hws).
    exists n, (k, d1), ws, (k, d2). split_and!; [done|by apply both_polls|by apply both_delivers|done|done].
Qed.

#[export] Instance both_wired : Wired (kbc * D) (fun d => idle d.2).
Proof using Type.
  split.
  - split.
    + intros [k d] v d' Hd E. cbn [dev_in both_ports fst snd] in E. change (to_kbc 0x64) with true in E. cbv iota in E.
      destruct (dev_in 0x64 k) as [w k']. by injection E as _ <-.
    + intros port v [k d] [-> | ->] Hd; exact Hd.
  - intros [k d] v d' E. cbn [dev_in both_ports fst snd] in E. change (to_kbc 0x1F7) with false in E. cbv iota in E.
    destruct (dev_in 0x1F7 d). by injection E as _ <-.
  - intros [k d] v d' E. cbn [dev_in32 both_ports fst snd] in E. destruct (dev_in32 0x1F0 d). by injection E as _ <-.
  - intros port v [k d] Hp. cbn [dev_out both_ports]. unfold to_kbc.
    rewrite (proj2 (Z.eqb_neq port 0x60)), (proj2 (Z.eqb_neq port 0x64)) by lia. done.
  - done.
Qed.
End both.

(** The kernel of Startup's example and a display, with the lengths the GNU assembler gives
    to the instructions of entry.S. *)
Definition entry_sizes : list Z := [9; 5; 3; 3; 5; 3; 5; 2; 5; 5; 5; 2].
Definition entry_sym (x : string) : Z :=
  if decide (x = "entry_pgdir"%string) then 0xF0100000
  else if decide (x = "bootstacktop"%string) then 0xF010C000 else 0xF0102050.

Definition ex_pc_mem : mem :=
  write_bytes (write_bytes (write_bytes (write_bytes (write_bytes (write_bytes ex_kernel_mem 0xB8000 (replicate 4000 0))
    0x7c64 (gdtdesc 0x7c4c)) 0x7c4c gdt)
    (BOOT - 4) [0; 0; 0; 0]) 0x472 [0; 0]) 0x10BFFC [0; 0; 0; 0].
Definition ex_with_codes (codes : list Z) : pc (kbc * ide) :=
  mkPc bios_cpu (mkHw ex_pc_mem (mkKbc 3 false false codes, ex_ide) []).
Definition ex_pc : pc (kbc * ide) := ex_with_codes [].

Lemma ex_pc_bios codes : bios (total boot_sizes) 0x7c4c (boot_sym "gdtdesc"%string) (ex_with_codes codes).
Proof.
  destruct bios_pc_ok as [H1 H2 H3 H4 H5 [_ H6] [_ H7] H8 _]. split; try assumption.
  - split; [|exact H6]. cbn [p_mem ex_with_codes p_hw h_mem]. unfold ex_pc_mem.
    do 3 (apply bytes_write_bytes_out; [|unfold BOOT; cbn; lia]). apply bytes_write_bytes.
  - split; [|exact H7]. change (boot_sym "gdtdesc"%string) with 0x7c64. cbn [p_mem ex_with_codes p_hw h_mem]. unfold ex_pc_mem.
    do 4 (apply bytes_write_bytes_out; [|unfold BOOT; cbn; lia]). apply bytes_write_bytes.
  - do 2 apply write_bytes_mapped. apply (mapped_block _ _ [0; 0; 0; 0]). done.
Qed.

Lemma ex_linked : linked entry_sizes 0xF0102000 entry_sym 0xF0101000.
Proof. split; decided. Qed.

Lemma ex_can_boot codes : @can_boot (kbc * ide) (@both_ports ide (ide_ports ex_image)) both_board ex_image (fun _ => True)
  boot_sizes boot_sym 0x7c4c entry_sizes 0xF0102000 entry_sym 0xF0101000 (ex_with_codes codes).
Proof.
  split.
  - split; [repeat (apply Forall_cons; split; [decided|]); constructor|]. split; [done|by vm_compute].
  - split; [repeat (apply Forall_cons; split; [decided|]); constructor|done].
  - apply ex_pc_bios.
  - split; [done|]. do 6 apply loadable_write. exact ex_kernel_loadable.
  - apply ex_linked.
  - by vm_compute.
  - apply ex_kernel_tables.
  - apply ex_kernel_tables.
  - assert (phnum ex_image = 1) as -> by by vm_compute. intros i Hi. assert (i = 0) as -> by lia. by vm_compute.
  - split; [apply write_bytes_mapped, (mapped_block _ _ [0; 0]); done|].
    change (RELOC (entry_sym "bootstacktop"%string) - 4) with 0x10BFFC.
    unfold p_mem, ex_with_codes, ex_pc_mem. cbn [p_hw h_mem]. by apply mapped_block.
Qed.

Lemma power_on_witness :
  let P := @both_ports ide (ide_ports ex_image) in
  @boots (kbc * ide) P both_board boot_sizes boot_sym entry_sizes 0xF0102000 entry_sym ex_pc (fun s3 =>
    c_reg (p_cpu s3) EBP = 0 /\ c_reg (p_cpu s3) ESP = 0xF010BFFC /\
    physical s3 true 0xF0101234 = Ok 0x101234 /\ physical s3 true 0x101234 = Err Fault).
Proof.
  intros P. pose proof (ide_disk ex_image ex_image_byte) as Hd.
  destruct (power_on (Ports0 := P) (Board0 := both_board) (fun d => kb_waiting d.1) (Gate0 := both_gate) ex_image (fun _ => True)
    (Disk0 := both_disk ex_image (fun _ => True)) (Wired0 := both_wired (fun _ => True)) boot_sizes boot_sym 0x7c4c entry_sizes
    0xF0102000 entry_sym 0xF0101000 ex_pc (ex_can_boot [])) as (s1 & h & E1 & E2 & H3).
  exists s1, h. split; [exact E1|]. split; [exact E2|]. intros s2 Hc.
  destruct (H3 s2 Hc) as (s3 & E3 & [_ Hbp Hsp _ _ Hph _]).
  exists s3. split; [exact E3|]. split; [exact Hbp|]. split; [exact Hsp|].
  split; rewrite Hph by lia; reflexivity.
Defined.
