(* ===== verification/Console.v ===== *)
(** The console as its clients see it: what kern/console.c and kern/printf.c
    promise to lib/readline.c, kern/monitor.c and kern/init.c.

    [session R inp out s s'] says that between the kernel states [s] and [s']
    the characters [inp] were taken from the input, the text [out] was shown
    on the display and sent to the serial and the parallel port, and nothing
    else happened to the kernel but writes to the addresses [R].  Sessions
    compose.  The input is behind the class [Typist]: who types is a device,
    and the class states what [getchar] returns of it; the file Keyboard shows
    that a PC keyboard is one. *)
From S2P Require Import Prelude Mem Emit Printfmt FormatSpec Mmu Machine ConsOut Printf ConsIn.

(** [typed s cs]: in state [s] the characters that will be read are [cs]. *)
Class Typist (D : Type) `{!Ports D} (typed : kst D -> list Z -> Prop) : Prop := {
  typed_get : forall s c cs sc, on_screen 2000 s sc -> typed s (c :: cs) ->
    is_byte c /\ exists s' e, getchar s = Ok (c, s') /\ typed s' cs /\
      Forall is_in e /\ k_log s' = k_log s ++ e /\ k_mem s' = k_mem s /\ k_crt s' = k_crt s /\
      k_panicstr s' = k_panicstr s;
  typed_put : forall s c cs s', typed s cs -> cputchar c s = Ok (tt, s') -> typed s' cs;
  typed_mem : forall s cs m, typed s cs -> typed (set_mem m s) cs;
  typed_panic : forall s cs p, typed s cs -> typed (set_panicstr p s) cs }.

(** * Texts *)

(** A literal format whose strings are literals, or one more string [q]. *)
Definition deref_with (q : ptr) (t : list Z) (p : ptr) : option (list Z) :=
  if decide (p = q) then Some t else deref_lit p.

Lemma deref_with_ok m q t : cstr m q t -> Z.of_nat (length t) < 1073741824 -> deref_ok m (deref_with q t).
Proof.
  intros Hq Ht p l. unfold deref_with. case_decide as Hp; [|apply deref_lit_ok].
  intros [= <-]. by rewrite Hp.
Qed.

(** A format that is a string constant of the program. *)
Definition lit_ok (l : list Z) : bool :=
  forallb (fun c => (0 <? c) && (c <? 256)) l && (Z.of_nat (length l) <? 4294967296).

Lemma lit_ok_cstr m l : lit_ok l = true -> cstr m (Lit l 0) l /\ Z.of_nat (length l) < 4294967296.
Proof.
  unfold lit_ok. rewrite andb_true_iff, Z.ltb_lt. intros [H Hl]. split; [|done]. apply cstr_lit.
  rewrite forallb_forall in H. apply Forall_forall. intros c Hc%list_elem_of_In%H.
  rewrite andb_true_iff, !Z.ltb_lt in Hc. done.
Qed.

(** ** The directives the kernel uses *)

Definition render_dec (v : Z) : list Z :=
  if v <? 0 then 45 :: render_num (-1) 32 10 (- v) else render_num (-1) 32 10 v.
Definition render_hex8 (v : Z) : list Z := render_num 8 48 16 v.

Section rendering.
Context (deref : ptr -> option (list Z)).
Notation R := (render deref true).

Lemma render_char n c l ap : (c =? 37) = false -> R (S n) (c :: l) ap = cons c <$> R n l ap.
Proof using Type. intros Hc. cbn [render]. by rewrite Hc. Qed.

Lemma render_s n l q t ap :
  is_null q = false -> deref q = Some t ->
  R (S n) (37 :: 115 :: l) (APtr q :: ap) = app (s8 <$> t) <$> R n l ap.
Proof using Type.
  intros Hq Hd. cbn [render length]. change (37 =? 37) with true. cbv iota.
  assert (directive deref true (S (S (length l))) (115 :: l) (115 :: l) flags0 (APtr q :: ap) =
    Some (s8 <$> t, l, ap)) as ->; [|done].
  cbn -[render_conv]. unfold render_conv. cbn -[is_null render_str]. rewrite Hq, Hd. cbn.
  unfold render_str. cbn. by replace (Z.to_nat (-1 - Z.of_nat (length t))) with 0%nat by lia.
Qed.

Lemma render_d n l v ap :
  R (S n) (37 :: 100 :: l) (AInt v :: ap) = app (render_dec (s32 v)) <$> R n l ap.
Proof using Type.
  cbn [render length]. change (37 =? 37) with true. cbv iota.
  assert (directive deref true (S (S (length l))) (100 :: l) (100 :: l) flags0 (AInt v :: ap) =
    Some (render_dec (s32 v), l, ap)) as ->; done.
Qed.

Lemma render_x8 n l a v ap :
  va_word u32 (a :: ap) = Ok (v, ap) ->
  R (S n) (37 :: 48 :: 56 :: 120 :: l) (a :: ap) = app (render_hex8 v) <$> R n l ap.
Proof using Type.
  intros Hv. cbn [render length]. change (37 =? 37) with true. cbv iota.
  assert (directive deref true (S (S (S (S (length l))))) (48 :: 56 :: 120 :: l) (48 :: 56 :: 120 :: l) flags0 (a :: ap) =
    Some (render_hex8 v, l, ap)) as ->; [|done].
  cbn -[render_conv]. unfold render_conv. cbn -[va_word]. by rewrite Hv.
Qed.

Lemma render_prec_s n l k q t ap :
  0 <= k < 2147483648 -> is_null q = false -> deref q = Some t ->
  R (S n) (37 :: 46 :: 42 :: 115 :: l) (AInt k :: APtr q :: ap) =
    app (s8 <$> take (Z.to_nat k) t) <$> R n l ap.
Proof using Type.
  intros Hk Hq Hd. cbn [render length]. change (37 =? 37) with true. cbv iota.
  assert (directive deref true (S (S (S (S (length l))))) (46 :: 42 :: 115 :: l) (46 :: 42 :: 115 :: l) flags0
    (AInt k :: APtr q :: ap) = Some (s8 <$> take (Z.to_nat k) t, l, ap)) as ->; [|done].
  cbn -[render_conv s32]. rewrite (s32_small k) by lia. unfold f_process. cbn -[render_conv].
  unfold render_conv, width_ok. cbn -[is_null render_str Z.ltb Z.leb].
  rewrite (proj2 (Z.ltb_lt k _)), (proj2 (Z.leb_le _ k)) by lia. cbn -[is_null render_str]. rewrite Hq, Hd. cbn.
  unfold render_str. cbn -[Z.ltb]. rewrite (proj2 (Z.ltb_ge k 0)) by lia. 
  by replace (Z.to_nat (0 - Z.of_nat (length (take (Z.to_nat k) t)))) with 0%nat by lia.
Qed.

Lemma render_nil n ap : R (S n) [] ap = Some [].
Proof using Type. done. Qed.

End rendering.

(** The text of a constant format, directive by directive. *)
Ltac eval_format :=
  unfold format; cbn [length bytes_of app];
  repeat first
    [ rewrite render_char by reflexivity
    | rewrite render_nil
    | erewrite render_s by (eassumption || reflexivity)
    | rewrite render_d
    | erewrite render_x8 by reflexivity
    | erewrite render_prec_s by (eassumption || reflexivity || lia) ].

Lemma deref_with_self q t : deref_with q t q = Some t.
Proof. unfold deref_with. by rewrite decide_True. Qed.

Lemma format_s q t :
  is_null q = false -> format (deref_with q t) (bytes_of "%s") [APtr q] = Some (s8 <$> t).
Proof.
  intros Hn. pose proof (deref_with_self q t). eval_format. cbn. by rewrite app_nil_r.
Qed.

Section sessions.
Context {D : Type} `{!Ports D} (typed : kst D -> list Z -> Prop).
Notation K := (M (kst D)).

(** The memory of the display. *)
Definition display (s : kst D) (x : Z) : Prop := crt_buf (k_crt s) <= x < crt_buf (k_crt s) + 4000.

Record session (R : Z -> Prop) (inp out : list Z) (s s' : kst D) : Prop := {
  ss_screen : forall sc, on_screen 2000 s sc -> on_screen 2000 s' (screen_text out sc);
  ss_buf : crt_buf (k_crt s') = crt_buf (k_crt s);
  ss_log : exists e, k_log s' = k_log s ++ e /\
    outs (COM1 + COM_TX) e = flat_map sent out /\ outs 0x378 e = flat_map sent out;
  ss_mem : forall x, ~ R x -> ~ display s x -> k_mem s' !! x = k_mem s !! x;
  ss_dom : forall x, is_Some (k_mem s !! x) -> is_Some (k_mem s' !! x);
  ss_panic : k_panicstr s' = k_panicstr s;
  ss_typed : forall cs, typed s (inp ++ cs) -> typed s' cs }.

Lemma screen_text_app t1 t2 sc : screen_text (t1 ++ t2) sc = screen_text t2 (screen_text t1 sc).
Proof using Type. apply foldl_app. Qed.

Lemma session_refl R s : session R [] [] s s.
Proof using Type.
  split; try done. exists []. by rewrite app_nil_r.
Qed.

Lemma session_trans R i1 o1 i2 o2 s s1 s2 :
  session R i1 o1 s s1 -> session R i2 o2 s1 s2 -> session R (i1 ++ i2) (o1 ++ o2) s s2.
Proof using Type.
  intros [S1 B1 (e1 & L1 & X1 & Y1) M1 D1 P1 T1] [S2 B2 (e2 & L2 & X2 & Y2) M2 D2 P2 T2]. split.
  - intros sc Hs. rewrite screen_text_app. by apply S2, S1.
  - congruence.
  - exists (e1 ++ e2). rewrite L2, L1, app_assoc, !outs_app, !flat_map_app, X1, X2, Y1, Y2. done.
  - intros x Hr Hd. rewrite M2; [by apply M1|done|]. unfold display in *. by rewrite B1.
  - intros x Hx. by apply D2, D1.
  - congruence.
  - intros cs. rewrite <- app_assoc. intros H. by apply T2, T1.
Qed.

(** The same with the texts computed. *)
Lemma session_seq R i1 o1 i2 o2 i o s s1 s2 :
  session R i1 o1 s s1 -> session R i2 o2 s1 s2 -> i = i1 ++ i2 -> o = o1 ++ o2 -> session R i o s s2.
Proof using Type. intros H1 H2 -> ->. by eapply session_trans. Qed.

Lemma session_weaken (R R' : Z -> Prop) i o s s' :
  (forall x, R x -> R' x) -> session R i o s s' -> session R' i o s s'.
Proof using Type. intros HR [? ? ? Hm ? ? ?]. split; try done. intros x Hx. apply Hm. naive_solver. Qed.

Lemma session_mapped R i o s s' a n : session R i o s s' -> mapped (k_mem s) a n -> mapped (k_mem s') a n.
Proof using Type. intros H Hm x Hx. by apply (ss_dom _ _ _ _ _ H), Hm. Qed.

(** Memory changed elsewhere does not show. *)
Lemma on_screen_set_mem b s sc m :
  on_screen b s sc -> (forall x, display s x -> m !! x = k_mem s !! x) -> on_screen b (set_mem m s) sc.
Proof using Type.
  intros (Hw & Hb & Hp & Ha) Hm. split_and!; [exact Hw| |exact Hp|exact Ha].
  rewrite bytes_lookup in Hb |- *. intros i v Hi. change (k_mem (set_mem m s)) with m.
  change (k_crt (set_mem m s)) with (k_crt s). rewrite Hm; [by apply Hb|].
  pose proof (lookup_lt_Some _ _ _ Hi) as Hl. rewrite length_cells, (proj1 Hw) in Hl. unfold display. lia.
Qed.

(** What a session leaves of the texts in memory. *)
Lemma session_text_lookup R i o s s' x :
  session R i o s s' -> ~ R x -> text_mem s' !! x = text_mem s !! x.
Proof using Type.
  intros H Hr. unfold text_mem, mem_outside. rewrite !map_lookup_filter, (ss_buf _ _ _ _ _ H).
  destruct (decide (display s x)) as [Hd|Hd].
  - unfold display in Hd.
    destruct (k_mem s' !! x), (k_mem s !! x); simpl; repeat case_guard; try done; naive_solver lia.
  - by rewrite (ss_mem _ _ _ _ _ H).
Qed.

(** Printing leaves the texts in memory as they are. *)
Lemma session_text_mem i o s s' : session (fun _ => False) i o s s' -> text_mem s' = text_mem s.
Proof using Type. intros H. apply map_eq. intros x. eapply session_text_lookup; [exact H|by intros []]. Qed.

Lemma cstr_ext m m' p l :
  (forall i, 0 <= i <= Z.of_nat (length l) -> load8 m' (padd p i) = load8 m (padd p i)) ->
  cstr m p l -> cstr m' p l.
Proof using Type.
  revert p. induction l as [|c l IH]; intros p H; cbn [cstr length] in *.
  - specialize (H 0 ltac:(lia)). rewrite padd_0 in H. by rewrite H.
  - pose proof (H 0 ltac:(lia)) as H0. rewrite padd_0 in H0. rewrite H0.
    intros (? & ? & ?). split_and!; [done|lia|lia|]. apply IH; [|done].
    intros i Hi. rewrite padd_padd. apply H. lia.
Qed.

(** A string outside [R] is still there after the session. *)
Lemma session_cstr R i o s s' p l :
  session R i o s s' -> (forall a k, p = Addr a -> 0 <= k <= Z.of_nat (length l) -> ~ R (a + k)) ->
  cstr (text_mem s) p l -> cstr (text_mem s') p l.
Proof using Type.
  intros H Ha. apply cstr_ext. intros k Hk. destruct p as [a|]; [|done]. cbn [padd load8].
  by rewrite (session_text_lookup _ _ _ _ _ _ H) by (by apply Ha).
Qed.

(** A block apart from the display. *)
Lemma text_bytes (s : kst D) a l :
  bytes (k_mem s) (Addr a) l ->
  a + Z.of_nat (length l) <= crt_buf (k_crt s) \/ crt_buf (k_crt s) + 4000 <= a ->
  bytes (text_mem s) (Addr a) l.
Proof using Type.
  rewrite !bytes_lookup. intros Hb Ha i b Hi. pose proof (lookup_lt_Some _ _ _ Hi).
  apply map_lookup_filter_Some. split; [by apply Hb|]. cbn [fst]. lia.
Qed.

(** A string that is not in the display. *)
Lemma cstr_text (s : kst D) p l :
  cstr (k_mem s) p l -> (forall a k, p = Addr a -> 0 <= k <= Z.of_nat (length l) -> ~ display s (a + k)) ->
  cstr (text_mem s) p l.
Proof using Type.
  intros Hl Hd. refine (cstr_ext _ _ _ _ _ Hl). intros k Hk. destruct p as [a|]; [|done]. cbn [padd load8].
  f_equal. unfold text_mem, mem_outside. rewrite map_lookup_filter.
  specialize (Hd a k eq_refl Hk). unfold display in Hd.
  destruct (k_mem s !! (a + k)); simpl; [|done]. by rewrite option_guard_True.
Qed.

Context `{!Typist D typed}.

(** ** Stores *)

Lemma session_store (R : Z -> Prop) s m :
  (forall x, R x -> ~ display s x) ->
  (forall x, ~ R x -> m !! x = k_mem s !! x) -> (forall x, is_Some (k_mem s !! x) -> is_Some (m !! x)) ->
  session R [] [] s (set_mem m s).
Proof using All.
  intros Hr Ho Hd. split; try done.
  - intros sc Hs. apply on_screen_set_mem; [exact Hs|]. intros x Hx. apply Ho. intros Hr'. by apply (Hr x).
  - exists []. by rewrite app_nil_r.
  - intros x Hx _. by apply Ho.
  - intros cs. apply typed_mem.
Qed.

(** ** Output *)

Lemma each_typed out : forall s cnt s' cnt' cs,
  each (S := kst D * Z) putch out (s, cnt) = Ok (tt, (s', cnt')) -> typed s cs -> typed s' cs.
Proof using All.
  induction out as [|c out IH]; intros s cnt s' cnt' cs E Ht; [by injection E as <- <-|].
  cbn [each] in E. apply Mbind_Ok in E as ([] & [s1 cnt1] & E1 & E2).
  cbn [putch console_sink console_putch] in E1. destruct (cputchar c s) as [[[] s2]|] eqn:Ec; [|done].
  injection E1 as -> ->. eapply IH; [exact E2|]. by eapply typed_put.
Qed.

(** The state a printed text leads to. *)
Lemma session_after_show out s sc d e R :
  on_screen 2000 s sc -> wf_screen 2000 (screen_text out sc) ->
  outs (COM1 + COM_TX) e = flat_map sent out -> outs 0x378 e = flat_map sent out ->
  (forall cs, typed s cs -> typed (after_io d e (show (screen_text out sc) s)) cs) ->
  session R [] out s (after_io d e (show (screen_text out sc) s)).
Proof using Type.
  intros Hs Hw A B Ht. split; try done.
  - intros sc' Hs'. assert (screen_text out sc' = screen_text out sc) as ->.
    { destruct Hs as ((Hl1 & Hc1 & _) & Hb1 & Hp1 & _), Hs' as ((Hl2 & Hc2 & _) & Hb2 & Hp2 & _).
      f_equal. destruct sc as [c1 p1], sc' as [c2 p2]. cbn [fst snd] in *. f_equal; [|congruence].
      assert (words c2 = words c1) as Hww.
      { eapply bytes_inj; [|exact Hb2|exact Hb1]. rewrite !length_cells. lia. }
      clear -Hww Hc1 Hc2. revert c2 Hc2 Hww. induction Hc1 as [|v c1 Hv _ IH]; intros [|w c2] Hc2 Hww; try done.
      inversion_clear Hc2 as [|?? Hv2 Hc2']. unfold cell_ok in *. cbn [words flat_map le_split app] in Hww.
      injection Hww as H0 H1 H2. f_equal; [zlia|by apply IH]. }
    by eapply on_screen_show.
  - by exists e.
  - intros x _ Hd. unfold k_mem. cbn. apply write_bytes_out. unfold display in Hd.
    rewrite length_cells, (proj1 Hw). exact Hd.
  - intros x Hx. unfold k_mem in *. cbn. apply (write_bytes_mapped _ _ _ x 1); [|lia].
    intros y Hy. by replace y with x by lia.
Qed.

Lemma session_vcprintf R p l ap deref out s sc :
  on_screen 2000 s sc -> cstr (text_mem s) p l -> Z.of_nat (length l) < 4294967296 ->
  deref_ok (text_mem s) deref -> format deref l ap = Some out ->
  exists s', vcprintf p ap s = Ok (0, s') /\ session R [] out s s'.
Proof using All.
  intros Hs Hp Hl Hd Hf. pose proof (console_laws (crt_buf (k_crt s)) (text_mem s)) as Hlaws.
  destruct (console_each out s sc 0 Hs) as (d & e & E & Hw & A & B).
  exists (after_io d e (show (screen_text out sc) s)). split.
  - unfold vcprintf.
    rewrite (does_vprintfmt _ _ deref p l ap out Hp Hl Hd Hf (s, 0) (console_inv_start s sc Hs)).
    by erewrite Mbind_run by exact E.
  - apply session_after_show; try done. intros cs. by eapply each_typed.
Qed.

Lemma session_cprintf R p l ap deref out s sc :
  on_screen 2000 s sc -> cstr (text_mem s) p l -> Z.of_nat (length l) < 4294967296 ->
  deref_ok (text_mem s) deref -> format deref l ap = Some out ->
  exists s', cprintf p ap s = Ok (0, s') /\ session R [] out s s'.
Proof using All.
  intros Hs Hp Hl Hd Hf. destruct (session_vcprintf R p l ap deref out s sc Hs Hp Hl Hd Hf) as (s' & E & H).
  exists s'. split; [|done]. unfold cprintf. by erewrite Mbind_run by exact E.
Qed.

Lemma session_printf_lit R l ap deref out s sc :
  on_screen 2000 s sc -> lit_ok l = true -> deref_ok (text_mem s) deref -> format deref l ap = Some out ->
  exists s', cprintf (Lit l 0) ap s = Ok (0, s') /\ session R [] out s s'.
Proof using All.
  intros Hs Hl Hd Hf. destruct (lit_ok_cstr (text_mem s) l Hl).
  by apply (session_cprintf R (Lit l 0) l ap deref out s sc).
Qed.

Lemma session_putchar R c s sc :
  on_screen 2000 s sc -> exists s', cputchar c s = Ok (tt, s') /\ session R [] [c] s s'.
Proof using All.
  intros Hs. destruct (prints_cons_putc c s sc Hs) as (Hw & d & e & E & A & B & _).
  eexists. split; [exact E|].
  change (screen_putc c sc) with (screen_text [c] sc).
  apply session_after_show; [done|done| | |].
  - by rewrite A; cbn [flat_map]; rewrite app_nil_r.
  - by rewrite B; cbn [flat_map]; rewrite app_nil_r.
  - intros cs Ht. by eapply typed_put.
Qed.

(** ** Actions that only print *)

(** [a] prints [out] and returns [v]. *)
Definition says {A} (a : K A) (out : list Z) (v : A) : Prop :=
  forall s sc, on_screen 2000 s sc -> exists s', a s = Ok (v, s') /\ session (fun _ => False) [] out s s'.

Lemma says_ret {A} (v : A) : says (mret v) [] v.
Proof using Type. intros s sc _. exists s. split; [done|apply session_refl]. Qed.

Lemma says_bind {A B} (a : K A) (f : A -> K B) o1 o2 v w :
  says a o1 v -> says (f v) o2 w -> says (a ≫= f) (o1 ++ o2) w.
Proof using Type.
  intros Ha Hf s sc Hs. destruct (Ha s sc Hs) as (s1 & E1 & H1).
  destruct (Hf s1 _ (ss_screen _ _ _ _ _ H1 _ Hs)) as (s2 & E2 & H2). exists s2.
  split; [by erewrite Mbind_run by exact E1|by eapply session_seq].
Qed.

Lemma says_printf l ap out :
  lit_ok l = true -> format deref_lit l ap = Some out -> says (cprintf (Lit l 0) ap) out 0.
Proof using All.
  intros Hl Hf s sc Hs.
  exact (session_printf_lit (fun _ => False) l ap deref_lit out s sc Hs Hl (deref_lit_ok _) Hf).
Qed.

Lemma says_reads {A} (f : kst D -> res A) v : (forall s, f s = Ok v) -> says (reads f) [] v.
Proof using Type. intros Hf s sc _. exists s. unfold reads. rewrite Hf. split; [done|apply session_refl]. Qed.

Lemma says_eq {A} (a : K A) o o' v : says a o v -> o = o' -> says a o' v.
Proof using Type. by intros H <-. Qed.

(** A loop that prints and stops after [n] iterations. *)
Inductive says_loop {X A} (body : X -> K (X + A)) : nat -> X -> list Z -> A -> Prop :=
| says_stop x o v : says (body x) o (inr v) -> says_loop body 1 x o v
| says_next n x x' o1 o2 v :
    says (body x) o1 (inl x') -> says_loop body n x' o2 v -> says_loop body (S n) x (o1 ++ o2) v.

Lemma says_while {X A} (body : X -> K (X + A)) n x o v :
  says_loop body n x o v -> Z.of_nat n <= 2 ^ 64 -> says (whileM body x) o v.
Proof using Type.
  intros Hl Hn s sc Hs. unfold whileM.
  enough (exists s', runs (fun st => r ← body st.1 st.2;
    match r with
    | (inl x', t') => Ok (inl (x', t'))
    | (inr a, t') => Ok (inr (a, t'))
    end) n (x, s) (Ok (v, s')) /\ session (fun _ => False) [] o s s') as (s' & Hr & H).
  { exists s'. by rewrite (while_runs _ _ _ _ Hr Hn). }
  clear Hn. revert s sc Hs. induction Hl as [x o v Hb|n x x' o1 o2 v Hb _ IH]; intros s sc Hs.
  - destruct (Hb s sc Hs) as (s' & E & H). exists s'. split; [|done]. apply runs_done. cbn [fst snd]. by rewrite E.
  - destruct (Hb s sc Hs) as (s1 & E1 & H1). destruct (IH s1 _ (ss_screen _ _ _ _ _ H1 _ Hs)) as (s' & Hr & H).
    exists s'. split; [eapply runs_step; [|exact Hr]; cbn [fst snd]; by rewrite E1|by eapply session_seq].
Qed.

(** ** Input *)

Lemma session_getchar R s c cs sc :
  on_screen 2000 s sc -> typed s (c :: cs) ->
  exists s', getchar s = Ok (c, s') /\ is_byte c /\ session R [c] [] s s'.
Proof using All.
  intros Hs Ht. destruct (typed_get s c cs sc Hs Ht) as (Hc & s' & e & E & _ & He & Hl & Hm & Hk & Hp).
  exists s'. split_and!; [done|done..|]. split; try (by rewrite ?Hm, ?Hk).
  - intros sc' (Hw & Hb & Hx & Ha). unfold on_screen. by rewrite Hm, Hk.
  - exists e. by rewrite !outs_in.
  - intros cs' Ht'. destruct (typed_get s c cs' sc Hs Ht') as (_ & s'' & e' & E' & Hx & _).
    rewrite E in E'. by apply Ok_pair_inj in E' as [_ ->].
Qed.
End sessions.
