(* ===== verification/Keyboard.v ===== *)
(** A PC keyboard as the source of the console's characters.

    [Keyboard D codes lag] says that the device [D] has a keyboard controller
    with the scan codes [codes d] to deliver: the status port may answer that
    no data is there yet, [lag d] bounding how often, and the data port hands
    out the codes in order.  Such a device is a [Typist], and what it types is
    the meaning of its codes, whatever the timing. *)
From S2P Require Import Prelude Mem Mmu Machine ConsOut Printf ConsIn Keeps Console.

Class Keyboard (D : Type) `{!Ports D} (codes : D -> list Z) (lag : D -> Z) : Prop := {
  kb_bytes : forall d, Forall is_byte (codes d);
  kb_lag : forall d, 0 <= lag d < 2 ^ 32;
  kb_in : forall port d v d', dev_in port d = (v, d') -> port <> KBDATAP ->
    codes d' = codes d /\ lag d' <= lag d;
  kb_status : forall d v d', dev_in KBSTATP d = (v, d') ->
    if Z.land (u8 v) KBS_DIB =? 0 then codes d = [] \/ lag d' < lag d else codes d <> [];
  kb_data : forall d v d', dev_in KBDATAP d = (v, d') -> codes d <> [] -> codes d = u8 v :: codes d';
  kb_out : forall port v d, codes (dev_out port v d) = codes d;
  kb_serial : forall d v d', dev_in (COM1 + COM_LSR) d = (v, d') -> Z.land (u8 v) COM_LSR_DATA = 0 }.

(** The characters of a sequence of scan codes. *)
Fixpoint meaning (m : mods) (ks : list Z) : list Z :=
  match ks with
  | [] => []
  | k :: ks' =>
      let '(m', c) := kbd_press m k in
      if c =? 0 then meaning m' ks' else c :: meaning m' ks'
  end.

(** Ctrl-Alt-Del is not among them. *)
Fixpoint no_reboot (m : mods) (ks : list Z) : bool :=
  match ks with
  | [] => true
  | k :: ks' =>
      let '(m', c) := kbd_press m k in
      negb (m_ctl m' && m_alt m' && (c =? KEY_DEL)) && no_reboot m' ks'
  end.

(** * Output leaves the keyboard alone *)

Section output.
Context {D : Type} `{!Ports D} (codes : D -> list Z) (lag : D -> Z) `{!Keyboard D codes lag}.

Definition at_keys (ks : list Z) (sh : Z) (r : ring) (s : kst D) : Prop :=
  codes (h_dev (k_hw s)) = ks /\ k_shift s = sh /\ k_cons s = r.

#[export] Instance at_keys_apart ks sh r : Apart (at_keys ks sh r).
Proof using All.
  split; try done.
  - intros port Hp s a s' (Hc & H) E. rewrite inb_run in E. destruct (dev_in port _) as [v d] eqn:Ed.
    injection E as _ <-. split; [|exact H]. cbn. by rewrite (proj1 (kb_in _ _ _ _ Ed Hp)).
  - intros port v s a s' (Hc & H) E. rewrite outb_run in E. injection E as _ <-.
    split; [|exact H]. cbn. by rewrite kb_out.
Qed.
End output.

(** * Reading the keyboard *)

Section typing.
Context {D : Type} `{!Ports D} (codes : D -> list Z) (lag : D -> Z) `{!Keyboard D codes lag}.
Notation K := (M (kst D)).
Notation keys s := (codes (h_dev (k_hw s))).
Notation lags s := (lag (h_dev (k_hw s))).

(** From [s] to [s'] only port reads happened, apart from the input side's own
    variables. *)
Definition silent (s s' : kst D) : Prop :=
  (exists e, Forall is_in e /\ k_log s' = k_log s ++ e) /\
  k_mem s' = k_mem s /\ k_crt s' = k_crt s /\ k_panicstr s' = k_panicstr s /\
  k_serial_exists s' = k_serial_exists s.

Lemma silent_refl s : silent s s.
Proof using Type. split_and!; try done. exists []. by rewrite app_nil_r. Qed.

Lemma silent_trans s s1 s2 : silent s s1 -> silent s1 s2 -> silent s s2.
Proof using Type.
  intros ((e1 & F1 & L1) & M1 & C1 & P1 & S1) ((e2 & F2 & L2) & M2 & C2 & P2 & S2).
  split_and!; [|congruence..]. exists (e1 ++ e2). rewrite L2, L1, app_assoc. split; [by apply Forall_app|done].
Qed.

Lemma silent_reads s d e : Forall is_in e -> silent s (after_io d e s).
Proof using Type. intros He. split_and!; try done. by exists e. Qed.

Lemma silent_on_screen s s' b sc : silent s s' -> on_screen b s sc -> on_screen b s' sc.
Proof using Type. intros (_ & Hm & Hc & _). unfold on_screen. by rewrite Hm, Hc. Qed.

(** The keyboard's side of the state: modifiers, and keys to come. *)
Definition kbd_at (s : kst D) (m : mods) : Prop :=
  k_shift s = enc_mods m /\ no_reboot m (keys s) = true.

(** One call: nothing yet, or the meaning of the next code. *)
Lemma kbd_proc_keys s sc m :
  on_screen 2000 s sc -> kbd_at s m ->
  exists v s', kbd_proc_data s = Ok (v, s') /\ silent s s' /\ k_cons s' = k_cons s /\
    (v = -1 /\ keys s' = keys s /\ kbd_at s' m /\ (keys s = [] \/ lags s' < lags s) \/
     exists k, keys s = k :: keys s' /\ v = (kbd_press m k).2 /\ is_byte v /\ kbd_at s' (kbd_press m k).1).
Proof using All.
  intros Hs [Hm Hn]. pose proof (kbd_proc_run s sc m Hs Hm) as Hk. unfold kbd_step in Hk.
  destruct (dev_in KBSTATP (h_dev (k_hw s))) as [st d1] eqn:E1.
  destruct (kb_in _ _ _ _ E1) as [Hc1 Hl1]; [done|]. pose proof (kb_status _ _ _ E1) as Hst.
  destruct (Z.land (u8 st) KBS_DIB =? 0).
  { eexists _, _. split; [exact Hk|]. split; [apply silent_reads; by repeat constructor|].
    split; [done|]. left. split_and!; try done. by split; cbn; rewrite ?Hc1. }
  destruct (dev_in KBDATAP d1) as [dt d2] eqn:E2. rewrite <- Hc1 in Hst.
  pose proof (kb_data _ _ _ E2 Hst) as Hd. rewrite Hc1 in Hd.
  rewrite Hd in Hn. cbn [no_reboot] in Hn.
  assert (is_byte (kbd_press m (u8 dt)).2) as Hb by (apply kbd_key_press, u8_range).
  destruct (kbd_press m (u8 dt)) as [m' c] eqn:Ep. apply andb_true_iff in Hn as [Hr%negb_true_iff Hn].
  rewrite Hr in Hk. eexists _, _. split; [exact Hk|].
  split. { destruct (silent_reads s d2 [In KBSTATP (u8 st); In KBDATAP (u8 dt)]) as (He & ? & ? & ? & ?); [by repeat constructor|].
    by split_and!. }
  split; [done|]. right. exists (u8 dt). rewrite Ep. cbn [fst snd] in *. split_and!; [exact Hd|done|done|by split].
Qed.

Lemma silent_set_cons s s' r : silent s s' -> silent s (set_cons r s').
Proof using Type. intros (He & ? & ? & ? & ?). by split_and!. Qed.

(** Draining it: some of the codes have arrived. *)
Lemma kbd_drains n : forall s sc m,
  length (keys s) = n -> on_screen 2000 s sc -> kbd_at s m ->
  exists vs s' m', drains kbd_proc_data s vs s' /\ silent s s' /\ kbd_at s' m' /\
    meaning m (keys s) = chars_of vs ++ meaning m' (keys s') /\
    (length vs + length (keys s') = n)%nat /\
    (vs = [] -> keys s = [] \/ lags s' < lags s).
Proof using All.
  induction n as [|n IH]; intros s sc m Hn Hs Hk;
    destruct (kbd_proc_keys s sc m Hs Hk) as (v & s1 & E & Hsil & Hc & H).
  all: destruct H as [(-> & Hk1 & Hat & Hl)|(k & Hk1 & Hv & Hb & Hat)].
  1,3: exists [], s1, m; rewrite Hk1; split_and!; [by apply drains_end|done|done|done|cbn [length]; lia|auto].
  { by rewrite Hk1 in Hn. }
  rewrite Hk1 in Hn |- *. cbn [meaning]. destruct (kbd_press m k) as [m1 c] eqn:Ep. cbn [fst snd] in *. subst v.
  assert (c <> -1) as Hc1 by (unfold is_byte in Hb; lia). cbn [length] in Hn.
  destruct (Z.eqb_spec c 0) as [->|Hc0].
  - destruct (IH s1 sc m1) as (vs & s' & m' & Hd & Hs' & Hat' & Hm & Hlen & _);
      [lia|by eapply silent_on_screen|done|].
    exists (0 :: vs), s', m'. split_and!; [by eapply drains_zero|by eapply silent_trans|done| |cbn [length]; lia|done].
    rewrite Hm. unfold chars_of. by rewrite filter_cons_False by lia.
  - destruct (IH (set_cons (ring_push c (k_cons s1)) s1) sc m1) as (vs & s' & m' & Hd & Hs' & Hat' & Hm & Hlen & _);
      [cbn; lia|eapply silent_on_screen; [by apply silent_set_cons|done]|done|].
    exists (c :: vs), s', m'. split_and!; [by eapply drains_char| |done| |cbn [length]; lia|done].
    + eapply silent_trans; [|exact Hs']. by apply silent_set_cons.
    + cbn [k_hw set_cons] in Hm. rewrite Hm. unfold chars_of. rewrite filter_cons_True by done.
      cbn [fmap list_fmap]. by rewrite u8_small.
Qed.

(** The receiver has nothing. *)
Lemma serial_quiet s :
  exists s', serial_drains s [] s' /\ silent s s' /\ k_cons s' = k_cons s /\ k_shift s' = k_shift s /\
    keys s' = keys s /\ lags s' <= lags s.
Proof using All.
  unfold serial_drains. destruct (k_serial_exists s); [|exists s; split_and!; (done || apply silent_refl || lia)].
  destruct (dev_in (COM1 + COM_LSR) (h_dev (k_hw s))) as [v d] eqn:E.
  destruct (kb_in _ _ _ _ E) as [Hc Hl]; [by vm_compute|]. pose proof (kb_serial _ _ _ E) as Hv.
  exists (after_io d [In (COM1 + COM_LSR) (u8 v)] s). split_and!; try done.
  - apply drains_end. unfold serial_proc_data.
    erewrite Mbind_run by (rewrite inb_run, E; reflexivity). cbv beta. by rewrite Hv.
  - apply silent_reads. by repeat constructor.
Qed.

(** ** The source of characters *)

(** The characters pending in the ring, and those the codes to come mean; all
    of them fit in the ring. *)
Definition kbd_typed (s : kst D) (cs : list Z) : Prop :=
  exists m, kbd_at s m /\ ring_ok (k_cons s) /\ queue (k_cons s) ++ meaning m (keys s) = cs /\
    Z.of_nat (length cs) <= 511 /\ Z.of_nat (length (keys s)) < 2 ^ 31 /\ Forall (fun c => 0 < c < 256) cs.

(** How long the keyboard may keep [getchar] waiting. *)
Definition patience (s : kst D) : Z := Z.of_nat (length (keys s)) * 2 ^ 32 + lags s.

Lemma cons_getc_keys s sc cs :
  on_screen 2000 s sc -> kbd_typed s cs -> cs <> [] ->
  exists c s', cons_getc s = Ok (c, s') /\ silent s s' /\
    (c <> 0 /\ cs = c :: tl cs /\ kbd_typed s' (tl cs) \/
     c = 0 /\ kbd_typed s' cs /\ patience s' < patience s).
Proof using All.
  intros Hs (m & Hat & Hr & Hq & Hl & Hk & Hf) Hne.
  destruct (serial_quiet s) as (s1 & Hd1 & Hs1 & Hc1 & Hsh1 & Hk1 & Hl1).
  assert (kbd_at s1 m) as Hat1 by (unfold kbd_at; by rewrite Hsh1, Hk1).
  destruct (kbd_drains (length (keys s1)) s1 sc m eq_refl) as (vs & s2 & m2 & Hd2 & Hs2 & Hat2 & Hm & Hlen & Hlag);
    [by eapply silent_on_screen|done|].
  rewrite Hk1 in Hm, Hlen, Hlag.
  rewrite Hm, app_assoc in Hq. set (q := queue (k_cons s) ++ chars_of vs) in *.
  assert (Z.of_nat (length q) <= 511) as Hq511 by (rewrite <- Hq, length_app in Hl; lia).
  destruct (cons_getc_queue s [] s1 vs s2) as (r' & E & Hr' & Hq'); [|done|done|done|done|lia|done|].
  { split; [by exists sc|]. exists m. apply Hat. }
  cbn [chars_of filter list_filter fmap list_fmap app] in E, Hq'. fold q in E, Hq'.
  exists (hd 0 q), (set_cons r' s2). split; [exact E|].
  split; [apply silent_set_cons; by eapply silent_trans|].
  destruct q as [|c q'] eqn:Eq.
  - right. cbn [hd tl app] in *. split; [done|].
    assert (vs = [] \/ (0 < length vs)%nat) as Hvs by (destruct vs; [by left|right; cbn; lia]).
    split.
    + exists m2. cbn [k_cons k_hw set_cons]. rewrite Hq'. cbn [app]. split_and!; try done. lia.
    + unfold patience. cbn [k_hw set_cons]. pose proof (kb_lag (h_dev (k_hw s2))). pose proof (kb_lag (h_dev (k_hw s))).
      destruct Hvs as [->|Hvs].
      * destruct (Hlag eq_refl) as [Hnil|Hlt]; [|cbn [length] in Hlen; lia].
        exfalso. apply Hne. rewrite <- Hq. rewrite Hnil in Hlen. cbn [length] in Hlen.
        by destruct (keys s2).
      * lia.
  - left. cbn [hd tl] in *. subst cs. cbn [app tl]. cbn [app] in Hf, Hl. inversion_clear Hf as [|?? Hc Hf'].
    split; [lia|]. split; [done|]. exists m2. cbn [k_cons k_hw set_cons]. rewrite Hq'. split_and!; try done.
    + cbn [length] in Hl. lia.
    + lia.
Qed.

Lemma getchar_keys n : forall s sc c cs,
  on_screen 2000 s sc -> kbd_typed s (c :: cs) -> patience s < Z.of_nat n ->
  exists k s1 s', idles k s s1 /\ (k <= n)%nat /\ cons_getc s1 = Ok (c, s') /\ c <> 0 /\
    silent s s' /\ kbd_typed s' cs.
Proof using All.
  induction n as [|n IH]; intros s sc c cs Hs Ht Hp.
  { unfold patience in Hp. pose proof (kb_lag (h_dev (k_hw s))). lia. }
  destruct (cons_getc_keys s sc (c :: cs) Hs Ht) as (c' & s1 & E & Hsil & H); [done|].
  destruct H as [(Hc0 & [= <-] & Ht')|(-> & Ht' & Hp')].
  - exists 0%nat, s, s1. split_and!; [constructor|lia|done..].
  - destruct (IH s1 sc c cs) as (k & s2 & s' & Hi & Hk & E' & H0 & Hs' & H'); [by eapply silent_on_screen|done|lia|].
    exists (S k), s2, s'. split_and!; [by eapply idles_S|lia|done|done|by eapply silent_trans|done].
Qed.

#[export] Instance keyboard_typist : Typist D kbd_typed.
Proof using All.
  split.
  - intros s c cs sc Hs Ht. assert (0 <= patience s < 2 ^ 63) as Hp.
    { destruct Ht as (m & _ & _ & _ & _ & Hk & _). unfold patience. pose proof (kb_lag (h_dev (k_hw s))). lia. }
    destruct (getchar_keys (Z.to_nat (patience s + 1)) s sc c cs Hs Ht) as (k & s1 & s' & Hi & Hk & E & H0 & Hsil & Ht');
      [lia|]. split.
    + destruct Ht as (m & _ & _ & _ & _ & _ & Hf). inversion_clear Hf. unfold is_byte. lia.
    + destruct Hsil as ((e & He & Hl) & Hm & Hc & Hpn & _). exists s', e. split_and!; try done.
      apply (getchar_waits k s s1); (done || lia).
  - intros s c cs s' (m & (Hm & Hn) & Hr & H) E.
    destruct (keeps_cons_putc_at (at_keys codes (keys s) (k_shift s) (k_cons s)) 2 c s tt s')
      as (H1 & H2 & H3); [done|exact E|].
    exists m. unfold kbd_at. rewrite H1, H2, H3. done.
  - intros s cs mm H. exact H.
  - intros s cs p H. exact H.
Qed.
End typing.

(** * The keyboard of the examples *)

#[export] Instance kbd_ports_keyboard : @Keyboard (list Z) kbd_ports (fmap u8) (fun _ => 0).
Proof.
  split.
  - intros d. apply Forall_fmap, Forall_true. intros x. apply u8_range.
  - lia.
  - intros port d v d' E Hp. cbn [dev_in kbd_ports] in E.
    destruct (port =? KBSTATP); [by injection E as _ <-|].
    destruct (Z.eqb_spec port KBDATAP); [done|]. by injection E as _ <-.
  - intros d v d' E. cbn in E. injection E as <- <-. destruct d; [by left|done].
  - intros d v d' E Hd. cbn in E. injection E as <- <-. by destruct d.
  - done.
  - intros d v d' E. cbn in E. by injection E as <- _.
Qed.

Definition ex_typed : kst (list Z) -> list Z -> Prop := kbd_typed (fmap u8).

#[export] Instance ex_typist : @Typist (list Z) kbd_ports ex_typed := keyboard_typist (fmap u8) (fun _ => 0).

(** The machine of the examples with zeroed memory besides the display's. *)
Definition ex_kst (a n : Z) (codes : list Z) : kst (list Z) :=
  let s := kbd_kst codes in set_mem (write_bytes (k_mem s) a (replicate (Z.to_nat n) 0)) s.

Lemma kbd_ring_ok : ring_ok (mkRing (replicate 512 0) 0 0).
Proof.
  unfold ring_ok. cbn [r_buf r_rpos r_wpos].
  split_and!; try lia; [exact (length_replicate _ _)|]. apply Forall_replicate. unfold is_byte. lia.
Qed.

Lemma ex_kst_on_screen a n codes :
  KERNBASE + CGA_BUF + 4000 <= a -> on_screen 2000 (ex_kst a n codes) (replicate 2000 blank, 0).
Proof.
  intros Ha. apply on_screen_set_mem; [apply kbd_kst_on_screen|]. intros x Hx.
  change (display (kbd_kst codes) x) with (KERNBASE + CGA_BUF <= x < KERNBASE + CGA_BUF + 4000) in Hx.
  apply write_bytes_out. lia.
Qed.

Lemma ex_kst_typed a n codes cs :
  no_reboot no_mods (u8 <$> codes) && bool_decide (meaning no_mods (u8 <$> codes) = cs) &&
    (Z.of_nat (length cs) <=? 511) && (Z.of_nat (length codes) <? 2 ^ 31) &&
    forallb (fun c => (0 <? c) && (c <? 256)) cs = true ->
  ex_typed (ex_kst a n codes) cs.
Proof.
  rewrite !andb_true_iff, Z.leb_le, Z.ltb_lt, bool_decide_eq_true. intros ((((Hn & Hm) & Hl) & Hk) & Hf).
  exists no_mods. split; [by split|]. split.
  { apply kbd_ring_ok. }
  split; [exact Hm|]. split; [exact Hl|]. split.
  - cbn [k_hw ex_kst set_mem set_hw kbd_kst h_dev]. by rewrite length_fmap.
  - rewrite forallb_forall in Hf. apply Forall_forall. intros c Hc%list_elem_of_In%Hf.
    rewrite andb_true_iff, !Z.ltb_lt in Hc. exact Hc.
Qed.
