(* ===== verification/Sendpage.v ===== *)
(** user/sendpage.c: a parent and its child exchange a page.

    The program is of a later lab: what it uses of inc/lib.h is not in the
    repository and is a parameter, the class [Jos], with the behaviour the program
    relies on as the class [JosLaws]: a page sent is the page received.  A process
    is seen through its memory, what it has printed, the pages waiting for it and
    the pages it has sent.  The string functions are those of lib/string.c. *)
From S2P Require Import Prelude Mem Cstring Emit Printfmt FormatSpec Mmu Machine ConsOut Printf ConsIn Console.

(** The system calls and the library. *)
Class Jos (S : Type) := {
  u_mem : S -> mem; set_u_mem : mem -> S -> S;
  fork : M S Z;
  ipc_recv : Z -> M S Z;
  ipc_send : Z -> Z -> Z -> Z -> M S unit;
  sys_page_alloc : Z -> Z -> Z -> M S Z;
  u_cprintf : ptr -> list arg -> M S Z;
  env_id : S -> Z }.

Definition TEMP_ADDR : Z := 0xa00000.
Definition TEMP_ADDR_CHILD : Z := 0xb00000.
Definition str1_text : list Z := bytes_of "hello child environment! how are you?".
Definition str2_text : list Z := bytes_of "hello parent environment! I'm good.".

Section umain.
Context {S : Type} `{!Jos S}.
Notation U := (M S).

(** The addresses of the two strings. *)
Context (str1 str2 : Z).

Definition u_reads {A} (f : mem -> res A) : U A := reads (fun s => f (u_mem s)).
Definition u_changes {A} (f : mem -> res (A * mem)) : U A := fun s =>
  r ← f (u_mem s); Ok (r.1, set_u_mem r.2 s).

Definition PTE_PWU : Z := Z.lor (Z.lor PTE_P PTE_W) PTE_U.

(** [ipc_recv] returns what it stores in [who]. *)
Definition umain_child : U unit :=
  who ← ipc_recv TEMP_ADDR_CHILD;
  u_cprintf (lit_nl "%x got message: %s") [AInt who; APtr (Addr TEMP_ADDR_CHILD)] ;;
  n ← u_reads (fun m => strlen m (Addr str1));
  c ← u_reads (fun m => strncmp m (Addr TEMP_ADDR_CHILD) (Addr str1) n);
  (if c =? 0 then u_cprintf (lit_nl "child received correct message") [] ;; mret tt else mret tt) ;;
  n ← u_reads (fun m => strlen m (Addr str2));
  u_changes (fun m => memcpy m TEMP_ADDR_CHILD str2 (n + 1)) ;;
  ipc_send who 0 TEMP_ADDR_CHILD PTE_PWU.

Definition umain_parent (who : Z) : U unit :=
  id ← gets env_id;
  sys_page_alloc id TEMP_ADDR PTE_PWU ;;
  n ← u_reads (fun m => strlen m (Addr str1));
  u_changes (fun m => memcpy m TEMP_ADDR str1 (n + 1)) ;;
  ipc_send who 0 TEMP_ADDR PTE_PWU ;;
  who ← ipc_recv TEMP_ADDR;
  u_cprintf (lit_nl "%x got message: %s") [AInt who; APtr (Addr TEMP_ADDR)] ;;
  n ← u_reads (fun m => strlen m (Addr str2));
  c ← u_reads (fun m => strncmp m (Addr TEMP_ADDR) (Addr str2) n);
  if c =? 0 then u_cprintf (lit_nl "parent received correct message") [] ;; mret tt else mret tt.

Definition umain : U unit :=
  who ← fork;
  if who =? 0 then umain_child else umain_parent who.
End umain.

(** What the program relies on; the observations of a process are its output,
    the pages sent to it, each with its sender, and the pages it has sent, each
    with its receiver. *)
Class JosLaws (S : Type) `{!Jos S} (u_out : S -> list Z) (u_in u_sent : S -> list (Z * list Z)) : Prop := {
  law_set : forall m s, u_mem (set_u_mem m s) = m /\ u_out (set_u_mem m s) = u_out s /\
    u_in (set_u_mem m s) = u_in s /\ u_sent (set_u_mem m s) = u_sent s;
  law_printf : forall l ap deref out s, lit_ok l = true -> deref_ok (u_mem s) deref -> format deref l ap = Some out ->
    exists n s', u_cprintf (Lit l 0) ap s = Ok (n, s') /\ u_mem s' = u_mem s /\ u_out s' = u_out s ++ out /\
      u_in s' = u_in s /\ u_sent s' = u_sent s;
  law_alloc : forall id va perm s, va mod PGSIZE = 0 ->
    exists s', sys_page_alloc id va perm s = Ok (0, s') /\ u_mem s' = write_bytes (u_mem s) va (replicate 4096 0) /\
      u_out s' = u_out s /\ u_in s' = u_in s /\ u_sent s' = u_sent s;
  law_recv : forall va s from page rest, va mod PGSIZE = 0 -> u_in s = (from, page) :: rest ->
    exists s', ipc_recv va s = Ok (from, s') /\ u_mem s' = write_bytes (u_mem s) va page /\
      u_out s' = u_out s /\ u_in s' = rest /\ u_sent s' = u_sent s;
  law_send : forall who v va perm s page, va mod PGSIZE = 0 -> length page = 4096%nat -> bytes (u_mem s) (Addr va) page ->
    exists s', ipc_send who v va perm s = Ok (tt, s') /\ u_mem s' = u_mem s /\ u_out s' = u_out s /\
      u_in s' = u_in s /\ u_sent s' = u_sent s ++ [(who, page)] }.

(** * What a process prints *)

Definition render_hex (v : Z) : list Z := render_num (-1) 32 16 v.

Lemma render_x deref n l v ap :
  render deref true (S n) (37 :: 120 :: l) (AInt v :: ap) = app (render_hex (u32 v)) <$> render deref true n l ap.
Proof.
  cbn [render length]. change (37 =? 37) with true. cbv iota.
  assert (directive deref true (S (S (length l))) (120 :: l) (120 :: l) flags0 (AInt v :: ap) =
    Some (render_hex (u32 v), l, ap)) as ->; done.
Qed.

Definition got_text (who : Z) (l : list Z) : list Z :=
  render_hex (u32 who) ++ bytes_of " got message: " ++ (s8 <$> l) ++ [10].

Lemma got_format who q l :
  is_null q = false -> format (deref_with q l) (bytes_of "%x got message: %s" ++ [10]) [AInt who; APtr q] = Some (got_text who l).
Proof.
  intros Hq. pose proof (deref_with_self q l) as Hd. unfold format. cbn [length bytes_of app].
  rewrite render_x. repeat first [rewrite render_char by reflexivity | rewrite render_nil | erewrite render_s by eassumption].
  reflexivity.
Qed.

(** The message that says the page was right. *)
Definition verdict (who : string) (want l : list Z) : list Z :=
  if decide (want `prefix_of` l) then bytes_of who ++ bytes_of " received correct message" ++ [10] else [].

(** A page with a string at its start. *)
Definition page_of (t old : list Z) : list Z := t ++ 0 :: drop (S (length t)) old.

Lemma page_of_app t old : page_of t old = (t ++ [0]) ++ drop (S (length t)) old.
Proof. by rewrite <- app_assoc. Qed.

Lemma length_page_of t old : length old = 4096%nat -> (length t < 4096)%nat -> length (page_of t old) = 4096%nat.
Proof. intros Ho Ht. unfold page_of. rewrite length_app. cbn [length]. rewrite length_drop. lia. Qed.

Lemma str_diff_prefix want l :
  Forall (fun c => 0 < c < 256) want -> Forall (fun c => 0 < c < 256) l ->
  str_diff (take (length want) l) want = 0 <-> want `prefix_of` l.
Proof.
  intros Hw Hl. rewrite str_diff_0; [|by apply Forall_take|exact Hw]. split.
  - intros E. exists (drop (length want) l). by rewrite <- E at 1; rewrite take_drop.
  - intros [k ->]. by rewrite take_app_length.
Qed.

(** * The exchange *)

Section exchange.
Context {S : Type} `{!Jos S} (u_out : S -> list Z) (u_in u_sent : S -> list (Z * list Z)) `{!JosLaws S u_out u_in u_sent}.
Notation U := (M S).
Context (str1 str2 : Z).

(** A string of the program, which no page overlaps. *)
Definition string_at (m : mem) (a : Z) (t : list Z) : Prop :=
  cstr m (Addr a) t /\ forall va, va = TEMP_ADDR \/ va = TEMP_ADDR_CHILD ->
    a + Z.of_nat (length t) + 1 <= va \/ va + 4096 <= a.

Lemma string_write m va a t l :
  string_at m a t -> va = TEMP_ADDR \/ va = TEMP_ADDR_CHILD -> (length l <= 4096)%nat -> string_at (write_bytes m va l) a t.
Proof using Type.
  intros [Hc Ha] Hva Hl. split; [|exact Ha]. apply cstr_bytes in Hc as [Hb Hf]. apply cstr_bytes. split; [|exact Hf].
  apply bytes_write_bytes_out; [exact Hb|]. rewrite length_app. cbn [length]. specialize (Ha va Hva). lia.
Qed.

(** A process that has printed [out] and sent [sent] more than before. *)
Definition did (out : list Z) (inp : list (Z * list Z)) (sent : list (Z * list Z)) (m : mem) (s s' : S) : Prop :=
  u_mem s' = m /\ u_out s' = u_out s ++ out /\ u_in s' = inp /\ u_sent s' = u_sent s ++ sent.

(** Receive a page at [va], print it, and compare it with a string. *)
Definition hear (va want : Z) (say : string) : U Z :=
  who ← ipc_recv va;
  u_cprintf (lit_nl "%x got message: %s") [AInt who; APtr (Addr va)] ;;
  n ← u_reads (fun m => strlen m (Addr want));
  c ← u_reads (fun m => strncmp m (Addr va) (Addr want) n);
  (if c =? 0 then u_cprintf (lit_nl say) [] ;; mret tt else mret tt) ;;
  mret who.

Lemma hear_run va want t who_says from l old rest s :
  va = TEMP_ADDR \/ va = TEMP_ADDR_CHILD -> string_at (u_mem s) want t ->
  (who_says = "child" \/ who_says = "parent")%string ->
  Forall (fun c => 0 < c < 256) l -> Z.of_nat (length t) < 4096 ->
  u_in s = (from, page_of l old) :: rest -> length (page_of l old) = 4096%nat ->
  exists s', hear va want (who_says ++ " received correct message") s = Ok (from, s') /\
    did (got_text from l ++ verdict who_says t l) rest [] (write_bytes (u_mem s) va (page_of l old)) s s'.
Proof using JosLaws0.
  intros Hva Hw Hsay Hl Ht Hin Hlen.
  assert (va mod PGSIZE = 0 /\ is_null (Addr va) = false) as [Hal Hnn] by (by destruct Hva as [-> | ->]).
  assert (Z.of_nat (length l) < 4096) as Hll by (unfold page_of in Hlen; rewrite length_app in Hlen; cbn [length] in Hlen; lia).
  destruct (law_recv va s from _ rest Hal Hin) as (s1 & E1 & Hm1 & Ho1 & Hi1 & Hs1).
  pose proof (string_write (u_mem s) va want t (page_of l old) Hw Hva ltac:(lia)) as [Hw1 _]. rewrite <- Hm1 in Hw1.
  assert (cstr (u_mem s1) (Addr va) l) as Hc1.
  { rewrite Hm1. apply cstr_bytes. split; [|exact Hl]. pose proof (bytes_write_bytes (u_mem s) va (page_of l old)) as Hb.
    rewrite page_of_app in Hb at 2. apply bytes_app in Hb. apply Hb. }
  destruct (law_printf (bytes_of "%x got message: %s" ++ [10]) [AInt from; APtr (Addr va)] _ _ s1 eq_refl
    (deref_with_ok _ _ _ Hc1 ltac:(lia)) (got_format from (Addr va) l Hnn)) as (n2 & s2 & E2 & Hm2 & Ho2 & Hi2 & Hs2).
  rewrite <- Hm2 in Hw1, Hc1.
  assert (strlen (u_mem s2) (Addr want) = Ok (Z.of_nat (length t))) as E3 by (apply strlen_spec; [exact Hw1|lia]).
  pose proof (strncmp_spec (u_mem s2) (Addr va) (Addr want) l t (Z.of_nat (length t)) Hc1 Hw1 ltac:(lia)) as E4.
  rewrite Nat2Z.id, (firstn_all t) in E4.
  unfold hear. erewrite Mbind_run by exact E1. cbv beta. erewrite Mbind_run by exact E2. cbv beta.
  erewrite Mbind_run by (unfold u_reads, reads; rewrite E3; reflexivity). cbv beta.
  erewrite Mbind_run by (unfold u_reads, reads; rewrite E4; reflexivity). cbv beta.
  pose proof (str_diff_prefix t l (cstr_chars _ _ _ Hw1) Hl) as Hpre. unfold verdict.
  destruct (Z.eqb_spec (str_diff (take (length t) l) t) 0) as [E0|E0].
  - rewrite decide_True by (by apply Hpre).
    destruct (law_printf (bytes_of (who_says ++ " received correct message") ++ [10]) [] deref_lit
      (bytes_of who_says ++ bytes_of " received correct message" ++ [10]) s2) as (n3 & s3 & E5 & Hm3 & Ho3 & Hi3 & Hs3).
    { by destruct Hsay as [-> | ->]. }
    { apply deref_lit_ok. }
    { destruct Hsay as [-> | ->]; reflexivity. }
    exists s3. split; [erewrite Mbind_run by (erewrite Mbind_run by exact E5; reflexivity); reflexivity|].
    split; [by rewrite Hm3, Hm2|]. split; [by rewrite Ho3, Ho2, Ho1, !app_assoc|]. split; [by rewrite Hi3, Hi2|].
    by rewrite Hs3, Hs2, Hs1, app_nil_r.
  - rewrite decide_False by (by rewrite <- Hpre). exists s2. split; [by rewrite ret_bind|].
    split; [by rewrite Hm2|]. split; [by rewrite Ho2, Ho1, app_nil_r|]. split; [by rewrite Hi2|].
    by rewrite Hs2, Hs1, app_nil_r.
Qed.

(** Put a string at the start of the page at [va] and send it. *)
Definition tell (who va str : Z) : U unit :=
  n ← u_reads (fun m => strlen m (Addr str));
  u_changes (fun m => memcpy m va str (n + 1)) ;;
  ipc_send who 0 va PTE_PWU.

Lemma tell_run who va str t page s :
  va = TEMP_ADDR \/ va = TEMP_ADDR_CHILD -> string_at (u_mem s) str t -> Z.of_nat (length t) < 4096 ->
  length page = 4096%nat -> bytes (u_mem s) (Addr va) page ->
  exists s', tell who va str s = Ok (tt, s') /\
    did [] (u_in s) [(who, page_of t page)] (write_bytes (u_mem s) va (t ++ [0])) s s'.
Proof using JosLaws0.
  intros Hva [Hc _] Ht Hlen Hp. assert (va mod PGSIZE = 0) as Hal by (by destruct Hva as [-> | ->]).
  pose proof (cstr_bytes (u_mem s) (Addr str) t) as [Hcb _]. destruct (Hcb Hc) as [Hb Hf].
  assert (length (t ++ [0]) = Datatypes.S (length t)) as Hl1 by (rewrite length_app; cbn; lia).
  assert (memcpy (u_mem s) va str (Z.of_nat (length t) + 1) = Ok (va, write_bytes (u_mem s) va (t ++ [0]))) as E2.
  { unfold memcpy. replace (Z.of_nat (length t) + 1) with (Z.of_nat (length (t ++ [0]))) by lia.
    apply memmove_write; [exact Hb| | |lia].
    - apply Forall_app. split; [|repeat constructor; done]. eapply Forall_impl; [exact Hf|]. unfold is_byte. intros x Hx. lia.
    - eapply mapped_weaken; [exact (bytes_mapped _ _ _ Hp)|lia|lia]. }
  set (m1 := write_bytes (u_mem s) va (t ++ [0])) in *.
  destruct (law_set m1 s) as (Hm & Ho & Hi & Hs).
  assert (bytes m1 (Addr va) (page_of t page)) as Hpg.
  { rewrite page_of_app. apply bytes_app. split; [apply bytes_write_bytes|]. rewrite Hl1. cbn [padd].
    apply bytes_write_bytes_out; [|right; lia].
    pose proof (bytes_part _ _ _ (Datatypes.S (length t)) 4096 Hp) as Hd.
    rewrite take_ge in Hd by (rewrite length_drop; lia). exact Hd. }
  destruct (law_send who 0 va PTE_PWU (set_u_mem m1 s) (page_of t page) Hal) as (s' & E3 & Hm' & Ho' & Hi' & Hs').
  { apply length_page_of; [exact Hlen|lia]. }
  { by rewrite Hm. }
  exists s'. split.
  - unfold tell. erewrite Mbind_run by (unfold u_reads, reads; rewrite (strlen_spec _ _ _ Hc) by lia; reflexivity). cbv beta.
    erewrite Mbind_run by (unfold u_changes; rewrite E2; reflexivity). exact E3.
  - split; [by rewrite Hm', Hm|]. split; [by rewrite Ho', Ho, app_nil_r|]. split; [by rewrite Hi', Hi|]. by rewrite Hs', Hs.
Qed.

Lemma Mbind_unit (m : U unit) s : (m ≫= (fun _ => mret tt)) s = m s.
Proof using Type. unfold mbind, M_bind. by destruct (m s) as [[[] s']|]. Qed.

Lemma umain_child_eq s :
  umain_child str1 str2 s = (who ← hear TEMP_ADDR_CHILD str1 "child received correct message"; tell who TEMP_ADDR_CHILD str2) s.
Proof using Type.
  unfold umain_child, hear, tell. rewrite !Mbind_assoc. do 4 (apply Mbind_ext; intros ? ? _; rewrite ?Mbind_assoc).
  by apply Mbind_ext.
Qed.

Lemma umain_parent_eq who s :
  umain_parent str1 str2 who s =
    (id ← gets env_id; sys_page_alloc id TEMP_ADDR PTE_PWU ;; tell who TEMP_ADDR str1 ;;
     hear TEMP_ADDR str2 "parent received correct message" ;; mret tt) s.
Proof using Type.
  unfold umain_parent, hear, tell. do 2 (apply Mbind_ext; intros ? ? _).
  rewrite !Mbind_assoc. apply Mbind_ext; intros ? ? _. rewrite !Mbind_assoc. do 2 (apply Mbind_ext; intros ? ? _).
  rewrite ?Mbind_assoc. do 4 (apply Mbind_ext; intros ? ? _; rewrite ?Mbind_assoc).
  symmetry. exact (Mbind_unit _ _).
Qed.

(** Either process: the child hears, then tells; the parent the other way
    round. *)
Lemma child_run s from l old rest :
  string_at (u_mem s) str1 str1_text -> string_at (u_mem s) str2 str2_text -> Forall (fun c => 0 < c < 256) l ->
  u_in s = (from, page_of l old) :: rest -> length (page_of l old) = 4096%nat ->
  exists s' m', umain_child str1 str2 s = Ok (tt, s') /\
    did (got_text from l ++ verdict "child" str1_text l) rest [(from, page_of str2_text (page_of l old))] m' s s'.
Proof using JosLaws0.
  intros H1 H2 Hl Hin Hlen. rewrite umain_child_eq.
  destruct (hear_run TEMP_ADDR_CHILD str1 str1_text "child" from l old rest s ltac:(by right) H1 ltac:(by left) Hl
    ltac:(by vm_compute) Hin Hlen) as (s1 & E1 & Hm1 & Ho1 & Hi1 & Hs1).
  assert (string_at (u_mem s1) str2 str2_text) as H2' by (rewrite Hm1; apply string_write; [exact H2|by right|lia]).
  destruct (tell_run from TEMP_ADDR_CHILD str2 str2_text (page_of l old) s1 ltac:(by right) H2' ltac:(by vm_compute) Hlen)
    as (s2 & E2 & Hm2 & Ho2 & Hi2 & Hs2); [rewrite Hm1; apply bytes_write_bytes|].
  exists s2, (u_mem s2). split; [erewrite Mbind_run by exact E1; exact E2|]. split; [done|].
  split; [by rewrite Ho2, Ho1, app_nil_r|]. split; [by rewrite Hi2|]. by rewrite Hs2, Hs1, app_nil_r.
Qed.

Lemma parent_run s who from l old rest :
  string_at (u_mem s) str1 str1_text -> string_at (u_mem s) str2 str2_text -> Forall (fun c => 0 < c < 256) l ->
  u_in s = (from, page_of l old) :: rest -> length (page_of l old) = 4096%nat ->
  exists s' m', umain_parent str1 str2 who s = Ok (tt, s') /\
    did (got_text from l ++ verdict "parent" str2_text l) rest [(who, page_of str1_text (replicate 4096 0))] m' s s'.
Proof using JosLaws0.
  intros H1 H2 Hl Hin Hlen. rewrite umain_parent_eq.
  destruct (law_alloc (env_id s) TEMP_ADDR PTE_PWU s eq_refl) as (s0 & E0 & Hm0 & Ho0 & Hi0 & Hs0).
  assert (string_at (u_mem s0) str1 str1_text /\ string_at (u_mem s0) str2 str2_text) as [H1' H2']
    by (rewrite Hm0; split; apply string_write; (assumption || (by left) || (rewrite length_replicate; lia))).
  destruct (tell_run who TEMP_ADDR str1 str1_text (replicate 4096 0) s0 ltac:(by left) H1' ltac:(by vm_compute)
    (length_replicate _ _)) as (s1 & E1 & Hm1 & Ho1 & Hi1 & Hs1); [rewrite Hm0; apply bytes_write_bytes|].
  destruct (hear_run TEMP_ADDR str2 str2_text "parent" from l old rest s1 ltac:(by left)) as (s2 & E2 & Hm2 & Ho2 & Hi2 & Hs2);
    [rewrite Hm1; apply string_write; [exact H2'|by left|rewrite length_app; vm_compute; lia]|by right|exact Hl|by vm_compute|
     by rewrite Hi1, Hi0|exact Hlen|].
  exists s2, (u_mem s2). split.
  - rewrite gets_bind. erewrite Mbind_run by exact E0. cbv beta. erewrite Mbind_run by exact E1. cbv beta.
    by erewrite Mbind_run by exact E2.
  - split; [done|]. split; [by rewrite Ho2, Ho1, Ho0, !app_nil_r|]. split; [exact Hi2|]. by rewrite Hs2, Hs1, Hs0, !app_nil_r.
Qed.
End exchange.

(** C30: the exchange works: when what each process receives is what the other
    sends (the child the parent's page, the parent that page with the child's
    answer in it), both print the message they got and that it is the correct one,
    and what they send is indeed that. *)
Theorem sendpage_spec {S} `{!Jos S} u_out u_in u_sent `{!JosLaws S u_out u_in u_sent} str1 str2 (sp sp1 sc sc1 : S) pid cid :
  let page1 := page_of str1_text (replicate 4096 0) in
  let page2 := page_of str2_text page1 in
  cid <> 0 -> fork sp = Ok (cid, sp1) -> fork sc = Ok (0, sc1) ->
  string_at (u_mem sp1) str1 str1_text -> string_at (u_mem sp1) str2 str2_text ->
  string_at (u_mem sc1) str1 str1_text -> string_at (u_mem sc1) str2 str2_text ->
  u_in sp1 = [(cid, page2)] -> u_in sc1 = [(pid, page1)] ->
  exists sp' sc', umain str1 str2 sp = Ok (tt, sp') /\ umain str1 str2 sc = Ok (tt, sc') /\
    u_sent sp' = u_sent sp1 ++ [(cid, page1)] /\ u_sent sc' = u_sent sc1 ++ [(pid, page2)] /\
    u_out sc' = u_out sc1 ++ got_text pid str1_text ++ bytes_of "child received correct message" ++ [10] /\
    u_out sp' = u_out sp1 ++ got_text cid str2_text ++ bytes_of "parent received correct message" ++ [10].
Proof.
  intros page1 page2 Hcid Ef1 Ef2 Hp1 Hp2 Hc1 Hc2 Hip Hic.
  assert (length page1 = 4096%nat) as Hl1 by (apply length_page_of; [apply length_replicate|vm_compute; lia]).
  assert (length page2 = 4096%nat) as Hl2 by (apply length_page_of; [exact Hl1|vm_compute; lia]).
  assert (Forall (fun c => 0 < c < 256) str1_text /\ Forall (fun c => 0 < c < 256) str2_text) as [Hf1 Hf2] by (split; decided).
  destruct (child_run u_out u_in u_sent str1 str2 sc1 pid str1_text (replicate 4096 0) [] Hc1 Hc2 Hf1 Hic Hl1)
    as (sc' & mc & Ec & _ & Hoc & _ & Hsc).
  destruct (parent_run u_out u_in u_sent str1 str2 sp1 cid cid str2_text page1 [] Hp1 Hp2 Hf2 Hip Hl2)
    as (sp' & mp & Ep & _ & Hop & _ & Hsp).
  exists sp', sc'. split; [|split; [|split; [exact Hsp|split; [exact Hsc|split; [exact Hoc|exact Hop]]]]].
  - unfold umain. erewrite Mbind_run by exact Ef1. cbv beta. by rewrite (proj2 (Z.eqb_neq _ _) Hcid).
  - unfold umain. by erewrite Mbind_run by exact Ef2.
Qed.

(** * Processes for the witness *)

Record proc := mkProc {
  pr_mem : mem; pr_out : list Z; pr_in : list (Z * list Z); pr_sent : list (Z * list Z); pr_fork : Z }.

#[local] Instance proc_sink : Sink proc := {|
  sink_mem := pr_mem;
  putch := fun c s => Ok (tt, mkProc (pr_mem s) (pr_out s ++ [c]) (pr_in s) (pr_sent s) (pr_fork s)) |}.

#[local] Instance proc_jos : Jos proc := {|
  u_mem := pr_mem;
  set_u_mem := fun m s => mkProc m (pr_out s) (pr_in s) (pr_sent s) (pr_fork s);
  fork := fun s => Ok (pr_fork s, s);
  ipc_recv := fun va s => match pr_in s with
    | (from, page) :: rest => Ok (from, mkProc (write_bytes (pr_mem s) va page) (pr_out s) rest (pr_sent s) (pr_fork s))
    | [] => Err Fuel
    end;
  ipc_send := fun who _ va _ s =>
    page ← loadn (pr_mem s) (Addr va) 4096;
    Ok (tt, mkProc (pr_mem s) (pr_out s) (pr_in s) (pr_sent s ++ [(who, page)]) (pr_fork s));
  sys_page_alloc := fun _ va _ s =>
    Ok (0, mkProc (write_bytes (pr_mem s) va (replicate 4096 0)) (pr_out s) (pr_in s) (pr_sent s) (pr_fork s));
  u_cprintf := fun p ap s => r ← vprintfmt p ap s; Ok (0, r.2);
  env_id := fun _ => 0x1001 |}.

Lemma proc_each out : forall s : proc,
  each putch out s = Ok (tt, mkProc (pr_mem s) (pr_out s ++ out) (pr_in s) (pr_sent s) (pr_fork s)).
Proof.
  induction out as [|c out IH]; intros s; cbn [each]; [destruct s; cbn; by rewrite app_nil_r|].
  erewrite Mbind_run by reflexivity. rewrite IH. cbn [pr_mem pr_out pr_in pr_sent pr_fork]. by rewrite <- app_assoc.
Qed.

#[local] Instance proc_laws : JosLaws proc pr_out pr_in pr_sent.
Proof.
  split.
  - done.
  - intros l ap deref out s Hl Hd Hf. destruct (lit_ok_cstr (pr_mem s) l Hl) as [Hc Hlen].
    assert (SinkLaws proc (pr_mem s) (fun s' => pr_mem s' = pr_mem s)) as Hlaws.
    { split; [by intros s' Hm; cbn [sink_mem proc_sink]; rewrite Hm|]. intros c s1 s2 Hm E. by injection E as <-. }
    exists 0. eexists. split.
    + cbn [u_cprintf proc_jos]. rewrite (does_vprintfmt (pr_mem s) (fun s' => pr_mem s' = pr_mem s) deref
        (Lit l 0) l ap out Hc Hlen Hd Hf s eq_refl).
      assert ((each putch out ;; mret tt) s = Ok (tt, mkProc (pr_mem s) (pr_out s ++ out) (pr_in s) (pr_sent s) (pr_fork s))) as ->
        by (erewrite Mbind_run by apply proc_each; reflexivity).
      reflexivity.
    + done.
  - intros id va perm s _. by eexists.
  - intros va s from page rest _ Hi. eexists. cbn [ipc_recv proc_jos]. rewrite Hi. done.
  - intros who v va perm s page _ Hlen Hb. eexists. cbn [ipc_send proc_jos]. apply loadn_bytes in Hb. rewrite Hlen in Hb.
    cbn [u_mem proc_jos] in Hb. by rewrite Hb.
Qed.

Definition ex_strings : mem :=
  write_bytes (write_bytes ∅ 0x801000 (str1_text ++ [0])) 0x801100 (str2_text ++ [0]).
Definition ex_page1 : list Z := page_of str1_text (replicate 4096 0).
Definition ex_parent : proc := mkProc ex_strings [] [(0x1002, page_of str2_text ex_page1)] [] 0x1002.
Definition ex_child : proc := mkProc ex_strings [] [(0x1001, ex_page1)] [] 0.

Lemma sendpage_spec_witness :
  exists sp' sc', umain 0x801000 0x801100 ex_parent = Ok (tt, sp') /\ umain 0x801000 0x801100 ex_child = Ok (tt, sc') /\
    pr_out sc' = bytes_of "1001 got message: hello child environment! how are you?" ++ [10] ++
      bytes_of "child received correct message" ++ [10].
Proof.
  assert (string_at ex_strings 0x801000 str1_text /\ string_at ex_strings 0x801100 str2_text) as [H1 H2].
  { split; (split; [apply cstr_bytes; split; [|decided]|intros va [-> | ->]; left; by vm_compute]).
    - apply bytes_write_bytes_out; [apply bytes_write_bytes|left; by vm_compute].
    - apply bytes_write_bytes. }
  destruct (sendpage_spec pr_out pr_in pr_sent 0x801000 0x801100 ex_parent ex_parent ex_child ex_child 0x1001 0x1002
    ltac:(discriminate) eq_refl eq_refl H1 H2 H1 H2 eq_refl eq_refl) as (sp' & sc' & E1 & E2 & _ & _ & Ho & _).
  exists sp', sc'. split; [exact E1|]. split; [exact E2|]. exact Ho.
Defined.
