(* ===== verification/Readline.v ===== *)
(** lib/readline.c: reading an edited line from the console.

    The static array [buf] is at the address [buf], which the linker chooses;
    an access outside its BUFLEN elements is a fault.  The specification is a
    line editor on the characters typed: [edit_line] is the line they leave,
    [echo_line] what the user sees. *)
From S2P Require Import Prelude Mem Emit Printfmt FormatSpec Mmu Machine ConsOut Printf ConsIn Console Keyboard.

Definition BUFLEN : Z := 1024.

Section readline.
Context {D : Type} `{!Ports D} (buf : Z).
Notation K := (M (kst D)).

(** [buf[i] = c] *)
Definition buf_store (i c : Z) : K unit := fun s =>
  if (0 <=? i) && (i <? BUFLEN) then store_k (fun m => store8 m (Addr (buf + i)) c) s
  else Err Fault.

Definition echo (echoing : bool) (c : Z) : K unit :=
  if echoing then cputchar c else mret tt.

Definition readline_body (echoing : bool) (i : Z) : K (Z + ptr) :=
  c ← getchar;
  if c <? 0 then
    cprintf (lit_nl "read error: %e") [AInt c] ;; mret (inr Null)
  else if ((c =? 8) || (c =? 127)) && (i >? 0) then
    echo echoing 8 ;; mret (inl (i - 1))
  else if (c >=? 32) && (i <? BUFLEN - 1) then
    echo echoing c ;; buf_store i c ;; mret (inl (i + 1))
  else if (c =? 10) || (c =? 13) then
    echo echoing 10 ;; buf_store i 0 ;; mret (inr (Addr buf))
  else mret (inl i).

Definition readline (prompt : ptr) : K ptr :=
  (if negb (is_null prompt) then cprintf (lit "%s") [APtr prompt] ;; mret tt else mret tt) ;;
  let echoing := iscons 0 in
  whileM (readline_body (negb (echoing =? 0))) 0.
End readline.

(** * The line editor *)

Definition erases (l : list Z) (c : Z) : bool :=
  ((c =? 8) || (c =? 127)) && negb (bool_decide (l = [])).
Definition fits (l : list Z) (c : Z) : bool := (32 <=? c) && (Z.of_nat (length l) <? BUFLEN - 1).

(** One key typed after the line [l]: the new line, and what is echoed. *)
Definition edit_key (l : list Z) (c : Z) : list Z :=
  if erases l c then removelast l else if fits l c then l ++ [c] else l.
Definition edit_echo (l : list Z) (c : Z) : list Z :=
  if erases l c then [8] else if fits l c then [c] else [].

Definition edit_line (l cs : list Z) : list Z := foldl edit_key l cs.
Fixpoint echo_line (l cs : list Z) : list Z :=
  match cs with
  | [] => []
  | c :: cs' => edit_echo l c ++ echo_line (edit_key l c) cs'
  end.

(** Unlike backspace, DEL is not ignored on an empty line: it is stored. *)
Example del_on_empty : edit_line [] [127] = [127] /\ edit_line [] [8] = [].
Proof. done. Qed.

Definition enters (c : Z) : bool := (c =? 10) || (c =? 13).

(** A line [buf] has room for. *)
Definition line_ok (l : list Z) : Prop :=
  Z.of_nat (length l) <= 1023 /\ Forall (fun c => 32 <= c < 256) l.

Lemma length_removelast {A} (l : list A) : length (removelast l) = pred (length l).
Proof. induction l as [|a [|b l] IH]; simpl in *; [done..|by rewrite IH]. Qed.

Lemma removelast_snoc {A} (l : list A) : l <> [] -> exists x, l = removelast l ++ [x].
Proof. intros Hl. destruct (exists_last Hl) as (l' & x & ->). exists x. by rewrite removelast_last. Qed.

Lemma edit_key_ok l c : is_byte c -> line_ok l -> line_ok (edit_key l c).
Proof.
  intros Hc [Hl Hf]. unfold edit_key, line_ok. destruct (erases l c) eqn:He; [|destruct (fits l c) eqn:Hi].
  - unfold erases in He. apply andb_true_iff in He as [_ He%negb_true_iff%bool_decide_eq_false].
    destruct (removelast_snoc l He) as (x & Hx). rewrite Hx in Hl, Hf.
    rewrite length_app in Hl. apply Forall_app in Hf as [Hf _]. split; [lia|done].
  - unfold fits, BUFLEN in Hi. rewrite andb_true_iff, Z.leb_le, Z.ltb_lt in Hi. unfold is_byte in Hc.
    rewrite length_app, Forall_app. cbn [length]. split; [lia|]. split; [done|]. repeat constructor; lia.
  - done.
Qed.

Lemma edit_line_ok cs : forall l, Forall is_byte cs -> line_ok l -> line_ok (edit_line l cs).
Proof.
  induction cs as [|c cs IH]; intros l Hc Hl; [done|]. inversion_clear Hc.
  apply IH; [done|]. by apply edit_key_ok.
Qed.

(** The line fits, whatever is typed: no key makes it longer than the array. *)
Lemma edit_key_length l c : Z.of_nat (length l) <= 1023 -> Z.of_nat (length (edit_key l c)) <= 1023.
Proof.
  intros Hl. unfold edit_key. destruct (erases l c); [rewrite length_removelast; lia|].
  destruct (fits l c) eqn:Hf; [|done]. unfold fits, BUFLEN in Hf. rewrite length_app. cbn [length]. lia.
Qed.

Lemma edit_line_length cs : forall l, Z.of_nat (length l) <= 1023 -> Z.of_nat (length (edit_line l cs)) <= 1023.
Proof. induction cs as [|c cs IH]; intros l Hl; [done|]. by apply IH, edit_key_length. Qed.

Lemma line_chars l : line_ok l -> Forall (fun c => 0 < c < 256) l.
Proof. intros [_ Hf]. eapply Forall_impl; [exact Hf|]. simpl. lia. Qed.

(** * Refinement *)

Section editing.
Context {D : Type} `{!Ports D} (typed : kst D -> list Z -> Prop) `{!Typist D typed} (buf : Z).
Notation K := (M (kst D)).

(** The addresses of the array. *)
Definition in_buf (x : Z) : Prop := buf <= x < buf + BUFLEN.

(** A state in which the line can be kept: the array is memory, and not the
    display's. *)
Definition has_buf (s : kst D) : Prop :=
  mapped (k_mem s) buf BUFLEN /\ forall x, in_buf x -> ~ display s x.

(** The loop's invariant: the display works and the array starts with [l]. *)
Definition editing (s : kst D) (l : list Z) : Prop :=
  (exists sc, on_screen 2000 s sc) /\ has_buf s /\ line_ok l /\ bytes (k_mem s) (Addr buf) l.

Lemma session_has_buf R i o s s' : session typed R i o s s' -> has_buf s -> has_buf s'.
Proof using Type.
  intros H [Hm Hd]. split; [by eapply session_mapped|]. intros x Hx. unfold display.
  rewrite (ss_buf _ _ _ _ _ _ H). by apply Hd.
Qed.

Lemma has_buf_write s a l : has_buf s -> has_buf (set_mem (write_bytes (k_mem s) a l) s).
Proof using Type. intros [Hm Hd]. split; [by apply write_bytes_mapped|exact Hd]. Qed.

Lemma has_buf_addr s i : has_buf s -> 0 <= i < BUFLEN -> is_Some (k_mem s !! (buf + i)).
Proof using Type. intros [Hm _] Hi. apply Hm. lia. Qed.

(** Actions that write no memory but the display's. *)
Lemma session_editing i o s s' l : session typed (fun _ => False) i o s s' -> editing s l -> editing s' l.
Proof using Type.
  intros H ((sc & Hs) & Hb & Hl & Hy). split_and!; [| |done|].
  - eexists. by apply (ss_screen _ _ _ _ _ _ H).
  - by eapply session_has_buf.
  - rewrite bytes_lookup in Hy |- *. intros k b Hk. rewrite (ss_mem _ _ _ _ _ _ H); [by apply Hy|by intros []|].
    apply Hb. unfold in_buf, BUFLEN. pose proof (lookup_lt_Some _ _ _ Hk). destruct Hl. lia.
Qed.

Lemma buf_store_run s sc i c :
  on_screen 2000 s sc -> has_buf s -> 0 <= i < BUFLEN ->
  let s' := set_mem (<[buf + i := u8 c]> (k_mem s)) s in
  buf_store buf i c s = Ok (tt, s') /\ session typed in_buf [] [] s s'.
Proof using All.
  intros Hs Hb Hi s'. split.
  - unfold buf_store, store_k, on_mem. unfold BUFLEN in *.
    rewrite (proj2 (Z.leb_le 0 i)), (proj2 (Z.ltb_lt i 1024)) by lia. cbn [andb].
    rewrite store8_ok by (by apply has_buf_addr). done.
  - apply session_store; [done|apply Hb| |].
    + intros x Hx. rewrite lookup_insert_ne; [done|]. intros <-. apply Hx. unfold in_buf. lia.
    + intros x Hx. rewrite lookup_insert. case_decide; [by eexists|done].
Qed.

(** A character stored behind the line. *)
Lemma editing_store s l c :
  editing s l -> fits l c = true -> is_byte c ->
  editing (set_mem (<[buf + Z.of_nat (length l) := u8 c]> (k_mem s)) s) (l ++ [c]).
Proof using All.
  intros ((sc & Hs) & Hb & Hl & Hy) Hf Hc.
  assert (Z.of_nat (length l) < 1023 /\ 32 <= c) as [Hlen H32].
  { unfold fits, BUFLEN in Hf. rewrite andb_true_iff, Z.leb_le, Z.ltb_lt in Hf. lia. }
  destruct (buf_store_run s sc (Z.of_nat (length l)) c Hs Hb) as [_ Hss]; [unfold BUFLEN; lia|].
  split_and!; [| | |].
  - eexists. by apply (ss_screen _ _ _ _ _ _ Hss).
  - by eapply session_has_buf.
  - destruct Hl as [Hl Hf']. unfold is_byte in Hc. split; [rewrite length_app; cbn [length]; lia|].
    apply Forall_app. split; [done|]. repeat constructor; lia.
  - rewrite bytes_lookup in Hy |- *. intros k b Hk. change (k_mem (set_mem ?m s)) with m.
    apply lookup_app_Some in Hk as [Hk|[Hk1 Hk2]].
    + pose proof (lookup_lt_Some _ _ _ Hk). rewrite lookup_insert_ne by lia. by apply Hy.
    + destruct (k - length l)%nat eqn:Ek; [|done]. injection Hk2 as <-.
      replace k with (length l) by lia. rewrite lookup_insert_eq. by rewrite u8_small.
Qed.

(** The line without its last character. *)
Lemma editing_removelast s l : editing s l -> l <> [] -> editing s (removelast l).
Proof using Type.
  intros (Hs & Hb & [Hl Hf] & Hy) Hne. destruct (removelast_snoc l Hne) as (x & Hx).
  rewrite Hx in Hl, Hf, Hy. rewrite length_app in Hl. apply Forall_app in Hf as [Hf _].
  apply bytes_app in Hy as [Hy _]. split_and!; [done|done| |done]. split; [lia|done].
Qed.

(** The terminated line, as a string. *)
Lemma editing_end s l :
  editing s l -> cstr (<[buf + Z.of_nat (length l) := u8 0]> (k_mem s)) (Addr buf) l.
Proof using Type.
  intros (Hs & Hb & Hl & Hy). apply cstr_bytes. split; [|by apply line_chars].
  rewrite bytes_lookup in Hy |- *. intros k b Hk.
  apply lookup_app_Some in Hk as [Hk|[Hk1 Hk2]].
  - pose proof (lookup_lt_Some _ _ _ Hk). rewrite lookup_insert_ne by lia. by apply Hy.
  - destruct (k - length l)%nat eqn:Ek; [|done]. injection Hk2 as <-.
    replace k with (length l) by lia. by rewrite lookup_insert_eq.
Qed.

Lemma in_buf_weaken i o s s' : session typed (fun _ => False) i o s s' -> session typed in_buf i o s s'.
Proof using Type. apply session_weaken. by intros x []. Qed.

(** A character typed: it is read, and the display shows its echo. *)
Lemma get_and_echo s l c cs e :
  editing s l -> typed s (c :: cs) ->
  exists s1 s2, getchar s = Ok (c, s1) /\ echo true e s1 = Ok (tt, s2) /\ is_byte c /\
    session typed (fun _ => False) [c] [] s s1 /\ session typed (fun _ => False) [c] [e] s s2 /\
    editing s1 l /\ editing s2 l.
Proof using All.
  intros He Ht. pose proof He as ((sc & Hs) & _).
  destruct (session_getchar typed (fun _ => False) s c cs sc Hs Ht) as (s1 & E1 & Hc & H1).
  destruct (session_putchar typed (fun _ => False) e s1 _ (ss_screen _ _ _ _ _ _ H1 _ Hs)) as (s2 & E2 & H2).
  assert (session typed (fun _ => False) [c] [e] s s2) as H12 by (by eapply session_seq).
  exists s1, s2. split_and!; try done; by eapply session_editing.
Qed.

Lemma readline_key s l c cs :
  editing s l -> typed s (c :: cs) -> enters c = false ->
  exists s', readline_body buf true (Z.of_nat (length l)) s =
      Ok (inl (Z.of_nat (length (edit_key l c))), s') /\
    session typed in_buf [c] (edit_echo l c) s s' /\ editing s' (edit_key l c).
Proof using All.
  intros He Ht Hn. unfold enters in Hn.
  destruct (get_and_echo s l c cs (if erases l c then 8 else c) He Ht)
    as (s1 & s2 & E1 & E2 & Hc & H1 & H2 & He1 & He2).
  unfold readline_body. setoid_rewrite (Mbind_run _ _ _ _ _ E1).
  assert ((c <? 0) = false) as -> by (unfold is_byte in Hc; destruct (Z.ltb_spec c 0); lia).
  assert (((c =? 8) || (c =? 127)) && (Z.of_nat (length l) >? 0) = erases l c) as ->.
  { unfold erases. f_equal. destruct l; [done|]. cbn [length]. rewrite bool_decide_false by done.
    destruct (Z.gtb_spec (Z.of_nat (Datatypes.S (length l))) 0); [done|lia]. }
  assert ((c >=? 32) && (Z.of_nat (length l) <? BUFLEN - 1) = fits l c) as ->
    by (unfold fits; by rewrite Z.geb_leb).
  rewrite Hn. unfold edit_echo, edit_key. destruct (erases l c) eqn:Her; [|destruct (fits l c) eqn:Hf].
  - assert (l <> []) as Hne.
    { unfold erases in Her. apply andb_true_iff in Her as [_ Her%negb_true_iff%bool_decide_eq_false]. done. }
    exists s2. erewrite Mbind_run by exact E2. split_and!; [|by apply in_buf_weaken|by apply editing_removelast].
    rewrite length_removelast. destruct l; [done|]. cbn [length pred]. unfold mret, M_ret. do 3 f_equal. lia.
  - pose proof He2 as ((sc2 & Hs2) & Hb2 & _).
    assert (Z.of_nat (length l) < 1023) as Hlen by (unfold fits, BUFLEN in Hf; lia).
    destruct (buf_store_run s2 sc2 (Z.of_nat (length l)) c Hs2 Hb2) as [E3 H3]; [unfold BUFLEN; lia|].
    eexists. erewrite Mbind_run by exact E2. cbv beta. erewrite Mbind_run by exact E3.
    split_and!; [|by eapply session_seq; [apply in_buf_weaken| | |]|by apply editing_store].
    rewrite length_app. cbn [length]. unfold mret, M_ret. do 3 f_equal. lia.
  - exists s1. split_and!; [done|by apply in_buf_weaken|done].
Qed.

Lemma readline_enter s l c cs :
  editing s l -> typed s (c :: cs) -> enters c = true ->
  exists s', readline_body buf true (Z.of_nat (length l)) s = Ok (inr (Addr buf), s') /\
    session typed in_buf [c] [10] s s' /\ cstr (k_mem s') (Addr buf) l.
Proof using All.
  intros He Ht Hn.
  destruct (get_and_echo s l c cs 10 He Ht) as (s1 & s2 & E1 & E2 & _ & _ & H2 & _ & He2).
  pose proof He2 as ((sc2 & Hs2) & Hb2 & [Hlen _] & _).
  destruct (buf_store_run s2 sc2 (Z.of_nat (length l)) 0 Hs2 Hb2) as [E3 H3]; [unfold BUFLEN; lia|].
  unfold readline_body. setoid_rewrite (Mbind_run _ _ _ _ _ E1).
  assert (c = 10 \/ c = 13) as Hc by (unfold enters in Hn; rewrite orb_true_iff, !Z.eqb_eq in Hn; done).
  eexists. split_and!; [|eapply session_seq; [by apply in_buf_weaken|exact H3|done|done]|by apply editing_end].
  destruct Hc as [-> | ->]; cbn [Z.ltb Z.eqb Z.geb Z.compare Pos.eqb Pos.compare Pos.compare_cont orb andb];
    (erewrite Mbind_run by exact E2; cbv beta; by erewrite Mbind_run by exact E3).
Qed.

Lemma readline_runs cs c rest : forall l s,
  editing s l -> typed s (cs ++ c :: rest) -> Forall (fun c => enters c = false) cs -> enters c = true ->
  exists s',
    runs (fun st => r ← readline_body buf true st.1 st.2;
      match r with
      | (inl x', t') => Ok (inl (x', t'))
      | (inr a, t') => Ok (inr (a, t'))
      end) (S (length cs)) (Z.of_nat (length l), s) (Ok (Addr buf, s')) /\
    session typed in_buf (cs ++ [c]) (echo_line l cs ++ [10]) s s' /\
    cstr (k_mem s') (Addr buf) (edit_line l cs).
Proof using All.
  induction cs as [|k cs IH]; intros l s He Ht Hf Hc.
  - destruct (readline_enter s l c rest He Ht Hc) as (s' & E & H & Hs). exists s'.
    split; [|done]. apply runs_done. cbn [fst snd]. by rewrite E.
  - inversion_clear Hf as [|?? Hk Hf'].
    destruct (readline_key s l k (cs ++ c :: rest) He Ht Hk) as (s1 & E & H & He1).
    destruct (IH _ s1 He1) as (s' & Hr & H' & Hs); [by apply (ss_typed _ _ _ _ _ _ H)|done..|].
    exists s'. split_and!; [|eapply session_seq; [exact H|exact H'|done|]|exact Hs].
    + eapply runs_step; [|exact Hr]. cbn [fst snd]. by rewrite E.
    + cbn [echo_line]. by rewrite app_assoc.
Qed.

Lemma readline_run prompt text cs c rest s sc :
  on_screen 2000 s sc -> has_buf s -> is_null prompt = false ->
  cstr (text_mem s) prompt text -> Z.of_nat (length text) < 1073741824 ->
  typed s (cs ++ c :: rest) -> Forall (fun c => enters c = false) cs -> enters c = true ->
  Z.of_nat (length cs) < 2 ^ 64 - 1 ->
  exists s', readline buf prompt s = Ok (Addr buf, s') /\
    session typed in_buf (cs ++ [c]) ((s8 <$> text) ++ echo_line [] cs ++ [10]) s s' /\
    cstr (k_mem s') (Addr buf) (edit_line [] cs).
Proof using All.
  intros Hs Hb Hnull Hp Hlen Ht Hf Hc Hcs.
  destruct (session_printf_lit typed in_buf (bytes_of "%s") [APtr prompt] (deref_with prompt text)
    (s8 <$> text) s sc Hs eq_refl) as (s1 & E1 & H1); [by apply deref_with_ok|by apply format_s|].
  destruct (readline_runs cs c rest [] s1) as (s' & Hr & H' & Hl); [|by apply (ss_typed _ _ _ _ _ _ H1)|done..|].
  { split_and!; [eexists; by apply (ss_screen _ _ _ _ _ _ H1)|by eapply session_has_buf| |done].
    split; [done|constructor]. }
  exists s'. split_and!; [|by eapply session_seq|done].
  unfold readline. rewrite Hnull. cbn [negb]. erewrite Mbind_run by (erewrite Mbind_run by exact E1; reflexivity).
  cbv beta. unfold whileM. apply (while_runs _ _ _ _ Hr). lia.
Qed.
End editing.

(** * What [readline] promises *)

(** C19: [readline] is the line editor: whoever types, it shows the prompt,
    takes the keys up to the first return or newline, echoes what
    [echo_line] says and returns [buf] holding the string [edit_line] says;
    backspace and delete take back a character, and what does not fit in the
    1023 characters is dropped.  It writes nothing but [buf] and the display. *)
Theorem readline_spec {D} `{!Ports D} typed `{!Typist D typed} buf prompt text cs c rest (s : kst D) sc :
  on_screen 2000 s sc -> has_buf buf s -> is_null prompt = false ->
  cstr (text_mem s) prompt text -> Z.of_nat (length text) < 1073741824 ->
  typed s (cs ++ c :: rest) -> Forall (fun c => enters c = false) cs -> enters c = true ->
  Z.of_nat (length cs) < 2 ^ 64 - 1 ->
  exists s', readline buf prompt s = Ok (Addr buf, s') /\
    session typed (in_buf buf) (cs ++ [c]) ((s8 <$> text) ++ echo_line [] cs ++ [10]) s s' /\
    cstr (k_mem s') (Addr buf) (edit_line [] cs).
Proof. intros. by eapply readline_run. Qed.

(** C31: every key keeps the invariant of the loop of [readline]: the index is
    the length of the line so far, at most 1023, the array starts with the
    line, its characters are printable codes, and no store leaves the array;
    the loop ends at return and newline only. *)
Theorem readline_invariant {D} `{!Ports D} typed `{!Typist D typed} buf (s : kst D) l c cs :
  editing buf s l -> typed s (c :: cs) ->
  exists r s', readline_body buf true (Z.of_nat (length l)) s = Ok (r, s') /\
    match r with
    | inl i => enters c = false /\ i = Z.of_nat (length (edit_key l c)) /\ i <= 1023 /\
        editing buf s' (edit_key l c) /\ typed s' cs
    | inr p => enters c = true /\ p = Addr buf /\ cstr (k_mem s') (Addr buf) l /\ typed s' cs
    end.
Proof.
  intros He Ht. destruct (enters c) eqn:Hc.
  - destruct (readline_enter typed buf s l c cs He Ht Hc) as (s' & E & H & Hs).
    exists (inr (Addr buf)), s'. split_and!; try done. by apply (ss_typed _ _ _ _ _ _ H).
  - destruct (readline_key typed buf s l c cs He Ht Hc) as (s' & E & H & He').
    eexists (inl _), s'. split_and!; [exact E|done|done|apply He'|done|by apply (ss_typed _ _ _ _ _ _ H)].
Qed.

(** C37: from scan codes to a line: on any machine with a PC keyboard, however
    it times its codes, the line [readline] returns is the edited meaning of
    the codes (for at most 511 characters, which the input ring holds). *)
Theorem keyboard_line {D} `{!Ports D} codes lag `{!Keyboard D codes lag} buf prompt text m cs c (s : kst D) sc :
  on_screen 2000 s sc -> has_buf buf s -> is_null prompt = false ->
  cstr (text_mem s) prompt text -> Z.of_nat (length text) < 1073741824 ->
  k_shift s = enc_mods m -> ring_ok (k_cons s) -> queue (k_cons s) = [] ->
  let ks := codes (h_dev (k_hw s)) in
  no_reboot m ks = true -> meaning m ks = cs ++ [c] ->
  Z.of_nat (length ks) < 2 ^ 31 -> Z.of_nat (length cs) < 511 ->
  Forall (fun c => 0 < c < 256 /\ enters c = false) cs -> enters c = true ->
  exists s', readline buf prompt s = Ok (Addr buf, s') /\
    cstr (k_mem s') (Addr buf) (edit_line [] cs) /\
    on_screen 2000 s' (screen_text ((s8 <$> text) ++ echo_line [] cs ++ [10]) sc).
Proof.
  intros Hs Hb Hn Hp Hl Hm Hr Hq ks Hnr Hks Hkl Hcl Hf Hc. apply Forall_and in Hf as [Hf1 Hf2].
  assert (0 < c < 256) as Hc256.
  { assert (c = 10 \/ c = 13) by (unfold enters in Hc; rewrite orb_true_iff, !Z.eqb_eq in Hc; done). lia. }
  destruct (readline_run (kbd_typed codes) buf prompt text cs c [] s sc Hs Hb Hn Hp Hl) as (s' & E & H & Hline);
    [|exact Hf2|exact Hc|lia|].
  - exists m. split; [by split|]. rewrite Hq, app_nil_l. split; [exact Hr|]. split; [exact Hks|].
    rewrite length_app. cbn [length]. split; [lia|]. split; [exact Hkl|].
    apply Forall_app. split; [exact Hf1|]. constructor; [exact Hc256|constructor].
  - exists s'. split_and!; [exact E|exact Hline|]. by apply (ss_screen _ _ _ _ _ _ H).
Qed.

(** The keys J, O, backspace, K and return. *)
Definition ex_keys : list Z := [0x24; 0xA4; 0x18; 0x98; 0x0E; 0x8E; 0x25; 0xA5; 0x1C; 0x9C].
Definition ex_buf : Z := 0xF0110000.
Definition ex_line_kst : kst (list Z) := ex_kst ex_buf 1024 ex_keys.

Lemma ex_has_buf codes : has_buf ex_buf (ex_kst ex_buf 1024 codes).
Proof.
  split.
  - intros x Hx. unfold ex_kst. change (k_mem (set_mem ?m _)) with m. rewrite write_bytes_lookup, length_replicate.
    rewrite decide_True by (unfold BUFLEN in Hx; lia). apply lookup_lt_is_Some_2.
    rewrite length_replicate. unfold BUFLEN in Hx. lia.
  - intros x Hx Hd. unfold in_buf, ex_buf, BUFLEN in Hx.
    change (display (ex_kst ex_buf 1024 codes) x) with (KERNBASE + CGA_BUF <= x < KERNBASE + CGA_BUF + 4000) in Hd.
    unfold KERNBASE, CGA_BUF in Hd. lia.
Qed.

(** The same with the bytes [l] in the buffer. *)
Definition ex_with (codes l : list Z) : kst (list Z) :=
  let s := ex_kst ex_buf 1024 codes in set_mem (write_bytes (k_mem s) ex_buf l) s.

Lemma ex_with_on_screen codes l : on_screen 2000 (ex_with codes l) (replicate 2000 blank, 0).
Proof.
  apply on_screen_set_mem; [apply ex_kst_on_screen; decided|]. intros x Hx. apply write_bytes_out.
  change (display (ex_kst ex_buf 1024 codes) x) with (KERNBASE + CGA_BUF <= x < KERNBASE + CGA_BUF + 4000) in Hx.
  unfold KERNBASE, CGA_BUF, ex_buf in *. lia.
Qed.

Lemma readline_spec_witness :
  exists s', readline (Ports0 := kbd_ports) ex_buf (lit "K> ") ex_line_kst = Ok (Addr ex_buf, s') /\
    session ex_typed (in_buf ex_buf) [106; 111; 8; 107; 10] (bytes_of "K> " ++ [106; 111; 8; 107; 10]) ex_line_kst s' /\
    cstr (k_mem s') (Addr ex_buf) (bytes_of "jk").
Proof.
  apply (readline_spec ex_typed ex_buf (lit "K> ") (bytes_of "K> ") [106; 111; 8; 107] 10 [] ex_line_kst
    (replicate 2000 blank, 0)); [apply ex_kst_on_screen; decided|apply ex_has_buf|reflexivity|
    apply cstr_lit; decided|decided|apply ex_kst_typed; reflexivity|decided|reflexivity|decided].
Defined.

Lemma readline_invariant_witness :
  exists r s', readline_body (Ports0 := kbd_ports) ex_buf true 0 ex_line_kst = Ok (r, s') /\
    match r with
    | inl i => enters 106 = false /\ i = 1 /\ i <= 1023 /\ editing ex_buf s' [106] /\ ex_typed s' [111; 8; 107; 10]
    | inr p => enters 106 = true /\ p = Addr ex_buf /\ cstr (k_mem s') (Addr ex_buf) [] /\ ex_typed s' [111; 8; 107; 10]
    end.
Proof.
  apply (readline_invariant ex_typed ex_buf ex_line_kst [] 106 [111; 8; 107; 10]); [|apply ex_kst_typed; reflexivity].
  split; [eexists; apply ex_kst_on_screen; decided|]. split; [apply ex_has_buf|]. split; [|done].
  split; [decided|constructor].
Defined.

Lemma keyboard_line_witness :
  exists s', readline (Ports0 := kbd_ports) ex_buf (lit "K> ") ex_line_kst = Ok (Addr ex_buf, s') /\
    cstr (k_mem s') (Addr ex_buf) (bytes_of "jk") /\
    on_screen 2000 s' (screen_text (bytes_of "K> " ++ [106; 111; 8; 107; 10]) (replicate 2000 blank, 0)).
Proof.
  apply (keyboard_line (fmap u8) (fun _ => 0) ex_buf (lit "K> ") (bytes_of "K> ") no_mods [106; 111; 8; 107] 10
    ex_line_kst (replicate 2000 blank, 0)); [apply ex_kst_on_screen; decided|apply ex_has_buf|reflexivity|
    apply cstr_lit; decided|decided|reflexivity| |vm_compute; reflexivity|vm_compute; reflexivity..|decided|decided|decided|reflexivity].
  apply kbd_ring_ok.
Defined.
