(* ===== verification/Args.v ===== *)
(** kern/monitor.c: how [runcmd] splits a command line, in place.

    The parsing loop works on memory only; [argv] is the local array of
    MAXARGS pointers, and a store outside it is a fault.  [tokens] is the
    specification: the maximal runs of characters that are not blanks.  The
    loop overwrites the blanks with NULs, so that each pointer of [argv] is the
    string of its token. *)
From S2P Require Import Prelude Mem Cstring.

Definition WHITESPACE : list Z := [9; 13; 10; 32].
Definition MAXARGS : Z := 16.

Section parsing.
Notation P := (M mem).

(** [strchr(WHITESPACE, c)] finds the character. *)
Definition is_white (c : Z) : P bool :=
  r ← reads (fun m => strchr m (Lit WHITESPACE 0) c); mret (negb (is_null r)).

(** [*buf = v] *)
Definition poke (buf : ptr) (v : Z) : P unit := fun m => m' ← store8 m buf v; Ok (tt, m').

Definition gobble_body (buf : ptr) : P (ptr + ptr) :=
  c ← reads (fun m => loadc m buf);
  if c =? 0 then mret (inr buf)
  else
    w ← is_white c;
    if w : bool then
      poke buf 0 ;; mret (inl (padd buf 1))
    else mret (inr buf).

Definition skip_body (buf : ptr) : P (ptr + ptr) :=
  c ← reads (fun m => loadc m buf);
  if c =? 0 then mret (inr buf)
  else
    w ← is_white c;
    if w : bool then mret (inr buf) else mret (inl (padd buf 1)).

(** [argv[i] = p] *)
Definition argv_set (argv : list ptr) (i : Z) (p : ptr) : res (list ptr) :=
  _ ← at_idx argv i; Ok (<[Z.to_nat i := p]> argv).

(** The loop's state: [argc], [argv] and [buf]; its result [None] when there are
    too many arguments. *)
Definition parse_body (st : Z * list ptr * ptr) : P (Z * list ptr * ptr + option (Z * list ptr)) :=
  let '(argc, argv, buf) := st in
  buf ← whileM gobble_body buf;
  c ← reads (fun m => loadc m buf);
  if c =? 0 then mret (inr (Some (argc, argv)))
  else if argc =? MAXARGS - 1 then mret (inr None)
  else
    argv ← reads (fun _ => argv_set argv argc buf);
    buf ← whileM skip_body buf;
    mret (inl (argc + 1, argv, buf)).

Definition parse_args (buf : ptr) : P (option (Z * list ptr)) :=
  let argc := 0 in
  argv ← reads (fun _ => argv_set (replicate 16 Null) argc Null);
  r ← whileM parse_body (argc, argv, buf);
  match r with
  | None => mret None
  | Some (argc, argv) => argv ← reads (fun _ => argv_set argv argc Null); mret (Some (argc, argv))
  end.
End parsing.

(** * The words of a line *)

Definition white (c : Z) : bool := bool_decide (c ∈ WHITESPACE).

(** [cur] is the word being read. *)
Fixpoint split_words (cur l : list Z) : list (list Z) :=
  match l with
  | [] => match cur with [] => [] | _ => [cur] end
  | c :: l' =>
      if white c then match cur with [] => split_words [] l' | _ => cur :: split_words [] l' end
      else split_words (cur ++ [c]) l'
  end.
Definition tokens (l : list Z) : list (list Z) := split_words [] l.

Example tokens_ex : tokens (bytes_of "  help  me ") = [bytes_of "help"; bytes_of "me"].
Proof. reflexivity. Qed.

(** The longest prefix with the property, and the rest. *)
Fixpoint span (p : Z -> bool) (l : list Z) : list Z * list Z :=
  match l with
  | [] => ([], [])
  | c :: l' => if p c then let '(a, b) := span p l' in (c :: a, b) else ([], l)
  end.

Lemma span_app p l : (span p l).1 ++ (span p l).2 = l.
Proof. induction l as [|c l IH]; simpl; [done|]. destruct (p c); [|done]. destruct (span p l). simpl in *. by rewrite IH. Qed.

Lemma span_all p l : Forall (fun c => p c = true) (span p l).1.
Proof. induction l as [|c l IH]; simpl; [done|]. destruct (p c) eqn:E; [|done]. destruct (span p l). by constructor. Qed.

Lemma span_stop p l c l' : (span p l).2 = c :: l' -> p c = false.
Proof.
  induction l as [|d l IH]; simpl; [done|]. destruct (p d) eqn:E; [|by intros [= <- _]].
  destruct (span p l). exact IH.
Qed.

Lemma split_words_span l : forall cur,
  split_words cur l =
    let '(t, rest) := span (fun c => negb (white c)) l in
    match cur ++ t with [] => [] | w => [w] end ++ tokens rest.
Proof.
  induction l as [|c l IH]; intros cur; cbn [split_words span].
  - change (tokens []) with (@nil (list Z)). rewrite !app_nil_r. by destruct cur.
  - destruct (white c) eqn:Hw; cbn [negb].
    + rewrite (app_nil_r cur). unfold tokens. cbn [split_words]. rewrite Hw. by destruct cur.
    + rewrite IH. destruct (span _ l) as [t rest]. by rewrite <- app_assoc.
Qed.

Lemma tokens_white l : tokens l = tokens (span white l).2.
Proof.
  induction l as [|c l IH]; [done|]. cbn [span]. destruct (white c) eqn:Hw; [|done].
  destruct (span white l) as [a b] eqn:Es. unfold tokens at 1. cbn [split_words snd]. by rewrite Hw.
Qed.

Lemma tokens_word l c l' :
  l = c :: l' -> white c = false ->
  let '(t, rest) := span (fun c => negb (white c)) l in t <> [] /\ tokens l = t :: tokens rest.
Proof.
  intros -> Hw. unfold tokens at 1. rewrite split_words_span. cbn [span]. rewrite Hw. cbn [negb].
  by destruct (span _ l') as [t rest].
Qed.

Lemma length_tokens l : (length (tokens l) <= length l)%nat.
Proof.
  unfold tokens. enough (forall cur, (length (split_words cur l) <= length cur + length l)%nat) as H by apply (H []).
  induction l as [|c l IH]; intros cur; cbn [split_words length].
  - destruct cur; simpl; lia.
  - destruct (white c); [destruct cur; [specialize (IH []); simpl in *; lia|]|].
    + specialize (IH []). simpl in *. lia.
    + specialize (IH (cur ++ [c])). rewrite length_app in IH. simpl in IH. lia.
Qed.

(** * Correctness *)

(** Blanks become NULs. *)
Definition zap (l : list Z) : list Z := (fun c => if white c then 0 else c) <$> l.

Lemma zap_app l1 l2 : zap (l1 ++ l2) = zap l1 ++ zap l2.
Proof. apply fmap_app. Qed.
Lemma length_zap l : length (zap l) = length l.
Proof. apply length_fmap. Qed.
Lemma zap_word t : Forall (fun c => white c = false) t -> zap t = t.
Proof. induction 1 as [|c t Hc _ IH]; [done|]. unfold zap in *. cbn. by rewrite Hc, IH. Qed.

Lemma is_white_run c m : 0 < c < 256 -> is_white (s8 c) m = Ok (white c, m).
Proof.
  intros Hc. unfold is_white. pose proof (strchr_spec m (Lit WHITESPACE 0) WHITESPACE (s8 c)) as E.
  erewrite Mbind_run by (unfold reads; rewrite E by (try apply cstr_lit; decided); reflexivity).
  rewrite u8_s8, u8_small by lia. unfold mret, M_ret. do 2 f_equal.
  pose proof (byte_forall (fun c => negb (is_null match find_char c WHITESPACE with
    | Some i => padd (Lit WHITESPACE 0) i | None => Null end) = white c) eq_refl c) as H.
  apply H. unfold is_byte. lia.
Qed.

Lemma argv_set_run argv i p :
  length argv = 16%nat -> 0 <= i < 16 -> argv_set argv i p = Ok (<[Z.to_nat i := p]> argv).
Proof.
  intros Ha Hi. unfold argv_set. destruct (at_idx_in argv i) as (x & E & _); [lia|]. by rewrite E.
Qed.

Section line.
Context (m0 : mem) (a : Z) (l : list Z).
Hypothesis Hl : cstr m0 (Addr a) l.
Hypothesis Hlen : Z.of_nat (length l) < 2 ^ 32.

(** The memory after the prefix [l1] has been parsed. *)
Definition mem_at (l1 : list Z) : mem := write_bytes m0 a (zap l1).
Notation pos l1 := (Addr (a + Z.of_nat (length l1))).

Lemma args_chars : Forall (fun c => 0 < c < 256) l.
Proof using All. by eapply cstr_chars. Qed.

Lemma line_bytes : bytes m0 (Addr a) (l ++ [0]).
Proof using All. by apply cstr_bytes. Qed.

Lemma load_at l1 l2 : l = l1 ++ l2 -> load8 (mem_at l1) (pos l1) = Ok (hd 0 l2).
Proof using All.
  intros E. pose proof line_bytes as Hb. rewrite E, <- app_assoc in Hb. apply bytes_app in Hb as [_ Hb].
  cbn [padd] in Hb. rewrite load8_addr. unfold mem_at. rewrite write_bytes_out by (rewrite length_zap; lia).
  destruct l2; cbn [app hd bytes] in *; rewrite load8_addr in Hb; apply Hb.
Qed.

Lemma loadc_at l1 l2 : l = l1 ++ l2 -> loadc (mem_at l1) (pos l1) = Ok (s8 (hd 0 l2)).
Proof using All. intros E. unfold loadc. by rewrite (load_at l1 l2 E). Qed.

(** The character the loops look at. *)
Lemma head_char l1 c l2 : l = l1 ++ c :: l2 -> 0 < c < 256.
Proof using All.
  intros E. pose proof args_chars as Hc. rewrite E in Hc. apply Forall_app in Hc as [_ Hc]. by inversion_clear Hc.
Qed.

Lemma s8_nonzero c : 0 < c < 256 -> (s8 c =? 0) = false.
Proof using All. intros Hc. apply Z.eqb_neq. rewrite s8_zero by (unfold is_byte; lia). lia. Qed.

Lemma pos_snoc l1 (w : list Z) : padd (pos l1) (Z.of_nat (length w)) = pos (l1 ++ w).
Proof using All. cbn [padd]. rewrite length_app. f_equal. lia. Qed.

Lemma mem_at_store l1 c l2 :
  l = l1 ++ c :: l2 -> white c = true -> poke (pos l1) 0 (mem_at l1) = Ok (tt, mem_at (l1 ++ [c])).
Proof using All.
  intros E Hw. unfold poke. pose proof (load_at l1 (c :: l2) E) as Hc. rewrite load8_addr in Hc.
  rewrite store8_ok by (by eexists). red_bind. unfold mem_at. rewrite zap_app. cbn. rewrite Hw.
  rewrite write_bytes_app, length_zap. done.
Qed.

Lemma mem_at_word l1 t l2 :
  l = l1 ++ t ++ l2 -> Forall (fun c => white c = false) t -> mem_at (l1 ++ t) = mem_at l1.
Proof using All.
  intros E Hw. unfold mem_at. rewrite zap_app, (zap_word t Hw), write_bytes_app, length_zap.
  apply write_bytes_id, bytes_lookup. intros i b Hi. pose proof (lookup_lt_Some _ _ _ Hi).
  rewrite write_bytes_out by (rewrite length_zap; lia).
  pose proof line_bytes as Hb. rewrite bytes_lookup in Hb.
  replace (a + Z.of_nat (length l1) + Z.of_nat i) with (a + Z.of_nat (length l1 + i)) by lia.
  apply Hb. rewrite E, <- !app_assoc, lookup_app_r by lia.
  replace (length l1 + i - length l1)%nat with i by lia. by rewrite lookup_app_l.
Qed.

Notation run body := (fun st => r ← body st.1 st.2;
  match r with
  | (inl x', t') => Ok (inl (x', t'))
  | (inr a, t') => Ok (inr (a, t'))
  end).

(** Blanks are gobbled. *)
Lemma gobble_runs w : forall l1 l2,
  l = l1 ++ w ++ l2 -> Forall (fun c => white c = true) w -> match l2 with [] => True | c :: _ => white c = false end ->
  runs (run gobble_body) (S (length w)) (pos l1, mem_at l1) (Ok (pos (l1 ++ w), mem_at (l1 ++ w))).
Proof using All.
  induction w as [|c w IH]; intros l1 l2 E Hw Hs.
  - rewrite app_nil_r. apply runs_done. cbn [fst snd app] in *. unfold gobble_body.
    erewrite Mbind_run by (unfold reads; rewrite (loadc_at l1 l2 E); reflexivity). cbv beta.
    destruct l2 as [|c l2]; [done|]. cbn [hd]. pose proof (head_char _ _ _ E) as Hc.
    rewrite s8_nonzero by done. by erewrite Mbind_run, Hs by (by apply is_white_run).
  - inversion_clear Hw as [|?? Hcw Hw']. cbn [app] in E. pose proof (head_char _ _ _ E) as Hc.
    eapply runs_step; [|rewrite (cons_middle c l1 w), (app_assoc l1 [c] w); apply (IH (l1 ++ [c]) l2); [by rewrite <- app_assoc|done|done]].
    cbn [fst snd]. unfold gobble_body.
    erewrite Mbind_run by (unfold reads; rewrite (loadc_at l1 _ E); reflexivity). cbv beta. cbn [hd].
    rewrite s8_nonzero by done. erewrite Mbind_run, Hcw by (by apply is_white_run).
    erewrite Mbind_run by (by eapply mem_at_store). cbv beta.
    change 1 with (Z.of_nat (length [c])). by rewrite pos_snoc.
Qed.

(** A word is skipped. *)
Lemma skip_runs t : forall l1 l2,
  l = l1 ++ t ++ l2 -> Forall (fun c => white c = false) t -> match l2 with [] => True | c :: _ => white c = true end ->
  runs (run skip_body) (S (length t)) (pos l1, mem_at l1) (Ok (pos (l1 ++ t), mem_at (l1 ++ t))).
Proof using All.
  induction t as [|c t IH]; intros l1 l2 E Hw Hs.
  - rewrite app_nil_r. apply runs_done. cbn [fst snd app] in *. unfold skip_body.
    erewrite Mbind_run by (unfold reads; rewrite (loadc_at l1 l2 E); reflexivity). cbv beta.
    destruct l2 as [|c l2]; [done|]. cbn [hd]. pose proof (head_char _ _ _ E) as Hc.
    rewrite s8_nonzero by done. by erewrite Mbind_run, Hs by (by apply is_white_run).
  - inversion_clear Hw as [|?? Hcw Hw']. cbn [app] in E. pose proof (head_char _ _ _ E) as Hc.
    eapply runs_step; [|rewrite (cons_middle c l1 t), (app_assoc l1 [c] t); apply (IH (l1 ++ [c]) l2); [by rewrite <- app_assoc|done|done]].
    cbn [fst snd]. unfold skip_body.
    erewrite Mbind_run by (unfold reads; rewrite (loadc_at l1 _ E); reflexivity). cbv beta. cbn [hd].
    rewrite s8_nonzero by done. erewrite Mbind_run, Hcw by (by apply is_white_run).
    rewrite (mem_at_word l1 [c] (t ++ l2)) by (by repeat constructor).
    change 1 with (Z.of_nat (length [c])). by rewrite pos_snoc.
Qed.

Lemma gobble_run l1 l2 :
  l = l1 ++ l2 -> let '(w, l3) := span white l2 in
  whileM gobble_body (pos l1) (mem_at l1) = Ok (pos (l1 ++ w), mem_at (l1 ++ w)) /\ l = (l1 ++ w) ++ l3.
Proof using All.
  intros E. pose proof (span_app white l2) as Ha. pose proof (span_all white l2) as Hw.
  pose proof (span_stop white l2) as Hs. destruct (span white l2) as [w l3]. cbn [fst snd] in *. subst l2.
  split; [|by rewrite <- app_assoc].
  unfold whileM. apply (while_runs _ _ _ _ (gobble_runs w l1 l3 E Hw ltac:(by destruct l3; [|eapply Hs]))).
  rewrite E, !length_app in Hlen. lia.
Qed.

Lemma skip_run l1 l2 :
  l = l1 ++ l2 -> let '(t, l3) := span (fun c => negb (white c)) l2 in
  whileM skip_body (pos l1) (mem_at l1) = Ok (pos (l1 ++ t), mem_at (l1 ++ t)) /\ l = l1 ++ t ++ l3 /\
  Forall (fun c => white c = false) t /\ match l3 with [] => True | c :: _ => white c = true end.
Proof using All.
  intros E. pose proof (span_app (fun c => negb (white c)) l2) as Ha.
  pose proof (span_all (fun c => negb (white c)) l2) as Hw.
  pose proof (span_stop (fun c => negb (white c)) l2) as Hs.
  destruct (span _ l2) as [t l3]. cbn [fst snd] in *. subst l2.
  assert (Forall (fun c => white c = false) t) as Hw' by (eapply Forall_impl; [exact Hw|]; intros c; apply negb_true_iff).
  assert (match l3 with [] => True | c :: _ => white c = true end) as Hs'
    by (destruct l3; [done|]; by eapply negb_false_iff, Hs).
  split_and!; [|done..].
  unfold whileM. apply (while_runs _ _ _ _ (skip_runs t l1 l3 E Hw' Hs')).
  rewrite E, !length_app in Hlen. lia.
Qed.

(** A pointer to a word of the line. *)
Definition word_at (p : ptr) (t : list Z) : Prop :=
  exists x y, p = pos x /\ l = x ++ t ++ y /\ Forall (fun c => white c = false) t /\
    match y with [] => True | c :: _ => white c = true end.

(** In the parsed line it is a string. *)
Lemma word_cstr p t : word_at p t -> cstr (mem_at l) p t.
Proof using All.
  intros (x & y & -> & E & Ht & Hy). apply cstr_bytes. split.
  2: { pose proof args_chars as Hc. rewrite E in Hc. apply Forall_app in Hc as [_ Hc]. by apply Forall_app in Hc as [Hc _]. }
  assert (bytes (mem_at l) (Addr a) (zap l ++ [0])) as Hb.
  { apply bytes_app. split; [apply bytes_write_bytes|]. rewrite length_zap. pose proof (load_at l [] ltac:(by rewrite app_nil_r)).
    by split. }
  set (m := mem_at l) in *. rewrite E, !zap_app, (zap_word t Ht), <- !app_assoc in Hb.
  apply bytes_app in Hb as [_ Hb]. rewrite length_zap in Hb. cbn [padd] in Hb.
  apply bytes_app in Hb as [Hbt Hb]. apply bytes_app. split; [exact Hbt|].
  destruct y as [|c y]; [exact Hb|]. cbn [zap fmap list_fmap app] in Hb. rewrite Hy in Hb.
  split; [apply Hb|done].
Qed.

(** One iteration: the end of the line, or its next word. *)
Lemma parse_step l1 l2 argc argv :
  l = l1 ++ l2 -> length argv = 16%nat -> 0 <= argc <= 15 ->
  tokens l2 = [] /\ parse_body (argc, argv, pos l1) (mem_at l1) = Ok (inr (Some (argc, argv)), mem_at l) \/
  exists l1' t l4, tokens l2 = t :: tokens l4 /\ (length l4 < length l2)%nat /\ l = (l1' ++ t) ++ l4 /\
    word_at (pos l1') t /\
    parse_body (argc, argv, pos l1) (mem_at l1) =
      if argc =? 15 then Ok (inr None, mem_at l1')
      else Ok (inl (argc + 1, <[Z.to_nat argc := pos l1']> argv, pos (l1' ++ t)), mem_at (l1' ++ t)).
Proof using All.
  intros E Ha Hargc.
  pose proof (gobble_run l1 l2 E) as Hg. rewrite (tokens_white l2). pose proof (span_app white l2) as Hsp.
  pose proof (span_stop white l2) as Hst. destruct (span white l2) as [w l3]. cbn [fst snd] in *. destruct Hg as [Eg El].
  unfold parse_body. destruct l3 as [|c l3]; [left|right].
  { split; [done|]. erewrite Mbind_run by exact Eg. cbv beta.
    erewrite Mbind_run by (unfold reads; rewrite (loadc_at _ [] El); reflexivity).
    rewrite app_nil_r in El. by rewrite <- El. }
  assert (white c = false) as Hc by (by eapply Hst).
  pose proof (tokens_word (c :: l3) c l3 eq_refl Hc) as Ht. pose proof (skip_run (l1 ++ w) (c :: l3) El) as Hs.
  pose proof (span_app (fun c => negb (white c)) (c :: l3)) as Hsp2.
  destruct (span _ (c :: l3)) as [t l4]. cbn [fst snd] in Hsp2. destruct Ht as [Hne Ht], Hs as (Es & El4 & Hwt & Hy).
  assert (0 < length t)%nat as Ht0 by (destruct t; [done|cbn; lia]).
  exists (l1 ++ w), t, l4. split_and!; [done| |by rewrite <- app_assoc|by exists (l1 ++ w), l4|].
  { rewrite <- Hsp, <- Hsp2, !length_app. lia. }
  erewrite Mbind_run by exact Eg. cbv beta.
  erewrite Mbind_run by (unfold reads; rewrite (loadc_at _ _ El); reflexivity). cbv beta. cbn [hd].
  rewrite s8_nonzero by (by eapply head_char). change (MAXARGS - 1) with 15. destruct (Z.eqb_spec argc 15); [done|].
  erewrite Mbind_run by (unfold reads; rewrite argv_set_run by (done || lia); reflexivity). cbv beta.
  by erewrite Mbind_run by exact Es.
Qed.

(** The loop, from the word number [argc] on. *)
Lemma parse_runs l2 : forall l1 argc argv,
  l = l1 ++ l2 -> length argv = 16%nat -> 0 <= argc <= 15 ->
  exists n r l1', (n <= S (length l2))%nat /\
    runs (run parse_body) n ((argc, argv, pos l1), mem_at l1) (Ok (r, mem_at l1')) /\
    (length l1' <= length l)%nat /\
    if argc + Z.of_nat (length (tokens l2)) <=? 15 then
      l1' = l /\ exists ps argv', r = Some (argc + Z.of_nat (length (tokens l2)), argv') /\ length argv' = 16%nat /\
        Forall2 word_at ps (tokens l2) /\
        take (Z.to_nat argc + length ps) argv' = take (Z.to_nat argc) argv ++ ps
    else r = None.
Proof using All.
  remember (length l2) as k eqn:Hk. revert l2 Hk. induction k as [k IH] using lt_wf_ind.
  intros l2 -> l1 argc argv E Ha Hargc.
  destruct (parse_step l1 l2 argc argv E Ha Hargc) as [[Ht Eb]|(l1' & t & l4 & Ht & Hlt & El & Hw & Eb)];
    rewrite Ht; cbn [length].
  { exists 1%nat, (Some (argc, argv)), l. rewrite Z.add_0_r, (proj2 (Z.leb_le argc 15)) by lia.
    split_and!; [lia|apply runs_done; cbn [fst snd]; by rewrite Eb|done|done|].
    exists [], argv. split_and!; [done|done|done|]. by rewrite Nat.add_0_r, app_nil_r. }
  destruct (Z.eqb_spec argc 15) as [->|Hne15].
  { exists 1%nat, None, l1'. rewrite (proj2 (Z.leb_gt _ 15)) by lia. split_and!; [lia| | |done].
    - apply runs_done. cbn [fst snd]. by rewrite Eb.
    - rewrite El, !length_app. lia. }
  destruct (IH (length l4) Hlt l4 eq_refl (l1' ++ t) (argc + 1) (<[Z.to_nat argc := pos l1']> argv) El)
    as (n & r & lf & Hn & Hr & Hlf & H); [by rewrite length_insert|lia|].
  exists (S n), r, lf. split_and!; [lia|eapply runs_step; [|exact Hr]; cbn [fst snd]; by rewrite Eb|done|].
  replace (argc + Z.of_nat (S (length (tokens l4)))) with (argc + 1 + Z.of_nat (length (tokens l4))) by lia.
  destruct (Z.leb_spec (argc + 1 + Z.of_nat (length (tokens l4))) 15); [|done].
  destruct H as (-> & ps & argv' & -> & Ha' & Hps & Htk). split; [done|].
  exists (pos l1' :: ps), argv'. split_and!; [done|done|by constructor|].
  cbn [length]. replace (Z.to_nat argc + S (length ps))%nat with (Z.to_nat (argc + 1) + length ps)%nat by lia.
  rewrite Htk. replace (Z.to_nat (argc + 1)) with (S (Z.to_nat argc)) by lia.
  rewrite (take_S_r _ _ (pos l1')) by (apply list_lookup_insert_eq; lia).
  rewrite take_insert_ge by lia. by rewrite <- app_assoc.
Qed.

Lemma parse_args_run :
  exists r l1, parse_args (Addr a) m0 = Ok (r, mem_at l1) /\ (length l1 <= length l)%nat /\
    if Z.of_nat (length (tokens l)) <=? 15 then
      l1 = l /\ exists argv, r = Some (Z.of_nat (length (tokens l)), argv) /\ length argv = 16%nat /\
        argv !! length (tokens l) = Some Null /\
        Forall2 word_at (take (length (tokens l)) argv) (tokens l)
    else r = None.
Proof using All.
  destruct (parse_runs l [] 0 (replicate 16 Null) eq_refl eq_refl ltac:(lia)) as (n & r & l1' & Hn & Hr & Hl1 & H).
  assert (whileM parse_body (0, replicate 16 Null, Addr a) m0 = Ok (r, mem_at l1')) as Ew.
  { unfold whileM. cbn [length] in Hr. change (mem_at []) with m0 in Hr. rewrite Z.add_0_r in Hr.
    apply (while_runs _ _ _ _ Hr). lia. }
  exists (match r with Some (c, v) => Some (c, <[Z.to_nat c := Null]> v) | None => None end), l1'.
  rewrite Z.add_0_l in H. destruct (Z.leb_spec (Z.of_nat (length (tokens l))) 15) as [Hle|Hgt].
  - destruct H as (-> & ps & argv' & -> & Ha & Hps & Htk). pose proof (Forall2_length _ _ _ Hps) as Hlp.
    split.
    + unfold parse_args. change (argv_set (replicate 16 Null) 0 Null) with (Ok (replicate 16 Null)).
      unfold reads at 1. setoid_rewrite (Mbind_run _ _ _ _ _ (eq_refl : _ = Ok (replicate 16 Null, m0))).
      erewrite Mbind_run by exact Ew. cbv beta iota.
      erewrite Mbind_run by (unfold reads; rewrite argv_set_run by (done || lia); reflexivity). done.
    + split; [done|]. split; [done|]. eexists. split_and!; [done|by rewrite length_insert| |].
      * rewrite Nat2Z.id. apply list_lookup_insert_eq. lia.
      * rewrite Nat2Z.id, take_insert_ge by lia. change (Z.to_nat 0) with 0%nat in Htk. rewrite take_0 in Htk. cbn [Nat.add app] in Htk. by rewrite <- Hlp, Htk.
  - subst r. split; [|done]. unfold parse_args.
    change (argv_set (replicate 16 Null) 0 Null) with (Ok (replicate 16 Null)).
    unfold reads at 1. setoid_rewrite (Mbind_run _ _ _ _ _ (eq_refl : _ = Ok (replicate 16 Null, m0))).
    by erewrite Mbind_run by exact Ew.
Qed.
End line.

(** C38: [runcmd] splits the line in place: the pointers of [argv] are the
    strings of its words, in order, with a null pointer after the last; the
    blanks have become NULs and nothing else has changed.  With more than 15
    words it gives up. *)
Theorem parse_args_spec m a l :
  cstr m (Addr a) l -> Z.of_nat (length l) < 2 ^ 32 ->
  (Z.of_nat (length (tokens l)) <= 15 -> exists argv,
     parse_args (Addr a) m = Ok (Some (Z.of_nat (length (tokens l)), argv), write_bytes m a (zap l)) /\
     length argv = 16%nat /\ argv !! length (tokens l) = Some Null /\
     Forall2 (fun p t => cstr (write_bytes m a (zap l)) p t) (take (length (tokens l)) argv) (tokens l)) /\
  (15 < Z.of_nat (length (tokens l)) -> exists l1,
     parse_args (Addr a) m = Ok (None, write_bytes m a (zap l1))).
Proof.
  intros Hl Hlen. destruct (parse_args_run m a l Hl Hlen) as (r & l1 & E & _ & H). split; intros Ht.
  - rewrite (proj2 (Z.leb_le _ 15)) in H by done. destruct H as (-> & argv & -> & Ha & Hn & Hw).
    exists argv. split_and!; [exact E|done|done|]. eapply Forall2_impl; [exact Hw|]. intros p t. by apply word_cstr.
  - rewrite (proj2 (Z.leb_gt _ 15)) in H by done. subst r. by exists l1.
Qed.

Definition ex_line : list Z := bytes_of "  help  me ".
Definition ex_line_mem : mem := write_bytes ∅ 0x1000 (ex_line ++ [0]).

Lemma parse_args_spec_witness : exists argv,
  parse_args (Addr 0x1000) ex_line_mem = Ok (Some (2, argv), write_bytes ex_line_mem 0x1000 (zap ex_line)) /\
  length argv = 16%nat /\ argv !! 2%nat = Some Null /\
  Forall2 (fun p t => cstr (write_bytes ex_line_mem 0x1000 (zap ex_line)) p t) (take 2 argv)
    [bytes_of "help"; bytes_of "me"].
Proof. apply (parse_args_spec ex_line_mem 0x1000 ex_line); decided. Defined.
