(* ===== verification/Monitor.v ===== *)
(** kern/monitor.c: the kernel monitor and its commands help and kerninfo.

    The array of [readline] is at [buf]; the symbols [mon_kerninfo] prints are
    those of the linker.  A pointer to a handler is one of the constructors of
    [handler], called by [call].  The specification of a command line is the
    text of its answer, [reply]; a session with the monitor is a sequence of
    lines, each answered and followed by a new prompt. *)
From S2P Require Import Prelude Mem Cstring Emit Printfmt FormatSpec Mmu Machine ConsOut Printf ConsIn.
From S2P Require Import Console Keyboard Readline Args.

Record ksyms := mkSyms {
  sym_start : Z; sym_entry : Z; sym_etext : Z; sym_edata : Z; sym_end : Z }.

(** The functions the table of commands points to. *)
Inductive handler := Help | Kerninfo.

Record Command := mkCommand { c_name : string; c_desc : string; c_func : handler }.

Definition commands : list Command := [
  mkCommand "help" "Display this list of commands" Help;
  mkCommand "kerninfo" "Display information about the kernel" Kerninfo ].
Definition NCOMMANDS : Z := Z.of_nat (length commands).

Section monitor.
Context {D : Type} `{!Ports D} (buf : Z) (sy : ksyms) (lines : nat).
Notation K := (M (kst D)).

Definition mon_help_body (i : Z) : K (Z + unit) :=
  if i <? NCOMMANDS then
    c ← reads (fun _ => at_idx commands i);
    cprintf (lit_nl "%s - %s") [APtr (lit (c_name c)); APtr (lit (c_desc c))] ;;
    mret (inl (i + 1))
  else mret (inr tt).

Definition mon_help (argc : Z) (argv : list ptr) (tf : ptr) : K Z :=
  whileM mon_help_body 0 ;; mret 0.

Definition mon_kerninfo (argc : Z) (argv : list ptr) (tf : ptr) : K Z :=
  cprintf (lit_nl "Special kernel symbols:") [] ;;
  cprintf (lit_nl "  _start                  %08x (phys)") [APtr (Addr (sym_start sy))] ;;
  cprintf (lit_nl "  entry  %08x (virt)  %08x (phys)")
    [APtr (Addr (sym_entry sy)); APtr (Addr (sym_entry sy - KERNBASE))] ;;
  cprintf (lit_nl "  etext  %08x (virt)  %08x (phys)")
    [APtr (Addr (sym_etext sy)); APtr (Addr (sym_etext sy - KERNBASE))] ;;
  cprintf (lit_nl "  edata  %08x (virt)  %08x (phys)")
    [APtr (Addr (sym_edata sy)); APtr (Addr (sym_edata sy - KERNBASE))] ;;
  cprintf (lit_nl "  end    %08x (virt)  %08x (phys)")
    [APtr (Addr (sym_end sy)); APtr (Addr (sym_end sy - KERNBASE))] ;;
  cprintf (lit_nl "Kernel executable memory footprint: %dKB")
    [AInt (Z.quot (ROUNDUP s32 (s32 (sym_end sy - sym_entry sy)) 1024) 1024)] ;;
  mret 0.

Definition call (f : handler) (argc : Z) (argv : list ptr) (tf : ptr) : K Z :=
  match f with
  | Help => mon_help argc argv tf
  | Kerninfo => mon_kerninfo argc argv tf
  end.

(** The lookup of the command, from number [i] on. *)
Definition lookup_body (argc : Z) (argv : list ptr) (tf : ptr) (i : Z) : K (Z + Z) :=
  arg0 ← reads (fun _ => at_idx argv 0);
  if i <? NCOMMANDS then
    c ← reads (fun _ => at_idx commands i);
    d ← reads (fun s => strcmp (k_mem s) arg0 (lit (c_name c)));
    if d =? 0 then r ← call (c_func c) argc argv tf; mret (inr r)
    else mret (inl (i + 1))
  else
    cprintf (lit_nl "Unknown command '%s'") [APtr arg0] ;; mret (inr 0).

Definition runcmd (line : ptr) (tf : ptr) : K Z :=
  r ← on_mem (parse_args line);
  match r with
  | None => cprintf (lit_nl "Too many arguments (max %d)") [AInt MAXARGS] ;; mret 0
  | Some (argc, argv) =>
      if argc =? 0 then mret 0
      else whileM (lookup_body argc argv tf) 0
  end.

Definition monitor_body (tf : ptr) (_ : unit) : K (unit + unit) :=
  line ← readline buf (lit "K> ");
  if negb (is_null line) then
    r ← runcmd line tf;
    if r <? 0 then mret (inr tt) else mret (inl tt)
  else mret (inl tt).

(** The banner, with its colour escapes. *)
Definition colour (n : string) (text : string) : list Z := 27 :: bytes_of n ++ bytes_of text.
Definition banner : list Z :=
  colour "[31m" "Welcome " ++ colour "[32m" "to " ++ colour "[33m" "the " ++ colour "[34m" "JOS " ++
  colour "[35m" "kernel " ++ colour "[36m" "monitor!" ++ 27 :: bytes_of "[0m" ++ [10].

(** Watched for [lines] lines. *)
Definition monitor (tf : ptr) : K (option unit) :=
  cprintf (Lit banner 0) [] ;;
  cprintf (lit_nl "Type 'help' for a list of commands.") [] ;;
  watch lines (fun x => ended (monitor_body tf x)) tt.
End monitor.

(** * What the commands answer *)

Definition help_text : list Z :=
  bytes_of "help - Display this list of commands" ++ [10] ++
  bytes_of "kerninfo - Display information about the kernel" ++ [10].

Definition symbol_text (name : string) (v : Z) : list Z :=
  bytes_of name ++ render_hex8 (u32 v) ++ bytes_of " (virt)  " ++ render_hex8 (u32 (v - KERNBASE)) ++
  bytes_of " (phys)" ++ [10].

Definition kerninfo_text (sy : ksyms) : list Z :=
  bytes_of "Special kernel symbols:" ++ [10] ++
  bytes_of "  _start                  " ++ render_hex8 (u32 (sym_start sy)) ++ bytes_of " (phys)" ++ [10] ++
  symbol_text "  entry  " (sym_entry sy) ++ symbol_text "  etext  " (sym_etext sy) ++
  symbol_text "  edata  " (sym_edata sy) ++ symbol_text "  end    " (sym_end sy) ++
  bytes_of "Kernel executable memory footprint: " ++
  render_dec (s32 (Z.quot (ROUNDUP s32 (s32 (sym_end sy - sym_entry sy)) 1024) 1024)) ++
  bytes_of "KB" ++ [10].

Definition welcome_text : list Z :=
  banner ++ bytes_of "Type 'help' for a list of commands." ++ [10].

(** The answer to a line. *)
Definition reply (sy : ksyms) (l : list Z) : list Z :=
  match tokens l with
  | [] => []
  | t :: _ =>
      if 15 <? Z.of_nat (length (tokens l)) then bytes_of "Too many arguments (max 16)" ++ [10]
      else if decide (t = bytes_of "help") then help_text
      else if decide (t = bytes_of "kerninfo") then kerninfo_text sy
      else bytes_of "Unknown command '" ++ (s8 <$> t) ++ bytes_of "'" ++ [10]
  end.

Example reply_ex : reply (mkSyms 0 0 0 0 0) (bytes_of " hlep me") = bytes_of "Unknown command 'hlep'" ++ [10].
Proof. vm_compute. reflexivity. Qed.

(** * Correctness *)

Section correctness.
Context {D : Type} `{!Ports D} (typed : kst D -> list Z -> Prop) `{!Typist D typed} (buf : Z) (sy : ksyms).
Notation K := (M (kst D)).
Notation says := (says typed).

Lemma says_help argc argv tf : says (mon_help argc argv tf) help_text 0.
Proof using All.
  assert (forall i c o, at_idx commands i = Ok c -> (i <? NCOMMANDS) = true ->
    format deref_lit (bytes_of "%s - %s" ++ [10]) [APtr (lit (c_name c)); APtr (lit (c_desc c))] = Some o ->
    says (mon_help_body i) o (inl (i + 1))) as Hb.
  { intros i c o Hc Hi Ho. unfold mon_help_body. rewrite Hi.
    eapply says_eq; [eapply says_bind; [by apply says_reads|eapply says_bind; [by apply says_printf|apply says_ret]]|].
    by rewrite app_nil_l, app_nil_r. }
  eapply says_eq; [eapply says_bind; [|apply says_ret]|].
  - apply (says_while _ _ 3); [|lia]. eapply says_next; [eapply (Hb 0); [reflexivity|reflexivity|vm_compute; reflexivity]|].
    eapply says_next; [eapply (Hb 1); [reflexivity|reflexivity|vm_compute; reflexivity]|]. apply says_stop, says_ret.
  - by vm_compute.
Qed.

Lemma says_kerninfo argc argv tf : says (mon_kerninfo sy argc argv tf) (kerninfo_text sy) 0.
Proof using All.
  eapply says_eq; [unfold mon_kerninfo; repeat (eapply says_bind; [apply says_printf; [done|reflexivity|eval_format; reflexivity]|]); apply says_ret|].
  unfold kerninfo_text, symbol_text. cbn [bytes_of app fmap option_fmap option_map].
  rewrite <- !app_assoc. reflexivity.
Qed.

(** A printing action after something else. *)
Lemma says_after {A} (a : K A) o v i o1 (R : Z -> Prop) s0 s sc :
  says a o v -> session typed R i o1 s0 s -> on_screen 2000 s0 sc ->
  exists s', a s = Ok (v, s') /\ session typed R i (o1 ++ o) s0 s'.
Proof using Type.
  intros Ha H Hs. destruct (Ha s _ (ss_screen _ _ _ _ _ _ H _ Hs)) as (s' & E & H').
  exists s'. split; [done|]. eapply session_seq; [exact H|eapply session_weaken; [|exact H']; by intros x []| |done].
  by rewrite app_nil_r.
Qed.

(** The lookup: a known command answers, another word is refused. *)
Definition answer (t : list Z) : list Z :=
  if decide (t = bytes_of "help") then help_text
  else if decide (t = bytes_of "kerninfo") then kerninfo_text sy
  else bytes_of "Unknown command '" ++ (s8 <$> t) ++ bytes_of "'" ++ [10].

Lemma says_call f argc argv tf :
  says (call sy f argc argv tf) (match f with Help => help_text | Kerninfo => kerninfo_text sy end) 0.
Proof using All. destruct f; [apply says_help|apply says_kerninfo]. Qed.

Lemma strcmp_name m q t name :
  cstr m q t -> Z.of_nat (length t) < 2 ^ 31 -> Forall (fun c => 0 < c < 256) (bytes_of name) ->
  exists d, strcmp m q (lit name) = Ok d /\ (d =? 0) = bool_decide (t = bytes_of name).
Proof using Type.
  intros Hq Ht Hn. exists (str_diff t (bytes_of name)).
  split; [apply strcmp_diff; [done|by apply cstr_lit|lia]|].
  pose proof (str_diff_0 t (bytes_of name) ltac:(by eapply cstr_chars) Hn) as H.
  destruct (Z.eqb_spec (str_diff t (bytes_of name)) 0) as [E|E].
  - symmetry. by apply bool_decide_eq_true, H.
  - symmetry. apply bool_decide_eq_false. by rewrite <- H.
Qed.

Lemma format_unknown q t :
  is_null q = false ->
  format (deref_with q t) (bytes_of "Unknown command '%s'" ++ [10]) [APtr q] =
    Some (bytes_of "Unknown command '" ++ (s8 <$> t) ++ bytes_of "'" ++ [10]).
Proof using Type. intros Hn. pose proof (deref_with_self q t). eval_format. reflexivity. Qed.

Lemma lookup_run argc argv tf q t s sc :
  on_screen 2000 s sc -> at_idx argv 0 = Ok q -> is_null q = false ->
  cstr (k_mem s) q t -> cstr (text_mem s) q t -> Z.of_nat (length t) < 1073741824 ->
  exists s', whileM (lookup_body sy argc argv tf) 0 s = Ok (0, s') /\ session typed (fun _ => False) [] (answer t) s s'.
Proof using All.
  intros Hs Hq Hn Hm Ht Hlen.
  destruct (strcmp_name (k_mem s) q t "help") as (d1 & E1 & B1); [done|lia|decided|].
  destruct (strcmp_name (k_mem s) q t "kerninfo") as (d2 & E2 & B2); [done|lia|decided|].
  assert (forall i c d, at_idx commands i = Ok c -> (i <? NCOMMANDS) = true ->
    strcmp (k_mem s) q (lit (c_name c)) = Ok d ->
    lookup_body sy argc argv tf i s =
      if d =? 0 then (r ← call sy (c_func c) argc argv tf; mret (inr r) : K (Z + Z)) s else Ok (inl (i + 1), s)) as Hb.
  { intros i c d Hc Hi Hd. unfold lookup_body.
    erewrite Mbind_run by (unfold reads; rewrite Hq; reflexivity). cbv beta. rewrite Hi.
    erewrite Mbind_run by (unfold reads; rewrite Hc; reflexivity). cbv beta.
    erewrite Mbind_run by (unfold reads; rewrite Hd; reflexivity). by destruct (d =? 0). }
  pose proof (Hb 0 (mkCommand "help" "Display this list of commands" Help) d1 eq_refl eq_refl E1) as H1.
  pose proof (Hb 1 (mkCommand "kerninfo" "Display information about the kernel" Kerninfo) d2 eq_refl eq_refl E2) as H2.
  cbn [c_func] in H1, H2. change (0 + 1) with 1 in H1. rewrite B1 in H1. rewrite B2 in H2. unfold answer, whileM.
  destruct (decide (t = bytes_of "help")) as [Ht1|Ht1];
    [rewrite bool_decide_true in H1 by done|rewrite bool_decide_false in H1 by done];
    [|destruct (decide (t = bytes_of "kerninfo")) as [Ht2|Ht2];
      [rewrite bool_decide_true in H2 by done|rewrite bool_decide_false in H2 by done]].
  - destruct (says_call Help argc argv tf s sc Hs) as (s' & E & H'). exists s'. split; [|done].
    apply (while_runs _ 1); [|lia]. apply runs_done. cbn [fst snd]. rewrite H1.
    by erewrite Mbind_run by exact E.
  - destruct (says_call Kerninfo argc argv tf s sc Hs) as (s' & E & H'). exists s'. split; [|done].
    apply (while_runs _ 2); [|lia]. apply (runs_step _ 1 _ (1, s)); [cbn [fst snd]; by rewrite H1|].
    apply runs_done. cbn [fst snd]. rewrite H2. by erewrite Mbind_run by exact E.
  - destruct (session_printf_lit typed (fun _ => False) (bytes_of "Unknown command '%s'" ++ [10]) [APtr q] (deref_with q t)
      _ s sc Hs eq_refl ltac:(by apply deref_with_ok) (format_unknown q t Hn)) as (s' & E & H').
    exists s'. split; [|done]. apply (while_runs _ 3); [|lia].
    apply (runs_step _ 2 _ (1, s)); [cbn [fst snd]; by rewrite H1|].
    apply (runs_step _ 1 _ (2, s)); [cbn [fst snd]; by rewrite H2|].
    apply runs_done. cbn [fst snd]. unfold lookup_body.
    erewrite Mbind_run by (unfold reads; rewrite Hq; reflexivity). cbv beta.
    change (2 <? NCOMMANDS) with false. cbv iota. by erewrite Mbind_run by exact E.
Qed.

(** ** A whole command line *)

Lemma runcmd_run l tf s sc :
  on_screen 2000 s sc -> has_buf buf s -> 0 < buf -> cstr (k_mem s) (Addr buf) l -> Z.of_nat (length l) <= 1023 ->
  exists s', runcmd sy (Addr buf) tf s = Ok (0, s') /\ session typed (in_buf buf) [] (reply sy l) s s'.
Proof using All.
  intros Hs Hb Hbuf Hl Hlen.
  destruct (parse_args_run (k_mem s) buf l Hl ltac:(lia)) as (r & l1 & E & Hl1 & H).
  set (s1 := set_mem (mem_at (k_mem s) buf l1) s).
  assert (on_mem (parse_args (Addr buf)) s = Ok (r, s1)) as Ep by (unfold on_mem; by rewrite E).
  assert (session typed (in_buf buf) [] [] s s1) as H1.
  { apply session_store; [done|apply Hb| |].
    - intros x Hx. apply write_bytes_out. rewrite length_zap. unfold in_buf, BUFLEN in Hx. lia.
    - intros x Hx. apply (write_bytes_mapped _ _ _ x 1); [|lia]. intros y Hy. by replace y with x by lia. }
  unfold runcmd, reply. destruct (Z.leb_spec (Z.of_nat (length (tokens l))) 15) as [Hle|Hgt].
  - rewrite (proj2 (Z.ltb_ge 15 _)) by lia. destruct H as (-> & argv & -> & Ha & _ & Hw).
    erewrite Mbind_run by exact Ep. cbv beta iota.
    destruct (tokens l) as [|t ts] eqn:Et; [by exists s1|].
    rewrite (proj2 (Z.eqb_neq _ 0)) by (cbn [length]; lia).
    destruct argv as [|q argv]; [done|]. cbn [length take] in Hw. inversion_clear Hw as [|?? ?? Hq _].
    pose proof (word_cstr (k_mem s) buf l Hl ltac:(lia) q t Hq) as Hc.
    destruct Hq as (x & y & -> & El & _ & _). fold answer.
    assert (Z.of_nat (length x) + Z.of_nat (length t) <= 1023) as Hxt by (rewrite El, !length_app in Hlen; lia).
    destruct (lookup_run (Z.of_nat (length (t :: ts))) (Addr (buf + Z.of_nat (length x)) :: argv) tf
      (Addr (buf + Z.of_nat (length x))) t s1 _ (ss_screen _ _ _ _ _ _ H1 _ Hs)) as (s' & E' & H');
      [done| |exact Hc| |lia|].
    + cbn [is_null]. apply Z.eqb_neq. lia.
    + apply cstr_text; [exact Hc|]. intros a k [= <-] Hk. apply Hb. unfold in_buf, BUFLEN. lia.
    + exists s'. split; [exact E'|]. eapply session_seq; [exact H1|eapply session_weaken; [|exact H']; by intros z []|done..].
  - rewrite (proj2 (Z.ltb_lt 15 _)) by lia. subst r. erewrite Mbind_run by exact Ep. cbv beta iota.
    destruct (tokens l) as [|t ts] eqn:Et; [cbn [length] in Hgt; lia|].
    destruct (says_after (cprintf (lit_nl "Too many arguments (max %d)") [AInt MAXARGS] ;; mret 0)
      (bytes_of "Too many arguments (max 16)" ++ [10]) 0 [] [] (in_buf buf) s s1 sc) as (s' & E' & H'); [|exact H1|exact Hs|by exists s'].
    eapply says_eq; [eapply says_bind; [apply says_printf; [done|reflexivity|vm_compute; reflexivity]|apply says_ret]|done].
Qed.

(** ** Sessions with the monitor *)

(** A line as it is typed: its keys, and the key that ends it. *)
Definition entry : Type := list Z * Z.
Definition entry_ok (e : entry) : Prop :=
  Forall (fun c => enters c = false) e.1 /\ enters e.2 = true /\ Z.of_nat (length e.1) < 2 ^ 63.
Definition entry_keys (e : entry) : list Z := e.1 ++ [e.2].

(** What the user sees: the prompt, the echo of the keys, and the answer. *)
Definition entry_text (e : entry) : list Z :=
  bytes_of "K> " ++ echo_line [] e.1 ++ [10] ++ reply sy (edit_line [] e.1).

Lemma says_welcome :
  says (cprintf (Lit banner 0) [] ;; cprintf (lit_nl "Type 'help' for a list of commands.") []) welcome_text 0.
Proof using All.
  eapply says_eq; [eapply says_bind; (apply says_printf; [done|reflexivity|vm_compute; reflexivity])|by vm_compute].
Qed.

Lemma monitor_round e rest tf s sc :
  on_screen 2000 s sc -> has_buf buf s -> 0 < buf -> entry_ok e -> typed s (entry_keys e ++ rest) ->
  exists s', monitor_body buf sy tf tt s = Ok (inl tt, s') /\
    session typed (in_buf buf) (entry_keys e) (entry_text e) s s'.
Proof using All.
  destruct e as [cs c]. intros Hs Hb Hbuf (Hf & Hc & Hl) Ht. unfold entry_keys in *. cbn [fst snd] in *.
  rewrite <- app_assoc in Ht.
  destruct (readline_run typed buf (lit "K> ") (bytes_of "K> ") cs c rest s sc Hs Hb eq_refl) as (s1 & E1 & H1 & Hline);
    [apply cstr_lit; decided|decided|exact Ht|exact Hf|exact Hc|lia|].
  destruct (runcmd_run (edit_line [] cs) tf s1 _ (ss_screen _ _ _ _ _ _ H1 _ Hs)) as (s' & E & H);
    [by eapply session_has_buf|done|exact Hline|by apply edit_line_length|].
  exists s'. split.
  - unfold monitor_body. erewrite Mbind_run by exact E1. cbv beta. cbn [is_null].
    rewrite (proj2 (Z.eqb_neq buf 0)) by lia. cbn [negb]. by erewrite Mbind_run by exact E.
  - eapply session_seq; [exact H1|exact H|by rewrite app_nil_r|]. unfold entry_text. cbn [fst snd].
    change (s8 <$> bytes_of "K> ") with (bytes_of "K> "). by rewrite <- !app_assoc.
Qed.

(** The loop, watched for the lines [es]. *)
Lemma monitor_rounds es : forall rest tf s sc,
  on_screen 2000 s sc -> has_buf buf s -> 0 < buf -> Forall entry_ok es ->
  typed s (flat_map entry_keys es ++ rest) ->
  exists s', watch (length es) (fun x => ended (monitor_body buf sy tf x)) tt s = Ok (None, s') /\
    session typed (in_buf buf) (flat_map entry_keys es) (flat_map entry_text es) s s'.
Proof using All.
  induction es as [|e es IH]; intros rest tf s sc Hs Hb Hbuf Hes Ht; [exists s; split; [done|apply session_refl]|].
  inversion_clear Hes as [|?? He Hes']. cbn [flat_map] in *. rewrite <- app_assoc in Ht.
  destruct (monitor_round e (flat_map entry_keys es ++ rest) tf s sc Hs Hb Hbuf He Ht) as (s1 & E1 & H1).
  destruct (IH rest tf s1 _ (ss_screen _ _ _ _ _ _ H1 _ Hs)) as (s' & E & H);
    [by eapply session_has_buf|done|done|by apply (ss_typed _ _ _ _ _ _ H1)|].
  exists s'. split; [|by eapply session_seq]. cbn [length]. rewrite watch_S.
  erewrite after_run by exact (ended_run _ _ _ _ E1). exact E.
Qed.

Lemma monitor_run es rest tf s sc :
  on_screen 2000 s sc -> has_buf buf s -> 0 < buf -> Forall entry_ok es ->
  typed s (flat_map entry_keys es ++ rest) ->
  exists s', monitor buf sy (length es) tf s = Ok (None, s') /\
    session typed (in_buf buf) (flat_map entry_keys es) (welcome_text ++ flat_map entry_text es) s s'.
Proof using All.
  intros Hs Hb Hbuf Hes Ht. destruct (says_welcome s sc Hs) as (s1 & E1 & H1).
  destruct (monitor_rounds es rest tf s1 _ (ss_screen _ _ _ _ _ _ H1 _ Hs)) as (s' & E & H);
    [by eapply session_has_buf|done|done|by apply (ss_typed _ _ _ _ _ _ H1)|].
  exists s'. split; [|eapply session_seq; [eapply session_weaken; [|exact H1]; by intros x []|exact H|done|done]].
  unfold monitor. rewrite <- Mbind_assoc. by erewrite Mbind_run by exact E1.
Qed.
End correctness.

(** * The monitor has no way out *)

Section forever.
Context {D : Type} `{!Ports D} (buf : Z) (sy : ksyms).
Notation K := (M (kst D)).

Lemma call_zero f argc argv tf (s : kst D) r s' : call sy f argc argv tf s = Ok (r, s') -> r = 0.
Proof using Type.
  destruct f; cbn [call]; unfold mon_help, mon_kerninfo; intros E;
    repeat apply Mbind_Ok in E as (? & ? & _ & E); by injection E.
Qed.

Lemma runcmd_zero line tf (s : kst D) r s' : runcmd sy line tf s = Ok (r, s') -> r = 0.
Proof using Type.
  unfold runcmd. intros (o & s1 & _ & E)%Mbind_Ok. destruct o as [[argc argv]|].
  - destruct (argc =? 0); [by injection E|]. unfold whileM in E.
    refine (while_inv _ (fun _ => True) (fun r => r.1 = 0) (0, s1) (r, s') _ Logic.I E).
    intros [i t] _. cbn [fst snd]. destruct (lookup_body sy argc argv tf i t) as [[[j|r'] t']|] eqn:El; red_bind; try done.
    unfold lookup_body in El. apply Mbind_Ok in El as (? & ? & _ & El). destruct (i <? NCOMMANDS).
    + apply Mbind_Ok in El as (c & ? & _ & El). apply Mbind_Ok in El as (d & ? & _ & El).
      destruct (d =? 0); [|done]. apply Mbind_Ok in El as (r2 & ? & Ec & El). injection El as <- _.
      by eapply call_zero.
    + apply Mbind_Ok in El as (? & ? & _ & El). by injection El as <- _.
  - apply Mbind_Ok in E as (? & ? & _ & E). by injection E.
Qed.

Lemma monitor_forever lines tf (s : kst D) s' : monitor buf sy lines tf s <> Ok (Some tt, s').
Proof using Type.
  unfold monitor. intros E. do 2 apply Mbind_Ok in E as (? & ? & _ & E). revert E. apply watch_endless. clear.
  intros [] s [] s' E. unfold ended in E. apply Mbind_Ok in E as (o & s1 & Eb & [= ->]). subst s1.
  unfold monitor_body in Eb. apply Mbind_Ok in Eb as (line & t1 & _ & Eb). destruct (negb (is_null line)); [|done].
  apply Mbind_Ok in Eb as (r & t2 & Er & Eb). apply runcmd_zero in Er as ->. done.
Qed.
End forever.

(** * What the monitor promises *)

(** C20: a command line is answered as [reply] says, whatever it holds: help and
    kerninfo by name, the refusal of an unknown command or of too many words,
    and silence for a blank line; the answer goes to the console, [runcmd]
    returns 0, and only the line's own buffer and the display change. *)
Theorem runcmd_spec {D} `{!Ports D} typed `{!Typist D typed} buf sy l tf (s : kst D) sc :
  on_screen 2000 s sc -> has_buf buf s -> 0 < buf -> cstr (k_mem s) (Addr buf) l -> Z.of_nat (length l) <= 1023 ->
  exists s', runcmd sy (Addr buf) tf s = Ok (0, s') /\ session typed (in_buf buf) [] (reply sy l) s s'.
Proof. exact (runcmd_run typed buf sy l tf s sc). Qed.

(** C26: the monitor serves every line typed: after the banner it prompts, echoes
    and answers the lines [es] one after the other, and is then at its loop,
    ready for the next; the transcript on the display and the ports is exactly
    this.  It never returns, however long it is watched. *)
Theorem monitor_session {D} `{!Ports D} typed `{!Typist D typed} buf sy es rest tf (s : kst D) sc :
  on_screen 2000 s sc -> has_buf buf s -> 0 < buf -> Forall entry_ok es ->
  typed s (flat_map entry_keys es ++ rest) ->
  (exists s', monitor buf sy (length es) tf s = Ok (None, s') /\ typed s' rest /\
    session typed (in_buf buf) (flat_map entry_keys es) (welcome_text ++ flat_map (entry_text sy) es) s s') /\
  forall lines s', monitor buf sy lines tf s <> Ok (Some tt, s').
Proof.
  intros Hs Hb Hbuf Hes Ht. split; [|intros lines s'; apply monitor_forever].
  destruct (monitor_run typed buf sy es rest tf s sc Hs Hb Hbuf Hes Ht) as (s' & E & H).
  exists s'. split_and!; [done|by apply (ss_typed _ _ _ _ _ _ H)|done].
Qed.

Definition ex_syms : ksyms := mkSyms 0x10000c 0xf010000c 0xf0101a75 0xf0112300 0xf0112944.

(** A state with the line " help" in the buffer. *)
Definition ex_cmd_kst : kst (list Z) := ex_with [] (bytes_of " help" ++ [0]).

Lemma runcmd_spec_witness :
  exists s', runcmd (Ports0 := kbd_ports) ex_syms (Addr ex_buf) Null ex_cmd_kst = Ok (0, s') /\
    session ex_typed (in_buf ex_buf) [] help_text ex_cmd_kst s'.
Proof.
  apply (runcmd_spec ex_typed ex_buf ex_syms (bytes_of " help") Null ex_cmd_kst (replicate 2000 blank, 0));
    [apply ex_with_on_screen| |decided|apply cstr_bytes; split; [apply bytes_write_bytes|decided]|decided].
  apply has_buf_write, ex_has_buf.
Defined.

(** The keys H, E, L, P, return, A, return. *)
Definition ex_session_keys : list Z := [0x23; 0x12; 0x26; 0x19; 0x1C; 0x1E; 0x1C].
Definition ex_entries : list entry := [(bytes_of "help", 10); (bytes_of "a", 10)].

Lemma monitor_session_witness :
  exists s', monitor (Ports0 := kbd_ports) ex_buf ex_syms 2 Null (ex_kst ex_buf 1024 ex_session_keys) = Ok (None, s') /\
    ex_typed s' [] /\
    session ex_typed (in_buf ex_buf) (bytes_of "help" ++ [10] ++ bytes_of "a" ++ [10])
      (welcome_text ++ bytes_of "K> help" ++ [10] ++ help_text ++ bytes_of "K> a" ++ [10] ++
       bytes_of "Unknown command 'a'" ++ [10]) (ex_kst ex_buf 1024 ex_session_keys) s'.
Proof.
  apply (monitor_session ex_typed ex_buf ex_syms ex_entries [] Null (ex_kst ex_buf 1024 ex_session_keys)
    (replicate 2000 blank, 0)); [apply ex_kst_on_screen; decided|apply ex_has_buf|decided| |apply ex_kst_typed; reflexivity].
  repeat constructor.
Defined.
