(* ===== verification/Panic.v ===== *)
(** kern/init.c: [_panic] and [_warn], with the macros of inc/assert.h.

    The variadic arguments are the list [ap].  [cli] and [cld] have no effect
    on the model: interrupts are never enabled, and the code keeps the
    direction flag clear.  After its report a panic serves the monitor for
    ever, so that it is watched for [lines] lines, as the monitor is. *)
From S2P Require Import Prelude Mem Emit Printfmt FormatSpec Mmu Machine ConsOut Printf ConsIn Console.
From S2P Require Import Keyboard Readline Args Monitor.

Section panic.
Context {D : Type} `{!Ports D} (buf : Z) (sy : ksyms) (lines : nat).
Notation K := (M (kst D)).

(** [while (1) monitor(NULL)]: a call of [monitor] that returned would be
    followed by another one. *)
Definition monitor_loop : K (option unit) :=
  watch (S lines) (fun _ : unit => monitor buf sy lines Null ;;? ended (mret (inl tt))) tt.

(** What [_panic] and [_warn] print. *)
Definition report (format : ptr) (file : ptr) (line : Z) (fmt : ptr) (ap : list arg) : K unit :=
  cprintf format [APtr file; AInt line] ;;
  vcprintf fmt ap ;;
  cprintf (lit_nl EmptyString) [] ;;
  mret tt.

(** The part of [_panic] before the label [dead]. *)
Definition panic_first (file : ptr) (line : Z) (fmt : ptr) (ap : list arg) : K unit :=
  panicstr ← gets k_panicstr;
  if negb (is_null panicstr) then mret tt
  else
    modify (set_panicstr fmt) ;;
    report (lit "kernel panic at %s:%d: ") file line fmt ap.

Definition _panic (file : ptr) (line : Z) (fmt : ptr) (ap : list arg) : K (option unit) :=
  panic_first file line fmt ap ;;
  monitor_loop.

Definition _warn (file : ptr) (line : Z) (fmt : ptr) (ap : list arg) : K unit :=
  report (lit "kernel warning at %s:%d: ") file line fmt ap.

(** The macros of inc/assert.h, at [line] of [file]; [text] is the condition as
    it is written. *)
Definition warn (file : ptr) (line : Z) (fmt : ptr) (ap : list arg) : K unit := _warn file line fmt ap.
Definition panic (file : ptr) (line : Z) (fmt : ptr) (ap : list arg) : K (option unit) := _panic file line fmt ap.
Definition assert_ (file : ptr) (line : Z) (x : bool) (text : list Z) : K (option unit) :=
  if negb x then panic file line (lit "assertion failed: %s") [APtr (Lit text 0)] else ended (mret tt).
End panic.

(** [static_assert(x)] compiles when the labels of its cases differ. *)
Definition static_assert (x : Z) : bool := bool_decide (NoDup [0; x]).

Lemma static_assert_ok x : static_assert x = true <-> x <> 0.
Proof.
  unfold static_assert. rewrite bool_decide_eq_true, NoDup_cons, list_elem_of_singleton. pose proof (NoDup_singleton x).
  split; [intros [H0 _] E; by apply H0|intros H0; split; [by intros E; apply H0|done]].
Qed.

(** * What a report shows *)

(** Where, what, and a newline. *)
Definition report_text (kind file : list Z) (line : Z) (out : list Z) : list Z :=
  kind ++ (s8 <$> file) ++ 58 :: render_dec (s32 line) ++ 58 :: 32 :: out ++ [10].

Definition panic_kind : list Z := bytes_of "kernel panic at ".
Definition warn_kind : list Z := bytes_of "kernel warning at ".

Lemma panic_format fl line :
  format (deref_with (Lit fl 0) fl) (panic_kind ++ bytes_of "%s:%d: ") [APtr (Lit fl 0); AInt line] =
    Some (panic_kind ++ (s8 <$> fl) ++ 58 :: render_dec (s32 line) ++ [58; 32]).
Proof. pose proof (deref_with_self (Lit fl 0) fl). unfold panic_kind. eval_format. reflexivity. Qed.

Lemma warn_format fl line :
  format (deref_with (Lit fl 0) fl) (warn_kind ++ bytes_of "%s:%d: ") [APtr (Lit fl 0); AInt line] =
    Some (warn_kind ++ (s8 <$> fl) ++ 58 :: render_dec (s32 line) ++ [58; 32]).
Proof. pose proof (deref_with_self (Lit fl 0) fl). unfold warn_kind. eval_format. reflexivity. Qed.

Section reports.
Context {D : Type} `{!Ports D} (typed : kst D -> list Z -> Prop) `{!Typist D typed} (buf : Z) (sy : ksyms).
Notation K := (M (kst D)).

(** [p] and [ap] are a message with the text [out]. *)
Definition message (m0 : mem) (p : ptr) (ap : list arg) (out : list Z) : Prop :=
  exists l deref, cstr m0 p l /\ Z.of_nat (length l) < 4294967296 /\ deref_ok m0 deref /\
    format deref l ap = Some out.

Lemma report_run kind fl line p ap out s sc :
  on_screen 2000 s sc -> lit_ok (kind ++ bytes_of "%s:%d: ") = true ->
  format (deref_with (Lit fl 0) fl) (kind ++ bytes_of "%s:%d: ") [APtr (Lit fl 0); AInt line] =
    Some (kind ++ (s8 <$> fl) ++ 58 :: render_dec (s32 line) ++ [58; 32]) ->
  Forall (fun c => 0 < c < 256) fl -> Z.of_nat (length fl) < 1073741824 -> message (text_mem s) p ap out ->
  exists s', report (Lit (kind ++ bytes_of "%s:%d: ") 0) (Lit fl 0) line p ap s = Ok (tt, s') /\
    session typed (fun _ => False) [] (report_text kind fl line out) s s'.
Proof using Typist0.
  intros Hs Hl Hf Hfl Hlen (l & deref & Hp & Hll & Hd & Hm).
  destruct (session_printf_lit typed (fun _ => False) _ [APtr (Lit fl 0); AInt line] _ _ s sc Hs Hl
    ltac:(apply deref_with_ok; [by apply cstr_lit|done]) Hf) as (s1 & E1 & H1).
  pose proof (session_text_mem typed _ _ _ _ H1) as Et. pose proof (ss_screen _ _ _ _ _ _ H1 _ Hs) as Hs1.
  destruct (session_vcprintf typed (fun _ => False) p l ap deref out s1 _ Hs1) as (s2 & E2 & H2);
    [by rewrite Et|done|by rewrite Et|done|].
  destruct (session_printf_lit typed (fun _ => False) [10] [] deref_lit [10] s2 _ (ss_screen _ _ _ _ _ _ H2 _ Hs1))
    as (s3 & E3 & H3); [reflexivity|apply deref_lit_ok|reflexivity|].
  exists s3. split.
  - unfold report. erewrite Mbind_run by exact E1. cbv beta. erewrite Mbind_run by exact E2. cbv beta.
    by erewrite Mbind_run by exact E3.
  - eapply session_seq; [eapply session_seq; [exact H1|exact H2|done|reflexivity]|exact H3|done|].
    unfold report_text. rewrite <- !app_assoc. do 2 f_equal. cbn [app]. by rewrite <- !app_assoc.
Qed.

(** The first panic remembers its message and reports; another one does not. *)
Lemma panic_first_run fl line p ap out s sc :
  on_screen 2000 s sc -> k_panicstr s = Null ->
  Forall (fun c => 0 < c < 256) fl -> Z.of_nat (length fl) < 1073741824 -> message (text_mem s) p ap out ->
  exists s', panic_first (Lit fl 0) line p ap s = Ok (tt, s') /\
    session typed (fun _ => False) [] (report_text panic_kind fl line out) (set_panicstr p s) s'.
Proof using Typist0.
  intros Hs Hn Hfl Hlen Hm.
  destruct (report_run panic_kind fl line p ap out (set_panicstr p s) sc Hs eq_refl (panic_format fl line) Hfl Hlen Hm)
    as (s' & E & H).
  exists s'. split; [|exact H]. unfold panic_first. rewrite gets_bind, Hn. cbn [is_null Null]. cbn. exact E.
Qed.

Lemma panic_again_run file line p ap (s : kst D) :
  is_null (k_panicstr s) = false -> panic_first file line p ap s = Ok (tt, s).
Proof using Type. intros Hn. unfold panic_first. rewrite gets_bind, Hn. done. Qed.

Lemma monitor_loop_run lines (s s' : kst D) :
  monitor buf sy lines Null s = Ok (None, s') -> monitor_loop buf sy lines s = Ok (None, s').
Proof using Type.
  intros E. unfold monitor_loop. rewrite watch_S. apply after_running. by apply after_running.
Qed.

Lemma monitor_loop_forever lines (s s' : kst D) : monitor_loop buf sy lines s <> Ok (Some tt, s').
Proof using Type.
  apply watch_endless. clear. intros [] s [] s' (r & s1 & _ & E)%after_Some. discriminate E.
Qed.

Lemma panic_forever lines file line p ap (s s' : kst D) :
  _panic buf sy lines file line p ap s <> Ok (Some tt, s').
Proof using Type.
  unfold _panic. intros E. apply Mbind_Ok in E as ([] & s1 & _ & E). by apply monitor_loop_forever in E.
Qed.

(** The lines typed are served. *)
Lemma monitor_loop_session es rest s sc :
  on_screen 2000 s sc -> has_buf buf s -> 0 < buf -> Forall entry_ok es ->
  typed s (flat_map entry_keys es ++ rest) ->
  exists s', monitor_loop buf sy (length es) s = Ok (None, s') /\
    session typed (in_buf buf) (flat_map entry_keys es) (welcome_text ++ flat_map (entry_text sy) es) s s'.
Proof using Typist0.
  intros Hs Hb Hbuf Hes Ht. destruct (monitor_run typed buf sy es rest Null s sc Hs Hb Hbuf Hes Ht) as (s' & E & H).
  exists s'. split; [by apply monitor_loop_run|exact H].
Qed.
End reports.

(** [assert] does nothing when the condition holds, and otherwise reports the
    condition and does not return. *)
Theorem assert_spec {D} `{!Ports D} typed `{!Typist D typed} buf sy lines fl line x text (s : kst D) sc :
  on_screen 2000 s sc -> k_panicstr s = Null -> Forall (fun c => 0 < c < 256) fl -> Z.of_nat (length fl) < 1073741824 ->
  Forall (fun c => 0 < c < 256) text -> Z.of_nat (length text) < 1073741824 ->
  if (x : bool) then assert_ buf sy lines (Lit fl 0) line x text s = Ok (Some tt, s)
  else (forall s', assert_ buf sy lines (Lit fl 0) line x text s <> Ok (Some tt, s')) /\
    exists s1, assert_ buf sy lines (Lit fl 0) line x text s = monitor_loop buf sy lines s1 /\
      session typed (fun _ => False) []
        (report_text panic_kind fl line (bytes_of "assertion failed: " ++ (s8 <$> text)))
        (set_panicstr (lit "assertion failed: %s") s) s1.
Proof.
  intros Hs Hn Hfl Hlen Htx Htl. destruct x; [done|]. split; [intros s'; apply panic_forever|].
  destruct (panic_first_run typed fl line (lit "assertion failed: %s") [APtr (Lit text 0)]
    (bytes_of "assertion failed: " ++ (s8 <$> text)) s sc Hs Hn Hfl Hlen) as (s1 & E & H).
  { exists (bytes_of "assertion failed: %s"), (deref_with (Lit text 0) text).
    split; [apply cstr_lit; decided|]. split; [decided|]. split; [apply deref_with_ok; [by apply cstr_lit|done]|].
    pose proof (deref_with_self (Lit text 0) text). eval_format. cbn [fmap option_fmap option_map].
    by rewrite app_nil_r. }
  exists s1. split; [|exact H]. unfold assert_, panic, _panic. cbn [negb]. by erewrite Mbind_run by exact E.
Qed.

(** * What a panic promises *)

(** C23: a panic never returns, however long it is watched.  The first one
    remembers its message, reports file, line and message on the console and
    then serves the lines typed at the monitor; a panic during a panic reports
    nothing and goes to the monitor at once.  A warning makes the same report
    under its own heading and returns. *)
Theorem panic_spec {D} `{!Ports D} typed `{!Typist D typed} buf sy fl line p ap out es rest (s : kst D) sc :
  on_screen 2000 s sc -> has_buf buf s -> 0 < buf ->
  Forall (fun c => 0 < c < 256) fl -> Z.of_nat (length fl) < 1073741824 -> message (text_mem s) p ap out ->
  Forall entry_ok es -> typed s (flat_map entry_keys es ++ rest) ->
  let keys := flat_map entry_keys es in
  let served := welcome_text ++ flat_map (entry_text sy) es in
  (forall lines s', _panic buf sy lines (Lit fl 0) line p ap s <> Ok (Some tt, s')) /\
  (k_panicstr s = Null -> exists s',
     _panic buf sy (length es) (Lit fl 0) line p ap s = Ok (None, s') /\ k_panicstr s' = p /\
     session typed (in_buf buf) keys (report_text panic_kind fl line out ++ served) (set_panicstr p s) s') /\
  (is_null (k_panicstr s) = false -> exists s',
     _panic buf sy (length es) (Lit fl 0) line p ap s = Ok (None, s') /\ k_panicstr s' = k_panicstr s /\
     session typed (in_buf buf) keys served s s') /\
  exists s', _warn (Lit fl 0) line p ap s = Ok (tt, s') /\
    session typed (fun _ => False) [] (report_text warn_kind fl line out) s s'.
Proof.
  intros Hs Hb Hbuf Hfl Hlen Hm Hes Ht keys served. split_and!.
  - intros lines s'. apply panic_forever.
  - intros Hn. destruct (panic_first_run typed fl line p ap out s sc Hs Hn Hfl Hlen Hm) as (s1 & E1 & H1).
    destruct (monitor_loop_session typed buf sy es rest s1 _ (ss_screen _ _ _ _ _ _ H1 _ Hs)) as (s' & E & H);
      [eapply session_has_buf; [exact H1|exact Hb]|done|done|by apply (ss_typed _ _ _ _ _ _ H1), typed_panic|].
    assert (session typed (in_buf buf) keys (report_text panic_kind fl line out ++ served) (set_panicstr p s) s') as Hall
      by (eapply session_seq; [eapply session_weaken; [|exact H1]; by intros x []|exact H|done|done]).
    exists s'. split; [unfold _panic; by erewrite Mbind_run by exact E1|].
    split; [exact (ss_panic _ _ _ _ _ _ Hall)|exact Hall].
  - intros Hn. destruct (monitor_loop_session typed buf sy es rest s sc Hs Hb Hbuf Hes Ht) as (s' & E & H).
    exists s'. split; [unfold _panic; by erewrite Mbind_run by (by apply panic_again_run)|].
    split; [exact (ss_panic _ _ _ _ _ _ H)|exact H].
  - exact (report_run typed warn_kind fl line p ap out s sc Hs eq_refl (warn_format fl line) Hfl Hlen Hm).
Qed.

Definition ex_file : list Z := bytes_of "kern/init.c".

Lemma panic_spec_witness :
  let s := ex_kst ex_buf 1024 ex_session_keys in
  exists s', _panic (Ports0 := kbd_ports) ex_buf ex_syms 2 (Lit ex_file 0) 58 (lit "bad %d") [AInt 3] s = Ok (None, s') /\
    k_panicstr s' = lit "bad %d" /\
    session ex_typed (in_buf ex_buf) (flat_map entry_keys ex_entries)
      (bytes_of "kernel panic at kern/init.c:58: bad 3" ++ [10] ++
       welcome_text ++ flat_map (entry_text ex_syms) ex_entries) (set_panicstr (lit "bad %d") s) s'.
Proof.
  destruct (panic_spec (Ports0 := kbd_ports) ex_typed ex_buf ex_syms ex_file 58 (lit "bad %d") [AInt 3] (bytes_of "bad 3") ex_entries []
    (ex_kst ex_buf 1024 ex_session_keys) (replicate 2000 blank, 0)) as (_ & H & _);
    [apply ex_kst_on_screen; decided|apply ex_has_buf|decided|decided|decided| |by repeat constructor|
     apply ex_kst_typed; reflexivity|exact (H eq_refl)].
  exists (bytes_of "bad %d"), deref_lit. split; [apply cstr_lit; decided|]. split; [decided|].
  split; [apply deref_lit_ok|by vm_compute].
Defined.
