(* ===== verification/Safety.v ===== *)
(** Safety of the kernel on any machine: nothing is assumed of the devices.

    Whatever the keyboard, the serial port and the other devices answer, and
    however often, the console's input never faults, [readline] keeps to its
    array and returns it with a string, and the monitor, watched for any number
    of lines, neither faults nor returns.
    What can happen is only that a device keeps a loop busy, which is not a
    fault.  The invariant is [live]: a working display, modifiers in [shift],
    and a well-formed ring; its part that output leaves alone, [rested], is a
    [Typist] of whom nothing will be read, so that the theorems on output apply. *)
From S2P Require Import Prelude Mem Emit Printfmt FormatSpec Mmu Machine ConsOut Printf ConsIn Keeps Console Readline.
From S2P Require Import Args Monitor Panic.

Section safety.
Context {D : Type} `{!Ports D}.
Notation K := (M (kst D)).

Definition rested (s : kst D) (cs : list Z) : Prop :=
  cs = [] /\ ring_ok (k_cons s) /\ exists m, k_shift s = enc_mods m.

Definition live (s : kst D) : Prop := (exists sc, on_screen 2000 s sc) /\ rested s [].

#[export] Instance rested_apart cs : Apart (fun s => rested s cs).
Proof using Type.
  split; try done.
  - intros port _ s a s' Hs E. rewrite inb_run in E. destruct (dev_in port _) as [v d]. by injection E as _ <-.
  - intros port v s a s' Hs E. rewrite outb_run in E. by injection E as _ <-.
Qed.

#[export] Instance rested_typist : Typist D rested.
Proof using Type.
  split; try done.
  - by intros s c cs sc _ [? _].
  - intros s c cs s' Hs E. exact (keeps_cons_putc_at (fun s => rested s cs) 2 c s tt s' Hs E).
Qed.

(** ** Reading the devices *)

(** Between two states only text was printed, devices accessed, and the memory
    of [R] written. *)
Definition stirs (R : Z -> Prop) (s s' : kst D) : Prop := exists out, session rested R [] out s s'.
Notation nowhere := (fun _ : Z => False).

Lemma stirs_refl R s : stirs R s s.
Proof using Type. exists []. apply session_refl. Qed.

Lemma stirs_trans R s1 s2 s3 : stirs R s1 s2 -> stirs R s2 s3 -> stirs R s1 s3.
Proof using Type. intros [o1 H1] [o2 H2]. exists (o1 ++ o2). by eapply session_seq. Qed.

Lemma stirs_weaken R s s' : stirs nowhere s s' -> stirs R s s'.
Proof using Type. intros [o H]. exists o. eapply session_weaken; [|exact H]. by intros x []. Qed.

Lemma stirs_live R s s' : stirs R s s' -> live s -> live s'.
Proof using Type.
  intros [out H] ((sc & Hs) & Hr). split; [by eexists; apply (ss_screen _ _ _ _ _ _ H)|].
  by apply (ss_typed _ _ _ _ _ _ H).
Qed.

(** Accesses to other ports than the two output ports. *)
Lemma stirs_io R (s : kst D) d e :
  outs (COM1 + COM_TX) e = [] -> outs 0x378 e = [] -> stirs R s (after_io d e s).
Proof using Type. intros He1 He2. exists []. split; try done. by exists e. Qed.

(** The static variables of input may change within their invariants. *)
Lemma stirs_cons R (s : kst D) r : (ring_ok (k_cons s) -> ring_ok r) -> stirs R s (set_cons r s).
Proof using Type.
  intros Hr. exists []. split; try done; [exists []; by rewrite app_nil_r|].
  intros cs (Hc & Ho & Hm). split; [exact Hc|]. split; [by apply Hr|exact Hm].
Qed.

Lemma stirs_shift R (s : kst D) m : stirs R s (set_shift (enc_mods m) s).
Proof using Type.
  exists []. split; try done; [exists []; by rewrite app_nil_r|].
  intros cs (Hc & Ho & _). split; [exact Hc|]. split; [exact Ho|by exists m].
Qed.

(** A device routine: it returns, and keeps [live]. *)
Definition polls_live (proc : K Z) : Prop :=
  forall s, live s -> exists c s', proc s = Ok (c, s') /\ stirs nowhere s s'.

Lemma serial_proc_live : polls_live serial_proc_data.
Proof using Type.
  intros s _. unfold serial_proc_data. destruct (dev_in (COM1 + COM_LSR) (h_dev (k_hw s))) as [v d] eqn:E.
  erewrite Mbind_run by (rewrite inb_run; by rewrite E). cbv beta. destruct (Z.land _ _ =? 0).
  - eexists _, _. split; [done|]. by apply stirs_io.
  - rewrite inb_run. destruct (dev_in (COM1 + COM_RX) _) as [w d']. eexists _, _. split; [done|].
    eapply stirs_trans; by apply stirs_io.
Qed.

Lemma kbd_proc_live : polls_live kbd_proc_data.
Proof using Type.
  intros s ((sc & Hs) & Hr & Ho & m & Hm). pose proof (kbd_proc_run s sc m Hs Hm) as Hk. unfold kbd_step in Hk.
  destruct (dev_in KBSTATP _) as [st d1].
  destruct (Z.land _ _ =? 0); [eexists _, _; split; [exact Hk|by apply stirs_io]|].
  destruct (dev_in KBDATAP d1) as [dt d2]. destruct (kbd_press m (u8 dt)) as [m' c].
  set (s1 := after_io d2 _ s) in Hk. set (s2 := set_shift _ s1) in Hk.
  assert (stirs nowhere s s2) as H2 by (apply (stirs_trans _ s s1 s2); [by apply stirs_io|apply stirs_shift]).
  destruct (_ && _); [|eexists _, _; by split].
  destruct Hk as (d & e & A & B & E). eexists _, _. split; [exact E|]. eapply stirs_trans; [exact H2|].
  assert (on_screen 2000 s2 sc) as Hs2 by exact Hs.
  assert (wf_screen 2000 (screen_text reboot_text sc)) as Hw.
  { destruct (console_each reboot_text s sc 0 Hs) as (? & ? & _ & Hw & _). exact Hw. }
  rewrite <- (after_io_io d d e [Out 0x92 3]). eapply stirs_trans; [|by apply stirs_io].
  exists reboot_text. apply session_after_show; try done.
Qed.

Lemma cons_intr_safe proc s :
  polls_live proc -> live s -> safe (cons_intr proc) s (fun _ s' => stirs nowhere s s').
Proof using Type.
  intros Hp Hl. apply (safe_while _ (fun _ t => stirs nowhere s t)); [|apply stirs_refl].
  intros [] t Ht. pose proof (stirs_live _ _ _ Ht Hl) as Hlt. destruct (Hp t Hlt) as (c & t' & E & H).
  assert (stirs nowhere s t') as H' by (by eapply stirs_trans). unfold cons_intr_body.
  eapply safe_bind; [apply (safe_run _ _ _ _ (fun a t => a = c /\ t = t') E); done|]. intros ? ? [-> ->].
  destruct (c =? -1); [by eapply safe_run|]. destruct (c =? 0); [by eapply safe_run|].
  pose proof (stirs_live _ _ _ H Hlt) as (_ & _ & Ho & _).
  eapply safe_bind; [eapply (safe_run _ _ _ _ (fun _ t => stirs nowhere s t) (cons_put_run c t' Ho))|by intros [] ? ?].
  eapply stirs_trans; [exact H'|]. apply stirs_cons. intros _. by apply ring_put_push.
Qed.

Lemma queue_bytes r : ring_ok r -> Forall is_byte (queue r).
Proof using Type.
  intros (_ & Hb & _). apply Forall_fmap, Forall_true. intros i. cbn.
  destruct (r_buf r !! _) as [b|] eqn:E; cbn; [by apply (Forall_lookup_1 _ _ _ _ Hb E)|unfold is_byte; lia].
Qed.

Lemma cons_getc_safe s : live s -> safe cons_getc s (fun c s' => is_byte c /\ stirs nowhere s s').
Proof using Type.
  intros Hl. unfold cons_getc.
  apply (safe_bind _ _ _ (fun _ s1 => stirs nowhere s s1)).
  { unfold serial_intr, safe. rewrite gets_bind. destruct (k_serial_exists s).
    - by apply cons_intr_safe; [apply serial_proc_live|].
    - apply stirs_refl. }
  intros [] s1 H1. apply (safe_bind _ _ _ (fun _ s2 => stirs nowhere s s2)).
  { eapply safe_weaken; [apply cons_intr_safe; [apply kbd_proc_live|by eapply stirs_live]|].
    intros [] s2 H2. by eapply stirs_trans. }
  intros [] s2 H2. pose proof (stirs_live _ _ _ H2 Hl) as (_ & _ & Ho & _).
  destruct (ring_get_queue _ Ho) as (r' & E & Hr' & _). apply (safe_run _ _ (hd 0 (queue (k_cons s2))) (set_cons r' s2)).
  { unfold cons_take. by rewrite E. }
  split; [|eapply stirs_trans; [exact H2|by apply stirs_cons]].
  pose proof (queue_bytes _ Ho) as Hq. destruct Hq; cbn; [unfold is_byte; lia|done].
Qed.

Lemma getchar_safe s : live s -> safe getchar s (fun c s' => is_byte c /\ c <> 0 /\ stirs nowhere s s').
Proof using Type.
  intros Hl. apply (safe_while _ (fun _ t => stirs nowhere s t)); [|apply stirs_refl].
  intros [] t Ht. unfold getchar_body. eapply safe_bind; [by apply cons_getc_safe; eapply stirs_live|].
  intros c t' [Hc H]. assert (stirs nowhere s t') as H' by (by eapply stirs_trans).
  destruct (Z.eqb_spec c 0); by eapply safe_run.
Qed.

(** ** A line *)

Section line.
Context (buf : Z).

(** What is known after a key: the line so far, or the string returned. *)
Definition line_state (s : kst D) (r : Z + ptr) (s' : kst D) : Prop :=
  stirs (in_buf buf) s s' /\
  match r with
  | inl i => exists l, i = Z.of_nat (length l) /\ editing buf s' l
  | inr p => p = Addr buf /\ exists l, line_ok l /\ cstr (k_mem s') p l
  end.

Lemma stirs_editing s s' l : stirs nowhere s s' -> editing buf s l -> editing buf s' l.
Proof using Type. intros [out H]. by eapply session_editing. Qed.

Lemma stirs_has_buf R s s' : stirs R s s' -> has_buf buf s -> has_buf buf s'.
Proof using Type. intros [out H]. by eapply session_has_buf. Qed.

Lemma echo_run e s l :
  editing buf s l -> exists s', echo true e s = Ok (tt, s') /\ stirs nowhere s s' /\ editing buf s' l.
Proof using Type.
  intros He. pose proof He as ((sc & Hs) & _). destruct (session_putchar rested nowhere e s sc Hs) as (s' & E & H).
  exists s'. split; [exact E|]. assert (stirs nowhere s s') by by exists [e]. split; [done|by eapply stirs_editing].
Qed.

Lemma readline_body_safe s0 s l :
  stirs (in_buf buf) s0 s -> live s -> editing buf s l ->
  safe (readline_body buf true (Z.of_nat (length l))) s (line_state s0).
Proof using Type.
  intros H0 Hl He. unfold readline_body. eapply safe_bind; [by apply getchar_safe|].
  intros c s1 (Hc & Hc0 & H1). pose proof (stirs_editing _ _ _ H1 He) as He1.
  assert (stirs (in_buf buf) s0 s1) as H01 by (eapply stirs_trans; [exact H0|by apply stirs_weaken]).
  rewrite (proj2 (Z.ltb_ge c 0)) by (unfold is_byte in Hc; lia).
  assert (forall e, exists s2, echo true e s1 = Ok (tt, s2) /\ stirs (in_buf buf) s0 s2 /\ editing buf s2 l) as Hecho.
  { intros e. destruct (echo_run e s1 l He1) as (s2 & E & H & He2). exists s2. split_and!; [done| |done].
    eapply stirs_trans; [exact H01|by apply stirs_weaken]. }
  destruct (((c =? 8) || (c =? 127)) && (Z.of_nat (length l) >? 0)) eqn:Her.
  - destruct (Hecho 8) as (s2 & E2 & H2 & He2). unfold safe. erewrite Mbind_run by exact E2. cbv beta.
    split; [exact H2|]. apply andb_true_iff in Her as [_ Hpos%Z.gtb_lt].
    exists (removelast l). split; [rewrite length_removelast; lia|]. apply editing_removelast; [exact He2|].
    intros ->. cbn in Hpos. lia.
  - destruct ((c >=? 32) && (Z.of_nat (length l) <? BUFLEN - 1)) eqn:Hf.
    + assert (fits l c = true) as Hfits by (unfold fits; by rewrite <- Z.geb_leb).
      destruct (Hecho c) as (s2 & E2 & H2 & He2). pose proof He2 as ((sc2 & Hs2) & Hb2 & _).
      apply andb_true_iff in Hf as [_ Hlen%Z.ltb_lt]. unfold BUFLEN in Hlen.
      destruct (buf_store_run rested buf s2 sc2 (Z.of_nat (length l)) c Hs2 Hb2) as [E3 H3]; [unfold BUFLEN; lia|].
      unfold safe. erewrite Mbind_run by exact E2. cbv beta. erewrite Mbind_run by exact E3. cbv beta.
      split; [eapply stirs_trans; [exact H2|by exists []]|]. exists (l ++ [c]).
      split; [rewrite length_app; cbn [length]; lia|]. by apply (editing_store rested).
    + destruct ((c =? 10) || (c =? 13)); [|apply (safe_run _ _ (inl (Z.of_nat (length l))) s1); [done|split; [exact H01|by exists l]]].
      destruct (Hecho 10) as (s2 & E2 & H2 & He2). pose proof He2 as ((sc2 & Hs2) & Hb2 & Hlo & _).
      destruct (buf_store_run rested buf s2 sc2 (Z.of_nat (length l)) 0 Hs2 Hb2) as [E3 H3];
        [destruct Hlo; unfold BUFLEN; lia|].
      unfold safe. erewrite Mbind_run by exact E2. cbv beta. erewrite Mbind_run by exact E3. cbv beta.
      split; [eapply stirs_trans; [exact H2|by exists []]|]. split; [done|]. exists l. split; [exact Hlo|].
      by apply editing_end.
Qed.

Lemma readline_run_safe prompt text s :
  live s -> has_buf buf s -> is_null prompt = false ->
  cstr (text_mem s) prompt text -> Z.of_nat (length text) < 1073741824 ->
  safe (readline buf prompt) s (fun p s' => stirs (in_buf buf) s s' /\
    p = Addr buf /\ exists l, line_ok l /\ cstr (k_mem s') p l).
Proof using Type.
  intros Hl Hb Hn Hp Hlen. pose proof Hl as ((sc & Hs) & _).
  destruct (session_printf_lit rested (in_buf buf) (bytes_of "%s") [APtr prompt] (deref_with prompt text)
    (s8 <$> text) s sc Hs eq_refl) as (s1 & E1 & H1); [by apply deref_with_ok|by apply format_s|].
  assert (stirs (in_buf buf) s s1) as H01 by by eexists.
  unfold readline, safe. rewrite Hn. cbn [negb]. erewrite Mbind_run by (erewrite Mbind_run by exact E1; reflexivity).
  cbv beta. change (negb (iscons 0 =? 0)) with true.
  apply (safe_while _ (fun i t => line_state s (inl i) t)).
  - intros i t (Ht & l & -> & He). eapply safe_weaken; [apply (readline_body_safe s); [exact Ht|by eapply stirs_live|exact He]|].
    by intros [j|p] t' H.
  - split; [exact H01|]. exists []. split; [done|]. split_and!; [|by eapply stirs_has_buf| |done].
    + by eapply stirs_live.
    + split; [done|constructor].
Qed.

(** ** The monitor *)

Context (sy : ksyms).

Lemma monitor_body_safe tf s :
  0 < buf -> live s -> has_buf buf s ->
  safe (monitor_body buf sy tf tt) s (fun r s' => r = inl tt /\ stirs (in_buf buf) s s').
Proof using Type.
  intros Hpos Hl Hb. unfold monitor_body. eapply safe_bind.
  { apply (readline_run_safe (lit "K> ") (bytes_of "K> ")); [done|done|done|apply cstr_lit; decided|decided]. }
  intros p s1 (H1 & -> & l & [Hlen _] & Hc). cbn [is_null]. rewrite (proj2 (Z.eqb_neq buf 0)) by lia. cbn [negb].
  destruct (stirs_live _ _ _ H1 Hl) as ((sc & Hs1) & _).
  destruct (runcmd_run rested buf sy l tf s1 sc Hs1) as (s2 & E2 & H2); [by eapply stirs_has_buf|done|done|done|].
  unfold safe. erewrite Mbind_run by exact E2. cbv beta. split; [done|]. eapply stirs_trans; [exact H1|by eexists].
Qed.

Lemma says_stirs {A} (a : K A) o v s sc :
  says rested a o v -> on_screen 2000 s sc -> exists s', a s = Ok (v, s') /\ stirs nowhere s s'.
Proof using Type. intros Ha Hs. destruct (Ha s sc Hs) as (s' & E & H). exists s'. split; [exact E|by exists o]. Qed.

(** It neither faults nor returns, however long it is watched. *)
Lemma monitor_run_safe lines tf s :
  0 < buf -> live s -> has_buf buf s ->
  safe (monitor buf sy lines tf) s (fun r s' => r = None /\ stirs (in_buf buf) s s').
Proof using Type.
  intros Hpos Hl Hb. pose proof Hl as ((sc & Hs) & _).
  destruct (says_stirs _ _ _ s sc (says_welcome rested buf sy) Hs) as (s1 & E1 & H1).
  unfold monitor. unfold safe. rewrite <- Mbind_assoc. erewrite Mbind_run by exact E1. cbv beta.
  eapply safe_weaken; [apply (safe_watch _ (fun _ t => stirs (in_buf buf) s t))|by intros r t [-> [_ Ht]]].
  - intros [] t Ht. eapply safe_weaken; [apply monitor_body_safe; [done|by eapply stirs_live|by eapply stirs_has_buf]|].
    intros r t' [-> H]. by eapply stirs_trans.
  - by apply stirs_weaken.
Qed.

Lemma monitor_loop_safe lines s :
  0 < buf -> live s -> has_buf buf s ->
  safe (monitor_loop buf sy lines) s (fun r s' => r = None /\ stirs (in_buf buf) s s').
Proof using Type.
  intros Hpos Hl Hb. unfold monitor_loop. rewrite watch_S. unfold after at 1 2.
  eapply safe_bind; [eapply safe_bind; [by apply (monitor_run_safe lines Null)|]|].
  - intros r s' [-> H]. by apply (safe_run _ _ None s' (fun r t => r = None /\ stirs (in_buf buf) s t)).
  - intros r s' [-> H]. by apply (safe_run _ _ None s').
Qed.
End line.
End safety.

(** C18: line input is safe on any machine: whatever the devices answer,
    [readline] does not fault; if it returns, it returns its own array, which
    holds a terminated line of at most 1023 characters, none of them a control
    character, and it has written nothing but that array and the display. *)
Theorem readline_safe {D} `{!Ports D} buf prompt text (s : kst D) :
  live s -> has_buf buf s -> is_null prompt = false ->
  cstr (text_mem s) prompt text -> Z.of_nat (length text) < 1073741824 ->
  match readline buf prompt s with
  | Ok (p, s') => p = Addr buf /\ (exists l, line_ok l /\ cstr (k_mem s') p l) /\
      (forall x, ~ in_buf buf x -> ~ display s x -> k_mem s' !! x = k_mem s !! x) /\ live s'
  | Err e => e = Fuel
  end.
Proof.
  intros Hl Hb Hn Hp Hlen. pose proof (readline_run_safe buf prompt text s Hl Hb Hn Hp Hlen) as H. unfold safe in H.
  destruct (readline buf prompt s) as [[p s']|e]; [|exact H]. destruct H as (Hst & Hpb & Hc).
  split; [exact Hpb|]. split; [exact Hc|]. split; [|by eapply stirs_live]. destruct Hst as [o Ho].
  apply (ss_mem _ _ _ _ _ _ Ho).
Qed.

(** A machine whose keyboard and serial port have data at odd moments, of odd
    values: the devices' state counts the accesses.  The noise ends a line. *)
#[local] Instance noise_ports : Ports Z := {|
  dev_in := fun port d => (Z.shiftr (d * d * d + port) 3, d + 1); dev_in16 := fun _ d => (d, d + 1); dev_in32 := fun _ d => (d, d + 1);
  dev_out := fun _ v d => d + v; dev_out16 := fun _ v d => d + v; dev_out32 := fun _ v d => d + v;
  dev_bus := fun d _ => d |}.

Definition ex_noise : kst Z :=
  mkKst (mkHw (write_bytes (write_bytes ∅ (KERNBASE + CGA_BUF) (words (replicate 2000 blank))) 0xF0110000 (replicate 1024 0)) 5 [])
    true (mkCrt CGA_BASE (KERNBASE + CGA_BUF) 0) 0 (mkRing (replicate 512 0) 0 0) Null.

Lemma ex_noise_live : live ex_noise /\ has_buf 0xF0110000 ex_noise.
Proof.
  split; [split|split].
  - exists (replicate 2000 blank, 0). unfold on_screen, wf_screen. split_and!; [exact (length_replicate _ _)| |cbn; lia|cbn; lia| |done|].
    + apply Forall_replicate. decided.
    + apply (bytes_write_bytes_out _ _ _ _ _ (bytes_write_bytes _ _ _)). rewrite length_cells, !length_replicate.
      unfold KERNBASE, CGA_BUF. lia.
    + cbn [addr_6845 k_crt ex_noise]. decided.
  - split; [done|]. split; [|exists (mkMods false false false false false false false); by vm_compute].
    unfold ring_ok, ex_noise. cbn [k_cons r_buf r_rpos r_wpos]. split_and!; try lia; [exact (length_replicate _ _)|].
    apply Forall_replicate. unfold is_byte. lia.
  - apply mapped_block. rewrite length_replicate. unfold BUFLEN. lia.
  - intros x Hx Hd. unfold in_buf, BUFLEN in Hx.
    change (display ex_noise x) with (KERNBASE + CGA_BUF <= x < KERNBASE + CGA_BUF + 4000) in Hd.
    unfold KERNBASE, CGA_BUF in Hd. lia.
Qed.

Example noise_returns : match readline 0xF0110000 (lit "K> ") ex_noise with Ok (p, _) => p | Err _ => Null end = Addr 0xF0110000.
Proof. vm_compute. reflexivity. Qed.

Lemma readline_safe_witness :
  match readline 0xF0110000 (lit "K> ") ex_noise with
  | Ok (p, s') => p = Addr 0xF0110000 /\ (exists l, line_ok l /\ cstr (k_mem s') p l) /\
      (forall x, ~ in_buf 0xF0110000 x -> ~ display ex_noise x -> k_mem s' !! x = k_mem ex_noise !! x) /\ live s'
  | Err e => e = Fuel
  end.
Proof.
  apply (readline_safe 0xF0110000 (lit "K> ") (bytes_of "K> ") ex_noise (proj1 ex_noise_live) (proj2 ex_noise_live) eq_refl);
    [apply cstr_lit; decided|decided].
Defined.
