(* ===== verification/Backtrace.v ===== *)
(** kern/monitor.c, [mon_backtrace]: walking the saved frame pointers.

    [read_ebp] is a register, so the value it returns is the parameter [ebp];
    the frames are in memory, where the compiled functions pushed them.  The
    specification [traces] says what text a chain of frames stands for, with the
    answer of [debuginfo_eip] for each return address. *)
From S2P Require Import Prelude Mem Cstring Emit Printfmt FormatSpec Mmu Machine ConsOut Printf ConsIn Kdebug Console.
From S2P Require Import Keyboard Readline Args Monitor Panic.

Section backtrace.
Context {D : Type} `{!Ports D} (buf : Z) (sy : ksyms) (t : stab_tables) (lines : nat).
Notation K := (M (kst D)).

(** [*(uintptr_t * )a] *)
Definition word (a : Z) : K Z := reads (fun s => load32 (k_mem s) (Addr a)).

(** A panic in the loop may keep it running: the loop ends with [None] then. *)
Definition backtrace_body (ebp : Z) : K (Z + option unit) :=
  if negb (ebp =? 0) then
    eip ← word (ebp + 4 * 1);
    d ← reads (fun s => debuginfo_eip (k_mem s) t eip);
    match d with
    | DbgPanic =>
        (* debuginfo_eip does not come back *)
        r ← _panic buf sy lines (lit "kern/kdebug.c") 127 (lit "User address") []; mret (inr r)
    | DbgRet _ info =>
        args0 ← word (ebp + 4 * 2);
        args1 ← word (ebp + 4 * 3);
        args2 ← word (ebp + 4 * 4);
        args3 ← word (ebp + 4 * 5);
        args4 ← word (ebp + 4 * 6);
        cprintf (lit_nl "  ebp %08x  eip %08x  args %08x %08x %08x %08x %08x")
          [AInt ebp; AInt eip; AInt args0; AInt args1; AInt args2; AInt args3; AInt args4] ;;
        cprintf (lit_nl "         %s:%d: %.*s+%d")
          [APtr (eip_file info); AInt (eip_line info); AInt (eip_fn_namelen info);
           APtr (eip_fn_name info); AInt (u32 (eip - eip_fn_addr info))] ;;
        ebp ← word ebp;
        mret (inl ebp)
    end
  else mret (inr (Some tt)).

Definition mon_backtrace (ebp argc : Z) (argv : ptr) (tf : ptr) : K (option Z) :=
  cprintf (lit_nl "Stack backtrace:") [] ;;
  whileM backtrace_body ebp ;;?
  ended (mret 0).
End backtrace.

(** * What a chain of frames stands for *)

Record frame := mkFrame {
  fr_ebp : Z; fr_eip : Z; fr_a0 : Z; fr_a1 : Z; fr_a2 : Z; fr_a3 : Z; fr_a4 : Z }.

(** The frame at [fr_ebp], and the frame pointer it saved. *)
Definition frame_at (m : mem) (f : frame) (next : Z) : Prop :=
  let w k := load32 m (Addr (fr_ebp f + 4 * k)) in
  load32 m (Addr (fr_ebp f)) = Ok next /\ w 1 = Ok (fr_eip f) /\ w 2 = Ok (fr_a0 f) /\
  w 3 = Ok (fr_a1 f) /\ w 4 = Ok (fr_a2 f) /\ w 5 = Ok (fr_a3 f) /\ w 6 = Ok (fr_a4 f).

(** The frames from [ebp] on, up to the frame pointer [last]. *)
Inductive path (m : mem) (last : Z) : Z -> list frame -> Prop :=
| path_nil : path m last last []
| path_cons f next fs :
    fr_ebp f <> 0 -> frame_at m f next -> path m last next fs -> path m last (fr_ebp f) (f :: fs).

(** All of them: the last frame pointer is null. *)
Definition chain (m : mem) : Z -> list frame -> Prop := path m 0.

Definition frame_text (f : frame) (info : Eipdebuginfo) (file name : list Z) : list Z :=
  bytes_of "  ebp " ++ render_hex8 (u32 (fr_ebp f)) ++ bytes_of "  eip " ++ render_hex8 (u32 (fr_eip f)) ++
  bytes_of "  args " ++ render_hex8 (u32 (fr_a0 f)) ++ [32] ++ render_hex8 (u32 (fr_a1 f)) ++ [32] ++
  render_hex8 (u32 (fr_a2 f)) ++ [32] ++ render_hex8 (u32 (fr_a3 f)) ++ [32] ++ render_hex8 (u32 (fr_a4 f)) ++ [10] ++
  bytes_of "         " ++ (s8 <$> file) ++ [58] ++ render_dec (s32 (eip_line info)) ++ [58; 32] ++
  (s8 <$> take (Z.to_nat (eip_fn_namelen info)) name) ++ [43] ++
  render_dec (s32 (u32 (fr_eip f - eip_fn_addr info))) ++ [10].

(** The lines printed for the frames, two for each. *)
Inductive traces (m : mem) (t : stab_tables) : list frame -> list Z -> Prop :=
| traces_nil : traces m t [] []
| traces_cons f fs rc info file name out :
    debuginfo_eip m t (fr_eip f) = Ok (DbgRet rc info) ->
    cstr m (eip_file info) file -> cstr m (eip_fn_name info) name ->
    Z.of_nat (length file) < 1073741824 -> Z.of_nat (length name) < 1073741824 ->
    0 <= eip_fn_namelen info < 1073741824 -> is_null (eip_file info) = false -> is_null (eip_fn_name info) = false ->
    traces m t fs out -> traces m t (f :: fs) (frame_text f info file name ++ out).

(** Return addresses in the kernel can be traced. *)
Lemma traces_total m t fs :
  tables_ok m t -> t_stabstr_end t - t_stabstr t < 1073741824 -> 0 < t_stabstr t ->
  Forall (fun f => ULIM <= fr_eip f) fs -> exists out, traces m t fs out.
Proof.
  intros Hok Hlen Hpos. induction 1 as [|f fs Hf _ (out & IH)]; [by exists []; constructor|].
  destruct (debuginfo_strings m t Hok _ Hf) as (rc & info & file & name & E & Hfile & Hname & ? & ? & ?).
  destruct (debuginfo_eip_ok m t Hok _ Hf) as (rc' & info' & E' & _ & Hn & Hfn & _).
  rewrite E in E'. injection E' as <- <-.
  assert (forall p, name_ok t p -> is_null p = false) as Hnull.
  { intros p [->|(o & Ho & ->)]; [done|]. cbn. apply Z.eqb_neq. lia. }
  eexists. eapply traces_cons; try done; try lia; by apply Hnull.
Qed.

(** * Correctness *)

Lemma loadn_sub m0 m n : forall p l, m0 ⊆ m -> loadn m0 p n = Ok l -> loadn m p n = Ok l.
Proof.
  induction n as [|n IH]; intros p l Hm; cbn [loadn]; [done|].
  intros (b & Eb & (l' & El & [= <-])%bind_Ok)%bind_Ok.
  rewrite (load8_sub m0 m p b Hm Eb). red_bind. by rewrite (IH _ _ Hm El).
Qed.

Lemma load32_sub m0 m p v : m0 ⊆ m -> load32 m0 p = Ok v -> load32 m p = Ok v.
Proof.
  intros Hm. unfold load32. destruct (loadn m0 p 4) as [l|] eqn:E; [|done]. by rewrite (loadn_sub m0 m 4 p l Hm E).
Qed.

(** Two strings besides the literals. *)
Definition deref_two (p1 : ptr) (s1 : list Z) (p2 : ptr) (s2 : list Z) (p : ptr) : option (list Z) :=
  if decide (p = p1) then Some s1 else deref_with p2 s2 p.

Lemma deref_two_ok m p1 s1 p2 s2 :
  cstr m p1 s1 -> Z.of_nat (length s1) < 1073741824 -> cstr m p2 s2 -> Z.of_nat (length s2) < 1073741824 ->
  deref_ok m (deref_two p1 s1 p2 s2).
Proof.
  intros H1 L1 H2 L2 p l. unfold deref_two. case_decide as Hp; [|by apply deref_with_ok].
  intros [= <-]. by rewrite Hp.
Qed.

Lemma deref_two_snd m p1 s1 p2 s2 : cstr m p1 s1 -> cstr m p2 s2 -> deref_two p1 s1 p2 s2 p2 = Some s2.
Proof.
  intros H1 H2. unfold deref_two. case_decide as Hp; [|apply deref_with_self].
  subst p2. by rewrite (cstr_inj m p1 s1 s2).
Qed.

Section correctness.
Context {D : Type} `{!Ports D} (typed : kst D -> list Z -> Prop) `{!Typist D typed}
  (buf : Z) (sy : ksyms) (t : stab_tables) (lines : nat).
Notation K := (M (kst D)).

Lemma format_regs a b c d e f g :
  format deref_lit (bytes_of "  ebp %08x  eip %08x  args %08x %08x %08x %08x %08x" ++ [10])
    [AInt a; AInt b; AInt c; AInt d; AInt e; AInt f; AInt g] =
  Some (bytes_of "  ebp " ++ render_hex8 (u32 a) ++ bytes_of "  eip " ++ render_hex8 (u32 b) ++
    bytes_of "  args " ++ render_hex8 (u32 c) ++ [32] ++ render_hex8 (u32 d) ++ [32] ++
    render_hex8 (u32 e) ++ [32] ++ render_hex8 (u32 f) ++ [32] ++ render_hex8 (u32 g) ++ [10]).
Proof using Type. eval_format. reflexivity. Qed.

Lemma format_line dr p1 s1 p2 s2 line len off :
  dr p1 = Some s1 -> dr p2 = Some s2 -> is_null p1 = false -> is_null p2 = false -> 0 <= len < 2147483648 ->
  format dr (bytes_of "         %s:%d: %.*s+%d" ++ [10]) [APtr p1; AInt line; AInt len; APtr p2; AInt off] =
  Some (bytes_of "         " ++ (s8 <$> s1) ++ [58] ++ render_dec (s32 line) ++ [58; 32] ++
    (s8 <$> take (Z.to_nat len) s2) ++ [43] ++ render_dec (s32 off) ++ [10]).
Proof using Type. intros H1 H2 N1 N2 Hl. eval_format. reflexivity. Qed.

Lemma word_run m0 (s : kst D) a v : m0 ⊆ k_mem s -> load32 m0 (Addr a) = Ok v -> word a s = Ok (v, s).
Proof using Type. intros Hm E. unfold word, reads. by rewrite (load32_sub m0 _ _ _ Hm E). Qed.

Lemma text_mem_sub (s : kst D) : text_mem s ⊆ k_mem s.
Proof using Type. apply mem_outside_sub. Qed.

(** One frame. *)
Lemma backtrace_frame s sc f next rc info file name :
  on_screen 2000 s sc -> fr_ebp f <> 0 -> frame_at (text_mem s) f next ->
  debuginfo_eip (text_mem s) t (fr_eip f) = Ok (DbgRet rc info) ->
  cstr (text_mem s) (eip_file info) file -> cstr (text_mem s) (eip_fn_name info) name ->
  Z.of_nat (length file) < 1073741824 -> Z.of_nat (length name) < 1073741824 ->
  0 <= eip_fn_namelen info < 1073741824 -> is_null (eip_file info) = false -> is_null (eip_fn_name info) = false ->
  exists s', backtrace_body buf sy t lines (fr_ebp f) s = Ok (inl next, s') /\
    session typed (fun _ => False) [] (frame_text f info file name) s s'.
Proof using Typist0.
  intros Hs Hne (Wn & W1 & W2 & W3 & W4 & W5 & W6) Ed Hfile Hname Lf Ln Hlen Nf Nn.
  destruct (session_printf_lit typed (fun _ => False) (bytes_of "  ebp %08x  eip %08x  args %08x %08x %08x %08x %08x" ++ [10]) _
    deref_lit _ s sc Hs eq_refl (deref_lit_ok _)
    (format_regs (fr_ebp f) (fr_eip f) (fr_a0 f) (fr_a1 f) (fr_a2 f) (fr_a3 f) (fr_a4 f))) as (s1 & E1 & H1).
  pose proof (session_text_mem typed _ _ _ _ H1) as Et1. pose proof (ss_screen _ _ _ _ _ _ H1 _ Hs) as Hs1.
  set (dr := deref_two (eip_file info) file (eip_fn_name info) name).
  assert (deref_ok (text_mem s1) dr) as Hdr by (rewrite Et1; by apply deref_two_ok).
  assert (dr (eip_file info) = Some file) as D1 by (unfold dr, deref_two; by rewrite decide_True).
  assert (dr (eip_fn_name info) = Some name) as D2 by (by eapply deref_two_snd).
  destruct (session_printf_lit typed (fun _ => False) (bytes_of "         %s:%d: %.*s+%d" ++ [10]) _ dr _ s1 _ Hs1 eq_refl Hdr
    (format_line dr _ _ _ _ (eip_line info) (eip_fn_namelen info) (u32 (fr_eip f - eip_fn_addr info)) D1 D2 Nf Nn
      ltac:(lia))) as (s2 & E2 & H2).
  pose proof (session_text_mem typed _ _ _ _ H2) as Et2. rewrite Et1 in Et2.
  exists s2. split.
  - pose proof (text_mem_sub s) as Hsub. pose proof (text_mem_sub s2) as Hsub2. rewrite Et2 in Hsub2.
    unfold backtrace_body. rewrite (proj2 (Z.eqb_neq _ _) Hne). cbn [negb].
    erewrite Mbind_run by exact (word_run _ s _ _ Hsub W1). cbv beta.
    erewrite Mbind_run by (unfold reads; rewrite (debuginfo_sub _ _ _ _ _ Hsub Ed); reflexivity). cbv beta iota.
    erewrite Mbind_run by exact (word_run _ s _ _ Hsub W2). cbv beta.
    erewrite Mbind_run by exact (word_run _ s _ _ Hsub W3). cbv beta.
    erewrite Mbind_run by exact (word_run _ s _ _ Hsub W4). cbv beta.
    erewrite Mbind_run by exact (word_run _ s _ _ Hsub W5). cbv beta.
    erewrite Mbind_run by exact (word_run _ s _ _ Hsub W6). cbv beta.
    erewrite Mbind_run by exact E1. cbv beta. erewrite Mbind_run by exact E2. cbv beta.
    by erewrite Mbind_run by exact (word_run _ s2 _ _ Hsub2 Wn).
  - eapply session_seq; [exact H1|exact H2|done|]. unfold frame_text. by rewrite <- !app_assoc.
Qed.

Lemma backtrace_runs m0 fs out last : forall ebp s sc,
  traces m0 t fs out -> path m0 last ebp fs -> text_mem s = m0 -> on_screen 2000 s sc ->
  exists s', session typed (fun _ => False) [] out s s' /\
    let body := fun st => r ← backtrace_body buf sy t lines st.1 st.2;
      match r with
      | (inl x', t') => Ok (inl (x', t'))
      | (inr a, t') => Ok (inr (a, t'))
      end in
    forall n r, runs body n (last, s') r -> runs body (length fs + n) (ebp, s) r.
Proof using Typist0.
  intros ebp s sc Ht. revert ebp s sc.
  induction Ht as [|f fs rc info file name out Ed Hfile Hname Lf Ln Hlen Nf Nn _ IH]; intros ebp s sc Hc <- Hs.
  - inversion_clear Hc. exists s. split; [apply session_refl|done].
  - inversion Hc as [|? next ? Hne Hf Hc']; subst.
    destruct (backtrace_frame s sc f next rc info file name) as (s1 & E1 & H1); try assumption.
    destruct (IH next s1 _ Hc' (session_text_mem typed _ _ _ _ H1) (ss_screen _ _ _ _ _ _ H1 _ Hs)) as (s' & H' & Hr).
    exists s'. split; [by eapply session_seq|]. intros body n r Hlast.
    eapply runs_step; [|exact (Hr n r Hlast)]. unfold body. cbn [fst snd]. by rewrite E1.
Qed.

Definition backtrace_text (out : list Z) : list Z := bytes_of "Stack backtrace:" ++ [10] ++ out.

(** The heading and the frames up to [last]; the rest is up to the loop. *)
Lemma mon_backtrace_path fs out last ebp argc argv tf s sc :
  on_screen 2000 s sc -> traces (text_mem s) t fs out -> path (text_mem s) last ebp fs -> Z.of_nat (length fs) < 2 ^ 32 ->
  exists s', session typed (fun _ => False) [] (backtrace_text out) s s' /\
    forall r, match backtrace_body buf sy t lines last s' with
      | Ok (inr o, s2) => r = Ok ((fun _ => 0) <$> o, s2)
      | Ok (inl _, _) => False
      | Err e => r = Err e
      end -> mon_backtrace buf sy t lines ebp argc argv tf s = r.
Proof using Typist0.
  intros Hs Ht Hc Hl.
  destruct (session_printf_lit typed (fun _ => False) (bytes_of "Stack backtrace:" ++ [10]) [] deref_lit
    (bytes_of "Stack backtrace:" ++ [10]) s sc Hs eq_refl (deref_lit_ok _) eq_refl) as (s1 & E1 & H1).
  destruct (backtrace_runs (text_mem s) fs out last ebp s1 _ Ht Hc (session_text_mem typed _ _ _ _ H1)
    (ss_screen _ _ _ _ _ _ H1 _ Hs)) as (s' & H' & Hr).
  exists s'. split; [by eapply session_seq|]. intros r Hlast.
  unfold mon_backtrace. erewrite Mbind_run by exact E1. cbv beta.
  assert (whileM (backtrace_body buf sy t lines) ebp s1 = match backtrace_body buf sy t lines last s' with
    | Ok (inr o, s2) => Ok (o, s2) | Ok (inl _, _) => Err Fuel | Err e => Err e end) as Ew.
  { unfold whileM. apply (while_runs _ (length fs + 1)); [|lia]. apply Hr.
    destruct (backtrace_body buf sy t lines last s') as [[[x|o] s2]|e] eqn:E; [done| |].
    - apply runs_done. cbn [fst snd]. by rewrite E.
    - apply runs_fail. cbn [fst snd]. by rewrite E. }
  unfold after, mbind at 1, M_bind at 1. rewrite Ew.
  by destruct (backtrace_body buf sy t lines last s') as [[[x|[[]|]] s2]|e].
Qed.

Lemma mon_backtrace_run fs out ebp argc argv tf s sc :
  on_screen 2000 s sc -> traces (text_mem s) t fs out -> chain (text_mem s) ebp fs -> Z.of_nat (length fs) < 2 ^ 32 ->
  exists s', mon_backtrace buf sy t lines ebp argc argv tf s = Ok (Some 0, s') /\
    session typed (fun _ => False) [] (backtrace_text out) s s'.
Proof using Typist0.
  intros Hs Ht Hc Hl. destruct (mon_backtrace_path fs out 0 ebp argc argv tf s sc Hs Ht Hc Hl) as (s' & H & Hr).
  exists s'. split; [by apply Hr|exact H].
Qed.
End correctness.

(** C21: on a chain of frames with return addresses in the kernel, ended by the
    null frame pointer of [entry.S], [mon_backtrace] stops and prints two
    lines for each frame, innermost first: its registers and arguments, and
    the file, line, function and offset [debuginfo_eip] finds.  It changes
    nothing but the display. *)
Theorem mon_backtrace_spec {D} `{!Ports D} typed `{!Typist D typed} buf sy t lines fs ebp argc argv tf (s : kst D) sc :
  on_screen 2000 s sc -> chain (text_mem s) ebp fs -> Z.of_nat (length fs) < 2 ^ 32 ->
  tables_ok (text_mem s) t -> t_stabstr_end t - t_stabstr t < 1073741824 -> 0 < t_stabstr t ->
  Forall (fun f => ULIM <= fr_eip f) fs ->
  exists out s', traces (text_mem s) t fs out /\
    mon_backtrace buf sy t lines ebp argc argv tf s = Ok (Some 0, s') /\
    session typed (fun _ => False) [] (backtrace_text out) s s'.
Proof.
  intros Hs Hc Hl Hok Hlen Hpos Hf. destruct (traces_total _ t fs Hok Hlen Hpos Hf) as (out & Ht).
  destruct (mon_backtrace_run typed buf sy t lines fs out ebp argc argv tf s sc Hs Ht Hc Hl) as (s' & E & H).
  by exists out, s'.
Qed.

(** Two frames above the string table of the debugger's example. *)
Definition ex_stack : list Z :=
  ex_str ++ replicate 235 0 ++
  flat_map (le_split 4) [0xF0110140; 0xf0100009; 1; 2; 3; 4; 5] ++ replicate 36 0 ++
  flat_map (le_split 4) [0; 0xf0100044; 6; 7; 8; 9; 10].
Definition ex_bt_kst : kst (list Z) := ex_with [] ex_stack.
Definition ex_bt_tables : stab_tables := mkTables ex_stabs ex_buf (ex_buf + 21).
Definition ex_frames : list frame :=
  [mkFrame 0xF0110100 0xf0100009 1 2 3 4 5; mkFrame 0xF0110140 0xf0100044 6 7 8 9 10].

(** The two facts of the example, in any memory that holds [ex_stack]. *)
Ltac load_example Hb :=
  unfold frame_at; cbn [fr_ebp fr_eip fr_a0 fr_a1 fr_a2 fr_a3 fr_a4]; split_and!;
  match goal with |- load32 _ (Addr ?x) = _ =>
    let k := eval vm_compute in (Z.to_nat (x - ex_buf)) in
    by apply (load32_part _ _ _ k _ _ Hb) end.

Lemma ex_chain m : bytes m (Addr ex_buf) ex_stack -> chain m 0xF0110100 ex_frames.
Proof.
  intros Hb.
  apply (path_cons _ _ (mkFrame 0xF0110100 0xf0100009 1 2 3 4 5) 0xF0110140); [done| |
    apply (path_cons _ _ (mkFrame 0xF0110140 0xf0100044 6 7 8 9 10) 0); [done| |constructor]].
  all: load_example Hb.
Qed.

Lemma ex_tables_at m : bytes m (Addr ex_buf) ex_str -> tables_ok m ex_bt_tables.
Proof.
  intros Hb. split.
  - by vm_compute.
  - intros (s & E & Ht). injection E as <-. discriminate Ht.
  - by vm_compute.
  - exists (take 20 ex_str), 0. split_and!; [exact Hb|unfold is_byte; decided|by vm_compute].
  - repeat (apply Forall_cons; split; [cbn; lia|]). constructor.
  - apply ex_values.
Qed.

Lemma ex_tables m : bytes m (Addr ex_buf) ex_stack -> tables_ok m ex_bt_tables.
Proof. intros Hb. apply ex_tables_at. unfold ex_stack in Hb. apply bytes_app in Hb as [Hb _]. exact Hb. Qed.

Lemma ex_bt_stack : bytes (text_mem ex_bt_kst) (Addr ex_buf) ex_stack.
Proof. apply text_bytes; [apply bytes_write_bytes|right; by vm_compute]. Qed.

Lemma ex_frames_kernel : Forall (fun f => ULIM <= fr_eip f) ex_frames.
Proof. unfold ULIM. repeat (apply Forall_cons; split; [by vm_compute|]). constructor. Qed.

Lemma mon_backtrace_spec_witness :
  exists out s', traces (text_mem ex_bt_kst) ex_bt_tables ex_frames out /\
    mon_backtrace (Ports0 := kbd_ports) ex_buf ex_syms ex_bt_tables 0 0xF0110100 0 Null Null ex_bt_kst = Ok (Some 0, s') /\
    session ex_typed (fun _ => False) [] (backtrace_text out) ex_bt_kst s'.
Proof.
  apply (mon_backtrace_spec ex_typed ex_buf ex_syms ex_bt_tables 0 ex_frames 0xF0110100 0 Null Null ex_bt_kst
    (replicate 2000 blank, 0)); [apply ex_with_on_screen|apply ex_chain, ex_bt_stack|decided|apply ex_tables, ex_bt_stack|decided|decided|apply ex_frames_kernel].
Defined.

(** C22: a return address below ULIM ends the trace: [mon_backtrace] prints the
    frames before it, and then [debuginfo_eip] panics, which is reported with its
    file and line; the monitor is entered from there and [mon_backtrace] never
    returns, however long it is watched. *)
Theorem backtrace_user {D} `{!Ports D} typed `{!Typist D typed} buf sy t lines fs last eip ebp argc argv tf (s : kst D) sc :
  on_screen 2000 s sc -> path (text_mem s) last ebp fs -> Z.of_nat (length fs) < 2 ^ 32 ->
  tables_ok (text_mem s) t -> t_stabstr_end t - t_stabstr t < 1073741824 -> 0 < t_stabstr t ->
  Forall (fun f => ULIM <= fr_eip f) fs ->
  last <> 0 -> load32 (text_mem s) (Addr (last + 4)) = Ok eip -> eip < ULIM -> k_panicstr s = Null ->
  exists out s1 s2, traces (text_mem s) t fs out /\
    session typed (fun _ => False) [] (backtrace_text out) s s1 /\
    session typed (fun _ => False) [] (report_text panic_kind (bytes_of "kern/kdebug.c") 127 (bytes_of "User address"))
      (set_panicstr (lit "User address") s1) s2 /\
    mon_backtrace buf sy t lines ebp argc argv tf s = (monitor_loop buf sy lines ;;? ended (mret 0)) s2 /\
    forall v s3, mon_backtrace buf sy t lines ebp argc argv tf s <> Ok (Some v, s3).
Proof.
  intros Hs Hp Hl Hok Hlen Hpos Hf Hne Hw Hu Hn. destruct (traces_total _ t fs Hok Hlen Hpos Hf) as (out & Ht).
  destruct (mon_backtrace_path typed buf sy t lines fs out last ebp argc argv tf s sc Hs Ht Hp Hl) as (s1 & H1 & Hr).
  pose proof (session_text_mem typed _ _ _ _ H1) as Et. pose proof (ss_screen _ _ _ _ _ _ H1 _ Hs) as Hs1.
  destruct (panic_first_run typed (bytes_of "kern/kdebug.c") 127 (lit "User address") [] (bytes_of "User address") s1 _ Hs1)
    as (s2 & E2 & H2); [by rewrite (ss_panic _ _ _ _ _ _ H1)|decided|decided| |].
  { exists (bytes_of "User address"), deref_lit. split; [apply cstr_lit; decided|]. split; [decided|].
    split; [apply deref_lit_ok|by vm_compute]. }
  assert (mon_backtrace buf sy t lines ebp argc argv tf s = (monitor_loop buf sy lines ;;? ended (mret 0)) s2) as E.
  { apply Hr. pose proof (text_mem_sub s1) as Hsub. rewrite Et in Hsub.
    unfold backtrace_body. rewrite (proj2 (Z.eqb_neq _ _) Hne). cbn [negb].
    erewrite Mbind_run by (apply (word_run _ s1 _ eip Hsub); exact Hw). cbv beta.
    erewrite Mbind_run by (unfold reads, debuginfo_eip; destruct (Z.geb_spec eip ULIM); [lia|reflexivity]). cbv beta iota.
    unfold _panic. rewrite Mbind_assoc. erewrite Mbind_run by exact E2. cbv beta.
    unfold after, mbind, M_bind. by destruct (monitor_loop buf sy lines s2) as [[[[]|] s3]|e]. }
  exists out, s1, s2. split_and!; try done. intros v s3. rewrite E. intros ([] & s4 & Em & _)%after_Some.
  by apply monitor_loop_forever in Em.
Qed.

(** The second frame returns to an address of a user program. *)
Definition ex_user_stack : list Z :=
  ex_str ++ replicate 235 0 ++
  flat_map (le_split 4) [0xF0110140; 0xf0100009; 1; 2; 3; 4; 5] ++ replicate 36 0 ++
  flat_map (le_split 4) [0; 0x800020; 6; 7; 8; 9; 10].

Lemma backtrace_user_witness :
  exists out s1 s2, traces (text_mem (ex_with [] ex_user_stack)) ex_bt_tables [mkFrame 0xF0110100 0xf0100009 1 2 3 4 5] out /\
    session ex_typed (fun _ => False) [] (backtrace_text out) (ex_with [] ex_user_stack) s1 /\
    session ex_typed (fun _ => False) [] (bytes_of "kernel panic at kern/kdebug.c:127: User address" ++ [10])
      (set_panicstr (lit "User address") s1) s2.
Proof.
  assert (bytes (text_mem (ex_with [] ex_user_stack)) (Addr ex_buf) ex_user_stack) as Hb
    by (apply text_bytes; [apply bytes_write_bytes|right; by vm_compute]).
  destruct (backtrace_user (Ports0 := kbd_ports) ex_typed ex_buf ex_syms ex_bt_tables 0 [mkFrame 0xF0110100 0xf0100009 1 2 3 4 5] 0xF0110140 0x800020
    0xF0110100 0 Null Null (ex_with [] ex_user_stack) (replicate 2000 blank, 0)) as (out & s1 & s2 & Ht & H1 & H2 & _).
  - apply ex_with_on_screen.
  - apply (path_cons _ _ (mkFrame 0xF0110100 0xf0100009 1 2 3 4 5) 0xF0110140); [done| |constructor].
    load_example Hb.
  - decided.
  - apply ex_tables_at. unfold ex_user_stack in Hb. apply bytes_app in Hb as [Hb _]. exact Hb.
  - decided.
  - decided.
  - repeat constructor. by vm_compute.
  - done.
  - by apply (load32_part _ _ _ 324 _ _ Hb).
  - by vm_compute.
  - done.
  - exists out, s1, s2. split_and!; assumption.
Defined.
