(* ===== verification/Init.v ===== *)
(** kern/init.c: [i386_init] and [test_backtrace].

    [i386_init] is called by entry.S with paging on; it clears the BSS, where
    the static variables of the kernel are too ([clear_statics]), initialises
    the console, tries the backtrace and serves the monitor for ever, so that it
    is watched for [lines] lines, as the monitor is.  The frames [test_backtrace] leaves on the stack are the compiler's: they are in
    memory already, from [ebp] on, which is what [read_ebp] returns. *)
From S2P Require Import Prelude Mem Cstring Emit Printfmt FormatSpec Mmu Machine ConsOut Printf ConsIn Kdebug Console.
From S2P Require Import Keeps Keyboard Readline Args Monitor Panic Backtrace Safety.

Section init.
Context {D : Type} `{!Ports D} (buf : Z) (sy : ksyms) (t : stab_tables) (ebp : Z) (lines : nat).
Notation K := (M (kst D)).

(** [fuel] bounds the depth of the recursion. *)
Fixpoint test_backtrace_at (fuel : nat) (x : Z) : K (option unit) :=
  match fuel with
  | O => fun _ => Err Fuel
  | S fuel' =>
      cprintf (lit_nl "entering test_backtrace %d") [AInt x] ;;
      (if x >? 0 then test_backtrace_at fuel' (x - 1)
       else mon_backtrace buf sy t lines ebp 0 Null Null ;;? ended (mret tt)) ;;?
      ended (cprintf (lit_nl "leaving test_backtrace %d") [AInt x] ;; mret tt)
  end.

Definition test_backtrace (x : Z) : K (option unit) := test_backtrace_at (S (Z.to_nat x)) x.

(** The static variables of the kernel, zeroed. *)
Definition clear_statics (s : kst D) : kst D :=
  mkKst (k_hw s) false (mkCrt 0 0 0) 0 (mkRing (replicate 512 0) 0 0) Null.

Definition clear_bss : K unit :=
  on_mem (fun m => memset m (sym_edata sy) 0 (u32 (sym_end sy - sym_edata sy))) ;;
  modify clear_statics.

(** [i386_init] up to its endless loop. *)
Definition init_start : K (option unit) :=
  clear_bss ;;
  cons_init ;;
  cprintf (lit_nl "6828 decimal is %o octal!") [AInt 6828] ;;
  test_backtrace 5.

Definition i386_init : K (option unit) :=
  init_start ;;?
  monitor_loop buf sy lines.
End init.

(** * What is printed *)

Definition entering_text (x : Z) : list Z := bytes_of "entering test_backtrace " ++ render_dec (s32 x) ++ [10].
Definition leaving_text (x : Z) : list Z := bytes_of "leaving test_backtrace " ++ render_dec (s32 x) ++ [10].

Fixpoint test_text (n : nat) (inner : list Z) : list Z :=
  entering_text (Z.of_nat n) ++ (match n with O => inner | S n' => test_text n' inner end) ++
  leaving_text (Z.of_nat n).

Definition serial_text (exists_ : bool) : list Z :=
  if exists_ then [] else bytes_of "Serial port does not exist!" ++ [10].

(** The kernel's first words, up to the banner of the monitor. *)
Definition boot_text (serial : bool) (out : list Z) : list Z :=
  serial_text serial ++ bytes_of "6828 decimal is 15254 octal!" ++ [10] ++ test_text 5 (backtrace_text out).

Section correctness.
Context {D : Type} `{!Ports D} (buf : Z) (sy : ksyms) (t : stab_tables) (ebp : Z) (lines : nat).
Notation K := (M (kst D)).

Section typing.
Context (typed : kst D -> list Z -> Prop) `{!Typist D typed}.

Lemma entering_format x :
  format deref_lit (bytes_of "entering test_backtrace %d" ++ [10]) [AInt x] = Some (entering_text x).
Proof using Type. eval_format. reflexivity. Qed.

Lemma leaving_format x :
  format deref_lit (bytes_of "leaving test_backtrace %d" ++ [10]) [AInt x] = Some (leaving_text x).
Proof using Type. eval_format. reflexivity. Qed.

Lemma test_backtrace_run n fs out : forall s sc,
  on_screen 2000 s sc -> traces (text_mem s) t fs out -> chain (text_mem s) ebp fs -> Z.of_nat (length fs) < 2 ^ 32 ->
  exists s', test_backtrace_at buf sy t ebp lines (S n) (Z.of_nat n) s = Ok (Some tt, s') /\
    session typed (fun _ => False) [] (test_text n (backtrace_text out)) s s'.
Proof using Typist0.
  induction n as [|n IH]; intros s sc Hs Ht Hc Hl.
  all: match goal with |- context [test_backtrace_at _ _ _ _ _ _ ?x] =>
    destruct (session_printf_lit typed (fun _ => False) _ [AInt x] deref_lit _ s sc Hs (eq_refl : lit_ok (bytes_of "entering test_backtrace %d" ++ [10]) = true)
      (deref_lit_ok _) (entering_format x)) as (s1 & E1 & H1) end.
  all: pose proof (session_text_mem typed _ _ _ _ H1) as Et1; pose proof (ss_screen _ _ _ _ _ _ H1 _ Hs) as Hs1;
    rewrite <- Et1 in Ht, Hc.
  - destruct (mon_backtrace_run typed buf sy t lines fs out ebp 0 Null Null s1 _ Hs1 Ht Hc Hl) as (s2 & E2 & H2).
    destruct (session_printf_lit typed (fun _ => False) _ [AInt 0] deref_lit _ s2 _ (ss_screen _ _ _ _ _ _ H2 _ Hs1)
      (eq_refl : lit_ok (bytes_of "leaving test_backtrace %d" ++ [10]) = true) (deref_lit_ok _) (leaving_format 0)) as (s3 & E3 & H3).
    exists s3. split; [|eapply session_seq; [exact H1|eapply session_trans; [exact H2|exact H3]|done|done]].
    cbn [test_backtrace_at]. erewrite Mbind_run by exact E1. cbv beta.
    change (Z.of_nat 0 >? 0) with false. cbv iota.
    erewrite after_run by (erewrite after_run by exact E2; reflexivity). cbv beta.
    apply ended_run. by erewrite Mbind_run by exact E3.
  - destruct (IH s1 _ Hs1 Ht Hc Hl) as (s2 & E2 & H2).
    destruct (session_printf_lit typed (fun _ => False) _ [AInt (Z.of_nat (S n))] deref_lit _ s2 _ (ss_screen _ _ _ _ _ _ H2 _ Hs1)
      (eq_refl : lit_ok (bytes_of "leaving test_backtrace %d" ++ [10]) = true) (deref_lit_ok _) (leaving_format (Z.of_nat (S n))))
      as (s3 & E3 & H3).
    exists s3. split; [|eapply session_seq; [exact H1|eapply session_trans; [exact H2|exact H3]|done|done]].
    change (test_backtrace_at buf sy t ebp lines (S (S n)) (Z.of_nat (S n))) with
      (cprintf (lit_nl "entering test_backtrace %d") [AInt (Z.of_nat (S n))] ;;
       (if Z.of_nat (S n) >? 0 then test_backtrace_at buf sy t ebp lines (S n) (Z.of_nat (S n) - 1)
        else mon_backtrace buf sy t lines ebp 0 Null Null ;;? ended (mret tt)) ;;?
       ended (cprintf (lit_nl "leaving test_backtrace %d") [AInt (Z.of_nat (S n))] ;; mret tt) : K (option unit)).
    erewrite Mbind_run by exact E1. cbv beta. destruct (Z.gtb_spec (Z.of_nat (S n)) 0); [|lia].
    replace (Z.of_nat (S n) - 1) with (Z.of_nat n) by lia.
    erewrite after_run by exact E2. cbv beta. apply ended_run. by erewrite Mbind_run by exact E3.
Qed.

(** The rest of [init_start], on a console that works. *)
Lemma greet_run (serial : bool) fs out s sc :
  on_screen 2000 s sc -> k_serial_exists s = serial ->
  traces (text_mem s) t fs out -> chain (text_mem s) ebp fs -> Z.of_nat (length fs) < 2 ^ 32 ->
  exists s', (((e ← gets k_serial_exists;
               if negb e then cprintf (lit_nl "Serial port does not exist!") [] ;; mret tt else mret tt) ;;
              cprintf (lit_nl "6828 decimal is %o octal!") [AInt 6828] ;;
              test_backtrace buf sy t ebp lines 5) : K (option unit)) s = Ok (Some tt, s') /\
    session typed (fun _ => False) [] (boot_text serial out) s s'.
Proof using Typist0.
  intros Hs Hse Ht Hc Hl.
  assert (exists s1, (e ← gets k_serial_exists;
      if negb e then cprintf (lit_nl "Serial port does not exist!") [] ;; mret tt else mret tt : K unit) s = Ok (tt, s1) /\
    session typed (fun _ => False) [] (serial_text serial) s s1) as (s1 & E1 & H1).
  { rewrite gets_bind, Hse. destruct serial; cbn [negb]; [exists s; split; [done|apply session_refl]|].
    destruct (session_printf_lit typed (fun _ => False) (bytes_of "Serial port does not exist!" ++ [10]) [] deref_lit
      (bytes_of "Serial port does not exist!" ++ [10]) s sc Hs eq_refl (deref_lit_ok _) eq_refl) as (s1 & E1 & H1).
    exists s1. split; [by erewrite Mbind_run by exact E1|exact H1]. }
  pose proof (session_text_mem typed _ _ _ _ H1) as Et1. pose proof (ss_screen _ _ _ _ _ _ H1 _ Hs) as Hs1.
  assert (format deref_lit (bytes_of "6828 decimal is %o octal!" ++ [10]) [AInt 6828] =
    Some (bytes_of "6828 decimal is 15254 octal!" ++ [10])) as Hf by by vm_compute.
  destruct (session_printf_lit typed (fun _ => False) _ [AInt 6828] deref_lit _ s1 _ Hs1
    (eq_refl : lit_ok (bytes_of "6828 decimal is %o octal!" ++ [10]) = true) (deref_lit_ok _) Hf) as (s2 & E2 & H2).
  pose proof (session_text_mem typed _ _ _ _ H2) as Et2. rewrite Et1 in Et2. rewrite <- Et2 in Ht, Hc.
  destruct (test_backtrace_run 5 fs out s2 _ (ss_screen _ _ _ _ _ _ H2 _ Hs1) Ht Hc Hl) as (s3 & E3 & H3).
  exists s3. split; [|eapply session_seq; [exact H1|eapply session_trans; [exact H2|exact H3]|done|by rewrite <- app_assoc]].
  erewrite Mbind_run by exact E1. cbv beta. erewrite Mbind_run by exact E2. cbv beta. exact E3.
Qed.
End typing.

(** ** From the entry point *)

Notation CP := (KERNBASE + CGA_BUF).

(** The BSS cleared. *)
Definition cleared (s : kst D) : kst D :=
  clear_statics (set_mem (write_bytes (k_mem s) (sym_edata sy)
    (replicate (Z.to_nat (sym_end sy - sym_edata sy)) 0)) s).

(** What is expected of the machine when the kernel is entered: the BSS is
    memory and holds the line buffer, a colour display shows [cells] outside
    of it, and the hardware cursor is on the screen. *)
Record entered (s : kst D) (cells : list Z) : Prop := {
  en_bss : mapped (k_mem s) (sym_edata sy) (sym_end sy - sym_edata sy);
  en_order : 0 < sym_edata sy /\ sym_edata sy <= buf /\ buf + BUFLEN <= sym_end sy /\ sym_end sy < 4294967296;
  en_apart : sym_end sy <= CP \/ CP + 4000 <= sym_edata sy;
  en_cells : length cells = 2000%nat /\ Forall cell_ok cells /\ bytes (k_mem s) (Addr CP) (words cells);
  en_cursor : cursor_at CGA_BASE (h_dev (k_hw s)) < 2000 }.

Lemma clear_bss_run s cells : entered s cells -> clear_bss sy s = Ok (tt, cleared s).
Proof using Type.
  intros [Hm Ho _ _ _]. unfold clear_bss. rewrite (u32_small (sym_end sy - sym_edata sy)) by (unfold BUFLEN in Ho; lia).
  erewrite Mbind_run by (unfold on_mem; rewrite memset_write by (done || (unfold BUFLEN in Ho; lia)); reflexivity).
  done.
Qed.

Lemma cleared_lookup s x :
  ~ (sym_edata sy <= x < sym_end sy) -> sym_edata sy <= sym_end sy -> k_mem (cleared s) !! x = k_mem s !! x.
Proof using Type.
  intros Hx Ho. change (k_mem (cleared s)) with (write_bytes (k_mem s) (sym_edata sy)
    (replicate (Z.to_nat (sym_end sy - sym_edata sy)) 0)). apply write_bytes_out. rewrite length_replicate. lia.
Qed.

Lemma cons_init_split {A} (s : kst D) (k : K A) :
  (cons_init ;; k) s =
  ((cga_init ;; kbd_init ;; serial_init) ;;
   (e ← gets k_serial_exists;
    if negb e then cprintf (lit_nl "Serial port does not exist!") [] ;; mret tt else mret tt) ;; k) s.
Proof using Type.
  unfold cons_init. rewrite !Mbind_assoc. apply Mbind_ext. intros [] s1 _. rewrite !Mbind_assoc.
  apply Mbind_ext. intros [] s2 _. by rewrite !Mbind_assoc.
Qed.

(** The display is found, and the serial port looked for. *)
Lemma devices_run s cells :
  entered s cells ->
  exists s0 pos, ((cga_init ;; kbd_init ;; serial_init) : K unit) (cleared s) = Ok (tt, s0) /\
    on_screen 2000 s0 (cells, pos) /\ k_mem s0 = k_mem (cleared s) /\ crt_buf (k_crt s0) = CP /\
    k_panicstr s0 = Null /\ k_shift s0 = 0 /\ k_cons s0 = mkRing (replicate 512 0) 0 0.
Proof using Type.
  intros [Hm Ho Ha (Hlen & Hok & Hb) Hcur]. unfold BUFLEN in Ho.
  assert (bytes (k_mem (cleared s)) (Addr CP) (words cells)) as Hb1.
  { rewrite bytes_lookup in Hb |- *. intros i b Hi. pose proof (lookup_lt_Some _ _ _ Hi) as Hlt.
    rewrite length_cells, Hlen in Hlt. rewrite cleared_lookup by lia. by apply Hb. }
  assert (exists b0 b1, bytes (k_mem (cleared s)) (Addr CP) [b0; b1] /\ is_byte b0 /\ is_byte b1) as Hcol.
  { destruct cells as [|c cells]; [done|]. exists (u8 c), (u8 (c / 256)).
    split; [|split; apply u8_range]. cbn [words flat_map le_split app] in Hb1. destruct Hb1 as (? & ? & _). by split_and!. }
  destruct (cga_init_run (cleared s) true Hcol) as (d & hi & lo & E1 & Hhi & Hlo & Hpos).
  set (s1 := set_crt _ _) in E1. change (cursor_at CGA_BASE _) with (cursor_at CGA_BASE (h_dev (k_hw s))) in Hpos.
  destruct (serial_init_run s1) as (d2 & lsr & iir & rx & E2). set (s2 := set_serial _ _) in E2.
  exists s2, (256 * hi + lo). split; [|split; [|split_and!; done]].
  - erewrite Mbind_run by exact E1. cbv beta. unfold kbd_init. by rewrite ret_bind.
  - unfold on_screen, wf_screen. cbn [fst snd]. split; [split; [exact Hlen|split; [exact Hok|]]|].
    + unfold is_byte in *. lia.
    + split; [exact Hb1|]. split; [done|]. change (addr_6845 (k_crt s2)) with CGA_BASE. decided.
Qed.

(** The keyboard's codes are still there. *)
Lemma devices_keys s (s0 : kst D) codes lag `{!Keyboard D codes lag} :
  ((cga_init ;; kbd_init ;; serial_init) : K unit) (cleared s) = Ok (tt, s0) ->
  codes (h_dev (k_hw s0)) = codes (h_dev (k_hw s)).
Proof using Type.
  set (P := at_keys codes (codes (h_dev (k_hw s))) 0 (mkRing (replicate 512 0) 0 0)).
  assert (keeps P (cga_init ;; kbd_init ;; serial_init)) as Hk.
  { apply keeps_bind; [apply keeps_cga_init, (at_keys_apart codes lag)|]. intros _.
    apply keeps_bind; [apply keeps_ret|]. intros _. apply keeps_serial_init, (at_keys_apart codes lag). }
  intros E. apply (Hk (cleared s) tt s0); [by split_and!|exact E].
Qed.
(** The line buffer is part of the BSS. *)
Lemma entered_has_buf s cells (s0 : kst D) :
  entered s cells -> k_mem s0 = k_mem (cleared s) -> crt_buf (k_crt s0) = CP -> has_buf buf s0.
Proof using Type.
  intros He Hm0 Hbuf0. pose proof (en_order _ _ He) as Ho. unfold BUFLEN in Ho. split.
  - rewrite Hm0. intros x Hx. unfold BUFLEN in Hx. apply (write_bytes_mapped _ _ _ x 1); [|lia].
    intros y Hy. apply (en_bss _ _ He). lia.
  - intros x Hx. unfold display. rewrite Hbuf0. pose proof (en_apart _ _ He). unfold in_buf, BUFLEN in Hx. lia.
Qed.
End correctness.

(** Whatever the devices answer. *)
Lemma i386_init_safe {D} `{!Ports D} buf sy t ebp lines fs cells (s : kst D) :
  entered buf sy s cells ->
  let m0 := mem_outside (k_mem (cleared sy s)) (KERNBASE + CGA_BUF) 4000 in
  chain m0 ebp fs -> Z.of_nat (length fs) < 2 ^ 32 ->
  tables_ok m0 t -> t_stabstr_end t - t_stabstr t < 1073741824 -> 0 < t_stabstr t ->
  Forall (fun f => ULIM <= fr_eip f) fs ->
  safe (i386_init buf sy t ebp lines) s (fun r s' => r = None /\ live s').
Proof.
  intros He m0 Hc Hl Hok Hlen Hpos Hf. destruct (traces_total _ t fs Hok Hlen Hpos Hf) as (out & Ht).
  destruct (devices_run buf sy s cells He) as (s0 & pos & E0 & Hs0 & Hm0 & Hbuf0 & _ & Hsh0 & Hr0).
  assert (text_mem s0 = m0) as Em by (unfold text_mem, m0; by rewrite Hm0, Hbuf0). rewrite <- Em in Ht, Hc.
  destruct (greet_run buf sy t ebp lines rested (k_serial_exists s0) fs out s0 _ Hs0 eq_refl Ht Hc Hl) as (s1 & E1 & H1).
  pose proof (entered_has_buf buf sy s cells s0 He Hm0 Hbuf0) as Hb. pose proof (en_order _ _ _ _ He) as Ho.
  assert (live s0) as Hl0.
  { split; [by eexists|]. split; [done|]. rewrite Hr0, Hsh0. split; [apply kbd_ring_ok|by exists no_mods]. }
  assert (stirs (fun _ => False) s0 s1) as Hst by (by eexists).
  unfold safe, i386_init. erewrite after_run.
  - eapply safe_weaken; [apply monitor_loop_safe; [lia|by eapply stirs_live|by eapply stirs_has_buf]|].
    intros r s' [-> H]. split; [done|]. eapply stirs_live; [exact H|by eapply stirs_live].
  - unfold init_start. erewrite Mbind_run by exact (clear_bss_run buf sy s cells He). cbv beta.
    rewrite cons_init_split. erewrite Mbind_run by exact E0. exact E1.
Qed.

(** C3: the kernel is safe on any machine: started on a colour display with
    well-formed frames on its stack, and whatever the devices answer from then
    on, [i386_init] never faults and never returns, however long it is watched:
    a device keeps it busy, or it is at the monitor, with console, modifiers
    and input ring in order. *)
Theorem kernel_safe {D} `{!Ports D} buf sy t ebp lines fs cells (s : kst D) :
  entered buf sy s cells ->
  let m0 := mem_outside (k_mem (cleared sy s)) (KERNBASE + CGA_BUF) 4000 in
  chain m0 ebp fs -> Z.of_nat (length fs) < 2 ^ 32 ->
  tables_ok m0 t -> t_stabstr_end t - t_stabstr t < 1073741824 -> 0 < t_stabstr t ->
  Forall (fun f => ULIM <= fr_eip f) fs ->
  match i386_init buf sy t ebp lines s with
  | Ok (r, s') => r = None /\ live s'
  | Err e => e = Fuel
  end.
Proof. apply i386_init_safe. Qed.

(** What a session from the entry point on is: the display is found, then come the
    greeting, the backtrace and the answer to every line. *)
Definition init_session {D} `{!Ports D} (codes : D -> list Z) buf sy t ebp fs es cells (s : kst D) : Prop :=
  let m0 := mem_outside (k_mem (cleared sy s)) (KERNBASE + CGA_BUF) 4000 in
  let keys := flat_map entry_keys es in
  (forall lines s', i386_init buf sy t ebp lines s <> Ok (Some tt, s')) /\
  exists out s0 pos s', traces m0 t fs out /\
    (clear_bss sy ;; cga_init ;; kbd_init ;; serial_init : M (kst D) unit) s = Ok (tt, s0) /\
    on_screen 2000 s0 (cells, pos) /\ k_mem s0 = k_mem (cleared sy s) /\
    i386_init buf sy t ebp (length es) s = Ok (None, s') /\
    session (kbd_typed codes) (in_buf buf) keys
      (boot_text (k_serial_exists s0) out ++ welcome_text ++ flat_map (entry_text sy) es) s0 s'.

Lemma i386_init_forever {D} `{!Ports D} buf sy t ebp lines (s s' : kst D) :
  i386_init buf sy t ebp lines s <> Ok (Some tt, s').
Proof. unfold i386_init. intros ([] & s1 & _ & E)%after_Some. by apply monitor_loop_forever in E. Qed.

Lemma i386_init_session {D} `{!Ports D} codes lag `{!Keyboard D codes lag} buf sy t ebp fs es cells (s : kst D) :
  entered buf sy s cells ->
  let m0 := mem_outside (k_mem (cleared sy s)) (KERNBASE + CGA_BUF) 4000 in
  chain m0 ebp fs -> Z.of_nat (length fs) < 2 ^ 32 ->
  tables_ok m0 t -> t_stabstr_end t - t_stabstr t < 1073741824 -> 0 < t_stabstr t ->
  Forall (fun f => ULIM <= fr_eip f) fs ->
  let ks := codes (h_dev (k_hw s)) in
  let keys := flat_map entry_keys es in
  no_reboot no_mods ks = true -> meaning no_mods ks = keys -> Z.of_nat (length ks) < 2 ^ 31 ->
  Z.of_nat (length keys) <= 511 -> Forall (fun c => 0 < c < 256) keys -> Forall entry_ok es ->
  init_session codes buf sy t ebp fs es cells s.
Proof.
  intros He m0 Hc Hl Hok Hlen Hpos Hf ks keys Hnr Hks Hkl Hk511 Hchars Hes. unfold init_session. cbv zeta. fold m0 keys.
  split; [intros lines s'; apply i386_init_forever|].
  destruct (traces_total _ t fs Hok Hlen Hpos Hf) as (out & Ht).
  destruct (devices_run buf sy s cells He) as (s0 & pos & E0 & Hs0 & Hm0 & Hbuf0 & Hp0 & Hsh0 & Hr0).
  pose proof (devices_keys sy s s0 codes lag E0) as Hk0.
  assert (text_mem s0 = m0) as Em by (unfold text_mem, m0; by rewrite Hm0, Hbuf0).
  assert (kbd_typed codes s0 keys) as Htyped.
  { exists no_mods. split; [split; [by rewrite Hsh0|by rewrite Hk0]|]. rewrite Hr0, Hk0.
    split; [apply kbd_ring_ok|]. split; [exact Hks|]. split_and!; assumption. }
  rewrite <- Em in Ht, Hc.
  destruct (greet_run buf sy t ebp (length es) (kbd_typed codes) (k_serial_exists s0) fs out s0 _ Hs0 eq_refl Ht Hc Hl)
    as (s1 & E1 & H1).
  pose proof (entered_has_buf buf sy s cells s0 He Hm0 Hbuf0) as Hb. pose proof (en_order _ _ _ _ He) as Ho.
  destruct (monitor_loop_session (kbd_typed codes) buf sy es [] s1 _ (ss_screen _ _ _ _ _ _ H1 _ Hs0)) as (s' & E2 & H2);
    [eapply session_has_buf; [exact H1|exact Hb]|lia|exact Hes|by rewrite app_nil_r; apply (ss_typed _ _ _ _ _ _ H1)|].
  exists out, s0, pos, s'. split; [by rewrite <- Em|]. split.
  { by erewrite Mbind_run by exact (clear_bss_run buf sy s cells He). }
  split; [exact Hs0|]. split; [exact Hm0|].
  split; [|eapply session_seq; [eapply session_weaken; [|exact H1]; by intros x []|exact H2|done|done]].
  unfold i386_init. erewrite after_run; [exact E2|].
  unfold init_start. erewrite Mbind_run by exact (clear_bss_run buf sy s cells He). cbv beta.
  rewrite cons_init_split. erewrite Mbind_run by exact E0. exact E1.
Qed.

(** C17: from the entry point to the prompt: on a machine with a colour display
    and a PC keyboard, [i386_init] clears the BSS, sets the console up, prints
    its greeting and the backtrace of the frames on the stack, and then serves
    every line that is typed; it never returns. *)
Theorem i386_init_spec {D} `{!Ports D} codes lag `{!Keyboard D codes lag} buf sy t ebp fs es cells (s : kst D) :
  entered buf sy s cells ->
  let m0 := mem_outside (k_mem (cleared sy s)) (KERNBASE + CGA_BUF) 4000 in
  chain m0 ebp fs -> Z.of_nat (length fs) < 2 ^ 32 ->
  tables_ok m0 t -> t_stabstr_end t - t_stabstr t < 1073741824 -> 0 < t_stabstr t ->
  Forall (fun f => ULIM <= fr_eip f) fs ->
  let ks := codes (h_dev (k_hw s)) in
  let keys := flat_map entry_keys es in
  no_reboot no_mods ks = true -> meaning no_mods ks = keys -> Z.of_nat (length ks) < 2 ^ 31 ->
  Z.of_nat (length keys) <= 511 -> Forall (fun c => 0 < c < 256) keys -> Forall entry_ok es ->
  (forall lines s', i386_init buf sy t ebp lines s <> Ok (Some tt, s')) /\
  exists out s0 pos s', traces m0 t fs out /\
    (clear_bss sy ;; cga_init ;; kbd_init ;; serial_init : M (kst D) unit) s = Ok (tt, s0) /\
    on_screen 2000 s0 (cells, pos) /\ k_mem s0 = k_mem (cleared sy s) /\
    i386_init buf sy t ebp (length es) s = Ok (None, s') /\
    session (kbd_typed codes) (in_buf buf) keys
      (boot_text (k_serial_exists s0) out ++ welcome_text ++ flat_map (entry_text sy) es) s0 s'.
Proof. exact (i386_init_session codes lag buf sy t ebp fs es cells s). Qed.

(** A machine at the entry point: a keyboard and a colour display whose cursor
    is home, the stack and the string table of the backtrace's example, and a
    BSS with other contents. *)
#[local] Instance boot_ports : Ports (list Z) := {|
  dev_in := fun port d => if port =? CGA_BASE + 1 then (0, d) else dev_in (Ports := kbd_ports) port d;
  dev_in16 := fun _ d => (0, d); dev_in32 := fun _ d => (0, d); dev_out := fun _ _ d => d; dev_out16 := fun _ _ d => d; dev_out32 := fun _ _ d => d;
  dev_bus := fun _ _ => 0xFFFF |}.

#[local] Instance boot_keyboard : @Keyboard (list Z) boot_ports (fmap u8) (fun _ => 0).
Proof.
  pose proof kbd_ports_keyboard as Hk. split; try apply Hk.
  - intros port d v d' E Hp. cbn [dev_in boot_ports] in E.
    destruct (port =? CGA_BASE + 1); [by injection E as _ <-|].
    by apply (@kb_in _ kbd_ports _ _ Hk) with (1 := E).
Qed.

Definition ex_bss : Z := 0xF0120000.
Definition ex_boot_syms : ksyms := mkSyms 0x10000c 0xf010000c 0xf0101a75 ex_bss (ex_bss + 1024).
Definition ex_boot_kst (codes : list Z) : kst (list Z) :=
  mkKst (mkHw (write_bytes (write_bytes (k_mem (kbd_kst codes)) ex_buf ex_stack) ex_bss (replicate 1024 7)) codes [])
    true (mkCrt 1 2 3) 4 (mkRing [] 5 6) (Addr 7).

Lemma ex_boot_entered codes : entered ex_bss ex_boot_syms (ex_boot_kst codes) (replicate 2000 blank).
Proof.
  split.
  - change (k_mem (ex_boot_kst codes)) with (write_bytes (write_bytes (k_mem (kbd_kst codes)) ex_buf ex_stack) ex_bss (replicate 1024 7)).
    apply (bytes_mapped _ _ (replicate 1024 7)), bytes_write_bytes.
  - decided.
  - right. decided.
  - split; [exact (length_replicate _ _)|]. split; [apply Forall_replicate; decided|].
    change (k_mem (ex_boot_kst codes)) with (write_bytes (write_bytes (k_mem (kbd_kst codes)) ex_buf ex_stack) ex_bss (replicate 1024 7)).
    rewrite bytes_lookup. intros i b Hi. pose proof (lookup_lt_Some _ _ _ Hi) as Hlt.
    rewrite length_cells, length_replicate in Hlt.
    rewrite !write_bytes_out by (rewrite ?length_replicate; unfold ex_bss, ex_buf, KERNBASE, CGA_BUF; lia).
    revert i b Hi Hlt. pose proof (bytes_write_bytes ∅ (KERNBASE + CGA_BUF) (words (replicate 2000 blank))) as Hb.
    rewrite bytes_lookup in Hb. intros i b Hi _. by apply Hb.
  - reflexivity.
Qed.

Lemma ex_boot_stack codes :
  bytes (mem_outside (k_mem (cleared ex_boot_syms (ex_boot_kst codes))) (KERNBASE + CGA_BUF) 4000) (Addr ex_buf) ex_stack.
Proof.
  rewrite bytes_lookup. intros i b Hi. pose proof (lookup_lt_Some _ _ _ Hi) as Hlt.
  assert (length ex_stack <= 1024)%nat by (vm_compute; lia).
  apply map_lookup_filter_Some. split; [|cbn [fst]; unfold ex_buf, KERNBASE, CGA_BUF; lia].
  rewrite cleared_lookup by (cbn [sym_edata sym_end ex_boot_syms]; unfold ex_buf, ex_bss; lia).
  change (k_mem (ex_boot_kst codes)) with (write_bytes (write_bytes (k_mem (kbd_kst codes)) ex_buf ex_stack) ex_bss (replicate 1024 7)).
  rewrite write_bytes_out by (unfold ex_buf, ex_bss; lia).
  revert i b Hi Hlt. pose proof (bytes_write_bytes (k_mem (kbd_kst codes)) ex_buf ex_stack) as Hb.
  rewrite bytes_lookup in Hb. intros i b Hi _. by apply Hb.
Qed.

Lemma i386_init_spec_witness :
  let s := ex_boot_kst ex_session_keys in
  let m0 := mem_outside (k_mem (cleared ex_boot_syms s)) (KERNBASE + CGA_BUF) 4000 in
  (forall lines s', i386_init (Ports0 := boot_ports) ex_bss ex_boot_syms ex_bt_tables 0xF0110100 lines s <> Ok (Some tt, s')) /\
  exists out s0 pos s', traces m0 ex_bt_tables ex_frames out /\
    (clear_bss ex_boot_syms ;; cga_init (Ports0 := boot_ports) ;; kbd_init ;; serial_init (Ports0 := boot_ports) : M (kst (list Z)) unit)
      s = Ok (tt, s0) /\
    on_screen 2000 s0 (replicate 2000 blank, pos) /\ k_mem s0 = k_mem (cleared ex_boot_syms s) /\
    i386_init (Ports0 := boot_ports) ex_bss ex_boot_syms ex_bt_tables 0xF0110100 2 s = Ok (None, s') /\
    session (kbd_typed (fmap u8)) (in_buf ex_bss) (flat_map entry_keys ex_entries)
      (boot_text (k_serial_exists s0) out ++ welcome_text ++ flat_map (entry_text ex_boot_syms) ex_entries) s0 s'.
Proof.
  apply (i386_init_spec (Ports0 := boot_ports) (fmap u8) (fun _ => 0) ex_bss ex_boot_syms ex_bt_tables 0xF0110100 ex_frames
    ex_entries (replicate 2000 blank) (ex_boot_kst ex_session_keys) (ex_boot_entered ex_session_keys));
    [apply ex_chain, ex_boot_stack|decided|apply ex_tables, ex_boot_stack|decided|decided|apply ex_frames_kernel|by vm_compute|by vm_compute|decided|decided| |
      repeat constructor].
  repeat (apply Forall_cons; split; [decided|]). constructor.
Defined.

Lemma kernel_safe_witness :
  match i386_init (Ports0 := boot_ports) ex_bss ex_boot_syms ex_bt_tables 0xF0110100 2 (ex_boot_kst ex_session_keys) with
  | Ok (r, s') => r = None /\ live s'
  | Err e => e = Fuel
  end.
Proof.
  apply (kernel_safe (Ports0 := boot_ports) ex_bss ex_boot_syms ex_bt_tables 0xF0110100 2 ex_frames
    (replicate 2000 blank) (ex_boot_kst ex_session_keys) (ex_boot_entered ex_session_keys));
    [apply ex_chain, ex_boot_stack|decided|apply ex_tables, ex_boot_stack|decided|decided|apply ex_frames_kernel].
Defined.
