(* ===== verification/System.v ===== *)
(** The whole system: from the BIOS to the monitor, without a fault.

    Poweron ends where [i386_init] is called; here its memory becomes the
    memory of the kernel's model.  The page tables map the first 4 MB of memory at
    KERNBASE, so the kernel sees [high] of the machine's memory; the view of it at 0,
    which is read-only, is left out.  The frames of the C functions are the
    compiler's, so what the boot stack holds is open. *)
From S2P Require Import Prelude Mem FormatSpec Mmu Flags Entrypgdir Machine ConsOut ConsIn X86 Cpu Asm Bootasm Entry Boot Startup Poweron.
From S2P Require Import Kdebug Console Keyboard Readline Monitor Panic Backtrace Safety Init.

(** * The kernel's view of memory *)

#[local] Instance add_inj k : Inj (=) (=) (Z.add k).
Proof. intros x y. lia. Qed.

Definition high (m : mem) : mem := kmap (Z.add KERNBASE) (filter (fun p => 0 <= p.1 < PTSIZE) m).

Lemma high_lookup m x :
  high m !! x = if decide (KERNBASE <= x < KERNBASE + PTSIZE) then m !! (x - KERNBASE) else None.
Proof.
  unfold high. replace x with (KERNBASE + (x - KERNBASE)) at 1 by lia. rewrite lookup_kmap by apply _.
  case_decide as Hx.
  - destruct (m !! (x - KERNBASE)) as [v|] eqn:E.
    + apply map_lookup_filter_Some. split; [exact E|]. cbn [fst]. lia.
    + apply map_lookup_filter_None. by left.
  - apply map_lookup_filter_None. right. cbn [fst]. intros v _. lia.
Qed.

(** It is the memory the processor reads and writes at these addresses. *)
Lemma high_read {D} `{!Board D} (s : pc D) la v :
  physical s false la = Ok (la - KERNBASE) -> KERNBASE <= la < KERNBASE + PTSIZE ->
  load8 (high (p_mem s)) (Addr la) = Ok v -> lin_read 1 la s = Ok ([v], s).
Proof.
  intros Hp Hl Hv. unfold lin_read, reads. cbn [physicals]. rewrite Hp. red_bind. cbn [load_each].
  unfold load8 in *. rewrite high_lookup, decide_True in Hv by exact Hl.
  destruct (p_mem s !! (la - KERNBASE)) as [w|]; [|done]. by injection Hv as ->.
Qed.

Lemma high_write {D} `{!Board D} (s : pc D) la v m' :
  physical s true la = Ok (la - KERNBASE) -> KERNBASE <= la < KERNBASE + PTSIZE ->
  store8 (high (p_mem s)) (Addr la) v = Ok m' ->
  exists s', lin_write la [v] s = Ok (tt, s') /\ high (p_mem s') = m' /\ p_cpu s' = p_cpu s /\ p_dev s' = p_dev s.
Proof.
  intros Hp Hl Hv. unfold store8 in Hv. rewrite high_lookup, decide_True in Hv by exact Hl.
  destruct (p_mem s !! (la - KERNBASE)) as [w|] eqn:E; [|done]. injection Hv as <-.
  eexists. split.
  - unfold lin_write. cbn [length physicals]. rewrite Hp. red_bind. cbn [store_each]. unfold store8. rewrite E. red_bind. reflexivity.
  - split; [|done]. apply map_eq. intros x. cbn [p_mem with_mem p_hw h_mem]. rewrite high_lookup.
    destruct (decide (x = la)) as [->|Hne].
    + by rewrite decide_True, !lookup_insert_eq by exact Hl.
    + rewrite (lookup_insert_ne _ la x), high_lookup by done. case_decide; [|done]. by rewrite lookup_insert_ne by lia.
Qed.

(** * Starting [i386_init] *)

(** The kernel's state in [s]: its memory is [high] of the machine's, except on the
    boot stack; its static variables are in the BSS, which is still to be
    cleared, and may have any value. *)
Inductive kernel_of {D} (top : Z) (s : pc D) : kst D -> Prop :=
| kernel_of_intro m l serial crt shift cons pstr :
    (forall x, ~ (top - KSTKSIZE <= x < top) -> m !! x = high (p_mem s) !! x) ->
    kernel_of top s (mkKst (mkHw m (p_dev s) l) serial crt shift cons pstr).

(** Where the linker puts what the kernel uses: the BSS, with the line buffer in
    it, in a segment; the string table of [t] in the image; these, the boot stack
    and the page tables do not overlap. *)
Record placed (image : Z -> Z) (sym : string -> Z) (pgtable buf : Z) (sy : ksyms) (t : stab_tables) (strs : list Z) : Prop := {
  pl_bss : exists i, 0 <= i < phnum image /\ KERNBASE + seg_pa image i <= sym_edata sy /\
    sym_end sy <= KERNBASE + (seg_pa image i + seg_memsz image i);
  pl_buf : sym_edata sy <= buf /\ buf + BUFLEN <= sym_end sy <= KERNBASE + PTSIZE;
  pl_strs : provides image (RELOC (t_stabstr t)) strs;
  pl_stabs : KERNBASE <= t_stabstr t /\ t_stabstr_end t = t_stabstr t + Z.of_nat (length strs) /\
    t_stabstr_end t <= KERNBASE + PTSIZE;
  pl_tables : forall m, bytes m (Addr (t_stabstr t)) strs -> tables_ok m t;
  pl_stack : KERNBASE + EXTPHYSMEM <= sym "bootstacktop"%string - KSTKSIZE /\ sym "bootstacktop"%string <= KERNBASE + PTSIZE;
  pl_apart : ForallOrdPairs (fun r q => disjoint r.1 r.2 q.1 q.2) [
    (sym_edata sy, sym_end sy); (t_stabstr t, t_stabstr_end t);
    (sym "bootstacktop"%string - KSTKSIZE, sym "bootstacktop"%string);
    (sym "entry_pgdir"%string, sym "entry_pgdir"%string + PGSIZE); (pgtable, pgtable + PGSIZE)] }.

Lemma cells_of n : forall l, Forall is_byte l -> length l = (2 * n)%nat ->
  exists cells, length cells = n /\ Forall cell_ok cells /\ words cells = l.
Proof.
  induction n as [|n IH]; intros l Hl Hlen; [by exists []; destruct l|].
  destruct l as [|a [|b l]]; [done|cbn in Hlen; lia|]. inversion Hl as [|?? Ha Hl']; subst. inversion Hl' as [|?? Hb Hl'']; subst.
  destruct (IH l Hl'') as (cells & <- & Hc & <-); [cbn in Hlen; lia|]. unfold is_byte in *.
  exists ((a + 256 * b) :: cells). split; [done|]. split; [constructor; [unfold cell_ok; lia|exact Hc]|].
  unfold words. cbn [flat_map le_split app]. do 2 f_equal; zlia.
Qed.

Section system.
Context {D : Type} `{!Ports D} `{!Board D} (image : Z -> Z) (sym : string -> Z) (pgtable buf : Z) (sy : ksyms) (t : stab_tables)
  (strs : list Z).
Hypothesis Hpl : placed image sym pgtable buf sy t strs.
Hypothesis Hhigh : forall i, 0 <= i < phnum image -> EXTPHYSMEM <= seg_pa image i.
Notation top := (sym "bootstacktop"%string).
Notation CP := (KERNBASE + CGA_BUF).

(** A byte of a segment, as the kernel sees it. *)
Lemma segment_seen s k i j :
  started image sym s -> kernel_of top s k -> 0 <= i < phnum image -> 0 <= j < seg_memsz image i ->
  KERNBASE + (seg_pa image i + j) < KERNBASE + PTSIZE ->
  ~ (top - KSTKSIZE <= KERNBASE + (seg_pa image i + j) < top) ->
  k_mem k !! (KERNBASE + (seg_pa image i + j)) = Some (image (seg_off image i + j)).
Proof using Hpl Hhigh.
  intros Hst [m l se c sh r ps Hm] Hi Hj Hlim Hns. pose proof (Hhigh i Hi) as Hlo. destruct (pl_stack _ _ _ _ _ _ _ Hpl) as [Ht1 Ht2].
  cbn [k_mem k_hw h_mem]. rewrite Hm by exact Hns. unfold EXTPHYSMEM, KSTKSIZE, PTSIZE, NPTENTRIES, PGSIZE, KERNBASE in *.
  rewrite high_lookup. unfold PTSIZE, NPTENTRIES, PGSIZE, KERNBASE. rewrite decide_True by lia.
  replace (0xF0000000 + (seg_pa image i + j) - 0xF0000000) with (seg_pa image i + j) by lia.
  apply (sd_image _ _ _ Hst); [exact Hi|exact Hj|].
  rewrite (RELOC_high top) by (unfold KERNBASE; lia). unfold KERNBASE. lia.
Qed.

(** The BSS and the display are memory. *)
Lemma kernel_entered s k :
  started image sym s -> kernel_of top s k -> mapped (p_mem s) CGA_BUF 4000 -> byte_mem (p_mem s) ->
  cursor_at CGA_BASE (p_dev s) < 2000 ->
  exists cells, entered buf sy k cells /\ bytes (p_mem s) (Addr CGA_BUF) (words cells).
Proof using Hpl Hhigh.
  intros Hst Hk Hd Hb Hcur. destruct Hpl as [(i & Hi & Hlo & Hhi) [Hbuf1 Hbuf2] _ _ _ [Ht1 Ht2] Hap].
  pose proof (Hhigh i Hi) as Hpa. inversion Hap as [|?? Hbss _]; subst.
  inversion Hbss as [|?? _ H1]; subst. inversion H1 as [|?? Hstk _]; subst. cbn [fst snd] in Hstk. unfold disjoint in Hstk. clear Hbss H1.
  assert (forall x, CP <= x < CP + 4000 -> k_mem k !! x = p_mem s !! (x - KERNBASE)) as Hdisp.
  { intros x Hx. inversion Hk as [m l se c sh r ps Hm]; subst. cbn [k_mem k_hw h_mem].
    unfold EXTPHYSMEM, KSTKSIZE, PGSIZE, KERNBASE, CGA_BUF in *. rewrite Hm by lia. rewrite high_lookup.
    unfold PTSIZE, NPTENTRIES, PGSIZE, KERNBASE. by rewrite decide_True by lia. }
  destruct (mapped_block_of (p_mem s) 4000 CGA_BUF Hb Hd) as (l & Hl & Hlb & Hbs).
  destruct (cells_of 2000 l Hlb) as (cells & Hc1 & Hc2 & Hc3); [by rewrite Hl|]. exists cells. split; [|by rewrite Hc3].
  assert (forall x, sym_edata sy <= x < sym_end sy -> is_Some (k_mem k !! x)) as Hmap.
  { intros x Hx. replace x with (KERNBASE + (seg_pa image i + (x - KERNBASE - seg_pa image i))) by lia.
    eexists. apply (segment_seen s); try assumption; lia. }
  split.
  - intros x Hx. apply Hmap. lia.
  - unfold EXTPHYSMEM, KERNBASE, PTSIZE, NPTENTRIES, PGSIZE, BUFLEN in *. lia.
  - right. unfold EXTPHYSMEM, KERNBASE, CGA_BUF in *. lia.
  - split; [exact Hc1|]. split; [exact Hc2|]. rewrite Hc3. rewrite bytes_lookup in Hbs |- *. intros j b Hj.
    pose proof (lookup_lt_Some _ _ _ Hj) as Hlt. rewrite Hdisp by lia.
    replace (CP + Z.of_nat j - KERNBASE) with (CGA_BUF + Z.of_nat j) by lia. by apply Hbs.
  - by inversion Hk; subst.
Qed.
End system.

(** * Two results on the system *)

Section whole.
Context {D : Type} `{!Ports D} `{!Board D} (image : Z -> Z) (sym : string -> Z) (pgtable buf : Z) (sy : ksyms) (t : stab_tables)
  (strs : list Z).
Hypothesis Hpl : placed image sym pgtable buf sy t strs.
Hypothesis Hhigh : forall i, 0 <= i < phnum image -> EXTPHYSMEM <= seg_pa image i.
Notation top := (sym "bootstacktop"%string).
Notation CP := (KERNBASE + CGA_BUF).

(** The string table is where the kernel looks for it. *)
Lemma tables_seen s k :
  started image sym s -> kernel_of top s k ->
  tables_ok (mem_outside (k_mem (cleared sy k)) CP 4000) t.
Proof using Hpl Hhigh.
  intros Hst Hk. apply (pl_tables _ _ _ _ _ _ _ Hpl).
  destruct Hpl as [_ [Hbuf1 Hbuf2] (i & Hi & Hlo & Hhi & Hl) (Hs1 & Hs2 & Hs3) _ [Ht1 Ht2] Hap].
  pose proof (Hhigh i Hi) as Hpa. inversion Hap as [|?? Hbss Hap']; subst. inversion Hap' as [|?? Hstr _]; subst.
  inversion Hbss as [|?? Hd1 _]; subst. inversion Hstr as [|?? Hd2 _]; subst. cbn [fst snd] in Hd1, Hd2. unfold disjoint in *.
  clear Hap Hap' Hbss Hstr. pose proof Hs3 as Hs3'. unfold EXTPHYSMEM, PTSIZE, NPTENTRIES, PGSIZE, KERNBASE, CGA_BUF in *.
  rewrite bytes_lookup. intros j b Hj. pose proof (lookup_lt_Some _ _ _ Hj) as Hlt.
  rewrite (RELOC_high (t_stabstr t)) in Hlo, Hhi, Hl by (unfold KERNBASE; lia). unfold KERNBASE in *.
  apply map_lookup_filter_Some. cbn [fst]. split; [|lia].
  rewrite cleared_lookup by (unfold BUFLEN in *; lia).
  rewrite <- Hl in Hj. unfold img in Hj. apply list_lookup_fmap_Some in Hj as (x & -> & Hx%lookup_seqZ).
  pose proof (segment_seen image sym pgtable buf sy t strs Hpl) as Hseen.
  replace (t_stabstr t + Z.of_nat j) with (KERNBASE + (seg_pa image i + (t_stabstr t - 0xF0000000 - seg_pa image i + Z.of_nat j)))
    by (unfold KERNBASE; lia).
  rewrite (Hseen Hhigh s k i _ Hst Hk Hi); unfold KERNBASE, PTSIZE, NPTENTRIES, PGSIZE in *; try lia. do 2 f_equal. lia.
Qed.

Lemma stabs_small : t_stabstr_end t - t_stabstr t < 1073741824 /\ 0 < t_stabstr t.
Proof using Hpl.
  destruct (pl_stabs _ _ _ _ _ _ _ Hpl) as (H1 & H2 & H3). unfold KERNBASE, PTSIZE, NPTENTRIES, PGSIZE in *. lia.
Qed.
End whole.

(** C1: the system is safe: started by the BIOS with a kernel on the disk, the machine
    reaches [i386_init], and from there, with well-formed frames on the boot stack
    and whatever the devices answer, the kernel never faults and never returns,
    however long it is watched. *)
Theorem system_safe {D} `{!Ports D} `{!Board D} waiting `{!Gate D waiting} image idle `{!Disk D image idle, !Wired D idle}
    shown `{!Beside D shown} bsizes bsym g sizes link sym pgtable buf sy t strs (s : pc D) :
  can_boot image idle bsizes bsym g sizes link sym pgtable s ->
  placed image sym pgtable buf sy t strs ->
  mapped (p_mem s) CGA_BUF 4000 -> byte_mem (p_mem s) ->
  shown (p_dev s) -> (forall d, shown d -> cursor_at CGA_BASE d < 2000) ->
  boots bsizes bsym sizes link sym s (fun s3 => forall k ebp fs lines,
    kernel_of (sym "bootstacktop"%string) s3 k ->
    chain (mem_outside (k_mem (cleared sy k)) (KERNBASE + CGA_BUF) 4000) ebp fs -> Z.of_nat (length fs) < 2 ^ 32 ->
    Forall (fun f => ULIM <= fr_eip f) fs ->
    match i386_init buf sy t ebp lines k with
    | Ok (r, k') => r = None /\ live k'
    | Err e => e = Fuel
    end).
Proof.
  intros Hs Hpl Hd Hb Hsh Hcur. pose proof (cb_high _ _ _ _ _ _ _ _ _ _ Hs) as Hhigh.
  destruct (boots_run waiting image idle shown bsizes bsym g sizes link sym pgtable s Hs Hsh) as (s1 & h & E1 & E2 & H).
  exists s1, h. split; [exact E1|]. split; [exact E2|]. intros s2 Hc. destruct (H s2 Hc) as (s3 & E3 & Hst & Hsh3 & Hsome & Hby).
  exists s3. split; [exact E3|]. intros k ebp fs lines Hk Hch Hl Hf.
  destruct (kernel_entered image sym pgtable buf sy t strs Hpl Hhigh s3 k Hst Hk) as (cells & He & _);
    [intros x Hx; by apply Hsome, Hd|by apply Hby|by apply Hcur|].
  destruct (stabs_small image sym pgtable buf sy t strs Hpl) as [Hs1 Hs2].
  apply (i386_init_safe buf sy t ebp lines fs cells k He Hch Hl); try assumption.
  by apply (tables_seen image sym pgtable buf sy t strs Hpl Hhigh s3 k).
Qed.

(** C2: the system works: with a keyboard, and a session typed on it, the machine
    started by the BIOS reaches [i386_init], greets, prints the backtrace of the
    frames on the boot stack and answers every line typed; it never returns. *)
Theorem system_serves {D} `{!Ports D} `{!Board D} waiting `{!Gate D waiting} image idle `{!Disk D image idle, !Wired D idle}
    codes lag `{!Keyboard D codes lag} shown ks `{!Beside D (fun d => shown d /\ codes d = ks)}
    bsizes bsym g sizes link sym pgtable buf sy t strs es (s : pc D) :
  can_boot image idle bsizes bsym g sizes link sym pgtable s ->
  placed image sym pgtable buf sy t strs ->
  mapped (p_mem s) CGA_BUF 4000 -> byte_mem (p_mem s) ->
  shown (p_dev s) -> (forall d, shown d -> cursor_at CGA_BASE d < 2000) ->
  let keys := flat_map entry_keys es in
  codes (p_dev s) = ks -> no_reboot no_mods ks = true -> meaning no_mods ks = keys -> Z.of_nat (length ks) < 2 ^ 31 ->
  Z.of_nat (length keys) <= 511 -> Forall (fun c => 0 < c < 256) keys -> Forall entry_ok es ->
  boots bsizes bsym sizes link sym s (fun s3 => forall k ebp fs,
    kernel_of (sym "bootstacktop"%string) s3 k ->
    chain (mem_outside (k_mem (cleared sy k)) (KERNBASE + CGA_BUF) 4000) ebp fs -> Z.of_nat (length fs) < 2 ^ 32 ->
    Forall (fun f => ULIM <= fr_eip f) fs ->
    exists cells, bytes (p_mem s3) (Addr CGA_BUF) (words cells) /\ init_session codes buf sy t ebp fs es cells k).
Proof.
  intros Hs Hpl Hd Hb Hsh Hcur keys Hks Hnr Hmean Hkl Hk511 Hchars Hes.
  pose proof (cb_high _ _ _ _ _ _ _ _ _ _ Hs) as Hhigh.
  destruct (boots_run waiting image idle (fun d => shown d /\ codes d = ks) bsizes bsym g sizes link sym pgtable s Hs (conj Hsh Hks))
    as (s1 & h & E1 & E2 & H).
  exists s1, h. split; [exact E1|]. split; [exact E2|]. intros s2 Hc.
  destruct (H s2 Hc) as (s3 & E3 & Hst & [Hsh3 Hks3] & Hsome & Hby).
  exists s3. split; [exact E3|]. intros k ebp fs Hk Hch Hl Hf.
  destruct (kernel_entered image sym pgtable buf sy t strs Hpl Hhigh s3 k Hst Hk) as (cells & He & Hcells);
    [intros x Hx; by apply Hsome, Hd|by apply Hby|by apply Hcur|].
  destruct (stabs_small image sym pgtable buf sy t strs Hpl) as [Hs1 Hs2].
  exists cells. split; [exact Hcells|].
  assert (codes (h_dev (k_hw k)) = ks) as Ek by (by inversion Hk; subst).
  apply (i386_init_session codes lag buf sy t ebp fs es cells k He Hch Hl); try assumption; try (by rewrite Ek).
  by apply (tables_seen image sym pgtable buf sy t strs Hpl Hhigh s3 k).
Qed.

(** * The machine of Poweron's example *)

Definition ex_sys_syms : ksyms := mkSyms 0x10000c 0xf010000c 0xF0102010 0xF0102010 0xF0102410.
Definition ex_sys_tables : stab_tables := mkTables [] 0xF0102000 0xF0102010.

Lemma ex_placed : placed ex_image entry_sym 0xF0101000 0xF0102010 ex_sys_syms ex_sys_tables (replicate 16 0x90).
Proof.
  assert (phnum ex_image = 1) as Hn by by vm_compute. assert (seg_pa ex_image 0 = 0x100000) as Hpa by by vm_compute.
  assert (seg_memsz ex_image 0 = 0x2410) as Hsz by by vm_compute. assert (seg_off ex_image 0 = 0x1000) as Hoff by by vm_compute.
  split.
  - exists 0. rewrite Hn, Hpa, Hsz. split_and!; (lia || by vm_compute).
  - decided.
  - exists 0. rewrite Hn, Hpa, Hsz, Hoff. split_and!; by vm_compute.
  - decided.
  - intros m Hm. split; [by vm_compute|by intros (s & E & _)|by vm_compute| |by constructor|by constructor].
    exists (replicate 15 0x90), 0x90. split; [exact Hm|]. split; [decided|by vm_compute].
  - decided.
  - repeat first [apply FOP_nil | apply FOP_cons | apply List.Forall_nil | apply Forall_cons; split];
      unfold disjoint; decided.
Qed.

Lemma ex_pc_bytes codes : byte_mem (p_mem (ex_with_codes codes)).
Proof.
  assert (forall ws, Forall is_byte (flat_map (le_split 4) ws)) as Hw by apply words_are_bytes.
  unfold p_mem, ex_with_codes, ex_pc_mem, ex_kernel_mem. cbn [p_hw h_mem].
  repeat (apply byte_mem_write; [|first [apply Forall_replicate; decided | decided]]). done.
Qed.

Lemma ex_display codes : mapped (p_mem (ex_with_codes codes)) CGA_BUF 4000.
Proof.
  unfold p_mem, ex_with_codes, ex_pc_mem. cbn [p_hw h_mem]. do 5 apply write_bytes_mapped. apply mapped_block.
  by rewrite length_replicate.
Qed.

Lemma ex_cursor (d : kbc * ide) : @cursor_at _ (@both_ports ide (ide_ports ex_image)) CGA_BASE d < 2000.
Proof. destruct d as [k [[|?] ? ? ? ? ?]]; by vm_compute. Qed.

Lemma system_safe_witness :
  let P := @both_ports ide (ide_ports ex_image) in
  @boots (kbc * ide) P both_board boot_sizes boot_sym entry_sizes 0xF0102000 entry_sym ex_pc (fun s3 =>
    match @i386_init (kbc * ide) P 0xF0102010 ex_sys_syms ex_sys_tables 0 1
      (mkKst (mkHw (high (p_mem s3)) (p_dev s3) []) true (mkCrt 1 2 3) 4 (mkRing [] 5 6) (Addr 7)) with
    | Ok (r, k) => r = None /\ live k
    | Err e => e = Fuel
    end).
Proof.
  intros P. pose proof (ide_disk ex_image ex_image_byte) as Hdk.
  destruct (system_safe (Ports0 := P) (Board0 := both_board) (fun d => kb_waiting d.1) (Gate0 := both_gate) ex_image (fun _ => True)
    (Disk0 := both_disk ex_image (fun _ => True)) (Wired0 := both_wired (fun _ => True)) (fun _ => True) boot_sizes boot_sym 0x7c4c
    entry_sizes 0xF0102000 entry_sym 0xF0101000 0xF0102010 ex_sys_syms ex_sys_tables (replicate 16 0x90) ex_pc
    (ex_can_boot []) ex_placed (ex_display []) (ex_pc_bytes []) Logic.I (fun d _ => ex_cursor d)) as (s1 & h & E1 & E2 & H3).
  exists s1, h. split; [exact E1|]. split; [exact E2|]. intros s2 Hc. destruct (H3 s2 Hc) as (s3 & E3 & H).
  exists s3. split; [exact E3|]. apply (H _ 0 [] 1%nat); [by constructor|constructor|done|constructor].
Defined.

(** ** With a keyboard *)

Definition kb_scan (d : kbc * ide) : list Z := u8 <$> kb_codes d.1.
Definition kb_wait (d : kbc * ide) : Z := Z.of_nat (Nat.min (kb_busy d.1) 3).

#[local] Instance ex_keyboard : @Keyboard (kbc * ide) (@both_ports ide (ide_ports ex_image)) kb_scan kb_wait.
Proof.
  split.
  - intros d. apply Forall_fmap, Forall_true. intros x. apply u8_range.
  - intros d. unfold kb_wait. lia.
  - intros port [[n w a ks] e] v d' E Hp. cbn [dev_in both_ports ide_ports fst snd] in E. unfold to_kbc, KBDATAP in *.
    rewrite (proj2 (Z.eqb_neq port 0x60)) in E by exact Hp. cbn [orb] in E.
    destruct (Z.eqb_spec port 0x64) as [->|Hs]; [|destruct (ide_in port e) as [u e']; by injection E as _ <-].
    cbn [dev_in kbc_ports kb_busy] in E. change (0x64 =? 0x64) with true in E. cbv iota in E.
    destruct (Nat.min n 3) as [|k] eqn:En; injection E as _ <-; [done|]. split; [done|]. unfold kb_wait. cbn [fst kb_busy]. lia.
  - intros [[n w a ks] e] v d' E. cbn [dev_in both_ports fst snd] in E. unfold KBSTATP in E.
    change (to_kbc 0x64) with true in E. cbv iota in E. cbn [dev_in kbc_ports kb_busy] in E.
    change (0x64 =? 0x64) with true in E. cbv iota in E.
    destruct (Nat.min n 3) as [|k] eqn:En; injection E as <- <-.
    + unfold kb_scan. cbn [fst kb_codes]. destruct ks; [by left|done].
    + right. unfold kb_wait. cbn [fst kb_busy]. lia.
  - intros [[n w a ks] e] v d' E Hks. cbn [dev_in both_ports fst snd] in E. unfold KBDATAP in E.
    change (to_kbc 0x60) with true in E. cbv iota in E. cbn in E. injection E as <- <-.
    unfold kb_scan in *. cbn [fst kb_codes] in *. by destruct ks.
  - intros port v [[n w a ks] e]. unfold kb_scan. cbn [dev_out both_ports fst snd]. destruct (to_kbc port); [|done].
    cbn [dev_out kbc_ports fst kb_busy kb_codes kb_waiting]. destruct n; [|done]. by destruct (port =? 0x64), ((port =? 0x60) && w).
  - intros [k e] v d' E. cbn [dev_in both_ports ide_ports fst snd] in E. change (to_kbc (COM1 + COM_LSR)) with false in E.
    cbv iota in E. destruct e as [m a b c f ws]. cbn [ide_in] in E.
    change (COM1 + COM_LSR =? 0x1F7) with false in E. by injection E as <- _.
Qed.

#[local] Instance ex_beside ks :
  @Beside (kbc * ide) (@both_ports ide (ide_ports ex_image)) (fun d => True /\ kb_scan d = ks).
Proof.
  pose proof ex_keyboard as Hk. split.
  - split.
    + intros d v d' [_ Hd] E. split; [done|]. rewrite <- Hd. by apply (@kb_in _ _ _ _ Hk _ _ _ _ E).
    + intros port v d _ [_ Hd]. split; [done|]. rewrite <- Hd. apply (@kb_out _ _ _ _ Hk).
  - intros d v d' [_ Hd] E. split; [done|]. rewrite <- Hd. by apply (@kb_in _ _ _ _ Hk _ _ _ _ E).
  - intros [k e] v d' [_ Hd] E. split; [done|]. rewrite <- Hd. cbn [dev_in32 both_ports fst snd] in E.
    destruct (dev_in32 0x1F0 e). by injection E as _ <-.
  - intros port v d _ [_ Hd]. split; [done|]. rewrite <- Hd. apply (@kb_out _ _ _ _ Hk).
  - intros v [k e] Hd. exact Hd.
Qed.

Lemma system_serves_witness :
  let P := @both_ports ide (ide_ports ex_image) in
  @boots (kbc * ide) P both_board boot_sizes boot_sym entry_sizes 0xF0102000 entry_sym (ex_with_codes ex_session_keys) (fun s3 =>
    exists cells, @init_session (kbc * ide) P kb_scan 0xF0102010 ex_sys_syms ex_sys_tables 0 [] ex_entries cells
      (mkKst (mkHw (high (p_mem s3)) (p_dev s3) []) true (mkCrt 1 2 3) 4 (mkRing [] 5 6) (Addr 7))).
Proof.
  intros P. pose proof (ide_disk ex_image ex_image_byte) as Hdk.
  assert (Forall (fun c => 0 < c < 256) (flat_map entry_keys ex_entries)) as Hchars by decided.
  assert (Forall entry_ok ex_entries) as Hes by (repeat constructor).
  destruct (system_serves (Ports0 := P) (Board0 := both_board) (fun d => kb_waiting d.1) (Gate0 := both_gate) ex_image (fun _ => True)
    (Disk0 := both_disk ex_image (fun _ => True)) (Wired0 := both_wired (fun _ => True)) kb_scan kb_wait (Keyboard0 := ex_keyboard)
    (fun _ => True) (u8 <$> ex_session_keys) (Beside0 := ex_beside (u8 <$> ex_session_keys)) boot_sizes boot_sym 0x7c4c
    entry_sizes 0xF0102000 entry_sym 0xF0101000 0xF0102010 ex_sys_syms ex_sys_tables (replicate 16 0x90) ex_entries
    (ex_with_codes ex_session_keys) (ex_can_boot _) ex_placed (ex_display _) (ex_pc_bytes _) Logic.I (fun d _ => ex_cursor d)
    eq_refl ltac:(by vm_compute) ltac:(by vm_compute) ltac:(by vm_compute) ltac:(by vm_compute) Hchars Hes)
    as (s1 & h & E1 & E2 & H3).
  exists s1, h. split; [exact E1|]. split; [exact E2|]. intros s2 Hc. destruct (H3 s2 Hc) as (s3 & E3 & H).
  exists s3. split; [exact E3|]. edestruct (H (mkKst (mkHw (high (p_mem s3)) (p_dev s3) []) true (mkCrt 1 2 3) 4 (mkRing [] 5 6) (Addr 7)) 0 [])
    as (cells & _ & Hi); [by constructor|constructor|done|constructor|]. by exists cells.
Defined.
